(* ===== verification/_CoqProject ===== *)
-Q . S2P
Prelude.v
Memory.v
CString.v
Process.v
Ipc.v
Ports.v
Block.v
FileSys.v
Store.v
Disk.v
Vga.v
Shell.v
Search.v
Net.v
Socket.v
Dns.v
Dhcp.v
Devices.v
Syscall.v
Http.v
Ui.v
Netcmd.v
Kernel.v
Quiet.v
Safety.v
Prompt.v
Texts.v
Session.v
Asm.v
Probe.v
