(* ===== verification/Prelude.v ===== *)
(** * VlsOs in Rocq

    A verification library for VlsOs, a small x86 kernel in C.

    ** What is modelled

    The repository is one program: [kmain] ([src/kernel/main.c]) brings the
    drivers and managers up in a fixed order and then runs the shell, whose
    commands call every other part.  Each C file of the program has its
    definitions here, under its own names; a file of this library is one
    component or a few that belong together.

    - [Prelude]: results and faults, the state monad, C arrays, machine integers,
      hints and tactics.  Shared by all.
    - [Memory] ([kernel/memory.c]): the bump allocator and the byte routines
      [memcpy], [memcmp], [memset].
    - [CString] ([libc/string.c]): the string routines, [atoi] and [itoa].
    - [Process] ([kernel/process.c]): process table, scheduler, tick.
    - [Ipc] ([kernel/ipc.c]): pipes of 32-bit words and message queues.
    - [Ports]: the class [Bus] of machines behind the port instructions of
      [kernel/interrupts.asm].
    - [Block]: the classes [BlockDev], [BlockSafe] and [BlockMedium], the promise of
      the disk driver to the file system.
    - [FileSys] ([kernel/filesystem.c]): FAT12, proved against [Block] only; [Store]
      is its abstract specification, named byte strings and sixteen descriptors, with the
      simulation.
    - [Disk] ([kernel/disk.c]): the ATA driver, over a bus; it gives the instances
      of [Block]: the safety promise over any bus, the delivery of sectors for a drive that follows the
      protocol (class [PioDrive]) and the addressing of the ATA standard ([StandardDrive]).
    - [Vga] ([kernel/vga.c]): the text console.
    - [Shell] ([shell/shell.c]): line editor, word splitting, command table, the
      five commands of the file.
    - [Search] ([utils/search.c]): the search engine.
    - [Net] ([net/net.c], [arp.c], [ip.c], [icmp.c], [udp.c], [tcp.c], [netdrv.c]):
      interfaces, byte order, checksum, packets, the driver stub.
    - [Socket], [Dns], [Dhcp] ([net/socket.c], [dns.c], [dhcp.c]): the socket table
      and the two servers over it.
    - [Devices] ([kernel/keyboard.c], [pit.c], [idt.c], and what the stubs of
      [interrupts.asm] hand to C): keyboard, timer, interrupt table and handlers.
    - [Syscall] ([utils/syscall.c]): the system calls over files, processes, console
      and keyboard.
    - [Http] ([net/http.c], [net/http_client.c]), [Ui] ([ui/ui.c]).
    - [Netcmd] ([net/netcmd.c] and [process_display_info]): the commands of the
      shell over [sys], the record of all component states.
    - [Kernel] ([kernel/main.c] and the loop of [shell_main]): start-up, the
      dispatch of commands, the panic.
    - [Asm] ([kernel/interrupts.asm], [boot/multiboot.asm]): the assembly code, run
      instruction by instruction over registers, memory and ports; [Ports] and [Devices] say what
      it comes to, and [Asm] proves that it does.
    - [Quiet], [Safety], [Prompt], [Texts], [Session], [Probe]: no code of their own, but the theorems about
      the whole: what the servers do on a system without an interface (the one
      [kmain] boots), the judgement [Safety.runs] that a command returns and keeps every
      component well, its rule for each of the 22 commands, the shell over any keys from
      the loader on, the screen text of [ls], [file], [pipe] and [disk read], and
      the screen of a session of [cat] lines over the files of a [Store], and how the probing of
      the drives at start-up decides whether there is such a store.

    ** How C becomes Rocq

    Integers are [Z]; where a C type is narrower, [u8], [u16], [u32] and [i32]
    write the wrap-around out.  A [char] is held as its byte and [schar] reads it
    as the signed value the comparisons see.  Arrays and heap blocks are lists of
    [Z] with the length C gives them; [rd] and [wr] fault outside.  Globals of a
    file are a record, passed through every function that uses them; a pointer
    into a table is an index.  Results are [res]: a value, or the fault
    [OutOfBounds], [DivByZero], [NullDeref] or [OutOfFuel].  Code over many globals
    uses the monad [M S A], and [zoom] runs a part of the state inside the whole.

    A local array that C leaves uninitialised is an argument of the definition,
    so a theorem speaks about every content it may have.  Reads of the heap
    before the first write see what [heap_ram] holds.  Output of the network code
    is a list of events; [Netcmd.replay] puts it on the screen.

    ** Loops and fuel

    Loops whose bound is an array or a counter are structural.  The others take
    fuel, and the definition gives enough itself: the FAT chain walk of
    [FileSys.fs_seek] has a turn for every cluster of the offset, a read a turn
    for every byte asked for, the label loops of [Dns] a turn for every byte of the
    packet, the header loops of [Http] a turn for every byte of the response.  The
    theorems that an operation returns [Ok] therefore contain its termination.
    Waiting loops of the hardware use the code's own timeouts.
    [Asm.run] takes fuel for the instructions, a unit each: twenty cover an interrupt from its entry
    to the [iret], four a port routine, seven the entry point up to its halt.
    Four loops wait for the outside and take fuel as an argument: the keyboard's
    poll (enough: the scan codes before the next character, and one), the
    system call that reads a line (the same), [cat] (a turn for every 256 bytes, and
    one) and [shell_main] (the keys still to come, and one).  In
    [Prompt.shell_never_faults] every command has more than 2^32 turns, which is enough for
    [cat] of any file, since a size has 32 bits.

    ** What the theorems show

    - Memory and strings: blocks of the allocator are disjoint and inside the
      heap; [itoa] and [atoi] are inverse but for the least integer.
    - Processes: no sequence of operations faults or breaks the table; the
      scheduler takes the next READY slot in ring order, so nobody starves.
    - Ipc: pipes are bounded FIFO channels, queues bounded byte streams, for every
      sequence of calls (refinements of two abstract modules).
    - Files: over any device no sequence of calls leaves a buffer, with seeks up to 2^32 - 512
      (beyond, [FileSys.seek_never_ends]); on a disk that
      reads back, mounting and then any calls refine the abstract store, up to
      seeks inside a sector ([FileSys.seek_overshoots]); the FAT entries and the directory search
      are what they should be.  The driver delivers the sectors at the address it writes; that
      address has the LBA bit clear, so on a standard drive the driver's sector [n] is the drive's sector [n - 1],
      and only the first track can be had ([Disk.chs_drive_misreads], the instance [Disk.disk_medium]).
    - Console: it refines a terminal with one linear position.
    - Shell and kernel: a typed line is edited, split into words and dispatched to
      the command it names; [kmain] brings the components it starts into the states their
      theorems start from, leaves network, servers and user interface alone, and halts with a panic in the two cases it should.
    - The whole system: from the loader to the prompt, and with every line of
      at most 254 keys typed there, nothing faults and every component stays well
      formed, unless the root directory names a file of more than 2^32 - 512 bytes
      ([FileSys.read_position_wraps]); a line one key longer is the defect of [Shell.full_line_unterminated].
    - Commands: [ls], [file], [pipe], [disk read], [ping], [ps], [ifconfig] composed with the components
      they use, with the text they leave on the screen; and for [cat] the whole way
      from the loader, over the probing and the mounting, and from the keys typed to the bytes of the file
      ([Probe.start_to_files]), where two drives answer and the volume lies in the first track of the
      master, one sector early.  On a machine with a single drive that way ends at the
      probing ([Probe.lone_disk_never_mounts]).
    - Network: an ARP cache is a map, a datagram sent is the datagram received (with any
      checksum, which nobody verifies), sockets refine a finite map under the seven calls that keep to
      open ones, DNS names and replies and DHCP replies, where there is one, have
      the form a client reads, the HTTP response fits its buffer and the response
      parser finds status, length and body.
    - Interrupts and system calls: the table holds the gates it should, the calls
      never fault and change only [eax].
    - Assembly: an interrupt through any stub gives the interrupted code its general registers and its
      stack back ([Asm.interrupts_transparent]; the data segment registers depend on what the C handler leaves in
      its argument, [Asm.argument_reused]), the port routines do what [Ports] says, [start]
      passes the loader's two registers to [kmain] and never returns ([Asm.start_runs]; with [Kernel.kmain]
      behind it [Asm.start_panics]).
    Lemmas beside them state the defects found: what the code does where it
    does not do what it means to.

    ** What is not modelled

    The instructions [cli], [sti], [hlt] and [lidt] inside C functions; the linker script and the build files,
    which place code and data; [paging_init], [paging_enable] and the [*_init] functions
    with empty bodies; declarations that nothing uses.  The C code is modelled as C, not as the
    compiler's output: where assembly code calls it, [Asm] takes it as a parameter under the calling
    convention, which lets it overwrite its argument words.  Interrupts do not preempt C code in the model: the handlers are
    operations of their own, which [Asm.interrupts_transparent] shows to give the processor back as it
    was but for the data segments, and between two turns of the shell the tick count
    stays (in the code it stays as well, see [Devices.timer_interrupt_lost]; what a timer interrupt does
    on a PC whose interrupt controller nobody has set up is [Asm.tick_on_vector_8]).  The
    hardware behind the ports is a parameter with the class [Bus]; the classes
    [Keyboard], [PioDrive], [StandardDrive] (a drive that reads addresses as the ATA standard does), [IdentifyDrive] (two drives on the channel) and [LoneMaster] (one) state documented behaviour of
    the devices, and each has an instance.  In [Kernel] the ATA ports and the other ports are two machines,
    since no port belongs to both.

    ** What would come next

    The screen text of [disk info] and [wget]; the commands with an interface up, where
    [Netcmd.ifconfig_in_three_bytes] bounds what can hold; the system calls and the
    shell over one state. *)

From Stdlib Require Export ZArith Lia.
From Stdlib Require Import Ascii String.
From stdpp Require Export base tactics numbers option list.

#[global] Open Scope Z_scope.

(** ** Results: what a C expression can do besides returning *)

(** The ways in which a run of the C code leaves the behaviour the language
    (or the processor) defines for it.  [OutOfFuel] is the verdict on a loop
    that was cut off; a theorem that an operation returns [Ok] therefore
    contains its termination. *)
Inductive fault :=
| OutOfBounds
| DivByZero
| NullDeref
| OutOfFuel.

Inductive res (A : Type) :=
| Ok (a : A)
| Err (e : fault).
Arguments Ok {A} a.
Arguments Err {A} e.

#[global] Instance fault_eq_dec : EqDecision fault.
Proof. solve_decision. Defined.

#[global] Instance res_eq_dec `{EqDecision A} : EqDecision (res A).
Proof. solve_decision. Defined.

#[global] Instance res_ret : MRet res := @Ok.
#[global] Instance res_bind : MBind res := fun A B f m =>
  match m with Ok a => f a | Err e => Err e end.

(** Computations over a state [S]: the shape of every C routine that reads or
    writes globals, devices or the heap through a pointer. *)
Definition M (S A : Type) : Type := S -> res (A * S).

#[global] Instance M_ret {S} : MRet (M S) := fun A a s => Ok (a, s).
#[global] Instance M_bind {S} : MBind (M S) := fun A B f m s =>
  match m s with Ok (a, s') => f a s' | Err e => Err e end.

Definition getS {S} : M S S := fun s => Ok (s, s).
Definition putS {S} (s : S) : M S unit := fun _ => Ok (tt, s).
Definition liftR {S A} (r : res A) : M S A := fun s =>
  match r with Ok a => Ok (a, s) | Err e => Err e end.

Lemma res_bind_Ok {A B} (m : res A) (f : A -> res B) b :
  (m ≫= f) = Ok b <-> exists a, m = Ok a /\ f a = Ok b.
Proof.
  destruct m; cbn; split; [eauto | by intros (? & [= ->] & ?) | done | by intros (? & ? & ?)].
Qed.

(** One step of a run whose first part is known.  Rewriting with these, and not
    letting [cbn] find the step by conversion, keeps the kernel's work linear. *)
Lemma bind_ret {A B} (a : A) (f : A -> res B) : (Ok a ≫= f) = f a.
Proof. reflexivity. Qed.

Lemma bind_err {A B} e (f : A -> res B) : (Err e ≫= f) = Err e.
Proof. reflexivity. Qed.

Lemma bind_assoc {A B C} (m : res A) (f : A -> res B) (g : B -> res C) :
  ((m ≫= f) ≫= g) = (m ≫= fun a => f a ≫= g).
Proof. by destruct m. Qed.

(** Rewriting in the rest of a run. *)
#[global] Instance res_bind_proper {A B} :
  Proper (pointwise_relation A (=) ==> (=) ==> (=)) (@mbind res _ A B).
Proof. intros f g Hfg m ? <-. destruct m; [apply Hfg|done]. Qed.

Lemma M_bind_Ok {S A B} (m : M S A) (f : A -> M S B) s b s' :
  (m ≫= f) s = Ok (b, s') <->
  exists a s1, m s = Ok (a, s1) /\ f a s1 = Ok (b, s').
Proof.
  unfold mbind, M_bind. destruct (m s) as [[a s1]|e]; split;
    [eauto | by intros (? & ? & [= -> ->] & ?) | done | by intros (? & ? & ? & ?)].
Qed.

Lemma M_bind_run {S A B} (m : M S A) (f : A -> M S B) s a s1 :
  m s = Ok (a, s1) -> (m ≫= f) s = f a s1.
Proof. unfold mbind, M_bind. by intros ->. Qed.

(** ** Arrays: lists indexed by [Z], as C indexes them *)

Section Arrays.
Context {A : Type}.
Implicit Types (l : list A) (i n off : Z).

Definition zlen l : Z := Z.of_nat (length l).

Definition zget l i : option A :=
  if 0 <=? i then l !! Z.to_nat i else None.

(** [a[i]] as an rvalue. *)
Definition rd l i : res A :=
  match zget l i with Some a => Ok a | None => Err OutOfBounds end.

(** [a[i] = x]. *)
Definition wr l i (x : A) : res (list A) :=
  if (0 <=? i) && (i <? zlen l) then Ok (<[Z.to_nat i := x]> l)
  else Err OutOfBounds.

(** The [n] cells from [off] on. *)
Definition slice l off n : list A :=
  take (Z.to_nat n) (drop (Z.to_nat off) l).

Lemma zlen_nonneg l : 0 <= zlen l.
Proof. unfold zlen. lia. Qed.

Lemma zlen_app l1 l2 : zlen (l1 ++ l2) = zlen l1 + zlen l2.
Proof. unfold zlen. rewrite length_app. lia. Qed.

Lemma zlen_insert l k x : zlen (<[k := x]> l) = zlen l.
Proof. unfold zlen. by rewrite length_insert. Qed.

Lemma zlen_slice l off n :
  0 <= off -> 0 <= n -> off + n <= zlen l -> zlen (slice l off n) = n.
Proof. unfold zlen, slice. rewrite length_take, length_drop. lia. Qed.

Lemma zget_Some l i x :
  zget l i = Some x <-> 0 <= i /\ l !! Z.to_nat i = Some x.
Proof.
  unfold zget. destruct (0 <=? i) eqn:E; split; [intros; split; [lia|done] | | done | lia].
  by intros [_ ?].
Qed.

Lemma zget_lt l i x : zget l i = Some x -> 0 <= i < zlen l.
Proof.
  rewrite zget_Some. intros [? H%lookup_lt_Some]. unfold zlen. lia.
Qed.

Lemma rd_Ok l i x : rd l i = Ok x <-> zget l i = Some x.
Proof. unfold rd. destruct (zget l i); split; by intros [= ->]. Qed.

Lemma zget_Ok_iff l i : 0 <= i < zlen l <-> is_Some (zget l i).
Proof.
  split.
  - intros Hi. unfold zget. replace (0 <=? i) with true by lia.
    apply lookup_lt_is_Some. unfold zlen in Hi. lia.
  - intros [x Hx]. by eapply zget_lt.
Qed.

Lemma zget_insert_eq l i x :
  0 <= i < zlen l -> zget (<[Z.to_nat i := x]> l) i = Some x.
Proof.
  intros Hi. apply zget_Some. split; [lia|].
  apply list_lookup_insert_eq. unfold zlen in Hi. lia.
Qed.

Lemma zget_insert_ne l i j x :
  0 <= i -> i <> j -> zget (<[Z.to_nat i := x]> l) j = zget l j.
Proof.
  intros Hi Hne. unfold zget. destruct (0 <=? j) eqn:E; [|done].
  apply list_lookup_insert_ne. lia.
Qed.

Lemma rd_total l i : 0 <= i < zlen l -> exists x, rd l i = Ok x.
Proof.
  intros Hi. setoid_rewrite rd_Ok. setoid_rewrite zget_Some.
  destruct (lookup_lt_is_Some_2 l (Z.to_nat i)) as [x Hx];
    [unfold zlen in Hi; lia | exists x; split; [lia|done]].
Qed.

Lemma wr_in l i x :
  0 <= i < zlen l -> wr l i x = Ok (<[Z.to_nat i := x]> l).
Proof.
  intros Hi. unfold wr.
  by replace ((0 <=? i) && (i <? zlen l)) with true by lia.
Qed.

(** The cell after a prefix, the shape loops over arrays leave. *)
Lemma rd_mid l1 x l2 : rd (l1 ++ x :: l2) (zlen l1) = Ok x.
Proof.
  apply rd_Ok, zget_Some. unfold zlen. split; [lia|].
  rewrite lookup_app_r by lia. by rewrite Nat2Z.id, Nat.sub_diag.
Qed.

Lemma wr_mid l1 x l2 y : wr (l1 ++ x :: l2) (zlen l1) y = Ok (l1 ++ y :: l2).
Proof.
  rewrite wr_in by (rewrite zlen_app; unfold zlen; cbn; lia). f_equal.
  unfold zlen. rewrite Nat2Z.id, insert_app_r_alt by lia. by rewrite Nat.sub_diag.
Qed.

Lemma wr_Ok l i x l' :
  wr l i x = Ok l' <-> 0 <= i < zlen l /\ l' = <[Z.to_nat i := x]> l.
Proof.
  unfold wr. destruct ((0 <=? i) && (i <? zlen l)) eqn:E; split; intros H.
  - split; [lia | by injection H].
  - by destruct H as [_ ->].
  - done.
  - lia.
Qed.
Lemma slice_add l a n m : 0 <= a -> 0 <= n -> 0 <= m ->
  slice l a (n + m) = slice l a n ++ slice l (a + n) m.
Proof.
  intros. unfold slice. rewrite !Z2Nat.inj_add, <- drop_drop by done.
  by rewrite take_take_drop.
Qed.

(** [l] with [xs] written over it from [off] on. *)
Definition splice l off (xs : list A) : list A :=
  take (Z.to_nat off) l ++ xs ++ drop (Z.to_nat (off + zlen xs)) l.

Lemma zlen_splice l off xs : 0 <= off -> off + zlen xs <= zlen l -> zlen (splice l off xs) = zlen l.
Proof.
  intros. unfold splice, zlen in *. rewrite !length_app, length_take, length_drop. lia.
Qed.

Lemma splice_nil l off : 0 <= off -> splice l off [] = l.
Proof.
  intros. unfold splice. change (zlen []) with 0. rewrite Z.add_0_r. cbn. apply take_drop.
Qed.

Lemma splice_splice l off xs ys : 0 <= off -> off + zlen xs + zlen ys <= zlen l ->
  splice (splice l off xs) (off + zlen xs) ys = splice l off (xs ++ ys).
Proof.
  intros H0 H1. unfold splice, zlen in *.
  assert (Hk : length (take (Z.to_nat off) l) = Z.to_nat off) by (rewrite length_take; lia).
  rewrite (app_assoc _ xs). rewrite take_app_length' by (rewrite length_app; lia).
  rewrite <- !app_assoc. do 3 f_equal.
  rewrite app_assoc, drop_app_ge by (rewrite length_app; lia).
  rewrite drop_drop, !length_app. f_equal. lia.
Qed.

Lemma wr_splice1 l i x : 0 <= i < zlen l -> wr l i x = Ok (splice l i [x]).
Proof.
  intros Hi. rewrite wr_in by done. f_equal. unfold splice. change (zlen [x]) with 1.
  rewrite insert_take_drop by (unfold zlen in Hi; lia). do 3 f_equal. lia.
Qed.

Lemma slice_one l i x : rd l i = Ok x -> slice l i 1 = [x].
Proof.
  intros [_ Hx]%rd_Ok%zget_Some. unfold slice. by rewrite (drop_S l x _ Hx).
Qed.

(** A part of the array behind what was written. *)
Lemma slice_splice_after l off xs a n : 0 <= off -> off + zlen xs <= zlen l -> off + zlen xs <= a ->
  slice (splice l off xs) a n = slice l a n.
Proof.
  intros H0 H1 Ha. unfold slice. f_equal. unfold splice, zlen in *.
  rewrite app_assoc, drop_app_ge by (rewrite length_app, length_take; lia).
  rewrite drop_drop, length_app, length_take. f_equal. lia.
Qed.

(** Reading back what was written, from anywhere inside it. *)
Lemma slice_splice_in l off xs : 0 <= off -> off + zlen xs <= zlen l ->
  slice (splice l off xs) off (zlen xs) = xs.
Proof.
  intros H0 H1. unfold slice, splice, zlen in *.
  rewrite drop_app_length' by (rewrite length_take; lia). by rewrite Nat2Z.id, take_app_length.
Qed.

(** A part of the array that a write does not meet. *)
Lemma slice_insert_out l a n i x : 0 <= a -> 0 <= n -> 0 <= i -> (i < a \/ a + n <= i) ->
  slice (<[Z.to_nat i := x]> l) a n = slice l a n.
Proof.
  intros Ha Hn Hi0 Hi. unfold slice. apply list_eq. intros k.
  destruct (decide (k < Z.to_nat n)%nat) as [Hk|Hk].
  - rewrite !lookup_take_lt, !lookup_drop by done. apply list_lookup_insert_ne. lia.
  - rewrite !lookup_take_ge by lia. done.
Qed.
End Arrays.

(** ** Counting the cells that satisfy a predicate *)

Section Count.
Context {A : Type} (P : A -> Prop) `{!forall x, Decision (P x)}.

Definition countP (l : list A) : Z := Z.of_nat (length (filter P l)).

Lemma countP_cons x l : countP (x :: l) = (if decide (P x) then 1 else 0) + countP l.
Proof. unfold countP. rewrite filter_cons. case_decide; cbn [length]; lia. Qed.

Lemma countP_app l1 l2 : countP (l1 ++ l2) = countP l1 + countP l2.
Proof. unfold countP. rewrite filter_app, length_app. lia. Qed.

Lemma countP_bounds l : 0 <= countP l <= zlen l.
Proof. unfold countP, zlen. pose proof (length_filter P l). lia. Qed.

Lemma countP_insert l i x y :
  l !! i = Some y ->
  countP (<[i := x]> l) =
    countP l - (if decide (P y) then 1 else 0) + (if decide (P x) then 1 else 0).
Proof.
  intros Hy. rewrite insert_take_drop by (by eapply lookup_lt_Some).
  rewrite <- (take_drop_middle l i y Hy) at 3.
  rewrite !countP_app, !countP_cons. lia.
Qed.

Lemma countP_ext l1 l2 :
  Forall2 (fun x y => P x <-> P y) l1 l2 -> countP l1 = countP l2.
Proof.
  induction 1 as [|x y l1 l2 Hxy _ IH]; [done|].
  rewrite !countP_cons, IH. repeat case_decide; tauto || lia.
Qed.
End Count.

(** ** Machine integers *)

Definition u8 (x : Z) : Z := x mod 2 ^ 8.
Definition u16 (x : Z) : Z := x mod 2 ^ 16.
Definition u32 (x : Z) : Z := x mod 2 ^ 32.
(** A value stored to an [int] or an [int32_t] on the target. *)
Definition i32 (x : Z) : Z := (x + 2 ^ 31) mod 2 ^ 32 - 2 ^ 31.
(** A byte read through [char*]: [char] is signed on the target. *)
Definition schar (x : Z) : Z := if x <? 128 then x else x - 256.

Definition is_u8 (x : Z) : Prop := 0 <= x < 2 ^ 8.
Definition is_u16 (x : Z) : Prop := 0 <= x < 2 ^ 16.
Definition is_u32 (x : Z) : Prop := 0 <= x < 2 ^ 32.
Definition is_i32 (x : Z) : Prop := - 2 ^ 31 <= x < 2 ^ 31.

Lemma u8_range x : is_u8 (u8 x).
Proof. apply Z.mod_pos_bound. lia. Qed.
Lemma u16_range x : is_u16 (u16 x).
Proof. apply Z.mod_pos_bound. lia. Qed.
Lemma u32_range x : is_u32 (u32 x).
Proof. apply Z.mod_pos_bound. lia. Qed.

Lemma u8_id x : is_u8 x -> u8 x = x.
Proof. apply Z.mod_small. Qed.
Lemma u16_id x : is_u16 x -> u16 x = x.
Proof. apply Z.mod_small. Qed.
Lemma u32_id x : is_u32 x -> u32 x = x.
Proof. apply Z.mod_small. Qed.
Lemma i32_id x : is_i32 x -> i32 x = x.
Proof. unfold is_i32, i32. intros H. rewrite Z.mod_small; lia. Qed.

Create HintDb word.
Create Rewrite HintDb word.
#[export] Hint Resolve u8_range u16_range u32_range : word.
#[export] Hint Rewrite @u8_id @u16_id @u32_id @i32_id
  using (unfold is_u8, is_u16, is_u32, is_i32 in *; lia) : word.

(** ** Bit operations as arithmetic *)

(** A disjoint [or] is a sum, a mask of low bits a remainder. *)
Lemma lor_shiftl a b k : 0 <= k -> 0 <= a < 2 ^ k -> Z.lor a (Z.shiftl b k) = a + b * 2 ^ k.
Proof.
  intros Hk Ha. rewrite <- Z.shiftl_mul_pow2 by done.
  assert (Hd : Z.land a (Z.shiftl b k) = 0).
  { apply Z.bits_inj'. intros n Hn. rewrite Z.land_spec, Z.bits_0.
    destruct (Z.lt_ge_cases n k) as [Hl|Hl].
    - rewrite Z.shiftl_spec_low by done. apply andb_false_r.
    - rewrite <- (Z.mod_small a (2 ^ k)), Z.mod_pow2_bits_high by lia. done. }
  rewrite <- Z.lxor_lor by done. symmetry. by apply Z.add_nocarry_lxor.
Qed.

Lemma land_mask a k m : 0 <= k -> m = 2 ^ k - 1 -> Z.land a m = a mod 2 ^ k.
Proof.
  intros Hk ->. rewrite <- Z.land_ones by done. f_equal. rewrite Z.ones_equiv. lia.
Qed.

(** ** Words in byte arrays *)

(** A [uint16_t] and a [uint32_t] read at [l + off] on the little-endian target. *)
Definition rd16 (l : list Z) (off : Z) : res Z :=
  a ← rd l off; b ← rd l (off + 1); Ok (Z.lor a (Z.shiftl b 8)).

Definition rd32 (l : list Z) (off : Z) : res Z :=
  a ← rd16 l off; b ← rd16 l (off + 2); Ok (Z.lor a (Z.shiftl b 16)).

Definition wr16 (l : list Z) (off v : Z) : res (list Z) :=
  l ← wr l off (Z.land v 0xFF); wr l (off + 1) (Z.land (Z.shiftr v 8) 0xFF).

Definition wr32 (l : list Z) (off v : Z) : res (list Z) :=
  l ← wr16 l off (Z.land v 0xFFFF); wr16 l (off + 2) (Z.land (Z.shiftr v 16) 0xFFFF).

(** A field of [n] bytes, read and written as a whole (a C structure copied by
    assignment). *)
Definition rd_field (l : list Z) (off n : Z) : res (list Z) :=
  if (0 <=? off) && (off + n <=? zlen l) then Ok (slice l off n) else Err OutOfBounds.

Definition wr_field (l : list Z) (off : Z) (xs : list Z) : res (list Z) :=
  if (0 <=? off) && (off + zlen xs <=? zlen l) then Ok (splice l off xs) else Err OutOfBounds.

Lemma rd_field_in l off n : 0 <= off -> off + n <= zlen l -> rd_field l off n = Ok (slice l off n).
Proof.
  intros. unfold rd_field. rewrite (proj2 (Z.leb_le _ _)), (proj2 (Z.leb_le _ _)) by done. done.
Qed.

Lemma wr_field_in l off xs : 0 <= off -> off + zlen xs <= zlen l -> wr_field l off xs = Ok (splice l off xs).
Proof.
  intros. unfold wr_field. rewrite (proj2 (Z.leb_le _ _)), (proj2 (Z.leb_le _ _)) by done. done.
Qed.

Lemma rd16_spec l off a b :
  zget l off = Some a -> zget l (off + 1) = Some b -> is_u8 a ->
  rd16 l off = Ok (a + 256 * b).
Proof.
  intros Ha Hb Hu. unfold rd16. rewrite (proj2 (rd_Ok _ _ _) Ha), (proj2 (rd_Ok _ _ _) Hb).
  rewrite !bind_ret, lor_shiftl by (unfold is_u8 in Hu; lia). f_equal. lia.
Qed.

Lemma wr16_spec l off v :
  0 <= off -> off + 1 < zlen l ->
  wr16 l off v = Ok (<[Z.to_nat (off + 1) := (v / 256) mod 256]> (<[Z.to_nat off := v mod 256]> l)).
Proof.
  intros H0 H1. unfold wr16. rewrite wr_in by lia. rewrite bind_ret, wr_in by (rewrite zlen_insert; lia).
  rewrite !(land_mask _ 8) by done. by rewrite Z.shiftr_div_pow2 by done.
Qed.

(** [l] split around two cells. *)
Lemma split_two {A} (l : list A) off : 0 <= off -> off + 1 < zlen l ->
  exists pre x y post, l = pre ++ x :: y :: post /\ length pre = Z.to_nat off.
Proof.
  intros H0 H1. unfold zlen in H1.
  destruct (drop (Z.to_nat off) l) as [|x [|y post]] eqn:E;
    apply (f_equal length) in E as El; rewrite length_drop in El; cbn in El; try lia.
  exists (take (Z.to_nat off) l), x, y, post. rewrite <- E, take_drop, length_take. split; [done|lia].
Qed.

Lemma wr16_splice l off v : 0 <= off -> off + 1 < zlen l ->
  wr16 l off v = Ok (splice l off [v mod 256; (v / 256) mod 256]).
Proof.
  intros H0 H1. rewrite wr16_spec by done.
  destruct (split_two l off H0 H1) as (pre & x & y & post & -> & Hp). f_equal.
  unfold splice. change (zlen [_; _]) with 2.
  rewrite !Z2Nat.inj_add, <- Hp by lia. rewrite insert_app_r_alt by lia. rewrite Nat.sub_diag. cbn [list_insert insert].
  rewrite insert_app_r_alt by lia. replace (length pre + Z.to_nat 1 - length pre)%nat with 1%nat by lia.
  rewrite take_app_length. f_equal. cbn. do 2 f_equal.
  rewrite drop_app_add'; [done|]. done.
Qed.

(** Consecutive stores [out[o++] = x]. *)
Fixpoint put_all (xs : list Z) (out : list Z) (o : Z) : res (list Z) :=
  match xs with [] => Ok out | x :: xs => out ← wr out o x; put_all xs out (o + 1) end.

Lemma put_all_spec xs : forall out o, 0 <= o -> o + zlen xs <= zlen out -> put_all xs out o = Ok (splice out o xs).
Proof.
  induction xs as [|x xs IH]; intros out o Ho Hl; cbn [put_all]; [by rewrite splice_nil|].
  assert (H1 : zlen (x :: xs) = 1 + zlen xs) by (unfold zlen; cbn [length]; lia). rewrite H1 in Hl.
  pose proof (zlen_nonneg xs). assert (Hone : zlen [x] = 1) by done.
  rewrite wr_splice1 by lia. rewrite bind_ret, IH by (rewrite ?zlen_splice; rewrite ?Hone; lia).
  replace (o + 1) with (o + zlen [x]) by lia. by rewrite splice_splice by (rewrite ?Hone; lia).
Qed.

(** A part of the array before what was written. *)
Lemma slice_head {A} (l : list A) i n x : rd l i = Ok x -> 0 <= i -> 0 < n ->
  slice l i n = x :: slice l (i + 1) (n - 1).
Proof.
  intros Hx Hi Hn. replace n with (1 + (n - 1)) at 1 by lia.
  rewrite slice_add by lia. by rewrite (slice_one _ _ _ Hx).
Qed.

Lemma slice_empty {A} (l : list A) i n : n <= 0 -> slice l i n = [].
Proof. intros. unfold slice. replace (Z.to_nat n) with O by lia. apply take_0. Qed.

Lemma rd_app_mid {A} (pre : list A) x l : rd (pre ++ x :: l) (zlen pre) = Ok x.
Proof. apply rd_Ok, zget_Some. split; [apply zlen_nonneg|]. unfold zlen. by rewrite Nat2Z.id, list_lookup_middle. Qed.

Lemma slice_splice_before {A} (l : list A) off xs a n : 0 <= a -> 0 <= n -> a + n <= off -> off + zlen xs <= zlen l ->
  slice (splice l off xs) a n = slice l a n.
Proof.
  intros. unfold slice, splice, zlen in *. rewrite drop_app_le by (rewrite length_take; lia).
  rewrite take_app_le by (rewrite length_drop, length_take; lia).
  rewrite skipn_firstn_comm, take_take. f_equal. lia.
Qed.

Lemma slice_slice {A} (l : list A) m a n : 0 <= a -> 0 <= n -> a + n <= m -> slice (slice l 0 m) a n = slice l a n.
Proof.
  intros. unfold slice. cbn [Z.to_nat]. rewrite drop_0, !take_drop_commute, take_take. do 2 f_equal. lia.
Qed.

Lemma slice_mid {A} (l1 x l2 : list A) n : zlen x = n -> slice (l1 ++ x ++ l2) (zlen l1) n = x.
Proof. intros <-. unfold slice, zlen. by rewrite !Nat2Z.id, drop_app_length, take_app_length. Qed.

Lemma rd_field_mid l1 x l2 off n : zlen l1 = off -> zlen x = n -> rd_field (l1 ++ x ++ l2) off n = Ok x.
Proof.
  intros <- Hn. pose proof (zlen_nonneg l1). pose proof (zlen_nonneg l2).
  rewrite rd_field_in by (rewrite ?zlen_app; lia). by rewrite slice_mid.
Qed.

(** The bytes of a string literal. *)
Fixpoint chars (s : string) : list Z :=
  match s with
  | EmptyString => []
  | String c r => Z.of_N (N_of_ascii c) :: chars r
  end.

(** A string literal as the array it is. *)
Definition lit (s : string) : list Z := chars s ++ [0].

(** A computation on a part of the state. *)
Definition zoom {S T A} (get : S -> T) (put : T -> S -> S) (m : M T A) : M S A := fun s =>
  match m (get s) with Ok (a, t) => Ok (a, put t s) | Err e => Err e end.

Lemma zoom_run {S T A} (get : S -> T) (put : T -> S -> S) (m : M T A) s a t :
  m (get s) = Ok (a, t) -> zoom get put m s = Ok (a, put t s).
Proof. unfold zoom. by intros ->. Qed.

(** Running a sequence of state operations one by one. *)
Lemma M_run {S A B} (m : M S A) (f : A -> M S B) s a s1 r :
  m s = Ok (a, s1) -> f a s1 = r -> (m ≫= f) s = r.
Proof. intros Hm <-. by apply M_bind_run. Qed.

Lemma lift_run {S A B} (m : res A) (f : A -> M S B) s a r :
  m = Ok a -> f a s = r -> (liftR m ≫= f) s = r.
Proof. intros -> <-. done. Qed.

(** ** Tactics *)

(** Open the binds of a run that is known to have succeeded. *)
Ltac inv_res :=
  repeat match goal with
  | H : (_ ≫= _) = Ok _ |- _ => apply res_bind_Ok in H; destruct H as (? & ? & ?)
  | H : (_ ≫= _) _ = Ok (_, _) |- _ => apply M_bind_Ok in H; destruct H as (? & ? & ? & ?)
  | H : Ok _ = Ok _ |- _ => injection H as ?; subst
  | H : Err _ = Ok _ |- _ => discriminate H
  | H : mret _ = Ok _ |- _ => unfold mret, res_ret in H; injection H as ?; subst
  end.

(** Carry out the binds whose first part has become a value. *)
Ltac step := repeat (rewrite bind_ret; cbv beta iota).

(** Split on the C condition the goal branches on. *)
Ltac case_if :=
  match goal with
  | |- context [if ?b then _ else _] => destruct b eqn:?
  end.
