(* ===== verification/Memory.v ===== *)
(** * Memory: the bump allocator of src/src/kernel/memory.c

    [heap] is the pair of file-level variables [heap] and [heap_ptr]; the
    byte routines [memcpy], [memcmp] and [memset] work on objects given as
    lists of bytes, a pointer into an object being the list of the bytes from
    there to its end. *)

From S2P Require Import Prelude.

Definition HEAP_START : Z := 0x200000.
Definition HEAP_SIZE : Z := 0x100000.
Definition HEAP_END : Z := HEAP_START + HEAP_SIZE.

Definition NULL : Z := 0.

(** [heap_ram] is what the RAM of the heap area holds before anything is
    written to it: the contents a fresh block is seen with. *)
Record heap := Heap {
  heap_ptr : Z;
  heap_ram : Z -> Z
}.

Definition memory_init (h : heap) : heap :=
  {| heap_ptr := HEAP_START; heap_ram := heap_ram h |}.

(** [heap_ptr + size] is an address computation of the 32-bit target. *)
Definition malloc (size : Z) (h : heap) : Z * heap :=
  if HEAP_END <=? u32 (heap_ptr h + size) then (NULL, h)
  else (heap_ptr h,
        {| heap_ptr := u32 (heap_ptr h + size); heap_ram := heap_ram h |}).

Definition free (ptr : Z) (h : heap) : heap := h.

Definition vmalloc (size : Z) (h : heap) : Z * heap := malloc size h.
Definition vfree (ptr : Z) (h : heap) : heap := free ptr h.
Definition virt_to_phys (virt_addr : Z) : Z := virt_addr.
Definition phys_to_virt (phys_addr : Z) : Z := phys_addr.

(** The bytes of a block that [malloc] has just returned. *)
Definition fresh_block (ptr size : Z) (h : heap) : list Z :=
  (fun k => heap_ram h (ptr + k)) <$> seqZ 0 size.

(** ** Byte routines *)

(** [memcpy(dest, src, n)]: ascending, one byte at a time. *)
Fixpoint memcpy (dest src : list Z) (n : nat) {struct n} : res (list Z) :=
  match n with
  | O => Ok dest
  | S n' =>
      match src, dest with
      | b :: src', _ :: dest' => rest ← memcpy dest' src' n'; Ok (b :: rest)
      | _, _ => Err OutOfBounds
      end
  end.

Fixpoint memcmp (s1 s2 : list Z) (n : nat) {struct n} : res Z :=
  match n with
  | O => Ok 0
  | S n' =>
      match s1, s2 with
      | a :: s1', b :: s2' => if a =? b then memcmp s1' s2' n' else Ok (a - b)
      | _, _ => Err OutOfBounds
      end
  end.

Fixpoint memset (s : list Z) (c : Z) (n : nat) {struct n} : res (list Z) :=
  match n with
  | O => Ok s
  | S n' =>
      match s with
      | _ :: s' => rest ← memset s' c n'; Ok (u8 c :: rest)
      | [] => Err OutOfBounds
      end
  end.

(** [memcpy(dest + doff, src + soff, n)] seen from the start of [dest]. *)
Definition memcpy_at (dest : list Z) (doff : Z) (src : list Z) (soff n : Z) : res (list Z) :=
  if (0 <=? doff) && (doff <=? zlen dest) && (0 <=? soff) && (soff <=? zlen src) then
    tl ← memcpy (drop (Z.to_nat doff) dest) (drop (Z.to_nat soff) src) (Z.to_nat n);
    Ok (take (Z.to_nat doff) dest ++ tl)
  else Err OutOfBounds.

Definition memset_at (dest : list Z) (doff c n : Z) : res (list Z) :=
  if (0 <=? doff) && (doff <=? zlen dest) then
    tl ← memset (drop (Z.to_nat doff) dest) c (Z.to_nat n);
    Ok (take (Z.to_nat doff) dest ++ tl)
  else Err OutOfBounds.

(** ** Lemmas on the byte routines *)

Lemma memcpy_spec n : forall dest src,
  (n <= length dest)%nat -> (n <= length src)%nat ->
  memcpy dest src n = Ok (take n src ++ drop n dest).
Proof.
  induction n as [|n IH]; intros dest src Hd Hs; [done|].
  destruct src as [|b src], dest as [|d dest]; cbn in *; try lia.
  rewrite IH by lia. done.
Qed.

Lemma memcpy_fault n : forall dest src,
  (length dest < n)%nat \/ (length src < n)%nat ->
  memcpy dest src n = Err OutOfBounds.
Proof.
  induction n as [|n IH]; intros dest src H; [lia|].
  destruct src as [|b src], dest as [|d dest]; cbn in *; try done.
  rewrite IH by lia. done.
Qed.

Lemma memcmp_spec n : forall s1 s2,
  (n <= length s1)%nat -> (n <= length s2)%nat ->
  exists r, memcmp s1 s2 n = Ok r /\ (r = 0 <-> take n s1 = take n s2).
Proof.
  induction n as [|n IH]; intros s1 s2 H1 H2; [by exists 0|].
  destruct s1 as [|a s1], s2 as [|b s2]; cbn in *; try lia.
  destruct (Z.eqb_spec a b) as [->|Hne].
  - destruct (IH s1 s2) as (r & -> & Hr); [lia..|]. exists r; split; [done|].
    rewrite Hr. split; [by intros -> | by intros [= ->]].
  - exists (a - b). split; [done|]. split; [lia | intros [= ? ?]; lia].
Qed.

Lemma memset_spec n c : forall s,
  (n <= length s)%nat ->
  memset s c n = Ok (replicate n (u8 c) ++ drop n s).
Proof.
  induction n as [|n IH]; intros s Hs; [done|].
  destruct s as [|d s]; cbn in *; [lia|]. rewrite IH by lia. done.
Qed.

Lemma memcpy_at_spec dest doff src soff n :
  0 <= doff -> 0 <= soff -> 0 <= n ->
  doff + n <= zlen dest -> soff + n <= zlen src ->
  memcpy_at dest doff src soff n =
    Ok (take (Z.to_nat doff) dest ++ slice src soff n
        ++ drop (Z.to_nat (doff + n)) dest).
Proof.
  unfold memcpy_at, slice, zlen. intros.
  replace ((0 <=? doff) && _ && _ && _) with true by lia.
  rewrite memcpy_spec by (rewrite length_drop; lia).
  cbn. rewrite drop_drop. do 3 f_equal. f_equal. lia.
Qed.

Lemma memcpy_at_splice dest doff src soff n :
  0 <= doff -> 0 <= soff -> 0 <= n ->
  doff + n <= zlen dest -> soff + n <= zlen src ->
  memcpy_at dest doff src soff n = Ok (splice dest doff (slice src soff n)).
Proof.
  intros. rewrite memcpy_at_spec by done. unfold splice. by rewrite zlen_slice.
Qed.

Lemma memcpy_length n : forall dest src d,
  memcpy dest src n = Ok d -> length d = length dest.
Proof.
  intros dest src d H.
  destruct (le_lt_dec n (length dest)); [destruct (le_lt_dec n (length src))|].
  - rewrite memcpy_spec in H by done. injection H as <-.
    rewrite length_app, length_take, length_drop. lia.
  - rewrite memcpy_fault in H by (by right). done.
  - rewrite memcpy_fault in H by (by left). done.
Qed.

(** A copy leaves the length of its destination alone, or runs out of bounds. *)
Lemma memcpy_at_cases dest doff src soff n :
  (exists d, memcpy_at dest doff src soff n = Ok d /\ length d = length dest) \/
  memcpy_at dest doff src soff n = Err OutOfBounds.
Proof.
  unfold memcpy_at. case_if; [|by right].
  destruct (memcpy _ _ _) as [d|e] eqn:E.
  - left. eexists. split; [reflexivity|]. apply memcpy_length in E.
    rewrite length_app, E, length_take, length_drop. unfold zlen in *. lia.
  - right. rewrite bind_err.
    destruct (le_lt_dec (Z.to_nat n) (length (drop (Z.to_nat doff) dest)));
      [destruct (le_lt_dec (Z.to_nat n) (length (drop (Z.to_nat soff) src)))|].
    + rewrite memcpy_spec in E by done. done.
    + rewrite memcpy_fault in E by (by right). by injection E as <-.
    + rewrite memcpy_fault in E by (by left). by injection E as <-.
Qed.

Lemma memcpy_at_fault dest doff src soff n :
  0 <= doff -> zlen dest < doff + n -> memcpy_at dest doff src soff n = Err OutOfBounds.
Proof.
  intros Hd Hn. unfold memcpy_at. case_if; [|done].
  rewrite memcpy_fault; [done|]. left. rewrite length_drop. unfold zlen in *. lia.
Qed.

(** ** The allocator *)

(** The heap pointer stays between the two ends of the heap. *)
Definition heap_wf (h : heap) : Prop := HEAP_START <= heap_ptr h < HEAP_END.

(** The largest request for which [heap_ptr + size] cannot pass the top of
    the address space: 4 GiB minus the end of the heap. *)
Definition MALLOC_SAFE : Z := 2 ^ 32 - HEAP_END.

(** A request list served in order: the blocks [(address, size)] handed out,
    failed requests giving [NULL]. *)
Fixpoint malloc_all (sizes : list Z) (h : heap) : list (Z * Z) * heap :=
  match sizes with
  | [] => ([], h)
  | n :: rest =>
      let '(p, h1) := malloc n h in
      let '(bs, h2) := malloc_all rest h1 in
      ((p, n) :: bs, h2)
  end.

Definition granted (bs : list (Z * Z)) : list (Z * Z) :=
  filter (fun b => b.1 <> NULL) bs.

Lemma granted_null n bs : granted ((NULL, n) :: bs) = granted bs.
Proof. done. Qed.

Lemma granted_cons p n bs :
  p <> NULL -> granted ((p, n) :: bs) = (p, n) :: granted bs.
Proof. intros. unfold granted. by rewrite filter_cons_True. Qed.

Lemma memory_init_wf h : heap_wf (memory_init h).
Proof. unfold heap_wf, memory_init, HEAP_END, HEAP_START, HEAP_SIZE; cbn; lia. Qed.

Lemma malloc_ok size h :
  heap_wf h -> 0 <= size <= MALLOC_SAFE ->
  heap_ptr h + size < HEAP_END ->
  malloc size h = (heap_ptr h, {| heap_ptr := heap_ptr h + size; heap_ram := heap_ram h |}).
Proof.
  unfold heap_wf, malloc, MALLOC_SAFE, HEAP_END, HEAP_START, HEAP_SIZE, u32. intros.
  rewrite Z.mod_small by lia. by case_if; [lia|].
Qed.

Lemma malloc_full size h :
  heap_wf h -> 0 <= size <= MALLOC_SAFE ->
  HEAP_END <= heap_ptr h + size -> malloc size h = (NULL, h).
Proof.
  unfold heap_wf, malloc, MALLOC_SAFE, HEAP_END, HEAP_START, HEAP_SIZE, u32. intros.
  destruct (Z.eq_dec (heap_ptr h + size) (2 ^ 32)) as [E|E]; [lia|].
  rewrite Z.mod_small by lia. by case_if; [|lia].
Qed.

(** One request, both outcomes. *)
Lemma malloc_cases size h :
  heap_wf h -> 0 <= size <= MALLOC_SAFE ->
  (malloc size h = (NULL, h) /\ HEAP_END <= heap_ptr h + size) \/
  (malloc size h = (heap_ptr h, {| heap_ptr := heap_ptr h + size; heap_ram := heap_ram h |})
   /\ heap_ptr h + size < HEAP_END).
Proof.
  intros Hwf Hs. destruct (Z_lt_le_dec (heap_ptr h + size) HEAP_END).
  - right. split; [by apply malloc_ok | done].
  - left. split; [by apply malloc_full | done].
Qed.

Lemma malloc_wf size h :
  heap_wf h -> 0 <= size <= MALLOC_SAFE -> heap_wf (malloc size h).2.
Proof.
  intros Hwf Hs. destruct (malloc_cases size h Hwf Hs) as [[-> ?]|[-> ?]]; [done|].
  unfold heap_wf in *; cbn; lia.
Qed.

Lemma fresh_block_length ptr size h : 0 <= size -> zlen (fresh_block ptr size h) = size.
Proof. intros. unfold zlen, fresh_block. rewrite length_fmap, length_seqZ. lia. Qed.

(** Everything a request list is granted lies between the heap pointer before
    and after it, in increasing order, and accounts for the difference. *)
Lemma malloc_all_inv sizes : forall h bs h',
  heap_wf h -> Forall (fun n => 0 <= n <= MALLOC_SAFE) sizes ->
  malloc_all sizes h = (bs, h') ->
  heap_wf h' /\ heap_ptr h' = heap_ptr h + foldr Z.add 0 (granted bs).*2 /\
  Forall (fun b => heap_ptr h <= b.1 /\ 0 <= b.2 /\ b.1 + b.2 <= heap_ptr h') (granted bs) /\
  (forall i j b1 b2, (i < j)%nat -> granted bs !! i = Some b1 ->
     granted bs !! j = Some b2 -> b1.1 + b1.2 <= b2.1) /\
  heap_ptr h <= heap_ptr h'.
Proof.
  induction sizes as [|n rest IH]; intros h bs h' Hwf Hs E; cbn in E.
  { injection E as <- <-. cbn. split_and!; [done|lia|constructor|done|lia]. }
  apply Forall_cons in Hs as [Hn Hs].
  destruct (malloc_cases n h Hwf Hn) as [[Em Hf]|[Em Hf]]; rewrite Em in E.
  - destruct (malloc_all rest h) as [bs1 h1] eqn:Er. injection E as <- <-.
    rewrite granted_null. by apply (IH _ _ _ Hwf Hs Er).
  - destruct (malloc_all rest _) as [bs1 h1] eqn:Er. injection E as <- <-.
    apply IH in Er as (?&Hp&HF&HS&?); [|unfold heap_wf in *; cbn; lia|done].
    rewrite granted_cons
      by (unfold heap_wf, HEAP_START, NULL in *; lia).
    cbn in *. split_and!; [done|lia| | |lia].
    + constructor; cbn; [lia|]. eapply Forall_impl; [exact HF|]. cbn. lia.
    + intros [|i] [|j] b1 b2 Hij H1 H2; try lia; cbn in *.
      * injection H1 as <-. cbn.
        eapply Forall_lookup_1 in H2; [|exact HF]. cbn in H2. lia.
      * apply (HS i j); [lia|done..].
Qed.

(** ** Properties *)

(** C22.  Any sequence of [malloc] calls whose sizes stay below 4 GiB minus
    the end of the heap hands out blocks that all lie inside the heap area and
    follow one another without overlap, and the heap pointer advances by exactly
    the bytes granted: a refused request leaves the allocator as it was. *)
Theorem malloc_blocks_disjoint sizes h bs h' :
  heap_wf h -> Forall (fun n => 0 <= n <= MALLOC_SAFE) sizes ->
  malloc_all sizes h = (bs, h') ->
  Forall (fun b => HEAP_START <= b.1 /\ b.1 + b.2 < HEAP_END) (granted bs) /\
  (forall i j b1 b2, (i < j)%nat -> granted bs !! i = Some b1 ->
     granted bs !! j = Some b2 -> b1.1 + b1.2 <= b2.1) /\
  heap_ptr h' = heap_ptr h + foldr Z.add 0 (granted bs).*2.
Proof.
  intros Hwf Hs E. destruct (malloc_all_inv _ _ _ _ Hwf Hs E) as (Hw'&?&HF&?&?).
  split_and!; [|done..]. eapply Forall_impl; [exact HF|].
  unfold heap_wf in *. cbn. lia.
Qed.

Lemma malloc_blocks_disjoint_witness :
  exists bs h', malloc_all [1500; 4608; 2000000; 7168] (Heap HEAP_START (fun _ => 0)) = (bs, h') /\
  granted bs = [(HEAP_START, 1500); (HEAP_START + 1500, 4608); (HEAP_START + 6108, 7168)] /\
  heap_ptr h' = HEAP_START + 13276.
Proof.
  eexists _, _. split; [reflexivity|]. split; [reflexivity|].
  destruct (malloc_blocks_disjoint [1500; 4608; 2000000; 7168] (Heap HEAP_START (fun _ => 0))
    _ _ ltac:(split; vm_compute; congruence)
    ltac:(repeat constructor; vm_compute; congruence) eq_refl) as (_ & _ & ->).
  reflexivity.
Defined.

(** Past that size the address computation wraps: every request that
    carries the heap pointer over 4 GiB succeeds, and moves the pointer to a
    lower address than it had, so that later blocks overlap earlier ones and
    the memory below the heap. *)
Lemma malloc_wraps size h :
  heap_wf h -> 2 ^ 32 - heap_ptr h <= size < 2 ^ 32 ->
  malloc size h =
    (heap_ptr h, {| heap_ptr := heap_ptr h + size - 2 ^ 32; heap_ram := heap_ram h |}) /\
  heap_ptr (malloc size h).2 < heap_ptr h.
Proof.
  unfold heap_wf, HEAP_END, HEAP_START, HEAP_SIZE. intros Hwf Hs.
  assert (E : u32 (heap_ptr h + size) = heap_ptr h + size - 2 ^ 32)
    by (unfold u32; symmetry; apply Z.mod_unique with 1; lia).
  unfold malloc, HEAP_END, HEAP_START, HEAP_SIZE. rewrite E.
  case_if; [lia|]. cbn. split; [done|lia].
Qed.

Lemma malloc_wraps_witness :
  malloc (2 ^ 32 - 0x100000) (Heap HEAP_START (fun _ => 0)) =
    (HEAP_START, Heap 0x100000 (fun _ => 0)).
Proof.
  apply (malloc_wraps (2 ^ 32 - 0x100000) (Heap HEAP_START (fun _ => 0)));
    vm_compute; split; congruence.
Defined.
