(* ===== verification/CString.v ===== *)
(** * CString: the C library of src/src/libc/string.c

    A [const char*] is the list of the bytes (0..255) from where it points to
    the end of the object it points into; a string is a prefix of it without a
    zero byte, then a zero byte.  Running off the end of the object is
    [Err OutOfBounds].  A returned pointer is an offset into the argument. *)

From S2P Require Import Prelude.

(** [s] as the C string literal with these characters; [text] forgets the
    terminator. *)
Definition nul_free (s : list Z) : Prop := Forall (fun c => is_u8 c /\ c <> 0) s.

(** The object that holds the string [s] and then [r]. *)
Definition cstr (s r : list Z) : list Z := s ++ 0 :: r.

Fixpoint strlen (str : list Z) : res Z :=
  match str with
  | [] => Err OutOfBounds
  | c :: rest => if c =? 0 then Ok 0 else n ← strlen rest; Ok (1 + n)
  end.

Fixpoint strcmp (s1 s2 : list Z) {struct s1} : res Z :=
  match s1, s2 with
  | c1 :: t1, c2 :: t2 =>
      if negb (c1 =? 0) && (c1 =? c2) then strcmp t1 t2
      else Ok (schar c1 - schar c2)
  | _, _ => Err OutOfBounds
  end.

Fixpoint strncmp (s1 s2 : list Z) (n : nat) {struct n} : res Z :=
  match n with
  | O => Ok 0
  | S n' =>
      match s1, s2 with
      | c1 :: t1, c2 :: t2 =>
          if negb (c1 =? c2) then Ok (schar c1 - schar c2)
          else if c1 =? 0 then Ok 0 else strncmp t1 t2 n'
      | _, _ => Err OutOfBounds
      end
  end.

(** [strcpy] returns the address of the terminator it wrote: the offset, with
    the new contents of [dest]. *)
Fixpoint strcpy (dest src : list Z) {struct src} : res (Z * list Z) :=
  match src, dest with
  | c :: src', _ :: dest' =>
      if c =? 0 then Ok (0, 0 :: dest')
      else '(k, d) ← strcpy dest' src'; Ok (1 + k, c :: d)
  | _, _ => Err OutOfBounds
  end.

Fixpoint strncpy (dest src : list Z) (n : nat) {struct n} : res (list Z) :=
  match n with
  | O => Ok dest
  | S n' =>
      match src, dest with
      | c :: src', _ :: dest' =>
          if c =? 0 then
            (* the second loop: zeros up to n; src is not advanced *)
            d ← strncpy dest' src n'; Ok (0 :: d)
          else d ← strncpy dest' src' n'; Ok (c :: d)
      | _, _ => Err OutOfBounds
      end
  end.

Fixpoint strcat (dest src : list Z) {struct dest} : res (Z * list Z) :=
  match dest with
  | [] => Err OutOfBounds
  | c :: dest' =>
      if c =? 0 then strcpy dest src
      else '(k, d) ← strcat dest' src; Ok (1 + k, c :: d)
  end.

(** [strchr]: [None] is the null pointer. *)
Fixpoint strchr (s : list Z) (c : Z) : res (option Z) :=
  match s with
  | [] => Err OutOfBounds
  | x :: rest =>
      if x =? 0 then Ok None
      else if schar x =? schar (u8 c) then Ok (Some 0)
      else r ← strchr rest c; Ok (option_map (Z.add 1) r)
  end.

Definition isupper (c : Z) : bool := (65 <=? c) && (c <=? 90).
Definition islower (c : Z) : bool := (97 <=? c) && (c <=? 122).
Definition isalpha (c : Z) : bool := islower c || isupper c.
Definition isdigit (c : Z) : bool := (48 <=? c) && (c <=? 57).
Definition isalnum (c : Z) : bool := isalpha c || isdigit c.
Definition isspace (c : Z) : bool :=
  (c =? 32) || (c =? 9) || (c =? 10) || (c =? 13) || (c =? 12) || (c =? 11).
Definition toupper (c : Z) : Z := if islower c then c - 32 else c.
Definition tolower (c : Z) : Z := if isupper c then c + 32 else c.

(** ** atoi *)

Fixpoint atoi_spaces (str : list Z) : res (list Z) :=
  match str with
  | [] => Err OutOfBounds
  | c :: rest => if isspace (schar c) then atoi_spaces rest else Ok str
  end.

Fixpoint atoi_digits (str : list Z) (result : Z) : res Z :=
  match str with
  | [] => Err OutOfBounds
  | c :: rest =>
      if isdigit (schar c) then atoi_digits rest (i32 (result * 10 + (schar c - 48)))
      else Ok result
  end.

Definition atoi (str : list Z) : res Z :=
  str ← atoi_spaces str;
  match str with
  | [] => Err OutOfBounds
  | c :: rest =>
      let '(sign, str) := if c =? 45 then (-1, rest)
                          else if c =? 43 then (1, rest) else (1, str) in
      result ← atoi_digits str 0;
      Ok (i32 (result * sign))
  end.

(** ** itoa *)

(** [while (value > 0) buffer[len++] = ...]: the digits of [value], least
    significant first, pushed on [buffer]; 33 is the size of [buffer]. *)
Fixpoint itoa_loop (fuel : nat) (value base : Z) (buffer : list Z) : res (list Z) :=
  if 0 <? value then
    match fuel with
    | O => Err OutOfFuel
    | S f =>
        let digit := Z.rem value base in
        let ch := u8 (if digit <? 10 then 48 + digit else 97 + digit - 10) in
        if zlen buffer <? 33 then itoa_loop f (Z.quot value base) base (buffer ++ [ch])
        else Err OutOfBounds
    end
  else Ok buffer.

(** [*ptr++ = x] for each [x] of [xs], from offset [off] of [str]. *)
Fixpoint put_bytes (str : list Z) (off : Z) (xs : list Z) : res (list Z) :=
  match xs with
  | [] => Ok str
  | x :: xs' => str ← wr str off x; put_bytes str (off + 1) xs'
  end.

(** The new contents of [str]; the returned pointer is [str] itself.  [start]
    is assigned and never read. *)
Definition itoa (value : Z) (str : list Z) (base : Z) : res (list Z) :=
  if (base <? 2) || (36 <? base) then Ok str else
  '(str, ptr, value) ←
    (if value <? 0 then str ← put_bytes str 0 [45]; Ok (str, 1, i32 (- value))
     else Ok (str, 0, value));
  '(str, ptr) ←
    (if value =? 0 then str ← put_bytes str ptr [48]; Ok (str, ptr + 1)
     else
       buffer ← itoa_loop 32 value base [];
       str ← put_bytes str ptr (rev buffer);
       Ok (str, ptr + zlen buffer));
  wr str ptr 0.

(** ** Lemmas: scanning and copying *)

Lemma nul_free_app s t : nul_free (s ++ t) <-> nul_free s /\ nul_free t.
Proof. apply Forall_app. Qed.

Lemma strlen_cstr s r : nul_free s -> strlen (cstr s r) = Ok (zlen s).
Proof.
  induction 1 as [|c s [_ Hc] _ IH]; [done|].
  cbn. destruct (Z.eqb_spec c 0); [done|].
  unfold cstr in *. rewrite IH. cbn. unfold zlen. cbn [length]. f_equal. lia.
Qed.

Lemma schar_inj a b : is_u8 a -> is_u8 b -> schar a = schar b -> a = b.
Proof. unfold is_u8, schar. destruct (a <? 128) eqn:?, (b <? 128) eqn:?; lia. Qed.

Lemma schar_0 a : is_u8 a -> schar a = 0 -> a = 0.
Proof. intros ? ?. apply schar_inj; [done | done | done]. Qed.

Lemma schar_ascii c : 0 <= c < 128 -> schar c = c.
Proof. unfold schar. intros. by case_if; [|lia]. Qed.

Lemma strcmp_cstr s1 : forall s2 r1 r2, nul_free s1 -> nul_free s2 ->
  exists k, strcmp (cstr s1 r1) (cstr s2 r2) = Ok k /\ (k = 0 <-> s1 = s2).
Proof.
  induction s1 as [|c1 s1 IH]; intros [|c2 s2] r1 r2 H1 H2; cbn.
  - by exists 0.
  - exists (0 - schar c2). split; [done|]. apply Forall_cons in H2 as [[Hu2 Hz2] _].
    split; [|done]. intros. exfalso. pose proof (schar_0 c2). naive_solver lia.
  - apply Forall_cons in H1 as [[Hu1 Hz1] _].
    destruct (Z.eqb_spec c1 0); [done|]. cbn.
    destruct (Z.eqb_spec c1 0); [done|].
    exists (schar c1 - 0). split; [done|].
    split; [|done]. intros. exfalso. pose proof (schar_0 c1). naive_solver lia.
  - apply Forall_cons in H1 as [[Hu1 Hz1] H1]. apply Forall_cons in H2 as [[Hu2 Hz2] H2].
    destruct (Z.eqb_spec c1 0); [done|]. cbn.
    destruct (Z.eqb_spec c1 c2) as [->|Hne].
    + destruct (IH s2 r1 r2) as (k & Hk & Hiff); [done..|].
      exists k. split; [done|]. rewrite Hiff. split; [by intros -> | by intros [= ->]].
    + exists (schar c1 - schar c2). split; [done|]. split; [|by intros [= ? ?]].
      intros. exfalso. apply Hne. apply schar_inj; [done..|lia].
Qed.

Lemma strcpy_cstr s : forall d r, nul_free s -> (length s < length d)%nat ->
  strcpy d (cstr s r) = Ok (zlen s, s ++ 0 :: drop (S (length s)) d).
Proof.
  induction s as [|c s IH]; intros [|x d] r Hs Hl; cbn in *; try lia.
  - done.
  - apply Forall_cons in Hs as [[_ Hc] Hs]. destruct (Z.eqb_spec c 0); [done|].
    unfold cstr in *. rewrite IH by (done || lia). cbn. unfold zlen. cbn [length].
    do 2 f_equal. lia.
Qed.

Lemma strcat_cstr s : forall r t r', nul_free s -> nul_free t ->
  (length t < S (length r))%nat ->
  strcat (cstr s r) (cstr t r') =
    Ok (zlen s + zlen t, s ++ t ++ 0 :: drop (length t) r).
Proof.
  induction s as [|c s IH]; intros r t r' Hs Ht Hl; cbn.
  - rewrite strcpy_cstr by (done || (cbn; lia)). done.
  - apply Forall_cons in Hs as [[_ Hc] Hs]. destruct (Z.eqb_spec c 0); [done|].
    unfold cstr in *. rewrite IH by done. cbn. unfold zlen. cbn [length].
    do 2 f_equal. lia.
Qed.

Lemma strncpy_zeros n : forall d r, (n <= length d)%nat ->
  strncpy d (0 :: r) n = Ok (replicate n 0 ++ drop n d).
Proof.
  induction n as [|n IH]; intros [|x d] r Hl; cbn in *; try done; [lia|].
  rewrite IH by lia. done.
Qed.

Lemma strncpy_cstr n : forall s d r, nul_free s -> (n <= length d)%nat ->
  strncpy d (cstr s r) n =
    Ok (take n s ++ replicate (n - length s) 0 ++ drop n d).
Proof.
  induction n as [|n IH]; intros [|c s] d r Hs Hl; try done.
  - change (cstr [] r) with (0 :: r). rewrite strncpy_zeros by done. by rewrite Nat.sub_0_r.
  - destruct d as [|x d]; cbn in *; [lia|].
    apply Forall_cons in Hs as [[_ Hc] Hs]. destruct (Z.eqb_spec c 0); [done|].
    unfold cstr in *. rewrite IH by (done || lia). done.
Qed.

Lemma put_bytes_spec xs : forall str off,
  0 <= off -> off + zlen xs <= zlen str ->
  put_bytes str off xs =
    Ok (take (Z.to_nat off) str ++ xs ++ drop (Z.to_nat (off + zlen xs)) str).
Proof.
  induction xs as [|x xs IH]; intros str off Ho Hl; cbn.
  - unfold zlen. cbn. rewrite Z.add_0_r, take_drop. done.
  - unfold zlen in Hl. cbn in Hl. rewrite wr_in by (unfold zlen; lia). cbn.
    rewrite IH by (rewrite ?zlen_insert; unfold zlen in *; lia).
    replace (Z.to_nat (off + 1)) with (S (Z.to_nat off)) by lia.
    rewrite (take_S_r _ _ x) by (apply list_lookup_insert_eq; unfold zlen in *; lia).
    rewrite take_insert_ge, <- (assoc_L app) by lia. cbn. do 3 f_equal.
    rewrite drop_insert_lt by (unfold zlen; lia). do 2 f_equal. unfold zlen. cbn. lia.
Qed.

(** ** Lemmas: numbers *)

(** The digits the loop appends, as a function: least significant first. *)
Fixpoint digits (fuel : nat) (value base : Z) : list Z :=
  match fuel with
  | O => []
  | S f => if 0 <? value then value mod base :: digits f (value / base) base else []
  end.

Definition digit_char (d : Z) : Z := if d <? 10 then 48 + d else 97 + d - 10.

Lemma digits_length f : forall v b, (length (digits f v b) <= f)%nat.
Proof. induction f; intros; cbn; [lia|]. case_if; cbn; [specialize (IHf (v / b) b)|]; lia. Qed.

Lemma digits_range f : forall v b, 2 <= b -> Forall (fun d => 0 <= d < b) (digits f v b).
Proof.
  induction f; intros; cbn; [constructor|]. case_if; [|constructor].
  constructor; [apply Z.mod_pos_bound; lia | auto].
Qed.

Lemma digits_value f : forall v b, 2 <= b -> 0 <= v < b ^ Z.of_nat f ->
  foldr (fun d acc => d + b * acc) 0 (digits f v b) = v.
Proof.
  induction f as [|f IH]; intros v b Hb Hv; [change (b ^ Z.of_nat 0) with 1 in Hv; cbn; lia|].
  cbn [digits]. case_if; [|cbn; lia].
  cbn [foldr]. rewrite IH; [| done |].
  - pose proof (Z.div_mod v b ltac:(lia)). lia.
  - rewrite Nat2Z.inj_succ, Z.pow_succ_r in Hv by lia.
    split; [apply Z.div_pos; lia | apply Z.div_lt_upper_bound; lia].
Qed.

Lemma digits_pos f v b : 0 < v -> digits (S f) v b <> [].
Proof. intros. cbn. by case_if; [|lia]. Qed.

Lemma itoa_loop_spec f : forall v b buf,
  2 <= b <= 36 -> 0 <= v < b ^ Z.of_nat f -> (length buf + f <= 33)%nat ->
  itoa_loop f v b buf = Ok (buf ++ (digit_char <$> digits f v b)).
Proof.
  induction f as [|f IH]; intros v b buf Hb Hv Hl.
  - change (b ^ Z.of_nat 0) with 1 in Hv. cbn. replace (0 <? v) with false by lia.
    by rewrite app_nil_r.
  - cbn [itoa_loop digits]. case_if; [|by rewrite app_nil_r].
    replace (zlen buf <? 33) with true by (unfold zlen; lia).
    rewrite Z.rem_mod_nonneg, Z.quot_div_nonneg by lia.
    pose proof (Z.mod_pos_bound v b ltac:(lia)).
    rewrite IH; [| done | | rewrite length_app; cbn; lia].
    + rewrite <- (assoc_L app). cbn. do 3 f_equal. unfold digit_char, u8.
      case_if; rewrite Z.mod_small; lia.
    + rewrite Nat2Z.inj_succ, Z.pow_succ_r in Hv by lia.
      split; [apply Z.div_pos; lia | apply Z.div_lt_upper_bound; lia].
Qed.

(** What [itoa] prints: the sign, then the digits, most significant first. *)
Definition itoa_text (value base : Z) : list Z :=
  (if value <? 0 then [45] else []) ++
  (if value =? 0 then [48]
   else digit_char <$> rev (digits 32 (Z.abs value) base)).

Lemma pow_fuel b : 2 <= b -> 2 ^ 31 <= b ^ Z.of_nat 32.
Proof.
  intros. transitivity (2 ^ Z.of_nat 32); [done|]. apply Z.pow_le_mono_l. lia.
Qed.

Lemma fmap_rev {A B} (f : A -> B) l : f <$> rev l = rev (f <$> l).
Proof. apply map_rev. Qed.

(** Writing [body] and the terminator behind a prefix already written. *)
Lemma put_terminated (sg body str : list Z) :
  zlen (sg ++ body) + 1 <= zlen str ->
  exists s1, put_bytes (sg ++ drop (length sg) str) (zlen sg) body = Ok s1 /\
    wr s1 (zlen sg + zlen body) 0 =
      Ok ((sg ++ body) ++ 0 :: drop (S (length (sg ++ body))) str).
Proof.
  unfold zlen. intros Hl. rewrite length_app in Hl. eexists. split.
  { apply put_bytes_spec; unfold zlen; rewrite ?length_app, ?length_drop; lia. }
  unfold zlen. rewrite Nat2Z.id, take_app_length.
  rewrite drop_app_ge, drop_drop by lia.
  replace (length sg + _)%nat with (length (sg ++ body)) by (rewrite length_app; lia).
  rewrite wr_in by (unfold zlen; rewrite !length_app, length_drop, ?length_app; lia).
  rewrite (assoc_L app), insert_app_r_alt by (rewrite length_app; lia).
  destruct (drop (length (sg ++ body)) str) as [|x rest] eqn:E.
  { apply (f_equal length) in E. rewrite length_drop, length_app in E. cbn in E. lia. }
  replace (Z.to_nat _ - _)%nat with 0%nat by (rewrite length_app; lia).
  cbn. do 3 f_equal. change rest with (drop 1 (x :: rest)).
  rewrite <- E, drop_drop. f_equal. lia.
Qed.

Lemma itoa_spec value str base :
  2 <= base <= 36 -> - 2 ^ 31 < value < 2 ^ 31 ->
  zlen (itoa_text value base) + 1 <= zlen str ->
  itoa value str base =
    Ok (itoa_text value base ++ 0 :: drop (S (length (itoa_text value base))) str).
Proof.
  intros Hb Hv Hl. pose proof (pow_fuel base ltac:(lia)) as Hp.
  unfold itoa. replace ((base <? 2) || (36 <? base)) with false by lia.
  destruct (put_terminated _ _ _ Hl) as (s1 & Hs1 & Hw).
  fold (itoa_text value base) in Hw.
  unfold itoa_text in Hl, Hs1, Hw |- *.
  destruct (value <? 0) eqn:Hneg.
  - rewrite put_bytes_spec
      by (unfold zlen in *; rewrite length_app in Hl; cbn in *; lia).
    change (take (Z.to_nat 0) str) with (@nil Z). cbn [mbind res_bind app].
    rewrite i32_id by (unfold is_i32; lia).
    replace (- value =? 0) with false by lia.
    replace (value =? 0) with false in * by lia.
    replace (Z.abs value) with (- value) in * by lia.
    rewrite itoa_loop_spec by (cbn [length]; lia).
    cbn [mbind res_bind app]. rewrite <- fmap_rev.
    change (zlen [45]) with 1 in *. cbn [app length] in Hs1.
    change (Z.to_nat (0 + 1)) with 1%nat. rewrite Hs1. cbn [mbind res_bind].
    etransitivity; [|exact Hw]. do 2 f_equal. unfold zlen. by rewrite !length_fmap, length_rev.
  - cbn [mbind res_bind app] in *. change (drop (length (@nil Z)) str) with str in Hs1.
    change (zlen (@nil Z)) with 0 in *.
    destruct (value =? 0) eqn:Hz.
    + rewrite Hs1. cbn [mbind res_bind]. exact Hw.
    + replace (Z.abs value) with value in * by lia.
      rewrite itoa_loop_spec by (cbn [length]; lia).
      cbn [mbind res_bind app]. rewrite <- fmap_rev, Hs1. cbn [mbind res_bind].
      etransitivity; [|exact Hw]. do 2 f_equal. unfold zlen. by rewrite !length_fmap, length_rev.
Qed.

Lemma itoa_text_length value base :
  2 <= base -> zlen (itoa_text value base) <= 33.
Proof.
  intros. unfold itoa_text, zlen. rewrite length_app.
  pose proof (digits_length 32 (Z.abs value) base).
  case_if; case_if; cbn [length]; rewrite ?length_fmap, ?length_rev; lia.
Qed.

(** A number below [base ^ k] has at most [k] digits. *)
Lemma digits_bound f : forall v b k, 2 <= b -> 0 <= v < b ^ Z.of_nat k ->
  (length (digits f v b) <= k)%nat.
Proof.
  induction f as [|f IH]; intros v b k Hb Hv; cbn [digits]; [cbn; lia|].
  case_if; [|cbn; lia]. destruct k as [|k].
  { change (b ^ Z.of_nat 0) with 1 in Hv. lia. }
  cbn [length]. apply le_n_S, IH; [done|].
  rewrite Nat2Z.inj_succ, Z.pow_succ_r in Hv by lia.
  split; [apply Z.div_pos; lia | apply Z.div_lt_upper_bound; lia].
Qed.

Lemma itoa_text_digits value base k :
  2 <= base -> (1 <= k)%nat -> Z.abs value < base ^ Z.of_nat k ->
  zlen (itoa_text value base) <= (if value <? 0 then 1 else 0) + Z.of_nat k.
Proof.
  intros Hb Hk Hv. unfold itoa_text, zlen. rewrite length_app.
  pose proof (digits_bound 32 (Z.abs value) base k Hb ltac:(lia)).
  case_if; case_if; cbn [length]; rewrite ?length_fmap, ?length_rev; lia.
Qed.

Lemma digit_char_isdigit d : 0 <= d < 10 -> digit_char d = 48 + d.
Proof. unfold digit_char. intros. by case_if; [|lia]. Qed.

(** Reading decimal digits accumulates them, as long as the value fits. *)
Lemma atoi_digits_spec ds : forall acc r,
  Forall (fun d => 0 <= d < 10) ds -> 0 <= acc ->
  fold_left (fun a d => a * 10 + d) ds acc < 2 ^ 31 ->
  atoi_digits ((digit_char <$> ds) ++ 0 :: r) acc =
    Ok (fold_left (fun a d => a * 10 + d) ds acc).
Proof.
  assert (Hmono : forall l a, Forall (fun d => 0 <= d < 10) l -> 0 <= a ->
    a <= fold_left (fun a d => a * 10 + d) l a).
  { induction l as [|d l IH]; intros a Hl Ha; cbn; [lia|].
    apply Forall_cons in Hl as [Hd Hl]. specialize (IH (a * 10 + d) Hl). lia. }
  induction ds as [|d ds IH]; intros acc r Hds Hacc Hf; [done|].
  apply Forall_cons in Hds as [Hd Hds]. cbn in Hf |- *.
  rewrite digit_char_isdigit, schar_ascii by lia.
  unfold isdigit. replace ((48 <=? 48 + d) && (48 + d <=? 57)) with true by lia.
  pose proof (Hmono ds (acc * 10 + d) Hds ltac:(lia)).
  rewrite i32_id by (unfold is_i32; lia).
  replace (acc * 10 + (48 + d - 48)) with (acc * 10 + d) by lia. apply IH; [done|lia..].
Qed.

Lemma fold_digits_rev ds :
  fold_left (fun a d => a * 10 + d) (rev ds) 0 =
  foldr (fun d acc => d + 10 * acc) 0 ds.
Proof.
  induction ds as [|d ds IH]; [done|]. cbn [rev foldr].
  rewrite fold_left_app, IH. cbn [fold_left]. lia.
Qed.

(** A string of digit characters and the [int] that [atoi] makes of it. *)
Definition digit_c (c : Z) : Prop := 48 <= c <= 57.
Definition digits_int (ds : list Z) (acc : Z) : Z := fold_left (fun a c => i32 (a * 10 + (c - 48))) ds acc.

Lemma digit_c_isdigit c : digit_c c -> isdigit (schar c) = true /\ schar c = c.
Proof. intros H. unfold digit_c in H. rewrite schar_ascii by lia. unfold isdigit. split; [lia|done]. Qed.

Lemma isdigit_digit_c c : is_u8 c -> isdigit (schar c) = true -> digit_c c.
Proof. unfold is_u8, isdigit, schar, digit_c. destruct (c <? 128) eqn:?; lia. Qed.

Lemma atoi_digits_string ds : forall acc r, Forall digit_c ds ->
  atoi_digits (ds ++ 0 :: r) acc = Ok (digits_int ds acc).
Proof.
  induction ds as [|c ds IH]; intros acc r Hd; [done|]. apply Forall_cons in Hd as [Hc Hd].
  destruct (digit_c_isdigit c Hc) as [H1 H2]. cbn [app atoi_digits]. rewrite H1, H2. by apply IH.
Qed.

Lemma atoi_string ds r : Forall digit_c ds -> atoi (cstr ds r) = Ok (i32 (digits_int ds 0)).
Proof.
  intros Hd. unfold atoi, cstr.
  assert (Hs : atoi_spaces (ds ++ 0 :: r) = Ok (ds ++ 0 :: r)).
  { destruct ds as [|c ds]; [done|]. apply Forall_cons in Hd as [Hc _].
    destruct (digit_c_isdigit c Hc) as [_ H2]. cbn [app atoi_spaces]. rewrite H2. unfold digit_c in Hc.
    unfold isspace. by replace (_ || _) with false by lia. }
  rewrite Hs, bind_ret. destruct ds as [|c ds]; cbn [app].
  - change (0 =? 45) with false. change (0 =? 43) with false. cbv iota. by cbn.
  - pose proof Hd as [Hc _]%Forall_cons. unfold digit_c in Hc.
    rewrite (proj2 (Z.eqb_neq c 45)), (proj2 (Z.eqb_neq c 43)) by lia. cbv iota beta.
    pose proof (atoi_digits_string (c :: ds) 0 r Hd) as E. cbn [app] in E. rewrite E, bind_ret.
    by rewrite Z.mul_1_r.
Qed.

(** [atoi] on the text of a number, whatever follows the terminator. *)
Lemma atoi_itoa_text value r :
  - 2 ^ 31 < value < 2 ^ 31 ->
  atoi (cstr (itoa_text value 10) r) = Ok value.
Proof.
  intros Hv. pose proof (pow_fuel 10 ltac:(lia)).
  pose proof (digits_value 32 (Z.abs value) 10 ltac:(lia) ltac:(lia)) as Hval.
  pose proof (digits_range 32 (Z.abs value) 10 ltac:(lia)) as Hr.
  set (ds := digits 32 (Z.abs value) 10) in *.
  assert (Hread : atoi_digits ((digit_char <$> rev ds) ++ 0 :: r) 0 = Ok (Z.abs value)).
  { rewrite atoi_digits_spec, fold_digits_rev.
    - by rewrite Hval.
    - by apply Forall_rev.
    - lia.
    - rewrite fold_digits_rev, Hval. lia. }
  unfold itoa_text, cstr. fold ds.
  destruct (value <? 0) eqn:Hneg.
  - replace (value =? 0) with false by lia. cbn [app].
    unfold atoi. cbn [mbind res_bind atoi_spaces app].
    change (isspace (schar 45)) with false. cbn [mbind res_bind].
    change (45 =? 45) with true. cbv beta iota zeta. rewrite Hread. cbn [mbind res_bind].
    rewrite i32_id by (unfold is_i32; lia). f_equal. lia.
  - destruct (value =? 0) eqn:Hz.
    + assert (value = 0) as -> by lia. reflexivity.
    + cbn [app] in *. destruct (rev ds) as [|d rest] eqn:E.
      { apply (f_equal length) in E. rewrite length_rev in E.
        destruct ds eqn:E'; [|done]. cbn in Hval. lia. }
      assert (Hd : 0 <= d < 10).
      { apply Forall_rev in Hr. rewrite E in Hr. by apply Forall_cons in Hr as [? _]. }
      unfold atoi. cbn [fmap list_fmap app atoi_spaces] in *.
      rewrite digit_char_isdigit, schar_ascii in * by lia.
      replace (isspace (48 + d)) with false by (unfold isspace; lia).
      cbn [mbind res_bind].
      replace (48 + d =? 45) with false by lia.
      replace (48 + d =? 43) with false by lia. cbv beta iota zeta.
      rewrite Hread. cbn [mbind res_bind].
      rewrite i32_id by (unfold is_i32; lia). f_equal. lia.
Qed.

(** ** Properties *)

(** C34.  [itoa] in base 10 followed by [atoi] gives the number back, for every
    [int] except the least one, into any buffer of at least 12 bytes; the text
    never needs more (the kernel's callers that print an [int] pass 16 or 32). *)
Theorem itoa_atoi_roundtrip value str :
  - 2 ^ 31 < value < 2 ^ 31 -> 12 <= zlen str ->
  exists out, itoa value str 10 = Ok out /\ atoi out = Ok value.
Proof.
  intros Hv Hl.
  pose proof (itoa_text_digits value 10 10 ltac:(lia) ltac:(lia) ltac:(lia)).
  eexists. split; [apply itoa_spec; [lia | lia | case_match; lia]|].
  by apply atoi_itoa_text.
Qed.

Lemma itoa_atoi_roundtrip_witness :
  itoa (-2147483647) (replicate 12 7) 10 =
    Ok [45; 50; 49; 52; 55; 52; 56; 51; 54; 52; 55; 0] /\
  exists out, itoa (-2147483647) (replicate 12 7) 10 = Ok out /\ atoi out = Ok (-2147483647).
Proof.
  split; [reflexivity|].
  apply (itoa_atoi_roundtrip (-2147483647) (replicate 12 7)); [lia | vm_compute; congruence].
Defined.

(** The least [int] is printed as a lone minus sign in every base: its
    negation is itself, so the digit loop does not run.  Reading the text back
    gives 0. *)
Lemma itoa_int_min base str :
  2 <= base <= 36 -> 2 <= zlen str ->
  itoa (- 2 ^ 31) str base = Ok (45 :: 0 :: drop 2 str) /\
  atoi (45 :: 0 :: drop 2 str) = Ok 0.
Proof.
  intros Hb Hl. split; [|done]. unfold zlen in Hl.
  destruct str as [|a [|b str]]; cbn in Hl; try lia.
  unfold itoa. replace ((base <? 2) || (36 <? base)) with false by lia.
  change (- 2 ^ 31 <? 0) with true. cbv iota.
  rewrite put_bytes_spec by (unfold zlen; cbn; lia).
  change (Z.to_nat (0 + zlen [45])) with 1%nat.
  cbn [mbind res_bind]. change (i32 (- - 2 ^ 31)) with (- 2 ^ 31).
  change (- 2 ^ 31 =? 0) with false.
  change (itoa_loop 32 (- 2 ^ 31) base []) with (Ok (@nil Z)).
  cbn [mbind res_bind rev put_bytes].
  rewrite wr_in by (unfold zlen; rewrite !length_app; cbn; lia). reflexivity.
Qed.

Lemma itoa_int_min_witness :
  itoa (- 2 ^ 31) [1; 2; 3] 16 = Ok [45; 0; 3] /\ atoi [45; 0; 3] = Ok 0.
Proof. apply (itoa_int_min 16 [1; 2; 3]); [lia | vm_compute; congruence]. Defined.

(** [strcmp] compares strings: on any two C strings, whatever follows
    them in memory, it stays inside both and returns 0 exactly when they are
    the same. *)
Lemma strcmp_correct s1 s2 r1 r2 :
  nul_free s1 -> nul_free s2 ->
  exists k, strcmp (cstr s1 r1) (cstr s2 r2) = Ok k /\ (k = 0 <-> s1 = s2).
Proof. apply strcmp_cstr. Qed.

Lemma strcmp_correct_witness :
  strcmp (cstr [107; 101] [9]) (cstr [107; 0x80] []) = Ok 229 /\
  exists k, strcmp (cstr [107; 101] [9]) (cstr [107; 0x80] []) = Ok k /\
    (k = 0 <-> [107; 101] = [107; 0x80]).
Proof.
  split; [reflexivity|].
  apply (strcmp_correct [107; 101] [107; 0x80] [9] []);
    repeat constructor; vm_compute; congruence.
Defined.
