(* ===== verification/Process.v ===== *)
(** * Process: the process table and scheduler of src/src/kernel/process.c

    The file-level variables are the fields of [proc_state]; a [process_t*]
    into the table is the index of the slot, [None] the null pointer.  An
    access to the table outside its 32 slots is [Err OutOfBounds].  The timer's
    tick count ([pit_get_ticks()]) and the address of [g_process_stacks] are
    arguments. *)

From S2P Require Import Prelude CString.

Definition MAX_PROCESSES : Z := 32.
Definition PROCESS_STACK_SIZE : Z := 4096.
Definition PROCESS_TIME_SLICE : Z := 10.

Inductive process_state_t :=
| PROC_STATE_UNUSED
| PROC_STATE_READY
| PROC_STATE_RUNNING
| PROC_STATE_BLOCKED
| PROC_STATE_TERMINATED.

#[global] Instance process_state_eq_dec : EqDecision process_state_t.
Proof. solve_decision. Defined.

Record cpu_context_t := CpuContext {
  eax : Z; ebx : Z; ecx : Z; edx : Z; esi : Z; edi : Z;
  ebp : Z; esp : Z; eip : Z; eflags : Z
}.

Record process_t := Process {
  pid : Z;
  parent_pid : Z;
  state : process_state_t;
  priority : Z;
  ticks : Z;
  stack_base : Z;
  stack_size : Z;
  context : cpu_context_t;
  entry_point : Z;
  exit_code : Z;
  name : list Z;              (* char name[32] *)
  created_ticks : Z;
  terminated_ticks : Z
}.

Record proc_state := ProcState {
  g_process_table : list process_t;
  g_current_pid : Z;
  g_process_count : Z;
  g_next_pid : Z
}.

(** Field updates. *)
Definition set_state (s : process_state_t) (p : process_t) : process_t :=
  {| pid := pid p; parent_pid := parent_pid p; state := s; priority := priority p;
     ticks := ticks p; stack_base := stack_base p; stack_size := stack_size p;
     context := context p; entry_point := entry_point p; exit_code := exit_code p;
     name := name p; created_ticks := created_ticks p;
     terminated_ticks := terminated_ticks p |}.

Definition set_ticks (t : Z) (p : process_t) : process_t :=
  {| pid := pid p; parent_pid := parent_pid p; state := state p; priority := priority p;
     ticks := t; stack_base := stack_base p; stack_size := stack_size p;
     context := context p; entry_point := entry_point p; exit_code := exit_code p;
     name := name p; created_ticks := created_ticks p;
     terminated_ticks := terminated_ticks p |}.

Definition set_priority (pr : Z) (p : process_t) : process_t :=
  {| pid := pid p; parent_pid := parent_pid p; state := state p; priority := pr;
     ticks := ticks p; stack_base := stack_base p; stack_size := stack_size p;
     context := context p; entry_point := entry_point p; exit_code := exit_code p;
     name := name p; created_ticks := created_ticks p;
     terminated_ticks := terminated_ticks p |}.

(** [exit_code = code; state = TERMINATED; terminated_ticks = now]. *)
Definition terminate (code now : Z) (p : process_t) : process_t :=
  {| pid := pid p; parent_pid := parent_pid p; state := PROC_STATE_TERMINATED;
     priority := priority p; ticks := ticks p; stack_base := stack_base p;
     stack_size := stack_size p; context := context p; entry_point := entry_point p;
     exit_code := code; name := name p; created_ticks := created_ticks p;
     terminated_ticks := now |}.

Definition set_table (t : list process_t) (s : proc_state) : proc_state :=
  {| g_process_table := t; g_current_pid := g_current_pid s;
     g_process_count := g_process_count s; g_next_pid := g_next_pid s |}.
Definition set_current (c : Z) (s : proc_state) : proc_state :=
  {| g_process_table := g_process_table s; g_current_pid := c;
     g_process_count := g_process_count s; g_next_pid := g_next_pid s |}.
Definition set_count (n : Z) (s : proc_state) : proc_state :=
  {| g_process_table := g_process_table s; g_current_pid := g_current_pid s;
     g_process_count := n; g_next_pid := g_next_pid s |}.
Definition set_next (n : Z) (s : proc_state) : proc_state :=
  {| g_process_table := g_process_table s; g_current_pid := g_current_pid s;
     g_process_count := g_process_count s; g_next_pid := n |}.

(** [g_process_table[i]] as an rvalue, and an update of that slot in place. *)
Definition slot (s : proc_state) (i : Z) : res process_t := rd (g_process_table s) i.

Definition upd_slot (i : Z) (f : process_t -> process_t) (s : proc_state) : res proc_state :=
  p ← slot s i;
  t ← wr (g_process_table s) i (f p);
  Ok (set_table t s).

Definition is_state (s : process_state_t) (p : process_t) : bool :=
  bool_decide (state p = s).

Section Process.
(** [g_process_stacks]: where the linker put the stacks. *)
Variable g_process_stacks : Z.

(** The part of [process_init] inside the loop, and the kernel's slot. *)
Definition clear_slot (p : process_t) : process_t :=
  {| pid := 0; parent_pid := parent_pid p; state := PROC_STATE_UNUSED;
     priority := 128; ticks := ticks p; stack_base := stack_base p;
     stack_size := stack_size p; context := context p; entry_point := entry_point p;
     exit_code := 0; name := <[0%nat := 0]> (name p); created_ticks := created_ticks p;
     terminated_ticks := terminated_ticks p |}.

(** "kernel" *)
Definition kernel_name : list Z := [107; 101; 114; 110; 101; 108; 0].

Definition kernel_slot (p : process_t) : res process_t :=
  '(_, nm) ← strcpy (name p) kernel_name;
  Ok {| pid := 0; parent_pid := 0; state := PROC_STATE_RUNNING; priority := 0;
        ticks := PROCESS_TIME_SLICE; stack_base := g_process_stacks;
        stack_size := PROCESS_STACK_SIZE; context := context p;
        entry_point := entry_point p; exit_code := exit_code p; name := nm;
        created_ticks := created_ticks p; terminated_ticks := terminated_ticks p |}.

Definition process_init (s : proc_state) : res proc_state :=
  let table := clear_slot <$> g_process_table s in
  p0 ← rd table 0;
  k ← kernel_slot p0;
  table ← wr table 0 k;
  Ok {| g_process_table := table; g_current_pid := 0; g_process_count := 1; g_next_pid := 1 |}.

Definition process_current (s : proc_state) : option Z :=
  if MAX_PROCESSES <=? g_current_pid s then None else Some (g_current_pid s).

Definition process_get (s : proc_state) (pid : Z) : res (option Z) :=
  if MAX_PROCESSES <=? pid then Ok None else
  p ← slot s pid;
  if is_state PROC_STATE_UNUSED p then Ok None else Ok (Some pid).

Definition process_get_at_index (index : Z) : option Z :=
  if MAX_PROCESSES <=? index then None else Some index.

Definition process_count (s : proc_state) : Z := g_process_count s.

(** A scan of the slots [from, from + fuel) for an unused one. *)
Fixpoint scan_unused (fuel : nat) (s : proc_state) (from : Z) : res (option Z) :=
  match fuel with
  | O => Ok None
  | S f =>
      p ← slot s from;
      if is_state PROC_STATE_UNUSED p then Ok (Some from) else scan_unused f s (from + 1)
  end.

(** [while (pid < MAX_PROCESSES)] from [g_next_pid], then
    [for (pid = 1; pid < g_next_pid; pid++)]. *)
Definition process_allocate_pid (s : proc_state) : res (Z * proc_state) :=
  r ← scan_unused (Z.to_nat (MAX_PROCESSES - g_next_pid s)) s (g_next_pid s);
  match r with
  | Some pid =>
      let next := pid + 1 in
      Ok (pid, set_next (if MAX_PROCESSES <=? next then 1 else next) s)
  | None =>
      r ← scan_unused (Z.to_nat (g_next_pid s - 1)) s 1;
      match r with
      | Some pid => Ok (pid, s)
      | None => Ok (0, s)
      end
  end.

Definition new_context (stack_top entry : Z) : cpu_context_t :=
  {| eax := 0; ebx := 0; ecx := 0; edx := 0; esi := 0; edi := 0;
     ebp := stack_top; esp := stack_top; eip := entry; eflags := 0x200 |}.

(** [strncpy(proc->name, name, 31); proc->name[31] = 0]. *)
Definition copy_name (old nm : list Z) : res (list Z) :=
  n ← strncpy old nm 31;
  wr n 31 0.

Definition new_process (p : process_t) (newpid parent : Z) (nm : list Z)
    (entry prio now : Z) : res process_t :=
  let base := u32 (g_process_stacks + newpid * PROCESS_STACK_SIZE) in
  let stack_top := u32 (base + PROCESS_STACK_SIZE - 4) in
  nm' ← copy_name (name p) nm;
  Ok {| pid := newpid; parent_pid := parent; state := PROC_STATE_READY;
        priority := prio; ticks := PROCESS_TIME_SLICE; stack_base := base;
        stack_size := PROCESS_STACK_SIZE; context := new_context stack_top entry;
        entry_point := entry; exit_code := 0; name := nm';
        created_ticks := now; terminated_ticks := terminated_ticks p |}.

Definition process_spawn (nm : list Z) (entry prio now : Z) (s : proc_state)
    : res (Z * proc_state) :=
  '(newpid, s) ← process_allocate_pid s;
  if (newpid =? 0) || (MAX_PROCESSES <=? newpid) then Ok (-1, s) else
  p ← slot s newpid;
  p ← new_process p newpid (g_current_pid s) nm entry prio now;
  t ← wr (g_process_table s) newpid p;
  let s := set_table t s in
  Ok (newpid, set_count (u8 (g_process_count s + 1)) s).

(** The scheduler's scan: [i] counts from 0 to 31, the first READY slot with
    a priority below 256 (any [uint8_t]) ends it. *)
Fixpoint find_ready (fuel : nat) (s : proc_state) (next_pid i : Z) : res Z :=
  match fuel with
  | O => Ok (-1)
  | S f =>
      let check_pid := (next_pid + i) mod MAX_PROCESSES in
      p ← slot s check_pid;
      if is_state PROC_STATE_READY p && (priority p <? 256) then Ok check_pid
      else find_ready f s next_pid (i + 1)
  end.

(** The pointer returned is the index of the slot. *)
Definition process_find_next (s : proc_state) : res Z :=
  let next_pid := (g_current_pid s + 1) mod MAX_PROCESSES in
  best_pid ← find_ready 32 s next_pid 0;
  if 0 <=? best_pid then Ok best_pid else
  p ← slot s (g_current_pid s);
  if is_state PROC_STATE_READY p then Ok (g_current_pid s) else Ok 0.

(** The current process steps back to READY unless it is the kernel. *)
Definition preempt (s : proc_state) : res proc_state :=
  match process_current s with
  | Some cur =>
      c ← slot s cur;
      if negb (pid c =? 0) && is_state PROC_STATE_RUNNING c then
        upd_slot cur (set_state PROC_STATE_READY) s
      else Ok s
  | None => Ok s
  end.

Definition process_schedule (s : proc_state) : res proc_state :=
  next ← process_find_next s;
  s ← preempt s;
  n ← slot s next;
  upd_slot next (fun p => set_ticks PROCESS_TIME_SLICE (set_state PROC_STATE_RUNNING p))
    (set_current (pid n) s).

Definition process_exit (code now : Z) (s : proc_state) : res proc_state :=
  match process_current s with
  | None => Ok s
  | Some cur =>
      s ← upd_slot cur (terminate code now) s;
      process_schedule (set_count (u8 (g_process_count s - 1)) s)
  end.

Definition process_kill (victim now : Z) (s : proc_state) : res (Z * proc_state) :=
  r ← process_get s victim;
  match r with
  | None => Ok (-1, s)
  | Some proc =>
      if victim =? 0 then Ok (-1, s) else
      s ← upd_slot proc (terminate (-1) now) s;
      let s := if 0 <? g_process_count s
               then set_count (u8 (g_process_count s - 1)) s else s in
      if g_current_pid s =? victim then s ← process_schedule s; Ok (0, s)
      else Ok (0, s)
  end.

Definition process_tick (s : proc_state) : res proc_state :=
  match process_current s with
  | None => Ok s
  | Some cur =>
      p ← slot s cur;
      s ← (if 0 <? ticks p then upd_slot cur (set_ticks (ticks p - 1)) s else Ok s);
      p ← slot s cur;
      if ticks p =? 0 then process_schedule s else Ok s
  end.

(** ** The operations the rest of the kernel can perform, as steps *)

Inductive proc_op :=
| OpSpawn (nm : list Z) (entry prio now : Z)
| OpExit (code now : Z)
| OpKill (victim now : Z)
| OpSchedule
| OpTick.

Definition proc_step (op : proc_op) (s : proc_state) : res (Z * proc_state) :=
  match op with
  | OpSpawn nm entry prio now => process_spawn nm entry prio now s
  | OpExit code now => s ← process_exit code now s; Ok (0, s)
  | OpKill victim now => process_kill victim now s
  | OpSchedule => s ← process_schedule s; Ok (0, s)
  | OpTick => s ← process_tick s; Ok (0, s)
  end.

(** The results of a run, oldest first, and the state it ends in. *)
Fixpoint proc_run (ops : list proc_op) (s : proc_state) : res (list Z * proc_state) :=
  match ops with
  | [] => Ok ([], s)
  | op :: rest =>
      '(r, s) ← proc_step op s;
      '(rs, s) ← proc_run rest s;
      Ok (r :: rs, s)
  end.
End Process.

(** ** Well-formed tables *)

Definition at_slot (s : proc_state) (i : Z) : option process_t :=
  zget (g_process_table s) i.

Definition ready_at (s : proc_state) (i : Z) : Prop :=
  exists p, at_slot s i = Some p /\ state p = PROC_STATE_READY.

Lemma slot_Ok s i p : slot s i = Ok p <-> at_slot s i = Some p.
Proof. apply rd_Ok. Qed.

Lemma is_state_true st p : is_state st p = true <-> state p = st.
Proof. apply bool_decide_eq_true. Qed.

Lemma is_state_false st p : is_state st p = false <-> state p <> st.
Proof. apply bool_decide_eq_false. Qed.

(** An update of one slot, seen through the lookups. *)
Lemma upd_slot_spec i f s p :
  at_slot s i = Some p ->
  upd_slot i f s = Ok (set_table (<[Z.to_nat i := f p]> (g_process_table s)) s).
Proof.
  intros Hp. unfold upd_slot. rewrite (proj2 (slot_Ok _ _ _) Hp). cbn.
  by rewrite wr_in by (by eapply zget_lt).
Qed.

Lemma at_slot_upd s i j x p :
  at_slot s i = Some p ->
  at_slot (set_table (<[Z.to_nat i := x]> (g_process_table s)) s) j =
    if j =? i then Some x else at_slot s j.
Proof.
  intros Hp%zget_lt. unfold at_slot, set_table. cbn.
  destruct (Z.eqb_spec j i) as [->|Hne].
  - by apply zget_insert_eq.
  - apply zget_insert_ne; lia.
Qed.

Section Invariant.
Variable g_process_stacks : Z.

(** What every slot satisfies, and what a slot in use satisfies besides. *)
Record slot_ok (i : Z) (p : process_t) : Prop := {
  so_prio : is_u8 (priority p);
  so_ticks : is_u8 (ticks p);
  so_name : length (name p) = 32%nat;
  so_used : state p <> PROC_STATE_UNUSED ->
    pid p = i /\ stack_base p = u32 (g_process_stacks + i * PROCESS_STACK_SIZE) /\
    stack_size p = PROCESS_STACK_SIZE /\ 0 ∈ name p
}.

(** Holds at every moment, inside an operation too. *)
Record wf0 (s : proc_state) : Prop := {
  wf_len : zlen (g_process_table s) = MAX_PROCESSES;
  wf_cur : 0 <= g_current_pid s < MAX_PROCESSES;
  wf_next : 1 <= g_next_pid s < MAX_PROCESSES;
  wf_count : is_u8 (g_process_count s);
  wf_slots : forall i p, at_slot s i = Some p -> slot_ok i p;
  wf_kernel : forall p, at_slot s 0 = Some p -> state p <> PROC_STATE_UNUSED;
  wf_running : forall i p, at_slot s i = Some p ->
    state p = PROC_STATE_RUNNING -> i = 0 \/ i = g_current_pid s
}.

(** Holds between operations: the current process is marked RUNNING. *)
Definition proc_wf (s : proc_state) : Prop :=
  wf0 s /\ exists p, at_slot s (g_current_pid s) = Some p /\ state p = PROC_STATE_RUNNING.

Lemma wf_at s i : wf0 s -> 0 <= i < MAX_PROCESSES -> exists p, at_slot s i = Some p.
Proof.
  intros Hwf Hi. rewrite <- (wf_len _ Hwf) in Hi.
  by apply zget_Ok_iff in Hi as [p ?]; exists p.
Qed.

Lemma at_range s i p : wf0 s -> at_slot s i = Some p -> 0 <= i < MAX_PROCESSES.
Proof. intros Hwf Hp%zget_lt. by rewrite <- (wf_len _ Hwf). Qed.

(** *** The scan for a READY slot *)

Lemma find_ready_spec s fuel : forall np i, wf0 s ->
  exists r, find_ready fuel s np i = Ok r /\
    ((exists k, i <= k < i + Z.of_nat fuel /\ r = (np + k) mod MAX_PROCESSES /\
        ready_at s r /\
        forall k', i <= k' < k -> ~ ready_at s ((np + k') mod MAX_PROCESSES)) \/
     (r = -1 /\ forall k, i <= k < i + Z.of_nat fuel ->
        ~ ready_at s ((np + k) mod MAX_PROCESSES))).
Proof.
  induction fuel as [|f IH]; intros np i Hwf.
  { exists (-1). split; [done|]. right. split; [done|]. intros; lia. }
  cbn [find_ready].
  pose proof (Z.mod_pos_bound (np + i) MAX_PROCESSES ltac:(done)) as Hm.
  destruct (wf_at s _ Hwf Hm) as [p Hp].
  rewrite (proj2 (slot_Ok _ _ _) Hp). cbn [mbind res_bind].
  pose proof (so_prio _ _ (wf_slots _ Hwf _ _ Hp)) as Hprio. unfold is_u8 in Hprio.
  replace (priority p <? 256) with true by lia. rewrite andb_true_r.
  destruct (is_state PROC_STATE_READY p) eqn:E.
  - apply is_state_true in E. eexists. split; [done|]. left. exists i.
    split_and!; [lia|lia|done|by exists p|]. intros; lia.
  - apply is_state_false in E.
    assert (Hn : ~ ready_at s ((np + i) mod MAX_PROCESSES))
      by (intros (q & Hq & ?); congruence).
    destruct (IH np (i + 1) Hwf) as (r & -> & [(k & ? & ? & ? & Hk)|[? Hk]]);
      exists r; (split; [done|]).
    + left. exists k. split_and!; [lia..|done|done|]. intros k' Hk'.
      destruct (Z.eq_dec k' i) as [->|]; [done | apply Hk; lia].
    + right. split; [done|]. intros k Hk2.
      destruct (Z.eq_dec k i) as [->|]; [done | apply Hk; lia].
Qed.

(** The distance, in 1..32, from [c] forward to [j] on the ring of slots. *)
Definition ring_dist (c j : Z) : Z := (j - c - 1) mod MAX_PROCESSES + 1.

Lemma ring_dist_range c j : 1 <= ring_dist c j <= MAX_PROCESSES.
Proof. unfold ring_dist. pose proof (Z.mod_pos_bound (j - c - 1) MAX_PROCESSES ltac:(done)). lia. Qed.

Lemma ring_dist_step c j : 0 <= j < MAX_PROCESSES ->
  (c + ring_dist c j) mod MAX_PROCESSES = j.
Proof.
  intros Hj. unfold ring_dist, MAX_PROCESSES in *.
  replace (c + ((j - c - 1) mod 32 + 1)) with ((c + 1) + (j - c - 1) mod 32) by lia.
  rewrite Zplus_mod_idemp_r. replace (c + 1 + (j - c - 1)) with j by lia.
  apply Z.mod_small. lia.
Qed.

(** The scheduler's choice, as a specification: the first READY slot after
    the current one on the ring, or the kernel when no slot is READY. *)
Definition chosen (s : proc_state) (n : Z) : Prop :=
  (ready_at s n /\ forall j, ready_at s j ->
     ring_dist (g_current_pid s) n <= ring_dist (g_current_pid s) j) \/
  (n = 0 /\ forall j, ~ ready_at s j).

Lemma find_next_spec s : wf0 s ->
  exists n, process_find_next s = Ok n /\ 0 <= n < MAX_PROCESSES /\ chosen s n.
Proof.
  intros Hwf. unfold process_find_next. set (c := g_current_pid s).
  destruct (find_ready_spec s 32 ((c + 1) mod MAX_PROCESSES) 0 Hwf)
    as (r & -> & Hr). cbn [mbind res_bind].
  assert (Hidx : forall k, ((c + 1) mod MAX_PROCESSES + k) mod MAX_PROCESSES
                           = (c + (k + 1)) mod MAX_PROCESSES).
  { intros. rewrite Zplus_mod_idemp_l. f_equal. lia. }
  pose proof (Z.mod_pos_bound) as Hpos. specialize (fun a => Hpos a MAX_PROCESSES ltac:(done)).
  destruct Hr as [(k & Hk & Hrk & Hready & Hmin)|[-> Hnone]].
  - rewrite Hidx in Hrk. specialize (Hpos (c + (k + 1))). rewrite <- Hrk in Hpos.
    replace (0 <=? r) with true by lia. exists r. split_and!; [done|lia|lia|].
    left. split; [done|]. intros j Hj. fold c.
    assert (Hjr : 0 <= j < MAX_PROCESSES)
      by (destruct Hj as (q & Hq & _); by eapply at_range).
    pose proof (ring_dist_range c j). pose proof (ring_dist_step c j Hjr).
    assert (ring_dist c r <= k + 1).
    { unfold ring_dist. rewrite Hrk.
      replace ((c + (k + 1)) mod MAX_PROCESSES - c - 1)
        with ((c + (k + 1)) mod MAX_PROCESSES - (c + 1)) by lia.
      rewrite Zminus_mod_idemp_l. rewrite Z.mod_small; unfold MAX_PROCESSES; lia. }
    destruct (Z_le_gt_dec (k + 1) (ring_dist c j)) as [|Hlt]; [lia|].
    exfalso. apply (Hmin (ring_dist c j - 1) ltac:(lia)).
    rewrite Hidx. replace (ring_dist c j - 1 + 1) with (ring_dist c j) by lia.
    by rewrite H0.
  - replace (0 <=? -1) with false by lia.
    assert (Hno : forall j, ~ ready_at s j).
    { intros j Hj. assert (Hjr : 0 <= j < MAX_PROCESSES)
        by (destruct Hj as (q & Hq & _); by eapply at_range).
      pose proof (ring_dist_range c j). unfold MAX_PROCESSES in *.
      apply (Hnone (ring_dist c j - 1)); [lia|]. rewrite Hidx.
      replace (ring_dist c j - 1 + 1) with (ring_dist c j) by lia.
      by rewrite ring_dist_step. }
    destruct (wf_at s c Hwf (wf_cur _ Hwf)) as [p Hp].
    rewrite (proj2 (slot_Ok _ _ _) Hp). cbn [mbind res_bind].
    destruct (is_state PROC_STATE_READY p) eqn:E.
    + exfalso. apply is_state_true in E. by apply (Hno c); exists p.
    + exists 0. split_and!; [done|lia|done|]. right. done.
Qed.

(** *** Switching *)

(** What a switch to [n] does to the slot [j]. *)
Definition switched (s : proc_state) (n j : Z) (p : process_t) : process_t :=
  if j =? n then set_ticks PROCESS_TIME_SLICE (set_state PROC_STATE_RUNNING p)
  else if (j =? g_current_pid s) && negb (pid p =? 0) && is_state PROC_STATE_RUNNING p
  then set_state PROC_STATE_READY p else p.

Lemma slot_ok_set_state i p st :
  slot_ok i p -> state p <> PROC_STATE_UNUSED -> slot_ok i (set_state st p).
Proof. intros [? ? ? Hu] Hs. split; cbn; [done..|]. intros _. by apply Hu. Qed.

Lemma slot_ok_set_ticks i p t : slot_ok i p -> is_u8 t -> slot_ok i (set_ticks t p).
Proof. by intros [? ? ? Hu] ?; split. Qed.

Lemma slot_ok_terminate i p c now :
  slot_ok i p -> state p <> PROC_STATE_UNUSED -> slot_ok i (terminate c now p).
Proof. intros [? ? ? Hu] Hs. split; cbn; [done..|]. intros _. by apply Hu. Qed.

Lemma chosen_used s n p : wf0 s -> chosen s n -> at_slot s n = Some p ->
  state p <> PROC_STATE_UNUSED.
Proof.
  intros Hwf [[(q & Hq & Hst) _]|[-> _]] Hp.
  - rewrite Hp in Hq. injection Hq as <-. by rewrite Hst.
  - by eapply wf_kernel.
Qed.

Lemma preempt_spec s : wf0 s ->
  exists s1, preempt s = Ok s1 /\ g_current_pid s1 = g_current_pid s /\
    g_process_count s1 = g_process_count s /\ g_next_pid s1 = g_next_pid s /\
    zlen (g_process_table s1) = MAX_PROCESSES /\
    forall j, at_slot s1 j = (fun p => switched s (-1) j p) <$> at_slot s j.
Proof.
  intros Hwf. destruct (wf_at s _ Hwf (wf_cur _ Hwf)) as [p Hp].
  unfold preempt, process_current.
  replace (MAX_PROCESSES <=? g_current_pid s) with false
    by (pose proof (wf_cur _ Hwf); lia).
  rewrite (proj2 (slot_Ok _ _ _) Hp). cbn [mbind res_bind].
  assert (Hkeep : forall j q, at_slot s j = Some q ->
    (j = g_current_pid s -> negb (pid q =? 0) && is_state PROC_STATE_RUNNING q = false) ->
    switched s (-1) j q = q).
  { intros j q Hq Hc. unfold switched. pose proof (at_range _ _ _ Hwf Hq).
    replace (j =? -1) with false by lia.
    destruct (Z.eqb_spec j (g_current_pid s)) as [E|]; [|done].
    cbn [andb]. by rewrite (Hc E). }
  destruct (negb (pid p =? 0) && is_state PROC_STATE_RUNNING p) eqn:E.
  - rewrite (upd_slot_spec _ _ _ _ Hp). eexists. split; [done|].
    cbn. rewrite zlen_insert. split_and!; [done..|apply Hwf|]. intros j.
    rewrite (at_slot_upd _ _ _ _ _ Hp).
    destruct (Z.eqb_spec j (g_current_pid s)) as [->|Hne].
    + rewrite Hp. cbn. unfold switched. pose proof (wf_cur _ Hwf).
      replace (g_current_pid s =? -1) with false by lia.
      rewrite Z.eqb_refl. cbn [andb]. by rewrite E.
    + destruct (at_slot s j) as [q|] eqn:Hq; [|done]. cbn. by rewrite Hkeep.
  - exists s. split_and!; [done..|apply Hwf|]. intros j.
    destruct (at_slot s j) as [q|] eqn:Hq; [|done]. cbn. rewrite Hkeep; [done..|].
    intros ->. congruence.
Qed.

Lemma schedule_spec s : wf0 s ->
  exists n s', process_find_next s = Ok n /\ process_schedule s = Ok s' /\
    0 <= n < MAX_PROCESSES /\ chosen s n /\
    g_current_pid s' = n /\ g_process_count s' = g_process_count s /\
    g_next_pid s' = g_next_pid s /\ zlen (g_process_table s') = MAX_PROCESSES /\
    forall j, at_slot s' j = switched s n j <$> at_slot s j.
Proof.
  intros Hwf. destruct (find_next_spec s Hwf) as (n & Hn & Hr & Hch).
  destruct (preempt_spec s Hwf) as (s1 & Hs1 & Hc & Hcnt & Hnx & Hl & Hat).
  destruct (wf_at s n Hwf Hr) as [p Hp].
  assert (Hp1 : at_slot s1 n = Some (switched s (-1) n p)) by (rewrite Hat, Hp; done).
  pose proof (chosen_used _ _ _ Hwf Hch Hp) as Hu.
  destruct (so_used _ _ (wf_slots _ Hwf _ _ Hp) Hu) as (Hpid & _).
  assert (Hpid1 : pid (switched s (-1) n p) = n).
  { unfold switched. by repeat case_if. }
  unfold process_schedule. rewrite Hn. cbn [mbind res_bind]. rewrite Hs1. cbn [mbind res_bind].
  rewrite (proj2 (slot_Ok _ _ _) Hp1). cbn [mbind res_bind]. rewrite Hpid1.
  assert (Hp2 : at_slot (set_current n s1) n = Some (switched s (-1) n p)) by done.
  rewrite (upd_slot_spec _ _ _ _ Hp2).
  eexists n, _. split_and!; [done|done|lia|lia|done|done|done|done| |].
  { cbn. by rewrite zlen_insert. }
  intros j. rewrite (at_slot_upd _ _ _ _ _ Hp2). unfold at_slot in Hat |- *. cbn.
  destruct (Z.eqb_spec j n) as [->|Hne].
  - unfold at_slot in Hp. rewrite Hp. cbn. f_equal. unfold switched. rewrite Z.eqb_refl.
    by repeat case_if.
  - rewrite Hat. destruct (zget (g_process_table s) j) as [q|] eqn:Hq; [|done].
    cbn. f_equal. unfold switched. pose proof (at_range _ _ _ Hwf Hq).
    replace (j =? n) with false by lia. by replace (j =? -1) with false by lia.
Qed.

Lemma switched_ok s n j p : wf0 s -> chosen s n -> at_slot s j = Some p ->
  slot_ok j (switched s n j p).
Proof.
  intros Hwf Hch Hp. pose proof (wf_slots _ Hwf _ _ Hp) as Hok. unfold switched.
  destruct (Z.eqb_spec j n) as [->|].
  - apply slot_ok_set_ticks; [|vm_compute; split; congruence].
    apply slot_ok_set_state; [done|by eapply chosen_used].
  - destruct (_ && is_state _ _) eqn:E; [|done]. apply slot_ok_set_state; [done|].
    apply andb_true_iff in E as [_ Hr%is_state_true]. congruence.
Qed.

(** A switch from any well-formed moment ends well-formed, the process it
    chose being the current one. *)
Lemma schedule_wf s : wf0 s -> exists s', process_schedule s = Ok s' /\ proc_wf s'.
Proof.
  intros Hwf. destruct (schedule_spec s Hwf)
    as (n & s' & _ & Hs' & Hr & Hch & Hc & Hcnt & Hnx & Hl & Hat).
  exists s'. split; [done|].
  assert (Hcur : forall p, at_slot s' n = Some p -> state p = PROC_STATE_RUNNING).
  { intros p Hp. rewrite Hat in Hp. destruct (at_slot s n); [|done].
    cbn in Hp. unfold switched in Hp. rewrite Z.eqb_refl in Hp. by injection Hp as <-. }
  split.
  - split; [done|by rewrite Hc|rewrite Hnx; apply Hwf|rewrite Hcnt; apply Hwf| | |].
    + intros i p Hp. rewrite Hat in Hp. destruct (at_slot s i) as [q|] eqn:Hq; [|done].
      injection Hp as <-. by apply switched_ok.
    + intros p Hp. rewrite Hat in Hp. destruct (at_slot s 0) as [q|] eqn:Hq; [|done].
      injection Hp as <-. pose proof (wf_kernel _ Hwf _ Hq). unfold switched.
      by repeat case_if.
    + intros i p Hp Hst. rewrite Hc. destruct (Z.eq_dec i n) as [->|Hne]; [by right|].
      left. rewrite Hat in Hp. destruct (at_slot s i) as [q|] eqn:Hq; [|done].
      injection Hp as <-. unfold switched in Hst.
      replace (i =? n) with false in Hst by lia.
      destruct ((i =? g_current_pid s) && negb (pid q =? 0) && is_state PROC_STATE_RUNNING q)
        eqn:E; [done|].
      destruct (wf_running _ Hwf _ _ Hq Hst) as [|Hi]; [done|].
      rewrite (proj2 (is_state_true _ _) Hst), andb_true_r, Hi, Z.eqb_refl in E.
      cbn in E. destruct (so_used _ _ (wf_slots _ Hwf _ _ Hq)) as [Hpid _]; [congruence|].
      lia.
  - destruct (at_slot s n) as [p|] eqn:Hp;
      [|by destruct (wf_at s n Hwf Hr); congruence].
    rewrite Hc. exists (switched s n n p). split; [by rewrite Hat, Hp|].
    apply Hcur. by rewrite Hat, Hp.
Qed.

(** *** Allocation *)

Definition unused_at (s : proc_state) (i : Z) : Prop :=
  exists p, at_slot s i = Some p /\ state p = PROC_STATE_UNUSED.

Lemma scan_unused_spec s fuel : forall from, wf0 s ->
  0 <= from -> from + Z.of_nat fuel <= MAX_PROCESSES ->
  exists r, scan_unused fuel s from = Ok r /\
    match r with
    | Some k => from <= k < from + Z.of_nat fuel /\ unused_at s k
    | None => forall k, from <= k < from + Z.of_nat fuel -> ~ unused_at s k
    end.
Proof.
  induction fuel as [|f IH]; intros from Hwf Hf Hl.
  { exists None. split; [done|]. intros; lia. }
  destruct (wf_at s from Hwf ltac:(lia)) as [p Hp].
  cbn [scan_unused]. rewrite (proj2 (slot_Ok _ _ _) Hp). cbn [mbind res_bind].
  destruct (is_state PROC_STATE_UNUSED p) eqn:E.
  - apply is_state_true in E. exists (Some from). split; [done|].
    split; [lia | by exists p].
  - apply is_state_false in E. destruct (IH (from + 1) Hwf ltac:(lia) ltac:(lia))
      as (r & -> & Hr). exists r. split; [done|]. destruct r as [k|].
    + destruct Hr. split; [lia | done].
    + intros k Hk. destruct (Z.eq_dec k from) as [->|]; [|apply Hr; lia].
      intros (q & Hq & ?). congruence.
Qed.

Lemma allocate_pid_spec s : wf0 s ->
  exists newpid nx, process_allocate_pid s = Ok (newpid, set_next nx s) /\
    1 <= nx < MAX_PROCESSES /\
    ((1 <= newpid < MAX_PROCESSES /\ unused_at s newpid) \/
     (newpid = 0 /\ nx = g_next_pid s /\
      forall i, 1 <= i < MAX_PROCESSES -> ~ unused_at s i)).
Proof.
  intros Hwf. pose proof (wf_next _ Hwf) as Hn. unfold process_allocate_pid.
  destruct (scan_unused_spec s (Z.to_nat (MAX_PROCESSES - g_next_pid s)) (g_next_pid s) Hwf)
    as (r & -> & Hr); [lia..|]. cbn [mbind res_bind].
  assert (Hsame : set_next (g_next_pid s) s = s) by (by destruct s).
  destruct r as [k|].
  - destruct Hr. eexists k, _. split; [done|]. split; [|left; split; [lia|done]].
    case_if; unfold MAX_PROCESSES in *; lia.
  - destruct (scan_unused_spec s (Z.to_nat (g_next_pid s - 1)) 1 Hwf)
      as (r & -> & Hr2); [lia..|]. cbn [mbind res_bind]. destruct r as [k|].
    + destruct Hr2. exists k, (g_next_pid s). rewrite Hsame.
      split_and!; [done|lia|lia|left; split; [lia|done]].
    + exists 0, (g_next_pid s). rewrite Hsame. split_and!; [done|lia|lia|right].
      split_and!; [done|done|]. intros i Hi.
      destruct (Z_lt_le_dec i (g_next_pid s)); [apply Hr2; lia | apply Hr; lia].
Qed.

Lemma copy_name_spec old str r :
  length old = 32%nat -> nul_free str ->
  copy_name old (cstr str r) =
    Ok (take 31 str ++ replicate (31 - length str) 0 ++ [0]).
Proof.
  intros Hl Hs. unfold copy_name.
  rewrite strncpy_cstr by (done || lia). cbn [mbind res_bind].
  destruct (drop 31 old) as [|x l] eqn:E.
  { apply (f_equal length) in E. rewrite length_drop in E. cbn in E. lia. }
  assert (l = []) as ->.
  { apply (f_equal length) in E. rewrite length_drop in E. destruct l; [done|]. cbn in E. lia. }
  rewrite (assoc_L app).
  assert (Hn : length (take 31 str ++ replicate (31 - length str) 0) = 31%nat)
    by (rewrite length_app, length_take, length_replicate; lia).
  rewrite wr_in by (unfold zlen; rewrite length_app, Hn; cbn; lia).
  rewrite insert_app_r_alt by (rewrite Hn; lia). rewrite Hn, (assoc_L app). done.
Qed.

(** What [process_spawn] puts in the slot it takes. *)
Definition spawned (old : process_t) (newpid parent : Z) (str : list Z)
    (entry prio now : Z) : process_t :=
  let base := u32 (g_process_stacks + newpid * PROCESS_STACK_SIZE) in
  let top := u32 (base + PROCESS_STACK_SIZE - 4) in
  {| pid := newpid; parent_pid := parent; state := PROC_STATE_READY;
     priority := prio; ticks := PROCESS_TIME_SLICE; stack_base := base;
     stack_size := PROCESS_STACK_SIZE; context := new_context top entry;
     entry_point := entry; exit_code := 0;
     name := take 31 str ++ replicate (31 - length str) 0 ++ [0];
     created_ticks := now; terminated_ticks := terminated_ticks old |}.

Lemma new_process_spec p np par str r entry prio now :
  length (name p) = 32%nat -> nul_free str ->
  new_process g_process_stacks p np par (cstr str r) entry prio now =
    Ok (spawned p np par str entry prio now).
Proof.
  intros Hl Hs. unfold new_process. rewrite copy_name_spec by done. reflexivity.
Qed.

Lemma spawn_spec s str r entry prio now : wf0 s -> nul_free str ->
  (process_spawn g_process_stacks (cstr str r) entry prio now s = Ok (-1, s) /\
   forall i, 1 <= i < MAX_PROCESSES -> ~ unused_at s i) \/
  (exists newpid old nx,
     1 <= newpid < MAX_PROCESSES /\ at_slot s newpid = Some old /\
     state old = PROC_STATE_UNUSED /\ 1 <= nx < MAX_PROCESSES /\
     process_spawn g_process_stacks (cstr str r) entry prio now s =
       Ok (newpid, {| g_process_table :=
                        <[Z.to_nat newpid :=
                            spawned old newpid (g_current_pid s) str entry prio now]>
                          (g_process_table s);
                      g_current_pid := g_current_pid s;
                      g_process_count := u8 (g_process_count s + 1);
                      g_next_pid := nx |})).
Proof.
  intros Hwf Hs. unfold process_spawn.
  destruct (allocate_pid_spec s Hwf) as (np & nx & -> & Hnx & [[Hr (p & Hp & Hu)]|(-> & -> & Hno)]);
    step.
  - right. exists np, p, nx. split_and!; [lia|lia|done|done|lia|lia|].
    replace ((np =? 0) || (MAX_PROCESSES <=? np)) with false by (unfold MAX_PROCESSES in *; lia).
    rewrite (proj2 (slot_Ok (set_next nx s) np p) Hp). step.
    rewrite new_process_spec by (done || by eapply so_name, wf_slots). step.
    rewrite wr_in by (by eapply zget_lt). by step.
  - left. split; [|done]. by destruct s.
Qed.

Lemma spawned_ok i old par str entry prio now :
  is_u8 prio -> slot_ok i (spawned old i par str entry prio now).
Proof.
  intros Hp. split; cbn [priority ticks name state spawned]; [done|vm_compute; split; congruence| |].
  - rewrite !length_app, length_take, length_replicate. cbn [length]. lia.
  - intros _. split_and!; [done..|]. cbn. apply elem_of_app. right.
    apply elem_of_app. right. by apply list_elem_of_singleton.
Qed.

Lemma spawn_wf s str r entry prio now : proc_wf s -> nul_free str -> is_u8 prio ->
  exists k s', process_spawn g_process_stacks (cstr str r) entry prio now s = Ok (k, s') /\
    proc_wf s'.
Proof.
  intros [Hwf Hrun] Hs Hprio.
  destruct (spawn_spec s str r entry prio now Hwf Hs)
    as [[-> _]|(np & old & nx & Hr & Hold & Hu & Hnx & ->)].
  { eexists _, _. split; [done|]. by split. }
  eexists _, _. split; [done|].
  set (new := spawned _ _ _ _ _ _ _).
  assert (Hat : forall j, at_slot
    (ProcState (<[Z.to_nat np := new]> (g_process_table s)) (g_current_pid s)
               (u8 (g_process_count s + 1)) nx) j =
    if j =? np then Some new else at_slot s j).
  { intros j. exact (at_slot_upd s np j new old Hold). }
  split.
  - split; cbn [g_process_table g_current_pid g_process_count g_next_pid].
    + rewrite zlen_insert. apply Hwf.
    + apply Hwf.
    + done.
    + apply u8_range.
    + intros i p. rewrite Hat. destruct (Z.eqb_spec i np) as [->|]; [|apply Hwf].
      intros [= <-]. by apply spawned_ok.
    + intros p. rewrite Hat. destruct (Z.eqb_spec 0 np); [lia|apply Hwf].
    + intros i p. rewrite Hat. destruct (Z.eqb_spec i np) as [->|]; [|apply Hwf].
      by intros [= <-].
  - destruct Hrun as (p & Hp & Hst). exists p. split; [|done]. rewrite Hat. cbn [g_current_pid].
    destruct (Z.eqb_spec (g_current_pid s) np) as [E|]; [|done].
    rewrite E in Hp. congruence.
Qed.

(** *** The other operations *)

Lemma wf0_upd s i p p' : wf0 s -> at_slot s i = Some p ->
  slot_ok i p' -> state p' <> PROC_STATE_UNUSED ->
  (state p' = PROC_STATE_RUNNING -> state p = PROC_STATE_RUNNING) ->
  wf0 (set_table (<[Z.to_nat i := p']> (g_process_table s)) s).
Proof.
  intros Hwf Hp Hok Hu Hrun.
  split; cbn [g_process_table g_current_pid g_process_count g_next_pid set_table];
    [rewrite zlen_insert; apply Hwf | apply Hwf | apply Hwf | apply Hwf | | |].
  - intros j q. rewrite (at_slot_upd _ _ _ _ _ Hp).
    destruct (Z.eqb_spec j i) as [->|]; [by intros [= <-] | apply Hwf].
  - intros q. rewrite (at_slot_upd _ _ _ _ _ Hp).
    destruct (Z.eqb_spec 0 i); [by intros [= <-] | apply Hwf].
  - intros j q. rewrite (at_slot_upd _ _ _ _ _ Hp).
    destruct (Z.eqb_spec j i) as [->|]; [|apply Hwf].
    intros [= <-] Hst. by apply (wf_running _ Hwf i p); [|apply Hrun].
Qed.

Lemma wf0_count s n : wf0 s -> is_u8 n -> wf0 (set_count n s).
Proof. intros [] ?. by split. Qed.

Lemma current_spec s : wf0 s -> process_current s = Some (g_current_pid s).
Proof.
  intros Hwf. unfold process_current.
  by replace (MAX_PROCESSES <=? g_current_pid s) with false by (pose proof (wf_cur _ Hwf); lia).
Qed.

Lemma exit_wf s code now : proc_wf s ->
  exists s', process_exit code now s = Ok s' /\ proc_wf s'.
Proof.
  intros [Hwf (p & Hp & Hst)]. unfold process_exit.
  rewrite current_spec by done. rewrite (upd_slot_spec _ _ _ _ Hp). step.
  apply schedule_wf, wf0_count; [|apply u8_range].
  eapply wf0_upd; [done|exact Hp| |done|done].
  apply slot_ok_terminate; [by apply Hwf | congruence].
Qed.

Lemma get_spec s i : wf0 s -> 0 <= i ->
  (process_get s i = Ok None /\ forall p, at_slot s i = Some p -> state p = PROC_STATE_UNUSED) \/
  (exists p, process_get s i = Ok (Some i) /\ at_slot s i = Some p /\
     state p <> PROC_STATE_UNUSED).
Proof.
  intros Hwf Hi. unfold process_get. destruct (MAX_PROCESSES <=? i) eqn:E.
  { left. split; [done|]. intros p Hp. pose proof (at_range _ _ _ Hwf Hp). lia. }
  destruct (wf_at s i Hwf ltac:(lia)) as [p Hp].
  rewrite (proj2 (slot_Ok _ _ _) Hp). step.
  destruct (is_state PROC_STATE_UNUSED p) eqn:Eu.
  - apply is_state_true in Eu. left. split; [done|]. intros q Hq. congruence.
  - apply is_state_false in Eu. right. by exists p.
Qed.

(** Both ways a kill can end, for a target in use. *)
Lemma kill_spec s i p now : wf0 s -> 0 < i -> at_slot s i = Some p ->
  state p <> PROC_STATE_UNUSED ->
  let n := g_process_count s in
  let s1 := set_count (if 0 <? n then u8 (n - 1) else n)
    (set_table (<[Z.to_nat i := terminate (-1) now p]> (g_process_table s)) s) in
  wf0 s1 /\
  process_kill i now s =
    (if g_current_pid s =? i then s' ← process_schedule s1; Ok (0, s') else Ok (0, s1)).
Proof.
  intros Hwf Hi Hp Hu n s1. split.
  - apply wf0_count; [|subst n; case_if; [apply u8_range | apply Hwf]].
    eapply wf0_upd; [done|exact Hp|by apply slot_ok_terminate, Hu; apply Hwf|done|done].
  - unfold process_kill.
    destruct (get_spec s i Hwf ltac:(lia)) as [[_ Hn]|(q & -> & _)]; [by apply Hn in Hp|].
    step. replace (i =? 0) with false by lia.
    rewrite (upd_slot_spec _ _ _ _ Hp). step. subst s1 n. cbn [set_table g_process_count].
    by destruct (0 <? g_process_count s).
Qed.

Lemma kill_wf s i now : proc_wf s -> 0 <= i ->
  exists r s', process_kill i now s = Ok (r, s') /\ proc_wf s'.
Proof.
  intros [Hwf Hrun] Hi.
  destruct (get_spec s i Hwf Hi) as [[Hg _]|(p & Hg & Hp & Hu)].
  { exists (-1), s. unfold process_kill. rewrite Hg. step. done. }
  destruct (Z.eq_dec i 0) as [->|Hne].
  { exists (-1), s. unfold process_kill. rewrite Hg. step. done. }
  destruct (kill_spec s i p now Hwf ltac:(lia) Hp Hu) as [Hwf1 ->].
  destruct (Z.eqb_spec (g_current_pid s) i) as [E|E].
  - destruct (schedule_wf _ Hwf1) as (s' & -> & Hs'). step. by exists 0, s'.
  - eexists 0, _. split; [done|]. split; [done|].
    destruct Hrun as (q & Hq & Hst). exists q. split; [|done].
    transitivity (if g_current_pid s =? i then Some (terminate (-1) now p)
                  else at_slot s (g_current_pid s)).
    + exact (at_slot_upd s i (g_current_pid s) _ p Hp).
    + by destruct (Z.eqb_spec (g_current_pid s) i).
Qed.

Lemma tick_wf s : proc_wf s -> exists s', process_tick s = Ok s' /\ proc_wf s'.
Proof.
  intros [Hwf (p & Hp & Hst)]. unfold process_tick. rewrite current_spec by done.
  rewrite (proj2 (slot_Ok _ _ _) Hp). step.
  pose proof (so_ticks _ _ (wf_slots _ Hwf _ _ Hp)) as Ht. unfold is_u8 in Ht.
  destruct (0 <? ticks p) eqn:E.
  - rewrite (upd_slot_spec _ _ _ _ Hp). step.
    set (p' := set_ticks (ticks p - 1) p).
    set (s1 := set_table _ s).
    assert (Hp' : at_slot s1 (g_current_pid s) = Some p').
    { unfold s1. rewrite (at_slot_upd _ _ _ _ _ Hp). by rewrite Z.eqb_refl. }
    assert (Hwf1 : wf0 s1).
    { eapply wf0_upd; [done|exact Hp| |unfold p'; cbn; congruence|done].
      apply slot_ok_set_ticks; [by apply Hwf|unfold is_u8; lia]. }
    rewrite (proj2 (slot_Ok _ _ _) Hp'). step.
    case_if; [by apply schedule_wf|]. exists s1. split; [done|]. split; [done|].
    by exists p'.
  - rewrite bind_ret. rewrite (proj2 (slot_Ok _ _ _) Hp). step.
    case_if; [by apply schedule_wf|]. exists s. split; [done|]. split; [done|]. by exists p.
Qed.

(** The arguments C's types and calling conventions allow. *)
Definition op_ok (op : proc_op) : Prop :=
  match op with
  | OpSpawn nm _ prio _ => (exists str r, nm = cstr str r /\ nul_free str) /\ is_u8 prio
  | OpKill victim _ => is_u32 victim
  | _ => True
  end.

Lemma step_wf op s : op_ok op -> proc_wf s ->
  exists r s', proc_step g_process_stacks op s = Ok (r, s') /\ proc_wf s'.
Proof.
  intros Hop Hwf. destruct op as [nm e pr now|code now|v now| |]; cbn [proc_step op_ok] in *.
  - destruct Hop as [(str & r & -> & Hs) Hpr]. by apply spawn_wf.
  - destruct (exit_wf s code now Hwf) as (s' & -> & ?). step. by eexists _, _.
  - apply kill_wf; [done|]. unfold is_u32 in Hop. lia.
  - destruct (schedule_wf s (proj1 Hwf)) as (s' & -> & ?). step. by eexists _, _.
  - destruct (tick_wf s Hwf) as (s' & -> & ?). step. by eexists _, _.
Qed.

Lemma run_wf ops : forall s, Forall op_ok ops -> proc_wf s ->
  exists rs s', proc_run g_process_stacks ops s = Ok (rs, s') /\ proc_wf s'.
Proof.
  induction ops as [|op ops IH]; intros s Hops Hwf; cbn [proc_run].
  { by exists [], s. }
  apply Forall_cons in Hops as [Hop Hops].
  destruct (step_wf op s Hop Hwf) as (r & s1 & -> & Hwf1). step.
  destruct (IH s1 Hops Hwf1) as (rs & s2 & -> & Hwf2). step. by exists (r :: rs), s2.
Qed.

(** *** Start-up *)

(** The table as the loader leaves it: 32 slots whose byte fields are bytes. *)
Definition table_at_boot (s : proc_state) : Prop :=
  zlen (g_process_table s) = MAX_PROCESSES /\
  Forall (fun p => length (name p) = 32%nat /\ is_u8 (ticks p)) (g_process_table s).

Lemma kernel_slot_spec p : length (name p) = 32%nat ->
  exists k, kernel_slot g_process_stacks p = Ok k /\
    pid k = 0 /\ state k = PROC_STATE_RUNNING /\ priority k = 0 /\
    ticks k = PROCESS_TIME_SLICE /\ stack_base k = g_process_stacks /\
    stack_size k = PROCESS_STACK_SIZE /\
    name k = [107; 101; 114; 110; 101; 108; 0] ++ drop 7 (name p).
Proof.
  intros Hl. unfold kernel_slot.
  change kernel_name with (cstr [107; 101; 114; 110; 101; 108] []).
  rewrite strcpy_cstr; [|repeat constructor; vm_compute; congruence|rewrite Hl; cbn; lia].
  step. by eexists.
Qed.

Lemma process_init_wf s : is_u32 g_process_stacks -> table_at_boot s ->
  exists s', process_init g_process_stacks s = Ok s' /\ proc_wf s' /\
    (forall i, 1 <= i < MAX_PROCESSES -> unused_at s' i).
Proof.
  intros Hstk [Hl Hb]. unfold process_init.
  assert (Hlc : zlen (clear_slot <$> g_process_table s) = MAX_PROCESSES)
    by (unfold zlen in *; by rewrite length_fmap).
  destruct (rd_total (clear_slot <$> g_process_table s) 0) as [p0 Hp0];
    [rewrite Hlc; done|].
  rewrite Hp0. step. apply rd_Ok in Hp0.
  assert (Hclear : forall i p, zget (clear_slot <$> g_process_table s) i = Some p ->
    state p = PROC_STATE_UNUSED /\ priority p = 128 /\ is_u8 (ticks p) /\
    length (name p) = 32%nat).
  { intros i p Hp. apply zget_Some in Hp as [_ Hp].
    apply list_lookup_fmap_Some in Hp as (q & -> & Hq).
    eapply Forall_lookup_1 in Hb as [? ?]; [|exact Hq]. cbn.
    by rewrite length_insert. }
  destruct (Hclear 0 p0 Hp0) as (_ & _ & _ & Hn0).
  destruct (kernel_slot_spec p0 Hn0) as (k & -> & Hk). step.
  rewrite wr_in by (rewrite Hlc; done). step. eexists. split; [done|].
  set (t := clear_slot <$> g_process_table s) in *.
  set (s0 := ProcState t 0 1 1).
  assert (Hat : forall j, at_slot (ProcState (<[Z.to_nat 0 := k]> t) 0 1 1) j =
    if j =? 0 then Some k else at_slot s0 j)
    by (intros j; exact (at_slot_upd s0 0 j k p0 Hp0)).
  destruct Hk as (Hk1 & Hk2 & Hk3 & Hk4 & Hk5 & Hk6 & Hk7).
  split.
  - split; [split; cbn [g_process_table g_current_pid g_process_count g_next_pid];
      [by rewrite zlen_insert | done | done | vm_compute; split; congruence | | |]|].
    + intros i p. rewrite Hat. destruct (Z.eqb_spec i 0) as [->|]; intros Hp.
      * injection Hp as <-. split; rewrite ?Hk3, ?Hk4, ?Hk7.
        -- vm_compute; split; congruence.
        -- vm_compute; split; congruence.
        -- rewrite length_app, length_drop, Hn0. done.
        -- intros _. rewrite Hk5. split_and!; [done| |done|].
           ++ rewrite u32_id; unfold is_u32 in *; lia.
           ++ apply elem_of_app. left. by apply (bool_decide_unpack _).
      * destruct (Hclear i p Hp) as (Hu & Hpr & Ht & Hnm).
        split; [rewrite Hpr; vm_compute; split; congruence|done|done|done].
    + intros p. rewrite Hat. intros [= <-]. congruence.
    + intros i p. rewrite Hat. destruct (Z.eqb_spec i 0) as [->|]; intros Hp; [by left|].
      intros Hst. destruct (Hclear i p Hp). congruence.
    + exists k. by rewrite Hat.
  - intros i Hi. destruct (proj1 (zget_Ok_iff t i) ltac:(lia)) as [p Hp].
    exists p. rewrite Hat. destruct (Z.eqb_spec i 0); [lia|].
    split; [done|]. by apply (Hclear i).
Qed.
End Invariant.

(** ** Counting slots *)

Definition is_unused (p : process_t) : Prop := state p = PROC_STATE_UNUSED.
(** READY, RUNNING or BLOCKED: what [g_process_count] is meant to count. *)
Definition is_live (p : process_t) : Prop :=
  state p <> PROC_STATE_UNUSED /\ state p <> PROC_STATE_TERMINATED.

#[global] Instance is_unused_dec p : Decision (is_unused p) := decide _.
#[global] Instance is_live_dec p : Decision (is_live p) := decide _.

Definition unused_slots (s : proc_state) : Z := countP is_unused (g_process_table s).
Definition live_slots (s : proc_state) : Z := countP is_live (g_process_table s).

(** The spawns of a run that returned a PID. *)
Fixpoint spawn_count (ops : list proc_op) (rs : list Z) : Z :=
  match ops, rs with
  | OpSpawn _ _ _ _ :: ops', r :: rs' => (if 0 <? r then 1 else 0) + spawn_count ops' rs'
  | _ :: ops', _ :: rs' => spawn_count ops' rs'
  | _, _ => 0
  end.

Lemma countP_upd (P : process_t -> Prop) `{!forall p, Decision (P p)} s i p p' :
  at_slot s i = Some p ->
  countP P (<[Z.to_nat i := p']> (g_process_table s)) =
    countP P (g_process_table s) - (if decide (P p) then 1 else 0)
      + (if decide (P p') then 1 else 0).
Proof. intros [_ Hp]%zget_Some. by apply countP_insert. Qed.

Lemma countP_upd_same (P : process_t -> Prop) `{!forall p, Decision (P p)} s i p p' :
  at_slot s i = Some p -> (P p <-> P p') ->
  countP P (<[Z.to_nat i := p']> (g_process_table s)) = countP P (g_process_table s).
Proof.
  intros Hp Hiff. rewrite (countP_upd P s i p p' Hp). repeat case_decide; tauto || lia.
Qed.

Section Counting.
Variable g_process_stacks : Z.
Abbreviation wf0 := (wf0 g_process_stacks).
Abbreviation proc_wf := (proc_wf g_process_stacks).

Lemma schedule_countP (P : process_t -> Prop) `{!forall p, Decision (P p)} s s' n :
  (forall j p, at_slot s j = Some p -> P p <-> P (switched s n j p)) ->
  zlen (g_process_table s) = zlen (g_process_table s') ->
  (forall j, at_slot s' j = switched s n j <$> at_slot s j) ->
  countP P (g_process_table s') = countP P (g_process_table s).
Proof.
  intros HP Hl Hat. symmetry. apply countP_ext, Forall2_same_length_lookup.
  split; [unfold zlen in Hl; lia|]. intros i x y Hx Hy.
  assert (Hx' : at_slot s (Z.of_nat i) = Some x)
    by (apply zget_Some; rewrite Nat2Z.id; split; [lia|done]).
  assert (Hy' : at_slot s' (Z.of_nat i) = Some y)
    by (apply zget_Some; rewrite Nat2Z.id; split; [lia|done]).
  rewrite Hat, Hx' in Hy'. injection Hy' as <-. by apply HP.
Qed.

Lemma schedule_unused s s' : wf0 s -> process_schedule s = Ok s' ->
  unused_slots s' = unused_slots s.
Proof.
  intros Hwf Hs. destruct (schedule_spec _ s Hwf)
    as (n & s2 & _ & Hs2 & Hr & Hch & _ & _ & _ & Hl & Hat).
  rewrite Hs in Hs2. injection Hs2 as <-.
  apply schedule_countP with n; [|rewrite Hl; apply Hwf|done].
  intros j p Hp. unfold is_unused, switched.
  destruct (Z.eqb_spec j n) as [->|].
  - pose proof (chosen_used _ _ _ _ Hwf Hch Hp). cbn. by split.
  - destruct (_ && is_state _ _) eqn:E; [|done].
    apply andb_true_iff in E as [_ E]. apply is_state_true in E. cbn. by rewrite E.
Qed.

Lemma terminate_unused s i p code now :
  at_slot s i = Some p -> state p <> PROC_STATE_UNUSED ->
  countP is_unused (<[Z.to_nat i := terminate code now p]> (g_process_table s)) =
  unused_slots s.
Proof. intros Hp Hu. eapply countP_upd_same; [done|]. by unfold is_unused; cbn. Qed.

Lemma exit_unused s s' code now : proc_wf s -> process_exit code now s = Ok s' ->
  unused_slots s' = unused_slots s.
Proof.
  intros [Hwf (p & Hp & Hst)] E. unfold process_exit in E.
  rewrite (current_spec _ _ Hwf), (upd_slot_spec _ _ _ _ Hp), bind_ret in E.
  apply schedule_unused in E.
  - rewrite E. apply terminate_unused; congruence.
  - apply wf0_count; [|apply u8_range].
    eapply wf0_upd; [done|exact Hp| |done|done].
    apply slot_ok_terminate; [by apply Hwf|congruence].
Qed.

Lemma kill_unused s s' v now r : proc_wf s -> 0 <= v ->
  process_kill v now s = Ok (r, s') -> unused_slots s' = unused_slots s.
Proof.
  intros [Hwf Hrun] Hv Hs.
  destruct (get_spec _ s v Hwf Hv) as [[Hg _]|(p & Hg & Hp & Hu)].
  { unfold process_kill in Hs. rewrite Hg, bind_ret in Hs. by injection Hs as _ <-. }
  destruct (Z.eq_dec v 0) as [->|Hne].
  { unfold process_kill in Hs. rewrite Hg, bind_ret in Hs. by injection Hs as _ <-. }
  destruct (kill_spec _ s v p now Hwf ltac:(lia) Hp Hu) as [Hwf1 E]. rewrite E in Hs.
  destruct (g_current_pid s =? v).
  - apply res_bind_Ok in Hs as (s2 & Hs2 & [= _ <-]).
    rewrite (schedule_unused _ _ Hwf1 Hs2). by apply terminate_unused.
  - injection Hs as _ <-. by apply terminate_unused.
Qed.

Lemma tick_unused s s' : proc_wf s -> process_tick s = Ok s' ->
  unused_slots s' = unused_slots s.
Proof.
  intros [Hwf (p & Hp & Hst)] Hs. unfold process_tick in Hs.
  rewrite (current_spec _ _ Hwf), (proj2 (slot_Ok _ _ _) Hp), bind_ret in Hs.
  apply res_bind_Ok in Hs as (s1 & Hs1 & Hs).
  assert (H1 : wf0 s1 /\ unused_slots s1 = unused_slots s).
  { destruct (0 <? ticks p) eqn:E; [|by injection Hs1 as <-].
    rewrite (upd_slot_spec _ _ _ _ Hp) in Hs1. injection Hs1 as <-. split.
    - eapply wf0_upd; [done|exact Hp| |cbn; congruence|done].
      apply slot_ok_set_ticks; [by apply Hwf|].
      pose proof (so_ticks _ _ _ (wf_slots _ _ Hwf _ _ Hp)). unfold is_u8 in *. lia.
    - eapply countP_upd_same; [done|]. by unfold is_unused; cbn. }
  destruct H1 as [Hwf1 <-].
  apply res_bind_Ok in Hs as (q & _ & Hs). destruct (ticks q =? 0).
  - by apply (schedule_unused _ _ Hwf1).
  - by injection Hs as <-.
Qed.

(** A slot leaves UNUSED only by being given out by [process_spawn], and
    nothing ever brings it back. *)
Lemma step_unused op s r s' : proc_wf s -> op_ok op ->
  proc_step g_process_stacks op s = Ok (r, s') ->
  unused_slots s' + spawn_count [op] [r] = unused_slots s.
Proof.
  intros Hwf Hop Hs.
  destruct op as [nm e pr now|code now|v now| |]; cbn [proc_step op_ok spawn_count] in *;
    rewrite ?Z.add_0_r.
  - destruct Hop as [(str & z & -> & Hstr) Hpr].
    destruct (spawn_spec _ s str z e pr now (proj1 Hwf) Hstr)
      as [[E _]|(np & old & nx & Hr & Hold & Hu & Hnx & E)]; rewrite E in Hs;
      injection Hs as <- <-; [cbn; lia|]. unfold unused_slots. cbn [g_process_table].
    rewrite (countP_upd is_unused s np old _ Hold).
    rewrite decide_True by done. rewrite decide_False by done.
    replace (0 <? np) with true by lia. lia.
  - apply res_bind_Ok in Hs as (s2 & Hs2 & [= _ <-]). by eapply exit_unused.
  - eapply kill_unused; [done| |done]. unfold is_u32 in Hop. lia.
  - apply res_bind_Ok in Hs as (s2 & Hs2 & [= _ <-]).
    by apply schedule_unused; [apply Hwf|].
  - apply res_bind_Ok in Hs as (s2 & Hs2 & [= _ <-]). by apply tick_unused.
Qed.

Lemma run_unused ops : forall s rs s', proc_wf s -> Forall op_ok ops ->
  proc_run g_process_stacks ops s = Ok (rs, s') ->
  unused_slots s' + spawn_count ops rs = unused_slots s.
Proof.
  induction ops as [|op ops IH]; intros s rs s' Hwf Hops Hs; cbn [proc_run] in Hs.
  { injection Hs as <- <-. cbn. lia. }
  apply Forall_cons in Hops as [Hop Hops].
  destruct (step_wf _ op s Hop Hwf) as (r & s1 & E & Hwf1). rewrite E, bind_ret in Hs.
  apply res_bind_Ok in Hs as ([rs1 s2] & Hs & [= <- <-]).
  apply (IH s1 _ _ Hwf1 Hops) in Hs. apply (step_unused _ _ _ _ Hwf Hop) in E.
  destruct op; cbn [spawn_count] in *; lia.
Qed.
End Counting.

(** ** Progress on the ring *)

Lemma ring_dist_less c n j :
  0 <= c < MAX_PROCESSES -> 0 <= n < MAX_PROCESSES -> 0 <= j < MAX_PROCESSES ->
  n <> j -> ring_dist c n <= ring_dist c j ->
  ring_dist n j + ring_dist c n = ring_dist c j.
Proof.
  unfold ring_dist, MAX_PROCESSES. intros. Z.div_mod_to_equations. lia.
Qed.

Fixpoint schedule_times (k : nat) (s : proc_state) : res proc_state :=
  match k with
  | O => Ok s
  | S k' => s ← process_schedule s; schedule_times k' s
  end.

Lemma ready_reached stk d : forall s j, wf0 stk s -> ready_at s j ->
  ring_dist (g_current_pid s) j <= Z.of_nat d ->
  exists k s', (1 <= k <= d)%nat /\ schedule_times k s = Ok s' /\ g_current_pid s' = j.
Proof.
  induction d as [|d IH]; intros s j Hwf Hrdy Hd.
  { pose proof (ring_dist_range (g_current_pid s) j). lia. }
  destruct (schedule_spec _ s Hwf) as (n & s' & _ & Hs' & Hr & Hch & Hc & _ & _ & _ & Hat).
  destruct (Z.eq_dec n j) as [->|Hne].
  { exists 1%nat, s'. cbn [schedule_times]. rewrite Hs'. step. split_and!; [lia|lia|done|done]. }
  destruct Hch as [[_ Hmin]|[_ Hno]]; [|by destruct (Hno j)].
  specialize (Hmin j Hrdy).
  destruct Hrdy as (p & Hp & Hst). pose proof (at_range _ _ _ _ Hwf Hp) as Hj.
  pose proof (ring_dist_less _ _ _ (wf_cur _ _ Hwf) Hr Hj Hne Hmin).
  pose proof (ring_dist_range (g_current_pid s) n).
  destruct (schedule_wf _ s Hwf) as (s2 & E & Hwf2).
  rewrite Hs' in E. injection E as <-.
  destruct (IH s' j (proj1 Hwf2)) as (k & s2 & Hk & Hs2 & Hc2).
  - exists p. split; [|done]. rewrite Hat, Hp. cbn. f_equal. unfold switched.
    replace (j =? n) with false by lia.
    rewrite (proj2 (is_state_false _ _)) by congruence. by rewrite andb_false_r.
  - rewrite Hc. lia.
  - exists (S k), s2. split; [lia|]. cbn [schedule_times]. rewrite Hs'. by step.
Qed.

(** ** Properties *)

Definition zero_process : process_t :=
  {| pid := 0; parent_pid := 0; state := PROC_STATE_UNUSED; priority := 0; ticks := 0;
     stack_base := 0; stack_size := 0; context := CpuContext 0 0 0 0 0 0 0 0 0 0;
     entry_point := 0; exit_code := 0; name := replicate 32 0; created_ticks := 0;
     terminated_ticks := 0 |}.

(** The zero-filled globals before [process_init]. *)
Definition boot_state : proc_state :=
  {| g_process_table := replicate 32 zero_process; g_current_pid := 0;
     g_process_count := 0; g_next_pid := 1 |}.

Definition ex_name : list Z := cstr [115; 104] [].
Definition ex_ops : list proc_op :=
  [OpSpawn ex_name 0x1000 5 1; OpSpawn ex_name 0x2000 1 2; OpSchedule; OpTick;
   OpKill 1 3; OpExit 7 4; OpSchedule].

Lemma boot_ok : table_at_boot boot_state.
Proof.
  split; [done|]. repeat (apply Forall_cons; split; [split; [done|vm_compute; split; congruence]|]).
  constructor.
Qed.

Lemma ex_ops_ok : Forall op_ok ex_ops.
Proof.
  assert (H : exists str r, ex_name = cstr str r /\ nul_free str).
  { exists [115; 104], []. split; [done|]. repeat constructor; vm_compute; congruence. }
  repeat (apply Forall_cons; split; [first [exact I | split; [exact H|vm_compute; split; congruence]
    | vm_compute; split; congruence]|]). constructor.
Qed.

(** C1.  From start-up on, no sequence of spawns, exits,
    kills, timer ticks and context switches takes the process manager outside
    its table or leaves it inconsistent: every operation returns, and afterwards
    the current process is a RUNNING slot, nobody else but the kernel is
    RUNNING, and every slot in use carries its own index as PID, its own 4 KiB
    stack and a terminated name. *)
Theorem process_never_faults stk s0 ops :
  is_u32 stk -> table_at_boot s0 -> Forall op_ok ops ->
  exists s1 rs s2, process_init stk s0 = Ok s1 /\
    proc_run stk ops s1 = Ok (rs, s2) /\ proc_wf stk s2.
Proof.
  intros Hstk Hb Hops. destruct (process_init_wf stk s0 Hstk Hb) as (s1 & -> & Hwf & _).
  destruct (run_wf stk ops s1 Hops Hwf) as (rs & s2 & ? & ?). by exists s1, rs, s2.
Qed.

Lemma process_never_faults_witness :
  (s1 ← process_init 0x8000 boot_state; '(rs, s2) ← proc_run 0x8000 ex_ops s1;
   Ok (rs, g_current_pid s2)) = Ok ([1; 2; 0; 0; 0; 0; 0], 0) /\
  exists s1 rs s2, process_init 0x8000 boot_state = Ok s1 /\
    proc_run 0x8000 ex_ops s1 = Ok (rs, s2) /\ proc_wf 0x8000 s2.
Proof.
  split; [vm_compute; reflexivity|].
  apply (process_never_faults 0x8000 boot_state ex_ops);
    [vm_compute; split; congruence | apply boot_ok | apply ex_ops_ok].
Defined.

(** C19.  A context switch hands the processor to the first READY
    slot after the current one on the ring of 32 (to the kernel when none is
    READY), marks it RUNNING with a fresh time slice, puts the old process back
    to READY unless it is the kernel or no longer RUNNING, and leaves every
    other slot and the counters alone. *)
Theorem schedule_chooses stk s :
  proc_wf stk s ->
  exists n s', process_find_next s = Ok n /\ process_schedule s = Ok s' /\
    chosen s n /\ g_current_pid s' = n /\
    g_process_count s' = g_process_count s /\ g_next_pid s' = g_next_pid s /\
    forall j, at_slot s' j = switched s n j <$> at_slot s j.
Proof.
  intros [Hwf _].
  destruct (schedule_spec stk s Hwf) as (n & s' & ? & ? & ? & ? & ? & ? & ? & ? & ?).
  by exists n, s'.
Qed.

Definition ex_state : proc_state :=
  match (s1 ← process_init 0x8000 boot_state;
         proc_run 0x8000 [OpSpawn ex_name 0x1000 5 1; OpSpawn ex_name 0x2000 1 2; OpSchedule] s1)
  with Ok (_, s) => s | Err _ => boot_state end.

Lemma ex_state_wf : proc_wf 0x8000 ex_state.
Proof.
  destruct (process_init_wf 0x8000 boot_state) as (s1 & E1 & Hwf & _);
    [vm_compute; split; congruence | apply boot_ok |].
  destruct (run_wf 0x8000 [OpSpawn ex_name 0x1000 5 1; OpSpawn ex_name 0x2000 1 2; OpSchedule] s1)
    as (rs & s2 & E2 & Hwf2); [|done|].
  { pose proof ex_ops_ok as H. exact (Forall_take op_ok 3%nat ex_ops H). }
  unfold ex_state. rewrite E1, bind_ret, E2. done.
Qed.

Lemma schedule_chooses_witness :
  process_find_next ex_state = Ok 2 /\
  exists n s', process_find_next ex_state = Ok n /\ process_schedule ex_state = Ok s' /\
    chosen ex_state n /\ g_current_pid s' = n /\
    g_process_count s' = g_process_count ex_state /\ g_next_pid s' = g_next_pid ex_state /\
    forall j, at_slot s' j = switched ex_state n j <$> at_slot ex_state j.
Proof.
  split; [vm_compute; reflexivity|]. apply (schedule_chooses 0x8000 ex_state ex_state_wf).
Defined.

(** C20.  No READY process waits longer than its distance from the
    current one on the ring: within that many context switches, 32 at most, it
    is the current process. *)
Theorem no_starvation stk s j :
  proc_wf stk s -> ready_at s j ->
  exists k s', (1 <= k)%nat /\ Z.of_nat k <= ring_dist (g_current_pid s) j <= 32 /\
    schedule_times k s = Ok s' /\ g_current_pid s' = j.
Proof.
  intros [Hwf _] Hr. pose proof (ring_dist_range (g_current_pid s) j) as Hd.
  destruct (ready_reached stk (Z.to_nat (ring_dist (g_current_pid s) j)) s j Hwf Hr)
    as (k & s' & Hk & Hs' & Hc); [lia|].
  unfold MAX_PROCESSES in Hd. exists k, s'. split_and!; [lia..|done|done].
Qed.

Lemma no_starvation_witness :
  exists k s', (1 <= k)%nat /\ Z.of_nat k <= ring_dist (g_current_pid ex_state) 2 <= 32 /\
    schedule_times k ex_state = Ok s' /\ g_current_pid s' = 2.
Proof.
  apply (no_starvation 0x8000 ex_state 2 ex_state_wf).
  eexists. split; [vm_compute; reflexivity | reflexivity].
Defined.

(** Creating a process either takes an UNUSED slot
    other than the kernel's and fills it (PID, parent, READY, priority, time
    slice, stack, initial context, entry point, the name cut to 31 characters and
    terminated), leaving every other slot as it was and counting one process
    more, or fails with -1 and changes nothing; it fails only when no such slot
    is left. *)
Lemma spawn_fills_free_slot stk s str r entry prio now :
  proc_wf stk s -> nul_free str ->
  (process_spawn stk (cstr str r) entry prio now s = Ok (-1, s) /\
   forall i, 1 <= i < MAX_PROCESSES -> ~ unused_at s i) \/
  (exists newpid old s', 1 <= newpid < MAX_PROCESSES /\
     at_slot s newpid = Some old /\ state old = PROC_STATE_UNUSED /\
     process_spawn stk (cstr str r) entry prio now s = Ok (newpid, s') /\
     at_slot s' newpid =
       Some (spawned stk old newpid (g_current_pid s) str entry prio now) /\
     (forall j, j <> newpid -> at_slot s' j = at_slot s j) /\
     g_current_pid s' = g_current_pid s /\
     g_process_count s' = u8 (g_process_count s + 1)).
Proof.
  intros [Hwf _] Hs.
  destruct (spawn_spec stk s str r entry prio now Hwf Hs)
    as [?|(np & old & nx & Hr & Hold & Hu & Hnx & E)]; [by left|right].
  eexists np, old, _. split_and!; [lia|lia|done|done|exact E| | |done|done].
  - apply zget_insert_eq. by apply zget_lt in Hold.
  - intros j Hj. apply zget_insert_ne; lia.
Qed.

Lemma spawn_fills_free_slot_witness :
  (exists s', process_spawn 0x8000 (cstr [97] []) 7 3 9 ex_state = Ok (3, s')) /\
  ((process_spawn 0x8000 (cstr [97] []) 7 3 9 ex_state = Ok (-1, ex_state) /\
   forall i, 1 <= i < MAX_PROCESSES -> ~ unused_at ex_state i) \/
  (exists newpid old s', 1 <= newpid < MAX_PROCESSES /\
     at_slot ex_state newpid = Some old /\ state old = PROC_STATE_UNUSED /\
     process_spawn 0x8000 (cstr [97] []) 7 3 9 ex_state = Ok (newpid, s') /\
     at_slot s' newpid =
       Some (spawned 0x8000 old newpid (g_current_pid ex_state) [97] 7 3 9) /\
     (forall j, j <> newpid -> at_slot s' j = at_slot ex_state j) /\
     g_current_pid s' = g_current_pid ex_state /\
     g_process_count s' = u8 (g_process_count ex_state + 1))).
Proof.
  split; [eexists; vm_compute; reflexivity|].
  apply (spawn_fills_free_slot 0x8000 ex_state [97] [] 7 3 9 ex_state_wf).
  repeat constructor; vm_compute; congruence.
Defined.

(** Slots of dead processes are never given back: over
    any run, the number of successful spawns is exactly the number of UNUSED slots
    that disappeared, whatever was killed or exited meanwhile; after start-up at
    most 31 spawns ever succeed. *)
Lemma slots_never_recycled stk s0 ops :
  is_u32 stk -> table_at_boot s0 -> Forall op_ok ops ->
  exists s1 rs s2, process_init stk s0 = Ok s1 /\ proc_run stk ops s1 = Ok (rs, s2) /\
    unused_slots s2 + spawn_count ops rs = unused_slots s1 /\ spawn_count ops rs <= 31.
Proof.
  intros Hstk Hb Hops. destruct (process_init_wf stk s0 Hstk Hb) as (s1 & E1 & Hwf & _).
  destruct (run_wf stk ops s1 Hops Hwf) as (rs & s2 & E2 & Hwf2).
  exists s1, rs, s2. pose proof (run_unused stk ops s1 rs s2 Hwf Hops E2).
  split_and!; [done..|].
  assert (unused_slots s1 <= 31).
  { destruct Hwf as [Hwf _]. destruct (wf_at _ s1 0 Hwf ltac:(done)) as [k Hk].
    pose proof (wf_kernel _ _ Hwf k Hk). pose proof (countP_upd is_unused s1 0 k zero_process Hk).
    rewrite decide_False, decide_True in * by done.
    pose proof (countP_bounds is_unused (<[Z.to_nat 0:=zero_process]> (g_process_table s1))).
    rewrite zlen_insert, (wf_len _ _ Hwf) in *. unfold unused_slots, MAX_PROCESSES in *. lia. }
  pose proof (countP_bounds is_unused (g_process_table s2)). unfold unused_slots in *. lia.
Qed.

Lemma slots_never_recycled_witness :
  exists s1 rs s2, process_init 0x8000 boot_state = Ok s1 /\
    proc_run 0x8000 ex_ops s1 = Ok (rs, s2) /\
    unused_slots s2 + spawn_count ex_ops rs = unused_slots s1 /\ spawn_count ex_ops rs <= 31.
Proof.
  apply (slots_never_recycled 0x8000 boot_state ex_ops);
    [vm_compute; split; congruence | apply boot_ok | apply ex_ops_ok].
Defined.

(** [process_kill] does not look at whether its target
    is still alive: killing a process that is already TERMINATED succeeds and
    takes one off the process count although no live slot disappears, so the
    count drifts from the number of live processes. *)
Lemma kill_twice_miscounts stk s i p now :
  proc_wf stk s -> 0 < i -> at_slot s i = Some p -> state p = PROC_STATE_TERMINATED ->
  0 < g_process_count s ->
  exists s', process_kill i now s = Ok (0, s') /\
    g_process_count s' = g_process_count s - 1 /\ live_slots s' = live_slots s.
Proof.
  intros [Hwf Hrun] Hi Hp Hst Hn.
  destruct (kill_spec stk s i p now Hwf Hi Hp ltac:(congruence)) as [_ ->].
  destruct Hrun as (q & Hq & Hqst).
  destruct (Z.eqb_spec (g_current_pid s) i) as [E|E]; [rewrite E in Hq; congruence|].
  eexists. split; [done|]. split.
  - cbn [g_process_count set_count]. replace (0 <? g_process_count s) with true by lia.
    pose proof (wf_count _ _ Hwf). apply u8_id. unfold is_u8 in *. lia.
  - unfold live_slots. cbn [g_process_table set_count set_table].
    eapply countP_upd_same; [done|]. unfold is_live; cbn. rewrite Hst. done.
Qed.

Lemma kill_twice_miscounts_witness :
  exists s1 s2, process_kill 2 5 ex_state = Ok (0, s1) /\
    g_process_count s1 = 2 /\ live_slots s1 = 2 /\
    process_kill 2 6 s1 = Ok (0, s2) /\
    g_process_count s2 = g_process_count s1 - 1 /\ live_slots s2 = live_slots s1.
Proof.
  destruct (kill_wf 0x8000 ex_state 2 5 ex_state_wf ltac:(lia)) as (r & s1 & E & Hwf).
  assert (Ek : process_kill 2 5 ex_state =
    match process_kill 2 5 ex_state with Ok (_, s) => Ok (0, s) | Err e => Err e end)
    by (vm_compute; reflexivity).
  rewrite E in Ek. injection Ek as ->.
  assert (Hs1 : s1 = match process_kill 2 5 ex_state with Ok (_, s) => s | _ => boot_state end)
    by (by rewrite E).
  destruct (at_slot s1 2) as [p|] eqn:Hp; [|rewrite Hs1 in Hp; vm_compute in Hp; discriminate].
  destruct (kill_twice_miscounts 0x8000 s1 2 p 6 Hwf ltac:(lia) Hp) as (s2 & ? & ? & ?).
  - rewrite Hs1 in Hp. vm_compute in Hp. injection Hp as <-. reflexivity.
  - rewrite Hs1. vm_compute. reflexivity.
  - exists s1, s2. split_and!; [done| | |done|done|done]; rewrite Hs1; vm_compute; reflexivity.
Defined.

(** The scheduler's choice does not depend on the
    priorities: two tables whose slots have the same states are scheduled alike,
    whatever the (byte) priorities. *)
Lemma priority_is_ignored stk1 stk2 s1 s2 :
  wf0 stk1 s1 -> wf0 stk2 s2 -> g_current_pid s1 = g_current_pid s2 ->
  (forall i, state <$> at_slot s1 i = state <$> at_slot s2 i) ->
  process_find_next s1 = process_find_next s2.
Proof.
  intros H1 H2 Hc Hst.
  assert (Hr : forall j, ready_at s1 j <-> ready_at s2 j).
  { intros j. specialize (Hst j). unfold ready_at.
    destruct (at_slot s1 j), (at_slot s2 j); cbn in Hst; try discriminate;
      [injection Hst as Hst|]; split; intros (x & Hx & Hxs); try discriminate;
      injection Hx as <-; (eexists; split; [done|congruence]). }
  destruct (find_next_spec stk1 s1 H1) as (n1 & -> & Hr1 & C1).
  destruct (find_next_spec stk2 s2 H2) as (n2 & -> & Hr2 & C2). f_equal.
  destruct C1 as [[R1 M1]|[-> N1]], C2 as [[R2 M2]|[-> N2]].
  - rewrite <- Hc in M2. specialize (M1 n2 (proj2 (Hr _) R2)). specialize (M2 n1 (proj1 (Hr _) R1)).
    rewrite <- (ring_dist_step (g_current_pid s1) n1 Hr1).
    rewrite <- (ring_dist_step (g_current_pid s1) n2 Hr2). do 2 f_equal. lia.
  - exfalso. by apply (N2 n1), Hr.
  - exfalso. by apply (N1 n2), Hr.
  - done.
Qed.

Lemma priority_is_ignored_witness :
  process_find_next ex_state =
    process_find_next (set_table (set_priority 200 <$> g_process_table ex_state) ex_state).
Proof.
  assert (Hat : forall i, at_slot (set_table (set_priority 200 <$> g_process_table ex_state) ex_state) i
    = set_priority 200 <$> at_slot ex_state i).
  { intros i. unfold at_slot, zget. cbn [g_process_table set_table].
    destruct (0 <=? i); [apply list_lookup_fmap|done]. }
  destruct ex_state_wf as [Hwf _].
  apply (priority_is_ignored 0x8000 0x8000); [done| |reflexivity|].
  - split; [vm_compute; reflexivity | apply Hwf | apply Hwf | apply Hwf | | |].
    + intros i p Hp. rewrite Hat in Hp. destruct (at_slot ex_state i) eqn:E; [|done].
      injection Hp as <-. destruct (wf_slots _ _ Hwf _ _ E). by split.
    + intros p Hp. rewrite Hat in Hp. destruct (at_slot ex_state 0) eqn:E; [|done].
      injection Hp as <-. exact (wf_kernel _ _ Hwf _ E).
    + intros i p Hp Hr. rewrite Hat in Hp. destruct (at_slot ex_state i) eqn:E; [|done].
      injection Hp as <-. exact (wf_running _ _ Hwf i _ E Hr).
  - intros i. rewrite Hat. by destruct (at_slot ex_state i).
Defined.
