(* ===== verification/Ipc.v ===== *)
(** * Ipc: pipes and message queues, src/src/kernel/ipc.c

    [g_pipes] and [g_queues] are the two tables; a queue's [buffer] is the
    bytes of the block [malloc] gave it.  Where a pipe records its owner, the
    caller passes the PID that [process_current()] leads to.  An access past
    the end of a buffer is [Err OutOfBounds], a remainder by zero is
    [Err DivByZero]. *)

From S2P Require Import Prelude Memory.

Definition IPC_MAX_PIPES : Z := 32.
Definition IPC_BUFFER_SIZE : Z := 256.

Record ipc_pipe_t := Pipe {
  buffer : list Z;            (* uint32_t buffer[256] *)
  read_pos : Z;
  write_pos : Z;
  message_count : Z;
  in_use : Z;
  owner_pid : Z
}.

Record ipc_queue_t := Queue {
  q_buffer : option (list Z); (* NULL or the block *)
  front : Z;
  rear : Z;
  size : Z;
  max_size : Z;
  q_in_use : Z
}.

Record ipc := Ipc {
  g_pipes : list ipc_pipe_t;
  g_queues : list ipc_queue_t
}.

Definition set_pipes (ps : list ipc_pipe_t) (s : ipc) : ipc :=
  {| g_pipes := ps; g_queues := g_queues s |}.
Definition set_queues (qs : list ipc_queue_t) (s : ipc) : ipc :=
  {| g_pipes := g_pipes s; g_queues := qs |}.

Definition reset_pipe (p : ipc_pipe_t) : ipc_pipe_t :=
  {| buffer := buffer p; read_pos := 0; write_pos := 0; message_count := 0;
     in_use := 0; owner_pid := owner_pid p |}.
Definition reset_queue (q : ipc_queue_t) : ipc_queue_t :=
  {| q_buffer := None; front := 0; rear := 0; size := 0; max_size := 0; q_in_use := 0 |}.

Definition ipc_init (s : ipc) : ipc :=
  {| g_pipes := reset_pipe <$> g_pipes s; g_queues := reset_queue <$> g_queues s |}.

(** [for (i = 0; i < IPC_MAX_PIPES; i++) if (!table[i].in_use) { id = i; break; }] *)
Fixpoint find_free {A} (used : A -> Z) (fuel : nat) (t : list A) (i : Z) : res Z :=
  match fuel with
  | O => Ok (-1)
  | S f =>
      x ← rd t i;
      if used x =? 0 then Ok i else find_free used f t (i + 1)
  end.

Definition bad_id (id : Z) : bool := (id <? 0) || (IPC_MAX_PIPES <=? id).

(** ** Pipes *)

Definition ipc_pipe_create (owner : Z) (s : ipc) : res (Z * ipc) :=
  pipe_id ← find_free in_use 32 (g_pipes s) 0;
  if pipe_id <? 0 then Ok (-1, s) else
  p ← rd (g_pipes s) pipe_id;
  ps ← wr (g_pipes s) pipe_id
    {| buffer := buffer p; read_pos := 0; write_pos := 0; message_count := 0;
       in_use := 1; owner_pid := owner |};
  Ok (pipe_id, set_pipes ps s).

Definition ipc_pipe_close (pipe_id : Z) (s : ipc) : res (Z * ipc) :=
  if bad_id pipe_id then Ok (-1, s) else
  p ← rd (g_pipes s) pipe_id;
  if in_use p =? 0 then Ok (-1, s) else
  ps ← wr (g_pipes s) pipe_id
    {| buffer := buffer p; read_pos := read_pos p; write_pos := write_pos p;
       message_count := message_count p; in_use := 0; owner_pid := owner_pid p |};
  Ok (0, set_pipes ps s).

Definition ipc_pipe_write (pipe_id message : Z) (s : ipc) : res (Z * ipc) :=
  if bad_id pipe_id then Ok (-1, s) else
  p ← rd (g_pipes s) pipe_id;
  if in_use p =? 0 then Ok (-1, s) else
  if IPC_BUFFER_SIZE <=? message_count p then Ok (-1, s) else
  b ← wr (buffer p) (write_pos p) message;
  ps ← wr (g_pipes s) pipe_id
    {| buffer := b; read_pos := read_pos p;
       write_pos := u16 ((write_pos p + 1) mod IPC_BUFFER_SIZE);
       message_count := u32 (message_count p + 1);
       in_use := in_use p; owner_pid := owner_pid p |};
  Ok (0, set_pipes ps s).

(** [message] is the word the caller's pointer leads to: [None] is the null
    pointer.  The result is the return value and the new word. *)
Definition ipc_pipe_read (pipe_id : Z) (message : option Z) (s : ipc)
    : res (Z * option Z * ipc) :=
  match message with
  | None => Ok (-1, None, s)
  | Some old =>
      if bad_id pipe_id then Ok (-1, message, s) else
      p ← rd (g_pipes s) pipe_id;
      if in_use p =? 0 then Ok (-1, message, s) else
      if message_count p =? 0 then Ok (-1, message, s) else
      m ← rd (buffer p) (read_pos p);
      ps ← wr (g_pipes s) pipe_id
        {| buffer := buffer p; read_pos := u16 ((read_pos p + 1) mod IPC_BUFFER_SIZE);
           write_pos := write_pos p; message_count := u32 (message_count p - 1);
           in_use := in_use p; owner_pid := owner_pid p |};
      Ok (0, Some m, set_pipes ps s)
  end.

Definition ipc_pipe_has_data (pipe_id : Z) (s : ipc) : res Z :=
  if bad_id pipe_id then Ok 0 else
  p ← rd (g_pipes s) pipe_id;
  if in_use p =? 0 then Ok 0 else
  Ok (if 0 <? message_count p then 1 else 0).

(** ** Message queues *)

Definition ipc_queue_create (sz : Z) (h : heap) (s : ipc) : res (Z * heap * ipc) :=
  queue_id ← find_free q_in_use 32 (g_queues s) 0;
  if queue_id <? 0 then Ok (-1, h, s) else
  let '(ptr, h') := malloc sz h in
  if ptr =? NULL then Ok (-1, h', s) else
  qs ← wr (g_queues s) queue_id
    {| q_buffer := Some (fresh_block ptr sz h); front := 0; rear := 0; size := 0;
       max_size := sz; q_in_use := 1 |};
  Ok (queue_id, h', set_queues qs s).

(** [free] does nothing to the heap; the pointer stays in the slot. *)
Definition ipc_queue_destroy (queue_id : Z) (s : ipc) : res (Z * ipc) :=
  if bad_id queue_id then Ok (-1, s) else
  q ← rd (g_queues s) queue_id;
  if q_in_use q =? 0 then Ok (-1, s) else
  qs ← wr (g_queues s) queue_id
    {| q_buffer := q_buffer q; front := front q; rear := rear q; size := size q;
       max_size := max_size q; q_in_use := 0 |};
  Ok (0, set_queues qs s).

(** [a % b] on [uint32_t]. *)
Definition umod (a b : Z) : res Z := if b =? 0 then Err DivByZero else Ok (a mod b).

(** The copy into the ring: the new buffer and [rear]. *)
Definition queue_put (q : ipc_queue_t) (b data : list Z) (data_size : Z) : res (list Z * Z) :=
  let space_at_end := u32 (max_size q - rear q) in
  if data_size <=? space_at_end then
    b ← memcpy_at b (rear q) data 0 data_size;
    r ← umod (u32 (rear q + data_size)) (max_size q);
    Ok (b, r)
  else
    b ← memcpy_at b (rear q) data 0 space_at_end;
    b ← memcpy_at b 0 data space_at_end (data_size - space_at_end);
    Ok (b, data_size - space_at_end).

Definition ipc_queue_send (queue_id : Z) (data : option (list Z)) (data_size : Z) (s : ipc)
    : res (Z * ipc) :=
  match data with
  | None => Ok (-1, s)
  | Some data =>
      if bad_id queue_id then Ok (-1, s) else
      q ← rd (g_queues s) queue_id;
      if q_in_use q =? 0 then Ok (-1, s) else
      if max_size q <? u32 (size q + data_size) then Ok (-1, s) else
      match q_buffer q with
      | None => Err NullDeref
      | Some b =>
          '(b, r) ← queue_put q b data data_size;
          qs ← wr (g_queues s) queue_id
            {| q_buffer := Some b; front := front q; rear := r;
               size := u32 (size q + data_size); max_size := max_size q;
               q_in_use := q_in_use q |};
          Ok (0, set_queues qs s)
      end
  end.

(** The copy out of the ring: the new contents of [data] and [front]. *)
Definition queue_get (q : ipc_queue_t) (b data : list Z) (read_size : Z) : res (list Z * Z) :=
  let space_at_end := u32 (max_size q - front q) in
  if read_size <=? space_at_end then
    d ← memcpy_at data 0 b (front q) read_size;
    f ← umod (u32 (front q + read_size)) (max_size q);
    Ok (d, f)
  else
    d ← memcpy_at data 0 b (front q) space_at_end;
    d ← memcpy_at d space_at_end b 0 (read_size - space_at_end);
    Ok (d, read_size - space_at_end).

Definition ipc_queue_recv (queue_id : Z) (data : option (list Z)) (limit : Z) (s : ipc)
    : res (Z * option (list Z) * ipc) :=
  match data with
  | None => Ok (-1, None, s)
  | Some d =>
      if bad_id queue_id then Ok (-1, data, s) else
      q ← rd (g_queues s) queue_id;
      if q_in_use q =? 0 then Ok (-1, data, s) else
      if size q =? 0 then Ok (0, data, s) else
      let read_size := if limit <? size q then limit else size q in
      match q_buffer q with
      | None => Err NullDeref
      | Some b =>
          '(d, f) ← queue_get q b d read_size;
          qs ← wr (g_queues s) queue_id
            {| q_buffer := q_buffer q; front := f; rear := rear q;
               size := u32 (size q - read_size); max_size := max_size q;
               q_in_use := q_in_use q |};
          Ok (i32 read_size, Some d, set_queues qs s)
      end
  end.

Definition ipc_queue_size (queue_id : Z) (s : ipc) : res Z :=
  if bad_id queue_id then Ok 0 else
  q ← rd (g_queues s) queue_id;
  if q_in_use q =? 0 then Ok 0 else Ok (size q).

(** ** Rings: [n] cells of a buffer from [f] on, wrapping at its end *)

Section Ring.
Context {A : Type}.
Implicit Types (b d : list A).
Local Open Scope nat_scope.

Ltac nat_cases :=
  repeat match goal with
  | |- context [?a <? ?b] => destruct (Nat.ltb_spec a b)
  end.

(** An index below twice the length, brought back into the buffer. *)
Definition wrap (L a : nat) : nat := if a <? L then a else a - L.

Definition ring b (f n : nat) : list A := take n (drop f b ++ take f b).

Lemma wrap_lt L a : a < 2 * L -> wrap L a < L.
Proof. unfold wrap. destruct (Nat.ltb_spec a L); lia. Qed.

Lemma wrap_mod L a : 0 < L -> a < 2 * L -> wrap L a = a mod L.
Proof.
  intros HL Ha. unfold wrap. destruct (Nat.ltb_spec a L).
  - symmetry. by apply Nat.mod_small.
  - apply Nat.mod_unique with 1; lia.
Qed.

Lemma ring_length b f n : f <= length b -> n <= length b -> length (ring b f n) = n.
Proof. intros. unfold ring. rewrite length_take, length_app, length_drop, length_take. lia. Qed.

Lemma ring_lookup b f n k : f < length b -> n <= length b -> k < n ->
  ring b f n !! k = b !! wrap (length b) (f + k).
Proof.
  intros Hf Hn Hk. unfold ring, wrap. rewrite lookup_take_lt by done.
  destruct (Nat.ltb_spec (f + k) (length b)).
  - rewrite lookup_app_l by (rewrite length_drop; lia). by rewrite lookup_drop.
  - rewrite lookup_app_r by (rewrite length_drop; lia). rewrite length_drop.
    rewrite lookup_take_lt by lia. f_equal. lia.
Qed.

(** [b'] is [b] with [d] written from [r] on, around the end. *)
Definition ring_written b b' (r : nat) d : Prop :=
  length b' = length b /\
  forall t, t < length b ->
    b' !! wrap (length b) (r + t) =
      if t <? length d then d !! t else b !! wrap (length b) (r + t).

(** Writing behind the contents appends to them. *)
Lemma ring_append b b' f n d :
  f < length b -> n + length d <= length b ->
  ring_written b b' (wrap (length b) (f + n)) d ->
  ring b' f (n + length d) = ring b f n ++ d.
Proof.
  intros Hf Hn [Hl Hw]. apply list_eq. intros k.
  destruct (Nat.ltb_spec k (n + length d)) as [Hk|Hk].
  2:{ rewrite !lookup_ge_None_2; [done|rewrite length_app, ring_length; lia|rewrite ring_length; lia]. }
  rewrite ring_lookup by lia. rewrite Hl.
  assert (E : exists t, t < length b /\
    wrap (length b) (f + k) = wrap (length b) (wrap (length b) (f + n) + t) /\
    (if k <? n then length d <= t else t = k - n)).
  { unfold wrap. destruct (Nat.ltb_spec k n).
    - exists (length b + k - n). nat_cases; lia.
    - exists (k - n). nat_cases; lia. }
  destruct E as (t & Ht & E & Hkt). rewrite E, Hw by done.
  revert Hkt. destruct (Nat.ltb_spec k n) as [Hkn|Hkn]; intros Hkt.
  - rewrite (proj2 (Nat.ltb_ge t (length d))) by done.
    rewrite lookup_app_l by (rewrite ring_length; lia).
    rewrite ring_lookup by lia. by rewrite E.
  - subst t. rewrite (proj2 (Nat.ltb_lt (k - n) (length d))) by lia.
    rewrite lookup_app_r by (rewrite ring_length; lia). rewrite ring_length by lia. done.
Qed.

(** Advancing the front drops from the contents. *)
Lemma ring_drop b f n r :
  f < length b -> n <= length b -> r <= n ->
  ring b (wrap (length b) (f + r)) (n - r) = drop r (ring b f n).
Proof.
  intros Hf Hn Hr. pose proof (wrap_lt (length b) (f + r) ltac:(lia)).
  apply list_eq. intros k. rewrite lookup_drop.
  destruct (Nat.ltb_spec k (n - r)).
  - rewrite !ring_lookup by lia. f_equal. unfold wrap. nat_cases; lia.
  - rewrite !lookup_ge_None_2; [done|rewrite ring_length; lia..].
Qed.

Lemma ring_take b f n r : r <= n -> take r (ring b f n) = ring b f r.
Proof. intros. unfold ring. rewrite take_take. f_equal. lia. Qed.

(** One cell. *)
Lemma ring_written_insert b r x :
  r < length b -> ring_written b (<[r := x]> b) r [x].
Proof.
  intros Hr. split; [apply length_insert|]. intros t Ht. cbn [length].
  destruct (Nat.ltb_spec t 1).
  - assert (t = 0) as -> by lia. rewrite Nat.add_0_r.
    unfold wrap. destruct (Nat.ltb_spec r (length b)); [|lia].
    by rewrite list_lookup_insert_eq.
  - apply list_lookup_insert_ne. unfold wrap. nat_cases; lia.
Qed.
End Ring.

Lemma find_free_list_find {A} (used : A -> Z) (suf : list A) : forall pre,
  find_free used (length suf) (pre ++ suf) (zlen pre) =
    Ok (match list_find (fun x => used x = 0) suf with
        | Some (k, _) => zlen pre + Z.of_nat k
        | None => -1
        end).
Proof.
  induction suf as [|x suf IH]; intros pre; [done|]. cbn [find_free length].
  assert (E : rd (pre ++ x :: suf) (zlen pre) = Ok x).
  { apply rd_Ok, zget_Some. unfold zlen. rewrite Nat2Z.id, list_lookup_middle by done.
    split; [lia|done]. }
  rewrite E. step. cbn [list_find].
  destruct (Z.eqb_spec (used x) 0).
  - rewrite decide_True by done. f_equal. lia.
  - rewrite decide_False by done.
    replace (zlen pre + 1) with (zlen (pre ++ [x])) by (rewrite zlen_app; done).
    replace (pre ++ x :: suf) with ((pre ++ [x]) ++ suf) by (by rewrite <- (assoc_L app)).
    rewrite IH. destruct (list_find _ suf) as [[k y]|]; [|done]. cbn.
    rewrite zlen_app. unfold zlen. cbn [length]. f_equal. lia.
Qed.

Lemma list_find_Forall2 {A B} (P : A -> Prop) (Q : B -> Prop)
  `{!forall x, Decision (P x)} `{!forall y, Decision (Q y)} l1 l2 :
  Forall2 (fun x y => P x <-> Q y) l1 l2 ->
  fst <$> list_find P l1 = fst <$> list_find Q l2.
Proof.
  induction 1 as [|x y l1 l2 Hxy _ IH]; [done|]. cbn [list_find].
  repeat case_decide; [done|tauto|tauto|].
  destruct (list_find P l1) as [[? ?]|], (list_find Q l2) as [[? ?]|]; cbn in *; congruence.
Qed.

(** ** Pipes as bounded FIFO queues *)

(** The contract of the pipe interface: 32 descriptors, each closed ([None]) or
    holding the messages written and not yet read, oldest first. *)
Module Fifo.
Abbreviation state := (list (option (list Z))).

Definition init : state := replicate 32 None.

Definition create (a : state) : Z * state :=
  match list_find (fun x => x = None) a with
  | Some (k, _) => (Z.of_nat k, <[k := Some []]> a)
  | None => (-1, a)
  end.

Definition close (id : Z) (a : state) : Z * state :=
  match zget a id with
  | Some (Some _) => (0, <[Z.to_nat id := None]> a)
  | _ => (-1, a)
  end.

Definition write (id m : Z) (a : state) : Z * state :=
  match zget a id with
  | Some (Some l) =>
      if zlen l <? 256 then (0, <[Z.to_nat id := Some (l ++ [m])]> a) else (-1, a)
  | _ => (-1, a)
  end.

(** The word read, if any. *)
Definition read (id : Z) (a : state) : Z * option Z * state :=
  match zget a id with
  | Some (Some (m :: l)) => (0, Some m, <[Z.to_nat id := Some l]> a)
  | _ => (-1, None, a)
  end.

Definition has_data (id : Z) (a : state) : Z :=
  match zget a id with
  | Some (Some (_ :: _)) => 1
  | _ => 0
  end.
End Fifo.

Inductive pipe_op :=
| PCreate (owner : Z)
| PClose (id : Z)
| PWrite (id message : Z)
| PRead (id old : Z)
| PHasData (id : Z).

(** The return value, and for a read the word the pointer leads to. *)
Definition pipe_step (op : pipe_op) (s : ipc) : res (Z * option Z * ipc) :=
  match op with
  | PCreate owner => '(r, s) ← ipc_pipe_create owner s; Ok (r, None, s)
  | PClose id => '(r, s) ← ipc_pipe_close id s; Ok (r, None, s)
  | PWrite id m => '(r, s) ← ipc_pipe_write id m s; Ok (r, None, s)
  | PRead id old => ipc_pipe_read id (Some old) s
  | PHasData id => r ← ipc_pipe_has_data id s; Ok (r, None, s)
  end.

Definition fifo_step (op : pipe_op) (a : Fifo.state) : Z * option Z * Fifo.state :=
  match op with
  | PCreate _ => let '(r, a) := Fifo.create a in (r, None, a)
  | PClose id => let '(r, a) := Fifo.close id a in (r, None, a)
  | PWrite id m => let '(r, a) := Fifo.write id m a in (r, None, a)
  | PRead id old => let '(r, m, a) := Fifo.read id a in (r, Some (default old m), a)
  | PHasData id => (Fifo.has_data id a, None, a)
  end.

Fixpoint pipe_run (ops : list pipe_op) (s : ipc) : res (list (Z * option Z) * ipc) :=
  match ops with
  | [] => Ok ([], s)
  | op :: ops => '(r, m, s) ← pipe_step op s; '(rs, s) ← pipe_run ops s; Ok ((r, m) :: rs, s)
  end.

Fixpoint fifo_run (ops : list pipe_op) (a : Fifo.state) : list (Z * option Z) * Fifo.state :=
  match ops with
  | [] => ([], a)
  | op :: ops =>
      let '(r, m, a) := fifo_step op a in
      let '(rs, a) := fifo_run ops a in ((r, m) :: rs, a)
  end.

Record pipe_wf (p : ipc_pipe_t) : Prop := {
  pw_len : length (buffer p) = 256%nat;
  pw_read : 0 <= read_pos p < 256;
  pw_count : 0 <= message_count p <= 256;
  pw_write : write_pos p =
    Z.of_nat (wrap 256 (Z.to_nat (read_pos p) + Z.to_nat (message_count p)))
}.

Definition pipe_contents (p : ipc_pipe_t) : list Z :=
  ring (buffer p) (Z.to_nat (read_pos p)) (Z.to_nat (message_count p)).

Definition pipe_rel (p : ipc_pipe_t) (x : option (list Z)) : Prop :=
  pipe_wf p /\ x = if in_use p =? 0 then None else Some (pipe_contents p).

(** The simulation relation. *)
Definition pipes_rel (s : ipc) (a : Fifo.state) : Prop :=
  Forall2 pipe_rel (g_pipes s) a /\ length a = 32%nat.

Lemma pipes_rel_zlen s a : pipes_rel s a -> zlen (g_pipes s) = 32 /\ zlen a = 32.
Proof. intros [H Hl]. apply Forall2_length in H. unfold zlen. lia. Qed.

Lemma bad_id_spec {A} (l : list A) id : zlen l = 32 ->
  (bad_id id = true /\ zget l id = None) \/ (bad_id id = false /\ 0 <= id < zlen l).
Proof.
  intros Hl. unfold bad_id, IPC_MAX_PIPES. destruct ((id <? 0) || (32 <=? id)) eqn:E.
  - left. split; [done|]. destruct (zget l id) eqn:Eg; [|done]. apply zget_lt in Eg. lia.
  - right. split; [done|]. lia.
Qed.

(** A descriptor is rejected by both sides, or known to both. *)
Lemma pipe_lookup s a id : pipes_rel s a ->
  (bad_id id = true /\ zget a id = None) \/
  (bad_id id = false /\ 0 <= id < 32 /\ exists p x,
     rd (g_pipes s) id = Ok p /\ zget a id = Some x /\ pipe_rel p x).
Proof.
  intros HR. pose proof (pipes_rel_zlen _ _ HR) as [Hs Ha].
  destruct (bad_id_spec a id Ha) as [?|[Hb Hi]]; [by left|right].
  destruct (rd_total (g_pipes s) id ltac:(lia)) as [p Hp].
  split; [done|]. split; [lia|].
  apply rd_Ok in Hp as Hg. apply zget_Some in Hg as [_ Hg].
  destruct (Forall2_lookup_l _ _ _ _ _ (proj1 HR) Hg) as (x & Hx & Hr).
  exists p, x. split_and!; [done| |done]. apply zget_Some. split; [lia|done].
Qed.

Lemma pipe_update s a id p x : pipes_rel s a -> 0 <= id < 32 -> pipe_rel p x ->
  exists ps, wr (g_pipes s) id p = Ok ps /\
    pipes_rel (set_pipes ps s) (<[Z.to_nat id := x]> a).
Proof.
  intros HR Hi Hp. pose proof (pipes_rel_zlen _ _ HR) as [Hs Ha].
  eexists. split; [apply wr_in; lia|]. destruct HR as [HR Hl]. split.
  - by apply Forall2_insert.
  - by rewrite length_insert.
Qed.

Lemma pipe_rel_closed p : pipe_wf p -> in_use p = 0 -> pipe_rel p None.
Proof. intros ? E. split; [done|]. by rewrite E. Qed.

Lemma zmod_wrap L (a : nat) : (0 < L)%nat -> (a < 2 * L)%nat ->
  Z.of_nat a mod Z.of_nat L = Z.of_nat (wrap L a).
Proof. intros. rewrite wrap_mod by done. by rewrite Nat2Z.inj_mod. Qed.

(** The position after [w] when [w] is itself brought back from [a]. *)
Lemma wrap_succ L a : (0 < L)%nat -> (a < 2 * L)%nat ->
  wrap L (wrap L a + 1) = wrap L (a + 1 - if (a + 1 <? 2 * L)%nat then 0 else L).
Proof.
  intros. unfold wrap.
  repeat match goal with |- context [(?x <? ?y)%nat] => destruct (Nat.ltb_spec x y) end; lia.
Qed.

Lemma next_pos (w : nat) : (w < 256)%nat ->
  u16 ((Z.of_nat w + 1) mod IPC_BUFFER_SIZE) = Z.of_nat (wrap 256 (w + 1)).
Proof.
  intros Hw. change IPC_BUFFER_SIZE with (Z.of_nat 256).
  replace (Z.of_nat w + 1) with (Z.of_nat (w + 1)) by lia.
  rewrite zmod_wrap by lia. apply u16_id. pose proof (wrap_lt 256 (w + 1) ltac:(lia)).
  unfold is_u16. lia.
Qed.

Lemma pipe_write_rel p m : pipe_wf p -> in_use p <> 0 -> message_count p < 256 ->
  exists b, wr (buffer p) (write_pos p) m = Ok b /\
    pipe_rel {| buffer := b; read_pos := read_pos p;
                write_pos := u16 ((write_pos p + 1) mod IPC_BUFFER_SIZE);
                message_count := u32 (message_count p + 1);
                in_use := in_use p; owner_pid := owner_pid p |}
             (Some (pipe_contents p ++ [m])).
Proof.
  intros [Hl Hr Hc Hw] Hu Hn.
  set (f := Z.to_nat (read_pos p)) in *. set (n := Z.to_nat (message_count p)) in *.
  assert (Hf : (f < 256)%nat) by lia. assert (Hn' : (n < 256)%nat) by lia.
  pose proof (wrap_lt 256 (f + n) ltac:(lia)) as Hwl.
  eexists. split; [apply wr_in; unfold zlen; lia|].
  rewrite Hw, Nat2Z.id, next_pos by done.
  rewrite u32_id by (unfold is_u32; lia).
  split.
  - split; cbn [buffer read_pos write_pos message_count]; [by rewrite length_insert|done|lia|].
    f_equal. fold f. replace (Z.to_nat (message_count p + 1)) with (n + 1)%nat by lia.
    rewrite wrap_succ by lia.
    destruct (Nat.ltb_spec (f + n + 1) (2 * 256)); [f_equal; lia|lia].
  - cbn [in_use]. rewrite (proj2 (Z.eqb_neq _ _) Hu). f_equal.
    unfold pipe_contents. cbn [buffer read_pos message_count]. fold f n.
    replace (Z.to_nat (message_count p + 1)) with (n + length [m])%nat by (cbn; lia).
    symmetry. apply ring_append; rewrite Hl; [done|cbn; lia|].
    apply ring_written_insert. by rewrite Hl.
Qed.

Lemma pipe_read_rel p : pipe_wf p -> in_use p <> 0 -> message_count p <> 0 ->
  exists m l, pipe_contents p = m :: l /\ rd (buffer p) (read_pos p) = Ok m /\
    pipe_rel {| buffer := buffer p; read_pos := u16 ((read_pos p + 1) mod IPC_BUFFER_SIZE);
                write_pos := write_pos p; message_count := u32 (message_count p - 1);
                in_use := in_use p; owner_pid := owner_pid p |} (Some l).
Proof.
  intros [Hl Hr Hc Hw] Hu Hn. unfold pipe_contents.
  set (f := Z.to_nat (read_pos p)) in *. set (n := Z.to_nat (message_count p)) in *.
  assert (Hf : (f < length (buffer p))%nat) by (rewrite Hl; lia).
  destruct (lookup_lt_is_Some_2 (buffer p) f Hf) as [m Hm].
  assert (H0 : ring (buffer p) f n !! 0%nat = Some m).
  { rewrite ring_lookup by (rewrite ?Hl; lia). rewrite Nat.add_0_r. unfold wrap.
    by rewrite (proj2 (Nat.ltb_lt _ _) Hf). }
  pose proof (ring_drop (buffer p) f n 1 Hf ltac:(lia) ltac:(lia)) as Hd.
  destruct (ring (buffer p) f n) as [|m' l] eqn:E; [done|]. cbn in H0. injection H0 as ->.
  exists m, l. split; [done|]. split; [apply rd_Ok, zget_Some; split; [lia|done]|].
  replace (read_pos p) with (Z.of_nat f) by lia. rewrite next_pos by lia.
  rewrite u32_id by (unfold is_u32; lia). rewrite Hl in Hd.
  pose proof (wrap_lt 256 (f + 1) ltac:(lia)).
  split.
  - split; cbn [buffer read_pos write_pos message_count]; [done|lia|lia|].
    rewrite Hw. f_equal. rewrite Nat2Z.id.
    replace (Z.to_nat (message_count p - 1)) with (n - 1)%nat by lia.
    unfold wrap.
    repeat match goal with |- context [(?x <? ?y)%nat] => destruct (Nat.ltb_spec x y) end; lia.
  - cbn [in_use]. rewrite (proj2 (Z.eqb_neq _ _) Hu). f_equal.
    unfold pipe_contents. cbn [buffer read_pos message_count]. rewrite Nat2Z.id.
    replace (Z.to_nat (message_count p - 1)) with (n - 1)%nat by lia. rewrite Hd. done.
Qed.

(** One operation at a time. *)
Lemma create_refines s a owner : pipes_rel s a ->
  exists s', ipc_pipe_create owner s = Ok ((Fifo.create a).1, s') /\
    pipes_rel s' (Fifo.create a).2.
Proof.
  intros HR. pose proof (pipes_rel_zlen _ _ HR) as [Hs Ha].
  unfold ipc_pipe_create, Fifo.create.
  pose proof (find_free_list_find in_use (g_pipes s) []) as Hf.
  replace (length (g_pipes s)) with 32%nat in Hf by (unfold zlen in Hs; lia).
  change ([] ++ g_pipes s) with (g_pipes s) in Hf. change (zlen []) with 0 in Hf.
  rewrite Hf. step.
  assert (Hsame : fst <$> list_find (fun p => in_use p = 0) (g_pipes s) =
                  fst <$> list_find (fun x => x = None) a).
  { apply list_find_Forall2. eapply Forall2_impl; [exact (proj1 HR)|].
    intros p x [_ ->]. destruct (Z.eqb_spec (in_use p) 0); by split. }
  destruct (list_find (fun p => in_use p = 0) (g_pipes s)) as [[k p]|] eqn:Ep;
    destruct (list_find (fun x => x = None) a) as [[k' x]|] eqn:Ex; try done.
  - injection Hsame as <-. rewrite (proj2 (Z.ltb_ge (0 + Z.of_nat k) 0)) by lia.
    apply list_find_Some in Ep as (Hp & _ & _).
    apply list_find_Some in Ex as (Hx & _ & _). apply lookup_lt_Some in Hx.
    rewrite Z.add_0_l.
    assert (E : rd (g_pipes s) (Z.of_nat k) = Ok p)
      by (apply rd_Ok, zget_Some; rewrite Nat2Z.id; split; [lia|done]).
    rewrite E. step.
    destruct (Forall2_lookup_l _ _ _ _ _ (proj1 HR) Hp) as (y & _ & [Hwf _]).
    destruct (pipe_update s a (Z.of_nat k)
      {| buffer := buffer p; read_pos := 0; write_pos := 0; message_count := 0;
         in_use := 1; owner_pid := owner |} (Some []) HR) as (ps & -> & HR').
    + rewrite (proj2 HR) in Hx. lia.
    + split; [|done]. split; cbn; [apply Hwf|done|done|done].
    + step. rewrite Nat2Z.id in HR'. by exists (set_pipes ps s).
  - by exists s.
Qed.

Lemma pipe_step_refines op s a : pipes_rel s a ->
  exists s', pipe_step op s = Ok ((fifo_step op a).1, s') /\ pipes_rel s' (fifo_step op a).2.
Proof.
  intros HR. destruct op as [owner|id|id m|id old|id]; cbn [pipe_step fifo_step].
  - destruct (create_refines s a owner HR) as (s' & -> & HR'). step.
    destruct (Fifo.create a) as [r a']. by exists s'.
  - unfold ipc_pipe_close, Fifo.close.
    destruct (pipe_lookup s a id HR) as [[-> ->]|(-> & Hi & p & x & -> & -> & [Hwf ->])]; step.
    { by exists s. }
    destruct (Z.eqb_spec (in_use p) 0) as [E|E]; [step; by exists s|].
    destruct (pipe_update s a id
      {| buffer := buffer p; read_pos := read_pos p; write_pos := write_pos p;
         message_count := message_count p; in_use := 0; owner_pid := owner_pid p |} None HR Hi)
      as (ps & -> & HR'); [by apply pipe_rel_closed; [destruct Hwf; split|]|].
    step. by eexists.
  - unfold ipc_pipe_write, Fifo.write.
    destruct (pipe_lookup s a id HR) as [[-> ->]|(-> & Hi & p & x & -> & -> & [Hwf ->])]; step.
    { by exists s. }
    destruct (Z.eqb_spec (in_use p) 0) as [E|E]; [step; by exists s|].
    assert (Hlen : zlen (pipe_contents p) = message_count p).
    { destruct Hwf. unfold zlen, pipe_contents. rewrite ring_length; lia. }
    rewrite Hlen. unfold IPC_BUFFER_SIZE at 1. destruct (Z.ltb_spec (message_count p) 256).
    + replace (256 <=? message_count p) with false by lia.
      destruct (pipe_write_rel p m Hwf E) as (b & -> & Hp); [done|]. step.
      destruct (pipe_update s a id _ _ HR Hi Hp) as (ps & -> & HR'). step. by eexists.
    + replace (256 <=? message_count p) with true by lia. step. by exists s.
  - unfold ipc_pipe_read, Fifo.read.
    destruct (pipe_lookup s a id HR) as [[-> ->]|(-> & Hi & p & x & -> & -> & [Hwf ->])]; step.
    { by exists s. }
    destruct (Z.eqb_spec (in_use p) 0) as [E|E]; [by exists s|].
    destruct (Z.eqb_spec (message_count p) 0) as [E0|E0].
    + unfold pipe_contents. rewrite E0. cbn. by exists s.
    + destruct (pipe_read_rel p Hwf E E0) as (m & l & -> & -> & Hp). step.
      destruct (pipe_update s a id _ _ HR Hi Hp) as (ps & -> & HR'). step. by eexists.
  - unfold ipc_pipe_has_data, Fifo.has_data.
    destruct (pipe_lookup s a id HR) as [[-> ->]|(-> & Hi & p & x & -> & -> & [Hwf ->])]; step.
    { by exists s. }
    destruct (Z.eqb_spec (in_use p) 0) as [E|E]; [step; by exists s|].
    destruct (Z.ltb_spec 0 (message_count p)) as [E0|E0].
    + destruct (pipe_read_rel p Hwf E ltac:(lia)) as (m & l & -> & _). step. by exists s.
    + destruct Hwf. replace (message_count p) with 0 by lia. unfold pipe_contents.
      replace (message_count p) with 0 by lia. step. by exists s.
Qed.

Lemma pipe_run_refines ops : forall s a, pipes_rel s a ->
  exists s', pipe_run ops s = Ok ((fifo_run ops a).1, s') /\ pipes_rel s' (fifo_run ops a).2.
Proof.
  induction ops as [|op ops IH]; intros s a HR; cbn [pipe_run fifo_run].
  { by exists s. }
  destruct (pipe_step_refines op s a HR) as (s1 & E & HR1). rewrite E, bind_ret.
  destruct (fifo_step op a) as [[r m] a1]. cbn [fst snd] in *. cbv beta iota.
  destruct (IH s1 a1 HR1) as (s2 & -> & HR2). step.
  destruct (fifo_run ops a1) as [rs a2]. by exists s2.
Qed.

(** The tables after [ipc_init], whatever they held. *)
Definition ipc_tables_ok (s : ipc) : Prop :=
  length (g_pipes s) = 32%nat /\ length (g_queues s) = 32%nat /\
  Forall (fun p => length (buffer p) = 256%nat) (g_pipes s).

Lemma ipc_init_rel s : ipc_tables_ok s -> pipes_rel (ipc_init s) Fifo.init.
Proof.
  intros (Hl & _ & Hb). split; [|done]. unfold Fifo.init, ipc_init. cbn [g_pipes].
  apply Forall2_same_length_lookup_2; [by rewrite length_fmap, Hl, length_replicate|].
  intros i p x Hp Hx. apply lookup_replicate in Hx as [-> _].
  apply list_lookup_fmap_Some in Hp as (q & -> & Hq).
  eapply Forall_lookup_1 in Hb; [|exact Hq].
  apply pipe_rel_closed; [|done]. by split.
Qed.

Definition ipc_boot : ipc :=
  {| g_pipes := replicate 32 (Pipe (replicate 256 0) 0 0 0 0 0);
     g_queues := replicate 32 (Queue None 0 0 0 0 0) |}.

Lemma ipc_boot_ok : ipc_tables_ok ipc_boot.
Proof. split_and!; [done|done|]. by apply Forall_replicate. Qed.

(** ** Message queues as bounded byte streams *)

(** The contract: 32 descriptors, each closed or a capacity and the bytes sent
    and not yet received.  A send takes all its bytes or none; a receive takes
    as many as fit. *)
Module Stream.
Abbreviation state := (list (option (Z * list Z))).

Definition init : state := replicate 32 None.

(** [room]: whether the heap can still serve the request. *)
Definition create (sz : Z) (room : bool) (a : state) : Z * state :=
  match list_find (fun x => x = None) a with
  | Some (k, _) => if room then (Z.of_nat k, <[k := Some (sz, [])]> a) else (-1, a)
  | None => (-1, a)
  end.

Definition destroy (id : Z) (a : state) : Z * state :=
  match zget a id with
  | Some (Some _) => (0, <[Z.to_nat id := None]> a)
  | _ => (-1, a)
  end.

Definition send (id : Z) (data : list Z) (n : Z) (a : state) : Z * state :=
  match zget a id with
  | Some (Some (cap, l)) =>
      if cap <? zlen l + n then (-1, a)
      else (0, <[Z.to_nat id := Some (cap, l ++ take (Z.to_nat n) data)]> a)
  | _ => (-1, a)
  end.

(** The return value and the new contents of the destination. *)
Definition recv (id : Z) (dest : list Z) (limit : Z) (a : state) : Z * list Z * state :=
  match zget a id with
  | Some (Some (cap, l)) =>
      let n := Z.min limit (zlen l) in
      (n, take (Z.to_nat n) l ++ drop (Z.to_nat n) dest,
       <[Z.to_nat id := Some (cap, drop (Z.to_nat n) l)]> a)
  | _ => (-1, dest, a)
  end.

Definition size (id : Z) (a : state) : Z :=
  match zget a id with
  | Some (Some (_, l)) => zlen l
  | _ => 0
  end.
End Stream.

Inductive queue_op :=
| QCreate (sz : Z)
| QDestroy (id : Z)
| QSend (id : Z) (data : list Z) (n : Z)
| QRecv (id : Z) (dest : list Z) (limit : Z)
| QSize (id : Z).

Definition queue_step (op : queue_op) (h : heap) (s : ipc)
    : res (Z * option (list Z) * heap * ipc) :=
  match op with
  | QCreate sz => '(r, h, s) ← ipc_queue_create sz h s; Ok (r, None, h, s)
  | QDestroy id => '(r, s) ← ipc_queue_destroy id s; Ok (r, None, h, s)
  | QSend id data n => '(r, s) ← ipc_queue_send id (Some data) n s; Ok (r, None, h, s)
  | QRecv id dest limit => '(r, d, s) ← ipc_queue_recv id (Some dest) limit s; Ok (r, d, h, s)
  | QSize id => r ← ipc_queue_size id s; Ok (r, None, h, s)
  end.

Definition stream_step (op : queue_op) (h : heap) (a : Stream.state)
    : Z * option (list Z) * Stream.state :=
  match op with
  | QCreate sz => let '(r, a) := Stream.create sz (heap_ptr h + sz <? HEAP_END) a in (r, None, a)
  | QDestroy id => let '(r, a) := Stream.destroy id a in (r, None, a)
  | QSend id data n => let '(r, a) := Stream.send id data n a in (r, None, a)
  | QRecv id dest limit => let '(r, d, a) := Stream.recv id dest limit a in (r, Some d, a)
  | QSize id => (Stream.size id a, None, a)
  end.

(** The sizes C's callers can pass without arithmetic wrapping, buffers as long
    as announced, and no empty queue. *)
Definition queue_op_ok (op : queue_op) : Prop :=
  match op with
  | QCreate sz => 0 < sz <= MALLOC_SAFE
  | QSend _ data n => 0 <= n < 2 ^ 31 /\ n <= zlen data
  | QRecv _ dest limit => 0 <= limit <= zlen dest
  | _ => True
  end.

Record queue_wf (q : ipc_queue_t) (b : list Z) : Prop := {
  qw_len : zlen b = max_size q;
  qw_max : 0 < max_size q <= HEAP_SIZE;
  qw_front : 0 <= front q < max_size q;
  qw_size : 0 <= size q <= max_size q;
  qw_rear : rear q = Z.of_nat (wrap (length b) (Z.to_nat (front q) + Z.to_nat (size q)))
}.

Definition queue_rel (q : ipc_queue_t) (x : option (Z * list Z)) : Prop :=
  match x with
  | None => q_in_use q = 0
  | Some (cap, l) =>
      q_in_use q <> 0 /\ exists b, q_buffer q = Some b /\ queue_wf q b /\
        cap = max_size q /\ l = ring b (Z.to_nat (front q)) (Z.to_nat (size q))
  end.

Definition queues_rel (s : ipc) (a : Stream.state) : Prop :=
  Forall2 queue_rel (g_queues s) a /\ length a = 32%nat.

(** *** The two copies *)

Lemma slice_full {A} (l : list A) n : slice l 0 n = take (Z.to_nat n) l.
Proof. unfold slice. by rewrite drop_0. Qed.

Lemma umod_wrap (L a : nat) : (0 < L)%nat -> (a < 2 * L)%nat ->
  umod (Z.of_nat a) (Z.of_nat L) = Ok (Z.of_nat (wrap L a)).
Proof.
  intros. unfold umod. rewrite (proj2 (Z.eqb_neq _ _)) by lia. by rewrite zmod_wrap.
Qed.

(** Both halves of the copy write [data] around the end of the ring. *)
Lemma queue_put_spec q b data n r :
  zlen b = max_size q -> 0 < max_size q <= HEAP_SIZE ->
  rear q = Z.of_nat r -> (r < length b)%nat ->
  0 <= n <= max_size q -> n <= zlen data ->
  exists b', queue_put q b data n = Ok (b', Z.of_nat (wrap (length b) (r + Z.to_nat n))) /\
    ring_written b b' r (take (Z.to_nat n) data).
Proof.
  unfold HEAP_SIZE. intros Hb Hm Hr Hlt Hn Hd. unfold queue_put.
  assert (Hspace : u32 (max_size q - rear q) = max_size q - Z.of_nat r)
    by (rewrite Hr; apply u32_id; unfold is_u32, zlen in *; lia).
  rewrite Hspace. unfold zlen in *.
  assert (Hwr : forall m, 0 <= m <= n -> m <= max_size q - Z.of_nat r ->
    memcpy_at b (rear q) data 0 m =
    Ok (take r b ++ take (Z.to_nat m) data ++ drop (r + Z.to_nat m) b)).
  { intros m Hm0 Hm1. rewrite Hr, memcpy_at_spec by (unfold zlen; lia).
    rewrite slice_full, Nat2Z.id. do 4 f_equal. lia. }
  destruct (Z.leb_spec n (max_size q - Z.of_nat r)) as [Hfit|Hwrap].
  - rewrite Hwr by lia. step. rewrite Hr, u32_id by (unfold is_u32; lia).
    rewrite <- Hb. replace (Z.of_nat r + n) with (Z.of_nat (r + Z.to_nat n)) by lia.
    rewrite umod_wrap by lia. step. eexists. split; [done|].
    split; [rewrite !length_app, length_take, length_take, length_drop; lia|].
    intros t Ht. rewrite length_take. unfold wrap.
    destruct (Nat.ltb_spec t (Z.to_nat n `min` length data)), (Nat.ltb_spec (r + t) (length b)); try lia.
    + rewrite lookup_app_r by (rewrite length_take; lia). rewrite length_take.
      rewrite lookup_app_l by (rewrite length_take; lia). f_equal. lia.
    + rewrite lookup_app_r by (rewrite length_take; lia). rewrite length_take.
      rewrite lookup_app_r by (rewrite length_take; lia). rewrite length_take, lookup_drop.
      f_equal. lia.
    + rewrite lookup_app_l by (rewrite length_take; lia). rewrite lookup_take_lt by lia. done.
  - rewrite Hwr by lia. step. set (sp := max_size q - Z.of_nat r) in *.
    set (b1 := take r b ++ take (Z.to_nat sp) data ++ drop (r + Z.to_nat sp) b).
    assert (Hl1 : length b1 = length b)
      by (unfold b1; rewrite !length_app, length_take, length_take, length_drop; lia).
    rewrite memcpy_at_spec by (unfold zlen; lia). step.
    eexists. split; [f_equal; f_equal; unfold wrap;
      destruct (Nat.ltb_spec (r + Z.to_nat n) (length b)); lia|].
    change (take (Z.to_nat 0) b1) with (@nil Z). cbn [app].
    assert (Hls : length (slice data sp (n - sp)) = Z.to_nat (n - sp)).
    { unfold slice. rewrite length_take, length_drop. lia. }
    split; [rewrite length_app, length_drop, Hls; lia|].
    intros t Ht. rewrite length_take. unfold wrap.
    destruct (Nat.ltb_spec t (Z.to_nat n `min` length data)), (Nat.ltb_spec (r + t) (length b)); try lia.
    + rewrite lookup_app_r, Hls, lookup_drop by lia. unfold b1.
      rewrite lookup_app_r by (rewrite length_take; lia). rewrite length_take.
      rewrite lookup_app_l by (rewrite length_take; lia).
      rewrite !lookup_take_lt by lia. f_equal. lia.
    + rewrite lookup_app_l by lia. unfold slice. rewrite !lookup_take_lt, lookup_drop by lia.
      f_equal. lia.
    + rewrite lookup_app_r, Hls, lookup_drop by lia. unfold b1.
      rewrite lookup_app_l by (rewrite length_take; lia). rewrite lookup_take_lt by lia.
      f_equal. lia.
Qed.

Lemma queue_get_spec q b dest n f :
  zlen b = max_size q -> 0 < max_size q <= HEAP_SIZE ->
  front q = Z.of_nat f -> (f < length b)%nat ->
  0 <= n <= max_size q -> n <= zlen dest ->
  queue_get q b dest n =
    Ok (ring b f (Z.to_nat n) ++ drop (Z.to_nat n) dest,
        Z.of_nat (wrap (length b) (f + Z.to_nat n))).
Proof.
  unfold HEAP_SIZE. intros Hb Hm Hf Hlt Hn Hd. unfold queue_get.
  assert (Hspace : u32 (max_size q - front q) = max_size q - Z.of_nat f)
    by (rewrite Hf; apply u32_id; unfold is_u32, zlen in *; lia).
  rewrite Hspace. unfold zlen in *.
  assert (Hrd : forall m, 0 <= m <= n -> m <= max_size q - Z.of_nat f ->
    memcpy_at dest 0 b (front q) m =
    Ok (take (Z.to_nat m) (drop f b) ++ drop (Z.to_nat m) dest)).
  { intros m Hm0 Hm1. rewrite Hf, memcpy_at_spec by (unfold zlen; lia).
    unfold slice. by rewrite Nat2Z.id. }
  destruct (Z.leb_spec n (max_size q - Z.of_nat f)) as [Hfit|Hwrap].
  - rewrite Hrd by lia. step. rewrite Hf, u32_id by (unfold is_u32; lia).
    rewrite <- Hb. replace (Z.of_nat f + n) with (Z.of_nat (f + Z.to_nat n)) by lia.
    rewrite umod_wrap by lia. step. do 3 f_equal.
    unfold ring. by rewrite take_app_le by (rewrite length_drop; lia).
  - rewrite Hrd by lia. step. set (sp := max_size q - Z.of_nat f) in *.
    assert (Hsp : length (drop f b) = Z.to_nat sp) by (rewrite length_drop; lia).
    rewrite (take_ge (drop f b)) by lia.
    rewrite memcpy_at_spec by (unfold zlen; rewrite ?length_app, ?length_drop; lia). step.
    f_equal. f_equal.
    + rewrite <- Hsp, take_app_length, slice_full.
      rewrite drop_app_ge, drop_drop by lia.
      unfold ring. rewrite take_app_ge by lia. rewrite take_take, <- (assoc_L app), Hsp.
      f_equal. f_equal; f_equal; lia.
    + unfold wrap. destruct (Nat.ltb_spec (f + Z.to_nat n) (length b)); lia.
Qed.

(** *** Simulation *)

Lemma queue_lookup s a id : queues_rel s a ->
  (bad_id id = true /\ zget a id = None) \/
  (bad_id id = false /\ 0 <= id < 32 /\ exists q x,
     rd (g_queues s) id = Ok q /\ zget a id = Some x /\ queue_rel q x).
Proof.
  intros HR. assert (Ha : zlen a = 32) by (unfold zlen; by rewrite (proj2 HR)).
  assert (Hs : zlen (g_queues s) = 32)
    by (destruct HR as [H Hl]; apply Forall2_length in H; unfold zlen; lia).
  destruct (bad_id_spec a id Ha) as [?|[Hb Hi]]; [by left|right].
  destruct (rd_total (g_queues s) id ltac:(lia)) as [q Hq].
  split; [done|]. split; [lia|].
  apply rd_Ok in Hq as Hg. apply zget_Some in Hg as [_ Hg].
  destruct (Forall2_lookup_l _ _ _ _ _ (proj1 HR) Hg) as (x & Hx & Hr).
  exists q, x. split_and!; [done| |done]. apply zget_Some. split; [lia|done].
Qed.

Lemma queue_update s a id q x : queues_rel s a -> 0 <= id < 32 -> queue_rel q x ->
  exists qs, wr (g_queues s) id q = Ok qs /\
    queues_rel (set_queues qs s) (<[Z.to_nat id := x]> a).
Proof.
  intros [HR Hl] Hi Hq. eexists. split.
  - apply wr_in. apply Forall2_length in HR. unfold zlen. lia.
  - split; [by apply Forall2_insert | by rewrite length_insert].
Qed.

Lemma queue_create_refines s a sz h : queues_rel s a -> heap_wf h -> 0 < sz <= MALLOC_SAFE ->
  let '(r, a') := Stream.create sz (heap_ptr h + sz <? HEAP_END) a in
  exists h' s', ipc_queue_create sz h s = Ok (r, h', s') /\ queues_rel s' a' /\ heap_wf h'.
Proof.
  intros HR Hh Hsz. unfold ipc_queue_create, Stream.create.
  assert (Hs : length (g_queues s) = 32%nat)
    by (destruct HR as [H Hl]; apply Forall2_length in H; lia).
  pose proof (find_free_list_find q_in_use (g_queues s) []) as Hf. rewrite Hs in Hf.
  change ([] ++ g_queues s) with (g_queues s) in Hf. change (zlen []) with 0 in Hf.
  rewrite Hf.
  assert (Hsame : fst <$> list_find (fun p => q_in_use p = 0) (g_queues s) =
                  fst <$> list_find (fun x => x = None) a).
  { apply list_find_Forall2. eapply Forall2_impl; [exact (proj1 HR)|].
    intros q [[cap l]|]; cbn; [intros [? _]; by split | done]. }
  destruct (list_find (fun p => q_in_use p = 0) (g_queues s)) as [[k q]|] eqn:Ep;
    destruct (list_find (fun x => x = None) a) as [[k' x]|] eqn:Ex; try done; step.
  - injection Hsame as <-. rewrite (proj2 (Z.ltb_ge (0 + Z.of_nat k) 0)) by lia.
    apply list_find_Some in Ex as (Hx & _ & _). apply lookup_lt_Some in Hx.
    rewrite (proj2 HR) in Hx. rewrite Z.add_0_l.
    destruct (malloc_cases sz h Hh ltac:(lia)) as [[-> E]|[-> E]].
    + rewrite (proj2 (Z.ltb_ge _ _)) by lia. cbn. by exists h, s.
    + rewrite (proj2 (Z.ltb_lt _ _)) by lia.
      assert (HEAP_SIZE = HEAP_END - HEAP_START) by done. unfold heap_wf, NULL in *.
      rewrite (proj2 (Z.eqb_neq _ _)) by (unfold HEAP_START in *; lia).
      destruct (queue_update s a (Z.of_nat k)
        {| q_buffer := Some (fresh_block (heap_ptr h) sz h); front := 0; rear := 0; size := 0;
           max_size := sz; q_in_use := 1 |} (Some (sz, [])) HR) as (qs & -> & HR'); [lia| |].
      { cbn. split; [done|]. eexists. split; [done|]. split; [|done].
        pose proof (fresh_block_length (heap_ptr h) sz h ltac:(lia)) as Hl.
        split; cbn; [done|lia|lia|lia|]. unfold wrap.
        destruct (Nat.ltb_spec (Z.to_nat 0 + Z.to_nat 0) (length (fresh_block (heap_ptr h) sz h)));
          unfold zlen in Hl; lia. }
      step. rewrite Nat2Z.id in HR'. eexists _, _. split; [done|]. split; [done|]. cbn. lia.
  - cbn. by exists h, s.
Qed.

Lemma queue_send_refines s a id data n : queues_rel s a ->
  0 <= n < 2 ^ 31 -> n <= zlen data ->
  let '(r, a') := Stream.send id data n a in
  exists s', ipc_queue_send id (Some data) n s = Ok (r, s') /\ queues_rel s' a'.
Proof.
  intros HR Hn Hd. unfold ipc_queue_send, Stream.send.
  destruct (queue_lookup s a id HR) as [[-> ->]|(-> & Hi & q & x & -> & -> & Hq)]; step.
  { by exists s. }
  destruct x as [[cap l]|]; cbn in Hq; [|rewrite Hq; by exists s].
  destruct Hq as (Hu & b & Hb & Hwf & -> & ->). rewrite (proj2 (Z.eqb_neq _ _) Hu).
  pose proof Hwf as [Hlen Hmax Hfr Hsz Hrear]. unfold HEAP_SIZE in Hmax.
  rewrite u32_id by (unfold is_u32; lia).
  set (f := Z.to_nat (front q)) in *. set (k := Z.to_nat (size q)) in *.
  assert (Hring : length (ring b f k) = k) by (apply ring_length; unfold zlen in *; lia).
  replace (zlen (ring b f k)) with (size q) by (unfold zlen; lia).
  destruct (Z.ltb_spec (max_size q) (size q + n)) as [Hfull|Hroom]; [by exists s|].
  rewrite Hb. pose proof (wrap_lt (length b) (f + k) ltac:(unfold zlen in *; lia)) as Hw.
  destruct (queue_put_spec q b data n _ Hlen ltac:(unfold HEAP_SIZE; lia) Hrear Hw ltac:(lia) Hd)
    as (b' & -> & Hb'). step.
  pose proof (proj1 Hb') as Hl'.
  assert (Ht : length (take (Z.to_nat n) data) = Z.to_nat n)
    by (rewrite length_take; unfold zlen in *; lia).
  apply (queue_update s a id
    {| q_buffer := Some b'; front := front q;
       rear := Z.of_nat (wrap (length b) (wrap (length b) (f + k) + Z.to_nat n));
       size := size q + n; max_size := max_size q; q_in_use := q_in_use q |}
    (Some (max_size q, ring b f k ++ take (Z.to_nat n) data))) in HR as (qs & -> & HR'); [|lia|].
  { step. by eexists. }
  cbn. split; [done|]. exists b'. split; [done|]. split; [|split; [done|]].
  - split; cbn; [unfold zlen in *; lia|unfold HEAP_SIZE; lia|done|lia|].
    rewrite Hl'. f_equal. fold f. unfold wrap, zlen in *.
    repeat match goal with |- context [(?x <? ?y)%nat] => destruct (Nat.ltb_spec x y) end; lia.
  - fold f. replace (Z.to_nat (size q + n)) with (k + length (take (Z.to_nat n) data))%nat by lia.
    symmetry. apply ring_append; [unfold zlen in *; lia|unfold zlen in *; lia|done].
Qed.

Lemma queue_recv_refines s a id dest limit : queues_rel s a -> 0 <= limit <= zlen dest ->
  let '(r, d, a') := Stream.recv id dest limit a in
  exists s', ipc_queue_recv id (Some dest) limit s = Ok (r, Some d, s') /\ queues_rel s' a'.
Proof.
  intros HR Hd. unfold ipc_queue_recv, Stream.recv.
  destruct (queue_lookup s a id HR) as [[-> ->]|(-> & Hi & q & x & -> & Hx & Hq)]; step.
  { by exists s. }
  rewrite Hx. destruct x as [[cap l]|]; cbn in Hq; [|rewrite Hq; by exists s].
  destruct Hq as (Hu & b & Hb & Hwf & -> & ->). rewrite (proj2 (Z.eqb_neq _ _) Hu).
  pose proof Hwf as [Hlen Hmax Hfr Hsz Hrear]. unfold HEAP_SIZE in Hmax.
  set (f := Z.to_nat (front q)) in *. set (k := Z.to_nat (size q)) in *.
  assert (Hring : length (ring b f k) = k) by (apply ring_length; unfold zlen in *; lia).
  replace (zlen (ring b f k)) with (size q) by (unfold zlen; lia).
  assert (Hlt : (f < length b)%nat) by (unfold zlen in *; lia).
  destruct (Z.eqb_spec (size q) 0) as [E|E].
  { replace (Z.min limit (size q)) with 0 by lia. cbn. exists s. split; [done|].
    destruct HR as [HR Hl]. split; [|by rewrite length_insert].
    rewrite list_insert_id; [done|]. apply zget_Some in Hx as [_ ->]. by rewrite drop_0. }
  replace (if limit <? size q then limit else size q) with (Z.min limit (size q))
    by (destruct (Z.ltb_spec limit (size q)); lia).
  set (n := Z.min limit (size q)) in *. rewrite Hb.
  rewrite (queue_get_spec q b dest n f) by (unfold HEAP_SIZE; lia || done). step.
  rewrite i32_id by (unfold is_i32; lia). rewrite u32_id by (unfold is_u32; lia).
  rewrite ring_take by lia.
  pose proof (wrap_lt (length b) (f + Z.to_nat n) ltac:(unfold zlen in *; lia)) as Hw.
  apply (queue_update s a id
    {| q_buffer := Some b; front := Z.of_nat (wrap (length b) (f + Z.to_nat n));
       rear := rear q; size := size q - n; max_size := max_size q; q_in_use := q_in_use q |}
    (Some (max_size q, drop (Z.to_nat n) (ring b f k)))) in HR as (qs & -> & HR'); [|lia|].
  { step. by eexists. }
  cbn. split; [done|]. exists b. split; [done|]. split; [|split; [done|]].
  - split; cbn; [done|unfold HEAP_SIZE; lia|unfold zlen in *; lia|lia|].
    rewrite Hrear, Nat2Z.id. f_equal. fold f k. unfold wrap, zlen in *.
    repeat match goal with |- context [(?x <? ?y)%nat] => destruct (Nat.ltb_spec x y) end; lia.
  - rewrite Nat2Z.id. replace (Z.to_nat (size q - n)) with (k - Z.to_nat n)%nat by lia.
    symmetry. apply ring_drop; [done|unfold zlen in *; lia|lia].
Qed.

Lemma queue_step_refines op h s a : queues_rel s a -> heap_wf h -> queue_op_ok op ->
  exists h' s', queue_step op h s = Ok ((stream_step op h a).1, h', s') /\
    queues_rel s' (stream_step op h a).2 /\ heap_wf h'.
Proof.
  intros HR Hh Hop. destruct op as [sz|id|id data n|id dest limit|id];
    cbn [queue_step stream_step queue_op_ok] in *.
  - pose proof (queue_create_refines s a sz h HR Hh Hop) as Hc.
    destruct (Stream.create _ _ _) as [r a']. destruct Hc as (h' & s' & -> & ? & ?).
    step. by exists h', s'.
  - unfold ipc_queue_destroy, Stream.destroy.
    destruct (queue_lookup s a id HR) as [[-> ->]|(-> & Hi & q & x & -> & -> & Hq)]; step.
    { by exists h, s. }
    destruct x as [[cap l]|]; cbn in Hq; [|rewrite Hq; step; by exists h, s].
    destruct Hq as (Hu & _). rewrite (proj2 (Z.eqb_neq _ _) Hu).
    destruct (queue_update s a id
      {| q_buffer := q_buffer q; front := front q; rear := rear q; size := size q;
         max_size := max_size q; q_in_use := 0 |} None HR Hi) as (qs & -> & HR'); [done|].
    step. by eexists _, _.
  - pose proof (queue_send_refines s a id data n HR (proj1 Hop) (proj2 Hop)) as Hc.
    destruct (Stream.send _ _ _ _) as [r a']. destruct Hc as (s' & -> & ?).
    step. by exists h, s'.
  - pose proof (queue_recv_refines s a id dest limit HR Hop) as Hc.
    destruct (Stream.recv _ _ _ _) as [[r d] a']. destruct Hc as (s' & -> & ?).
    step. by exists h, s'.
  - unfold ipc_queue_size, Stream.size.
    destruct (queue_lookup s a id HR) as [[-> ->]|(-> & Hi & q & x & -> & -> & Hq)]; step.
    { by exists h, s. }
    destruct x as [[cap l]|]; cbn in Hq; [|rewrite Hq; step; by exists h, s].
    destruct Hq as (Hu & b & Hb & [] & -> & ->). rewrite (proj2 (Z.eqb_neq _ _) Hu). step.
    exists h, s. split; [|done]. cbn. do 4 f_equal. unfold zlen in *. rewrite ring_length; lia.
Qed.

(** A run of queue operations, with the heap the creations draw on. *)
Fixpoint queue_run (ops : list queue_op) (h : heap) (s : ipc)
    : res (list (Z * option (list Z)) * heap * ipc) :=
  match ops with
  | [] => Ok ([], h, s)
  | op :: ops =>
      '(r, d, h, s) ← queue_step op h s;
      '(rs, h, s) ← queue_run ops h s;
      Ok ((r, d) :: rs, h, s)
  end.

(** The contract run; the heap it consults is the implementation's. *)
Fixpoint stream_run (ops : list queue_op) (h : heap) (s : ipc) (a : Stream.state)
    : list (Z * option (list Z)) * Stream.state :=
  match ops with
  | [] => ([], a)
  | op :: ops =>
      let '(r, d, a) := stream_step op h a in
      match queue_step op h s with
      | Ok (_, h, s) => let '(rs, a) := stream_run ops h s a in ((r, d) :: rs, a)
      | Err _ => ([(r, d)], a)
      end
  end.

Lemma queue_run_refines ops : forall h s a,
  queues_rel s a -> heap_wf h -> Forall queue_op_ok ops ->
  exists h' s', queue_run ops h s = Ok ((stream_run ops h s a).1, h', s') /\
    queues_rel s' (stream_run ops h s a).2.
Proof.
  induction ops as [|op ops IH]; intros h s a HR Hh Hops; cbn [queue_run stream_run].
  { by exists h, s. }
  apply Forall_cons in Hops as [Hop Hops].
  destruct (queue_step_refines op h s a HR Hh Hop) as (h1 & s1 & E & HR1 & Hh1).
  rewrite E, bind_ret. destruct (stream_step op h a) as [[r d] a1]. cbn [fst snd] in *.
  cbv beta iota. destruct (IH h1 s1 a1 HR1 Hh1 Hops) as (h2 & s2 & -> & HR2). step.
  destruct (stream_run ops h1 s1 a1) as [rs a2]. by exists h2, s2.
Qed.

Lemma ipc_init_queues s : ipc_tables_ok s -> queues_rel (ipc_init s) Stream.init.
Proof.
  intros (_ & Hl & _). split; [|done]. unfold Stream.init, ipc_init. cbn [g_queues].
  apply Forall2_same_length_lookup_2; [by rewrite length_fmap, Hl, length_replicate|].
  intros i q x Hq Hx. apply lookup_replicate in Hx as [-> _].
  apply list_lookup_fmap_Some in Hq as (q0 & -> & _). done.
Qed.

(** ** Properties *)

(** C2.  After [ipc_init], any sequence of pipe calls (good and
    bad descriptors, full and empty pipes, slots closed and created again)
    returns what 32 bounded first-in first-out queues of 256 words return, and
    never reads or writes outside a pipe's buffer. *)
Theorem pipes_refine_fifo s ops :
  ipc_tables_ok s ->
  exists s', pipe_run ops (ipc_init s) = Ok ((fifo_run ops Fifo.init).1, s').
Proof.
  intros Hs. destruct (pipe_run_refines ops _ _ (ipc_init_rel s Hs)) as (s' & ? & _).
  by exists s'.
Qed.

Lemma pipes_refine_fifo_witness :
  let ops := [PCreate 7; PWrite 0 0x12345678; PWrite 0 0xDEADBEEF; PRead 0 1; PRead 0 1;
              PRead 0 1; PClose 0; PWrite 0 5; PHasData 40] in
  (fifo_run ops Fifo.init).1 =
    [(0, None); (0, None); (0, None); (0, Some 0x12345678); (0, Some 0xDEADBEEF);
     (-1, Some 1); (0, None); (-1, None); (0, None)] /\
  exists s', pipe_run ops (ipc_init ipc_boot) = Ok ((fifo_run ops Fifo.init).1, s').
Proof. split; [vm_compute; reflexivity|]. apply (pipes_refine_fifo ipc_boot _ ipc_boot_ok). Defined.

(** C3.  After [ipc_init], any sequence of queue calls with
    non-empty queues and sizes whose sum with a fill level stays below 4 GiB
    returns what 32 byte streams of the requested capacities return: a send
    takes all its bytes, in order, or is refused; a receive delivers the oldest
    bytes and leaves the rest of the destination alone; nothing outside the
    queue's block is touched. *)
Theorem queues_refine_stream s h ops :
  ipc_tables_ok s -> heap_wf h -> Forall queue_op_ok ops ->
  exists h' s', queue_run ops h (ipc_init s) =
    Ok ((stream_run ops h (ipc_init s) Stream.init).1, h', s').
Proof.
  intros Hs Hh Hops.
  destruct (queue_run_refines ops h _ _ (ipc_init_queues s Hs) Hh Hops) as (h' & s' & ? & _).
  by exists h', s'.
Qed.

Lemma queues_refine_stream_witness :
  let ops := [QCreate 5; QSend 0 [1; 2; 3; 4] 4; QRecv 0 [9; 9; 9] 3; QSend 0 [5; 6; 7; 8] 4;
              QSend 0 [1] 1; QSize 0; QRecv 0 [9; 9; 9; 9; 9; 9] 6; QDestroy 0] in
  let h := Heap HEAP_START (fun _ => 0xAA) in
  (stream_run ops h (ipc_init ipc_boot) Stream.init).1 =
    [(0, None); (0, None); (3, Some [1; 2; 3]); (0, None); (-1, None); (5, None);
     (5, Some [4; 5; 6; 7; 8; 9]); (0, None)] /\
  exists h' s', queue_run ops h (ipc_init ipc_boot) =
    Ok ((stream_run ops h (ipc_init ipc_boot) Stream.init).1, h', s').
Proof.
  split; [vm_compute; reflexivity|].
  apply (queues_refine_stream ipc_boot _ _ ipc_boot_ok).
  - vm_compute; split; congruence.
  - repeat (apply Forall_cons; split; [vm_compute; repeat split; congruence|]). constructor.
Defined.

(** The room check of [ipc_queue_send] adds two [uint32_t]:
    a size large enough to wrap the sum is accepted, and the copy then runs past
    the end of the queue's block. *)
Lemma send_size_wraps s id q b data n :
  0 <= id < 32 -> rd (g_queues s) id = Ok q -> q_in_use q <> 0 ->
  q_buffer q = Some b -> queue_wf q b -> 2 ^ 32 - size q <= n < 2 ^ 32 ->
  ipc_queue_send id (Some data) n s = Err OutOfBounds.
Proof.
  intros Hid Hq Hu Hb [Hl Hm Hf Hs Hr] Hn. unfold HEAP_SIZE in Hm. unfold ipc_queue_send.
  assert (Hbad : bad_id id = false) by (unfold bad_id, IPC_MAX_PIPES; lia).
  rewrite Hbad, Hq. step. rewrite (proj2 (Z.eqb_neq _ _) Hu).
  assert (Hw : u32 (size q + n) = size q + n - 2 ^ 32)
    by (unfold u32; symmetry; apply Z.mod_unique with 1; lia).
  rewrite Hw. rewrite (proj2 (Z.ltb_ge _ _)) by lia. rewrite Hb.
  pose proof (wrap_lt (length b) (Z.to_nat (front q) + Z.to_nat (size q))
    ltac:(unfold zlen in Hl; lia)) as Hwr.
  assert (Hsp : u32 (max_size q - rear q) = max_size q - rear q)
    by (apply u32_id; unfold is_u32, zlen in *; lia).
  unfold queue_put. rewrite Hsp, (proj2 (Z.leb_gt _ _)) by lia.
  destruct (memcpy_at_cases b (rear q) data 0 (max_size q - rear q)) as [(b1 & E1 & Hl1)|E1];
    rewrite E1; [|done].
  rewrite bind_ret, bind_assoc, memcpy_at_fault by (unfold zlen in *; lia). done.
Qed.

(** A queue of 8 bytes holding 3: a [data_size] of 2^32 - 2 passes the check. *)
Definition ex_queue : ipc_queue_t := Queue (Some [1; 2; 3; 0; 0; 0; 0; 0]) 0 3 3 8 1.
Definition ex_queues : ipc := set_queues (<[5%nat := ex_queue]> (g_queues ipc_boot)) ipc_boot.

Lemma send_size_wraps_witness :
  ipc_queue_send 5 (Some [7; 7; 7; 7; 7]) (2 ^ 32 - 2) ex_queues = Err OutOfBounds.
Proof.
  apply (send_size_wraps ex_queues 5 ex_queue [1; 2; 3; 0; 0; 0; 0; 0]).
  - lia.
  - vm_compute. reflexivity.
  - vm_compute. discriminate.
  - reflexivity.
  - constructor; vm_compute; repeat split; congruence.
  - vm_compute; split; congruence.
Defined.

(** [ipc_queue_create(0)] is granted whenever a
    descriptor is free, although the queue it makes can never hold anything;
    sending zero bytes to it then evaluates [% max_size] with [max_size = 0]. *)
Lemma empty_queue_divides_by_zero s h :
  length (g_queues s) = 32%nat -> heap_wf h ->
  Exists (fun q => q_in_use q = 0) (g_queues s) ->
  exists id h' s', ipc_queue_create 0 h s = Ok (id, h', s') /\ 0 <= id < 32 /\
    forall data, ipc_queue_send id (Some data) 0 s' = Err DivByZero.
Proof.
  intros Hl Hh Hex. unfold ipc_queue_create.
  pose proof (find_free_list_find q_in_use (g_queues s) []) as Hf. rewrite Hl in Hf.
  change ([] ++ g_queues s) with (g_queues s) in Hf. change (zlen []) with 0 in Hf.
  destruct (list_find _ _) as [[k q]|] eqn:E in Hf.
  2: { apply list_find_None in E. rewrite Forall_forall in E.
       apply Exists_exists in Hex as (q & Hq & Hq0). by destruct (E q Hq). }
  apply list_find_Some in E as (Hk & _ & _). apply lookup_lt_Some in Hk.
  assert (Hid : 0 <= Z.of_nat k < zlen (g_queues s)) by (unfold zlen; lia).
  rewrite Hf. step. rewrite Z.add_0_l, (proj2 (Z.ltb_ge _ _)) by lia.
  unfold heap_wf in Hh.
  destruct (malloc_cases 0 h Hh ltac:(vm_compute; split; congruence)) as [[_ Hm]|[-> _]]; [lia|].
  rewrite (proj2 (Z.eqb_neq _ _)) by (unfold NULL, HEAP_START in *; lia).
  rewrite wr_in by done. step. do 3 eexists. split; [reflexivity|].
  split; [unfold zlen in Hid; lia|]. intros data. unfold ipc_queue_send.
  assert (Hbad : bad_id (Z.of_nat k) = false)
    by (unfold bad_id, IPC_MAX_PIPES; unfold zlen in Hid;
        apply orb_false_intro; [apply Z.ltb_ge | apply Z.leb_gt]; lia).
  rewrite Hbad. unfold set_queues. cbn [g_queues].
  rewrite (proj2 (rd_Ok _ _ _) (zget_insert_eq _ _ _ Hid)). step.
  cbn [q_in_use max_size size q_buffer]. unfold queue_put. cbn [max_size rear].
  change (if 1 =? 0 then ?a else ?b) with b. change (u32 (0 - 0)) with 0.
  change (if 0 <? u32 (0 + 0) then ?a else ?b) with b. change (0 <=? 0) with true. cbv iota.
  rewrite memcpy_at_spec by (pose proof (zlen_nonneg data); pose proof (zlen_nonneg (fresh_block (heap_ptr h) 0 h)); lia).
  reflexivity.
Qed.

Lemma empty_queue_divides_by_zero_witness :
  exists id h' s', ipc_queue_create 0 (Heap HEAP_START (fun _ => 0)) ipc_boot = Ok (id, h', s') /\
    0 <= id < 32 /\ forall data, ipc_queue_send id (Some data) 0 s' = Err DivByZero.
Proof.
  apply (empty_queue_divides_by_zero ipc_boot).
  - reflexivity.
  - vm_compute; split; congruence.
  - apply Exists_cons_hd. reflexivity.
Defined.
