(* ===== verification/Ports.v ===== *)
(** * Port input and output *)
(** The four routines of [src/kernel/interrupts.asm] through which every driver
    reaches its device.  The machine behind the ports is hardware: a type [P]
    with the bus operations of the class [Bus], a parameter of everything that
    does port I/O. *)

From S2P Require Import Prelude.

(** [in8 port p]: the value the machine puts on the bus and the machine after
    it, for a read may change the device. *)
Class Bus (P : Type) := {
  in8 : Z -> P -> Z * P;
  out8 : Z -> Z -> P -> P;
  in16 : Z -> P -> Z * P;
  out16 : Z -> Z -> P -> P
}.

Section Ports.
Context `{Bus P}.

(** [mov dx], [in al, dx], [movzx eax, al] and so on: the operands are cut to
    their registers. *)
Definition inb (port : Z) (p : P) : Z * P := let '(v, p) := in8 (u16 port) p in (u8 v, p).
Definition outb (port value : Z) (p : P) : P := out8 (u16 port) (u8 value) p.
Definition inw (port : Z) (p : P) : Z * P := let '(v, p) := in16 (u16 port) p in (u16 v, p).
Definition outw (port value : Z) (p : P) : P := out16 (u16 port) (u16 value) p.
End Ports.
