(* ===== verification/Block.v ===== *)
(** * Block devices: what the disk driver promises to the file system *)
(** The interface of [src/kernel/disk.c] as [src/kernel/filesystem.c] uses it:
    the two operations, and the two promises the file system relies on.  The
    driver of [Disk] is the implementation; the theorems of [FileSys] are proved
    against this interface only. *)

From S2P Require Import Prelude.

Definition SECTOR_SIZE : Z := 512.

(** [disk_read_sectors] and [disk_write_sectors] on a machine [D]: the result is
    the return value, the new contents of the caller's buffer and the machine. *)
Class BlockDev (D : Type) := {
  read_sectors : Z -> Z -> Z -> list Z -> D -> res (Z * list Z * D);
  write_sectors : Z -> Z -> Z -> list Z -> D -> res (Z * D)
}.

Section Derived.
Context `{BlockDev D}.

(** [disk_read_sector] and [disk_write_sector]. *)
Definition disk_read_sector (drive lba : Z) (buf : list Z) (d : D) : res (Z * list Z * D) :=
  read_sectors drive lba 1 buf d.

Definition disk_write_sector (drive lba : Z) (buf : list Z) (d : D) : res (Z * D) :=
  write_sectors drive lba 1 buf d.
End Derived.

(** Whatever the device does, a read into a buffer of [count] sectors returns,
    with -1 or [count], and touches nothing but those sectors.  [blk_ok] is the
    driver's own invariant. *)
Class BlockSafe (D : Type) `{BlockDev D} := {
  blk_ok : D -> Prop;
  read_safe drive lba count buf d :
    blk_ok d -> is_u8 drive -> is_u32 lba -> is_u8 count -> count * SECTOR_SIZE <= zlen buf ->
    Forall is_u8 buf ->
    exists r buf' d', read_sectors drive lba count buf d = Ok (r, buf', d') /\
      (r = -1 \/ r = count) /\ blk_ok d' /\ zlen buf' = zlen buf /\ Forall is_u8 buf' /\
      drop (Z.to_nat (count * SECTOR_SIZE)) buf' = drop (Z.to_nat (count * SECTOR_SIZE)) buf
}.

(** The sectors [lba] to [lba + count - 1] of a medium. *)
Definition sector_run (img : Z -> list Z) (lba count : Z) : list Z := concat (img <$> seqZ lba count).

(** [medium d img]: drive 0 of [d] works, and what it delivers for sector [lba] is [img lba], as
    long as the sectors asked for lie between 1 and [span D]. *)
Class BlockMedium (D : Type) `{BlockDev D} := {
  medium : D -> (Z -> list Z) -> Prop;
  span : Z;
  medium_span : 33 <= span <= 2 ^ 28;
  medium_sector d img lba : medium d img -> length (img lba) = 512%nat /\ Forall is_u8 (img lba);
  medium_reads d img lba count buf :
    medium d img -> 1 <= lba -> 0 < count < 256 -> lba + count <= span -> count * SECTOR_SIZE <= zlen buf ->
    exists d', read_sectors 0 lba count buf d = Ok (count, splice buf 0 (sector_run img lba count), d') /\ medium d' img
}.
Arguments span D {_ _}.

Lemma sector_run_one img lba : sector_run img lba 1 = img lba.
Proof. unfold sector_run. rewrite seqZ_cons by done. apply app_nil_r. Qed.

Lemma sector_run_ok img lba count : (forall a, length (img a) = 512%nat /\ Forall is_u8 (img a)) -> 0 <= count ->
  zlen (sector_run img lba count) = count * SECTOR_SIZE /\ Forall is_u8 (sector_run img lba count).
Proof.
  intros Hi Hc. unfold sector_run. assert (Hz : zlen (seqZ lba count) = count) by (unfold zlen; rewrite length_seqZ; lia).
  rewrite <- Hz at 2. clear Hz. induction (seqZ lba count) as [|a l [IH1 IH2]]; [done|]. cbn [fmap list_fmap concat].
  destruct (Hi a) as [Hl Hu]. split; [|by apply Forall_app]. rewrite zlen_app, IH1. unfold zlen, SECTOR_SIZE. rewrite Hl.
  cbn [length]. lia.
Qed.

(** One sector into a buffer of its size. *)
Lemma medium_read {D} `{BlockMedium D} d img lba buf :
  medium d img -> 1 <= lba < span D -> zlen buf = SECTOR_SIZE ->
  exists d', read_sectors 0 lba 1 buf d = Ok (1, img lba, d') /\ medium d' img.
Proof.
  intros Hm Hl Hb. destruct (medium_reads d img lba 1 buf Hm) as (d' & E & Hm'); try lia.
  exists d'. split; [|done]. rewrite E, sector_run_one. destruct (medium_sector d img lba Hm) as [Hi _].
  unfold splice. cbn [Z.to_nat]. rewrite take_0. cbn [app]. rewrite drop_ge, app_nil_r; [done|]. unfold zlen, SECTOR_SIZE in *. lia.
Qed.

(** ** A disk in memory: the interface is inhabited *)

Definition ram := Z -> list Z.

(** Sector [lba], padded or cut to its size. *)
Definition ram_sector (d : ram) (lba : Z) : list Z := take 512 ((u8 <$> d lba) ++ replicate 512 0).

#[export] Instance ram_blocks : BlockDev ram := {
  read_sectors drive lba count buf d :=
    if drive =? 0 then
      Ok (count, concat (ram_sector d <$> seqZ lba count)
                   ++ drop (Z.to_nat (count * SECTOR_SIZE)) buf, d)
    else Ok (-1, buf, d);
  write_sectors drive lba count buf d :=
    if drive =? 0 then
      Ok (count, fun a => if (lba <=? a) && (a <? lba + count)
                          then slice buf (SECTOR_SIZE * (a - lba)) SECTOR_SIZE else d a)
    else Ok (-1, d)
}.

Lemma ram_sector_ok d lba : length (ram_sector d lba) = 512%nat /\ Forall is_u8 (ram_sector d lba).
Proof.
  unfold ram_sector. split.
  - rewrite length_take, length_app, length_replicate. lia.
  - apply Forall_take, Forall_app. split.
    + apply Forall_fmap, Forall_true. intros x. apply u8_range.
    + apply Forall_replicate. done.
Qed.

Lemma ram_sectors d l : zlen (concat (ram_sector d <$> l)) = 512 * zlen l /\
  Forall is_u8 (concat (ram_sector d <$> l)).
Proof.
  induction l as [|lba l [IH1 IH2]]; [done|]. cbn [fmap list_fmap concat].
  destruct (ram_sector_ok d lba) as [Hl Hu]. split.
  - rewrite zlen_app, IH1. unfold zlen. rewrite Hl. cbn [length]. lia.
  - by apply Forall_app.
Qed.

#[export] Instance ram_safe : BlockSafe ram.
Proof.
  refine {| blk_ok := fun _ => True |}.
  intros drive lba count buf d _ _ _ Hc Hb Hu. cbn. unfold is_u8, SECTOR_SIZE in *.
  destruct (drive =? 0); [|exists (-1), buf, d; split_and!; auto].
  destruct (ram_sectors d (seqZ lba count)) as [Hl Hf].
  assert (Hz : zlen (seqZ lba count) = count) by (unfold zlen; rewrite length_seqZ; lia).
  eexists count, _, d. split; [reflexivity|]. split; [by right|]. split_and!; [done| | |].
  - rewrite zlen_app, Hl, Hz. unfold zlen in *. rewrite length_drop. lia.
  - apply Forall_app. split; [done|]. by apply Forall_drop.
  - rewrite drop_app_length'; [done|]. unfold zlen in *. lia.
Defined.

#[export] Instance ram_medium : BlockMedium ram.
Proof.
  refine {| medium := fun d img => forall lba, img lba = ram_sector d lba; span := 2 ^ 28 |}.
  - lia.
  - intros d img lba ->. apply ram_sector_ok.
  - intros d img lba count buf Hm Hl Hc _ Hb. exists d. split; [|done]. cbn.
    assert (Hs : sector_run img lba count = concat (ram_sector d <$> seqZ lba count)).
    { unfold sector_run. f_equal. apply list_fmap_ext. intros i a _. apply Hm. }
    destruct (sector_run_ok img lba count) as [Hz _]; [intros a; rewrite Hm; apply ram_sector_ok|lia|].
    unfold splice. cbn [Z.to_nat]. rewrite take_0, Hs in *. cbn [app]. rewrite Hz, Z.add_0_l. done.
Defined.
