(* ===== verification/FileSys.v ===== *)
(** * The FAT12 file system *)
(** [src/kernel/filesystem.c] over any block device: the FAT entries, the
    directory search, the descriptor table, sequential reads and seeks.  The
    globals are the fields of [fs]; the stubs that only return -1 are there with
    their result.  Not modelled: the [mode] and [dirname] arguments, which the
    code discards. *)

From S2P Require Import Prelude Memory CString Block.

(** ** Constants *)

Definition FS_BYTES_PER_SECTOR : Z := 512.
Definition FS_SECTORS_PER_CLUSTER : Z := 1.
Definition FS_RESERVED_SECTORS : Z := 1.
Definition FS_NUM_FATS : Z := 2.
Definition FS_ROOT_ENTRIES : Z := 224.
Definition FS_SECTORS_PER_FAT : Z := 9.
Definition FS_ROOT_DIR_SECTORS : Z := (FS_ROOT_ENTRIES * 32) / FS_BYTES_PER_SECTOR.
Definition FS_FAT_START_SECTOR : Z := FS_RESERVED_SECTORS.
Definition FS_ROOT_DIR_SECTOR : Z := FS_FAT_START_SECTOR + (FS_NUM_FATS * FS_SECTORS_PER_FAT).
Definition FS_DATA_START_SECTOR : Z := FS_ROOT_DIR_SECTOR + FS_ROOT_DIR_SECTORS.
Definition FS_ATTR_VOLUME : Z := 0x08.
Definition FS_CLUSTER_FREE : Z := 0x000.
Definition FS_CLUSTER_MAX : Z := 0xFF8.
Definition FS_CLUSTER_EOF : Z := 0xFFF.
Definition FS_MAX_FILES : Z := 16.
Definition FAT_BYTES : Z := FS_SECTORS_PER_FAT * FS_BYTES_PER_SECTOR.

(** ** Data *)

Record fs_dir_entry_t := DirEntry {
  filename : list Z;          (* uint8_t filename[8] *)
  extension : list Z;         (* uint8_t extension[3] *)
  attributes : Z;
  write_time : Z;
  write_date : Z;
  low_cluster : Z;
  file_size : Z
}.

Record fs_file_t := File {
  start_cluster : Z;
  current_cluster : Z;
  current_offset : Z;
  f_size : Z;
  position : Z;
  f_attributes : Z;
  f_in_use : Z;
  f_name : list Z             (* char filename[16] *)
}.

Record fs_dir_info_t := DirInfo {
  di_filename : list Z;       (* char filename[13] *)
  di_attributes : Z;
  di_file_size : Z;
  di_start_cluster : Z;
  di_write_date : Z;
  di_write_time : Z
}.

Record fs := Fs {
  g_files : list fs_file_t;
  g_fat_cache : option (list Z);
  g_root_dir_cache : option (list Z);
  g_fs_initialized : Z;
  g_cluster_buffer : list Z
}.

Definition set_files (l : list fs_file_t) (s : fs) : fs :=
  {| g_files := l; g_fat_cache := g_fat_cache s; g_root_dir_cache := g_root_dir_cache s;
     g_fs_initialized := g_fs_initialized s; g_cluster_buffer := g_cluster_buffer s |}.

Definition set_caches (fat root : option (list Z)) (s : fs) : fs :=
  {| g_files := g_files s; g_fat_cache := fat; g_root_dir_cache := root;
     g_fs_initialized := g_fs_initialized s; g_cluster_buffer := g_cluster_buffer s |}.

Definition set_initialized (s : fs) : fs :=
  {| g_files := g_files s; g_fat_cache := g_fat_cache s; g_root_dir_cache := g_root_dir_cache s;
     g_fs_initialized := 1; g_cluster_buffer := g_cluster_buffer s |}.

Definition set_cluster_buffer (b : list Z) (s : fs) : fs :=
  {| g_files := g_files s; g_fat_cache := g_fat_cache s; g_root_dir_cache := g_root_dir_cache s;
     g_fs_initialized := g_fs_initialized s; g_cluster_buffer := b |}.

(** ** The FAT *)

Definition cluster_to_lba (cluster : Z) : Z :=
  if cluster <? 2 then FS_ROOT_DIR_SECTOR
  else u32 (FS_DATA_START_SECTOR + u32 (cluster - 2) * FS_SECTORS_PER_CLUSTER).

Definition fat12_get_next (fat : option (list Z)) (cluster : Z) : res Z :=
  match fat with
  | None => Ok FS_CLUSTER_EOF
  | Some cache =>
      let fat_offset := u32 (cluster + cluster / 2) in
      if FAT_BYTES <=? fat_offset then Ok FS_CLUSTER_EOF else
      value ← rd16 cache fat_offset;
      if Z.odd cluster then Ok (Z.land (Z.shiftr value 4) 0xFFF)
      else Ok (Z.land value 0xFFF)
  end.

Definition fat12_set_next (fat : option (list Z)) (cluster next : Z) : res (option (list Z)) :=
  match fat with
  | None => Ok None
  | Some cache =>
      let fat_offset := u32 (cluster + cluster / 2) in
      value ← rd16 cache fat_offset;
      cache ← wr16 cache fat_offset
        (if Z.odd cluster
         then u16 (Z.lor (Z.land value 0x000F) (Z.shiftl (Z.land next 0xFFF) 4))
         else u16 (Z.lor (Z.land value 0xF000) (Z.land next 0xFFF)));
      Ok (Some cache)
  end.

(** [for (i = 2; i < 0xFF0; i++)] from [i] on. *)
Fixpoint find_free_from (fuel : nat) (fat : option (list Z)) (i : Z) : res Z :=
  match fuel with
  | O => Ok FS_CLUSTER_EOF
  | S f =>
      v ← fat12_get_next fat i;
      if v =? FS_CLUSTER_FREE then Ok i else find_free_from f fat (i + 1)
  end.

Definition fat12_find_free_cluster (fat : option (list Z)) : res Z :=
  find_free_from (Z.to_nat (0xFF0 - 2)) fat 2.

Definition fs_get_next_cluster (s : fs) (cluster : Z) : res Z :=
  fat12_get_next (g_fat_cache s) cluster.

Definition fs_allocate_cluster (s : fs) : res Z := fat12_find_free_cluster (g_fat_cache s).

(** ** The directory *)

(** [entries[i]] of the packed 32-byte entries in the cache. *)
Definition dir_entry (cache : list Z) (i : Z) : res fs_dir_entry_t :=
  let o := 32 * i in
  if (0 <=? o) && (o + 32 <=? zlen cache) then
    at_ ← rd cache (o + 11); wt ← rd16 cache (o + 22); wd ← rd16 cache (o + 24);
    lc ← rd16 cache (o + 26); sz ← rd32 cache (o + 28);
    Ok {| filename := slice cache o 8; extension := slice cache (o + 8) 3;
          attributes := at_; write_time := wt; write_date := wd;
          low_cluster := lc; file_size := sz |}
  else Err OutOfBounds.

(** [for (k = 0; k < n && src[k] != ' '; k++) dst[j++] = src[k];] *)
Fixpoint copy_field (n : nat) (src : list Z) (k : Z) (dst : list Z) (j : Z)
    : res (list Z * Z) :=
  match n with
  | O => Ok (dst, j)
  | S n' =>
      c ← rd src k;
      if c =? 32 then Ok (dst, j) else
      dst ← wr dst j c;
      copy_field n' src (k + 1) dst (j + 1)
  end.

(** The 8.3 name written over [dst]: the three copies of this code in the source
    differ only in the array they fill. *)
Definition build_name (e : fs_dir_entry_t) (dst : list Z) : res (list Z) :=
  '(dst, j) ← copy_field 8 (filename e) 0 dst 0;
  x ← rd (extension e) 0;
  '(dst, j) ← (if x =? 32 then Ok (dst, j) else
                 dst ← wr dst j 46;
                 copy_field 3 (extension e) 0 dst (j + 1));
  wr dst j 0.

(** [for (i = 0; i < FS_ROOT_ENTRIES; i++)] of [dir_find_entry] from [i] on; the
    result is the return value and the entry found.  [full_name] is the local
    array, whatever it holds at first. *)
Fixpoint find_entry_from (fuel : nat) (cache name full_name : list Z) (i : Z)
    : res (Z * option fs_dir_entry_t) :=
  match fuel with
  | O => Ok (-1, None)
  | S f =>
      e ← dir_entry cache i;
      c0 ← rd (filename e) 0;
      if c0 =? 0x00 then Ok (-1, None) else
      if c0 =? 0xE5 then find_entry_from f cache name full_name (i + 1) else
      full_name ← build_name e full_name;
      c ← strcmp full_name name;
      if c =? 0 then Ok (i, Some e)
      else find_entry_from f cache name full_name (i + 1)
  end.

Definition dir_find_entry (s : fs) (name : list Z) : res (Z * option fs_dir_entry_t) :=
  match g_root_dir_cache s with
  | None => Ok (-1, None)
  | Some cache =>
      find_entry_from (Z.to_nat FS_ROOT_ENTRIES) cache name (replicate 13 0) 0
  end.

Definition fs_file_exists (s : fs) (name : list Z) : res Z :=
  '(i, _) ← dir_find_entry s name; Ok (if 0 <=? i then 1 else 0).

(** The fields both [fs_list_dir] and [fs_get_file_info] fill. *)
Definition fill_info (e : fs_dir_entry_t) (info : fs_dir_info_t) : res fs_dir_info_t :=
  n ← build_name e (di_filename info);
  Ok {| di_filename := n; di_attributes := attributes e; di_file_size := file_size e;
        di_start_cluster := low_cluster e; di_write_date := write_date e;
        di_write_time := write_time e |}.

Definition fs_get_file_info (s : fs) (name : list Z) (info : option fs_dir_info_t)
    : res (Z * option fs_dir_info_t) :=
  match info with
  | None => Ok (-1, None)
  | Some inf =>
      '(i, e) ← dir_find_entry s name;
      if i <? 0 then Ok (-1, Some inf) else
      match e with
      | None => Ok (-1, Some inf)
      | Some e => inf ← fill_info e inf; Ok (0, Some inf)
      end
  end.

Fixpoint list_from (fuel : nat) (cache : list Z) (entries : list fs_dir_info_t)
    (max_entries count i : Z) : res (Z * list fs_dir_info_t) :=
  match fuel with
  | O => Ok (count, entries)
  | S f =>
      if max_entries <=? count then Ok (count, entries) else
      e ← dir_entry cache i;
      c0 ← rd (filename e) 0;
      if c0 =? 0x00 then Ok (count, entries) else
      if (c0 =? 0xE5) || negb (Z.land (attributes e) FS_ATTR_VOLUME =? 0)
      then list_from f cache entries max_entries count (i + 1) else
      inf ← rd entries count;
      inf ← fill_info e inf;
      entries ← wr entries count inf;
      list_from f cache entries max_entries (count + 1) (i + 1)
  end.

Definition fs_list_dir (s : fs) (entries : option (list fs_dir_info_t)) (max_entries : Z)
    : res (Z * option (list fs_dir_info_t)) :=
  if g_fs_initialized s =? 0 then Ok (-1, entries) else
  match entries with
  | None => Ok (-1, None)
  | Some es =>
      match g_root_dir_cache s with
      | None => Err NullDeref
      | Some cache =>
          '(n, es) ← list_from (Z.to_nat FS_ROOT_ENTRIES) cache es max_entries 0 0;
          Ok (n, Some es)
      end
  end.

(** ** Descriptors *)

Fixpoint find_fd (fuel : nat) (files : list fs_file_t) (i : Z) : res Z :=
  match fuel with
  | O => Ok (-1)
  | S f =>
      x ← rd files i;
      if f_in_use x =? 0 then Ok i else find_fd f files (i + 1)
  end.

Definition fs_open (name : option (list Z)) (s : fs) : res (Z * fs) :=
  if g_fs_initialized s =? 0 then Ok (-1, s) else
  match name with
  | None => Ok (-1, s)
  | Some nm =>
      fd ← find_fd (Z.to_nat FS_MAX_FILES) (g_files s) 0;
      if fd <? 0 then Ok (-1, s) else
      '(i, e) ← dir_find_entry s nm;
      match e with
      | None => Ok (-1, s)
      | Some e =>
          old ← rd (g_files s) fd;
          fname ← strncpy (f_name old) nm 15;
          files ← wr (g_files s) fd
            {| start_cluster := low_cluster e; current_cluster := low_cluster e;
               current_offset := 0; f_size := file_size e; position := 0;
               f_attributes := attributes e; f_in_use := 1; f_name := fname |};
          Ok (fd, set_files files s)
      end
  end.

Definition bad_fd (fd : Z) : bool := (fd <? 0) || (FS_MAX_FILES <=? fd).

Definition move_file (f : fs_file_t) (cur pos : Z) : fs_file_t :=
  {| start_cluster := start_cluster f; current_cluster := cur;
     current_offset := current_offset f; f_size := f_size f; position := pos;
     f_attributes := f_attributes f; f_in_use := f_in_use f; f_name := f_name f |}.

Definition fs_close (fd : Z) (s : fs) : res (Z * fs) :=
  if bad_fd fd then Ok (-1, s) else
  f ← rd (g_files s) fd;
  if f_in_use f =? 0 then Ok (-1, s) else
  files ← wr (g_files s) fd
    {| start_cluster := start_cluster f; current_cluster := current_cluster f;
       current_offset := current_offset f; f_size := f_size f; position := position f;
       f_attributes := f_attributes f; f_in_use := 0; f_name := f_name f |};
  Ok (0, set_files files s).

Definition fs_get_size (fd : Z) (s : fs) : res Z :=
  if bad_fd fd then Ok 0 else
  f ← rd (g_files s) fd;
  if f_in_use f =? 0 then Ok 0 else Ok (f_size f).

(** The loop of [fs_seek].  [pos] grows by 512 a turn, so [offset / 512 + 1]
    turns reach [offset]; only an offset in the last sector below 4 GiB wraps
    [pos] past it, and a chain that then has not ended never ends.  The results:
    the last cluster reached, and whether the chain was
    long enough. *)
Fixpoint seek_loop (fuel : nat) (fat : option (list Z)) (cur pos offset size : Z)
    : res (Z * bool) :=
  if (pos <? offset) && (pos <? size) then
    match fuel with
    | O => Err OutOfFuel
    | S f =>
        next ← fat12_get_next fat cur;
        if FS_CLUSTER_MAX <=? next then Ok (cur, false)
        else seek_loop f fat next (u32 (pos + FS_BYTES_PER_SECTOR)) offset size
    end
  else Ok (cur, true).

Definition fs_seek (fd offset : Z) (s : fs) : res (Z * fs) :=
  if bad_fd fd then Ok (-1, s) else
  f ← rd (g_files s) fd;
  if f_in_use f =? 0 then Ok (-1, s) else
  if f_size f <? offset then Ok (-1, s) else
  '(cur, ok) ← seek_loop (Z.to_nat (offset / FS_BYTES_PER_SECTOR + 1)) (g_fat_cache s) (start_cluster f) 0 offset (f_size f);
  files ← wr (g_files s) fd (move_file f cur offset);
  Ok (if (ok : bool) then 0 else -1, set_files files s).

Definition fs_write (fd : Z) (buffer : list Z) (count : Z) : Z := -1.
Definition fs_delete (name : list Z) : Z := -1.
Definition fs_create (name : list Z) (attrs : Z) : Z := -1.
Definition fs_free_cluster_chain (start : Z) : Z := -1.

(** ** Reading, over a block device *)

Section Device.
Context {D : Type} `{BlockDev D}.

Definition fs_init (h : heap) (s : fs) (d : D) : res (Z * heap * fs * D) :=
  if negb (g_fs_initialized s =? 0) then Ok (0, h, s, d) else
  let close (f : fs_file_t) :=
    {| start_cluster := start_cluster f; current_cluster := current_cluster f;
       current_offset := current_offset f; f_size := f_size f; position := position f;
       f_attributes := f_attributes f; f_in_use := 0; f_name := f_name f |} in
  let s := set_files (close <$> g_files s) s in
  let '(p1, h1) := malloc FAT_BYTES h in
  if p1 =? NULL then Ok (-1, h1, set_caches None (g_root_dir_cache s) s, d) else
  let fat := fresh_block p1 FAT_BYTES h in
  let '(p2, h2) := malloc (FS_ROOT_DIR_SECTORS * FS_BYTES_PER_SECTOR) h1 in
  if p2 =? NULL then Ok (-1, h2, set_caches (Some fat) None s, d) else
  let root := fresh_block p2 (FS_ROOT_DIR_SECTORS * FS_BYTES_PER_SECTOR) h1 in
  '(r, fat, d) ← read_sectors 0 FS_FAT_START_SECTOR FS_SECTORS_PER_FAT fat d;
  if r <? 0 then Ok (-1, h2, set_caches (Some fat) (Some root) s, d) else
  '(r, root, d) ← read_sectors 0 FS_ROOT_DIR_SECTOR FS_ROOT_DIR_SECTORS root d;
  let s := set_caches (Some fat) (Some root) s in
  if r <? 0 then Ok (-1, h2, s, d) else
  Ok (0, h2, set_initialized s, d).

(** The number of bytes one turn of the loop of [fs_read] copies. *)
Definition to_copy (pos size remaining : Z) : Z :=
  let n := FS_BYTES_PER_SECTOR - pos mod FS_BYTES_PER_SECTOR in
  let n := if remaining <? n then remaining else n in
  if size <? u32 (pos + n) then u32 (size - pos) else n.

(** The loop of [fs_read]: [off] is how far [buffer] has moved, which is also
    [bytes_read].  The results: the caller's buffer, the number of bytes, the
    file, the cluster buffer and the machine. *)
Fixpoint read_loop (fuel : nat) (fat : option (list Z)) (f : fs_file_t)
    (buffer cbuf : list Z) (off remaining : Z) (d : D)
    : res (list Z * Z * fs_file_t * list Z * D) :=
  if (0 <? remaining) && (position f <? f_size f) then
    match fuel with
    | O => Err OutOfFuel
    | S fuel =>
        '(r, cbuf, d) ← disk_read_sector 0 (cluster_to_lba (current_cluster f)) cbuf d;
        if r <? 0 then Ok (buffer, off, f, cbuf, d) else
        let n := to_copy (position f) (f_size f) remaining in
        buffer ← memcpy_at buffer off cbuf (position f mod FS_BYTES_PER_SECTOR) n;
        let pos := u32 (position f + n) in
        let off := u32 (off + n) in
        let remaining := u32 (remaining - n) in
        if (pos mod FS_BYTES_PER_SECTOR =? 0) && (pos <? f_size f) then
          next ← fat12_get_next fat (current_cluster f);
          if FS_CLUSTER_MAX <=? next
          then Ok (buffer, off, move_file f (current_cluster f) pos, cbuf, d)
          else read_loop fuel fat (move_file f next pos) buffer cbuf off remaining d
        else read_loop fuel fat (move_file f (current_cluster f) pos) buffer cbuf off remaining d
    end
  else Ok (buffer, off, f, cbuf, d).

Definition fs_read (fd : Z) (buffer : option (list Z)) (count : Z) (s : fs) (d : D)
    : res (Z * option (list Z) * fs * D) :=
  if bad_fd fd then Ok (-1, buffer, s, d) else
  f ← rd (g_files s) fd;
  if f_in_use f =? 0 then Ok (-1, buffer, s, d) else
  match buffer with
  | None => Ok (-1, None, s, d)
  | Some buf =>
      '(buf, n, f, cbuf, d) ← read_loop (Z.to_nat count) (g_fat_cache s) f buf
        (g_cluster_buffer s) 0 count d;
      files ← wr (g_files s) fd f;
      Ok (i32 n, Some buf, set_cluster_buffer cbuf (set_files files s), d)
  end.

Definition fs_read_cluster (cluster : Z) (buffer : option (list Z)) (d : D)
    : res (Z * option (list Z) * D) :=
  match buffer with
  | None => Ok (-1, None, d)
  | Some buf =>
      '(r, buf, d) ← disk_read_sector 0 (cluster_to_lba cluster) buf d;
      Ok (r, Some buf, d)
  end.

Definition fs_write_cluster (cluster : Z) (buffer : option (list Z)) (d : D)
    : res (Z * D) :=
  match buffer with
  | None => Ok (-1, d)
  | Some buf => disk_write_sector 0 (cluster_to_lba cluster) buf d
  end.
End Device.

(** Offsets are quotients and remainders: let [lia] see through them. *)
Ltac Zify.zify_post_hook ::= Z.to_euclidean_division_equations.

(** ** The FAT: twelve-bit entries in pairs of three bytes *)

(** The byte offset of an entry, and what it is for the 16-bit clusters a
    directory entry or the FAT can name. *)
Definition fat_off (c : Z) : Z := c + c / 2.

Definition fat_ok (cache : list Z) : Prop := zlen cache = FAT_BYTES /\ Forall is_u8 cache.

Lemma fat_off_u32 c : 0 <= c < 2 ^ 31 -> u32 (c + c / 2) = fat_off c.
Proof. intros. apply u32_id. unfold is_u32, fat_off. lia. Qed.

(** The last byte of the cache is never the first byte of an entry. *)
Lemma fat_off_in c : 0 <= c -> fat_off c < FAT_BYTES -> fat_off c + 1 < FAT_BYTES.
Proof. unfold fat_off, FAT_BYTES, FS_SECTORS_PER_FAT, FS_BYTES_PER_SECTOR. lia. Qed.

Lemma byte_at cache i : fat_ok cache -> 0 <= i < FAT_BYTES ->
  exists b, zget cache i = Some b /\ is_u8 b.
Proof.
  intros [Hl Hb] Hi. rewrite <- Hl in Hi. apply zget_Ok_iff in Hi as [b Hz].
  exists b. split; [done|]. apply zget_Some in Hz as [_ Hz].
  by eapply Forall_lookup_1 in Hb.
Qed.

Lemma zodd_mod c : Z.odd c = (c mod 2 =? 1).
Proof. rewrite Zmod_odd. by destruct (Z.odd c). Qed.

Lemma get_next_spec cache c a b :
  0 <= c < 2 ^ 31 -> fat_off c < FAT_BYTES -> is_u8 a -> is_u8 b ->
  zget cache (fat_off c) = Some a -> zget cache (fat_off c + 1) = Some b ->
  fat12_get_next (Some cache) c =
    Ok (if Z.odd c then (a + 256 * b) / 16 else (a + 256 * b) mod 4096).
Proof.
  intros Hc Ho Ha Hb Hza Hzb. unfold fat12_get_next. rewrite fat_off_u32 by done.
  rewrite (proj2 (Z.leb_gt _ _)) by done. rewrite (rd16_spec _ _ a b) by done. step.
  unfold is_u8 in *. destruct (Z.odd c); rewrite (land_mask _ 12) by done; f_equal.
  rewrite Z.shiftr_div_pow2 by done. apply Z.mod_small.
  change (2 ^ 4) with 16. change (2 ^ 12) with 4096. lia.
Qed.

Lemma get_next_range cache c : fat_ok cache -> 0 <= c < 2 ^ 31 ->
  exists v, fat12_get_next (Some cache) c = Ok v /\ 0 <= v < 4096 /\
    (FAT_BYTES <= fat_off c -> v = FS_CLUSTER_EOF).
Proof.
  intros Hf Hc. destruct (Z_lt_le_dec (fat_off c) FAT_BYTES) as [Ho|Ho].
  - assert (0 <= fat_off c) by (unfold fat_off; lia).
    destruct (byte_at cache (fat_off c)) as (a & Ha & Hua); [done|lia|].
    destruct (byte_at cache (fat_off c + 1)) as (b & Hb & Hub);
      [done | pose proof (fat_off_in c); lia |].
    rewrite (get_next_spec cache c a b) by done. eexists. split; [reflexivity|].
    unfold is_u8 in *. split; [destruct (Z.odd c)|]; lia.
  - exists FS_CLUSTER_EOF. unfold fat12_get_next. rewrite fat_off_u32 by done.
    rewrite (proj2 (Z.leb_le _ _)) by done. done.
Qed.

Lemma land_high_nibble v : 0 <= v < 2 ^ 16 -> Z.land v 0xF000 = Z.shiftl (v / 4096) 12.
Proof.
  intros Hv. change 0xF000 with (Z.shiftl 15 12). apply Z.bits_inj'. intros n Hn.
  rewrite Z.land_spec. destruct (Z.lt_ge_cases n 12).
  - rewrite !Z.shiftl_spec_low by done. apply andb_false_r.
  - rewrite !Z.shiftl_spec by done. change 4096 with (2 ^ 12).
    rewrite Z.div_pow2_bits by lia. replace (n - 12 + 12) with n by lia.
    change 15 with (Z.ones 4). destruct (Z.lt_ge_cases (n - 12) 4).
    + rewrite Z.ones_spec_low by lia. apply andb_true_r.
    + rewrite Z.ones_spec_high by lia. rewrite andb_false_r.
      rewrite <- (Z.mod_small v (2 ^ 16)), Z.mod_pow2_bits_high by lia. done.
Qed.

(** The word written back: the twelve bits of [n] next to the old nibble. *)
Definition packed (c v n : Z) : Z :=
  if Z.odd c then v mod 16 + 16 * (n mod 4096) else v / 4096 * 4096 + n mod 4096.

Lemma set_next_spec cache c n a b :
  0 <= c < 2 ^ 31 -> fat_off c + 1 < zlen cache -> is_u8 a -> is_u8 b ->
  zget cache (fat_off c) = Some a -> zget cache (fat_off c + 1) = Some b ->
  let w := packed c (a + 256 * b) n in
  fat12_set_next (Some cache) c n =
    Ok (Some (<[Z.to_nat (fat_off c + 1) := w / 256]>
             (<[Z.to_nat (fat_off c) := w mod 256]> cache))) /\ 0 <= w < 2 ^ 16.
Proof.
  intros Hc Hl Ha Hb Hza Hzb w. unfold is_u8 in *.
  assert (Hw : 0 <= w < 2 ^ 16) by (unfold w, packed; destruct (Z.odd c); lia).
  split; [|done]. unfold fat12_set_next. rewrite fat_off_u32 by done.
  rewrite (rd16_spec _ _ a b) by done. step.
  assert (0 <= fat_off c) by (unfold fat_off; lia).
  set (x := if Z.odd c then _ else _). assert (Hx : x = w).
  { subst x w. unfold packed.
    destruct (Z.odd c); rewrite (land_mask _ 12 0xFFF) by done; change (2 ^ 12) with 4096.
    - rewrite (land_mask _ 4 0x000F) by done. change (2 ^ 4) with 16.
      rewrite lor_shiftl by lia. rewrite u16_id by (unfold is_u16; lia). lia.
    - rewrite land_high_nibble, Z.lor_comm, lor_shiftl by lia.
      rewrite u16_id by (unfold is_u16; lia). lia. }
  rewrite Hx, wr16_spec by (clearbody w; lia). step.
  rewrite (Z.mod_small (w / 256)) by (clear - Hw; clearbody w; lia). done.
Qed.

Lemma get_next_ext cache cache' c :
  0 <= c < 2 ^ 31 -> zget cache' (fat_off c) = zget cache (fat_off c) ->
  zget cache' (fat_off c + 1) = zget cache (fat_off c + 1) ->
  fat12_get_next (Some cache') c = fat12_get_next (Some cache) c.
Proof.
  intros Hc H0 H1. unfold fat12_get_next. rewrite fat_off_u32 by done.
  unfold rd16, rd. by rewrite H0, H1.
Qed.

Lemma fat_ok_insert2 cache i j x y :
  fat_ok cache -> is_u8 x -> is_u8 y -> fat_ok (<[i := x]> (<[j := y]> cache)).
Proof.
  intros [Hl Hb] Hx Hy. split; [by rewrite !zlen_insert|].
  by repeat apply Forall_insert.
Qed.

(** A set entry reads back, in either half of its pair, and its neighbour in the
    shared byte is untouched. *)
Lemma set_get_same cache c n a b :
  0 <= c < 2 ^ 31 -> fat_off c < FAT_BYTES -> zlen cache = FAT_BYTES -> is_u8 a -> is_u8 b ->
  let w := packed c (a + 256 * b) n in
  0 <= w < 2 ^ 16 ->
  fat12_get_next (Some (<[Z.to_nat (fat_off c + 1) := w / 256]>
                       (<[Z.to_nat (fat_off c) := w mod 256]> cache))) c = Ok (n mod 4096).
Proof.
  intros Hc Ho Hl Ha Hb w Hw. pose proof (fat_off_in c ltac:(lia) Ho).
  assert (0 <= fat_off c) by (unfold fat_off; lia). unfold is_u8 in *.
  rewrite (get_next_spec _ c (w mod 256) (w / 256)); try (unfold is_u8; clearbody w; lia).
  - f_equal. replace (w mod 256 + 256 * (w / 256)) with w by (clearbody w; lia).
    subst w. unfold packed. destruct (Z.odd c); lia.
  - rewrite zget_insert_ne, zget_insert_eq by lia. done.
  - apply zget_insert_eq. rewrite zlen_insert. lia.
Qed.

Lemma set_get_other cache c c' n a b :
  0 <= c < 2 ^ 31 -> 0 <= c' < 2 ^ 31 -> c' <> c -> fat_off c < FAT_BYTES ->
  fat_ok cache -> is_u8 a -> is_u8 b ->
  zget cache (fat_off c) = Some a -> zget cache (fat_off c + 1) = Some b ->
  let w := packed c (a + 256 * b) n in
  0 <= w < 2 ^ 16 ->
  fat12_get_next (Some (<[Z.to_nat (fat_off c + 1) := w / 256]>
                       (<[Z.to_nat (fat_off c) := w mod 256]> cache))) c' =
  fat12_get_next (Some cache) c'.
Proof.
  intros Hc Hc' Hne Ho Hf Ha Hb Hza Hzb w Hw. pose proof (fat_off_in c ltac:(lia) Ho).
  assert (Hi : forall i, i <> fat_off c -> i <> fat_off c + 1 -> zget (<[Z.to_nat (fat_off c + 1) := w / 256]>
     (<[Z.to_nat (fat_off c) := w mod 256]> cache)) i = zget cache i).
  { intros i H0 H1. rewrite !zget_insert_ne by (unfold fat_off in *; lia). done. }
  destruct (decide (c' / 2 = c / 2)) as [Hp|Hp].
  2: { apply get_next_ext; [done| |]; apply Hi; unfold fat_off; lia. }
  destruct Hf as [Hl Hu].
  assert (Hbyte : forall i, 0 <= i < FAT_BYTES -> exists x, zget cache i = Some x /\ is_u8 x)
    by (intros; by apply byte_at).
  unfold is_u8 in *. destruct (Z.odd c) eqn:Ec; rewrite zodd_mod in Ec.
  - (* c is the odd entry, c' the even one below: the shared byte is the first of c *)
    assert (Hoff : fat_off c' + 1 = fat_off c) by (unfold fat_off; lia).
    destruct (Hbyte (fat_off c')) as (x & Hx & Hux); [unfold fat_off in *; lia|].
    rewrite (get_next_spec _ c' x (w mod 256)), (get_next_spec cache c' x a);
      try done; try (rewrite ?Hoff; done); try (unfold is_u8, fat_off in *; clearbody w; lia).
    + rewrite (zodd_mod c'). replace (c' mod 2 =? 1) with false by lia. f_equal.
      subst w. unfold packed. rewrite zodd_mod. replace (c mod 2 =? 1) with true by lia. lia.
    + rewrite Hi; [done| |]; unfold fat_off in *; lia.
    + rewrite Hoff, zget_insert_ne, zget_insert_eq by (unfold fat_off in *; lia). done.
  - assert (Hoff : fat_off c' = fat_off c + 1) by (unfold fat_off; lia).
    pose proof (fat_off_in c' ltac:(lia) ltac:(lia)).
    destruct (Hbyte (fat_off c' + 1)) as (x & Hx & Hux); [unfold fat_off in *; lia|].
    rewrite (get_next_spec _ c' (w / 256) x), (get_next_spec cache c' b x);
      try done; try (rewrite ?Hoff; done); try (unfold is_u8, fat_off in *; clearbody w; lia).
    + rewrite (zodd_mod c'). replace (c' mod 2 =? 1) with true by lia. f_equal.
      subst w. unfold packed. rewrite zodd_mod. replace (c mod 2 =? 1) with false by lia. lia.
    + rewrite Hoff. apply zget_insert_eq. rewrite zlen_insert. unfold fat_off in *; lia.
    + rewrite Hi; [done| |]; unfold fat_off in *; lia.
Qed.

(** ** Names *)

Fixpoint until (x : Z) (l : list Z) : list Z :=
  match l with
  | [] => []
  | c :: r => if c =? x then [] else c :: until x r
  end.

Lemma until_length x l : (length (until x l) <= length l)%nat.
Proof. induction l as [|c l IH]; cbn; [lia|]. destruct (c =? x); cbn; lia. Qed.

Lemma until_split x l : exists r, l ++ [x] = until x l ++ x :: r.
Proof.
  induction l as [|c l [r IH]]; [by exists []|]. cbn. destruct (Z.eqb_spec c x) as [->|Hne].
  - by exists (l ++ [x]).
  - exists r. cbn. by rewrite IH.
Qed.

Lemma until_Forall (P : Z -> Prop) x l : Forall P l -> Forall P (until x l).
Proof.
  induction 1 as [|c l Hc _ IH]; [constructor|]. cbn. destruct (c =? x); by constructor.
Qed.

Lemma until_ne x l : Forall (fun c => c <> x) (until x l).
Proof.
  induction l as [|c l IH]; [constructor|]. cbn. destruct (Z.eqb_spec c x); by constructor.
Qed.

(** The text of an 8.3 name, and the C string it is read as. *)
Definition text83 (e : fs_dir_entry_t) : list Z :=
  until 32 (filename e) ++
  (if hd 32 (extension e) =? 32 then [] else 46 :: until 32 (extension e)).

Definition entry_name (e : fs_dir_entry_t) : list Z := until 0 (text83 e).

Record entry_ok (e : fs_dir_entry_t) : Prop := {
  eo_name : length (filename e) = 8%nat /\ Forall is_u8 (filename e);
  eo_ext : length (extension e) = 3%nat /\ Forall is_u8 (extension e);
  eo_cluster : is_u16 (low_cluster e);
  eo_size : is_u32 (file_size e);
  eo_attr : is_u8 (attributes e)
}.

Lemma copy_field_spec rest : forall spre dpre drest,
  (length rest <= length drest)%nat ->
  copy_field (length rest) (spre ++ rest) (zlen spre) (dpre ++ drest) (zlen dpre) =
    Ok (dpre ++ until 32 rest ++ drop (length (until 32 rest)) drest,
        zlen dpre + zlen (until 32 rest)).
Proof.
  induction rest as [|c rest IH]; intros spre dpre drest Hl; cbn [copy_field length].
  - cbn. by rewrite drop_0, Z.add_0_r.
  - rewrite rd_mid, bind_ret. cbn [until]. destruct (c =? 32).
    + cbn. by rewrite drop_0, Z.add_0_r.
    + destruct drest as [|d drest]; cbn [length] in Hl; [lia|].
      rewrite wr_mid, bind_ret.
      specialize (IH (spre ++ [c]) (dpre ++ [c]) drest ltac:(lia)).
      rewrite !zlen_app, <- !app_assoc in IH. change (zlen [c]) with 1 in IH. cbn [app] in IH.
      rewrite IH.
      unfold zlen. cbn. do 2 f_equal. lia.
Qed.

Lemma text83_length e : entry_ok e -> (length (text83 e) <= 12)%nat.
Proof.
  intros [[Hn _] [He _] _ _ _]. unfold text83. rewrite length_app.
  pose proof (until_length 32 (filename e)). pose proof (until_length 32 (extension e)).
  destruct (_ =? _); cbn [length]; lia.
Qed.

(** The name fits the thirteen bytes of [full_name], its terminator included. *)
Lemma build_name_spec e dst : entry_ok e -> length dst = 13%nat ->
  build_name e dst = Ok (text83 e ++ 0 :: drop (S (length (text83 e))) dst).
Proof.
  intros He Hd. pose proof (text83_length e He) as Ht. destruct He as [[Hn _] [Hx _] _ _ _].
  unfold build_name. pose proof (copy_field_spec (filename e) [] [] dst ltac:(lia)) as H1.
  rewrite Hn in H1. change ([] ++ filename e) with (filename e) in H1.
  change ([] ++ dst) with dst in H1. change (zlen []) with 0 in H1. rewrite H1. step.
  unfold text83 in *. set (n := until 32 (filename e)) in *.
  pose proof (until_length 32 (filename e)) as Hl. fold n in Hl.
  destruct (extension e) as [|x ext] eqn:Eext; [done|]. cbn [hd] in *.
  change (rd (x :: ext) 0) with (Ok x). rewrite bind_ret.
  destruct (drop (length n) dst) as [|y dr] eqn:Edr;
    [apply (f_equal length) in Edr; rewrite length_drop in Edr; cbn in Edr; lia|].
  assert (Hdrop : forall k, drop (S (length n + k)) dst = drop k dr).
  { intros k. rewrite <- Nat.add_succ_r, <- drop_drop, Edr. done. }
  cbn [app]. rewrite Z.add_0_l. destruct (x =? 32) eqn:Ex32.
  - rewrite bind_ret. cbv beta iota. rewrite wr_mid, app_nil_r.
    by rewrite <- (Nat.add_0_r (length n)), Hdrop, drop_0.
  - rewrite wr_mid, bind_ret.
    pose proof (copy_field_spec (x :: ext) [] (n ++ [46]) dr) as H2.
    rewrite Hx in H2.
    change ([] ++ x :: ext) with (x :: ext) in H2. change (zlen []) with 0 in H2.
    rewrite zlen_app, <- !app_assoc in H2. change (zlen [46]) with 1 in H2. cbn [app] in H2.
    apply (f_equal length) in Edr as Hlen. rewrite length_drop in Hlen. cbn [length] in Hlen.
    rewrite H2 by lia. step. set (u := until 32 (x :: ext)) in *.
    rewrite length_app in Ht. cbn [length] in Ht.
    destruct (drop (length u) dr) as [|z dr'] eqn:Edr';
      [apply (f_equal length) in Edr'; rewrite length_drop in Edr'; cbn [length] in Edr'; lia|].
    pose proof (wr_mid (n ++ 46 :: u) z dr' 0) as H3.
    rewrite zlen_app, <- app_assoc in H3. cbn [app] in H3.
    replace (zlen n + 1 + zlen u) with (zlen n + zlen (46 :: u)) by (unfold zlen; cbn [length]; lia).
    rewrite H3, length_app. cbn [length]. rewrite Hdrop, <- app_assoc. cbn [app].
    change (S (length u)) with (1 + length u)%nat. rewrite Nat.add_comm, <- drop_drop, Edr'. by rewrite <- app_assoc.
Qed.

(** ** The directory search *)

Definition root_ok (cache : list Z) : Prop := zlen cache = FS_ROOT_ENTRIES * 32 /\ Forall is_u8 cache.

Lemma rd16_u16 l off : Forall is_u8 l -> 0 <= off -> off + 1 < zlen l ->
  exists v, rd16 l off = Ok v /\ is_u16 v.
Proof.
  intros Hu H0 H1.
  destruct (proj1 (zget_Ok_iff l off)) as [a Ha]; [lia|].
  destruct (proj1 (zget_Ok_iff l (off + 1))) as [b Hb]; [lia|].
  assert (is_u8 a /\ is_u8 b) as [Hua Hub]
    by (split; eapply Forall_lookup_1; [exact Hu|apply zget_Some in Ha; apply Ha|
                                        exact Hu|apply zget_Some in Hb; apply Hb]).
  exists (a + 256 * b). split; [by apply rd16_spec|]. unfold is_u8, is_u16 in *. lia.
Qed.

Lemma rd32_u32 l off : Forall is_u8 l -> 0 <= off -> off + 3 < zlen l ->
  exists v, rd32 l off = Ok v /\ is_u32 v.
Proof.
  intros Hu H0 H1. unfold rd32.
  destruct (rd16_u16 l off) as (a & -> & Ha); [done|lia..|].
  destruct (rd16_u16 l (off + 2)) as (b & -> & Hb); [done|lia..|].
  step. eexists. split; [reflexivity|]. unfold is_u16, is_u32 in *.
  rewrite lor_shiftl by lia. lia.
Qed.

Lemma slice_Forall {A} (P : A -> Prop) l off n : Forall P l -> Forall P (slice l off n).
Proof. intros H. unfold slice. by apply Forall_take, Forall_drop. Qed.

Lemma dir_entry_spec cache i : root_ok cache -> 0 <= i < FS_ROOT_ENTRIES ->
  exists e, dir_entry cache i = Ok e /\ entry_ok e.
Proof.
  intros [Hl Hu] Hi. unfold dir_entry.
  assert (Hb : (0 <=? 32 * i) && (32 * i + 32 <=? zlen cache) = true).
  { apply andb_true_intro. split; apply Z.leb_le; lia. }
  rewrite Hb. destruct (rd_total cache (32 * i + 11)) as [at_ Hat]; [lia|].
  assert (is_u8 at_).
  { apply rd_Ok, zget_Some in Hat as [_ Hat]. by eapply Forall_lookup_1 in Hu. }
  destruct (rd16_u16 cache (32 * i + 22)) as (wt & Hwt & _); [done|lia..|].
  destruct (rd16_u16 cache (32 * i + 24)) as (wd & Hwd & _); [done|lia..|].
  destruct (rd16_u16 cache (32 * i + 26)) as (lc & Hlc & ?); [done|lia..|].
  destruct (rd32_u32 cache (32 * i + 28)) as (sz & Hsz & ?); [done|lia..|].
  rewrite Hat, Hwt, Hwd, Hlc, Hsz. step. eexists. split; [reflexivity|].
  assert (Hs : forall o n, 0 <= o -> 0 <= n -> o + n <= zlen cache ->
    length (slice cache o n) = Z.to_nat n)
    by (intros o n ? ? ?; pose proof (zlen_slice cache o n); unfold zlen in *; lia).
  constructor; cbn; try done; (split; [rewrite Hs by lia; done | by apply slice_Forall]).
Qed.

(** What a search passes over. *)
Definition deleted (e : fs_dir_entry_t) : Prop := hd 0 (filename e) = 0xE5.
Definition end_mark (e : fs_dir_entry_t) : Prop := hd 0 (filename e) = 0x00.

Definition passed (cache name : list Z) (i : Z) : Prop :=
  exists e, dir_entry cache i = Ok e /\ ~ end_mark e /\ (deleted e \/ entry_name e <> name).

(** The verdict of a search from [i] on. *)
Definition search_result (cache name : list Z) (i r : Z) (found : option fs_dir_entry_t) : Prop :=
  match found with
  | Some e => i <= r < FS_ROOT_ENTRIES /\ dir_entry cache r = Ok e /\ ~ end_mark e /\ ~ deleted e /\
              entry_name e = name /\ forall j, i <= j < r -> passed cache name j
  | None => r = -1 /\ exists n, i <= n <= FS_ROOT_ENTRIES /\
              (n = FS_ROOT_ENTRIES \/ exists e, dir_entry cache n = Ok e /\ end_mark e) /\
              forall j, i <= j < n -> passed cache name j
  end.

Lemma search_skip cache name i r found :
  passed cache name i -> search_result cache name (i + 1) r found ->
  search_result cache name i r found.
Proof.
  intros Hp Hs. assert (Hj : forall n, (forall j, i + 1 <= j < n -> passed cache name j) ->
    forall j, i <= j < n -> passed cache name j).
  { intros n Hn j Hj. destruct (Z.eq_dec j i) as [->|]; [done|]. apply Hn. lia. }
  destruct found as [e|]; cbn in *.
  - destruct Hs as (? & ? & ? & ? & ? & ?). split_and!; eauto; lia.
  - destruct Hs as (? & n & ? & ? & ?). split; [done|]. exists n. split_and!; eauto; lia.
Qed.

Lemma text83_u8 e : entry_ok e -> Forall is_u8 (text83 e).
Proof.
  intros [[_ Hn] [_ Hx] _ _ _]. unfold text83. apply Forall_app. split; [by apply until_Forall|].
  destruct (_ =? _); [done|]. constructor; [vm_compute; split; congruence|]. by apply until_Forall.
Qed.

(** The array [build_name] fills, read as a C string. *)
Lemma built_cstr e rest : entry_ok e ->
  exists r, text83 e ++ 0 :: rest = cstr (entry_name e) r /\ nul_free (entry_name e).
Proof.
  intros He. destruct (until_split 0 (text83 e)) as [r Hr].
  exists (r ++ rest). split.
  - change (0 :: rest) with ([0] ++ rest). rewrite app_assoc, Hr. unfold cstr, entry_name.
    by rewrite <- app_assoc.
  - unfold nul_free, entry_name. apply Forall_and. split; [|apply until_ne].
    by apply until_Forall, text83_u8.
Qed.

Lemma find_entry_spec cache name r0 : root_ok cache -> nul_free name ->
  forall fuel i full, length full = 13%nat -> 0 <= i -> i + Z.of_nat fuel = FS_ROOT_ENTRIES ->
  exists r found, find_entry_from fuel cache (cstr name r0) full i = Ok (r, found) /\
    search_result cache name i r found.
Proof.
  intros Hroot Hname. induction fuel as [|fuel IH]; intros i full Hfull Hi Hfuel.
  { exists (-1), None. split; [done|]. split; [done|]. exists i. split_and!; try lia. }
  destruct (dir_entry_spec cache i Hroot) as (e & He & Hok); [unfold FS_ROOT_ENTRIES in *; lia|].
  cbn [find_entry_from]. rewrite He, bind_ret.
  destruct (filename e) as [|c0 fn] eqn:Efn; [destruct Hok as [[Hn _] _ _ _ _]; by rewrite Efn in Hn|].
  change (rd (c0 :: fn) 0) with (Ok c0). rewrite bind_ret.
  destruct (Z.eqb_spec c0 0) as [E0|E0].
  { exists (-1), None. split; [done|]. split; [done|]. exists i. split_and!; try lia.
    right. exists e. split; [done|]. unfold end_mark. by rewrite Efn. }
  assert (Hne : ~ end_mark e) by (unfold end_mark; by rewrite Efn).
  destruct (Z.eqb_spec c0 0xE5) as [E5|E5].
  { destruct (IH (i + 1) full) as (r & found & -> & Hs); [done|lia..|].
    exists r, found. split; [done|]. apply search_skip; [|done]. exists e.
    split_and!; [done..|]. left. unfold deleted. by rewrite Efn. }
  rewrite build_name_spec by done. step.
  destruct (built_cstr e (drop (S (length (text83 e))) full) Hok) as (r' & Hr' & Hnf).
  destruct (strcmp_cstr (entry_name e) name r' r0 Hnf Hname) as (k & Hk & Hiff).
  rewrite Hr', Hk, bind_ret. destruct (Z.eqb_spec k 0) as [Ek|Ek].
  - exists i, (Some e). split; [done|]. cbn. split_and!; try done; try lia.
    + unfold deleted. by rewrite Efn.
    + by apply Hiff.
  - destruct (IH (i + 1) (cstr (entry_name e) r')) as (r & found & -> & Hs); [|lia..|].
    { rewrite <- Hr', length_app. cbn [length]. rewrite length_drop.
      pose proof (text83_length e Hok). lia. }
    exists r, found. split; [done|]. apply search_skip; [|done]. exists e.
    split_and!; [done..|]. right. tauto.
Qed.

(** ** The invariant of the file system's globals *)

Record file_wf (f : fs_file_t) : Prop := {
  fw_start : is_u16 (start_cluster f);
  fw_cur : is_u16 (current_cluster f);
  fw_size : is_u32 (f_size f);
  fw_pos : is_u32 (position f);
  fw_name : length (f_name f) = 16%nat
}.

Definition opt_ok (P : list Z -> Prop) (o : option (list Z)) : Prop :=
  match o with None => True | Some l => P l end.

Definition cbuf_ok (b : list Z) : Prop := zlen b = FS_BYTES_PER_SECTOR /\ Forall is_u8 b.

Record fs_wf (s : fs) : Prop := {
  sw_files : length (g_files s) = 16%nat /\ Forall file_wf (g_files s);
  sw_fat : opt_ok fat_ok (g_fat_cache s);
  sw_root : opt_ok root_ok (g_root_dir_cache s);
  sw_init : g_fs_initialized s <> 0 -> is_Some (g_root_dir_cache s);
  sw_cbuf : cbuf_ok (g_cluster_buffer s)
}.

Lemma dir_find_spec s name r0 : opt_ok root_ok (g_root_dir_cache s) -> nul_free name ->
  exists r found, dir_find_entry s (cstr name r0) = Ok (r, found) /\
    match g_root_dir_cache s with
    | None => r = -1 /\ found = None
    | Some cache => search_result cache name 0 r found
    end.
Proof.
  intros Hr Hn. unfold dir_find_entry. destruct (g_root_dir_cache s) as [cache|]; [|by eexists _, _].
  by apply find_entry_spec.
Qed.

Lemma found_entry_ok s r e : opt_ok root_ok (g_root_dir_cache s) ->
  match g_root_dir_cache s with
  | None => r = -1 /\ Some e = None
  | Some cache => exists name, search_result cache name 0 r (Some e)
  end -> entry_ok e /\ 0 <= r.
Proof.
  destruct (g_root_dir_cache s) as [cache|]; [|by intros _ [_ ?]].
  intros Hr (name & Hi & He & _). destruct (dir_entry_spec cache r Hr ltac:(lia)) as (e' & He' & ?).
  rewrite He in He'. injection He' as ->. split; [done|lia].
Qed.

Lemma get_next_opt fat c : opt_ok fat_ok fat -> is_u16 c ->
  exists v, fat12_get_next fat c = Ok v /\ 0 <= v < 4096.
Proof.
  intros Hf Hc. unfold is_u16 in Hc. destruct fat as [cache|].
  - destruct (get_next_range cache c) as (v & -> & ? & _); [done|lia|]. by exists v.
  - by exists FS_CLUSTER_EOF.
Qed.

Lemma fd_cases (s : fs) fd : length (g_files s) = 16%nat -> is_i32 fd ->
  bad_fd fd = true \/
  bad_fd fd = false /\ 0 <= fd < zlen (g_files s) /\ exists f, rd (g_files s) fd = Ok f.
Proof.
  intros Hl Hfd. unfold bad_fd. destruct ((fd <? 0) || (FS_MAX_FILES <=? fd)) eqn:E; [by left|right].
  apply orb_false_elim in E as [E1 E2]. apply Z.ltb_ge in E1. apply Z.leb_gt in E2.
  unfold FS_MAX_FILES in E2. assert (0 <= fd < zlen (g_files s)) by (unfold zlen; lia).
  split_and!; try done; try lia. by apply rd_total.
Qed.

Lemma rd_Forall {A} (P : A -> Prop) l i x : Forall P l -> rd l i = Ok x -> P x.
Proof. intros Hl Hx. apply rd_Ok, zget_Some in Hx as [_ Hx]. by eapply Forall_lookup_1 in Hl. Qed.

Lemma set_files_wf s fd f : fs_wf s -> file_wf f ->
  fs_wf (set_files (<[Z.to_nat fd := f]> (g_files s)) s).
Proof.
  intros [[Hl Hf] ? ? ? ?] Hw. constructor; try done. cbn.
  split; [by rewrite length_insert | by apply Forall_insert].
Qed.

Lemma set_cluster_buffer_wf s b : fs_wf s -> cbuf_ok b -> fs_wf (set_cluster_buffer b s).
Proof. by intros [] ?; constructor. Qed.

(** *** Opening *)

Lemma find_fd_spec suf : forall pre,
  exists k, find_fd (length suf) (pre ++ suf) (zlen pre) = Ok k /\
    (k = -1 /\ Forall (fun f => f_in_use f <> 0) suf \/
     exists n f, k = zlen pre + Z.of_nat n /\ suf !! n = Some f /\ f_in_use f = 0 /\
       Forall (fun f => f_in_use f <> 0) (take n suf)).
Proof.
  induction suf as [|f suf IH]; intros pre; cbn [find_fd length].
  - exists (-1). split; [done|]. by left.
  - rewrite rd_mid, bind_ret. destruct (Z.eqb_spec (f_in_use f) 0) as [E|E].
    + exists (zlen pre). split; [done|]. right. exists 0%nat, f. split_and!; try done. lia.
    + destruct (IH (pre ++ [f])) as (k & Hk & Hcases). rewrite zlen_app, <- app_assoc in Hk.
      change (zlen [f]) with 1 in Hk. cbn [app] in Hk. rewrite Hk. exists k. split; [done|].
      destruct Hcases as [[-> Hall]|(n & g & -> & Hg & Hu & Hall)].
      * left. by constructor; [|constructor].
      * right. exists (S n), g. rewrite zlen_app. change (zlen [f]) with 1.
        split_and!; try done; [lia|]. cbn. by constructor.
Qed.

(** The descriptor [fs_open] makes of a directory entry. *)
Definition opened (e : fs_dir_entry_t) (fname : list Z) : fs_file_t :=
  {| start_cluster := low_cluster e; current_cluster := low_cluster e; current_offset := 0;
     f_size := file_size e; position := 0; f_attributes := attributes e; f_in_use := 1;
     f_name := fname |}.

Lemma open_table s cache name r0 : length (g_files s) = 16%nat -> Forall (fun f => length (f_name f) = 16%nat) (g_files s) ->
  root_ok cache -> g_root_dir_cache s = Some cache -> nul_free name -> g_fs_initialized s <> 0 ->
  (exists fd fname i e,
     fs_open (Some (cstr name r0)) s = Ok (fd, set_files (<[Z.to_nat fd := opened e fname]> (g_files s)) s) /\
     0 <= fd < 16 /\ (exists f, rd (g_files s) fd = Ok f /\ f_in_use f = 0) /\
     Forall (fun f => f_in_use f <> 0) (take (Z.to_nat fd) (g_files s)) /\
     length fname = 16%nat /\ entry_ok e /\ search_result cache name 0 i (Some e)) \/
  (fs_open (Some (cstr name r0)) s = Ok (-1, s) /\
   (Forall (fun f => f_in_use f <> 0) (g_files s) \/
    search_result cache name 0 (-1) None)).
Proof.
  intros Hl Hf Hroot Hc Hn Hi.
  unfold fs_open. rewrite (proj2 (Z.eqb_neq _ _)) by done.
  destruct (find_fd_spec (g_files s) []) as (fd & Hfd & Hcases). rewrite Hl in Hfd.
  change ([] ++ g_files s) with (g_files s) in Hfd. change (zlen []) with 0 in Hfd, Hcases.
  change (Z.to_nat FS_MAX_FILES) with 16%nat. rewrite Hfd, bind_ret.
  destruct Hcases as [[-> Hall]|(k & f & -> & Hk & Hu & Hfree)].
  { right. split; [done|]. by left. }
  rewrite Z.add_0_l in *. rewrite (proj2 (Z.ltb_ge _ _)) by lia.
  destruct (dir_find_spec s name r0 ltac:(by rewrite Hc) Hn) as (i & found & -> & Hs). rewrite bind_ret, Hc in *.
  destruct found as [e|].
  2: { right. split; [done|]. right. by destruct Hs as [-> Hs]. }
  left. apply lookup_lt_Some in Hk as Hlt.
  assert (Hrd : rd (g_files s) (Z.of_nat k) = Ok f)
    by (apply rd_Ok, zget_Some; rewrite Nat2Z.id; split; [lia|done]).
  assert (Hfn : length (f_name f) = 16%nat) by (by apply (rd_Forall _ _ _ _ Hf Hrd)).
  rewrite Hrd, bind_ret, strncpy_cstr by (done || lia).
  rewrite bind_ret, wr_in by (unfold zlen; lia). rewrite bind_ret.
  eexists (Z.of_nat k), _, i, e. split; [reflexivity|]. rewrite Nat2Z.id.
  split_and!; try done; try lia; [by exists f| |].
  - rewrite !length_app, length_take, length_replicate, length_drop. lia.
  - apply (found_entry_ok (Fs [] None (Some cache) 0 []) i e); [done|]. by exists name.
Qed.

Lemma open_spec s name r0 : fs_wf s -> nul_free name -> g_fs_initialized s <> 0 ->
  (exists fd fname cache i e,
     fs_open (Some (cstr name r0)) s = Ok (fd, set_files (<[Z.to_nat fd := opened e fname]> (g_files s)) s) /\
     0 <= fd < 16 /\ (exists f, rd (g_files s) fd = Ok f /\ f_in_use f = 0) /\
     Forall (fun f => f_in_use f <> 0) (take (Z.to_nat fd) (g_files s)) /\
     length fname = 16%nat /\ entry_ok e /\
     g_root_dir_cache s = Some cache /\ search_result cache name 0 i (Some e)) \/
  (fs_open (Some (cstr name r0)) s = Ok (-1, s) /\
   (Forall (fun f => f_in_use f <> 0) (g_files s) \/
    exists cache, g_root_dir_cache s = Some cache /\ search_result cache name 0 (-1) None)).
Proof.
  intros [[Hl Hf] _ Hroot Hini _] Hn Hi. destruct (Hini Hi) as [cache Hc]. rewrite Hc in Hroot.
  assert (Hfn : Forall (fun f => length (f_name f) = 16%nat) (g_files s)) by (by eapply Forall_impl; [exact Hf|intros f []]).
  destruct (open_table s cache name r0 Hl Hfn Hroot Hc Hn Hi) as [(fd & fname & i & e & E & ? & ? & ? & ? & ? & ?)|[E Hs]].
  - left. by exists fd, fname, cache, i, e.
  - right. split; [done|]. destruct Hs as [?|?]; [by left|right]. by exists cache.
Qed.

Lemma opened_wf e fname : entry_ok e -> length fname = 16%nat -> file_wf (opened e fname).
Proof. intros [] ?. constructor; try done. Qed.

(** *** Seeking and closing *)

Lemma seek_loop_safe fat size offset : opt_ok fat_ok fat -> offset <= size -> size < 2 ^ 32 ->
  offset <= 2 ^ 32 - 512 ->
  forall fuel cur pos, is_u16 cur -> 0 <= pos -> pos mod 512 = 0 -> pos <= offset + 511 ->
  offset - pos <= 512 * Z.of_nat fuel ->
  exists cur' ok, seek_loop fuel fat cur pos offset size = Ok (cur', ok) /\ is_u16 cur'.
Proof.
  intros Hf Hos Hs Ho. induction fuel as [|fuel IH]; intros cur pos Hcur Hp0 Hpm Hp Hfuel;
    cbn [seek_loop]; destruct (Z.ltb_spec pos offset) as [Hlt|Hge];
    try (exists cur, true; done); [lia|].
  rewrite (proj2 (Z.ltb_lt _ _)) by lia. cbn [andb].
  destruct (get_next_opt fat cur Hf Hcur) as (v & -> & Hv). rewrite bind_ret.
  destruct (FS_CLUSTER_MAX <=? v); [by exists cur, false|].
  assert (Hu : u32 (pos + FS_BYTES_PER_SECTOR) = pos + 512)
    by (apply u32_id; unfold is_u32, FS_BYTES_PER_SECTOR; lia).
  rewrite Hu. apply IH; try lia. unfold is_u16. lia.
Qed.

Lemma seek_wf s fd offset : fs_wf s -> is_i32 fd -> 0 <= offset <= 2 ^ 32 - 512 ->
  exists r s', fs_seek fd offset s = Ok (r, s') /\ fs_wf s'.
Proof.
  intros Hwf Hfd Ho. pose proof Hwf as [[Hl Hf] Hfat _ _ _]. unfold fs_seek.
  destruct (fd_cases s fd Hl Hfd) as [->|(-> & Hin & f & Hrd)]; [by exists (-1), s|].
  rewrite Hrd, bind_ret. pose proof (rd_Forall _ _ _ _ Hf Hrd) as [? ? Hsz ? ?].
  destruct (f_in_use f =? 0); [by exists (-1), s|].
  destruct (Z.ltb_spec (f_size f) offset); [by exists (-1), s|].
  unfold is_u32 in Hsz.
  destruct (seek_loop_safe (g_fat_cache s) (f_size f) offset Hfat ltac:(lia) ltac:(lia) ltac:(lia)
    (Z.to_nat (offset / FS_BYTES_PER_SECTOR + 1)) (start_cluster f) 0) as (cur & ok & -> & Hc);
    try done; try (unfold FS_BYTES_PER_SECTOR; lia).
  rewrite bind_ret. cbv beta iota. rewrite wr_in, bind_ret by done.
  eexists _, _. split; [reflexivity|]. apply set_files_wf; [done|].
  constructor; cbn; try done. unfold is_u32. lia.
Qed.

Lemma close_spec s fd : fs_wf s -> is_i32 fd ->
  exists r s', fs_close fd s = Ok (r, s') /\ fs_wf s'.
Proof.
  intros Hwf Hfd. pose proof Hwf as [[Hl Hf] _ _ _ _]. unfold fs_close.
  destruct (fd_cases s fd Hl Hfd) as [->|(-> & Hin & f & Hrd)]; [by exists (-1), s|].
  rewrite Hrd, bind_ret. pose proof (rd_Forall _ _ _ _ Hf Hrd) as [].
  destruct (f_in_use f =? 0); [by exists (-1), s|].
  rewrite wr_in, bind_ret by done. eexists _, _. split; [reflexivity|].
  by apply set_files_wf; [|constructor].
Qed.

(** *** Listing *)

Lemma list_from_spec cache max fuel : root_ok cache ->
  forall es count i, max <= zlen es -> Forall (fun x => length (di_filename x) = 13%nat) es ->
  0 <= count -> 0 <= i -> i + Z.of_nat fuel = FS_ROOT_ENTRIES ->
  exists n es', list_from fuel cache es max count i = Ok (n, es') /\
    count <= n /\ (n <= max \/ n = count) /\ length es' = length es.
Proof.
  intros Hr. induction fuel as [|fuel IH]; intros es count i Hm He Hc Hi Hf; cbn [list_from].
  { exists count, es. split_and!; try done; lia. }
  destruct (Z.leb_spec max count). { exists count, es. split_and!; try done; lia. }
  destruct (dir_entry_spec cache i Hr) as (e & -> & Hok); [unfold FS_ROOT_ENTRIES in *; lia|].
  rewrite bind_ret. destruct (filename e) as [|c0 fn] eqn:Efn;
    [destruct Hok as [[Hn _] _ _ _ _]; by rewrite Efn in Hn|].
  change (rd (c0 :: fn) 0) with (Ok c0). rewrite bind_ret.
  destruct (c0 =? 0). { exists count, es. split_and!; try done; lia. }
  destruct (_ || _); [apply IH; try done; lia|].
  destruct (rd_total es count ltac:(lia)) as [inf Hinf]. rewrite Hinf, bind_ret.
  unfold fill_info. rewrite build_name_spec by (try done; by eapply rd_Forall in He). step.
  rewrite wr_in by lia. rewrite bind_ret.
  match goal with |- context [list_from _ _ ?es1] => destruct (IH es1 (count + 1) (i + 1))
    as (n & es' & -> & ? & ? & Hlen) end; try lia.
  - by rewrite zlen_insert.
  - apply Forall_insert; [done|]. cbn. rewrite length_app. cbn [length]. rewrite length_drop.
    apply (rd_Forall _ _ _ _ He) in Hinf. pose proof (text83_length e Hok). lia.
  - exists n, es'. rewrite length_insert in Hlen. split_and!; try done; lia.
Qed.

(** *** Reading *)

Section Reading.
Context {D : Type} `{BlockDev D}.

Lemma to_copy_bounds pos size remaining :
  is_u32 pos -> is_u32 size -> pos < size -> 0 < remaining ->
  1 <= to_copy pos size remaining <= remaining /\
  pos mod 512 + to_copy pos size remaining <= 512.
Proof.
  unfold is_u32, to_copy, FS_BYTES_PER_SECTOR. intros Hp Hs Hlt Hr.
  set (n := if remaining <? 512 - pos mod 512 then remaining else 512 - pos mod 512).
  assert (Hn : 1 <= n <= remaining /\ pos mod 512 + n <= 512)
    by (subst n; destruct (Z.ltb_spec remaining (512 - pos mod 512)); lia).
  clearbody n. destruct (Z.ltb_spec size (u32 (pos + n))) as [Hw|Hw]; [|done].
  rewrite u32_id by (unfold is_u32; lia).
  assert (u32 (pos + n) <= pos + n) by (apply Z.mod_le; lia). lia.
Qed.

Lemma move_file_wf f cur pos : file_wf f -> is_u16 cur -> is_u32 pos -> file_wf (move_file f cur pos).
Proof. by intros [] ? ?; constructor. Qed.

Lemma read_loop_safe `{!BlockSafe D} fat : opt_ok fat_ok fat ->
  forall fuel f buffer cbuf off remaining d,
  blk_ok d -> file_wf f -> cbuf_ok cbuf -> 0 <= off -> 0 <= remaining -> off + remaining < 2 ^ 16 ->
  off + remaining <= zlen buffer -> remaining <= Z.of_nat fuel ->
  exists buffer' n f' cbuf' d',
    read_loop fuel fat f buffer cbuf off remaining d = Ok (buffer', n, f', cbuf', d') /\
    zlen buffer' = zlen buffer /\ off <= n <= off + remaining /\ file_wf f' /\ cbuf_ok cbuf' /\ blk_ok d'.
Proof.
  intros Hfat. induction fuel as [|fuel IH]; intros f buffer cbuf off remaining d
    Hok Hf Hc Ho Hr Hor Hbuf Hfuel; cbn [read_loop]; destruct (Z.ltb_spec 0 remaining) as [Hpos|Hz];
    try (exists buffer, off, f, cbuf, d; split_and!; try done; lia).
  destruct (Z.ltb_spec (position f) (f_size f)) as [Hlt|];
    [|exists buffer, off, f, cbuf, d; split_and!; try done; lia]. cbn [andb].
  pose proof Hf as [? Hcur Hsz Hps ?]. destruct Hc as [Hcl Hcu].
  assert (Hlba : is_u32 (cluster_to_lba (current_cluster f))).
  { unfold cluster_to_lba. case_if; [vm_compute; split; congruence|]. apply u32_range. }
  destruct (read_safe 0 (cluster_to_lba (current_cluster f)) 1 cbuf d Hok) as (r & cb & d' & Hrd & _ & Hok' & Hcl' & Hcu' & _);
    try done; try (unfold is_u8; lia). { rewrite Hcl. done. }
  unfold disk_read_sector. rewrite Hrd, bind_ret. cbv beta iota.
  assert (Hcb : cbuf_ok cb) by (split; [congruence|done]).
  destruct (r <? 0). { exists buffer, off, f, cb, d'. split_and!; try done; lia. }
  destruct (to_copy_bounds (position f) (f_size f) remaining Hps Hsz Hlt Hpos) as [Hn1 Hn2].
  set (n := to_copy _ _ _) in *. clearbody n.
  unfold cbuf_ok, FS_BYTES_PER_SECTOR in *. unfold is_u32 in Hps.
  assert (Hm : 0 <= position f mod 512) by lia.
  rewrite memcpy_at_spec by lia. rewrite bind_ret.
  set (buf1 := _ ++ _). assert (Hb1 : zlen buf1 = zlen buffer).
  { subst buf1. rewrite !zlen_app, zlen_slice by lia. unfold zlen in *.
    rewrite length_take, length_drop. lia. }
  clearbody buf1. rewrite (u32_id (off + n)), (u32_id (remaining - n)) by (unfold is_u32; lia).
  assert (Hrec : forall cur, is_u16 cur -> exists buffer' n0 f' cbuf' d'',
    read_loop fuel fat (move_file f cur (u32 (position f + n))) buf1 cb (off + n) (remaining - n) d'
      = Ok (buffer', n0, f', cbuf', d'') /\ zlen buffer' = zlen buffer /\
    off <= n0 <= off + remaining /\ file_wf f' /\ (zlen cbuf' = 512 /\ Forall is_u8 cbuf') /\ blk_ok d'').
  { intros cur Hu. destruct (IH (move_file f cur (u32 (position f + n))) buf1 cb (off + n) (remaining - n) d')
      as (b' & n0 & f' & cb' & d'' & -> & ? & ? & ? & [? ?] & ?); try done; try lia.
    { apply move_file_wf; [done..|apply u32_range]. }
    exists b', n0, f', cb', d''. split_and!; try done; lia. }
  destruct (_ && _); [|by apply Hrec].
  destruct (get_next_opt fat (current_cluster f) Hfat Hcur) as (v & -> & Hv). rewrite bind_ret.
  destruct (FS_CLUSTER_MAX <=? v); [|apply Hrec; unfold is_u16; lia].
  exists buf1, (off + n), (move_file f (current_cluster f) (u32 (position f + n))), cb, d'.
  split_and!; try done; try lia; try apply Hcb. apply move_file_wf; [done..|apply u32_range].
Qed.

Lemma read_wf `{!BlockSafe D} fd buf count s d : fs_wf s -> blk_ok d -> is_i32 fd -> is_u16 count ->
  count <= zlen buf ->
  exists r buf' s' d', fs_read fd (Some buf) count s d = Ok (r, Some buf', s', d') /\
    fs_wf s' /\ blk_ok d' /\ zlen buf' = zlen buf /\ -1 <= r <= count.
Proof.
  intros Hwf Hok Hfd Hc Hb. pose proof Hwf as [[Hl Hf] Hfat _ _ Hcb]. unfold fs_read.
  unfold is_u16 in Hc.
  destruct (fd_cases s fd Hl Hfd) as [->|(-> & Hin & f & Hrd)];
    [exists (-1), buf, s, d; split_and!; try done; lia|].
  rewrite Hrd, bind_ret. pose proof (rd_Forall _ _ _ _ Hf Hrd) as Hfw.
  destruct (f_in_use f =? 0); [exists (-1), buf, s, d; split_and!; try done; lia|].
  destruct (read_loop_safe (g_fat_cache s) Hfat (Z.to_nat count) f buf (g_cluster_buffer s) 0 count d)
    as (b & n & f' & cb & d' & -> & ? & ? & ? & ? & ?); try done; try lia.
  rewrite bind_ret. cbv beta iota. rewrite wr_in, bind_ret by done.
  rewrite i32_id by (unfold is_i32; lia).
  eexists _, _, _, _. split; [reflexivity|]. split_and!; try done; try lia.
  apply set_cluster_buffer_wf; [by apply set_files_wf|done].
Qed.

(** Start-up: the globals before [fs_init], and a heap of bytes. *)
Record fs_boot (s : fs) : Prop := {
  sb_files : length (g_files s) = 16%nat /\ Forall file_wf (g_files s);
  sb_init : g_fs_initialized s = 0;
  sb_fat : g_fat_cache s = None;
  sb_root : g_root_dir_cache s = None;
  sb_cbuf : cbuf_ok (g_cluster_buffer s)
}.

Lemma fresh_u8 p n h : (forall a, is_u8 (heap_ram h a)) -> Forall is_u8 (fresh_block p n h).
Proof. intros Hu. unfold fresh_block. apply Forall_fmap, Forall_true. intros k. apply Hu. Qed.

Lemma malloc_ram n h : heap_ram (malloc n h).2 = heap_ram h.
Proof. unfold malloc. by case_if. Qed.

Lemma set_caches_wf s fat root : length (g_files s) = 16%nat /\ Forall file_wf (g_files s) ->
  cbuf_ok (g_cluster_buffer s) -> opt_ok fat_ok fat -> opt_ok root_ok root ->
  (g_fs_initialized s <> 0 -> is_Some root) -> fs_wf (set_caches fat root s).
Proof. by constructor. Qed.

Lemma fs_init_wf `{!BlockSafe D} h s d : fs_boot s -> blk_ok d -> (forall a, is_u8 (heap_ram h a)) ->
  exists r h' s' d', fs_init h s d = Ok (r, h', s', d') /\ fs_wf s' /\ blk_ok d' /\ (r = 0 \/ r = -1) /\
    (r = 0 <-> g_fs_initialized s' <> 0).
Proof.
  intros [[Hl Hf] Hi Hfat Hroot Hcb] Hok Hu. unfold fs_init. rewrite Hi. change (negb (0 =? 0)) with false.
  cbv iota. set (close := fun f : fs_file_t => _).
  set (s1 := set_files (close <$> g_files s) s).
  assert (Hfiles : length (g_files s1) = 16%nat /\ Forall file_wf (g_files s1)).
  { subst s1. cbn. split; [by rewrite length_fmap|]. apply Forall_fmap.
    eapply Forall_impl; [exact Hf|]. by intros f []; constructor. }
  assert (Hi1 : g_fs_initialized s1 = 0) by done. assert (Hc1 : cbuf_ok (g_cluster_buffer s1)) by done.
  assert (Hroot1 : g_root_dir_cache s1 = None) by done. clearbody s1.
  assert (Hno : forall root : option (list Z), g_fs_initialized s1 <> 0 -> is_Some root) by done.
  destruct (malloc FAT_BYTES h) as [p1 h1] eqn:Em1.
  assert (Hu1 : forall a, is_u8 (heap_ram h1 a)).
  { intros a. pose proof (malloc_ram FAT_BYTES h) as Hm. rewrite Em1 in Hm. cbn in Hm. by rewrite Hm. }
  destruct (p1 =? NULL).
  { eexists _, _, _, _. split; [reflexivity|]. rewrite Hroot1.
    split; [by apply set_caches_wf|]. split; [done|]. split; [by right|]. by cbn; rewrite Hi1. }
  assert (Hfat1 : zlen (fresh_block p1 FAT_BYTES h) = FAT_BYTES /\ Forall is_u8 (fresh_block p1 FAT_BYTES h))
    by (split; [by apply fresh_block_length | by apply fresh_u8]).
  set (fat := fresh_block p1 FAT_BYTES h) in *. clearbody fat.
  destruct (malloc _ h1) as [p2 h2]. destruct (p2 =? NULL).
  { eexists _, _, _, _. split; [reflexivity|].
    split; [by apply set_caches_wf|]. split; [done|]. split; [by right|]. by cbn; rewrite Hi1. }
  set (root := fresh_block p2 _ h1).
  assert (Hroot2 : zlen root = FS_ROOT_ENTRIES * 32 /\ Forall is_u8 root)
    by (split; [by apply fresh_block_length | by apply fresh_u8]).
  clearbody root. destruct Hfat1 as [Hfl Hfu], Hroot2 as [Hrl Hru].
  destruct (read_safe 0 FS_FAT_START_SECTOR FS_SECTORS_PER_FAT fat d Hok)
    as (r1 & fat' & d1 & -> & Hr1 & Hok1 & Hfl' & Hfu' & _); try done; [by rewrite Hfl|].
  rewrite bind_ret. cbv beta iota. destruct (r1 <? 0).
  { eexists _, _, _, _. split; [reflexivity|].
    split; [apply set_caches_wf; try done; split; [congruence|done]|]. split; [done|].
    split; [by right|]. by cbn; rewrite Hi1. }
  destruct (read_safe 0 FS_ROOT_DIR_SECTOR FS_ROOT_DIR_SECTORS root d1 Hok1)
    as (r2 & root' & d2 & -> & Hr2 & Hok2 & Hrl' & Hru' & _); try done; [by rewrite Hrl|].
  rewrite bind_ret. cbv beta iota zeta.
  assert (Hw : fs_wf (set_caches (Some fat') (Some root') s1))
    by (apply set_caches_wf; try done; split; [congruence|done|congruence|done]).
  destruct (r2 <? 0).
  - eexists _, _, _, _. split; [reflexivity|]. split; [done|]. split; [done|]. split; [by right|]. by cbn; rewrite Hi1.
  - eexists _, _, _, _. split; [reflexivity|]. split; [|split; [done|split; [by left|by cbn]]].
    destruct Hw. by constructor.
Qed.

Lemma fs_init_heap h s d r h' s' d' : fs_init h s d = Ok (r, h', s', d') -> heap_wf h -> heap_wf h'.
Proof.
  intros E Hw. unfold fs_init in E. destruct (negb _); [injection E as _ <- _ _; done|].
  cbv zeta in E.
  pose proof (malloc_wf FAT_BYTES h Hw ltac:(vm_compute; split; congruence)) as Hw1.
  destruct (malloc FAT_BYTES h) as [p1 h1]. cbn in Hw1. destruct (p1 =? NULL); [injection E as _ <- _ _; done|].
  pose proof (malloc_wf (FS_ROOT_DIR_SECTORS * FS_BYTES_PER_SECTOR) h1 Hw1 ltac:(vm_compute; split; congruence)) as Hw2.
  destruct (malloc _ h1) as [p2 h2]. cbn in Hw2. destruct (p2 =? NULL); [injection E as _ <- _ _; done|].
  apply res_bind_Ok in E as ([[r1 fat] d1] & _ & E). destruct (r1 <? 0); [injection E as _ <- _ _; done|].
  apply res_bind_Ok in E as ([[r2 root] d2] & _ & E). destruct (r2 <? 0); injection E as _ <- _ _; done.
Qed.

(** *** The operations as steps *)

(** What the rest of the kernel can ask of the file system.  A name is a C
    string; the buffers are the caller's arrays. *)
Inductive fs_op :=
| FsOpen (name : option (list Z))
| FsClose (fd : Z)
| FsRead (fd : Z) (buffer : list Z) (count : Z)
| FsSeek (fd offset : Z)
| FsSize (fd : Z)
| FsExists (name : list Z)
| FsInfo (name : list Z) (info : fs_dir_info_t)
| FsList (entries : list fs_dir_info_t) (max_entries : Z).

Definition fs_step (op : fs_op) (s : fs) (d : D) : res (Z * fs * D) :=
  match op with
| FsOpen name => '(r, s) ← fs_open name s; Ok (r, s, d)
| FsClose fd => '(r, s) ← fs_close fd s; Ok (r, s, d)
| FsRead fd buf count => '(r, _, s, d) ← fs_read fd (Some buf) count s d; Ok (r, s, d)
| FsSeek fd offset => '(r, s) ← fs_seek fd offset s; Ok (r, s, d)
| FsSize fd => r ← fs_get_size fd s; Ok (r, s, d)
| FsExists name => r ← fs_file_exists s name; Ok (r, s, d)
| FsInfo name info => '(r, _) ← fs_get_file_info s name (Some info); Ok (r, s, d)
| FsList es max => '(r, _) ← fs_list_dir s (Some es) max; Ok (r, s, d)
  end.

Fixpoint fs_run (ops : list fs_op) (s : fs) (d : D) : res (list Z * fs * D) :=
  match ops with
  | [] => Ok ([], s, d)
  | op :: rest =>
      '(r, s, d) ← fs_step op s d;
      '(rs, s, d) ← fs_run rest s d;
      Ok (r :: rs, s, d)
  end.

(** The callers' side: descriptors are [int]s, names are terminated, buffers are
    as long as they are said to be.  An offset in the last sector below 4 GiB is
    left out: the 32-bit loop counter of [fs_seek] wraps there. *)
Definition is_cstr (l : list Z) : Prop := exists s r, l = cstr s r /\ nul_free s.

Definition fs_op_ok (op : fs_op) : Prop :=
  match op with
| FsOpen (Some name) | FsExists name => is_cstr name
| FsOpen None => True
| FsClose fd | FsSize fd => is_i32 fd
| FsRead fd buf count => is_i32 fd /\ is_u16 count /\ count <= zlen buf
| FsSeek fd offset => is_i32 fd /\ 0 <= offset <= 2 ^ 32 - 512
| FsInfo name info => is_cstr name /\ length (di_filename info) = 13%nat
| FsList es max => max <= zlen es /\ Forall (fun x => length (di_filename x) = 13%nat) es
  end.

Lemma exists_spec s name r0 : fs_wf s -> nul_free name ->
  exists r, fs_file_exists s (cstr name r0) = Ok r.
Proof.
  intros [] Hn. unfold fs_file_exists.
  destruct (dir_find_spec s name r0) as (i & found & -> & _); [done..|]. step. by eexists.
Qed.

Lemma info_spec s name r0 info : fs_wf s -> nul_free name -> length (di_filename info) = 13%nat ->
  exists r o, fs_get_file_info s (cstr name r0) (Some info) = Ok (r, o).
Proof.
  intros [_ _ Hroot _ _] Hn Hl. unfold fs_get_file_info.
  destruct (dir_find_spec s name r0) as (i & found & -> & Hs); [done..|]. rewrite bind_ret. cbv beta iota.
  destruct (i <? 0); [by eexists _, _|]. destruct found as [e|]; [|by eexists _, _].
  unfold fill_info. rewrite build_name_spec; [step; by eexists _, _| |done].
  apply (found_entry_ok s i e Hroot). destruct (g_root_dir_cache s); [by exists name|by destruct Hs].
Qed.

Lemma open_wf s name : fs_wf s -> is_cstr name ->
  exists r s', fs_open (Some name) s = Ok (r, s') /\ fs_wf s' /\ -1 <= r < 16.
Proof.
  intros Hwf (n & r0 & -> & Hn).
  destruct (decide (g_fs_initialized s = 0)) as [Hi|Hi].
  { unfold fs_open. rewrite Hi. change (0 =? 0) with true. cbv iota. exists (-1), s. split_and!; done || lia. }
  destruct (open_spec s n r0 Hwf Hn Hi)
    as [(fd & fname & cache & i & e & -> & Hfd & _ & _ & Hl & He & _)|[-> _]].
  - eexists _, _. split; [reflexivity|]. split; [|lia]. apply set_files_wf; [done|]. by apply opened_wf.
  - exists (-1), s. split_and!; done || lia.
Qed.

Lemma open_close s name fd s1 : fs_wf s -> is_cstr name -> fs_open (Some name) s = Ok (fd, s1) -> 0 <= fd ->
  exists s2, fs_close fd s1 = Ok (0, s2).
Proof.
  intros Hwf (n & r0 & -> & Hn) E Hfd.
  destruct (decide (g_fs_initialized s = 0)) as [Hi|Hi].
  { unfold fs_open in E. rewrite Hi in E. change (0 =? 0) with true in E. cbv iota in E. injection E as <- _. lia. }
  destruct (open_spec s n r0 Hwf Hn Hi)
    as [(fd' & fname & cache & i & e & E' & Hr & _)|[E' _]]; rewrite E' in E; [|injection E as <- _; lia].
  injection E as -> <-. pose proof Hwf as [[Hl _] _ _ _ _]. unfold fs_close, bad_fd, FS_MAX_FILES.
  rewrite (proj2 (Z.ltb_ge _ _)), (proj2 (Z.leb_gt _ _)) by lia. cbn [orb set_files g_files].
  assert (Hz : 0 <= fd < zlen (g_files s)) by (unfold zlen; lia).
  rewrite (proj2 (rd_Ok _ _ _) (zget_insert_eq _ fd (opened e fname) Hz)), bind_ret. cbn [opened f_in_use].
  change (1 =? 0) with false. cbv iota. rewrite wr_in by (by rewrite zlen_insert). step. by eexists.
Qed.

Lemma fs_step_wf `{!BlockSafe D} op s d : fs_wf s -> blk_ok d -> fs_op_ok op ->
  exists r s' d', fs_step op s d = Ok (r, s', d') /\ fs_wf s' /\ blk_ok d'.
Proof.
  intros Hwf Hok Hop. destruct op as [[name|]|fd|fd buf count|fd offset|fd|name|name info|es max]; cbn in Hop.
  - cbn [fs_step]. destruct (open_wf s name Hwf Hop) as (r & s' & -> & Hw & _). step. by exists r, s', d.
  - cbn. unfold fs_open. destruct (_ =? _); step; by exists (-1), s, d.
  - destruct (close_spec s fd Hwf Hop) as (r & s' & Hs & Hw). cbn [fs_step]. rewrite Hs. step.
    by exists r, s', d.
  - destruct Hop as (Hfd & Hc & Hb).
    destruct (read_wf fd buf count s d Hwf Hok Hfd Hc Hb) as (r & b & s' & d' & Hr & Hw & Hok' & _).
    cbn [fs_step]. rewrite Hr. step. by exists r, s', d'.
  - destruct Hop as [Hfd Ho]. destruct (seek_wf s fd offset Hwf Hfd Ho) as (r & s' & Hs & Hw).
    cbn [fs_step]. rewrite Hs. step. by exists r, s', d.
  - cbn [fs_step]. unfold fs_get_size. pose proof Hwf as [[Hl _] _ _ _ _].
    destruct (fd_cases s fd Hl Hop) as [->|(-> & _ & f & ->)]; step; [by eexists _, _, _|].
    destruct (_ =? _); step; by eexists _, _, _.
  - destruct Hop as (n & r0 & -> & Hn). destruct (exists_spec s n r0 Hwf Hn) as [r Hr].
    cbn [fs_step]. rewrite Hr. step. by exists r, s, d.
  - destruct Hop as [(n & r0 & -> & Hn) Hl].
    destruct (info_spec s n r0 info Hwf Hn Hl) as (r & o & Hr).
    cbn [fs_step]. rewrite Hr. step. by exists r, s, d.
  - destruct Hop as [Hm Hes]. cbn [fs_step]. unfold fs_list_dir.
    destruct (Z.eqb_spec (g_fs_initialized s) 0) as [Hi|Hi]; [step; by eexists _, _, _|].
    pose proof Hwf as [_ _ Hroot Hini _]. destruct (Hini Hi) as [cache Hc]. rewrite Hc in *.
    destruct (list_from_spec cache max (Z.to_nat FS_ROOT_ENTRIES) Hroot es 0 0)
      as (n & es' & -> & _); try done. step. by eexists _, _, _.
Qed.

Lemma fs_run_wf `{!BlockSafe D} ops : forall s d, fs_wf s -> blk_ok d -> Forall fs_op_ok ops ->
  exists rs s' d', fs_run ops s d = Ok (rs, s', d') /\ fs_wf s' /\ length rs = length ops.
Proof.
  induction ops as [|op ops IH]; intros s d Hwf Hok Hops; [by exists [], s, d|].
  apply Forall_cons in Hops as [Hop Hops].
  destruct (fs_step_wf op s d Hwf Hok Hop) as (r & s1 & d1 & Hs & Hw & Hok1).
  destruct (IH s1 d1 Hw Hok1 Hops) as (rs & s2 & d2 & Hr & Hw2 & Hl).
  cbn [fs_run]. rewrite Hs. step. rewrite Hr. step.
  exists (r :: rs), s2, d2. split_and!; try done. cbn. by rewrite Hl.
Qed.
End Reading.

(** ** What a file holds *)

(** The clusters of a file in order: each but the last names the next one. *)
Fixpoint chain (fat : option (list Z)) (cs : list Z) : Prop :=
  match cs with
  | c :: (c' :: _) as rest =>
      is_u16 c /\ fat12_get_next fat c = Ok c' /\ c' < FS_CLUSTER_MAX /\ chain fat rest
  | [c] => is_u16 c
  | [] => True
  end.

Lemma chain_next fat cs : chain fat cs -> forall k c c',
  cs !! k = Some c -> cs !! S k = Some c' ->
  fat12_get_next fat c = Ok c' /\ c' < FS_CLUSTER_MAX.
Proof.
  induction cs as [|c0 [|c1 cs] IH]; intros Hc k c c' Hk Hk'; [done|by destruct k|].
  destruct Hc as (_ & Hn & Hm & Hc). destruct k as [|k].
  - injection Hk as ->. injection Hk' as ->. done.
  - by apply (IH Hc k).
Qed.

Lemma chain_u16 fat cs : chain fat cs -> Forall is_u16 cs.
Proof.
  induction cs as [|c0 [|c1 cs] IH]; intros Hc; [done|by constructor|].
  destruct Hc as (Hu & _ & _ & Hc). constructor; [done|]. by apply IH.
Qed.

Definition contents (img : Z -> list Z) (cs : list Z) : list Z :=
  concat ((fun c => img (cluster_to_lba c)) <$> cs).

Lemma contents_slice img cs c o n : (forall lba, length (img lba) = 512%nat) ->
  0 <= o -> 0 <= n -> o + n <= 512 -> forall k, cs !! k = Some c ->
  slice (contents img cs) (512 * Z.of_nat k + o) n = slice (img (cluster_to_lba c)) o n.
Proof.
  intros Hi Ho Hn0 Hn. unfold slice, contents. induction cs as [|c0 cs IH]; intros k Hk; [done|].
  cbn [fmap list_fmap concat]. destruct k as [|k].
  - injection Hk as ->. rewrite Z.mul_0_r, Z.add_0_l.
    rewrite drop_app_le by (rewrite Hi; lia). rewrite take_app_le; [done|].
    rewrite length_drop, Hi. lia.
  - rewrite drop_app_ge by (rewrite Hi; lia). rewrite Hi, <- (IH k Hk). do 2 f_equal. lia.
Qed.

Lemma contents_length img cs : (forall lba, length (img lba) = 512%nat) ->
  zlen (contents img cs) = 512 * zlen cs.
Proof.
  intros Hi. unfold contents. induction cs as [|c cs IH]; [done|].
  cbn [fmap list_fmap concat]. rewrite zlen_app, IH. unfold zlen. rewrite Hi. cbn [length]. lia.
Qed.

(** [f] is open on the file whose clusters are [cs], at its current position. *)
Record file_at (fat : option (list Z)) (cs : list Z) (f : fs_file_t) : Prop := {
  fa_chain : chain fat cs;
  fa_start : head cs = Some (start_cluster f);
  fa_size : 0 <= f_size f <= 512 * zlen cs;
  fa_bound : f_size f <= 2 ^ 32 - 512;
  fa_pos : 0 <= position f <= f_size f;
  fa_cur : position f < f_size f ->
    cs !! Z.to_nat (position f / 512) = Some (current_cluster f)
}.

(** The clusters lie below sector [reach]. *)
Definition within (reach : Z) (cs : list Z) : Prop := Forall (fun c => cluster_to_lba c < reach) cs.

Section Content.
Context {D : Type} `{BlockMedium D}.

Lemma cluster_lba_bound c : is_u16 c -> 1 <= cluster_to_lba c.
Proof.
  unfold cluster_to_lba, is_u16. intros Hc. destruct (Z.ltb_spec c 2); [by vm_compute|].
  rewrite (u32_id (c - 2)) by (unfold is_u32; lia).
  change FS_SECTORS_PER_CLUSTER with 1. change FS_DATA_START_SECTOR with 33.
  rewrite u32_id; unfold is_u32; lia.
Qed.

(** A cluster of a chain the device can reach. *)
Lemma cluster_read d img fat cs k c buf : medium d img -> chain fat cs -> within (span D) cs -> cs !! k = Some c ->
  zlen buf = SECTOR_SIZE ->
  exists d', read_sectors 0 (cluster_to_lba c) 1 buf d = Ok (1, img (cluster_to_lba c), d') /\ medium d' img.
Proof.
  intros Hm Hch Hw Hc Hb. apply medium_read; [done| |done]. split.
  - apply cluster_lba_bound. eapply Forall_lookup_1; [exact (chain_u16 _ _ Hch)|exact Hc].
  - exact (Forall_lookup_1 _ _ _ _ Hw Hc).
Qed.

Lemma move_move f c p c' p' : move_file (move_file f c p) c' p' = move_file f c' p'.
Proof. done. Qed.

Lemma to_copy_min pos size remaining : 0 <= pos < size -> size <= 2 ^ 32 - 512 -> 0 < remaining ->
  to_copy pos size remaining = Z.min (512 - pos mod 512) (Z.min remaining (size - pos)).
Proof.
  intros Hp Hs Hr. unfold to_copy, FS_BYTES_PER_SECTOR.
  assert (Hu : forall k, 0 <= k <= 512 -> u32 (pos + k) = pos + k)
    by (intros; apply u32_id; unfold is_u32; lia).
  destruct (Z.ltb_spec remaining (512 - pos mod 512)); rewrite Hu by lia;
    match goal with |- context [?a <? ?b] => destruct (Z.ltb_spec a b) end; try lia;
    rewrite u32_id by (unfold is_u32; lia); lia.
Qed.

(** One turn of the loop: the cluster the position is in, and the next one. *)
Lemma file_at_step fat cs f n : file_at fat cs f -> position f < f_size f ->
  1 <= n -> position f mod 512 + n <= 512 -> position f + n <= f_size f ->
  (position f + n < f_size f -> (position f + n) mod 512 = 0 -> exists next,
     fat12_get_next fat (current_cluster f) = Ok next /\ next < FS_CLUSTER_MAX /\
     file_at fat cs (move_file f next (position f + n))) /\
  ((position f + n) mod 512 <> 0 \/ position f + n = f_size f ->
     file_at fat cs (move_file f (current_cluster f) (position f + n))).
Proof.
  intros [Hch Hst Hsz Hb Hp Hcur] Hlt Hn1 Hn2 Hn3. specialize (Hcur Hlt). split.
  - intros Hmore Hm.
    assert (Hk : Z.to_nat ((position f + n) / 512) = S (Z.to_nat (position f / 512))) by lia.
    destruct (lookup_lt_is_Some_2 cs (Z.to_nat ((position f + n) / 512))) as [next Hnx];
      [unfold zlen in *; lia|].
    destruct (chain_next fat cs Hch (Z.to_nat (position f / 512)) (current_cluster f) next)
      as [Hg Hmax]; [done|by rewrite <- Hk|].
    exists next. split_and!; try done. constructor; cbn; try done. lia.
  - intros Hno. constructor; cbn; try done; [lia|]. intros Hlt'.
    rewrite <- Hcur. f_equal. destruct Hno; lia.
Qed.

Lemma read_loop_at fat cs img : within (span D) cs -> forall fuel f buffer cbuf off remaining d,
  medium d img -> file_at fat cs f -> zlen cbuf = 512 -> 0 <= off -> 0 <= remaining ->
  off + remaining < 2 ^ 16 -> off + remaining <= zlen buffer -> remaining <= Z.of_nat fuel ->
  let n := Z.min remaining (f_size f - position f) in
  exists cur cbuf' d',
    read_loop fuel fat f buffer cbuf off remaining d =
      Ok (splice buffer off (slice (contents img cs) (position f) n), off + n,
          move_file f cur (position f + n), cbuf', d') /\
    medium d' img /\ zlen cbuf' = 512 /\ file_at fat cs (move_file f cur (position f + n)).
Proof.
  intros Hreach. induction fuel as [|fuel IH]; intros f buffer cbuf off remaining d Hmed Hfa Hcb Ho Hr Hor Hbuf Hfuel n.
  all: assert (Hstop : remaining = 0 \/ f_size f <= position f -> exists cur cbuf' d',
    Ok (buffer, off, f, cbuf, d) = Ok (splice buffer off (slice (contents img cs) (position f) n), off + n,
          move_file f cur (position f + n), cbuf', d') /\
    medium d' img /\ zlen cbuf' = 512 /\ file_at fat cs (move_file f cur (position f + n))).
  1,3: (intros Hs; pose proof Hfa as [_ _ _ _ Hp _]; assert (Hn0 : n = 0) by lia;
       exists (current_cluster f), cbuf, d; rewrite Hn0, !Z.add_0_r; unfold slice; cbn [Z.to_nat];
       rewrite take_0, splice_nil by done; split_and!; try done; by destruct f).
  all: cbn [read_loop]; destruct (Z.ltb_spec 0 remaining) as [Hpos|Hz]; [|apply Hstop; lia];
       destruct (Z.ltb_spec (position f) (f_size f)) as [Hlt|Hge]; [|apply Hstop; lia].
  1: lia.
  cbn [andb]. clear Hstop. pose proof Hfa as [Hch _ Hsz Hb Hp Hcur]. specialize (Hcur Hlt).
  destruct (cluster_read d img fat cs _ _ cbuf Hmed Hch Hreach Hcur Hcb) as (d1 & Hrd & Hmed1).
  assert (Hsec : forall lba, length (img lba) = 512%nat) by (intros; by apply (medium_sector d img)).
  unfold disk_read_sector. rewrite Hrd, bind_ret. cbv beta iota. change (1 <? 0) with false. cbv iota.
  rewrite to_copy_min by lia. set (n1 := Z.min _ _). change FS_BYTES_PER_SECTOR with 512.
  assert (Hn1 : 1 <= n1 <= n /\ position f mod 512 + n1 <= 512) by (unfold n, n1; lia).
  assert (Hn : n = n1 \/ n1 = 512 - position f mod 512) by (unfold n, n1; lia).
  assert (Hnn : n <= remaining /\ n <= f_size f - position f /\
    (n = remaining \/ n = f_size f - position f)) by (unfold n; lia). clearbody n1.
  rewrite memcpy_at_splice by (try lia; unfold zlen; rewrite Hsec; lia). rewrite bind_ret.
  assert (Hslice : slice (img (cluster_to_lba (current_cluster f))) (position f mod 512) n1 =
                   slice (contents img cs) (position f) n1).
  { rewrite <- (contents_slice img cs _ (position f mod 512) n1 Hsec ltac:(lia) ltac:(lia) ltac:(lia) _ Hcur).
    f_equal. lia. }
  rewrite Hslice. clear Hslice.
  rewrite (u32_id (position f + n1)), (u32_id (off + n1)), (u32_id (remaining - n1)) by (unfold is_u32; lia).
  destruct (file_at_step fat cs f n1 Hfa Hlt ltac:(lia) ltac:(lia) ltac:(lia)) as [Hnext Hsame].
  pose proof (contents_length img cs Hsec) as Hcl.
  set (b1 := splice buffer off _).
  assert (Hsl : zlen (slice (contents img cs) (position f) n1) = n1) by (apply zlen_slice; lia).
  assert (Hb1 : zlen b1 = zlen buffer) by (apply zlen_splice; lia).
  assert (Hrec : forall cur, file_at fat cs (move_file f cur (position f + n1)) ->
    exists cur' cbuf' d',
    read_loop fuel fat (move_file f cur (position f + n1)) b1 (img (cluster_to_lba (current_cluster f)))
      (off + n1) (remaining - n1) d1 =
      Ok (splice buffer off (slice (contents img cs) (position f) n), off + n,
          move_file f cur' (position f + n), cbuf', d') /\
    medium d' img /\ zlen cbuf' = 512 /\ file_at fat cs (move_file f cur' (position f + n))).
  { intros cur Hat. destruct (IH (move_file f cur (position f + n1)) b1
      (img (cluster_to_lba (current_cluster f))) (off + n1) (remaining - n1) d1)
      as (cur' & cb' & d' & Hrun & Hm' & Hc' & Hat'); try done; try lia.
    { unfold zlen. by rewrite Hsec. }
    cbn [position f_size move_file] in Hrun, Hat'.
    replace (Z.min (remaining - n1) (f_size f - (position f + n1))) with (n - n1) in * by lia.
    rewrite move_move in Hrun, Hat'.
    replace (off + n1 + (n - n1)) with (off + n) in Hrun by lia.
    replace (position f + n1 + (n - n1)) with (position f + n) in * by lia.
    exists cur', cb', d'. split_and!; try done. rewrite Hrun. do 5 f_equal.
    subst b1. rewrite <- Hsl at 2. rewrite splice_splice.
    - rewrite <- slice_add by lia. do 2 f_equal. lia.
    - done.
    - rewrite Hsl, zlen_slice by lia. lia. }
  clearbody b1 n. destruct (Z.eqb_spec ((position f + n1) mod 512) 0) as [Hm|Hm];
    [destruct (Z.ltb_spec (position f + n1) (f_size f))|]; cbn [andb].
  - destruct Hnext as (next & -> & Hmax & Hat); [done..|]. rewrite bind_ret.
    rewrite (proj2 (Z.leb_gt _ _)) by done. by apply Hrec.
  - apply Hrec, Hsame. right. lia.
  - apply Hrec, Hsame. by left.
Qed.

(** A read that ends before the end of the sector takes one turn. *)
Lemma read_loop_once fuel fat f buffer cbuf count d sec d1 :
  disk_read_sector 0 (cluster_to_lba (current_cluster f)) cbuf d = Ok (1, sec, d1) ->
  zlen sec = 512 -> 0 <= position f -> 0 < count -> position f mod 512 + count < 512 ->
  position f + count <= f_size f -> f_size f <= 2 ^ 32 - 512 -> count <= zlen buffer ->
  read_loop (S fuel) fat f buffer cbuf 0 count d =
    Ok (splice buffer 0 (slice sec (position f mod 512) count), count,
        move_file f (current_cluster f) (position f + count), sec, d1).
Proof.
  intros Hrd Hsec Hp Hc Hm Hsz Hb Hbuf. cbn [read_loop].
  rewrite (proj2 (Z.ltb_lt _ _)) by done. rewrite (proj2 (Z.ltb_lt _ _)) by lia. cbn [andb].
  rewrite Hrd, bind_ret. cbv beta iota. change (1 <? 0) with false. cbv iota.
  rewrite to_copy_min by lia. replace (Z.min _ _) with count by lia.
  change FS_BYTES_PER_SECTOR with 512. rewrite memcpy_at_splice by lia. rewrite bind_ret.
  rewrite Z.add_0_l, Z.sub_diag, (u32_id (position f + count)), (u32_id count) by (unfold is_u32; lia).
  rewrite (proj2 (Z.eqb_neq ((position f + count) mod 512) 0)) by lia. cbn [andb].
  by destruct fuel.
Qed.

Lemma fd_good (s : fs) fd f : length (g_files s) = 16%nat -> rd (g_files s) fd = Ok f ->
  bad_fd fd = false /\ 0 <= fd < zlen (g_files s).
Proof.
  intros Hl Hrd. apply rd_Ok, zget_lt in Hrd. split; [|done]. unfold zlen in Hrd. unfold bad_fd.
  apply orb_false_intro; [apply Z.ltb_ge | apply Z.leb_gt; unfold FS_MAX_FILES]; lia.
Qed.

(** A good descriptor on a file, in globals whose cluster buffer is whole. *)
Record reading (s : fs) (fd : Z) (cs : list Z) (f : fs_file_t) : Prop := {
  rg_len : length (g_files s) = 16%nat;
  rg_cbuf : zlen (g_cluster_buffer s) = 512;
  rg_fd : rd (g_files s) fd = Ok f;
  rg_use : f_in_use f <> 0;
  rg_file : file_at (g_fat_cache s) cs f
}.

Lemma read_run s fd cs f img buf count d :
  reading s fd cs f -> within (span D) cs -> medium d img -> is_u16 count -> count <= zlen buf ->
  let n := Z.min count (f_size f - position f) in
  exists cur cb d', let s' := set_cluster_buffer cb (set_files (<[Z.to_nat fd := move_file f cur (position f + n)]> (g_files s)) s) in
    fs_read fd (Some buf) count s d =
      Ok (n, Some (splice buf 0 (slice (contents img cs) (position f) n)), s', d') /\
    medium d' img /\ reading s' fd cs (move_file f cur (position f + n)).
Proof.
  intros [Hl Hcb Hrd Hu Hfa] Hreach Hmed Hc Hb n. unfold is_u16 in Hc.
  destruct (fd_good s fd f Hl Hrd) as [Hbad Hin]. unfold fs_read.
  rewrite Hbad, Hrd, bind_ret, (proj2 (Z.eqb_neq _ _)) by done.
  destruct (read_loop_at (g_fat_cache s) cs img Hreach (Z.to_nat count) f buf (g_cluster_buffer s) 0 count d)
    as (cur & cb & d' & -> & Hm & Hcb' & Hat); try done; try lia.
  rewrite bind_ret. cbv beta iota. rewrite wr_in, bind_ret by done.
  destruct Hfa as [_ _ ? ? Hp _]. fold n. fold n in Hat.
  rewrite Z.add_0_l, i32_id by (unfold is_i32, n; lia).
  exists cur, cb, d'. split; [reflexivity|]. split; [done|].
  constructor; cbn; try done; [by rewrite length_insert|]. apply rd_Ok. by apply zget_insert_eq.
Qed.

Lemma read_at s fd cs f img buf count d :
  reading s fd cs f -> within (span D) cs -> medium d img -> is_u16 count -> count <= zlen buf ->
  let n := Z.min count (f_size f - position f) in
  exists cur s' d',
    fs_read fd (Some buf) count s d =
      Ok (n, Some (splice buf 0 (slice (contents img cs) (position f) n)), s', d') /\
    medium d' img /\ reading s' fd cs (move_file f cur (position f + n)) /\
    g_fat_cache s' = g_fat_cache s.
Proof. intros Hr Hw Hm Hc Hb n. destruct (read_run s fd cs f img buf count d Hr Hw Hm Hc Hb) as (cur & cb & d' & E & ? & ?). by eexists cur, _, d'. Qed.

Lemma close_reading s fd cs f : reading s fd cs f ->
  exists s' f', fs_close fd s = Ok (0, s') /\ rd (g_files s') fd = Ok f' /\ f_in_use f' = 0.
Proof.
  intros [Hl _ Hrd Hu _]. destruct (fd_good s fd f Hl Hrd) as [Hbad Hin]. unfold fs_close.
  rewrite Hbad, Hrd, bind_ret, (proj2 (Z.eqb_neq _ _)) by done. rewrite wr_in, bind_ret by done.
  eexists _, _. split; [reflexivity|]. split; [apply rd_Ok; by apply zget_insert_eq|done].
Qed.

(** Reads of [counts] bytes one after the other, each into a buffer of its own
    size, and the bytes they deliver. *)
Fixpoint read_all (fd : Z) (counts : list Z) (s : fs) (d : D) : res (list Z * fs * D) :=
  match counts with
  | [] => Ok ([], s, d)
  | c :: rest =>
      '(r, buf, s, d) ← fs_read fd (Some (replicate (Z.to_nat c) 0)) c s d;
      '(more, s, d) ← read_all fd rest s d;
      match buf with
      | Some b => Ok (take (Z.to_nat r) b ++ more, s, d)
      | None => Err NullDeref
      end
  end.

Lemma read_all_at fd cs img counts : within (span D) cs -> forall s f d,
  reading s fd cs f -> medium d img -> Forall is_u16 counts ->
  exists s' d', read_all fd counts s d =
    Ok (slice (contents img cs) (position f)
          (Z.min (foldr Z.add 0 counts) (f_size f - position f)), s', d').
Proof.
  intros Hreach. induction counts as [|c counts IH]; intros s f d Hg Hmed Hc.
  - exists s, d. cbn. unfold slice. destruct Hg as [_ _ _ _ [_ _ ? _ ? _]].
    replace (Z.to_nat (Z.min 0 (f_size f - position f))) with 0%nat by lia. by rewrite take_0.
  - apply Forall_cons in Hc as [Hc Hcs]. pose proof Hc as Hc'. unfold is_u16 in Hc'.
    destruct (read_at s fd cs f img (replicate (Z.to_nat c) 0) c d Hg Hreach Hmed Hc)
      as (cur & s1 & d1 & Hrd & Hmed1 & Hg1 & _).
    { unfold zlen. rewrite length_replicate. lia. }
    destruct (IH s1 _ d1 Hg1 Hmed1 Hcs) as (s2 & d2 & Hall).
    cbn [read_all]. rewrite Hrd, bind_ret. cbv beta iota. rewrite Hall, bind_ret. cbv beta iota.
    eexists _, _. f_equal. f_equal. f_equal. cbn [position move_file f_size foldr].
    set (n := Z.min c (f_size f - position f)).
    pose proof Hg as [_ _ _ _ [_ _ Hsz _ Hp _]].
    assert (Hsum : 0 <= foldr Z.add 0 counts).
    { clear -Hcs. induction Hcs as [|x l Hx _ IH]; cbn; [lia|]. unfold is_u16 in Hx. lia. }
    assert (Hn : 0 <= n <= f_size f - position f /\ n <= c) by (unfold n; lia).
    assert (Hlen : zlen (slice (contents img cs) (position f) n) = n).
    { apply zlen_slice; try lia. rewrite contents_length; [lia|]. intros. by apply (medium_sector d img). }
    replace (take (Z.to_nat n) _) with (slice (contents img cs) (position f) n).
    + rewrite <- slice_add by lia. f_equal. unfold n. lia.
    + unfold splice. cbn [Z.to_nat]. rewrite take_0. cbn [app].
      symmetry. apply take_app_length'. unfold zlen in Hlen. lia.
Qed.

(** ** Seeking *)

Lemma seek_loop_chain fat cs size offset : chain fat cs -> size < 2 ^ 32 ->
  0 <= offset <= size -> offset <= 2 ^ 32 - 512 ->
  forall fuel j cur, cs !! j = Some cur -> 512 * Z.of_nat j < offset + 512 ->
  offset - 512 * Z.of_nat j <= 512 * Z.of_nat fuel ->
  let k := Z.to_nat ((offset + 511) / 512) in
  (forall c, cs !! k = Some c -> seek_loop fuel fat cur (512 * Z.of_nat j) offset size = Ok (c, true)) /\
  (k = length cs -> forall c v, last cs = Some c -> fat12_get_next fat c = Ok v -> FS_CLUSTER_MAX <= v ->
     seek_loop fuel fat cur (512 * Z.of_nat j) offset size = Ok (c, false)).
Proof.
  intros Hch Hs Hos Hob. induction fuel as [|fuel IH]; intros j cur Hj Hjo Hfuel k; cbn [seek_loop].
  - rewrite (proj2 (Z.ltb_ge _ _)) by lia. cbn [andb].
    assert (Hk : k = j) by (unfold k; lia). rewrite Hk. split; [intros c; by rewrite Hj; intros [= ->]|].
    intros Hkl. apply lookup_lt_Some in Hj. lia.
  - destruct (Z.ltb_spec (512 * Z.of_nat j) offset) as [Hlt|Hge].
    + rewrite (proj2 (Z.ltb_lt _ _)) by lia. cbn [andb].
      assert (Hjk : (j < k)%nat) by (unfold k; lia).
      assert (Hu : u32 (512 * Z.of_nat j + FS_BYTES_PER_SECTOR) = 512 * Z.of_nat (S j))
        by (rewrite u32_id; unfold is_u32, FS_BYTES_PER_SECTOR; lia).
      rewrite Hu. destruct (cs !! S j) as [c'|] eqn:Hj'.
      * destruct (chain_next fat cs Hch j cur c' Hj Hj') as [-> Hmax]. rewrite bind_ret.
        rewrite (proj2 (Z.leb_gt _ _)) by done. apply (IH (S j) c' Hj'); lia.
      * apply lookup_ge_None in Hj'. apply lookup_lt_Some in Hj as Hjl. split.
        -- intros c Hc. apply lookup_lt_Some in Hc. lia.
        -- intros Hkl c v Hlast Hv Hmax. rewrite last_lookup in Hlast.
           replace (pred (length cs)) with j in Hlast by lia. rewrite Hj in Hlast.
           injection Hlast as ->. rewrite Hv, bind_ret, (proj2 (Z.leb_le _ _)) by done. done.
    + cbn [andb]. assert (Hk : k = j) by (unfold k; lia). rewrite Hk.
      split; [intros c; by rewrite Hj; intros [= ->]|].
      intros Hkl. apply lookup_lt_Some in Hj. lia.
Qed.

(** Where a seek lands: in cluster number [offset / 512] rounded up. *)
Lemma seek_at s fd cs f offset : reading s fd cs f -> 0 <= offset <= f_size f ->
  let k := Z.to_nat ((offset + 511) / 512) in
  (forall c, cs !! k = Some c ->
     fs_seek fd offset s =
       Ok (0, set_files (<[Z.to_nat fd := move_file f c offset]> (g_files s)) s)) /\
  (k = length cs -> forall c v, last cs = Some c ->
     fat12_get_next (g_fat_cache s) c = Ok v -> FS_CLUSTER_MAX <= v ->
     fs_seek fd offset s =
       Ok (-1, set_files (<[Z.to_nat fd := move_file f c offset]> (g_files s)) s)).
Proof.
  intros [Hl _ Hrd Hu [Hch Hst Hsz Hb _ _]] Ho k. destruct (fd_good s fd f Hl Hrd) as [Hbad Hin].
  unfold fs_seek. rewrite Hbad, Hrd, bind_ret, (proj2 (Z.eqb_neq _ _)) by done.
  rewrite (proj2 (Z.ltb_ge _ _)) by lia.
  assert (Hc0 : cs !! 0%nat = Some (start_cluster f)) by (destruct cs; [done|by injection Hst as ->]).
  destruct (seek_loop_chain (g_fat_cache s) cs (f_size f) offset Hch ltac:(lia) ltac:(lia) ltac:(lia)
    (Z.to_nat (offset / FS_BYTES_PER_SECTOR + 1)) 0 (start_cluster f) Hc0 ltac:(lia)
    ltac:(unfold FS_BYTES_PER_SECTOR; lia)) as [Hfound Hshort].
  change (512 * Z.of_nat 0) with 0 in *. split.
  - intros c Hc. rewrite (Hfound c Hc), bind_ret. cbv beta iota. by rewrite wr_in.
  - intros Hk c v Hlast Hv Hm. rewrite (Hshort Hk c v Hlast Hv Hm), bind_ret. cbv beta iota.
    by rewrite wr_in.
Qed.
End Content.

(** ** A file system in memory, for the examples *)

(** Sectors 1, 19 and 33 to 35 of a floppy with one file, of 1100 bytes in the
    clusters 2, 3 and 4. *)
Definition ex_entry : list Z :=
  [65; 32; 32; 32; 32; 32; 32; 32; 84; 88; 84; 0; 0; 0; 0; 0; 0; 0; 0; 0; 0; 0;
   0; 0; 0; 0; 2; 0; 76; 4; 0; 0].
Definition ex_disk : ram := fun lba =>
  if lba =? 1 then [0xF0; 0xFF; 0xFF; 0x03; 0x40; 0x00; 0xFF; 0x0F]
  else if lba =? 19 then ex_entry
  else if (33 <=? lba) && (lba <=? 35) then (fun k => lba + k) <$> seqZ 0 512
  else [].
Definition ex_fat : list Z := replicate (Z.to_nat FAT_BYTES) 0.
Definition ex_root : list Z := ex_entry ++ replicate (Z.to_nat (FS_ROOT_ENTRIES * 32 - 32)) 0.
Definition ex_heap : heap := Heap HEAP_START (fun _ => 0xCC).
Definition ex_file0 : fs_file_t := File 0 0 0 0 0 0 0 (replicate 16 0).
Definition ex_boot : fs := Fs (replicate 16 ex_file0) None None 0 (replicate 512 0).

(** "A.TXT" *)
Definition ex_name : list Z := cstr [65; 46; 84; 88; 84] [].

(** The globals once the file is open on descriptor 0. *)
Definition ex_open : fs :=
  match fs_init ex_heap ex_boot ex_disk with
  | Ok (_, _, s, _) => match fs_open (Some ex_name) s with Ok (_, s) => s | Err _ => ex_boot end
  | Err _ => ex_boot
  end.
Definition ex_file : fs_file_t := File 2 2 0 1100 0 0 1 (65 :: 46 :: 84 :: 88 :: 84 :: replicate 11 0).
Definition ex_img : Z -> list Z := ram_sector ex_disk.

Lemma ex_boot_ok : fs_boot ex_boot.
Proof.
  constructor; try done.
  - split; [done|]. change (g_files ex_boot) with (replicate 16 ex_file0). apply Forall_replicate.
    constructor; try done; vm_compute; split; congruence.
  - split; [done|]. change (g_cluster_buffer ex_boot) with (replicate 512 0). apply Forall_replicate.
    vm_compute; split; congruence.
Qed.

Lemma ex_fat_ok : fat_ok ex_fat.
Proof.
  split; [vm_compute; reflexivity|]. apply Forall_replicate. vm_compute; split; congruence.
Qed.

Lemma ex_root_ok : root_ok ex_root.
Proof.
  split; [vm_compute; reflexivity|]. apply Forall_app. split.
  - repeat (apply Forall_cons; split; [vm_compute; split; congruence|]). constructor.
  - apply Forall_replicate. vm_compute; split; congruence.
Qed.

Lemma ex_reading : reading ex_open 0 [2; 3; 4] ex_file.
Proof.
  constructor; try (vm_compute; reflexivity); [vm_compute; discriminate|].
  constructor; try (vm_compute; repeat split; congruence); vm_compute; reflexivity.
Qed.

(** ** Properties *)

(** An offset in the last sector below 4 GiB is never reached by the 32-bit position of [fs_seek]: on a chain
    that runs in a circle the loop is still going after any number of turns. *)
Lemma seek_never_ends fat cur size offset fuel : forall pos,
  fat12_get_next fat cur = Ok cur -> cur < FS_CLUSTER_MAX -> 2 ^ 32 - 512 < offset <= size ->
  0 <= pos < 2 ^ 32 -> pos mod 512 = 0 -> seek_loop fuel fat cur pos offset size = Err OutOfFuel.
Proof.
  induction fuel as [|fuel IH]; intros pos Hn Hc Ho Hp Hm; cbn [seek_loop];
    assert (Hlt : pos <= 2 ^ 32 - 512) by (Z.to_euclidean_division_equations; lia);
    rewrite !(proj2 (Z.ltb_lt _ _)) by lia; [done|]. cbn [andb].
  rewrite Hn, bind_ret, (proj2 (Z.leb_gt _ _)) by done. apply IH; try done; unfold u32, FS_BYTES_PER_SECTOR.
  - apply Z.mod_pos_bound. lia.
  - Z.to_euclidean_division_equations; lia.
Qed.

(** The test against the file size in [fs_read] wraps as well: at the last sector boundary below 4 GiB of a larger file
    a read takes the whole sector, whatever is left of the file, and the position starts again at 0. *)
Lemma read_position_wraps size remaining : 2 ^ 32 - 512 < size < 2 ^ 32 -> 512 <= remaining ->
  to_copy (2 ^ 32 - 512) size remaining = 512 /\ u32 (2 ^ 32 - 512 + 512) = 0.
Proof.
  intros Hs Hr. split; [|reflexivity]. unfold to_copy, FS_BYTES_PER_SECTOR.
  change ((2 ^ 32 - 512) mod 512) with 0. change (512 - 0) with 512. cbv zeta.
  rewrite (proj2 (Z.ltb_ge remaining 512)) by lia. change (u32 (2 ^ 32 - 512 + 512)) with 0.
  by rewrite (proj2 (Z.ltb_ge size 0)) by lia.
Qed.

(** C4.  Over any block device, whatever it returns, [fs_init]
    and then any sequence of opens, closes, reads, seeks, listings and queries
    runs to its end without an access out of bounds, and keeps the descriptor
    table and the caches well formed.  The callers keep to [fs_op_ok]: terminated names, buffers as long as they are
    said to be, and seeks to offsets of at most 2^32 - 512; beyond, [fs_seek] need not return
    ([seek_never_ends]). *)
Theorem fs_never_faults {D} `{BlockSafe D} h s0 d0 ops :
  fs_boot s0 -> blk_ok d0 -> (forall a, is_u8 (heap_ram h a)) -> Forall fs_op_ok ops ->
  exists r h' s d rs s' d',
    fs_init h s0 d0 = Ok (r, h', s, d) /\ fs_run ops s d = Ok (rs, s', d') /\
    fs_wf s' /\ length rs = length ops.
Proof.
  intros Hb Hok Hu Hops. destruct (fs_init_wf h s0 d0 Hb Hok Hu) as (r & h' & s & d & Hi & Hw & Hok' & _).
  destruct (fs_run_wf ops s d Hw Hok' Hops) as (rs & s' & d' & Hr & Hw' & Hl).
  by exists r, h', s, d, rs, s', d'.
Qed.

Definition ex_ops : list fs_op :=
  [FsOpen (Some ex_name); FsRead 0 (replicate 600 0) 600; FsSeek 0 512; FsSeek 0 1;
   FsClose 0; FsClose 0; FsOpen (Some (cstr [66] []))].

Lemma fs_never_faults_witness :
  exists r h' s d rs s' d',
    fs_init ex_heap ex_boot ex_disk = Ok (r, h', s, d) /\ fs_run ex_ops s d = Ok (rs, s', d') /\
    fs_wf s' /\ length rs = length ex_ops.
Proof.
  apply (fs_never_faults ex_heap ex_boot ex_disk ex_ops ex_boot_ok).
  - exact I.
  - intros a. vm_compute; split; congruence.
  - assert (Hn : is_cstr ex_name /\ is_cstr (cstr [66] [])).
    { split; eexists _, []; (split; [reflexivity|]); repeat constructor; vm_compute; congruence. }
    destruct Hn. repeat (apply Forall_cons; split; [cbn; try done; vm_compute; repeat split; congruence|]).
    constructor.
Defined.

Lemma ex_within : within (span ram) [2; 3; 4].
Proof. by repeat constructor. Qed.

(** On a disk whose sectors read back, any sequence of
    [fs_read] calls on an open file delivers, put together, exactly the bytes of
    the file from the current position on, up to its end. *)
Lemma sequential_reads {D} `{BlockMedium D} s fd cs f img counts (d : D) :
  within (span D) cs -> reading s fd cs f -> medium d img -> Forall is_u16 counts ->
  exists s' d', read_all fd counts s d =
    Ok (slice (contents img cs) (position f)
          (Z.min (foldr Z.add 0 counts) (f_size f - position f)), s', d').
Proof. intros Hw. by apply read_all_at. Qed.

Lemma sequential_reads_witness :
  exists s' d', read_all 0 [100; 500; 0; 1000] ex_open ex_disk =
    Ok (slice (contents ex_img [2; 3; 4]) 0 1100, s', d').
Proof.
  apply (sequential_reads ex_open 0 [2; 3; 4] ex_file ex_img [100; 500; 0; 1000] ex_disk ex_within ex_reading).
  - intros lba. reflexivity.
  - repeat (apply Forall_cons; split; [vm_compute; split; congruence|]). constructor.
Defined.

(** C24.  Setting a FAT entry and reading it gives the twelve bits
    stored, in either half of its pair of three bytes; every other entry reads
    as before, and the cache keeps its size. *)
Theorem fat12_set_get cache c n :
  fat_ok cache -> 0 <= c < 2 ^ 31 -> fat_off c < FAT_BYTES ->
  exists cache', fat12_set_next (Some cache) c n = Ok (Some cache') /\ fat_ok cache' /\
    fat12_get_next (Some cache') c = Ok (n mod 4096) /\
    forall c', 0 <= c' < 2 ^ 31 -> c' <> c ->
      fat12_get_next (Some cache') c' = fat12_get_next (Some cache) c'.
Proof.
  intros Hf Hc Ho. pose proof (fat_off_in c ltac:(lia) Ho).
  assert (0 <= fat_off c) by (unfold fat_off; lia).
  destruct (byte_at cache (fat_off c)) as (a & Ha & Hua); [done|lia|].
  destruct (byte_at cache (fat_off c + 1)) as (b & Hb & Hub); [done|lia|].
  destruct (set_next_spec cache c n a b) as [Hs Hw]; try done; [by rewrite (proj1 Hf)|].
  eexists. split; [exact Hs|]. split; [|split].
  - apply fat_ok_insert2; [done|unfold is_u8; lia|apply u8_range].
  - apply set_get_same; try done. apply Hf.
  - intros c' Hc' Hne. by apply set_get_other.
Qed.

Lemma fat12_set_get_witness :
  let cache := ex_fat in
  exists cache', fat12_set_next (Some cache) 341 0x123 = Ok (Some cache') /\ fat_ok cache' /\
    fat12_get_next (Some cache') 341 = Ok (0x123 mod 4096) /\
    forall c', 0 <= c' < 2 ^ 31 -> c' <> 341 ->
      fat12_get_next (Some cache') c' = fat12_get_next (Some cache) c'.
Proof.
  apply (fat12_set_get ex_fat 341 0x123).
  - exact ex_fat_ok.
  - lia.
  - vm_compute. reflexivity.
Defined.

(** C25.  A directory search returns the index and the entry of the
    first entry that is neither deleted nor behind the end mark and whose 8.3
    name, with its dot and without its padding, is the name asked for; or -1 when
    every entry before the end mark (or all 224) is deleted or named otherwise. *)
Theorem dir_find_first s cache name r0 :
  g_root_dir_cache s = Some cache -> root_ok cache -> nul_free name ->
  exists r found, dir_find_entry s (cstr name r0) = Ok (r, found) /\
    search_result cache name 0 r found.
Proof.
  intros Hc Hr Hn. destruct (dir_find_spec s name r0) as (r & found & Hf & Hs); [by rewrite Hc|done|].
  rewrite Hc in Hs. by exists r, found.
Qed.

Lemma dir_find_first_witness :
  exists r found, dir_find_entry (set_caches None (Some ex_root) ex_boot) ex_name = Ok (r, found) /\
    search_result ex_root [65; 46; 84; 88; 84] 0 r found.
Proof.
  apply (dir_find_first (set_caches None (Some ex_root) ex_boot) ex_root [65; 46; 84; 88; 84] []).
  - reflexivity.
  - exact ex_root_ok.
  - repeat (apply Forall_cons; split; [vm_compute; repeat split; congruence|]). constructor.
Defined.

(** In an initialised file system, opening a name either puts
    the first matching directory entry into the lowest free descriptor, at
    position 0 and leaving every other descriptor alone, or fails with -1 and
    changes nothing, because all descriptors are taken or no entry matches. *)
Lemma fs_open_correct s name r0 :
  fs_wf s -> nul_free name -> g_fs_initialized s <> 0 ->
  (exists fd fname cache i e,
     fs_open (Some (cstr name r0)) s =
       Ok (fd, set_files (<[Z.to_nat fd := opened e fname]> (g_files s)) s) /\
     0 <= fd < 16 /\ (exists f, rd (g_files s) fd = Ok f /\ f_in_use f = 0) /\
     Forall (fun f => f_in_use f <> 0) (take (Z.to_nat fd) (g_files s)) /\
     length fname = 16%nat /\ entry_ok e /\
     g_root_dir_cache s = Some cache /\ search_result cache name 0 i (Some e)) \/
  (fs_open (Some (cstr name r0)) s = Ok (-1, s) /\
   (Forall (fun f => f_in_use f <> 0) (g_files s) \/
    exists cache, g_root_dir_cache s = Some cache /\ search_result cache name 0 (-1) None)).
Proof. apply open_spec. Qed.

(** The globals of the example, well formed: those [fs_init] leaves. *)
Definition ex_ready : fs :=
  Fs (replicate 16 ex_file0) (Some ex_fat) (Some ex_root) 1 (replicate 512 0).

Lemma ex_ready_wf : fs_wf ex_ready.
Proof.
  destruct ex_boot_ok as [Hf _ _ _ Hc].
  constructor; [exact Hf|exact ex_fat_ok|exact ex_root_ok|by eexists|exact Hc].
Qed.

Lemma fs_open_correct_witness :
  let name := [65; 46; 84; 88; 84] in
  (exists fd fname cache i e,
     fs_open (Some (cstr name [])) ex_ready =
       Ok (fd, set_files (<[Z.to_nat fd := opened e fname]> (g_files ex_ready)) ex_ready) /\
     0 <= fd < 16 /\ (exists f, rd (g_files ex_ready) fd = Ok f /\ f_in_use f = 0) /\
     Forall (fun f => f_in_use f <> 0) (take (Z.to_nat fd) (g_files ex_ready)) /\
     length fname = 16%nat /\ entry_ok e /\
     g_root_dir_cache ex_ready = Some cache /\ search_result cache name 0 i (Some e)) \/
  (fs_open (Some (cstr name [])) ex_ready = Ok (-1, ex_ready) /\
   (Forall (fun f => f_in_use f <> 0) (g_files ex_ready) \/
    exists cache, g_root_dir_cache ex_ready = Some cache /\ search_result cache name 0 (-1) None)).
Proof.
  apply (fs_open_correct ex_ready [65; 46; 84; 88; 84] [] ex_ready_wf).
  - repeat (apply Forall_cons; split; [vm_compute; repeat split; congruence|]). constructor.
  - vm_compute. discriminate.
Defined.

(** After a seek to a sector boundary inside the file, reads
    deliver the bytes of the file from there on. *)
Lemma seek_then_read {D} `{BlockMedium D} s fd cs f img counts offset (d : D) :
  within (span D) cs -> reading s fd cs f -> medium d img -> Forall is_u16 counts ->
  0 <= offset < f_size f -> offset mod 512 = 0 ->
  exists s1 s' d', fs_seek fd offset s = Ok (0, s1) /\
    read_all fd counts s1 d =
      Ok (slice (contents img cs) offset (Z.min (foldr Z.add 0 counts) (f_size f - offset)), s', d').
Proof.
  intros Hw Hg Hmed Hc Ho Hm. pose proof Hg as [Hl Hcb Hrd Hu [Hch Hst Hsz Hb _ _]].
  destruct (seek_at s fd cs f offset Hg ltac:(lia)) as [Hseek _].
  destruct (lookup_lt_is_Some_2 cs (Z.to_nat ((offset + 511) / 512))) as [c Hk];
    [unfold zlen in *; lia|]. specialize (Hseek c Hk).
  assert (Hg1 : reading (set_files (<[Z.to_nat fd := move_file f c offset]> (g_files s)) s) fd cs
    (move_file f c offset)).
  { destruct (fd_good s fd f Hl Hrd) as [_ Hin].
    constructor; try done; cbn; [by rewrite length_insert | by apply rd_Ok, zget_insert_eq|].
    constructor; cbn; try done; [lia|]. intros _. rewrite <- Hk. f_equal. lia. }
  destruct (read_all_at fd cs img counts Hw _ _ d Hg1 Hmed Hc) as (s' & d' & Hr).
  by eexists _, s', d'.
Qed.

Lemma seek_then_read_witness :
  exists s1 s' d', fs_seek 0 1024 ex_open = Ok (0, s1) /\
    read_all 0 [50; 1000] s1 ex_disk = Ok (slice (contents ex_img [2; 3; 4]) 1024 76, s', d').
Proof.
  apply (seek_then_read ex_open 0 [2; 3; 4] ex_file ex_img [50; 1000] 1024 ex_disk ex_within ex_reading).
  - intros lba. reflexivity.
  - repeat (apply Forall_cons; split; [vm_compute; split; congruence|]). constructor.
  - vm_compute. split; congruence.
  - reflexivity.
Defined.

(** A seek to an offset inside a sector succeeds but moves
    one cluster too far whenever the file has one: the next read delivers the
    bytes 512 further on.  In the last cluster the same seek fails instead. *)
Lemma seek_overshoots {D} `{BlockMedium D} s fd cs f img buf count offset (d : D) :
  within (span D) cs -> reading s fd cs f -> medium d img -> 0 <= offset <= f_size f -> offset mod 512 <> 0 ->
  0 < count -> offset mod 512 + count < 512 -> offset + count <= f_size f -> count <= zlen buf ->
  (offset / 512 + 1 < zlen cs -> exists s1 s' d', fs_seek fd offset s = Ok (0, s1) /\
     fs_read fd (Some buf) count s1 d =
       Ok (count, Some (splice buf 0 (slice (contents img cs) (offset + 512) count)), s', d')) /\
  (offset / 512 + 1 = zlen cs -> forall c v, last cs = Some c ->
     fat12_get_next (g_fat_cache s) c = Ok v -> FS_CLUSTER_MAX <= v ->
     exists s1, fs_seek fd offset s = Ok (-1, s1)).
Proof.
  intros Hw Hg Hmed Ho Hm Hc Hc1 Hc2 Hb. pose proof Hg as [Hl Hcb Hrd Hu [Hch _ Hsz Hbd _ _]].
  destruct (seek_at s fd cs f offset Hg Ho) as [Hseek Hfail].
  assert (Hk : Z.to_nat ((offset + 511) / 512) = Z.to_nat (offset / 512 + 1)) by lia.
  split; intros Hlen.
  2: { intros c v Hlast Hv Hmax. eexists. eapply (Hfail ltac:(unfold zlen in *; lia)); done. }
  destruct (lookup_lt_is_Some_2 cs (Z.to_nat ((offset + 511) / 512))) as [c Hkc];
    [unfold zlen in *; lia|]. specialize (Hseek c Hkc).
  destruct (fd_good s fd f Hl Hrd) as [Hbad Hin].
  set (s1 := set_files _ s) in *. exists s1.
  assert (Hsec : forall lba, length (img lba) = 512%nat) by (intros; by apply (medium_sector d img)).
  destruct (cluster_read d img _ cs _ c (g_cluster_buffer s) Hmed Hch Hw Hkc Hcb) as (d1 & Hread & _).
  unfold fs_read. rewrite Hbad. assert (Hrd1 : rd (g_files s1) fd = Ok (move_file f c offset))
    by (by apply rd_Ok, zget_insert_eq). rewrite Hrd1, bind_ret. cbn [f_in_use move_file].
  rewrite (proj2 (Z.eqb_neq _ _)) by done. destruct (Z.to_nat count) as [|fuel] eqn:Ef; [lia|].
  rewrite (read_loop_once fuel _ (move_file f c offset) buf (g_cluster_buffer s1) count d
             (img (cluster_to_lba c)) d1 Hread);
    [|unfold zlen; by rewrite Hsec|cbn; lia..].
  rewrite bind_ret. cbv beta iota. rewrite wr_in, bind_ret
    by (cbn; rewrite zlen_insert; exact Hin).
  cbn [position move_file]. rewrite i32_id by (unfold is_i32; lia).
  rewrite <- (contents_slice img cs c (offset mod 512) count Hsec ltac:(lia) ltac:(lia) ltac:(lia) _ Hkc).
  replace (512 * Z.of_nat (Z.to_nat ((offset + 511) / 512)) + offset mod 512) with (offset + 512) by lia.
  by eexists _, _.
Qed.

Lemma seek_overshoots_witness :
  exists s1 s' d', fs_seek 0 100 ex_open = Ok (0, s1) /\
    fs_read 0 (Some [0; 0; 0]) 3 s1 ex_disk =
      Ok (3, Some (splice [0; 0; 0] 0 (slice (contents ex_img [2; 3; 4]) 612 3)), s', d').
Proof.
  apply (seek_overshoots ex_open 0 [2; 3; 4] ex_file ex_img [0; 0; 0] 3 100 ex_disk ex_within ex_reading).
  - intros lba. reflexivity.
  - vm_compute. split; congruence.
  - vm_compute. discriminate.
  - reflexivity.
  - reflexivity.
  - vm_compute. congruence.
  - vm_compute. congruence.
  - reflexivity.
Defined.
