(* ===== verification/Store.v ===== *)
(** * The file system as a read-only store *)
(** What [src/kernel/filesystem.c] promises, without clusters, FAT or sectors: a
    volume is a list of named byte strings, a descriptor is a file and a
    position.  [Store] is that abstraction; the rest of the file proves that mounting a disk
    image and then calling the functions of [FileSys] in any order gives the
    answers of [Store] on the files of the image, seeks inside a sector excepted. *)

From S2P Require Import Prelude Memory CString Block FileSys.

(** ** The abstract store *)

Module Store.

Abbreviation volume := (list (list Z * list Z)).
Abbreviation slot := (option (list Z * Z)).
Abbreviation state := (list slot).

Definition init : state := replicate 16 None.

(** The contents of the first file of that name. *)
Definition find (name : list Z) (v : volume) : option (list Z) :=
  (fun x => x.2.2) <$> list_find (fun f => f.1 = name) v.

Definition at_fd (fd : Z) (st : state) : slot := mjoin (zget st fd).

Definition exists_file (v : volume) (name : list Z) : Z :=
  match find name v with Some _ => 1 | None => 0 end.

Definition open (v : volume) (name : list Z) (st : state) : Z * state :=
  match list_find (fun x => x = None) st, find name v with
  | Some (k, _), Some data => (Z.of_nat k, <[k := Some (data, 0)]> st)
  | _, _ => (-1, st)
  end.

Definition close (fd : Z) (st : state) : Z * state :=
  match at_fd fd st with
  | Some _ => (0, <[Z.to_nat fd := None]> st)
  | None => (-1, st)
  end.

(** The return value and the bytes. *)
Definition read (fd count : Z) (st : state) : Z * list Z * state :=
  match at_fd fd st with
  | Some (data, pos) =>
      let n := Z.min count (zlen data - pos) in
      (n, slice data pos n, <[Z.to_nat fd := Some (data, pos + n)]> st)
  | None => (-1, [], st)
  end.

(** To a sector boundary.  The position moves even when the answer is -1: the end of the file
    is such a place. *)
Definition seek (fd offset : Z) (st : state) : Z * state :=
  match at_fd fd st with
  | Some (data, _) =>
      if zlen data <? offset then (-1, st)
      else (if (0 <? offset) && (offset =? zlen data) then -1 else 0, <[Z.to_nat fd := Some (data, offset)]> st)
  | None => (-1, st)
  end.

Definition size (fd : Z) (st : state) : Z :=
  match at_fd fd st with Some (data, _) => zlen data | None => 0 end.
End Store.

(** ** Calls *)

(** A name is the string [str] in an array with [rest] behind its terminator; [buf] is the
    caller's buffer. *)
Inductive call :=
| COpen (str rest : list Z)
| CClose (fd : Z)
| CRead (fd : Z) (buf : list Z) (count : Z)
| CSeek (fd offset : Z)
| CSize (fd : Z)
| CExists (str rest : list Z)
| CWrite (fd : Z) (buf : list Z) (count : Z)
| CCreate (name : list Z) (attrs : Z)
| CDelete (name : list Z).

(** The return value, and the bytes a read puts into the buffer. *)
Definition call_step {D} `{BlockDev D} (c : call) (s : fs) (d : D) : res (Z * list Z * fs * D) :=
  match c with
  | COpen str rest => '(r, s) ← fs_open (Some (cstr str rest)) s; Ok (r, [], s, d)
  | CClose fd => '(r, s) ← fs_close fd s; Ok (r, [], s, d)
  | CRead fd buf count =>
      '(r, buf, s, d) ← fs_read fd (Some buf) count s d; Ok (r, take (Z.to_nat r) (default [] buf), s, d)
  | CSeek fd offset => '(r, s) ← fs_seek fd offset s; Ok (r, [], s, d)
  | CSize fd => r ← fs_get_size fd s; Ok (r, [], s, d)
  | CExists str rest => r ← fs_file_exists s (cstr str rest); Ok (r, [], s, d)
  | CWrite fd buf count => Ok (fs_write fd buf count, [], s, d)
  | CCreate name attrs => Ok (fs_create name attrs, [], s, d)
  | CDelete name => Ok (fs_delete name, [], s, d)
  end.

Definition store_step (v : Store.volume) (c : call) (st : Store.state) : Z * list Z * Store.state :=
  match c with
  | COpen str _ => let '(r, st) := Store.open v str st in (r, [], st)
  | CClose fd => let '(r, st) := Store.close fd st in (r, [], st)
  | CRead fd _ count => Store.read fd count st
  | CSeek fd offset => let '(r, st) := Store.seek fd offset st in (r, [], st)
  | CSize fd => (Store.size fd st, [], st)
  | CExists str _ => (Store.exists_file v str, [], st)
  | CWrite _ _ _ | CCreate _ _ | CDelete _ => (-1, [], st)
  end.

Fixpoint call_run {D} `{BlockDev D} (cs : list call) (s : fs) (d : D) : res (list (Z * list Z) * fs * D) :=
  match cs with
  | [] => Ok ([], s, d)
  | c :: cs => '(r, out, s, d) ← call_step c s d; '(rs, s, d) ← call_run cs s d; Ok ((r, out) :: rs, s, d)
  end.

Fixpoint store_run (v : Store.volume) (cs : list call) (st : Store.state) : list (Z * list Z) * Store.state :=
  match cs with
  | [] => ([], st)
  | c :: cs => let '(r, out, st) := store_step v c st in let '(rs, st) := store_run v cs st in ((r, out) :: rs, st)
  end.

(** The caller's side.  A seek goes to a sector boundary: elsewhere the code is off by a cluster. *)
Definition call_ok (c : call) : Prop :=
  match c with
  | COpen str _ | CExists str _ => nul_free str
  | CRead fd buf count => is_i32 fd /\ is_u16 count /\ count <= zlen buf
  | CSeek fd offset => is_i32 fd /\ 0 <= offset /\ offset mod 512 = 0
  | CClose fd | CSize fd => is_i32 fd
  | CWrite _ _ _ | CCreate _ _ | CDelete _ => True
  end.

(** ** The files of a disk *)

(** The entries a search can find: up to the end mark, without the deleted ones. *)
Fixpoint live (n : nat) (cache : list Z) (i : Z) : list fs_dir_entry_t :=
  match n with
  | O => []
  | S n =>
      match dir_entry cache i with
      | Ok e =>
          if hd 0 (filename e) =? 0 then [] else
          if hd 0 (filename e) =? 0xE5 then live n cache (i + 1) else e :: live n cache (i + 1)
      | Err _ => []
      end
  end.

(** The clusters [cs], all below sector [reach], hold [size] bytes from [start] on: as many as are needed, and at
    least one, and behind the last of a file with bytes the FAT has an end mark. *)
Record stored (reach : Z) (fat : option (list Z)) (start size : Z) (cs : list Z) : Prop := {
  st_chain : chain fat cs;
  st_within : within reach cs;
  st_start : head cs = Some start;
  st_count : zlen cs = Z.max 1 ((size + 511) / 512);
  st_size : 0 <= size <= 2 ^ 32 - 512;
  st_end : 0 < size -> exists c v, last cs = Some c /\ fat12_get_next fat c = Ok v /\ FS_CLUSTER_MAX <= v
}.

Definition bytes_of (img : Z -> list Z) (cs : list Z) (size : Z) : list Z := slice (contents img cs) 0 size.

Definition holds (reach : Z) (fat : option (list Z)) (img : Z -> list Z) (e : fs_dir_entry_t) (f : list Z * list Z) : Prop :=
  f.1 = entry_name e /\ exists cs, stored reach fat (low_cluster e) (file_size e) cs /\ f.2 = bytes_of img cs (file_size e).

Definition fat_of (img : Z -> list Z) : list Z := sector_run img FS_FAT_START_SECTOR FS_SECTORS_PER_FAT.
Definition root_of (img : Z -> list Z) : list Z := sector_run img FS_ROOT_DIR_SECTOR FS_ROOT_DIR_SECTORS.

(** [vol] is what the sectors of [img] hold, no file beyond sector [reach]. *)
Definition on_disk (reach : Z) (img : Z -> list Z) (vol : Store.volume) : Prop :=
  Forall2 (holds reach (Some (fat_of img)) img) (live 224 (root_of img) 0) vol.

(** ** The simulation relation *)

Definition slot_rel (reach : Z) (fat : option (list Z)) (img : Z -> list Z) (f : fs_file_t) (x : Store.slot) : Prop :=
  length (f_name f) = 16%nat /\
  match x with
  | None => f_in_use f = 0
  | Some (data, pos) => f_in_use f <> 0 /\ pos = position f /\ exists cs, file_at fat cs f /\
      stored reach fat (start_cluster f) (f_size f) cs /\ data = bytes_of img cs (f_size f)
  end.

Record store_rel (reach : Z) (img : Z -> list Z) (vol : Store.volume) (s : fs) (st : Store.state) : Prop := {
  sr_slots : Forall2 (slot_rel reach (g_fat_cache s) img) (g_files s) st;
  sr_len : length st = 16%nat;
  sr_cbuf : zlen (g_cluster_buffer s) = 512;
  sr_init : g_fs_initialized s <> 0;
  sr_root : exists cache, g_root_dir_cache s = Some cache /\ root_ok cache /\
    Forall2 (holds reach (g_fat_cache s) img) (live 224 cache 0) vol
}.

(** *** The search and the volume *)

(** A search that passes an entry goes on behind it. *)
Lemma search_next cache name i r found : search_result cache name i r found -> 0 <= i < FS_ROOT_ENTRIES ->
  forall e, dir_entry cache i = Ok e -> ~ end_mark e -> deleted e \/ entry_name e <> name ->
  search_result cache name (i + 1) r found.
Proof.
  intros Hs Hi e He Hend Hp. destruct found as [x|].
  - destruct Hs as (Hr & Hx & Hxe & Hxd & Hxn & Hbefore). assert (r <> i).
    { intros ->. rewrite He in Hx. injection Hx as <-. by destruct Hp. }
    split_and!; try done; try lia. intros j Hj. apply Hbefore. lia.
  - destruct Hs as (-> & n & Hn & Hstop & Hbefore). split; [done|]. exists n. assert (n <> i).
    { intros ->. destruct Hstop as [->|(x & Hx & Hxe)]; [lia|]. rewrite He in Hx. by injection Hx as <-. }
    split_and!; try done; try lia. intros j Hj. apply Hbefore. lia.
Qed.

Lemma search_live cache name : root_ok cache -> forall n i r found, 0 <= i -> i + Z.of_nat n = FS_ROOT_ENTRIES ->
  search_result cache name i r found -> found = snd <$> list_find (fun e => entry_name e = name) (live n cache i).
Proof.
  intros Hroot. induction n as [|n IH]; intros i r found Hi Hn Hs; cbn [live].
  { destruct found as [e|]; [|done]. destruct Hs as (Hr & _). lia. }
  destruct (dir_entry_spec cache i Hroot ltac:(lia)) as (e & He & _). rewrite He.
  assert (Hstop : forall x, found = Some x -> end_mark e -> False).
  { intros x -> Hend. destruct Hs as (Hr & Hx & Hxe & _ & _ & Hbefore). destruct (Z.eq_dec r i) as [->|Hne].
    - rewrite He in Hx. by injection Hx as <-.
    - destruct (Hbefore i ltac:(lia)) as (y & Hy & Hye & _). rewrite He in Hy. by injection Hy as <-. }
  destruct (Z.eqb_spec (hd 0 (filename e)) 0) as [H0|H0].
  { destruct found as [x|]; [|done]. by destruct (Hstop x eq_refl). }
  pose proof (fun Hp => IH (i + 1) r found ltac:(lia) ltac:(lia) (search_next cache name i r found Hs ltac:(lia) e He H0 Hp)) as Hnext.
  destruct (Z.eqb_spec (hd 0 (filename e)) 0xE5) as [Hd|Hd]; [by apply Hnext; left|].
  cbn [list_find]. destruct (decide (entry_name e = name)) as [Hm|Hm].
  - destruct found as [x|].
    + destruct Hs as (Hr & Hx & _ & _ & _ & Hbefore). destruct (Z.eq_dec r i) as [->|Hne]; [by rewrite He in Hx; injection Hx as <-|].
      destruct (Hbefore i ltac:(lia)) as (y & Hy & _ & Hp). rewrite He in Hy. injection Hy as <-. by destruct Hp.
    + destruct Hs as (_ & k & Hk & Hend & Hbefore). destruct (Z.eq_dec k i) as [->|Hne].
      * destruct Hend as [->|(y & Hy & Hye)]; [lia|]. rewrite He in Hy. by injection Hy as <-.
      * destruct (Hbefore i ltac:(lia)) as (y & Hy & _ & Hp). rewrite He in Hy. injection Hy as <-. by destruct Hp.
  - rewrite Hnext by by right. by destruct (list_find _ (live n cache (i + 1))) as [[]|].
Qed.

Lemma find_holds reach fat img name l vol : Forall2 (holds reach fat img) l vol ->
  match snd <$> list_find (fun e => entry_name e = name) l with
  | Some e => exists data, Store.find name vol = Some data /\ holds reach fat img e (name, data)
  | None => Store.find name vol = None
  end.
Proof.
  unfold Store.find. induction 1 as [|e [nm data] l vol [Hn Hc] _ IH]; [done|]. cbn [fst] in Hn. subst nm. cbn [list_find fst].
  destruct (decide (entry_name e = name)) as [<-|Hne]; cbn; [by exists data|].
  destruct (list_find (fun e => entry_name e = name) l) as [[]|], (list_find _ vol) as [[]|]; cbn in *; done.
Qed.

(** *** Descriptors *)

Section Simulation.
Context {D : Type} `{BlockMedium D}.

Lemma stored_at fat start size cs f : stored (span D) fat start size cs -> start_cluster f = start -> f_size f = size ->
  0 <= position f <= size -> (position f < size -> cs !! Z.to_nat (position f / 512) = Some (current_cluster f)) ->
  file_at fat cs f.
Proof. intros [Hch _ Hst Hn Hs _] <- <- Hp Hc. constructor; try done; lia. Qed.

Lemma fd_slot img vol s st fd : store_rel (span D) img vol s st -> is_i32 fd ->
  (bad_fd fd = true /\ Store.at_fd fd st = None) \/
  (bad_fd fd = false /\ 0 <= fd < zlen (g_files s) /\ exists f, rd (g_files s) fd = Ok f /\
     slot_rel (span D) (g_fat_cache s) img f (Store.at_fd fd st)).
Proof.
  intros [Hsl Hlen _ _ _] Hfd. pose proof (Forall2_length _ _ _ Hsl) as Hl. rewrite Hlen in Hl.
  destruct (fd_cases s fd Hl Hfd) as [Hb|(Hb & Hi & f & Hf)]; unfold Store.at_fd, zget.
  - left. split; [done|]. unfold bad_fd, FS_MAX_FILES in Hb. destruct (Z.leb_spec 0 fd); [|done].
    rewrite lookup_ge_None_2; [done|lia].
  - right. split; [done|]. split; [done|]. exists f. split; [done|]. apply rd_Ok, zget_Some in Hf as [Hfd0 Hf].
    destruct (Forall2_lookup_l _ _ _ _ _ Hsl Hf) as (x & Hx & Hr). rewrite (proj2 (Z.leb_le _ _)) by done. by rewrite Hx.
Qed.

Lemma set_slot img vol s st fd f x : store_rel (span D) img vol s st -> slot_rel (span D) (g_fat_cache s) img f x ->
  store_rel (span D) img vol (set_files (<[Z.to_nat fd := f]> (g_files s)) s) (<[Z.to_nat fd := x]> st).
Proof.
  intros [Hsl Hlen ? ? ?] Hx. constructor; try done; [by apply Forall2_insert|]. by rewrite <- Hlen; apply length_insert.
Qed.

Lemma open_rel img vol s st str rest : store_rel (span D) img vol s st -> nul_free str ->
  exists s', fs_open (Some (cstr str rest)) s = Ok ((Store.open vol str st).1, s') /\
    store_rel (span D) img vol s' (Store.open vol str st).2.
Proof.
  intros HR Hn. pose proof HR as [Hsl Hlen _ Hi (cache & Hc & Hroot & Hvol)].
  pose proof (Forall2_length _ _ _ Hsl) as Hl. rewrite Hlen in Hl.
  assert (Hnames : Forall (fun f => length (f_name f) = 16%nat) (g_files s)).
  { apply Forall_lookup_2. intros k f Hf. destruct (Forall2_lookup_l _ _ _ _ _ Hsl Hf) as (x & _ & Hx & _). done. }
  assert (Huse : forall k f, g_files s !! k = Some f -> f_in_use f = 0 <-> st !! k = Some None).
  { intros k f Hf. destruct (Forall2_lookup_l _ _ _ _ _ Hsl Hf) as (x & Hx & _ & Hr). rewrite Hx.
    destruct x as [[data pos]|]; [|done]. split; [by destruct Hr|done]. }
  unfold Store.open.
  destruct (open_table s cache str rest Hl Hnames Hroot Hc Hn Hi) as
    [(fd & fname & i & e & -> & Hfd & (f0 & Hf0 & Hu0) & Hbefore & Hfn & He & Hs)|[-> Hwhy]].
  - pose proof (search_live cache str Hroot 224 0 i (Some e) ltac:(lia) ltac:(done) Hs) as Hfind.
    pose proof (find_holds _ _ img str _ _ Hvol) as Hh. rewrite <- Hfind in Hh. destruct Hh as (data & Hd & _ & cs & Hst & Hb).
    assert (Hk : list_find (fun x => x = None) st = Some (Z.to_nat fd, None)).
    { apply rd_Ok, zget_Some in Hf0 as [_ Hf0]. apply list_find_Some. split_and!; [by apply (Huse _ f0 Hf0)|done|].
      intros j y Hy Hj ->. destruct (lookup_lt_is_Some_2 (g_files s) j) as [f Hf]; [apply lookup_lt_Some in Hy; lia|].
      eapply (Forall_lookup_1 _ _ j f Hbefore); [by rewrite lookup_take_lt|]. by apply (Huse _ f Hf). }
    rewrite Hk, Hd. cbn [fst snd]. rewrite Z2Nat.id by lia. eexists. split; [reflexivity|]. apply set_slot; [done|].
    split; [done|]. split; [by cbn|]. split; [done|]. exists cs. destruct Hst as [? ? Hhd ? ? ?] eqn:Est. clear Est.
    split; [|by split]. eapply (stored_at _ (low_cluster e) (file_size e)); try done; cbn; [lia|].
    intros _. change (0 / 512) with 0. by destruct cs; [|injection Hhd as ->].
  - exists s. assert (Hno : match list_find (fun x => x = None) st, Store.find str vol with
        | Some (k, _), Some data => (Z.of_nat k, <[k := Some (data, 0)]> st) | _, _ => (-1, st) end = (-1, st)).
    { destruct Hwhy as [Hall|Hs].
      - destruct (list_find _ st) as [[k x]|] eqn:Ek; [|done]. exfalso. apply list_find_Some in Ek as (Hx & -> & _).
        destruct (lookup_lt_is_Some_2 (g_files s) k) as [f Hf]; [apply lookup_lt_Some in Hx; lia|].
        eapply (Forall_lookup_1 _ _ k f Hall Hf). by apply (Huse _ f Hf).
      - pose proof (search_live cache str Hroot 224 0 (-1) None ltac:(lia) ltac:(done) Hs) as Hfind.
        pose proof (find_holds _ _ img str _ _ Hvol) as Hh. rewrite <- Hfind in Hh. rewrite Hh. by destruct (list_find _ st) as [[]|]. }
    by rewrite Hno.
Qed.

Lemma exists_rel img vol s st str rest : store_rel (span D) img vol s st -> nul_free str ->
  fs_file_exists s (cstr str rest) = Ok (Store.exists_file vol str).
Proof.
  intros [_ _ _ _ (cache & Hc & Hroot & Hvol)] Hn. unfold fs_file_exists, Store.exists_file.
  destruct (dir_find_spec s str rest ltac:(by rewrite Hc) Hn) as (i & found & -> & Hs). rewrite Hc in Hs. rewrite bind_ret. cbv beta iota.
  pose proof (search_live cache str Hroot 224 0 i found ltac:(lia) ltac:(done) Hs) as Hfind.
  pose proof (find_holds _ _ img str _ _ Hvol) as Hh. rewrite <- Hfind in Hh. destruct found as [e|].
  - destruct Hh as (data & -> & _). destruct Hs as (Hi & _). by rewrite (proj2 (Z.leb_le _ _)) by lia.
  - rewrite Hh. by destruct Hs as [-> _].
Qed.

(** What an open descriptor refers to. *)
Lemma slot_reading img vol s st fd f data pos : store_rel (span D) img vol s st -> rd (g_files s) fd = Ok f ->
  slot_rel (span D) (g_fat_cache s) img f (Some (data, pos)) ->
  f_in_use f <> 0 /\ pos = position f /\ exists cs, reading s fd cs f /\
    stored (span D) (g_fat_cache s) (start_cluster f) (f_size f) cs /\ data = bytes_of img cs (f_size f).
Proof.
  intros [Hsl Hlen Hcb _ _] Hf (_ & Hu & Hp & cs & Hat & Hst & Hd). split; [done|]. split; [done|]. exists cs.
  pose proof (Forall2_length _ _ _ Hsl). split_and!; try done. constructor; try done. congruence.
Qed.

Lemma zlen_bytes d img cs size fat start : medium d img -> stored (span D) fat start size cs -> zlen (bytes_of img cs size) = size.
Proof.
  intros Hm [_ _ _ Hn Hs _]. apply zlen_slice; [done|lia|]. rewrite contents_length; [lia|]. intros. by apply (medium_sector d img).
Qed.

Lemma moved_rel fat img f cur pos cs : length (f_name f) = 16%nat -> f_in_use f <> 0 ->
  file_at fat cs (move_file f cur pos) -> stored (span D) fat (start_cluster f) (f_size f) cs ->
  slot_rel (span D) fat img (move_file f cur pos) (Some (bytes_of img cs (f_size f), pos)).
Proof. intros Hn Hu Hat Hst. split; [done|]. split; [done|]. split; [done|]. by exists cs. Qed.

Lemma close_rel img vol s st fd : store_rel (span D) img vol s st -> is_i32 fd ->
  exists s', fs_close fd s = Ok ((Store.close fd st).1, s') /\ store_rel (span D) img vol s' (Store.close fd st).2.
Proof.
  intros HR Hfd. unfold fs_close, Store.close. destruct (fd_slot img vol s st fd HR Hfd) as [[-> ->]|(-> & Hi & f & -> & Hr)].
  { by exists s. }
  rewrite bind_ret. destruct (Store.at_fd fd st) as [[data pos]|].
  - destruct Hr as (Hn & Hu & _). rewrite (proj2 (Z.eqb_neq _ _)), wr_in, bind_ret by done.
    eexists. split; [reflexivity|]. by apply set_slot.
  - destruct Hr as (_ & ->). change (0 =? 0) with true. by exists s.
Qed.

Lemma size_rel img vol s st fd d : store_rel (span D) img vol s st -> medium d img -> is_i32 fd -> fs_get_size fd s = Ok (Store.size fd st).
Proof.
  intros HR Hm Hfd. unfold fs_get_size, Store.size. destruct (fd_slot img vol s st fd HR Hfd) as [[-> ->]|(-> & Hi & f & Hf & Hr)]; [done|].
  rewrite Hf, bind_ret. destruct (Store.at_fd fd st) as [[data pos]|].
  - destruct (slot_reading _ _ _ _ _ _ _ _ HR Hf Hr) as (Hu & _ & cs & _ & Hst & ->). rewrite (proj2 (Z.eqb_neq _ _)) by done.
    by rewrite (zlen_bytes d img cs _ _ _ Hm Hst).
  - destruct Hr as (_ & ->). done.
Qed.

Lemma read_rel img vol s st fd buf count d : store_rel (span D) img vol s st -> medium d img ->
  is_i32 fd -> is_u16 count -> count <= zlen buf ->
  let '(r, out, st') := Store.read fd count st in
  exists buf' s' d', fs_read fd (Some buf) count s d = Ok (r, Some buf', s', d') /\
    take (Z.to_nat r) buf' = out /\ zlen buf' = zlen buf /\ store_rel (span D) img vol s' st' /\ medium d' img.
Proof.
  intros HR Hm Hfd Hc Hb. unfold Store.read. destruct (fd_slot img vol s st fd HR Hfd) as [[Hbad ->]|(Hbad & Hi & f & Hf & Hr)].
  { exists buf, s, d. unfold fs_read. by rewrite Hbad. }
  destruct (Store.at_fd fd st) as [[data pos]|] eqn:Eat.
  - destruct (slot_reading _ _ _ _ _ _ _ _ HR Hf Hr) as (Hu & -> & cs & Hrd & Hst & ->).
    rewrite (zlen_bytes d img cs _ _ _ Hm Hst). pose proof Hrd as [_ _ _ _ [_ _ Hsz _ Hp _]]. unfold is_u16 in Hc.
    destruct (read_run s fd cs f img buf count d Hrd (st_within _ _ _ _ _ Hst) Hm Hc Hb) as (cur & cb & d' & E & Hm' & Hrd').
    set (n := Z.min count (f_size f - position f)) in *. assert (Hn : 0 <= n <= count /\ position f + n <= f_size f) by lia.
    assert (Hlen : zlen (slice (contents img cs) (position f) n) = n).
    { apply zlen_slice; try lia. rewrite contents_length; [lia|]. intros. by apply (medium_sector d img). }
    eexists _, _, d'. split; [exact E|]. split; [|split; [apply zlen_splice; lia|split; [|done]]].
    + unfold splice, bytes_of. cbn [Z.to_nat]. rewrite take_0. cbn [app]. rewrite slice_slice by lia.
      apply take_app_length'. unfold zlen in Hlen. lia.
    + destruct (set_slot img vol s st fd (move_file f cur (position f + n)) (Some (bytes_of img cs (f_size f), position f + n)) HR)
        as [? ? _ ? ?].
      * apply moved_rel; try done; [by destruct Hr|]. by destruct Hrd'.
      * constructor; try done. by destruct Hrd'.
  - exists buf, s, d. destruct Hr as (_ & Hu). unfold fs_read. by rewrite Hbad, Hf, bind_ret, Hu.
Qed.

Lemma seek_rel img vol s st fd offset d : store_rel (span D) img vol s st -> medium d img ->
  is_i32 fd -> 0 <= offset -> offset mod 512 = 0 ->
  exists s', fs_seek fd offset s = Ok ((Store.seek fd offset st).1, s') /\ store_rel (span D) img vol s' (Store.seek fd offset st).2.
Proof.
  intros HR Hm Hfd Ho Ha. unfold Store.seek. destruct (fd_slot img vol s st fd HR Hfd) as [[Hbad ->]|(Hbad & Hi & f & Hf & Hr)].
  { exists s. unfold fs_seek. by rewrite Hbad. }
  destruct (Store.at_fd fd st) as [[data pos]|] eqn:Eat.
  2: { exists s. destruct Hr as (_ & Hu). unfold fs_seek. by rewrite Hbad, Hf, bind_ret, Hu. }
  destruct (slot_reading _ _ _ _ _ _ _ _ HR Hf Hr) as (Hu & -> & cs & Hrd & Hst & ->).
  rewrite (zlen_bytes d img cs _ _ _ Hm Hst). pose proof Hst as [Hch _ Hhd Hn Hsz Hend].
  destruct (Z.ltb_spec (f_size f) offset) as [Hout|Hin].
  { exists s. unfold fs_seek. rewrite Hbad, Hf, bind_ret, (proj2 (Z.eqb_neq _ _)), (proj2 (Z.ltb_lt _ _)) by done. done. }
  assert (Hmove : forall c, (offset < f_size f -> cs !! Z.to_nat (offset / 512) = Some c) ->
    store_rel (span D) img vol (set_files (<[Z.to_nat fd := move_file f c offset]> (g_files s)) s)
      (<[Z.to_nat fd := Some (bytes_of img cs (f_size f), offset)]> st)).
  { intros c Hcur. apply set_slot; [done|]. apply moved_rel; try done; [by destruct Hr|].
    by apply (stored_at _ (start_cluster f) (f_size f)). }
  destruct (seek_at s fd cs f offset Hrd ltac:(lia)) as [Hgo Hfail].
  assert (Hk : Z.to_nat ((offset + 511) / 512) = Z.to_nat (offset / 512)) by lia. rewrite Hk in Hgo, Hfail.
  destruct ((0 <? offset) && (offset =? f_size f)) eqn:E.
  - apply andb_true_iff in E as [Hpos%Z.ltb_lt ->%Z.eqb_eq]. destruct (Hend Hpos) as (c & v & Hlast & Hv & Hmax).
    eexists. split; [apply (Hfail ltac:(unfold zlen in Hn; lia) c v Hlast Hv Hmax)|]. apply Hmove. lia.
  - destruct (lookup_lt_is_Some_2 cs (Z.to_nat (offset / 512))) as [c Hcur].
    { apply andb_false_iff in E as [Hpos%Z.ltb_ge|Hne%Z.eqb_neq]; unfold zlen in Hn; lia. }
    eexists. split; [by apply Hgo|]. by apply Hmove.
Qed.

(** ** The refinement *)

Lemma step_rel img vol c s st d : store_rel (span D) img vol s st -> medium d img -> call_ok c ->
  let '(r, out, st') := store_step vol c st in
  exists s' d', call_step c s d = Ok (r, out, s', d') /\ store_rel (span D) img vol s' st' /\ medium d' img.
Proof.
  intros HR Hm Hc. destruct c as [str rest|fd|fd buf count|fd offset|fd|str rest|fd buf count|name attrs|name]; cbn [store_step call_step call_ok] in *.
  - destruct (open_rel img vol s st str rest HR Hc) as (s' & -> & HR'). destruct (Store.open vol str st). by exists s', d.
  - destruct (close_rel img vol s st fd HR Hc) as (s' & -> & HR'). destruct (Store.close fd st). by exists s', d.
  - destruct Hc as (Hfd & Hu & Hb). pose proof (read_rel img vol s st fd buf count d HR Hm Hfd Hu Hb) as Hr.
    destruct (Store.read fd count st) as [[r out] st']. destruct Hr as (buf' & s' & d' & -> & <- & _ & HR' & Hm'). by exists s', d'.
  - destruct Hc as (Hfd & Ho & Ha). destruct (seek_rel img vol s st fd offset d HR Hm Hfd Ho Ha) as (s' & -> & HR').
    destruct (Store.seek fd offset st). by exists s', d.
  - rewrite (size_rel img vol s st fd d) by done. by exists s, d.
  - rewrite (exists_rel img vol s st str rest) by done. by exists s, d.
  - by exists s, d.
  - by exists s, d.
  - by exists s, d.
Qed.

Lemma run_rel img vol calls : forall s st d, store_rel (span D) img vol s st -> medium d img -> Forall call_ok calls ->
  exists s' d', call_run calls s d = Ok ((store_run vol calls st).1, s', d') /\
    store_rel (span D) img vol s' (store_run vol calls st).2 /\ medium d' img.
Proof.
  induction calls as [|c calls IH]; intros s st d HR Hm Hc; [by exists s, d|]. apply Forall_cons in Hc as [Hc Hcs].
  cbn [call_run store_run]. pose proof (step_rel img vol c s st d HR Hm Hc) as Hs.
  destruct (store_step vol c st) as [[r out] st1]. destruct Hs as (s1 & d1 & -> & HR1 & Hm1). rewrite bind_ret. cbv beta iota.
  destruct (IH s1 st1 d1 HR1 Hm1 Hcs) as (s2 & d2 & -> & HR2 & Hm2). destruct (store_run vol calls st1). by exists s2, d2.
Qed.

(** ** Mounting *)

Lemma splice_whole (buf xs : list Z) : zlen xs = zlen buf -> splice buf 0 xs = xs.
Proof.
  intros Hl. unfold splice. cbn [Z.to_nat]. rewrite take_0, drop_ge by (unfold zlen in *; lia). apply app_nil_r.
Qed.

(** One of the two tables, read into its fresh block. *)
Lemma table_read d img lba count p h : medium d img -> 1 <= lba -> 0 < count < 256 -> lba + count <= span D ->
  exists d', read_sectors 0 lba count (fresh_block p (count * SECTOR_SIZE) h) d = Ok (count, sector_run img lba count, d') /\
    medium d' img.
Proof.
  intros Hm Hl Hc Hlc. assert (Hz : zlen (fresh_block p (count * SECTOR_SIZE) h) = count * SECTOR_SIZE)
    by (apply fresh_block_length; unfold SECTOR_SIZE; lia).
  destruct (medium_reads d img lba count (fresh_block p (count * SECTOR_SIZE) h) Hm Hl Hc Hlc ltac:(by rewrite Hz)) as (d' & E & Hm').
  exists d'. split; [|done]. rewrite E, splice_whole; [done|]. rewrite Hz. apply sector_run_ok; [|clear -Hc; lia]. intros a. by apply (medium_sector d img).
Qed.

Lemma mount_rel img vol h s d : fs_boot s -> heap_wf h -> heap_ptr h + FAT_BYTES + FS_ROOT_ENTRIES * 32 < HEAP_END ->
  medium d img -> on_disk (span D) img vol ->
  exists h' s' d', fs_init h s d = Ok (0, h', s', d') /\ store_rel (span D) img vol s' Store.init /\ medium d' img.
Proof.
  intros [[Hl Hf] Hi _ _ [Hcb _]] Hh Hroom Hm Hvol. unfold fs_init. rewrite Hi. change (negb (0 =? 0)) with false. cbv iota zeta.
  set (close := fun f : fs_file_t => _). unfold heap_wf, FAT_BYTES, FS_SECTORS_PER_FAT, FS_BYTES_PER_SECTOR, FS_ROOT_ENTRIES in *.
  assert (Hnull : (heap_ptr h =? NULL) = false) by (apply Z.eqb_neq; unfold NULL, HEAP_START in *; lia).
  rewrite (malloc_ok _ h) by (unfold heap_wf, MALLOC_SAFE, HEAP_END, HEAP_START, HEAP_SIZE in *; lia). rewrite Hnull.
  rewrite malloc_ok by (unfold heap_wf, MALLOC_SAFE, HEAP_END, HEAP_START, HEAP_SIZE in *; cbn [heap_ptr];
    change (FS_ROOT_DIR_SECTORS * 512) with 7168; lia).
  cbn [heap_ptr heap_ram]. rewrite (proj2 (Z.eqb_neq _ NULL)) by (unfold NULL, HEAP_START in *; lia).
  destruct (table_read d img FS_FAT_START_SECTOR 9 (heap_ptr h) h Hm) as (d1 & E1 & Hm1); [done|done|exact (Z.le_trans 10 33 _ ltac:(lia) (proj1 medium_span))|].
  change (9 * SECTOR_SIZE) with (9 * 512) in E1. rewrite E1, bind_ret. cbv beta iota. change (9 <? 0) with false. cbv iota.
  set (h1 := Heap (heap_ptr h + 9 * 512) (heap_ram h)).
  destruct (table_read d1 img FS_ROOT_DIR_SECTOR FS_ROOT_DIR_SECTORS (heap_ptr h + 9 * 512) h1 Hm1) as (d2 & E2 & Hm2); [done|done|exact (proj1 medium_span)|].
  change SECTOR_SIZE with 512 in E2. rewrite E2, bind_ret. cbv beta iota zeta. change (FS_ROOT_DIR_SECTORS <? 0) with false. cbv iota.
  assert (Hsec : forall a, length (img a) = 512%nat /\ Forall is_u8 (img a)) by (intros a; exact (medium_sector d img a Hm)).
  eexists _, _, d2. split; [reflexivity|]. split; [|exact Hm2]. constructor.
  - unfold Store.init. cbn [set_initialized set_caches set_files g_files g_fat_cache]. rewrite <- Hl. clear - Hf.
    induction Hf as [|f l [] _ IH]; [constructor|]. by constructor.
  - reflexivity.
  - exact Hcb.
  - discriminate.
  - exists (root_of img). split; [reflexivity|]. split; [|exact Hvol]. destruct (sector_run_ok img FS_ROOT_DIR_SECTOR FS_ROOT_DIR_SECTORS Hsec) as [Hz Hu]; [done|].
    split; [exact Hz|exact Hu].
Qed.
End Simulation.

(** ** Properties *)

(** C5.  The file system refines a read-only store: on a device whose sectors from 1 to [span D - 1] read back and hold the
    files [vol] (their clusters in those sectors), [fs_init] mounts it (the heap has room for FAT and root directory), and
    then any sequence of opens, closes, reads, size and existence queries, seeks to multiples of 512 and refused
    writes, creates and deletes, with any descriptors, names and buffers, gives the return values and the bytes that the
    abstract store gives: sixteen descriptors, the lowest free one at an open, each with its own
    position in the contents of the first file of the name.  Seeks to other offsets are not in the sequence: there the
    code goes one cluster too far ([FileSys.seek_overshoots]) and is no such store.  And the store has one oddity of the
    code built in: a seek to the end of a file whose size is a positive multiple of 512 moves there and
    answers -1. *)
Theorem disk_refines_store {D} `{BlockMedium D} h s d img vol calls :
  fs_boot s -> heap_wf h -> heap_ptr h + FAT_BYTES + FS_ROOT_ENTRIES * 32 < HEAP_END ->
  medium d img -> on_disk (span D) img vol -> Forall call_ok calls ->
  exists h' s1 d1 s2 d2, fs_init h s d = Ok (0, h', s1, d1) /\
    call_run calls s1 d1 = Ok ((store_run vol calls Store.init).1, s2, d2) /\ medium d2 img.
Proof.
  intros Hb Hh Hroom Hm Hv Hc. destruct (mount_rel img vol h s d Hb Hh Hroom Hm Hv) as (h' & s1 & d1 & E1 & HR & Hm1).
  destruct (run_rel img vol calls s1 _ d1 HR Hm1 Hc) as (s2 & d2 & E2 & _ & Hm2). by exists h', s1, d1, s2, d2.
Qed.

(** The floppy of [FileSys]: one file of 1100 bytes. *)
Definition ex_volume : Store.volume := [([65; 46; 84; 88; 84], bytes_of ex_img [2; 3; 4] 1100)].

(** It lies in the sectors below 36. *)
Lemma ex_on_disk reach : 36 <= reach -> on_disk reach ex_img ex_volume.
Proof.
  intros Hreach.
  unfold on_disk. assert (E : exists e, live 224 (root_of ex_img) 0 = [e] /\ low_cluster e = 2 /\ file_size e = 1100 /\ entry_name e = [65; 46; 84; 88; 84]) by (eexists; split; [vm_compute; reflexivity|by vm_compute]).
  destruct E as (e & -> & Hc & Hz & Hn). constructor; [|constructor]. split; [done|]. exists [2; 3; 4]. rewrite Hc, Hz.
  split; [|reflexivity].
  assert (Hu : is_u16 2 /\ is_u16 3 /\ is_u16 4) by (unfold is_u16; lia). destruct Hu as (H2 & H3 & H4).
  assert (Hf : fat12_get_next (Some (fat_of ex_img)) 2 = Ok 3 /\ fat12_get_next (Some (fat_of ex_img)) 3 = Ok 4 /\
    fat12_get_next (Some (fat_of ex_img)) 4 = Ok 0xFFF) by (split_and!; vm_compute; reflexivity).
  destruct Hf as (F2 & F3 & F4). constructor.
  - exact (conj H2 (conj F2 (conj eq_refl (conj H3 (conj F3 (conj eq_refl H4)))))).
  - apply (Forall_impl (fun c => cluster_to_lba c < 36)); [by repeat constructor|intros c Hlt; by apply (Z.lt_le_trans _ 36)].
  - reflexivity.
  - reflexivity.
  - lia.
  - intros _. exists 4, 0xFFF. split; [reflexivity|]. split; [exact F4|discriminate].
Qed.

(** Two descriptors on the file, their reads interleaved; a seek to a boundary, one behind
    the end, and calls that are refused. *)
Definition ex_calls : list call :=
  [COpen [65; 46; 84; 88; 84] []; COpen [65; 46; 84; 88; 84] [7]; COpen [66] []; CSize 1; CRead 0 (replicate 600 9) 600;
   CRead 1 (replicate 8 9) 8; CSeek 0 1024; CRead 0 (replicate 100 9) 100; CSeek 1 1536; CWrite 1 [1] 1; CClose 0;
   CRead 0 [9] 1; CExists [66] []; COpen [65; 46; 84; 88; 84] []].

Lemma disk_refines_store_witness :
  (fst <$> (store_run ex_volume ex_calls Store.init).1) = [0; 1; -1; 1100; 600; 8; 0; 76; -1; -1; 0; -1; 0; 0] /\
  exists h' s1 d1 s2 d2, fs_init ex_heap ex_boot ex_disk = Ok (0, h', s1, d1) /\
    call_run ex_calls s1 d1 = Ok ((store_run ex_volume ex_calls Store.init).1, s2, d2) /\ medium d2 ex_img.
Proof.
  split; [vm_compute; reflexivity|].
  apply (disk_refines_store ex_heap ex_boot ex_disk ex_img ex_volume ex_calls ex_boot_ok).
  - vm_compute. split; congruence.
  - reflexivity.
  - intros lba. reflexivity.
  - apply ex_on_disk. vm_compute. congruence.
  - repeat (apply Forall_cons; split; [vm_compute; repeat split; try congruence; repeat constructor; congruence|]). constructor.
Defined.
