(* ===== verification/Disk.v ===== *)
(** * The ATA disk driver *)
(** [src/kernel/disk.c] over any bus: identification, PIO reads and writes with
    their polling loops, and the drive table.  The driver is an instance of the
    block interface; that its reads deliver the sectors of the medium is proved
    for drives that follow the PIO protocol ([PioDrive]), and which sectors those are for a drive
    that reads addresses as the ATA standard does ([StandardDrive]). *)

From S2P Require Import Prelude Memory Block Ports.

Definition ATA_PRIMARY_IO_BASE : Z := 0x1F0.
Definition ATA_SECONDARY_IO_BASE : Z := 0x170.
Definition ATA_REG_DATA : Z := 0x00.
Definition ATA_REG_SECCOUNT : Z := 0x02.
Definition ATA_REG_LBA0 : Z := 0x03.
Definition ATA_REG_LBA1 : Z := 0x04.
Definition ATA_REG_LBA2 : Z := 0x05.
Definition ATA_REG_HDDEVSEL : Z := 0x06.
Definition ATA_REG_COMMAND : Z := 0x07.
Definition ATA_REG_STATUS : Z := 0x07.
Definition ATA_CMD_READ_PIO : Z := 0x20.
Definition ATA_CMD_WRITE_PIO : Z := 0x30.
Definition ATA_CMD_IDENTIFY : Z := 0xEC.
Definition ATA_SR_BSY : Z := 0x80.
Definition ATA_SR_DRDY : Z := 0x40.
Definition ATA_SR_DF : Z := 0x20.
Definition ATA_SR_DRQ : Z := 0x08.
Definition ATA_MASTER : Z := 0xA0.
Definition ATA_SLAVE : Z := 0xB0.
Definition MAX_DRIVES : Z := 4.

Record ata_disk_t := AtaDisk {
  status : Z;
  cylinders : Z;
  heads : Z;
  sectors : Z;
  total_sectors : Z;
  model : list Z;             (* char model[41] *)
  present : Z
}.

Record disks := Disks {
  g_disks : list ata_disk_t;
  g_drive_count : Z
}.

Definition set_present (v : Z) (k : ata_disk_t) : ata_disk_t :=
  {| status := status k; cylinders := cylinders k; heads := heads k; sectors := sectors k;
     total_sectors := total_sectors k; model := model k; present := v |}.

Definition upd_disk (drive : Z) (f : ata_disk_t -> ata_disk_t) (s : disks) : res disks :=
  k ← rd (g_disks s) drive;
  t ← wr (g_disks s) drive (f k);
  Ok {| g_disks := t; g_drive_count := g_drive_count s |}.

(** The base port and the select byte of a drive, as [disk_read_sectors] and
    [disk_write_sectors] choose them ([disk_identify] chooses the same for the
    four drives there are). *)
Definition drive_base (drive : Z) : Z :=
  if drive <? 2 then ATA_PRIMARY_IO_BASE else ATA_SECONDARY_IO_BASE.
Definition drive_select (drive : Z) : Z :=
  if drive <? 2 then (if drive =? 0 then ATA_MASTER else ATA_SLAVE)
  else (if drive =? 2 then ATA_MASTER else ATA_SLAVE).

Section Driver.
Context `{Bus P}.

(** [while (timeout--)]: so many turns at most. *)
Fixpoint ata_wait_status (timeout : nat) (base mask value : Z) (p : P) : Z * P :=
  match timeout with
  | O => (0, p)
  | S t =>
      let '(status, p) := inb (base + ATA_REG_STATUS) p in
      if Z.land status mask =? value then (1, p) else ata_wait_status t base mask value p
  end.

Fixpoint ata_wait_ready (timeout : nat) (base : Z) (p : P) : Z * P :=
  match timeout with
  | O => (0, p)
  | S t =>
      let '(status, p) := inb (base + ATA_REG_STATUS) p in
      if (Z.land status (Z.lor ATA_SR_BSY ATA_SR_DF) =? 0)
         && negb (Z.land status ATA_SR_DRDY =? 0)
      then (1, p) else ata_wait_ready t base p
  end.

Definition STATUS_TIMEOUT : nat := Z.to_nat 100000.
Definition READY_TIMEOUT : nat := Z.to_nat 30000.

Definition wait_drq (base : Z) (p : P) : Z * P :=
  ata_wait_status STATUS_TIMEOUT base ATA_SR_DRQ ATA_SR_DRQ p.

(** ** Identification *)

Definition ata_process_identify (data : list Z) (k : ata_disk_t) : res ata_disk_t :=
  c ← rd data 1; h ← rd data 3; n ← rd data 6;
  hi ← rd data 61; lo ← rd data 60;
  let lba_sectors := Z.lor (u32 (Z.shiftl hi 16)) lo in
  let name := concat ((fun w => [Z.land (Z.shiftr w 8) 0xFF; Z.land w 0xFF]) <$> slice data 27 20) in
  m ← memcpy_at (model k) 0 name 0 40;
  m ← wr m 40 0;
  Ok {| status := 1; cylinders := c; heads := h; sectors := n;
        total_sectors := if 0 <? lba_sectors then lba_sectors else u32 (c * h * n);
        model := m; present := 1 |}.

Fixpoint read_identify (n : nat) (base : Z) (p : P) : list Z * P :=
  match n with
  | O => ([], p)
  | S n =>
      let '(w, p) := inw (base + ATA_REG_DATA) p in
      let '(ws, p) := read_identify n base p in
      (w :: ws, p)
  end.

Definition disk_identify (drive : Z) (s : disks) (p : P) : res (disks * P) :=
  if 3 <? drive then Ok (s, p) else
  let base := drive_base drive in
  let p := outb (base + ATA_REG_HDDEVSEL) (drive_select drive) p in
  let '(st, p) := inb (base + ATA_REG_STATUS) p in
  if st =? 0xFF then s ← upd_disk drive (set_present 0) s; Ok (s, p) else
  let p := outb (base + ATA_REG_COMMAND) ATA_CMD_IDENTIFY p in
  let '(ok, p) := wait_drq base p in
  if ok =? 0 then s ← upd_disk drive (set_present 0) s; Ok (s, p) else
  let '(data, p) := read_identify 256 base p in
  k ← rd (g_disks s) drive;
  k ← ata_process_identify data k;
  t ← wr (g_disks s) drive k;
  if present k =? 0 then Ok ({| g_disks := t; g_drive_count := g_drive_count s |}, p)
  else Ok ({| g_disks := t; g_drive_count := u8 (g_drive_count s + 1) |}, p).

Definition disk_init (s : disks) (p : P) : res (disks * P) :=
  let clear k := {| status := 0; cylinders := 0; heads := 0; sectors := 0;
                    total_sectors := 0; model := model k; present := 0 |} in
  let s := {| g_disks := clear <$> g_disks s; g_drive_count := 0 |} in
  '(s, p) ← disk_identify 0 s p;
  '(s, p) ← disk_identify 1 s p;
  '(s, p) ← disk_identify 2 s p;
  disk_identify 3 s p.

Definition disk_get_info (drive : Z) (s : disks) : option Z :=
  if MAX_DRIVES <=? drive then None else Some drive.
Definition disk_get_drive_count (s : disks) : Z := g_drive_count s.
Definition disk_drive_exists (drive : Z) (s : disks) : res Z :=
  if MAX_DRIVES <=? drive then Ok 0 else k ← rd (g_disks s) drive; Ok (present k).

(** ** Transfers *)

(** The task file both transfers write before their command. *)
Definition set_address (drive lba count : Z) (p : P) : P :=
  let base := drive_base drive in
  let p := outb (base + ATA_REG_SECCOUNT) count p in
  let p := outb (base + ATA_REG_LBA0) (Z.land lba 0xFF) p in
  let p := outb (base + ATA_REG_LBA1) (Z.land (Z.shiftr lba 8) 0xFF) p in
  let p := outb (base + ATA_REG_LBA2) (Z.land (Z.shiftr lba 16) 0xFF) p in
  outb (base + ATA_REG_HDDEVSEL) (Z.lor (drive_select drive) (Z.land (Z.shiftr lba 24) 0x0F)) p.

(** 256 words into [buffer] from byte [off] on. *)
Fixpoint read_words (n : nat) (base : Z) (buffer : list Z) (off : Z) (p : P)
    : res (list Z * P) :=
  match n with
  | O => Ok (buffer, p)
  | S n =>
      let '(w, p) := inw (base + ATA_REG_DATA) p in
      buffer ← wr16 buffer off w;
      read_words n base buffer (off + 2) p
  end.

Fixpoint read_loop (n : nat) (base count : Z) (buffer : list Z) (off : Z) (p : P)
    : res (Z * list Z * P) :=
  match n with
  | O => Ok (count, buffer, p)
  | S n =>
      let '(ok, p) := wait_drq base p in
      if ok =? 0 then Ok (-1, buffer, p) else
      '(buffer, p) ← read_words 256 base buffer off p;
      read_loop n base count buffer (off + SECTOR_SIZE) p
  end.

Fixpoint write_words (n : nat) (base : Z) (buffer : list Z) (off : Z) (p : P) : res P :=
  match n with
  | O => Ok p
  | S n =>
      w ← rd16 buffer off;
      write_words n base buffer (off + 2) (outw (base + ATA_REG_DATA) w p)
  end.

Fixpoint write_loop (n : nat) (base count : Z) (buffer : list Z) (off : Z) (p : P)
    : res (Z * P) :=
  match n with
  | O => Ok (count, p)
  | S n =>
      let '(ok, p) := wait_drq base p in
      if ok =? 0 then Ok (-1, p) else
      p ← write_words 256 base buffer off p;
      write_loop n base count buffer (off + SECTOR_SIZE) p
  end.

(** [drive >= MAX_DRIVES || !g_disks[drive].present]. *)
Definition no_drive (drive : Z) (s : disks) : res bool :=
  if MAX_DRIVES <=? drive then Ok true else
  k ← rd (g_disks s) drive; Ok (present k =? 0).

Definition disk_read_sectors (drive lba count : Z) (buffer : list Z) (s : disks) (p : P)
    : res (Z * list Z * P) :=
  absent ← no_drive drive s;
  if (absent : bool) then Ok (-1, buffer, p) else
  let base := drive_base drive in
  let '(ready, p) := ata_wait_ready READY_TIMEOUT base p in
  if ready =? 0 then Ok (-1, buffer, p) else
  let p := set_address drive lba count p in
  let p := outb (base + ATA_REG_COMMAND) ATA_CMD_READ_PIO p in
  read_loop (Z.to_nat count) base count buffer 0 p.

Definition disk_write_sectors (drive lba count : Z) (buffer : list Z) (s : disks) (p : P)
    : res (Z * P) :=
  absent ← no_drive drive s;
  if (absent : bool) then Ok (-1, p) else
  let base := drive_base drive in
  let '(ready, p) := ata_wait_ready READY_TIMEOUT base p in
  if ready =? 0 then Ok (-1, p) else
  let p := set_address drive lba count p in
  let p := outb (base + ATA_REG_COMMAND) ATA_CMD_WRITE_PIO p in
  write_loop (Z.to_nat count) base count buffer 0 p.
End Driver.

(** The driver and its machine as a block device. *)
#[export] Instance disk_blocks `{Bus P} : BlockDev (disks * P) := {
  read_sectors drive lba count buf d :=
    '(r, buf, p) ← disk_read_sectors drive lba count buf d.1 d.2; Ok (r, buf, (d.1, p));
  write_sectors drive lba count buf d :=
    '(r, p) ← disk_write_sectors drive lba count buf d.1 d.2; Ok (r, (d.1, p))
}.

(** ** Transfers stay inside the caller's buffer *)

Definition disks_wf (s : disks) : Prop := length (g_disks s) = 4%nat.

Lemma no_drive_total drive s : disks_wf s -> 0 <= drive -> exists b, no_drive drive s = Ok b.
Proof.
  intros Hw Hd. unfold no_drive. destruct (Z.leb_spec MAX_DRIVES drive) as [|Hlt]; [by eexists|].
  unfold MAX_DRIVES in Hlt.
  destruct (rd_total (g_disks s) drive) as [k ->]; [unfold zlen; rewrite Hw; lia|]. by eexists.
Qed.

(** The little-endian bytes of words. *)
Definition word_bytes (ws : list Z) : list Z :=
  concat ((fun w => [w mod 256; (w / 256) mod 256]) <$> ws).

Lemma word_bytes_cons w ws : word_bytes (w :: ws) = [w mod 256; (w / 256) mod 256] ++ word_bytes ws.
Proof. done. Qed.

Lemma zlen_word_bytes ws : zlen (word_bytes ws) = 2 * zlen ws.
Proof.
  induction ws as [|w ws IH]; [done|]. rewrite word_bytes_cons, zlen_app, IH. unfold zlen. cbn [length]. lia.
Qed.

Lemma word_bytes_app ws1 ws2 : word_bytes (ws1 ++ ws2) = word_bytes ws1 ++ word_bytes ws2.
Proof. unfold word_bytes. by rewrite fmap_app, concat_app. Qed.

Lemma splice_no_words buf off : 0 <= off -> splice buf off (word_bytes []) = buf.
Proof. apply splice_nil. Qed.

Lemma word_bytes_u8 ws : Forall is_u8 (word_bytes ws).
Proof.
  induction ws as [|w ws IH]; [constructor|]. rewrite word_bytes_cons.
  repeat (constructor; [apply u8_range|]). exact IH.
Qed.

Lemma splice_Forall {A} (P : A -> Prop) l off xs : Forall P l -> Forall P xs -> Forall P (splice l off xs).
Proof.
  intros Hl Hx. unfold splice. apply Forall_app; split; [by apply Forall_take|].
  apply Forall_app; split; [done|by apply Forall_drop].
Qed.

Section Transfers.
Context `{Bus P}.

Lemma read_words_splice n : forall base buf off p, 0 <= off -> off + 2 * Z.of_nat n <= zlen buf ->
  exists ws p', read_words n base buf off p = Ok (splice buf off (word_bytes ws), p') /\
    zlen ws = Z.of_nat n.
Proof.
  induction n as [|n IH]; intros base buf off p Ho Hb; cbn [read_words].
  - exists [], p. by rewrite splice_no_words.
  - destruct (inw (base + ATA_REG_DATA) p) as [w p1]. rewrite wr16_splice, bind_ret by lia.
    set (two := [w mod 256; (w / 256) mod 256]).
    assert (Hs : zlen (splice buf off two) = zlen buf)
      by (apply zlen_splice; [done|change (zlen two) with 2; lia]).
    destruct (IH base (splice buf off two) (off + 2) p1) as (ws & p' & -> & Hws); [lia|lia|].
    exists (w :: ws), p'. split; [|unfold zlen in *; cbn [length]; lia].
    rewrite word_bytes_cons. fold two. change (off + 2) with (off + zlen two).
    rewrite splice_splice; [done|done|]. rewrite zlen_word_bytes. change (zlen two) with 2. lia.
Qed.

Lemma ata_read_loop_safe n : forall base count buf off p, 0 <= off ->
  off + SECTOR_SIZE * Z.of_nat n <= zlen buf ->
  exists r ws p', read_loop n base count buf off p = Ok (r, splice buf off (word_bytes ws), p') /\
    (r = -1 \/ r = count) /\ 2 * zlen ws <= SECTOR_SIZE * Z.of_nat n.
Proof.
  unfold SECTOR_SIZE. induction n as [|n IH]; intros base count buf off p Ho Hb; cbn [read_loop].
  - exists count, [], p. rewrite splice_no_words by done. split_and!; [done|by right|done].
  - destruct (wait_drq base p) as [ok p1]. destruct (ok =? 0).
    { exists (-1), [], p1. rewrite splice_no_words by done. split_and!; [done|by left|].
      change (zlen []) with 0. lia. }
    destruct (read_words_splice 256 base buf off p1) as (ws & p2 & Hrw & Hl); [lia|lia|].
    rewrite Hrw, bind_ret. cbv beta iota. unfold SECTOR_SIZE.
    pose proof (zlen_word_bytes ws) as Hwb.
    destruct (IH base count (splice buf off (word_bytes ws)) (off + 512) p2) as (r & ws' & p' & -> & Hr & Hl');
      [lia|rewrite zlen_splice; lia|].
    exists r, (ws ++ ws'), p'. split_and!; [|done|rewrite zlen_app; lia].
    rewrite word_bytes_app. replace (off + 512) with (off + zlen (word_bytes ws)) by lia.
    rewrite splice_splice; [done|done|]. rewrite !zlen_word_bytes. lia.
Qed.

Lemma read_sectors_safe drive lba count buf s p : disks_wf s -> 0 <= drive -> 0 <= count ->
  count * SECTOR_SIZE <= zlen buf ->
  exists r ws p', disk_read_sectors drive lba count buf s p = Ok (r, splice buf 0 (word_bytes ws), p') /\
    (r = -1 \/ r = count) /\ 2 * zlen ws <= count * SECTOR_SIZE.
Proof.
  intros Hw Hd Hc Hb. unfold disk_read_sectors.
  destruct (no_drive_total drive s Hw Hd) as [b ->]. rewrite bind_ret.
  assert (Hfail : forall p1 : P, exists r ws (p' : P), Ok (-1, buf, p1) = Ok (r, splice buf 0 (word_bytes ws), p') /\
    (r = -1 \/ r = count) /\ 2 * zlen ws <= count * SECTOR_SIZE).
  { intros p1. exists (-1), [], p1. rewrite splice_no_words by done. split_and!; [done|by left|].
    change (zlen []) with 0. unfold SECTOR_SIZE. lia. }
  destruct b; [by apply Hfail|]. destruct (ata_wait_ready _ _ p) as [ready p1].
  destruct (ready =? 0); [by apply Hfail|].
  match goal with |- context [read_loop _ ?b ?c _ _ ?q] =>
    destruct (ata_read_loop_safe (Z.to_nat count) b c buf 0 q) as (r & ws & p' & -> & Hr & Hl);
      [lia|unfold SECTOR_SIZE in *; lia|] end.
  exists r, ws, p'. split_and!; [done..|unfold SECTOR_SIZE in *; lia].
Qed.

(** A written buffer is only read from. *)
Lemma write_words_total n : forall base buf off p, 0 <= off -> off + 2 * Z.of_nat n <= zlen buf ->
  exists p', write_words n base buf off p = Ok p'.
Proof.
  induction n as [|n IH]; intros base buf off p Ho Hb; cbn [write_words]; [by eexists|].
  unfold rd16. destruct (rd_total buf off) as [a ->]; [lia|].
  destruct (rd_total buf (off + 1)) as [b ->]; [lia|]. step. apply IH; lia.
Qed.

Lemma write_sectors_total drive lba count buf s p : disks_wf s -> 0 <= drive -> 0 <= count ->
  count * SECTOR_SIZE <= zlen buf ->
  exists r p', disk_write_sectors drive lba count buf s p = Ok (r, p') /\ (r = -1 \/ r = count).
Proof.
  intros Hw Hd Hc Hb. unfold disk_write_sectors.
  destruct (no_drive_total drive s Hw Hd) as [b ->]. rewrite bind_ret.
  destruct b; [eexists _, _; split; [reflexivity|by left]|].
  destruct (ata_wait_ready _ _ p) as [ready p1].
  destruct (ready =? 0); [eexists _, _; split; [reflexivity|by left]|].
  assert (Hloop : forall n off q, 0 <= off -> off + SECTOR_SIZE * Z.of_nat n <= zlen buf ->
    exists r p', write_loop n (drive_base drive) count buf off q = Ok (r, p') /\ (r = -1 \/ r = count)).
  { unfold SECTOR_SIZE. induction n as [|n IH]; intros off q Ho Hn; cbn [write_loop].
    - eexists _, _. split; [reflexivity|by right].
    - destruct (wait_drq _ q) as [ok q1]. destruct (ok =? 0); [eexists _, _; split; [reflexivity|by left]|].
      destruct (write_words_total 256 (drive_base drive) buf off q1) as [q2 Hq]; [lia|lia|].
      rewrite Hq, bind_ret. apply IH; unfold SECTOR_SIZE; lia. }
  apply Hloop; [lia|]. unfold SECTOR_SIZE in *. lia.
Qed.
End Transfers.

#[export] Instance disk_safe `{Bus P} : BlockSafe (disks * P).
Proof.
  refine {| blk_ok := fun d => disks_wf d.1 |}.
  intros drive lba count buf [s p] Hw Hd _ Hc Hb Hu. unfold is_u8 in Hd, Hc. cbn.
  destruct (read_sectors_safe drive lba count buf s p Hw ltac:(lia) ltac:(lia) Hb)
    as (r & ws & p' & -> & Hr & Hl).
  rewrite bind_ret. cbv beta iota. pose proof (zlen_word_bytes ws).
  eexists _, _, _. split; [reflexivity|]. split; [done|]. split; [exact Hw|].
  split; [apply zlen_splice; lia|]. split; [apply splice_Forall; [done|apply word_bytes_u8]|].
  unfold splice. cbn [Z.to_nat]. rewrite take_0. cbn [app].
  rewrite drop_app_ge by (unfold zlen in *; lia). rewrite drop_drop. f_equal. unfold zlen in *. lia.
Defined.

(** ** Identification counts the drives it finds *)

Definition is_present (k : ata_disk_t) : Prop := present k <> 0.
#[global] Instance is_present_dec k : Decision (is_present k).
Proof. unfold is_present. apply _. Defined.

(** The table while the drives below [n] have been probed. *)
Record probed (n : Z) (s : disks) : Prop := {
  pb_len : length (g_disks s) = 4%nat;
  pb_model : Forall (fun k => length (model k) = 41%nat) (g_disks s);
  pb_named : Forall (fun k => is_present k -> 0 ∈ model k) (g_disks s);
  pb_count : g_drive_count s = countP is_present (g_disks s);
  pb_rest : forall i k, n <= i -> rd (g_disks s) i = Ok k -> present k = 0
}.

Lemma probed_update n s k c : probed n s -> 0 <= n < 4 -> length (model k) = 41%nat ->
  (is_present k -> 0 ∈ model k) ->
  c = g_drive_count s + (if decide (is_present k) then 1 else 0) ->
  probed (n + 1) {| g_disks := <[Z.to_nat n := k]> (g_disks s); g_drive_count := c |}.
Proof.
  intros [Hl Hm Hnm Hc Hr] Hn Hk Hz ->.
  destruct (rd_total (g_disks s) n) as [old Hold]; [unfold zlen; lia|].
  pose proof (Hr n old ltac:(lia) Hold) as H0. apply rd_Ok, zget_Some in Hold as [_ Hold].
  constructor; cbn.
  - by rewrite length_insert.
  - by apply Forall_insert.
  - by apply Forall_insert.
  - rewrite (countP_insert is_present _ _ k old Hold), Hc.
    rewrite (decide_False (P := is_present old)) by (unfold is_present; lia). lia.
  - intros i k' Hi Hk'. apply (Hr i); [lia|]. apply rd_Ok. apply rd_Ok in Hk'.
    by rewrite zget_insert_ne in Hk' by lia.
Qed.

Lemma process_identify_spec data k : length data = 256%nat -> length (model k) = 41%nat ->
  exists k', ata_process_identify data k = Ok k' /\ present k' = 1 /\ length (model k') = 41%nat /\ 0 ∈ model k'.
Proof.
  intros Hd Hm. unfold ata_process_identify.
  assert (Hz : zlen data = 256) by (unfold zlen; lia). assert (Hzm : zlen (model k) = 41) by (unfold zlen; lia).
  do 5 match goal with |- context [rd data ?i ≫= _] =>
    destruct (rd_total data i) as [? ->]; [lia|]; rewrite bind_ret end.
  set (nm := concat _). assert (Hn : zlen nm = 40).
  { subst nm. assert (Hs : length (slice data 27 20) = 20%nat)
      by (unfold slice; rewrite length_take, length_drop, Hd; reflexivity).
    destruct (slice data 27 20) as [|? [|? [|? [|? [|? [|? [|? [|? [|? [|? [|? [|? [|? [|? [|? [|? [|? [|? [|? [|? [|]]]]]]]]]]]]]]]]]]]]];
      try discriminate Hs. reflexivity. }
  rewrite memcpy_at_splice by lia. rewrite bind_ret.
  assert (Hsl : zlen (splice (model k) 0 (slice nm 0 40)) = 41)
    by (rewrite zlen_splice; rewrite ?zlen_slice; lia).
  rewrite wr_in, bind_ret by lia. eexists. split; [reflexivity|]. split; [done|]. cbn.
  split; [rewrite length_insert; unfold zlen in Hsl; lia|].
  apply (list_elem_of_lookup_2 _ 40). apply list_lookup_insert_eq. unfold zlen in Hsl. lia.
Qed.

Section Identify.
Context `{Bus P}.

Lemma read_identify_length n : forall base p, length (read_identify n base p).1 = n.
Proof.
  induction n as [|n IH]; intros base p; cbn [read_identify]; [done|].
  destruct (inw _ p) as [w p1]. specialize (IH base p1). destruct (read_identify n base p1).
  cbn in *. by rewrite IH.
Qed.

Lemma identify_spec n s p : probed n s -> 0 <= n < 4 ->
  exists s' p', disk_identify n s p = Ok (s', p') /\ probed (n + 1) s'.
Proof.
  intros Hp Hn. pose proof Hp as [Hl Hm Hnm Hc Hr]. unfold disk_identify.
  rewrite (proj2 (Z.ltb_ge _ _)) by lia.
  assert (Hz : 0 <= n < zlen (g_disks s)) by (unfold zlen; lia).
  destruct (rd_total (g_disks s) n Hz) as [k Hk].
  pose proof Hk as Hk'. apply rd_Ok, zget_Some in Hk' as [_ Hk'].
  assert (Hmk : length (model k) = 41%nat) by (by eapply Forall_lookup_1 in Hm).
  assert (Habsent : forall p1 : P, exists s' (p' : P),
    (s ← upd_disk n (set_present 0) s; Ok (s, p1)) = Ok (s', p') /\ probed (n + 1) s').
  { intros p1. unfold upd_disk. rewrite Hk, bind_ret, wr_in, !bind_ret by done.
    assert (Habs : ~ is_present (set_present 0 k)) by (intros Hx; by apply Hx).
    eexists _, _. split; [reflexivity|]. apply probed_update; [done..|by intros ?|].
    rewrite decide_False; [lia|done]. }
  destruct (inb _ _) as [st p1]. destruct (st =? 0xFF); [by apply Habsent|].
  destruct (wait_drq _ _) as [ok p2]. destruct (ok =? 0); [by apply Habsent|].
  pose proof (read_identify_length 256 (drive_base n) p2) as Hdl.
  destruct (read_identify 256 (drive_base n) p2) as [data p3]. cbn [fst] in Hdl.
  rewrite Hk, bind_ret. destruct (process_identify_spec data k Hdl Hmk) as (k' & -> & Hpk & Hmk' & Hzk).
  rewrite bind_ret, wr_in, bind_ret by done. rewrite Hpk. change (1 =? 0) with false. cbv iota.
  eexists _, _. split; [reflexivity|]. apply probed_update; [done..|].
  rewrite decide_True by (unfold is_present; lia). apply u8_id.
  rewrite Hc. pose proof (countP_bounds is_present (g_disks s)). unfold is_u8, zlen in *. lia.
Qed.

Lemma probed_start s : length (g_disks s) = 4%nat -> Forall (fun k => length (model k) = 41%nat) (g_disks s) ->
  probed 0 {| g_disks := (fun k => {| status := 0; cylinders := 0; heads := 0; sectors := 0;
                                      total_sectors := 0; model := model k; present := 0 |}) <$> g_disks s;
              g_drive_count := 0 |}.
Proof.
  intros Hl Hm. destruct s as [[|k0 [|k1 [|k2 [|k3 [|]]]]] c]; try discriminate Hl. cbn in Hm.
  constructor; [done| | |done|].
  - apply Forall_fmap. exact Hm.
  - apply Forall_fmap, Forall_true. intros k Hk. by destruct Hk.
  - intros i k _ Hk. apply rd_Ok, zget_Some in Hk as [_ Hk]. cbn [g_disks] in Hk.
    apply list_lookup_fmap_Some in Hk as (k' & -> & _). done.
Qed.

Lemma init_spec s p : length (g_disks s) = 4%nat -> Forall (fun k => length (model k) = 41%nat) (g_disks s) ->
  exists s' p', disk_init s p = Ok (s', p') /\ probed 4 s'.
Proof.
  intros Hl Hm. pose proof (probed_start s Hl Hm) as H0. unfold disk_init. cbv zeta.
  set (s0 := {| g_disks := _ |}) in *.
  clearbody s0.
  destruct (identify_spec 0 s0 p H0) as (s1 & p1 & -> & H1); [lia|]. rewrite bind_ret. cbv beta iota.
  destruct (identify_spec 1 s1 p1 H1) as (s2 & p2 & -> & H2); [lia|]. rewrite bind_ret. cbv beta iota.
  destruct (identify_spec 2 s2 p2 H2) as (s3 & p3 & -> & H3); [lia|]. rewrite bind_ret. cbv beta iota.
  destruct (identify_spec 3 s3 p3 H3) as (s4 & p4 & -> & H4); [lia|]. by exists s4, p4.
Qed.
End Identify.

(** ** Drives that follow the PIO protocol *)

(** The task file of the primary channel. *)
Record task := Task { tf_count : Z; tf_lba0 : Z; tf_lba1 : Z; tf_lba2 : Z; tf_dev : Z }.

(** What the driver can tell of a drive: its registers, the words it has still to
    deliver, and the 256 words of each sector. *)
Record ata_view := View { v_task : task; v_pending : list Z; v_media : Z -> list Z }.

Definition set_task (t : task) (v : ata_view) : ata_view := View t (v_pending v) (v_media v).

(** The documented behaviour the read path relies on.  A drive that is [busy]
    answers with BSY and without DRQ, for fewer than 30000 polls; then it shows
    DRDY, and DRQ while words are pending.  It carries out a read when its task file is
    [addressable], and [sector_of] is how it reads the task file as the number of the first sector. *)
Class PioDrive (P : Type) `{Bus P} := {
  view : P -> ata_view;
  busy : P -> nat;
  addressable : task -> Prop;
  sector_of : task -> Z;
  ad_bound p : Z.of_nat (busy p) < 30000;
  ad_poll p st p' : in8 0x1F7 p = (st, p') ->
    is_u8 st /\ view p' = view p /\
    match busy p with
    | O => Z.land st 0xA0 = 0 /\ Z.land st 0x40 <> 0 /\ (v_pending (view p) <> [] -> Z.land st 0x08 = 0x08)
    | S b => Z.land st 0x80 <> 0 /\ Z.land st 0x08 = 0 /\ (busy p' <= b)%nat
    end;
  ad_count v p : view (out8 0x1F2 v p) =
    let t := v_task (view p) in set_task (Task v (tf_lba0 t) (tf_lba1 t) (tf_lba2 t) (tf_dev t)) (view p);
  ad_lba0 v p : view (out8 0x1F3 v p) =
    let t := v_task (view p) in set_task (Task (tf_count t) v (tf_lba1 t) (tf_lba2 t) (tf_dev t)) (view p);
  ad_lba1 v p : view (out8 0x1F4 v p) =
    let t := v_task (view p) in set_task (Task (tf_count t) (tf_lba0 t) v (tf_lba2 t) (tf_dev t)) (view p);
  ad_lba2 v p : view (out8 0x1F5 v p) =
    let t := v_task (view p) in set_task (Task (tf_count t) (tf_lba0 t) (tf_lba1 t) v (tf_dev t)) (view p);
  ad_dev v p : view (out8 0x1F6 v p) =
    let t := v_task (view p) in set_task (Task (tf_count t) (tf_lba0 t) (tf_lba1 t) (tf_lba2 t) v) (view p);
  ad_read p : v_pending (view p) = [] -> addressable (v_task (view p)) ->
    view (out8 0x1F7 0x20 p) =
      let t := v_task (view p) in
      View t (concat (v_media (view p) <$> seqZ (sector_of t) (tf_count t))) (v_media (view p));
  ad_data p w ws : v_pending (view p) = w :: ws ->
    exists p', in16 0x1F0 p = (w, p') /\ view p' = View (v_task (view p)) ws (v_media (view p))
}.

(** The task file of a read of [count] sectors from [lba] on drive 0. *)
Definition task_for (lba count : Z) : task :=
  Task (u8 count) (u8 (Z.land lba 0xFF)) (u8 (Z.land (Z.shiftr lba 8) 0xFF))
       (u8 (Z.land (Z.shiftr lba 16) 0xFF)) (u8 (Z.lor 0xA0 (Z.land (Z.shiftr lba 24) 0x0F))).

Section Protocol.
Context `{PioDrive P}.

Lemma inb_status p st p' : in8 0x1F7 p = (st, p') -> is_u8 st -> inb (0x1F0 + ATA_REG_STATUS) p = (st, p').
Proof.
  intros Hin Hu. unfold inb. change (u16 (0x1F0 + ATA_REG_STATUS)) with 0x1F7.
  by rewrite Hin, u8_id.
Qed.

Lemma wait_ready_ok t : forall p, (busy p < t)%nat ->
  exists p', ata_wait_ready t 0x1F0 p = (1, p') /\ view p' = view p.
Proof.
  induction t as [|t IH]; intros p Hb; [lia|]. cbn [ata_wait_ready].
  destruct (in8 0x1F7 p) as [st p1] eqn:Hin. pose proof (ad_poll p st p1 Hin) as (Hu & Hv & Hm).
  rewrite (inb_status p st p1 Hin Hu). change (Z.lor ATA_SR_BSY ATA_SR_DF) with 0xA0.
  destruct (busy p) as [|b].
  - destruct Hm as (-> & Hr & _). unfold ATA_SR_DRDY. rewrite (proj2 (Z.eqb_neq _ _) Hr).
    by exists p1.
  - destruct Hm as (Hbsy & _ & Hle). rewrite (proj2 (Z.eqb_neq (Z.land st 0xA0) 0)).
    + destruct (IH p1) as (p' & -> & Hv'); [lia|]. exists p'. by rewrite Hv'.
    + intros Hz. apply Hbsy. change 0x80 with (Z.land 0xA0 0x80). by rewrite Z.land_assoc, Hz.
Qed.

Lemma wait_drq_ok t : forall p, (busy p < t)%nat -> v_pending (view p) <> [] ->
  exists p', ata_wait_status t 0x1F0 ATA_SR_DRQ ATA_SR_DRQ p = (1, p') /\ view p' = view p.
Proof.
  induction t as [|t IH]; intros p Hb Hp; [lia|]. cbn [ata_wait_status].
  destruct (in8 0x1F7 p) as [st p1] eqn:Hin. pose proof (ad_poll p st p1 Hin) as (Hu & Hv & Hm).
  rewrite (inb_status p st p1 Hin Hu). unfold ATA_SR_DRQ in *. destruct (busy p) as [|b].
  - destruct Hm as (_ & _ & ->); [|done]. by exists p1.
  - destruct Hm as (_ & -> & Hle). destruct (IH p1) as (p' & -> & Hv'); [lia|by rewrite Hv|].
    exists p'. by rewrite Hv'.
Qed.

Lemma set_address_view lba count p :
  view (set_address 0 lba count p) = set_task (task_for lba count) (view p).
Proof.
  unfold set_address, outb.
  change (u16 (drive_base 0 + ATA_REG_SECCOUNT)) with 0x1F2. change (u16 (drive_base 0 + ATA_REG_LBA0)) with 0x1F3.
  change (u16 (drive_base 0 + ATA_REG_LBA1)) with 0x1F4. change (u16 (drive_base 0 + ATA_REG_LBA2)) with 0x1F5.
  change (u16 (drive_base 0 + ATA_REG_HDDEVSEL)) with 0x1F6.
  by rewrite ad_dev, ad_lba2, ad_lba1, ad_lba0, ad_count.
Qed.

Lemma read_words_data ws : forall rest buf off p, Forall is_u16 ws ->
  v_pending (view p) = ws ++ rest -> 0 <= off -> off + 2 * zlen ws <= zlen buf ->
  exists p', read_words (length ws) 0x1F0 buf off p = Ok (splice buf off (word_bytes ws), p') /\
    view p' = View (v_task (view p)) rest (v_media (view p)).
Proof.
  induction ws as [|w ws IH]; intros rest buf off p Hu Hp Ho Hb; cbn [read_words length].
  - exists p. rewrite splice_no_words by done. split; [done|]. cbn in Hp. rewrite <- Hp.
    by destruct (view p).
  - apply Forall_cons in Hu as [Hw Hu]. destruct (ad_data p w (ws ++ rest) Hp) as (p1 & Hin & Hv).
    unfold inw. change (u16 (0x1F0 + ATA_REG_DATA)) with 0x1F0. rewrite Hin, u16_id by done.
    assert (Hlen : 2 * zlen (w :: ws) = 2 + 2 * zlen ws) by (unfold zlen; cbn [length]; lia).
    pose proof (zlen_nonneg ws).
    rewrite wr16_splice, bind_ret by lia. set (two := [w mod 256; (w / 256) mod 256]).
    assert (Hs : zlen (splice buf off two) = zlen buf)
      by (apply zlen_splice; [done|change (zlen two) with 2; lia]).
    destruct (IH rest (splice buf off two) (off + 2) p1 Hu) as (p' & -> & Hv'); [by rewrite Hv|lia..|].
    exists p'. rewrite Hv', Hv. split; [|done]. rewrite word_bytes_cons. fold two.
    change (off + 2) with (off + zlen two). rewrite splice_splice; [done|done|].
    rewrite zlen_word_bytes. change (zlen two) with 2. lia.
Qed.

Lemma read_loop_data secs : forall count buf off p,
  Forall (fun ws => length ws = 256%nat /\ Forall is_u16 ws) secs ->
  v_pending (view p) = concat secs -> 0 <= off -> off + 512 * zlen secs <= zlen buf ->
  exists p', read_loop (length secs) 0x1F0 count buf off p =
      Ok (count, splice buf off (word_bytes (concat secs)), p') /\
    view p' = View (v_task (view p)) [] (v_media (view p)).
Proof.
  induction secs as [|ws secs IH]; intros count buf off p Hs Hp Ho Hb; cbn [read_loop length concat].
  - exists p. rewrite splice_no_words by done. split; [done|]. cbn in Hp. rewrite <- Hp. by destruct (view p).
  - apply Forall_cons in Hs as [[Hl Hu] Hs]. cbn [concat] in Hp. unfold wait_drq.
    destruct (wait_drq_ok STATUS_TIMEOUT p) as (p1 & -> & Hv1).
    { pose proof (ad_bound p). unfold STATUS_TIMEOUT. lia. }
    { rewrite Hp. destruct ws; [discriminate Hl|done]. }
    change (1 =? 0) with false. cbv iota.
    assert (Hz : zlen ws = 256) by (unfold zlen; lia).
    assert (Hzs : zlen (ws :: secs) = 1 + zlen secs) by (unfold zlen; cbn [length]; lia).
    pose proof (zlen_nonneg secs).
    destruct (read_words_data ws (concat secs) buf off p1 Hu) as (p2 & Hrw & Hv2); [by rewrite Hv1|lia..|].
    rewrite Hl in Hrw. rewrite Hrw, bind_ret. cbv beta iota. unfold SECTOR_SIZE.
    pose proof (zlen_word_bytes ws) as Hwb.
    destruct (IH count (splice buf off (word_bytes ws)) (off + 512) p2 Hs) as (p' & -> & Hv');
      [by rewrite Hv2|lia|rewrite zlen_splice; lia|].
    exists p'. rewrite Hv', Hv2, Hv1. split; [|done]. rewrite word_bytes_app.
    replace (off + 512) with (off + zlen (word_bytes ws)) by lia. rewrite splice_splice; [done|done|].
    assert (Hc : forall l, Forall (fun ws => length ws = 256%nat /\ Forall is_u16 ws) l ->
      zlen (concat l) = 256 * zlen l).
    { clear. induction 1 as [|x l [Hx _] _ IH]; [done|]. cbn [concat]. rewrite zlen_app, IH.
      unfold zlen. cbn [length]. lia. }
    rewrite !zlen_word_bytes, Hc by done. lia.
Qed.

(** A present drive 0, idle, with whole sectors. *)
Record drive_ready (s : disks) (p : P) : Prop := {
  dr_wf : disks_wf s;
  dr_present : exists k, rd (g_disks s) 0 = Ok k /\ present k <> 0;
  dr_idle : v_pending (view p) = [];
  dr_media : forall a, length (v_media (view p) a) = 256%nat /\ Forall is_u16 (v_media (view p) a)
}.

Lemma read_delivers s p lba count buf : addressable (task_for lba count) ->
  drive_ready s p -> 0 < count < 256 -> count * SECTOR_SIZE <= zlen buf ->
  let a := sector_of (task_for lba count) in
  exists p', disk_read_sectors 0 lba count buf s p =
      Ok (count, splice buf 0 (word_bytes (concat (v_media (view p) <$> seqZ a count))), p') /\
    view p' = View (task_for lba count) [] (v_media (view p)).
Proof.
  intros Haddr [Hw (k & Hk & Hpr) Hid Hm] Hc Hb a. unfold SECTOR_SIZE in Hb.
  unfold disk_read_sectors, no_drive. change (MAX_DRIVES <=? 0) with false. cbv iota.
  rewrite Hk, !bind_ret, (proj2 (Z.eqb_neq _ _)) by done. change (drive_base 0) with 0x1F0.
  destruct (wait_ready_ok READY_TIMEOUT p) as (p1 & -> & Hv1).
  { pose proof (ad_bound p). unfold READY_TIMEOUT. lia. }
  change (1 =? 0) with false. cbv iota.
  pose proof (set_address_view lba count p1) as Hv2. rewrite Hv1 in Hv2.
  set (p2 := set_address 0 lba count p1) in *.
  assert (Hv3 : view (outb (0x1F0 + ATA_REG_COMMAND) ATA_CMD_READ_PIO p2) =
    View (task_for lba count) (concat (v_media (view p) <$> seqZ a count)) (v_media (view p))).
  { unfold outb. change (u16 (0x1F0 + ATA_REG_COMMAND)) with 0x1F7. change (u8 ATA_CMD_READ_PIO) with 0x20.
    rewrite ad_read by (by rewrite Hv2). rewrite Hv2. cbn [v_task set_task v_media tf_count task_for].
    by rewrite (u8_id count) by (unfold is_u8; lia). }
  set (p3 := outb _ _ p2) in *. set (secs := v_media (view p) <$> seqZ a count) in *.
  assert (Hlen : length secs = Z.to_nat count) by (unfold secs; by rewrite length_fmap, length_seqZ).
  destruct (read_loop_data secs count buf 0 p3) as (p' & Hr & Hv').
  - apply Forall_fmap, Forall_true. intros x. apply Hm.
  - by rewrite Hv3.
  - lia.
  - unfold zlen at 1. rewrite Hlen. lia.
  - rewrite <- Hlen. exists p'. split; [exact Hr|]. by rewrite Hv', Hv3.
Qed.
End Protocol.

(** ** How drives read the task file *)

(** The two addressings of the ATA standard: bit 6 of the device register clear
    selects cylinder, head and sector (counted from 1), of a drive with [hds]
    heads and [spt] sectors per track; set, a 28-bit sector number. *)
Definition chs_sector (hds spt : Z) (t : task) : Z :=
  ((tf_lba1 t + 256 * tf_lba2 t) * hds + tf_dev t mod 16) * spt + tf_lba0 t - 1.
Definition lba_sector (t : task) : Z :=
  tf_lba0 t + 256 * tf_lba1 t + 65536 * tf_lba2 t + 16777216 * (tf_dev t mod 16).
Definition ata_sector (hds spt : Z) (t : task) : Z :=
  if Z.testbit (tf_dev t) 6 then lba_sector t else chs_sector hds spt t.

(** A master that follows the standard, with [spt] sectors on each track (63 as most drives
    come up; the file system needs at least 32): with bit 6 clear, a read inside the first track of
    cylinder 0 is carried out by cylinder, head and sector. *)
Class StandardDrive (P : Type) `{PioDrive P} := {
  hds : Z;
  spt : Z;
  sd_geometry : 1 <= hds <= 16 /\ 32 <= spt <= 255;
  sd_chs t : Z.testbit (tf_dev t) 6 = false -> Z.testbit (tf_dev t) 4 = false -> tf_dev t mod 16 = 0 ->
    tf_lba1 t = 0 -> tf_lba2 t = 0 -> 1 <= tf_lba0 t -> 1 <= tf_count t -> tf_lba0 t + tf_count t <= spt + 1 ->
    addressable t /\ sector_of t = ata_sector hds spt t
}.

Lemma byte_of lba k : 0 <= k -> u8 (Z.land (Z.shiftr lba k) 0xFF) = lba / 2 ^ k mod 256.
Proof.
  intros Hk. rewrite (land_mask _ 8 0xFF), Z.shiftr_div_pow2 by done. apply u8_id, u8_range.
Qed.

Lemma task_for_regs lba count : 0 <= lba < 2 ^ 28 ->
  task_for lba count = Task (u8 count) (lba mod 256) (lba / 256 mod 256) (lba / 65536 mod 256)
                         (160 + lba / 16777216).
Proof.
  intros Hl. unfold task_for. pose proof (byte_of lba 0 ltac:(lia)) as H0.
  rewrite Z.shiftr_0_r in H0. rewrite H0, !byte_of by lia.
  change (2 ^ 0) with 1. rewrite Z.div_1_r. change (2 ^ 8) with 256. change (2 ^ 16) with 65536.
  f_equal. rewrite (land_mask _ 4 0x0F), Z.shiftr_div_pow2 by done.
  change (2 ^ 24) with 16777216. change (2 ^ 4) with 16.
  assert (Hd : 0 <= lba / 16777216 < 16) by (split; [apply Z.div_pos|apply Z.div_lt_upper_bound]; lia).
  rewrite (Z.mod_small _ 16) by done. change 0xA0 with (Z.shiftl 10 4).
  rewrite Z.lor_comm, lor_shiftl by done. rewrite u8_id by (unfold is_u8; lia). change (Z.shiftl 10 4) with 160. lia.
Qed.

(** The address the driver writes for a sector of the first track has bit 6 clear and the sector
    number where the standard counts from 1. *)
Lemma standard_task `{StandardDrive P} lba count : 1 <= lba -> 0 < count < 256 -> lba + count <= spt + 1 ->
  addressable (task_for lba count) /\ sector_of (task_for lba count) = lba - 1.
Proof.
  intros Hl Hc Hlc. pose proof sd_geometry as [_ Hspt].
  assert (Et : task_for lba count = Task count lba 0 0 160).
  { rewrite task_for_regs by lia. by rewrite (Z.mod_small lba), (Z.div_small lba 256), (Z.div_small lba 65536),
      (Z.div_small lba 16777216), u8_id by (unfold is_u8; lia). }
  rewrite Et. destruct (sd_chs (Task count lba 0 0 160)) as [Ha ->]; try reflexivity; try (cbn; lia).
  split; [done|]. unfold ata_sector, chs_sector. cbn [tf_dev tf_lba0 tf_lba1 tf_lba2].
  change (Z.testbit 160 6) with false. change (160 mod 16) with 0. cbv iota. lia.
Qed.

Lemma word_bytes_sectors img (media : Z -> list Z) lba count : (forall a, img a = word_bytes (media (a - 1))) ->
  word_bytes (concat (media <$> seqZ (lba - 1) count)) = sector_run img lba count.
Proof.
  intros Hi. unfold sector_run. replace (seqZ lba count) with (Z.add 1 <$> seqZ (lba - 1) count).
  - induction (seqZ (lba - 1) count) as [|a l IH]; [done|]. cbn [fmap list_fmap concat].
    rewrite word_bytes_app, IH, Hi. by replace (1 + a - 1) with a by lia.
  - rewrite fmap_add_seqZ. f_equal. lia.
Qed.

(** The medium the file system is promised, over such a drive: what the driver takes for sector [n] is
    the drive's sector [n - 1], and only the first track can be had. *)
#[export] Instance disk_medium `{StandardDrive P} : BlockMedium (disks * P).
Proof.
  refine {| medium := fun d img => drive_ready d.1 d.2 /\ forall a, img a = word_bytes (v_media (view d.2) (a - 1));
            span := spt + 1 |}.
  - pose proof sd_geometry. lia.
  - intros [s p] img lba [[_ _ _ Hm] Hi]. rewrite Hi. split; [|apply word_bytes_u8].
    pose proof (zlen_word_bytes (v_media (view p) (lba - 1))) as Hl. unfold zlen in Hl.
    destruct (Hm (lba - 1)) as [Hlen _]. cbn [snd] in *. lia.
  - intros [s p] img lba count buf [Hr Hi] Hl Hc Hlc Hb. destruct (standard_task lba count Hl Hc Hlc) as [Haddr Hsec].
    destruct (read_delivers s p lba count buf Haddr Hr Hc Hb) as (p' & Hrd & Hv).
    exists (s, p'). split.
    + cbn [read_sectors disk_blocks fst snd]. rewrite Hrd, bind_ret. cbv beta iota.
      by rewrite Hsec, (word_bytes_sectors img).
    + destruct Hr as [? ? ? ?]. cbn. split; [|by rewrite Hv].
      constructor; try done; by rewrite Hv.
Defined.

(** ** A drive, for the examples *)

Record sim := Sim { s_task : task; s_pending : list Z; s_media : Z -> list Z; s_busy : bool }.

Section Sim.
Variable decode : task -> Z.

Definition sim_out8 (port v : Z) (p : sim) : sim :=
  let t := s_task p in
  let reg t := Sim t (s_pending p) (s_media p) (s_busy p) in
  if port =? 0x1F2 then reg (Task v (tf_lba0 t) (tf_lba1 t) (tf_lba2 t) (tf_dev t)) else
  if port =? 0x1F3 then reg (Task (tf_count t) v (tf_lba1 t) (tf_lba2 t) (tf_dev t)) else
  if port =? 0x1F4 then reg (Task (tf_count t) (tf_lba0 t) v (tf_lba2 t) (tf_dev t)) else
  if port =? 0x1F5 then reg (Task (tf_count t) (tf_lba0 t) (tf_lba1 t) v (tf_dev t)) else
  if port =? 0x1F6 then reg (Task (tf_count t) (tf_lba0 t) (tf_lba1 t) (tf_lba2 t) v) else
  if (port =? 0x1F7) && (v =? 0x20)
  then Sim t (concat (s_media p <$> seqZ (decode t) (tf_count t))) (s_media p) true else p.

#[local] Instance sim_bus : Bus sim := {
  in8 port p :=
    if port =? 0x1F7 then
      if s_busy p then (0x80, Sim (s_task p) (s_pending p) (s_media p) false)
      else ((match s_pending p with [] => 0x40 | _ => 0x48 end), p)
    else (0xFF, p);
  out8 := sim_out8;
  in16 port p :=
    match s_pending p with
    | w :: ws => if port =? 0x1F0 then (w, Sim (s_task p) ws (s_media p) (s_busy p)) else (0xFFFF, p)
    | [] => (0xFFFF, p)
    end;
  out16 port v p := p
}.

#[local] Instance sim_pio : PioDrive sim.
Proof.
  refine {| view := fun p => View (s_task p) (s_pending p) (s_media p);
            busy := fun p => if s_busy p then 1%nat else 0%nat; addressable := fun _ => True; sector_of := decode |}.
  - intros p. destruct (s_busy p); lia.
  - intros [t pd m [|]] st p'; cbn; intros [= <- <-]; cbn.
    + repeat split; try (vm_compute; congruence). lia.
    + destruct pd; repeat split; try (vm_compute; congruence); done.
  - done.
  - done.
  - done.
  - done.
  - done.
  - intros p Hp _. done.
  - intros [t pd m b] w ws; cbn; intros ->. eexists. split; [reflexivity|done].
Defined.

End Sim.

Definition ex_media (a : Z) : list Z := (fun k => (256 * a + k) mod 65536) <$> seqZ 0 256.
Definition ex_sim : sim := Sim (Task 0 0 0 0 0) [] ex_media true.
Definition ex_slot : ata_disk_t := AtaDisk 1 80 2 18 2880 (replicate 41 32) 1.
Definition ex_disks : disks := Disks [ex_slot; ex_slot; ex_slot; ex_slot] 4.

Lemma ex_ready dec : @drive_ready sim (sim_bus dec) (sim_pio dec) ex_disks ex_sim.
Proof.
  constructor; try done; [exists ex_slot; by split|].
  intros a. split; [reflexivity|]. apply Forall_fmap, Forall_true. intros k. apply u16_range.
Qed.

(** ** Properties *)

(** Whatever answers on the ports, start-up probes the four
    drives without a fault, and afterwards the drive count is the number of
    drives marked present. *)
Lemma disk_init_counts {P} `{Bus P} s (p : P) :
  length (g_disks s) = 4%nat -> Forall (fun k => length (model k) = 41%nat) (g_disks s) ->
  exists s' p', disk_init s p = Ok (s', p') /\ length (g_disks s') = 4%nat /\
    disk_get_drive_count s' = countP is_present (g_disks s').
Proof.
  intros Hl Hm. destruct (init_spec s p Hl Hm) as (s' & p' & Hi & [Hl' _ _ Hc _]).
  by exists s', p'.
Qed.

Lemma disk_init_counts_witness :
  exists s' p', @disk_init sim (sim_bus lba_sector) ex_disks ex_sim = Ok (s', p') /\
    length (g_disks s') = 4%nat /\ disk_get_drive_count s' = countP is_present (g_disks s').
Proof.
  apply (@disk_init_counts sim (sim_bus lba_sector) ex_disks ex_sim).
  - reflexivity.
  - repeat constructor.
Defined.

(** Over any bus, and whatever the drive does, a
    transfer of [count] sectors on a buffer that holds them ends, with -1 or
    [count]; a read changes no more of the buffer than those sectors. *)
Lemma disk_transfers_bounded {P} `{Bus P} drive lba count buf s (p : P) :
  disks_wf s -> is_u8 drive -> is_u8 count -> count * SECTOR_SIZE <= zlen buf ->
  (exists r ws p', disk_read_sectors drive lba count buf s p = Ok (r, splice buf 0 (word_bytes ws), p') /\
     (r = -1 \/ r = count) /\ 2 * zlen ws <= count * SECTOR_SIZE) /\
  (exists r p', disk_write_sectors drive lba count buf s p = Ok (r, p') /\ (r = -1 \/ r = count)).
Proof.
  intros Hw Hd Hc Hb. unfold is_u8 in *. split.
  - apply read_sectors_safe; try done; lia.
  - apply write_sectors_total; try done; lia.
Qed.

Lemma disk_transfers_bounded_witness :
  (exists r ws p', @disk_read_sectors sim (sim_bus lba_sector) 1 7 1 (replicate 512 0) ex_disks ex_sim
       = Ok (r, splice (replicate 512 0) 0 (word_bytes ws), p') /\
     (r = -1 \/ r = 1) /\ 2 * zlen ws <= 1 * SECTOR_SIZE) /\
  (exists r p', @disk_write_sectors sim (sim_bus lba_sector) 1 7 1 (replicate 512 0) ex_disks ex_sim
       = Ok (r, p') /\ (r = -1 \/ r = 1)).
Proof.
  apply (@disk_transfers_bounded sim (sim_bus lba_sector) 1 7 1 (replicate 512 0) ex_disks ex_sim).
  - reflexivity.
  - vm_compute; split; congruence.
  - vm_compute; split; congruence.
  - vm_compute. discriminate.
Defined.

(** C16.  From a present, idle drive that follows the PIO
    protocol and has sectors under the address the driver writes, a read fills the buffer with those
    sectors, in order and with the low byte of each word
    first, and leaves the drive idle. *)
Theorem disk_read_delivers {P} `{PioDrive P} s (p : P) lba count buf : addressable (task_for lba count) ->
  drive_ready s p -> 0 < count < 256 -> count * SECTOR_SIZE <= zlen buf ->
  let a := sector_of (task_for lba count) in
  exists p', disk_read_sectors 0 lba count buf s p =
      Ok (count, splice buf 0 (word_bytes (concat (v_media (view p) <$> seqZ a count))), p') /\
    view p' = View (task_for lba count) [] (v_media (view p)).
Proof. apply read_delivers. Qed.

Lemma disk_read_delivers_witness :
  exists p', @disk_read_sectors sim (sim_bus lba_sector) 0 19 2 (replicate 1030 0) ex_disks ex_sim =
      Ok (2, splice (replicate 1030 0) 0 (word_bytes (concat (ex_media <$> seqZ 19 2))), p') /\
    @view sim (sim_bus lba_sector) (sim_pio lba_sector) p' = View (task_for 19 2) [] ex_media.
Proof.
  apply (@disk_read_delivers sim (sim_bus lba_sector) (sim_pio lba_sector) ex_disks ex_sim 19 2
           (replicate 1030 0) I (ex_ready lba_sector)).
  - lia.
  - vm_compute. discriminate.
Defined.

(** The driver writes the sector number into the address
    registers but leaves the LBA bit of the device register clear.  A drive that
    follows the standard then takes them for cylinder, head and sector: on the
    first track it delivers the sector before the one asked for. *)
Lemma chs_drive_misreads {P} `{StandardDrive P} s (p : P) lba buf :
  drive_ready s p -> 1 <= lba <= spt -> zlen buf = SECTOR_SIZE ->
  exists p', disk_read_sector 0 lba buf (s, p) =
    Ok (1, word_bytes (v_media (view p) (lba - 1)), (s, p')).
Proof.
  intros Hr Hl Hb. set (img := fun a => word_bytes (v_media (view p) (a - 1))).
  destruct (medium_read (s, p) img lba buf) as ([s' p'] & E & _); [by split|cbn; lia|done|].
  pose proof E as E'. unfold disk_read_sector. rewrite E. cbn in E'. apply res_bind_Ok in E' as ([[r b] q] & _ & E').
  injection E' as _ _ <- _. by exists p'.
Qed.

(** A master of 63 sectors per track; the slave's sectors are numbered behind the master's. *)
Definition std_sector (t : task) : Z :=
  (if Z.testbit (tf_dev t) 4 then 2 ^ 28 else 0) + ata_sector 16 63 t.

Lemma sim_standard : @StandardDrive sim (sim_bus std_sector) (sim_pio std_sector).
Proof.
  refine (@Build_StandardDrive sim (sim_bus std_sector) (sim_pio std_sector) 16 63 _ _); [lia|].
  intros t _ Hm _ _ _ _ _ _. split; [exact I|]. cbn. unfold std_sector. by rewrite Hm.
Defined.

Lemma chs_drive_misreads_witness :
  exists p', @disk_read_sector _ (@disk_blocks sim (sim_bus std_sector)) 0 19 (replicate 512 0) (ex_disks, ex_sim) =
    Ok (1, word_bytes (ex_media 18), (ex_disks, p')).
Proof.
  apply (@chs_drive_misreads sim (sim_bus std_sector) (sim_pio std_sector) sim_standard
           ex_disks ex_sim 19 (replicate 512 0)).
  - apply ex_ready.
  - vm_compute. split; congruence.
  - reflexivity.
Defined.
