(* ===== verification/Vga.v ===== *)
(** * The text console *)
(** [src/kernel/vga.c]: the 80 by 25 cells of video memory, the cursor with its
    line wrapping and scrolling, and the hardware cursor behind the ports. *)

From S2P Require Import Prelude Memory CString Ports.

Definition VGA_WIDTH : Z := 80.
Definition VGA_HEIGHT : Z := 25.

Record vga := Vga {
  vga_buffer : list Z;        (* 2000 cells of 16 bits *)
  cursor_x : Z;
  cursor_y : Z;
  color : Z
}.

Definition set_cursor (x y : Z) (s : vga) : vga :=
  {| vga_buffer := vga_buffer s; cursor_x := x; cursor_y := y; color := color s |}.
Definition set_buffer (b : list Z) (s : vga) : vga :=
  {| vga_buffer := b; cursor_x := cursor_x s; cursor_y := cursor_y s; color := color s |}.

Definition vga_entry (uc attr : Z) : Z := u16 (Z.lor uc (Z.shiftl attr 8)).

Definition put_cell (i v : Z) (s : vga) : res vga :=
  b ← wr (vga_buffer s) i v; Ok (set_buffer b s).

(** [for (y ..) for (x ..) vga_buffer[y * 80 + x] = vga_buffer[(y + 1) * 80 + x]]:
    the two indices make one that runs from [k] on. *)
Fixpoint copy_up (n : nat) (b : list Z) (k : Z) : res (list Z) :=
  match n with
  | O => Ok b
  | S n => v ← rd b (k + VGA_WIDTH); b ← wr b k v; copy_up n b (k + 1)
  end.

Fixpoint fill_cells (n : nat) (b : list Z) (k v : Z) : res (list Z) :=
  match n with
  | O => Ok b
  | S n => b ← wr b k v; fill_cells n b (k + 1) v
  end.

Definition vga_scroll_down (s : vga) : res vga :=
  b ← copy_up (Z.to_nat ((VGA_HEIGHT - 1) * VGA_WIDTH)) (vga_buffer s) 0;
  b ← fill_cells (Z.to_nat VGA_WIDTH) b ((VGA_HEIGHT - 1) * VGA_WIDTH) (vga_entry 32 (color s));
  Ok (set_cursor (cursor_x s) (VGA_HEIGHT - 1) (set_buffer b s)).

Definition vga_set_color (foreground background : Z) (s : vga) : vga :=
  {| vga_buffer := vga_buffer s; cursor_x := cursor_x s; cursor_y := cursor_y s;
     color := u8 (Z.lor (Z.shiftl background 4) foreground) |}.

Definition vga_get_cursor_x (s : vga) : Z := cursor_x s.
Definition vga_get_cursor_y (s : vga) : Z := cursor_y s.

(** The part of [vga_write_char] before the wrapping: [c] is the byte of the
    [char]. *)
Definition put_char (c : Z) (s : vga) : res vga :=
  if c =? 10 then Ok (set_cursor 0 (cursor_y s + 1) s)
  else if c =? 9 then Ok (set_cursor (Z.land (cursor_x s + 8) (Z.lnot 7)) (cursor_y s) s)
  else if c =? 8 then
    let s := if 0 <? cursor_x s then set_cursor (cursor_x s - 1) (cursor_y s) s else s in
    put_cell (cursor_y s * VGA_WIDTH + cursor_x s) (vga_entry 32 (color s)) s
  else
    s ← put_cell (cursor_y s * VGA_WIDTH + cursor_x s) (vga_entry c (color s)) s;
    Ok (set_cursor (cursor_x s + 1) (cursor_y s) s).

Definition wrap_line (s : vga) : vga :=
  if VGA_WIDTH <=? cursor_x s then set_cursor 0 (cursor_y s + 1) s else s.

Section Console.
Context `{Bus P}.

Definition vga_update_cursor (s : vga) (p : P) : P :=
  let pos := u16 (cursor_y s * VGA_WIDTH + cursor_x s) in
  let p := outb 0x3D4 0x0F p in
  let p := outb 0x3D5 (Z.land pos 0xFF) p in
  let p := outb 0x3D4 0x0E p in
  outb 0x3D5 (Z.land (Z.shiftr pos 8) 0xFF) p.

Definition vga_init (s : vga) (p : P) : vga * P :=
  let s := {| vga_buffer := vga_buffer s; cursor_x := 0; cursor_y := 0; color := 0x0F |} in
  (s, vga_update_cursor s p).

Definition vga_write_char (c : Z) (s : vga) (p : P) : res (vga * P) :=
  s ← put_char c s;
  let s := wrap_line s in
  s ← (if VGA_HEIGHT <=? cursor_y s then vga_scroll_down s else Ok s);
  Ok (s, vga_update_cursor s p).

Definition vga_clear_screen (s : vga) (p : P) : res (vga * P) :=
  b ← fill_cells (Z.to_nat (VGA_HEIGHT * VGA_WIDTH)) (vga_buffer s) 0 (vga_entry 32 (color s));
  let s := set_cursor 0 0 (set_buffer b s) in
  Ok (s, vga_update_cursor s p).

(** Up to the terminator; a string without one runs off its array. *)
Fixpoint vga_write_string (str : list Z) (s : vga) (p : P) : res (vga * P) :=
  match str with
  | [] => Err OutOfBounds
  | c :: str =>
      if c =? 0 then Ok (s, p) else
      '(s, p) ← vga_write_char c s p;
      vga_write_string str s p
  end.

Definition vga_set_position (row col : Z) (s : vga) (p : P) : vga * P :=
  if (0 <=? row) && (row <? VGA_HEIGHT) && (0 <=? col) && (col <? VGA_WIDTH) then
    let s := set_cursor col row s in (s, vga_update_cursor s p)
  else (s, p).
End Console.

(** ** The loops over video memory *)

Definition CELLS : Z := VGA_WIDTH * VGA_HEIGHT.

Lemma fill_cells_spec n : forall b k v, 0 <= k -> k + Z.of_nat n <= zlen b ->
  fill_cells n b k v = Ok (splice b k (replicate n v)).
Proof.
  induction n as [|n IH]; intros b k v Hk Hn; cbn [fill_cells].
  - change (replicate 0 v) with (@nil Z). by rewrite splice_nil.
  - rewrite wr_splice1, bind_ret by lia.
    assert (Hl : zlen (splice b k [v]) = zlen b) by (apply zlen_splice; [done|change (zlen [v]) with 1; lia]).
    rewrite IH by lia. f_equal. change (k + 1) with (k + zlen [v]).
    rewrite splice_splice; [done|done|]. unfold zlen. rewrite length_replicate. cbn [length]. unfold zlen in *. lia.
Qed.

(** The cells from [k] on move up by one row of [w]. *)
Lemma copy_up_spec n : forall b k, 0 <= k -> k + Z.of_nat n + VGA_WIDTH <= zlen b ->
  copy_up n b k = Ok (splice b k (slice b (k + VGA_WIDTH) (Z.of_nat n))).
Proof.
  unfold VGA_WIDTH. induction n as [|n IH]; intros b k Hk Hn; cbn [copy_up].
  - unfold slice. change (Z.to_nat (Z.of_nat 0)) with 0%nat. rewrite take_0. by rewrite splice_nil.
  - unfold VGA_WIDTH. destruct (rd_total b (k + 80)) as [v Hv]; [lia|].
    rewrite Hv, bind_ret, wr_splice1, bind_ret by lia.
    assert (Hl : zlen (splice b k [v]) = zlen b) by (apply zlen_splice; [done|change (zlen [v]) with 1; lia]).
    rewrite IH by lia. f_equal. unfold VGA_WIDTH.
    assert (Hs : slice (splice b k [v]) (k + 1 + 80) (Z.of_nat n) = slice b (k + 80 + 1) (Z.of_nat n)).
    { rewrite slice_splice_after by (change (zlen [v]) with 1; lia). f_equal. lia. }
    rewrite Hs. change (k + 1) with (k + zlen [v]). rewrite splice_splice; [|done|].
    + f_equal. rewrite <- (slice_one b (k + 80) v) by done.
      rewrite <- slice_add by lia. f_equal. lia.
    + rewrite zlen_slice by lia. change (zlen [v]) with 1. lia.
Qed.

Lemma scroll_spec s : zlen (vga_buffer s) = CELLS ->
  vga_scroll_down s = Ok (set_cursor (cursor_x s) 24
    (set_buffer (drop 80 (vga_buffer s) ++ replicate 80 (vga_entry 32 (color s))) s)).
Proof.
  intros Hl. unfold CELLS, VGA_WIDTH, VGA_HEIGHT in Hl. unfold vga_scroll_down.
  rewrite copy_up_spec by (unfold VGA_WIDTH, VGA_HEIGHT; lia). rewrite bind_ret.
  change (Z.of_nat (Z.to_nat ((VGA_HEIGHT - 1) * VGA_WIDTH))) with 1920.
  change (0 + VGA_WIDTH) with 80.
  assert (Hs : zlen (slice (vga_buffer s) 80 1920) = 1920) by (apply zlen_slice; lia).
  assert (Hsp : zlen (splice (vga_buffer s) 0 (slice (vga_buffer s) 80 1920)) = 2000)
    by (rewrite zlen_splice; lia).
  rewrite fill_cells_spec by (unfold VGA_WIDTH, VGA_HEIGHT; lia). rewrite bind_ret.
  change ((VGA_HEIGHT - 1) * VGA_WIDTH) with (0 + 1920). rewrite <- Hs at 2.
  change (Z.to_nat VGA_WIDTH) with 80%nat.
  rewrite splice_splice by (try done; rewrite Hs; change (zlen (replicate 80 (vga_entry 32 (color s)))) with 80; lia).
  unfold splice. change (Z.to_nat 0) with 0%nat. rewrite take_0. cbn [app].
  rewrite (drop_ge (vga_buffer s) (Z.to_nat _)); [rewrite app_nil_r|].
  - do 4 f_equal. unfold slice. change (Z.to_nat 80) with 80%nat. apply take_ge.
    rewrite length_drop. unfold zlen in *. lia.
  - rewrite zlen_app, Hs. change (zlen (replicate 80 (vga_entry 32 (color s)))) with 80. unfold zlen in *. lia.
Qed.

(** ** The console as a terminal with one linear position *)

Module Term.
(** The cells in reading order and the number of the next one: lines, wrapping
    and tabs are arithmetic on that number. *)
Record t := T { cells : list Z; pos : Z; attr : Z }.

Definition blank (a : Z) : Z := vga_entry 32 a.

Definition scroll (s : t) : t :=
  if CELLS <=? pos s
  then T (drop 80 (cells s) ++ replicate 80 (blank (attr s))) (CELLS - 80) (attr s) else s.

Definition put (c : Z) (s : t) : t :=
  scroll (
    if c =? 10 then T (cells s) ((pos s / 80 + 1) * 80) (attr s)
    else if c =? 9 then T (cells s) ((pos s / 8 + 1) * 8) (attr s)
    else if c =? 8 then
      let q := if pos s mod 80 =? 0 then pos s else pos s - 1 in
      T (splice (cells s) q [blank (attr s)]) q (attr s)
    else T (splice (cells s) (pos s) [vga_entry c (attr s)]) (pos s + 1) (attr s)).

Definition write (str : list Z) (s : t) : t := foldl (fun s c => put c s) s str.
End Term.

Record vga_wf (s : vga) : Prop := {
  vw_cells : zlen (vga_buffer s) = CELLS;
  vw_x : 0 <= cursor_x s < VGA_WIDTH;
  vw_y : 0 <= cursor_y s < VGA_HEIGHT
}.

Definition term_of (s : vga) : Term.t :=
  Term.T (vga_buffer s) (cursor_y s * VGA_WIDTH + cursor_x s) (color s).

Lemma put_cell_spec i v s : 0 <= i < zlen (vga_buffer s) ->
  put_cell i v s = Ok (set_buffer (splice (vga_buffer s) i [v]) s).
Proof. intros Hi. unfold put_cell. by rewrite wr_splice1, bind_ret by done. Qed.

Lemma tab_stop x : Z.land (x + 8) (Z.lnot 7) = (x / 8 + 1) * 8.
Proof.
  change 7 with (Z.ones 3). rewrite <- Z.ldiff_land, Z.ldiff_ones_r by done.
  rewrite Z.shiftr_div_pow2, Z.shiftl_mul_pow2 by done. change (2 ^ 3) with 8.
  replace (x + 8) with (x + 1 * 8) by lia. by rewrite Z.div_add by done.
Qed.

(** The position [put_char] leaves may be one line or one column too far. *)
Record vga_mid (s : vga) : Prop := {
  vm_cells : zlen (vga_buffer s) = CELLS;
  vm_x : 0 <= cursor_x s <= VGA_WIDTH;
  vm_y : 0 <= cursor_y s <= VGA_HEIGHT;
  vm_one : cursor_x s = 0 \/ cursor_y s < VGA_HEIGHT
}.

Lemma scrolled_length (b : list Z) v : zlen b = 2000 -> zlen (drop 80 b ++ replicate 80 v) = 2000.
Proof. unfold zlen. rewrite length_app, length_drop, length_replicate. lia. Qed.

Ltac vsimpl :=
  cbn [cursor_x cursor_y color vga_buffer set_cursor set_buffer Term.pos Term.cells Term.attr term_of].

Lemma wrap_scroll s : vga_mid s ->
  exists s', (if VGA_HEIGHT <=? cursor_y (wrap_line s) then vga_scroll_down (wrap_line s)
              else Ok (wrap_line s)) = Ok s' /\
    vga_wf s' /\ color s' = color s /\ term_of s' = Term.scroll (term_of s).
Proof.
  intros [Hc Hx Hy H1]. unfold wrap_line, Term.scroll, CELLS, VGA_WIDTH, VGA_HEIGHT in *.
  cbn [Term.pos Term.cells Term.attr term_of]. unfold VGA_WIDTH.
  destruct (Z.leb_spec 80 (cursor_x s)) as [Hw|Hw]; cbn [cursor_y set_cursor].
  - destruct (Z.leb_spec 25 (cursor_y s + 1)) as [Hs|Hs].
    + rewrite scroll_spec by done. eexists. split; [reflexivity|]. vsimpl.
      rewrite (proj2 (Z.leb_le _ _)) by lia. split_and!; [|done|unfold term_of; vsimpl; f_equal; unfold VGA_WIDTH; lia].
      constructor; vsimpl; unfold CELLS, VGA_WIDTH, VGA_HEIGHT; try lia.
      by apply scrolled_length.
    + eexists. split; [reflexivity|]. rewrite (proj2 (Z.leb_gt _ _)) by lia.
      split_and!; [|done|unfold term_of; vsimpl; f_equal; unfold VGA_WIDTH; lia].
      constructor; vsimpl; unfold CELLS, VGA_WIDTH, VGA_HEIGHT; try lia.
  - destruct (Z.leb_spec 25 (cursor_y s)) as [Hs|Hs].
    + rewrite scroll_spec by done. eexists. split; [reflexivity|]. vsimpl.
      rewrite (proj2 (Z.leb_le _ _)) by lia. split_and!; [|done|unfold term_of; vsimpl; f_equal; unfold VGA_WIDTH; lia].
      constructor; vsimpl; unfold CELLS, VGA_WIDTH, VGA_HEIGHT; try lia.
      by apply scrolled_length.
    + eexists. split; [reflexivity|]. rewrite (proj2 (Z.leb_gt _ _)) by lia.
      split_and!; [|done|done].
      constructor; vsimpl; unfold CELLS, VGA_WIDTH, VGA_HEIGHT; try lia.
Qed.

Lemma put_char_spec c s : vga_wf s ->
  exists s1, put_char c s = Ok s1 /\ vga_mid s1 /\ color s1 = color s /\
    Term.scroll (term_of s1) = Term.put c (term_of s).
Proof.
  intros [Hc Hx Hy]. unfold put_char, Term.put. cbn [Term.pos Term.cells Term.attr term_of].
  unfold CELLS, VGA_WIDTH, VGA_HEIGHT in *.
  assert (Hin : 0 <= cursor_y s * 80 + cursor_x s < zlen (vga_buffer s)) by lia.
  destruct (c =? 10).
  { eexists. split; [reflexivity|]. split_and!; [|done|].
    - constructor; cbn; unfold CELLS, VGA_WIDTH, VGA_HEIGHT; lia.
    - f_equal. unfold term_of. vsimpl. f_equal. unfold VGA_WIDTH. Z.to_euclidean_division_equations. lia. }
  destruct (c =? 9).
  { rewrite tab_stop. eexists. split; [reflexivity|]. split_and!; [|done|].
    - constructor; cbn; unfold CELLS, VGA_WIDTH, VGA_HEIGHT; try lia;
        Z.to_euclidean_division_equations; lia.
    - f_equal. unfold term_of. vsimpl. f_equal. unfold VGA_WIDTH. Z.to_euclidean_division_equations. lia. }
  destruct (c =? 8).
  { set (s0 := if 0 <? cursor_x s then _ else s).
    set (q := if _ =? 0 then _ else _).
    assert (Hs0 : cursor_y s0 * 80 + cursor_x s0 = q /\ vga_buffer s0 = vga_buffer s /\ color s0 = color s /\
      0 <= cursor_x s0 < 80 /\ cursor_y s0 = cursor_y s).
    { subst s0 q. replace ((cursor_y s * 80 + cursor_x s) mod 80) with (cursor_x s)
        by (Z.to_euclidean_division_equations; lia).
      destruct (Z.ltb_spec 0 (cursor_x s)), (Z.eqb_spec (cursor_x s) 0); vsimpl; split_and!; try done; lia. }
    destruct Hs0 as (Hq & Hb & Hcol & Hx0 & Hy0).
    rewrite put_cell_spec by (rewrite Hb; lia).
    assert (Hz : zlen (splice (vga_buffer s) q [vga_entry 32 (color s)]) = 2000)
      by (rewrite zlen_splice; [done|lia|change (zlen [_ : Z]) with 1; lia]).
    eexists. split; [reflexivity|]. split_and!; [|done|].
    - constructor; cbn; unfold CELLS, VGA_WIDTH, VGA_HEIGHT; try lia. rewrite Hb, Hq, Hcol. lia.
    - unfold term_of. vsimpl. unfold VGA_WIDTH. by rewrite Hb, Hq, Hcol. }
  rewrite put_cell_spec, bind_ret by done. eexists. split; [reflexivity|]. split_and!; [|done|].
  - constructor; cbn; unfold CELLS, VGA_WIDTH, VGA_HEIGHT; try lia.
    rewrite zlen_splice; [done|lia|change (zlen [_ : Z]) with 1; lia].
  - f_equal. unfold term_of. vsimpl. f_equal. unfold VGA_WIDTH. lia.
Qed.

Section Refinement.
Context `{Bus P}.

Lemma write_char_spec c s (p : P) : vga_wf s ->
  exists s', vga_write_char c s p = Ok (s', vga_update_cursor s' p) /\ vga_wf s' /\
    color s' = color s /\ term_of s' = Term.put c (term_of s).
Proof.
  intros Hwf. unfold vga_write_char. destruct (put_char_spec c s Hwf) as (s1 & -> & Hm & Hc & Ht).
  rewrite bind_ret. cbv zeta. destruct (wrap_scroll s1 Hm) as (s' & -> & Hw & Hc' & Ht').
  rewrite bind_ret. exists s'. split; [done|]. split; [done|]. split; congruence.
Qed.

Lemma write_string_spec str : forall s (p : P) r, vga_wf s -> Forall (fun c => c <> 0) str ->
  exists s' p', vga_write_string (cstr str r) s p = Ok (s', p') /\ vga_wf s' /\
    color s' = color s /\ term_of s' = Term.write str (term_of s) /\
    (str <> [] -> exists q, p' = vga_update_cursor s' q).
Proof.
  induction str as [|c str IH]; intros s p r Hwf Hn.
  - exists s, p. cbn. done.
  - apply Forall_cons in Hn as [Hc Hn]. cbn [cstr app vga_write_string].
    rewrite (proj2 (Z.eqb_neq _ _) Hc).
    destruct (write_char_spec c s p Hwf) as (s1 & -> & Hw1 & Hc1 & Ht1). rewrite bind_ret. cbv beta iota.
    destruct (IH s1 (vga_update_cursor s1 p) r Hw1 Hn) as (s' & p' & E & Hw & Hc' & Ht & Hq). unfold cstr in E. rewrite E.
    exists s', p'. split_and!; try done; [congruence| |].
    + rewrite Ht, Ht1. done.
    + intros _. destruct str; [|by apply Hq].
      cbn in E. injection E as <- <-. by exists p.
Qed.
End Refinement.

Lemma clear_screen_wf `{Bus P} s (p : P) : zlen (vga_buffer s) = CELLS ->
  exists v q, vga_clear_screen s p = Ok (v, q) /\ vga_wf v /\ color v = color s.
Proof.
  intros Hb. unfold vga_clear_screen. rewrite fill_cells_spec by (try done; rewrite Hb; vm_compute; congruence).
  rewrite bind_ret. eexists _, _. split; [done|]. split; [|done].
  constructor; cbn; unfold VGA_WIDTH, VGA_HEIGHT; try lia.
  rewrite zlen_splice; [done|done|]. rewrite Hb. vm_compute. congruence.
Qed.

(** ** Printable text *)

Definition printable (c : Z) : Prop := 32 <= c < 256.

Lemma term_prints str : forall s, Forall printable str -> 0 <= Term.pos s ->
  Term.pos s + zlen str < CELLS -> zlen (Term.cells s) = CELLS ->
  Term.write str s =
    Term.T (splice (Term.cells s) (Term.pos s) ((fun c => vga_entry c (Term.attr s)) <$> str))
           (Term.pos s + zlen str) (Term.attr s).
Proof.
  induction str as [|c str IH]; intros [b q a] Hs Hq Hfit Hl; vsimpl.
  - cbn. by rewrite splice_nil, Z.add_0_r.
  - cbn [Term.pos Term.cells] in *. apply Forall_cons in Hs as [Hc Hs]. unfold printable in Hc.
    assert (Hlen : zlen (c :: str) = 1 + zlen str) by (unfold zlen; cbn [length]; lia).
    pose proof (zlen_nonneg str).
    cbn [Term.write foldl]. unfold Term.put at 2. vsimpl.
    rewrite !(proj2 (Z.eqb_neq c _)) by lia. unfold Term.scroll. vsimpl.
    rewrite (proj2 (Z.leb_gt _ _)) by lia.
    assert (Hsp : zlen (splice b q [vga_entry c a]) = CELLS)
      by (rewrite zlen_splice; [done|done|change (zlen [vga_entry c a]) with 1; lia]).
    pose proof (IH (Term.T (splice b q [vga_entry c a]) (q + 1) a) Hs ltac:(vsimpl; lia)
      ltac:(vsimpl; lia) Hsp) as IH'.
    unfold Term.write in IH'. rewrite IH'. vsimpl. f_equal; [|lia].
    change (q + 1) with (q + zlen [vga_entry c a]). rewrite splice_splice; [done|done|].
    unfold zlen at 2. rewrite length_fmap. fold (zlen str).
    change (zlen [vga_entry c a]) with 1. lia.
Qed.

Definition ex_vga : vga := Vga (replicate (Z.to_nat 2000) 0) 78 24 0x0F.

Lemma ex_vga_wf : vga_wf ex_vga.
Proof. constructor; vm_compute; repeat split; congruence. Qed.

(** ** Properties *)

(** C23.  Writing any C string, controls included, never
    leaves video memory or moves the cursor off the screen, and is what a
    terminal with one linear position does: a line feed goes to the next multiple
    of 80, a tab to the next multiple of 8, a backspace blanks the cell before on
    the same line, and past the last cell the screen moves up one line.  The
    hardware cursor is set from the final position. *)
Theorem console_refines_terminal {P} `{Bus P} str r s (p : P) :
  vga_wf s -> Forall (fun c => c <> 0) str ->
  exists s' p', vga_write_string (cstr str r) s p = Ok (s', p') /\ vga_wf s' /\
    color s' = color s /\ term_of s' = Term.write str (term_of s) /\
    (str <> [] -> exists q, p' = vga_update_cursor s' q).
Proof. intros. by apply write_string_spec. Qed.

(** A machine whose ports nothing listens to. *)
Definition ex_bus : Bus unit :=
  {| in8 := fun _ p => (0xFF, p); out8 := fun _ _ p => p;
     in16 := fun _ p => (0xFFFF, p); out16 := fun _ _ p => p |}.

Lemma console_refines_terminal_witness :
  let str := [65; 9; 66; 8; 8; 10; 67] in
  exists s' p', @vga_write_string unit ex_bus (cstr str []) ex_vga tt = Ok (s', p') /\ vga_wf s' /\
    color s' = color ex_vga /\ term_of s' = Term.write str (term_of ex_vga) /\
    (str <> [] -> exists q, p' = @vga_update_cursor unit ex_bus s' q).
Proof.
  apply (@console_refines_terminal unit ex_bus [65; 9; 66; 8; 8; 10; 67] [] ex_vga tt ex_vga_wf).
  repeat constructor; discriminate.
Defined.

(** Text without control characters that ends before the
    last cell goes into consecutive cells from the cursor on, each with the
    current colour, across line ends; no other cell changes, and the cursor ends
    behind it. *)
Lemma console_prints_text {P} `{Bus P} str r s (p : P) :
  vga_wf s -> Forall printable str ->
  cursor_y s * VGA_WIDTH + cursor_x s + zlen str < CELLS ->
  exists s' p', vga_write_string (cstr str r) s p = Ok (s', p') /\ vga_wf s' /\
    vga_buffer s' = splice (vga_buffer s) (cursor_y s * VGA_WIDTH + cursor_x s)
                      ((fun c => vga_entry c (color s)) <$> str) /\
    vga_get_cursor_y s' * VGA_WIDTH + vga_get_cursor_x s' =
      cursor_y s * VGA_WIDTH + cursor_x s + zlen str.
Proof.
  intros Hwf Hp Hfit. destruct (write_string_spec str s p r Hwf) as (s' & p' & Hr & Hw & Hc & Ht & _).
  { eapply Forall_impl; [exact Hp|]. unfold printable. lia. }
  rewrite term_prints in Ht; try done.
  - unfold term_of in Ht. cbn [Term.pos Term.cells Term.attr] in Ht. injection Ht as Hb Hpos. by exists s', p'.
  - unfold term_of. vsimpl. destruct Hwf. unfold VGA_WIDTH in *. lia.
  - apply Hwf.
Qed.

Lemma console_prints_text_witness :
  let s := set_cursor 79 3 ex_vga in
  exists s' p', @vga_write_string unit ex_bus (cstr [72; 105; 33] []) s tt = Ok (s', p') /\ vga_wf s' /\
    vga_buffer s' = splice (vga_buffer s) (cursor_y s * VGA_WIDTH + cursor_x s)
                      ((fun c => vga_entry c (color s)) <$> [72; 105; 33]) /\
    vga_get_cursor_y s' * VGA_WIDTH + vga_get_cursor_x s' =
      cursor_y s * VGA_WIDTH + cursor_x s + zlen [72; 105; 33].
Proof.
  apply (@console_prints_text unit ex_bus [72; 105; 33] [] (set_cursor 79 3 ex_vga) tt).
  - constructor; vm_compute; repeat split; congruence.
  - repeat constructor; vm_compute; congruence.
  - vm_compute. reflexivity.
Defined.
