(* ===== verification/Shell.v ===== *)
(** * The command shell *)
(** [src/shell/shell.c]: the line editor, the splitting of a line into words, the
    command table and the five commands the file defines itself.  The commands of
    other files, and [cmd_search], which is declared but never defined, are only
    entries of the table. *)

From Stdlib Require Import String.
From S2P Require Import Prelude Memory CString Ports Vga.

Definition BUFFER_SIZE : Z := 256.
Definition MAX_ARGS : Z := 16.

Definition strs (s : string) : list Z := chars s ++ [0].

(** [commands[]]: the names and help texts up to the null entry; the handlers are
    the positions in the table. *)
Definition commands : list (list Z * list Z) :=
  (fun nh => (strs nh.1, strs nh.2)) <$>
  [("help", "Display available commands");
   ("echo", "Echo arguments to display");
   ("clear", "Clear the screen");
   ("uptime", "Show system uptime");
   ("exit", "Exit the shell");
   ("ifconfig", "Show network interface configuration");
   ("ping", "Send ICMP echo request (ping)");
   ("netstat", "Show network connections");
   ("arp", "Show ARP cache");
   ("route", "Show routing table");
   ("http", "HTTP server control (start|stop|status)");
   ("dns", "DNS server control (start|stop|status)");
   ("dhcp", "DHCP server control (start|stop|status)");
   ("wget", "HTTP client (fetch and display web pages)");
   ("disk", "Disk operations (info|read|write)");
   ("ps", "List running processes");
   ("kill", "Terminate a process (kill <pid>)");
   ("ls", "List directory contents");
   ("cat", "Display file contents (cat <file>)");
   ("file", "Show file information (file <file>)");
   ("pipe", "Test pipe/IPC functionality");
   ("ui", "Enhanced UI control (on|off|status)")]%string.

(** ** Splitting a line *)

(** The loop of [parse_command]: [token] and [start] are offsets into the static
    buffer, [argv] holds offsets too. *)
Fixpoint parse_loop (fuel : nat) (buffer : list Z) (token start : Z) (argv : list Z)
    (argc max_args : Z) : res (list Z * Z * Z * list Z * Z) :=
  match fuel with
  | O => Err OutOfFuel
  | S f =>
      c ← rd buffer token;
      if negb (c =? 0) && (argc <? max_args) then
        if isspace c then
          buffer ← wr buffer token 0;
          s ← (if start <? token then rd buffer start else Ok 0);
          if (start <? token) && negb (s =? 0) then
            argv ← wr argv argc start;
            parse_loop f buffer (token + 1) (token + 1) argv (argc + 1) max_args
          else parse_loop f buffer (token + 1) (token + 1) argv argc max_args
        else parse_loop f buffer (token + 1) start argv argc max_args
      else Ok (buffer, token, start, argv, argc)
  end.

(** What follows the loop: the last word. *)
Definition parse_end (x : list Z * Z * Z * list Z * Z) : res (Z * list Z * list Z) :=
  let '(buffer, token, start, argv, argc) := x in
  s ← (if start <? token then rd buffer start else Ok 0);
  if (start <? token) && negb (s =? 0) then
    argv ← wr argv argc start;
    Ok (argc + 1, buffer, argv)
  else Ok (argc, buffer, argv).

(** The result is [argc] with the buffer and [argv] as they are left. *)
Definition parse_command (line buffer argv : list Z) (max_args : Z)
    : res (Z * list Z * list Z) :=
  '(_, buffer) ← strcpy buffer line;
  parse_loop (Z.to_nat (BUFFER_SIZE + 1)) buffer 0 0 argv 0 max_args ≫= parse_end.

(** ** The commands of this file *)

Section Commands.
Context `{Bus P}.

Definition print (str : list Z) (d : vga * P) : res (vga * P) := vga_write_string str d.1 d.2.

Fixpoint help_loop (cs : list (list Z * list Z)) (d : vga * P) : res (vga * P) :=
  match cs with
  | [] => Ok d
  | (name, help) :: cs =>
      d ← print name d; d ← print (strs " - ") d; d ← print help d;
      d ← print [10; 0] d;
      help_loop cs d
  end.

Definition cmd_help (d : vga * P) : res (Z * (vga * P)) :=
  d ← print (chars "VlsOs Command Reference" ++ [10; 0]) d;
  d ← print (chars "=======================" ++ [10; 10; 0]) d;
  d ← help_loop commands d;
  Ok (0, d).

(** [argv] as the strings its pointers lead to. *)
Fixpoint echo_loop (fuel : nat) (i argc : Z) (argv : list (list Z)) (d : vga * P) : res (vga * P) :=
  if i <? argc then
    match fuel with
    | O => Err OutOfFuel
    | S f =>
        a ← rd argv i;
        d ← print a d;
        d ← (if i <? argc - 1 then print [32; 0] d else Ok d);
        echo_loop f (i + 1) argc argv d
    end
  else Ok d.

Definition cmd_echo (argc : Z) (argv : list (list Z)) (d : vga * P) : res (Z * (vga * P)) :=
  d ← echo_loop (Z.to_nat argc) 1 argc argv d;
  d ← print [10; 0] d;
  Ok (0, d).

Definition cmd_clear (d : vga * P) : res (Z * (vga * P)) :=
  '(s, p) ← vga_clear_screen d.1 d.2;
  Ok (0, (vga_set_color 7 0 s, p)).

Definition cmd_uptime (ticks : Z) (d : vga * P) : res (Z * (vga * P)) :=
  d ← print (strs "Uptime: ") d;
  buffer ← itoa (i32 ticks) (replicate 16 0) 10;
  d ← print buffer d;
  d ← print (chars " ticks" ++ [10; 0]) d;
  Ok (0, d).

Definition cmd_exit : Z := -1.

(** ** Reading and dispatching a line *)

(** [while (pos < BUFFER_SIZE - 1)] over the characters the keyboard delivers;
    when there are no more, the shell waits ([None]). *)
Fixpoint read_line (keys : list Z) (buffer : list Z) (pos : Z) (d : vga * P)
    : res (option (Z * list Z * list Z * (vga * P))) :=
  if BUFFER_SIZE - 1 <=? pos then Ok (Some (pos, buffer, keys, d)) else
  match keys with
  | [] => Ok None
  | c :: keys =>
      if c =? 10 then
        buffer ← wr buffer pos 0;
        d ← vga_write_char 10 d.1 d.2;
        Ok (Some (pos, buffer, keys, d))
      else if c =? 8 then
        if 0 <? pos then
          d ← vga_write_char 8 d.1 d.2;
          read_line keys buffer (pos - 1) d
        else read_line keys buffer pos d
      else if (32 <=? schar c) && (schar c <? 127) then
        buffer ← wr buffer pos c;
        d ← vga_write_char c d.1 d.2;
        read_line keys buffer (pos + 1) d
      else read_line keys buffer pos d
  end.

(** [for (i = 0; commands[i].name; i++)]: the entry whose name is [name]. *)
Fixpoint find_command (cs : list (list Z * list Z)) (name : list Z) (i : Z) : res (option Z) :=
  match cs with
  | [] => Ok None
  | c :: cs =>
      k ← strcmp name c.1;
      if k =? 0 then Ok (Some i) else find_command cs name (i + 1)
  end.

(** What one turn of [shell_main] does with the line it has read. *)
Inductive shell_action :=
| NoCommand
| Unknown (name : list Z)
| Run (command argc : Z) (argv : list (list Z)).

(** The strings [argv] points to in [buffer]. *)
Definition arguments (buffer argv : list Z) (argc : Z) : list (list Z) :=
  (fun a => drop (Z.to_nat a) buffer) <$> take (Z.to_nat argc) argv.

Definition shell_line (pos : Z) (line buffer argv : list Z) : res (shell_action * list Z * list Z) :=
  if pos =? 0 then Ok (NoCommand, buffer, argv) else
  '(argc, buffer, argv) ← parse_command line buffer argv MAX_ARGS;
  if argc =? 0 then Ok (NoCommand, buffer, argv) else
  a0 ← rd argv 0;
  let name := drop (Z.to_nat a0) buffer in
  found ← find_command commands name 0;
  Ok (match found with
      | Some i => Run i argc (arguments buffer argv argc)
      | None => Unknown name
      end, buffer, argv).
End Commands.

(** ** The words of a line *)

(** The line cut at its white space: the first piece and the others. *)
Fixpoint split_space (l : list Z) : list Z * list (list Z) :=
  match l with
  | [] => ([], [])
  | c :: r =>
      let '(w, ws) := split_space r in
      if isspace c then ([], w :: ws) else (c :: w, ws)
  end.

Definition nonempty (w : list Z) : Prop := w <> [].
#[global] Instance nonempty_dec w : Decision (nonempty w).
Proof. unfold nonempty. apply _. Defined.

Definition words (l : list Z) : list (list Z) :=
  let '(w, ws) := split_space l in filter nonempty (w :: ws).

Definition no_space (l : list Z) : Prop := Forall (fun c => isspace c = false) l.

Lemma split_no_space cur l : no_space cur ->
  split_space (cur ++ l) = (cur ++ (split_space l).1, (split_space l).2).
Proof.
  induction 1 as [|c cur Hc _ IH]; cbn [app split_space]; [by destruct (split_space l)|].
  by rewrite IH, Hc.
Qed.

Lemma words_end cur : no_space cur -> words cur = if decide (cur = []) then [] else [cur].
Proof.
  intros Hc. unfold words. rewrite <- (app_nil_r cur) at 1. rewrite split_no_space by done. cbn [split_space fst snd].
  rewrite app_nil_r, filter_cons. unfold nonempty. by repeat case_decide.
Qed.

Lemma words_space cur c l : no_space cur -> isspace c = true ->
  words (cur ++ c :: l) = (if decide (cur = []) then [] else [cur]) ++ words l.
Proof.
  intros Hc Hs. unfold words. rewrite split_no_space by done. cbn [split_space].
  destruct (split_space l) as [w ws]. rewrite Hs. cbn [fst snd]. rewrite app_nil_r, (filter_cons _ cur).
  unfold nonempty at 1. by repeat case_decide.
Qed.

(** The words stored so far: each ends in a NUL below [limit]. *)
Definition stored (ws : list (list Z)) (buffer argv : list Z) (limit : Z) : Prop :=
  forall k w, ws !! k = Some w -> exists a, argv !! k = Some a /\ 0 <= a /\ a + zlen w < limit /\
    slice buffer a (zlen w + 1) = w ++ [0].

Lemma stored_weaken ws buffer argv l l' : stored ws buffer argv l -> l <= l' -> stored ws buffer argv l'.
Proof. intros Hs Hl k w Hk. destruct (Hs k w Hk) as (a & ? & ? & ? & ?). exists a. split_and!; [done..|lia|done]. Qed.

Lemma stored_write ws buffer argv limit i x : stored ws buffer argv limit -> 0 <= limit <= i ->
  stored ws (<[Z.to_nat i := x]> buffer) argv limit.
Proof.
  intros Hs Hi k w Hk. destruct (Hs k w Hk) as (a & ? & ? & ? & ?). exists a. split_and!; try done.
  rewrite slice_insert_out; [done|done|pose proof (zlen_nonneg w); lia|lia|right; lia].
Qed.

Lemma stored_push ws buffer argv limit limit' w a :
  stored ws buffer argv limit -> limit <= limit' -> (length ws < length argv)%nat ->
  0 <= a -> a + zlen w < limit' -> slice buffer a (zlen w + 1) = w ++ [0] ->
  stored (ws ++ [w]) buffer (<[Z.to_nat (zlen ws) := a]> argv) limit'.
Proof.
  replace (Z.to_nat (zlen ws)) with (length ws) by (unfold zlen; lia). intros Hs Hl Hlen Ha Haw Hsl k v Hk. destruct (decide (k < length ws)%nat) as [Hlt|Hge].
  - rewrite lookup_app_l in Hk by done. destruct (Hs k v Hk) as (b & Hb & ? & ? & ?). exists b.
    rewrite list_lookup_insert_ne by lia. split_and!; [done..|lia|done].
  - rewrite lookup_app_r in Hk by lia. apply list_lookup_singleton_Some in Hk as [Hk <-].
    exists a. replace k with (length ws) by lia. rewrite list_lookup_insert_eq by done. done.
Qed.

Lemma slice_word (pre cur l : list Z) : slice (pre ++ cur ++ 0 :: l) (zlen pre) (zlen cur + 1) = cur ++ [0].
Proof.
  unfold slice, zlen. rewrite Nat2Z.id, drop_app_length. rewrite Z2Nat.inj_add, Nat2Z.id by lia.
  rewrite take_app_add. done.
Qed.

Lemma parse_end_none pre cur l argv argc : cur = [] ->
  parse_end (pre ++ cur ++ l, zlen pre + zlen cur, zlen pre, argv, argc) = Ok (argc, pre ++ cur ++ l, argv).
Proof.
  intros ->. unfold parse_end. change (zlen (@nil Z)) with 0. rewrite (proj2 (Z.ltb_ge _ _)) by lia. done.
Qed.

Lemma word_start (pre cur l : list Z) c : rd (pre ++ (c :: cur) ++ l) (zlen pre) = Ok c.
Proof. apply rd_mid. Qed.

Lemma parse_loop_spec max l : forall fuel pre cur junk argv ws,
  (length l < fuel)%nat -> nul_free l -> nul_free cur -> no_space cur ->
  zlen ws <= max -> max <= zlen argv -> (zlen ws = max -> cur = []) ->
  let buffer := pre ++ cur ++ l ++ 0 :: junk in
  stored ws buffer argv (zlen pre) ->
  let out := ws ++ take (Z.to_nat (max - zlen ws)) (words (cur ++ l)) in
  exists buffer' argv' limit,
    (parse_loop fuel buffer (zlen pre + zlen cur) (zlen pre) argv (zlen ws) max ≫= parse_end)
      = Ok (zlen out, buffer', argv') /\
    stored out buffer' argv' limit /\ length argv' = length argv.
Proof.
  induction l as [|c l IH]; intros [|fuel] pre cur junk argv ws Hf Hl Hcur Hns Hws Hmax Hfull buffer Hst out;
    cbn [length] in Hf; try lia; cbn [parse_loop].
  - assert (Hrd : rd buffer (zlen pre + zlen cur) = Ok 0).
    { subst buffer. rewrite app_assoc, <- zlen_app. apply rd_mid. }
    rewrite Hrd, bind_ret. change (negb (0 =? 0)) with false. cbn [andb]. rewrite bind_ret.
    subst out. rewrite app_nil_r, words_end by done. destruct cur as [|c0 cur].
    + subst buffer. rewrite parse_end_none by done. rewrite decide_True, take_nil, app_nil_r by done.
      by exists (pre ++ [] ++ [] ++ 0 :: junk), argv, (zlen pre).
    + assert (Hlt : zlen ws < max) by (destruct (Z.eq_dec (zlen ws) max) as [He|]; [by discriminate (Hfull He)|lia]).
      rewrite decide_False by done. unfold parse_end.
      assert (Hpos : 0 < zlen (c0 :: cur)) by (unfold zlen; cbn [length]; lia).
      rewrite (proj2 (Z.ltb_lt _ _)) by lia. subst buffer. rewrite word_start, bind_ret.
      apply Forall_cons in Hcur as [[_ Hc0] _]. rewrite (proj2 (Z.eqb_neq _ _) Hc0). cbn [negb andb].
      rewrite wr_in, bind_ret by (pose proof (zlen_nonneg ws); lia).
      replace (take _ [c0 :: cur]) with [c0 :: cur] by (rewrite take_ge; [done|cbn [length]; lia]).
      eexists _, _, (zlen pre + zlen (c0 :: cur) + 1). split_and!.
      * rewrite zlen_app. change (zlen [c0 :: cur]) with 1. reflexivity.
      * eapply stored_push; [exact Hst|lia|unfold zlen in *; lia|apply zlen_nonneg|lia|apply slice_word].
      * by rewrite length_insert.
  - assert (Hrd : rd buffer (zlen pre + zlen cur) = Ok c).
    { subst buffer. rewrite app_assoc, <- zlen_app. apply rd_mid. }
    rewrite Hrd, bind_ret. apply Forall_cons in Hl as [[Huc Hc0] Hl].
    rewrite (proj2 (Z.eqb_neq _ _) Hc0). cbn [negb andb].
    destruct (Z.ltb_spec (zlen ws) max) as [Hlt|Hge].
    2: { rewrite bind_ret. assert (Hm : zlen ws = max) by lia. pose proof (Hfull Hm) as Hnil.
      subst buffer. rewrite parse_end_none by done. exists (pre ++ cur ++ (c :: l) ++ 0 :: junk), argv, (zlen pre).
      subst out. rewrite Hm, Z.sub_diag, take_0, app_nil_r. by rewrite Hm. }
    destruct (isspace c) eqn:Hsp.
    + assert (Hwr : wr buffer (zlen pre + zlen cur) 0 = Ok (pre ++ cur ++ 0 :: l ++ 0 :: junk)).
      { subst buffer. rewrite (app_assoc pre), <- zlen_app. cbn [app]. rewrite wr_mid. by rewrite <- app_assoc. }
      rewrite Hwr, bind_ret. pose proof Hwr as Hins. apply wr_Ok in Hins as [Hin Hins].
      assert (Hst' : stored ws (pre ++ cur ++ 0 :: l ++ 0 :: junk) argv (zlen pre)).
      { rewrite Hins. apply stored_write; [done|]. pose proof (zlen_nonneg cur). pose proof (zlen_nonneg pre). lia. }
      assert (Hnext : zlen pre + zlen cur + 1 = zlen (pre ++ cur ++ [0])).
      { rewrite !zlen_app. change (zlen [0]) with 1. lia. }
      assert (Hbuf : pre ++ cur ++ 0 :: l ++ 0 :: junk = (pre ++ cur ++ [0]) ++ [] ++ l ++ 0 :: junk)
        by (by rewrite <- !app_assoc).
      subst out. rewrite words_space by done. destruct cur as [|c1 cur].
      * change (zlen (@nil Z)) with 0 in *. rewrite Z.add_0_r in *. rewrite (proj2 (Z.ltb_ge (zlen pre) (zlen pre))) by lia.
        rewrite bind_ret. cbn [andb]. rewrite decide_True by done. cbn [app].
        destruct (IH fuel (pre ++ [] ++ [0]) [] junk argv ws) as (b' & a' & lim & He & Hs' & Hla);
          try done; try lia.
        { rewrite <- Hbuf. eapply stored_weaken; [exact Hst'|lia]. }
        rewrite <- Hbuf, <- Hnext in He. change (zlen (@nil Z)) with 0 in He. rewrite Z.add_0_r in He.
        cbn [app] in He. by exists b', a', lim.
      * assert (Hpos : 0 < zlen (c1 :: cur)) by (unfold zlen; cbn [length]; lia).
        rewrite (proj2 (Z.ltb_lt _ _)) by lia. rewrite word_start, bind_ret.
        pose proof Hcur as Hcur'. apply Forall_cons in Hcur' as [[_ Hc1] _].
        rewrite (proj2 (Z.eqb_neq _ _) Hc1). cbn [negb andb]. rewrite decide_False by done.
        pose proof (zlen_nonneg ws). rewrite wr_in, bind_ret by lia.
        set (ws' := ws ++ [c1 :: cur]). assert (Hws' : zlen ws' = zlen ws + 1) by (unfold ws'; rewrite zlen_app; done).
        destruct (IH fuel (pre ++ (c1 :: cur) ++ [0]) [] junk (<[Z.to_nat (zlen ws) := zlen pre]> argv) ws')
          as (b' & a' & lim & He & Hs' & Hla); try done; try (rewrite ?zlen_insert; lia); try constructor.
        { rewrite <- Hbuf. unfold ws'.
          eapply stored_push; [exact Hst'|lia|unfold zlen in *; lia|apply zlen_nonneg|lia|apply slice_word]. }
        rewrite <- Hbuf, <- Hnext, Hws' in He. change (zlen (@nil Z)) with 0 in He. rewrite Z.add_0_r in He.
        exists b', a', lim. rewrite length_insert in Hla. rewrite Hws' in Hs'.
        replace (ws ++ take (Z.to_nat (max - zlen ws)) ([c1 :: cur] ++ words l))
          with (ws' ++ take (Z.to_nat (max - (zlen ws + 1))) (words ([] ++ l))); [done|].
        unfold ws'. rewrite <- app_assoc. cbn [app]. f_equal.
        replace (Z.to_nat (max - zlen ws)) with (S (Z.to_nat (max - (zlen ws + 1)))) by lia. done.
    + assert (Hbuf : buffer = pre ++ (cur ++ [c]) ++ l ++ 0 :: junk)
        by (subst buffer; by rewrite <- !app_assoc).
      destruct (IH fuel pre (cur ++ [c]) junk argv ws) as (b' & a' & lim & He & Hs' & Hla); try done; try lia.
      * apply Forall_app. split; [done|]. constructor; [done|constructor].
      * apply Forall_app. split; [done|]. constructor; [done|constructor].
      * by rewrite <- Hbuf.
      * rewrite <- Hbuf, zlen_app in He. change (zlen [c]) with 1 in He. rewrite Z.add_assoc in He.
        exists b', a', lim. subst out. rewrite <- app_assoc in He, Hs'. done.
Qed.

Lemma parse_command_spec line r buffer argv max :
  nul_free line -> (length line < 256)%nat -> length buffer = 256%nat -> 0 <= max <= zlen argv ->
  let out := take (Z.to_nat max) (words line) in
  exists buffer' argv' limit, parse_command (cstr line r) buffer argv max = Ok (zlen out, buffer', argv') /\
    stored out buffer' argv' limit /\ length argv' = length argv.
Proof.
  intros Hn Hl Hb Hm out. unfold parse_command. rewrite strcpy_cstr by (done || lia). rewrite bind_ret. cbv beta iota.
  destruct (parse_loop_spec max line (Z.to_nat (BUFFER_SIZE + 1)) [] [] (drop (S (length line)) buffer) argv [])
    as (b' & a' & lim & He & Hs & Hla); try done; try (unfold BUFFER_SIZE; lia); try constructor.
  - change (zlen (@nil (list Z))) with 0. lia.
  - change (zlen (@nil (list Z))) with 0 in *. rewrite Z.sub_0_r in *. by exists b', a', lim.
Qed.

(** A stored word is a C string at the address [argv] has for it. *)
Lemma stored_cstr out buffer argv limit k w : stored out buffer argv limit -> out !! k = Some w ->
  exists a r, argv !! k = Some a /\ drop (Z.to_nat a) buffer = cstr w r.
Proof.
  intros Hs Hk. destruct (Hs k w Hk) as (a & Ha & Ha0 & _ & Hsl). unfold slice in Hsl.
  exists a, (drop (Z.to_nat (zlen w + 1)) (drop (Z.to_nat a) buffer)). split; [done|].
  rewrite <- (take_drop (Z.to_nat (zlen w + 1)) (drop (Z.to_nat a) buffer)) at 1.
  rewrite Hsl. unfold cstr. by rewrite <- app_assoc.
Qed.

Lemma words_nul_free line : nul_free line -> Forall nul_free (words line).
Proof.
  intros Hn. unfold words. destruct (split_space line) as [w ws] eqn:E.
  assert (Hall : Forall nul_free (w :: ws)).
  { revert w ws E. induction Hn as [|c line Hc _ IH]; intros w ws; cbn.
    - intros [= <- <-]. repeat constructor.
    - destruct (split_space line) as [w0 ws0]. specialize (IH w0 ws0 eq_refl).
      apply Forall_cons in IH as [H0 H1].
      destruct (isspace c); intros [= <- <-].
      + constructor; [constructor|]. by constructor.
      + constructor; [|done]. by constructor. }
  apply Forall_forall. intros x Hx. apply list_elem_of_filter in Hx as [_ Hx].
  rewrite Forall_forall in Hall. by apply Hall.
Qed.

(** The position of a name among the command names. *)
Definition command_names : list (list Z) :=
  chars <$> ["help"; "echo"; "clear"; "uptime"; "exit"; "ifconfig"; "ping"; "netstat"; "arp"; "route";
             "http"; "dns"; "dhcp"; "wget"; "disk"; "ps"; "kill"; "ls"; "cat"; "file"; "pipe"; "ui"]%string.

Lemma find_command_spec cs names : Forall2 (fun c n => c.1 = cstr n [] /\ nul_free n) cs names ->
  forall w r i, nul_free w ->
  find_command cs (cstr w r) i =
    Ok (match list_find (fun n => n = w) names with Some (k, _) => Some (i + Z.of_nat k) | None => None end).
Proof.
  induction 1 as [|c n cs names [Hc Hn] _ IH]; intros w r i Hw; [done|]. cbn [find_command list_find].
  rewrite Hc. destruct (strcmp_cstr w n r [] Hw Hn) as (k & -> & Hk). rewrite bind_ret.
  destruct (decide (n = w)) as [->|Hne].
  - rewrite (proj2 (Z.eqb_eq k 0)) by tauto. by rewrite Z.add_0_r.
  - rewrite (proj2 (Z.eqb_neq k 0)) by (intros H0; apply Hne; symmetry; tauto). rewrite IH by done.
    destruct (list_find _ names) as [[k' n']|]; cbn; [|done]. do 2 f_equal. lia.
Qed.

Lemma commands_named : Forall2 (fun c n => c.1 = cstr n [] /\ nul_free n) commands command_names.
Proof.
  unfold commands, command_names, nul_free.
  repeat (apply Forall2_cons; split; [split; [reflexivity|repeat (apply Forall_cons; split; [vm_compute; repeat split; congruence|]); constructor]|]).
  constructor.
Qed.

(** ** Editing a line *)

Definition key_text (c : Z) : bool := (32 <=? schar c) && (schar c <? 127).

(** What typing [keys] makes of [line], up to the line feed: the line and the
    keys not yet read. *)
Fixpoint edited (keys line : list Z) : option (list Z * list Z) :=
  match keys with
  | [] => None
  | c :: keys =>
      if c =? 10 then Some (line, keys)
      else if c =? 8 then edited keys (take (pred (length line)) line)
      else if key_text c then edited keys (line ++ [c])
      else edited keys line
  end.

(** The line stays below 255 characters while it is edited: at 255 the loop ends without a terminator. *)
Fixpoint line_fits (keys line : list Z) : bool :=
  (zlen line <? BUFFER_SIZE - 1) &&
  match keys with
  | [] => true
  | c :: keys =>
      if c =? 10 then true
      else if c =? 8 then line_fits keys (take (pred (length line)) line)
      else if key_text c then line_fits keys (line ++ [c])
      else line_fits keys line
  end.

(** As it does on at most 254 keys and the line feed. *)
Lemma few_keys_fit keys : forall line l left, edited keys line = Some (l, left) -> zlen line + zlen keys <= 255 -> line_fits keys line.
Proof.
  induction keys as [|c keys IH]; intros line l left He Hk; [done|].
  assert (Hz : zlen (c :: keys) = 1 + zlen keys) by (unfold zlen; cbn [length]; lia). pose proof (zlen_nonneg keys).
  cbn [line_fits edited] in *. unfold BUFFER_SIZE. rewrite (proj2 (Z.ltb_lt _ _)) by lia. cbn [andb].
  destruct (c =? 10); [done|]. destruct (c =? 8); [|destruct (key_text c)]; eapply IH; try exact He.
  - assert (zlen (take (pred (length line)) line) <= zlen line) by (unfold zlen; rewrite length_take; lia). lia.
  - rewrite zlen_app. change (zlen [c]) with 1. lia.
  - lia.
Qed.

(** What the editor writes on the screen meanwhile. *)
Fixpoint echo (keys line : list Z) : list Z :=
  match keys with
  | [] => []
  | c :: keys =>
      if c =? 10 then [10]
      else if c =? 8 then match line with [] => echo keys line | _ => 8 :: echo keys (take (pred (length line)) line) end
      else if key_text c then c :: echo keys (line ++ [c])
      else echo keys line
  end.

Lemma term_write_cons c l t : Term.write (c :: l) t = Term.write l (Term.put c t).
Proof. reflexivity. Qed.

Section Editing.
Context `{Bus P}.

Lemma read_line_edited keys : forall line rest left l d, vga_wf d.1 ->
  edited keys line = Some (l, left) -> line_fits keys line -> zlen line + zlen rest = 256 ->
  exists buffer' d', read_line keys (line ++ rest) (zlen line) d = Ok (Some (zlen l, buffer', left, d')) /\
    (exists r, buffer' = cstr l r) /\ zlen buffer' = 256 /\ vga_wf d'.1 /\
    term_of d'.1 = Term.write (echo keys line) (term_of d.1).
Proof.
  induction keys as [|c keys IH]; intros line rest left l d Hd He Hk Hr; [done|].
  pose proof (zlen_nonneg line). cbn [read_line edited echo line_fits] in *. unfold BUFFER_SIZE in *.
  apply andb_True in Hk as [Hk%Is_true_true%Z.ltb_lt Hk']. rewrite (proj2 (Z.leb_gt _ _)) by lia.
  destruct rest as [|x rest]; [change (zlen (@nil Z)) with 0 in Hr; lia|].
  assert (Hx : zlen (x :: rest) = 1 + zlen rest) by (unfold zlen; cbn [length]; lia).
  destruct d as [s p]. cbn [fst snd] in *.
  assert (Hchar : forall ch, exists s', vga_write_char ch s p = Ok (s', vga_update_cursor s' p) /\ vga_wf s' /\
    term_of s' = Term.put ch (term_of s)).
  { intros ch. destruct (write_char_spec ch s p Hd) as (s' & ? & ? & _ & ?). by exists s'. }
  destruct (c =? 10).
  { injection He as <- <-. rewrite wr_mid, bind_ret.
    destruct (Hchar 10) as (s' & -> & Hs' & Ht). rewrite bind_ret. eexists _, _. split; [reflexivity|].
    split; [by exists rest|]. split; [|by split]. rewrite zlen_app. unfold zlen in *. cbn [length] in *. lia. }
  destruct (c =? 8).
  { destruct (Z.ltb_spec 0 (zlen line)) as [Hpos|Hzero].
    - destruct (Hchar 8) as (s' & -> & Hs' & Ht). rewrite bind_ret.
      destruct line as [|y line _] using rev_ind; [change (zlen (@nil Z)) with 0 in Hpos; lia|].
      rewrite length_app in He. cbn [length] in He. rewrite Nat.add_1_r in He. cbn [pred] in He.
      rewrite take_app_length in He. rewrite length_app, Nat.add_1_r in Hk'. cbn [pred] in Hk'. rewrite take_app_length in Hk'. rewrite zlen_app in *. change (zlen [y]) with 1 in *.
      destruct (IH line (y :: x :: rest) left l (s', vga_update_cursor s' p)) as (b & d' & Hrl & Hb); try done.
      + unfold zlen in *. cbn [length] in *. lia.
      + exists b, d'. rewrite <- app_assoc. cbn [app]. replace (zlen line + 1 - 1) with (zlen line) by lia.
        split; [done|]. destruct Hb as (? & ? & ? & Hw). split_and!; try done. rewrite Hw. cbn [fst]. rewrite Ht.
        replace (match line ++ [y] with [] => _ | _ => _ end) with (8 :: echo keys line); [by rewrite term_write_cons|].
        destruct line; [done|]. cbn [app]. do 2 f_equal. cbn [length]. rewrite length_app. cbn [length pred]. rewrite Nat.add_1_r. cbn [take].
        by rewrite take_app_length.
    - assert (Hn : line = []) by (destruct line; [done|unfold zlen in Hzero; cbn [length] in Hzero; lia]).
      subst line. destruct (IH [] (x :: rest) left l (s, p)) as (b & d' & Hrl & Hb); try done.
      by exists b, d'. }
  destruct (key_text c) eqn:Ek; unfold key_text in Ek; rewrite Ek.
  - rewrite wr_mid, bind_ret. destruct (Hchar c) as (s' & -> & Hs' & Ht). rewrite bind_ret.
    destruct (IH (line ++ [c]) rest left l (s', vga_update_cursor s' p)) as (b & d' & Hrl & Hb); try done.
    + rewrite zlen_app. change (zlen [c]) with 1. lia.
    + exists b, d'. rewrite zlen_app, <- app_assoc in Hrl. split; [done|]. destruct Hb as (? & ? & ? & Hw). split_and!; try done.
      rewrite Hw, term_write_cons. cbn [fst]. by rewrite Ht.
  - destruct (IH line (x :: rest) left l (s, p)) as (b & d' & Hrl & Hb); try done.
    by exists b, d'.
Qed.

(** Typing text without a line feed fills the buffer up to its last byte but one. *)
Lemma read_line_full str : forall line rest keys d, vga_wf d.1 -> Forall (fun c => key_text c = true) str ->
  zlen line + zlen str = 255 -> zlen line + zlen rest = 256 ->
  exists last d', read_line (str ++ keys) (line ++ rest) (zlen line) d =
    Ok (Some (255, line ++ str ++ [last], keys, d')) /\ drop (length str) rest = [last].
Proof.
  induction str as [|c str IH]; intros line rest keys d Hd Hs Hl Hr.
  - change (zlen (@nil Z)) with 0 in Hl. destruct rest as [|x [|y rest]];
      [change (zlen (@nil Z)) with 0 in Hr; lia| |unfold zlen in *; cbn [length] in *; lia].
    exists x, d. cbn [app]. replace (zlen line) with 255 by lia. split; [|done].
    destruct keys; cbn [read_line]; by change (BUFFER_SIZE - 1 <=? 255) with true.
  - apply Forall_cons in Hs as [Hc Hs].
    assert (Hc' : zlen (c :: str) = 1 + zlen str) by (unfold zlen; cbn [length]; lia).
    pose proof (zlen_nonneg str). cbn [app read_line]. unfold BUFFER_SIZE.
    rewrite (proj2 (Z.leb_gt _ _)) by lia.
    destruct rest as [|x rest]; [change (zlen (@nil Z)) with 0 in Hr; lia|].
    assert (Hx : zlen (x :: rest) = 1 + zlen rest) by (unfold zlen; cbn [length]; lia).
    assert (Hne : (c =? 10) = false /\ (c =? 8) = false).
    { unfold key_text, schar in Hc. apply andb_prop in Hc as [Hc1 Hc2]. apply Z.leb_le in Hc1.
      destruct (Z.ltb_spec c 128); split; apply Z.eqb_neq; lia. }
    destruct Hne as [-> ->]. unfold key_text in Hc. rewrite Hc, wr_mid, bind_ret.
    destruct d as [s p]. cbn [fst snd] in *. destruct (write_char_spec c s p Hd) as (s' & -> & Hs' & _).
    rewrite bind_ret. destruct (IH (line ++ [c]) rest keys (s', vga_update_cursor s' p)) as (la & d' & Hrl & Hla);
      try done; try (rewrite zlen_app; change (zlen [c]) with 1; lia).
    rewrite zlen_app, <- !app_assoc in Hrl. exists la, d'. split; [exact Hrl|exact Hla].
Qed.
End Editing.

(** A source array that ends before its terminator. *)
Lemma strcpy_runs_off src : forall d, Forall (fun c => c <> 0) src -> strcpy d src = Err OutOfBounds.
Proof.
  induction src as [|c src IH]; intros d Hs; [by destruct d|].
  apply Forall_cons in Hs as [Hc Hs]. destruct d as [|x d]; [done|]. cbn [strcpy].
  rewrite (proj2 (Z.eqb_neq _ _) Hc), IH by done. done.
Qed.

Lemma strcpy_length src : forall d n d', strcpy d src = Ok (n, d') -> length d' = length d.
Proof.
  induction src as [|c src IH]; intros [|x d] n d' E; try discriminate E; cbn in E.
  destruct (c =? 0); [by injection E as _ <-|].
  apply res_bind_Ok in E as ([m l] & E & Hr). injection Hr as _ <-. cbn [length]. f_equal. by eapply IH.
Qed.

Lemma parse_loop_length fuel : forall b t st a c m b' t' st' a' c',
  parse_loop fuel b t st a c m = Ok (b', t', st', a', c') -> length b' = length b /\ length a' = length a.
Proof.
  induction fuel as [|f IH]; intros b t st a c m b' t' st' a' c' E; [discriminate E|]. cbn [parse_loop] in E.
  apply res_bind_Ok in E as (x & _ & E). destruct (_ && _); [|by injection E as <- _ _ <- _].
  destruct (isspace x); [|by eapply IH].
  apply res_bind_Ok in E as (b1 & Hb & E). apply wr_Ok in Hb as [_ ->].
  apply res_bind_Ok in E as (y & _ & E). destruct (_ && _).
  - apply res_bind_Ok in E as (a1 & Ha & E). apply wr_Ok in Ha as [_ ->].
    apply IH in E. by rewrite !length_insert in E.
  - apply IH in E. by rewrite length_insert in E.
Qed.

Lemma shell_line_length pos line buffer argv act b a : shell_line pos line buffer argv = Ok (act, b, a) ->
  length b = length buffer /\ length a = length argv.
Proof.
  unfold shell_line. destruct (pos =? 0); [by intros [= _ <- <-]|]. intros E.
  apply res_bind_Ok in E as ([[n b1] a1] & Hp & E).
  assert (Hl : length b1 = length buffer /\ length a1 = length argv).
  { unfold parse_command in Hp. apply res_bind_Ok in Hp as ([m d] & Hs & Hp). apply strcpy_length in Hs.
    apply res_bind_Ok in Hp as ([[[[b2 t2] s2] a2] c2] & Hl & Hp). apply parse_loop_length in Hl as [Hb Ha].
    unfold parse_end in Hp. apply res_bind_Ok in Hp as (c & _ & Hp). destruct (_ && _).
    - apply res_bind_Ok in Hp as (a3 & Hw & Hp). apply wr_Ok in Hw as [_ ->]. injection Hp as _ <- <-.
      rewrite length_insert. lia.
    - injection Hp as _ <- <-. lia. }
  destruct (n =? 0); [by injection E as _ <- <-|].
  apply res_bind_Ok in E as (a0 & _ & E). apply res_bind_Ok in E as (fd & _ & E). by injection E as _ <- <-.
Qed.

Lemma shell_line_spec line r buffer argv :
  nul_free line -> line <> [] -> (length line < 256)%nat -> length buffer = 256%nat ->
  zlen argv = MAX_ARGS ->
  exists action buffer' argv',
    shell_line (zlen line) (cstr line r) buffer argv = Ok (action, buffer', argv') /\
    match words line with
    | [] => action = NoCommand
    | w :: _ =>
        match list_find (fun n => n = w) command_names with
        | Some (i, _) => exists args, action = Run (Z.of_nat i) (Z.min 16 (zlen (words line))) args /\
            Forall2 (fun a v => exists rest, a = cstr v rest) args (take 16 (words line))
        | None => exists rest, action = Unknown (cstr w rest)
        end
    end.
Proof.
  intros Hn Hne Hl Hb Ha. unfold MAX_ARGS in Ha. unfold shell_line.
  rewrite (proj2 (Z.eqb_neq (zlen line) 0)) by (destruct line; [done|unfold zlen; cbn [length]; lia]).
  destruct (parse_command_spec line r buffer argv MAX_ARGS Hn Hl Hb ltac:(unfold MAX_ARGS; lia))
    as (b & a & lim & -> & Hs & Hla). rewrite bind_ret. cbv beta iota.
  pose proof (words_nul_free line Hn) as Hwn. change (Z.to_nat MAX_ARGS) with 16%nat in *.
  destruct (words line) as [|w ws] eqn:Ew; [by eexists _, _, _|].
  assert (Hz : zlen (take 16 (w :: ws)) = Z.min 16 (zlen (w :: ws)))
    by (unfold zlen; rewrite length_take; lia).
  rewrite Hz. rewrite (proj2 (Z.eqb_neq _ 0)) by (unfold zlen; cbn [length]; lia).
  destruct (stored_cstr _ _ _ _ 0 w Hs eq_refl) as (a0 & r0 & Ha0 & Hd0).
  assert (Hrd : rd a 0 = Ok a0) by (by apply rd_Ok, zget_Some).
  rewrite Hrd, bind_ret, Hd0. apply Forall_cons in Hwn as [Hw _].
  rewrite (find_command_spec commands command_names commands_named) by done. rewrite bind_ret.
  destruct (list_find _ command_names) as [[i n]|]; eexists _, _, _; (split; [reflexivity|]);
    [|by exists r0].
  eexists. split; [by rewrite Z.add_0_l|]. unfold arguments. rewrite <- Hz.
  apply Forall2_same_length_lookup_2.
  - rewrite length_fmap, length_take. unfold zlen in *. rewrite Nat2Z.id, length_take.
    cbn [length] in *. lia.
  - intros k x v Hx Hv. apply list_lookup_fmap_Some in Hx as (ak & -> & Hak).
    destruct (stored_cstr _ _ _ _ k v Hs Hv) as (a' & rest & Ha' & Hd').
    rewrite lookup_take_lt in Hak.
    + rewrite Ha' in Hak. injection Hak as <-. by exists rest.
    + apply lookup_lt_Some in Hv. unfold zlen. lia.
Qed.

(** ** Properties *)

(** [parse_command] finds the words of the line, cut at
    white space, the first [max_args] of them: [argc] is their number, each
    [argv] entry points to its word as a C string in the static buffer, and
    nothing is written outside [argv] or the buffer. *)
Lemma parse_command_words line r buffer argv max :
  nul_free line -> (length line < 256)%nat -> length buffer = 256%nat -> 0 <= max <= zlen argv ->
  exists buffer' argv',
    parse_command (cstr line r) buffer argv max =
      Ok (Z.min max (zlen (words line)), buffer', argv') /\ length argv' = length argv /\
    forall k w, Z.of_nat k < max -> words line !! k = Some w ->
      exists a rest, argv' !! k = Some a /\ drop (Z.to_nat a) buffer' = cstr w rest.
Proof.
  intros Hn Hl Hb Hm. destruct (parse_command_spec line r buffer argv max Hn Hl Hb Hm)
    as (b & a & lim & He & Hs & Hla).
  exists b, a. split; [|split; [done|]].
  - rewrite He. do 3 f_equal. unfold zlen. rewrite length_take. lia.
  - intros k w Hk Hw. eapply stored_cstr; [exact Hs|]. rewrite lookup_take_lt by lia. exact Hw.
Qed.

Definition ex_line : list Z := chars "  ls   -l  /bin "%string.

Lemma parse_command_words_witness :
  exists buffer' argv',
    parse_command (cstr ex_line [7]) (replicate 256 1) (replicate 2 0) 2 =
      Ok (Z.min 2 (zlen (words ex_line)), buffer', argv') /\ length argv' = 2%nat /\
    forall k w, Z.of_nat k < 2 -> words ex_line !! k = Some w ->
      exists a rest, argv' !! k = Some a /\ drop (Z.to_nat a) buffer' = cstr w rest.
Proof.
  apply (parse_command_words ex_line [7] (replicate 256 1) (replicate 2 0) 2).
  - repeat (apply Forall_cons; split; [vm_compute; repeat split; congruence|]). constructor.
  - apply Nat.ltb_lt. reflexivity.
  - reflexivity.
  - vm_compute. split; congruence.
Defined.

(** A line without words does nothing; otherwise the command
    whose name is the first word runs, with the first sixteen words as its
    arguments, and a first word that names no command is reported as unknown. *)
Lemma shell_dispatches line r buffer argv :
  nul_free line -> line <> [] -> (length line < 256)%nat -> length buffer = 256%nat ->
  zlen argv = MAX_ARGS ->
  exists action buffer' argv',
    shell_line (zlen line) (cstr line r) buffer argv = Ok (action, buffer', argv') /\
    match words line with
    | [] => action = NoCommand
    | w :: _ =>
        match list_find (fun n => n = w) command_names with
        | Some (i, _) => exists args, action = Run (Z.of_nat i) (Z.min 16 (zlen (words line))) args /\
            Forall2 (fun a v => exists rest, a = cstr v rest) args (take 16 (words line))
        | None => exists rest, action = Unknown (cstr w rest)
        end
    end.
Proof. apply shell_line_spec. Qed.

Lemma shell_dispatches_witness :
  exists action buffer' argv',
    shell_line (zlen ex_line) (cstr ex_line []) (replicate 256 1) (replicate 16 0) = Ok (action, buffer', argv') /\
    exists args, action = Run 17 3 args /\
      Forall2 (fun a v => exists rest, a = cstr v rest) args (words ex_line).
Proof.
  apply (shell_dispatches ex_line [] (replicate 256 1) (replicate 16 0)).
  - repeat (apply Forall_cons; split; [vm_compute; repeat split; congruence|]). constructor.
  - discriminate.
  - apply Nat.ltb_lt. reflexivity.
  - reflexivity.
  - reflexivity.
Defined.

(** Typing a line of up to 254 keys leaves in the buffer,
    terminated, the text after the backspaces have done their work, and the rest
    of the input unread. *)
Lemma line_editor_correct {P} `{Bus P} keys l left buffer s (p : P) :
  vga_wf s -> zlen buffer = BUFFER_SIZE -> zlen keys <= 255 -> edited keys [] = Some (l, left) ->
  exists buffer' d', read_line keys buffer 0 (s, p) = Ok (Some (zlen l, buffer', left, d')) /\
    (exists r, buffer' = cstr l r) /\ zlen buffer' = BUFFER_SIZE /\ vga_wf d'.1.
Proof.
  intros Hw Hb Hk He.
  destruct (read_line_edited keys [] buffer left l (s, p) Hw He) as (b & d' & Hr & Hc & Hl & Hd & _).
  - by eapply few_keys_fit.
  - exact Hb.
  - by exists b, d'.
Qed.

Lemma line_editor_correct_witness :
  exists buffer' d', @read_line unit ex_bus [108; 8; 8; 108; 1; 115; 10; 120] (replicate 256 1) 0 (ex_vga, tt)
    = Ok (Some (2, buffer', [120], d')) /\
    (exists r, buffer' = cstr [108; 115] r) /\ zlen buffer' = BUFFER_SIZE /\ vga_wf d'.1.
Proof.
  apply (@line_editor_correct unit ex_bus [108; 8; 8; 108; 1; 115; 10; 120] [108; 115] [120]
           (replicate 256 1) ex_vga tt ex_vga_wf).
  - reflexivity.
  - vm_compute. discriminate.
  - reflexivity.
Defined.

(** A line of 255 characters ends the loop without its
    line feed and without a terminator; if the last byte of the buffer is not 0
    by chance, parsing the line copies past the end of the array. *)
Lemma full_line_unterminated {P} `{Bus P} str line last keys s (p : P) :
  vga_wf s -> zlen str = 255 -> Forall (fun c => key_text c = true) str ->
  zlen line = 255 -> last <> 0 ->
  exists d', read_line (str ++ keys) (line ++ [last]) 0 (s, p) =
      Ok (Some (255, str ++ [last], keys, d')) /\
    forall buffer argv, shell_line 255 (str ++ [last]) buffer argv = Err OutOfBounds.
Proof.
  intros Hw Hl Hs Hline Hlast.
  destruct (read_line_full str [] (line ++ [last]) keys (s, p) Hw Hs) as (la & d' & Hr & Hla).
  - change (zlen (@nil Z)) with 0. lia.
  - rewrite zlen_app. change (zlen [last]) with 1. change (zlen (@nil Z)) with 0. lia.
  - rewrite drop_app_length' in Hla by (unfold zlen in *; lia). injection Hla as <-.
    exists d'. split; [exact Hr|]. intros buffer argv. unfold shell_line, parse_command.
    change (255 =? 0) with false. cbv iota. rewrite strcpy_runs_off; [done|].
    apply Forall_app. split; [|by constructor].
    eapply Forall_impl; [exact Hs|]. unfold key_text, schar. intros c Hc ->. discriminate Hc.
Qed.

Lemma full_line_unterminated_witness :
  exists d', @read_line unit ex_bus (replicate 255 97 ++ [10]) (replicate 255 0 ++ [120]) 0 (ex_vga, tt) =
      Ok (Some (255, replicate 255 97 ++ [120], [10], d')) /\
    forall buffer argv, shell_line 255 (replicate 255 97 ++ [120]) buffer argv = Err OutOfBounds.
Proof.
  apply (@full_line_unterminated unit ex_bus (replicate 255 97) (replicate 255 0) 120 [10] ex_vga tt ex_vga_wf).
  - reflexivity.
  - apply Forall_replicate. reflexivity.
  - reflexivity.
  - discriminate.
Defined.
