(* ===== verification/Search.v ===== *)
(** * The search engine *)
(** [src/utils/search.c]: case-insensitive substring search over the registry of
    system data, relevance scores, the bubble sort of the matches and the listing
    on the console.  C strings are byte arrays with their terminator. *)

From Stdlib Require Import String Permutation Sorted.
From S2P Require Import Prelude Memory CString Ports Vga.

Record search_result := Result { title : list Z; content : list Z; relevance : Z }.

Definition entry (t c : string) (r : Z) : search_result := Result (chars t ++ [0]) (chars c ++ [0]) r.

(** The table up to its null entry. *)
Definition system_data : list search_result := [
  entry "Command: help" "Display available commands" 1;
  entry "Command: echo" "Echo arguments to display text output" 2;
  entry "Command: clear" "Clear the screen and reset display" 1;
  entry "Command: uptime" "Show system uptime in ticks" 1;
  entry "Command: ls" "List files and directories" 1;
  entry "Command: exit" "Exit the shell" 1;
  entry "Command: ifconfig" "Show network interface configuration and IP" 2;
  entry "Command: ping" "Send ICMP echo request ping to host" 2;
  entry "Command: netstat" "Show network connections and statistics" 2;
  entry "Command: arp" "Show ARP cache and address resolution" 2;
  entry "Command: route" "Show routing table" 1;
  entry "Command: http" "HTTP server control start stop status" 2;
  entry "Command: search" "Search system information and data" 2;
  entry "System: Memory" "Virtual memory management and paging" 1;
  entry "System: PIT" "Programmable Interval Timer for scheduling" 1;
  entry "System: IDT" "Interrupt Descriptor Table for exceptions" 1;
  entry "System: Keyboard" "PS/2 keyboard driver and input handling" 1;
  entry "System: VGA" "Video Graphics Array text mode display" 1;
  entry "System: Network" "Network stack with TCP IP UDP support" 2;
  entry "System: ARP" "Address Resolution Protocol for MAC lookup" 1;
  entry "System: ICMP" "Internet Control Message Protocol ping" 1;
  entry "System: TCP" "Transmission Control Protocol reliable stream" 2;
  entry "System: UDP" "User Datagram Protocol unreliable datagram" 1;
  entry "System: Socket" "Socket abstraction for network communication" 2;
  entry "System: HTTP" "HyperText Transfer Protocol web server" 2;
  entry "Architecture: x86" "32-bit x86 processor instruction set" 1;
  entry "Architecture: Multiboot" "Multiboot bootloader specification" 1;
  entry "Architecture: Interrupts" "Interrupt handling and exception dispatch" 1]%string.

(** ** Matching *)

(** [if (t >= 'A' && t <= 'Z') t += 32]. *)
Definition lower (c : Z) : Z := if (65 <=? c) && (c <=? 90) then c + 32 else c.

(** The inner loop from [j] on: [match]. *)
Fixpoint match_from (n : nat) (text pattern : list Z) (i j : Z) : res bool :=
  match n with
  | O => Ok true
  | S n =>
      t ← rd text (i + j);
      p ← rd pattern j;
      if lower t =? lower p then match_from n text pattern i (j + 1) else Ok false
  end.

Fixpoint search_from (n : nat) (text pattern : list Z) (plen i : Z) : res Z :=
  match n with
  | O => Ok 0
  | S n =>
      m ← match_from (Z.to_nat plen) text pattern i 0;
      if (m : bool) then Ok 1 else search_from n text pattern plen (i + 1)
  end.

Definition contains_pattern (text pattern : option (list Z)) : res Z :=
  match text, pattern with
  | Some text, Some pattern =>
      tlen ← strlen text;
      plen ← strlen pattern;
      if tlen <? plen then Ok 0
      else search_from (Z.to_nat (tlen - plen + 1)) text pattern plen 0
  | _, _ => Ok 0
  end.

Definition calculate_relevance (ttl cnt pattern : list Z) : res Z :=
  m ← contains_pattern (Some ttl) (Some pattern);
  score ← (if m =? 0 then Ok 0 else
             plen ← strlen pattern;
             c ← strncmp ttl pattern (Z.to_nat plen);
             if c =? 0 then Ok 30 else
             c ← strncmp (drop 2 ttl) pattern (Z.to_nat plen);
             Ok (if c =? 0 then 30 else 10));
  m ← contains_pattern (Some cnt) (Some pattern);
  Ok (if m =? 0 then score else score + 5).

(** The first pass of [search_system]: [matches] is the local array of 32. *)
Fixpoint collect (data : list search_result) (query : list Z) (matches : list search_result)
    (match_count : Z) : res (list search_result * Z) :=
  match data with
  | [] => Ok (matches, match_count)
  | d :: data =>
      r ← calculate_relevance (title d) (content d) query;
      if (0 <? r) && (match_count <? 32) then
        matches ← wr matches match_count (Result (title d) (content d) r);
        collect data query matches (match_count + 1)
      else collect data query matches match_count
  end.

(** ** Sorting *)

(** [for (j = 0; j < match_count - i - 1; j++)] from [j] on. *)
Fixpoint bubble_pass (n : nat) (l : list search_result) (j : Z) : res (list search_result) :=
  match n with
  | O => Ok l
  | S n =>
      a ← rd l j;
      b ← rd l (j + 1);
      l ← (if relevance a <? relevance b then l ← wr l j b; wr l (j + 1) a else Ok l);
      bubble_pass n l (j + 1)
  end.

(** [for (i = 0; i < match_count - 1; i++)]: [n] is [match_count - 1 - i]. *)
Fixpoint bubble_sort (n : nat) (l : list search_result) : res (list search_result) :=
  match n with
  | O => Ok l
  | S n' => l ← bubble_pass n l 0; bubble_sort n' l
  end.

Definition sort_matches (l : list search_result) (match_count : Z) : res (list search_result) :=
  bubble_sort (Z.to_nat (match_count - 1)) l.

(** ** The command *)

Section Command.
Context `{Bus P}.

Definition say (str : list Z) (d : vga * P) : res (vga * P) := vga_write_string str d.1 d.2.

Fixpoint show (l : list search_result) (i : Z) (d : vga * P) : res (vga * P) :=
  match l with
  | [] => Ok d
  | m :: l =>
      d ← say (chars "[" ++ [0]) d;
      num_buf ← itoa (i + 1) [0; 0; 0; 0] 10;
      d ← say num_buf d;
      d ← say (chars "] " ++ [0]) d;
      d ← say (title m) d;
      d ← say ([10] ++ chars "    " ++ [0]) d;
      d ← say (content m) d;
      d ← say [10; 10; 0] d;
      show l (i + 1) d
  end.

Definition blank_result : search_result := Result [0] [0] 0.

Definition search_system (query : option (list Z)) (d : vga * P) : res (Z * (vga * P)) :=
  let usage d :=
    d ← say (chars "Usage: search <query>" ++ [10; 0]) d;
    d ← say (chars "Example: search network" ++ [10; 0]) d;
    Ok (1, d) in
  match query with
  | None => usage d
  | Some q =>
      c ← rd q 0;
      if c =? 0 then usage d else
      d ← say (chars "=== Search Results for: " ++ [0]) d;
      d ← say q d;
      d ← say (chars " ===" ++ [10; 10; 0]) d;
      '(matches, match_count) ← collect system_data q (replicate 32 blank_result) 0;
      matches ← sort_matches matches match_count;
      if match_count =? 0 then
        d ← say (chars "No results found." ++ [10; 0]) d;
        Ok (1, d)
      else
        d ← show (take (Z.to_nat match_count) matches) 0 d;
        d ← say (chars "Found " ++ [0]) d;
        count_buf ← itoa match_count [0; 0; 0; 0] 10;
        d ← say count_buf d;
        d ← say (chars " result(s)." ++ [10; 0]) d;
        Ok (0, d)
  end.
End Command.

(** ** Matching finds exactly the case-insensitive substrings *)

Definition occurs_at (text pattern : list Z) (i : nat) : Prop :=
  lower <$> take (length pattern) (drop i text) = lower <$> pattern /\ (i + length pattern <= length text)%nat.

Lemma match_from_spec n : forall text pattern i j, 0 <= i -> 0 <= j ->
  i + j + Z.of_nat n <= zlen text -> j + Z.of_nat n <= zlen pattern ->
  exists b, match_from n text pattern i j = Ok b /\
    (b = true <-> lower <$> slice text (i + j) (Z.of_nat n) = lower <$> slice pattern j (Z.of_nat n)).
Proof.
  induction n as [|n IH]; intros text pattern i j Hi Hj Ht Hp; cbn [match_from].
  - exists true. split; [done|]. unfold slice. by rewrite !take_0.
  - destruct (rd_total text (i + j)) as [t Hrt]; [lia|]. destruct (rd_total pattern j) as [p Hrp]; [lia|].
    rewrite Hrt, Hrp, !bind_ret.
    assert (Hst : slice text (i + j) (Z.of_nat (S n)) = t :: slice text (i + (j + 1)) (Z.of_nat n)).
    { replace (Z.of_nat (S n)) with (1 + Z.of_nat n) by lia. rewrite slice_add, (slice_one _ _ t) by (done || lia).
      cbn [app]. do 2 f_equal. lia. }
    assert (Hsp : slice pattern j (Z.of_nat (S n)) = p :: slice pattern (j + 1) (Z.of_nat n)).
    { replace (Z.of_nat (S n)) with (1 + Z.of_nat n) by lia. by rewrite slice_add, (slice_one _ _ p) by (done || lia). }
    rewrite Hst, Hsp, !fmap_cons. destruct (Z.eqb_spec (lower t) (lower p)) as [E|E].
    + destruct (IH text pattern i (j + 1)) as (b & Hm & Hb); [lia..|]. exists b. split; [done|]. rewrite Hb, E.
      split; [by intros -> | by intros [= ?]].
    + exists false. split; [done|]. split; [done|]. by intros [= ? ?].
Qed.

Lemma search_from_spec n text pattern plen : plen <= zlen pattern -> 0 <= plen ->
  forall i, 0 <= i -> i + Z.of_nat n + plen - 1 <= zlen text ->
  exists r, search_from n text pattern plen i = Ok r /\ (r = 0 \/ r = 1) /\
    (r = 1 <-> exists k, i <= k < i + Z.of_nat n /\ lower <$> slice text k plen = lower <$> slice pattern 0 plen).
Proof.
  intros Hp Hp0. induction n as [|n IH]; intros i Hi Ht; cbn [search_from].
  - exists 0. split_and!; [done|by left|]. split; [done|]. intros (k & ? & _). lia.
  - destruct (match_from_spec (Z.to_nat plen) text pattern i 0) as (b & -> & Hb); [lia..|].
    rewrite bind_ret, Z.add_0_r, Z2Nat.id in * by done. destruct b.
    + exists 1. split_and!; [done|by right|]. split; [|done]. intros _. exists i. split; [lia|]. by apply Hb.
    + destruct (IH (i + 1)) as (r & -> & Hr & Hiff); [lia..|]. exists r. split_and!; [done..|].
      rewrite Hiff. split; intros (k & Hk & Hm).
      * exists k. split; [lia|done].
      * destruct (Z.eq_dec k i) as [->|]; [apply Hb in Hm; done|]. exists k. split; [lia|done].
Qed.

Lemma contains_spec t p rt rp : nul_free t -> nul_free p ->
  exists r, contains_pattern (Some (cstr t rt)) (Some (cstr p rp)) = Ok r /\ (r = 0 \/ r = 1) /\
    (r = 1 <-> exists i, occurs_at t p i).
Proof.
  intros Ht Hp. unfold contains_pattern. rewrite !strlen_cstr by done. rewrite !bind_ret.
  assert (Hcut : forall k, 0 <= k -> k + zlen p <= zlen t ->
    slice (cstr t rt) k (zlen p) = take (length p) (drop (Z.to_nat k) t)).
  { intros k Hk Hl. unfold slice, cstr, zlen in *. rewrite Nat2Z.id.
    rewrite drop_app_le by lia. apply take_app_le. rewrite length_drop. lia. }
  assert (Hpat : slice (cstr p rp) 0 (zlen p) = p).
  { unfold slice, cstr, zlen. rewrite Nat2Z.id. apply take_app_length. }
  destruct (Z.ltb_spec (zlen t) (zlen p)) as [Hlt|Hge].
  - exists 0. split_and!; [done|by left|]. split; [done|]. intros (i & _ & Hi). unfold zlen in Hlt. lia.
  - pose proof (zlen_nonneg p).
    destruct (search_from_spec (Z.to_nat (zlen t - zlen p + 1)) (cstr t rt) (cstr p rp) (zlen p)) with (i := 0)
      as (r & -> & Hr & Hiff); try lia; try (unfold cstr; rewrite zlen_app; unfold zlen in *; cbn [length]; lia).
    exists r. split_and!; [done..|]. rewrite Hiff, Hpat. split.
    + intros (k & Hk & Hm). rewrite Hcut in Hm by lia. exists (Z.to_nat k). split; [done|]. unfold zlen in *. lia.
    + intros (i & Hm & Hi). exists (Z.of_nat i). split; [unfold zlen in *; lia|].
      rewrite Hcut by (unfold zlen in *; lia). by rewrite Nat2Z.id.
Qed.

(** ** The sort *)

Fixpoint bubble (x : search_result) (l : list search_result) : list search_result :=
  match l with
  | [] => [x]
  | y :: l => if relevance x <? relevance y then y :: bubble x l else x :: bubble y l
  end.

Lemma bubble_pass_spec mid : forall pre x post,
  bubble_pass (length mid) (pre ++ x :: mid ++ post) (zlen pre) = Ok (pre ++ bubble x mid ++ post).
Proof.
  induction mid as [|y mid IH]; intros pre x post; cbn [bubble_pass length bubble]; [done|].
  rewrite rd_mid, bind_ret.
  assert (Hpre : forall z, zlen pre + 1 = zlen (pre ++ [z])) by (intros z; by rewrite zlen_app).
  assert (Hb : rd (pre ++ x :: (y :: mid) ++ post) (zlen pre + 1) = Ok y).
  { rewrite (Hpre x). change (x :: (y :: mid) ++ post) with ([x] ++ y :: mid ++ post).
    rewrite app_assoc. apply rd_mid. }
  rewrite Hb, bind_ret. destruct (relevance x <? relevance y).
  - rewrite wr_mid, bind_ret.
    assert (Hw : wr (pre ++ y :: (y :: mid) ++ post) (zlen pre + 1) x = Ok ((pre ++ [y]) ++ x :: mid ++ post)).
    { rewrite (Hpre y). change (y :: (y :: mid) ++ post) with ([y] ++ y :: mid ++ post).
      rewrite app_assoc. apply wr_mid. }
    rewrite Hw, bind_ret, (Hpre y), IH. by rewrite <- !app_assoc.
  - rewrite bind_ret, (Hpre x). change (x :: (y :: mid) ++ post) with ([x] ++ y :: mid ++ post).
    rewrite app_assoc, IH. by rewrite <- !app_assoc.
Qed.

Definition rel_is (r : Z) (x : search_result) : Prop := relevance x = r.
#[global] Instance rel_is_dec r x : Decision (rel_is r x).
Proof. unfold rel_is. apply _. Defined.

(** Equal scores keep their order. *)
Definition same_classes (l l' : list search_result) : Prop :=
  forall r, filter (rel_is r) l = filter (rel_is r) l'.

Lemma same_classes_app a a' b b' : same_classes a a' -> same_classes b b' -> same_classes (a ++ b) (a' ++ b').
Proof. intros Ha Hb r. by rewrite !filter_app, Ha, Hb. Qed.

Lemma bubble_classes mid : forall x, same_classes (x :: mid) (bubble x mid).
Proof.
  induction mid as [|y mid IH]; intros x r; cbn [bubble]; [done|].
  destruct (Z.ltb_spec (relevance x) (relevance y)) as [Hlt|Hge].
  - rewrite (filter_cons _ y (bubble x mid)), <- (IH x r), !filter_cons. unfold rel_is at 1 2 4 5.
    repeat case_decide; try done. lia.
  - rewrite (filter_cons _ x (bubble y mid)), <- (IH y r). by rewrite (filter_cons _ x).
Qed.

Lemma bubble_perm mid : forall x, Permutation (x :: mid) (bubble x mid).
Proof.
  induction mid as [|y mid IH]; intros x; cbn [bubble]; [done|].
  destruct (relevance x <? relevance y).
  - rewrite <- IH. apply perm_swap.
  - by rewrite <- IH.
Qed.

(** The least score of the part ends up at its end. *)
Lemma bubble_last mid : forall x, exists front m, bubble x mid = front ++ [m] /\
  Forall (fun a => relevance m <= relevance a) front /\ relevance m <= relevance x.
Proof.
  induction mid as [|y mid IH]; intros x; cbn [bubble].
  - by exists [], x.
  - destruct (Z.ltb_spec (relevance x) (relevance y)).
    + destruct (IH x) as (f & m & -> & Hf & Hm). exists (y :: f), m. split_and!; [done| |done].
      constructor; [lia|done].
    + destruct (IH y) as (f & m & -> & Hf & Hm). exists (x :: f), m. split_and!; [done| |lia].
      constructor; [lia|done].
Qed.

Definition descending : list search_result -> Prop := StronglySorted (fun a b => relevance b <= relevance a).

Lemma bubble_sort_spec n : forall seg tail junk, length seg = S n ->
  descending tail -> Forall (fun a => Forall (fun b => relevance b <= relevance a) tail) seg ->
  exists out, bubble_sort n (seg ++ tail ++ junk) = Ok (out ++ junk) /\ descending out /\
    Permutation out (seg ++ tail) /\ same_classes (seg ++ tail) out.
Proof.
  induction n as [|n IH]; intros [|x mid] tail junk Hl Hd Ha; cbn [length] in Hl; try lia; cbn [bubble_sort].
  - destruct mid; [|done]. exists ([x] ++ tail). split_and!; [by rewrite <- app_assoc| |done|done].
    cbn [app]. apply Forall_cons in Ha as [Ha _]. by constructor.
  - injection Hl as Hl. pose proof (bubble_pass_spec mid [] x (tail ++ junk)) as Hp. rewrite Hl in Hp.
    change (zlen (@nil search_result)) with 0 in Hp. cbn [app] in Hp |- *. rewrite Hp, bind_ret.
    pose proof (bubble_perm mid x) as Hperm. pose proof (bubble_classes mid x) as Hcl.
    destruct (bubble_last mid x) as (front & m & Hb & Hf & _). rewrite Hb in *.
    assert (Hge : Forall (fun a => Forall (fun b => relevance b <= relevance a) tail) (front ++ [m])) by (by rewrite <- Hperm).
    apply Forall_app in Hge as [Hgf Hgm]. apply Forall_cons in Hgm as [Hgm _].
    assert (Hlen : length front = S n).
    { apply Permutation_length in Hperm. rewrite length_app in Hperm. cbn [length] in Hperm. lia. }
    destruct (IH front (m :: tail) junk Hlen) as (out & Ho & Hdo & Hpo & Hco).
    + constructor; [done|]. exact Hgm.
    + apply Forall_forall. intros a Hin. rewrite Forall_forall in Hf, Hgf. constructor; [by apply Hf|by apply Hgf].
    + exists out. rewrite <- app_assoc. cbn [app]. split_and!; [done|done| |].
      * rewrite Hpo. change (m :: tail) with ([m] ++ tail). rewrite app_assoc. by rewrite <- Hperm.
      * intros r. rewrite <- (Hco r). change (m :: tail) with ([m] ++ tail). rewrite app_assoc.
        apply (same_classes_app (x :: mid) (front ++ [m]) tail tail); [exact Hcl|done].
Qed.

(** ** Properties *)

(** C33.  [contains_pattern] returns 1 exactly when the
    pattern occurs somewhere in the text up to the case of ASCII letters, and 0
    otherwise; it never reads behind either terminator. *)
Theorem contains_pattern_correct t p rt rp : nul_free t -> nul_free p ->
  exists r, contains_pattern (Some (cstr t rt)) (Some (cstr p rp)) = Ok r /\ (r = 0 \/ r = 1) /\
    (r = 1 <-> exists i, lower <$> take (length p) (drop i t) = lower <$> p /\
                         (i + length p <= length t)%nat).
Proof. apply contains_spec. Qed.

Lemma contains_pattern_correct_witness :
  let t := [83; 89; 83; 58; 32; 65; 114; 112] in
  exists r, contains_pattern (Some (cstr t [])) (Some (cstr [97; 82] [1])) = Ok r /\ (r = 0 \/ r = 1) /\
    (r = 1 <-> exists i, lower <$> take 2 (drop i t) = lower <$> [97; 82] /\ (i + 2 <= length t)%nat).
Proof.
  apply (contains_pattern_correct [83; 89; 83; 58; 32; 65; 114; 112] [97; 82] [] [1]);
    repeat (apply Forall_cons; split; [vm_compute; repeat split; congruence|]); constructor.
Defined.

(** C32.  The bubble sort puts the matches in descending
    order of their scores, keeps the order of equal scores, and leaves the rest
    of the array alone. *)
Theorem sort_matches_correct l junk : l <> [] ->
  exists out, sort_matches (l ++ junk) (zlen l) = Ok (out ++ junk) /\ Permutation out l /\
    StronglySorted (fun a b => relevance b <= relevance a) out /\ same_classes l out.
Proof.
  intros Hl. unfold sort_matches.
  destruct (bubble_sort_spec (Z.to_nat (zlen l - 1)) l [] junk) as (out & Ho & Hd & Hp & Hc).
  - destruct l; [done|]. unfold zlen. cbn [length]. lia.
  - constructor.
  - apply Forall_forall. intros. constructor.
  - rewrite app_nil_r in Hp, Hc. by exists out.
Qed.

Lemma sort_matches_correct_witness :
  let l := [Result [97; 0] [0] 5; Result [98; 0] [0] 30; Result [99; 0] [0] 5; Result [100; 0] [0] 15] in
  exists out, sort_matches (l ++ [blank_result]) 4 = Ok (out ++ [blank_result]) /\ Permutation out l /\
    StronglySorted (fun a b => relevance b <= relevance a) out /\ same_classes l out.
Proof.
  apply (sort_matches_correct
    [Result [97; 0] [0] 5; Result [98; 0] [0] 30; Result [99; 0] [0] 5; Result [100; 0] [0] 15] [blank_result]).
  discriminate.
Defined.
