(* ===== verification/Net.v ===== *)
(** * The network stack below the sockets *)
(** [src/net/net.c], [arp.c], [ip.c], [icmp.c], [udp.c], [tcp.c]: byte order and
    checksum, the interface table, the ARP cache, and the building and taking
    apart of frames.  The operations are computations over the state [net]; what
    they hand to the driver's [send] callback and what they print is the trace
    [n_out].  Packets are byte arrays with the packed layouts of
    [include/net.h].  Pointers into a packet are the rest of its array. *)

From Stdlib Require Import String.
From stdpp Require Import gmap.
From S2P Require Import Prelude Memory CString Ports.

Definition NET_MTU : Z := 1500.
Definition NET_FLAG_UP : Z := 1.
Definition NET_FLAG_RUNNING : Z := 2.
Definition ETHERTYPE_IPV4 : Z := 0x0800.
Definition ETHERTYPE_ARP : Z := 0x0806.
Definition ARP_OP_REQUEST : Z := 1.
Definition ARP_OP_REPLY : Z := 2.
Definition IP_PROTO_ICMP : Z := 1.
Definition IP_PROTO_TCP : Z := 6.
Definition IP_PROTO_UDP : Z := 17.
Definition ICMP_ECHO_REQUEST : Z := 8.
Definition ICMP_ECHO_REPLY : Z := 0.
(** The sizes of the packed headers. *)
Definition ETH_HDR : Z := 14.
Definition ARP_PKT : Z := 28.
Definition IPV4_HDR : Z := 20.
Definition ICMP_HDR : Z := 8.
Definition UDP_HDR : Z := 8.
Definition TCP_HDR : Z := 20.

Record net_interface_t := Iface {
  if_name : list Z;
  mac_addr : list Z;          (* 6 octets *)
  ip_addr : list Z;           (* 4 octets *)
  netmask : list Z;
  gateway : list Z;
  dns1 : list Z;
  dns2 : list Z;
  mtu : Z;
  flags : Z;
  if_send : bool;             (* is the callback set *)
  if_receive : bool
}.

Record arp_cache_entry_t := ArpEntry { a_ip : list Z; a_mac : list Z; a_age : Z; a_valid : Z }.

Inductive event :=
| Sent (frame : list Z)       (* iface->send(frame) *)
| Polled                      (* iface->receive() *)
| Printed (text : list Z).    (* vga_write_string(text) *)

Record net := Net {
  interfaces : list net_interface_t;   (* interfaces[1] *)
  num_interfaces : Z;
  arp_cache : list arp_cache_entry_t;  (* arp_cache[32] *)
  arp_cache_entries : Z;
  n_heap : heap;
  n_out : list event
}.

(** ** Byte order and checksum *)

Definition net_htons (value : Z) : Z :=
  Z.lor (Z.shiftl (Z.land value 0xFF) 8) (Z.land (Z.shiftr value 8) 0xFF).
Definition net_ntohs (value : Z) : Z := net_htons value.
Definition net_htonl (value : Z) : Z :=
  Z.lor (Z.lor (Z.lor (u32 (Z.shiftl (Z.land value 0xFF) 24)) (Z.shiftl (Z.land value 0xFF00) 8))
               (Z.land (Z.shiftr value 8) 0xFF00))
        (Z.land (Z.shiftr value 24) 0xFF).
Definition net_ntohl (value : Z) : Z := net_htonl value.

Fixpoint sum_words (n : nat) (data : list Z) (i sum : Z) : res Z :=
  match n with
  | O => Ok sum
  | S n => w ← rd16 data (2 * i); sum_words n data (i + 1) (u32 (sum + net_ntohs w))
  end.

(** [while (sum >> 16)]; a 32-bit sum is folded after two turns. *)
Fixpoint fold_carry (fuel : nat) (sum : Z) : res Z :=
  if Z.shiftr sum 16 =? 0 then Ok sum else
  match fuel with
  | O => Err OutOfFuel
  | S f => fold_carry f (u32 (Z.land sum 0xFFFF + Z.shiftr sum 16))
  end.

Definition net_checksum (data : list Z) (len : Z) : res Z :=
  sum ← sum_words (Z.to_nat (len / 2)) data 0 0;
  sum ← (if len mod 2 =? 0 then Ok sum else b ← rd data (len - 1); Ok (u32 (sum + b)));
  sum ← fold_carry 3 sum;
  Ok (u16 (Z.lnot sum)).

Definition net_set_ipaddr_bytes (a b c d : Z) : list Z := [a; b; c; d].
Definition net_set_macaddr_bytes (a b c d e f : Z) : list Z := [a; b; c; d; e; f].

(** ** State access *)

Definition emit (e : event) : M net unit := fun s =>
  Ok (tt, {| interfaces := interfaces s; num_interfaces := num_interfaces s;
             arp_cache := arp_cache s; arp_cache_entries := arp_cache_entries s;
             n_heap := n_heap s; n_out := n_out s ++ [e] |}).

Definition set_arp (c : list arp_cache_entry_t) (n : Z) : M net unit := fun s =>
  Ok (tt, {| interfaces := interfaces s; num_interfaces := num_interfaces s;
             arp_cache := c; arp_cache_entries := n; n_heap := n_heap s; n_out := n_out s |}).

Definition set_ifaces (l : list net_interface_t) (n : Z) : M net unit := fun s =>
  Ok (tt, {| interfaces := l; num_interfaces := n; arp_cache := arp_cache s;
             arp_cache_entries := arp_cache_entries s; n_heap := n_heap s; n_out := n_out s |}).

(** [malloc] as the senders use it: null, or the address and the block. *)
Definition alloc (size : Z) : M net (option (Z * list Z)) := fun s =>
  let '(ptr, h) := malloc size (n_heap s) in
  Ok (if ptr =? NULL then None else Some (ptr, fresh_block ptr size (n_heap s)),
      {| interfaces := interfaces s; num_interfaces := num_interfaces s;
         arp_cache := arp_cache s; arp_cache_entries := arp_cache_entries s;
         n_heap := h; n_out := n_out s |}).

Definition release (ptr : Z) : M net unit := fun s =>
  Ok (tt, {| interfaces := interfaces s; num_interfaces := num_interfaces s;
             arp_cache := arp_cache s; arp_cache_entries := arp_cache_entries s;
             n_heap := free ptr (n_heap s); n_out := n_out s |}).

(** ** Interfaces *)

Definition eth0 : list Z := [101; 116; 104; 48; 0].

Fixpoint get_from (fuel : nat) (l : list net_interface_t) (num : Z) (name : list Z) (i : Z)
    : res (option Z) :=
  if i <? num then
    match fuel with
    | O => Err OutOfFuel
    | S f =>
        x ← rd l i;
        c ← strcmp (if_name x) name;
        if c =? 0 then Ok (Some i) else get_from f l num name (i + 1)
    end
  else Ok None.

(** The index of the interface; its fields are read through it. *)
Definition net_get_interface (name : list Z) (s : net) : res (option Z) :=
  get_from (Z.to_nat (num_interfaces s)) (interfaces s) (num_interfaces s) name 0.

Definition net_register_interface (name : list Z) : M net (option Z) :=
  s ← getS;
  if 1 <=? num_interfaces s then mret None else
  x ← liftR (rd (interfaces s) (num_interfaces s));
  l ← liftR (wr (interfaces s) (num_interfaces s)
        {| if_name := name; mac_addr := mac_addr x; ip_addr := ip_addr x; netmask := netmask x;
           gateway := gateway x; dns1 := dns1 x; dns2 := dns2 x; mtu := NET_MTU;
           flags := NET_FLAG_UP; if_send := if_send x; if_receive := if_receive x |});
  set_ifaces l (num_interfaces s + 1) ;;
  mret (Some (num_interfaces s)).

Definition upd_iface (i : Z) (f : net_interface_t -> net_interface_t) : M net unit :=
  s ← getS;
  x ← liftR (rd (interfaces s) i);
  l ← liftR (wr (interfaces s) i (f x));
  set_ifaces l (num_interfaces s).

Definition net_set_ipaddr (i : Z) (addr : list Z) : M net unit :=
  upd_iface i (fun x => Iface (if_name x) (mac_addr x) addr (netmask x) (gateway x) (dns1 x) (dns2 x)
                          (mtu x) (flags x) (if_send x) (if_receive x)).
Definition net_set_netmask (i : Z) (mask : list Z) : M net unit :=
  upd_iface i (fun x => Iface (if_name x) (mac_addr x) (ip_addr x) mask (gateway x) (dns1 x) (dns2 x)
                          (mtu x) (flags x) (if_send x) (if_receive x)).

(** [net_get_interface("eth0")] and the interface it points to. *)
Definition the_iface : M net (option net_interface_t) :=
  s ← getS;
  i ← liftR (net_get_interface eth0 s);
  match i with
  | None => mret None
  | Some i => x ← liftR (rd (interfaces s) i); mret (Some x)
  end.

Definition net_send_packet (data : list Z) (len : Z) : M net unit :=
  s ← getS;
  if num_interfaces s =? 0 then mret tt else
  x ← liftR (rd (interfaces s) 0);
  if if_send x && negb (Z.land (flags x) NET_FLAG_UP =? 0)
  then d ← liftR (rd_field data 0 len); emit (Sent d)
  else mret tt.

Fixpoint poll_from (n : nat) (i : Z) : M net unit :=
  match n with
  | O => mret tt
  | S n =>
      s ← getS;
      x ← liftR (rd (interfaces s) i);
      (if if_receive x && negb (Z.land (flags x) NET_FLAG_RUNNING =? 0) then emit Polled else mret tt) ;;
      poll_from n (i + 1)
  end.

Definition net_poll : M net unit := s ← getS; poll_from (Z.to_nat (num_interfaces s)) 0.


(** ** ARP *)

Definition ARP_SLOTS : nat := 32.

Definition arp_init : M net unit :=
  set_arp (replicate ARP_SLOTS (ArpEntry [0;0;0;0] [0;0;0;0;0;0] 0 0)) 0.

(** [memcmp(&a, &b, sizeof(ipv4_addr_t)) == 0]. *)
Definition same_ip (a b : list Z) : res bool := r ← memcmp a b 4; Ok (r =? 0).

(** The loop of [arp_cache_learn]: the slot that holds [ip]. *)
Fixpoint learn_from (fuel : nat) (c : list arp_cache_entry_t) (n : Z) (ip : list Z) (i : Z)
    : res (option Z) :=
  if i <? n then
    match fuel with
    | O => Err OutOfFuel
    | S f =>
        e ← rd c i;
        b ← same_ip (a_ip e) ip;
        if (b : bool) then Ok (Some i) else learn_from f c n ip (i + 1)
    end
  else Ok None.

Definition arp_cache_learn (ip mac : list Z) : M net unit :=
  s ← getS;
  let c := arp_cache s in
  let n := arp_cache_entries s in
  i ← liftR (learn_from (Z.to_nat n) c n ip 0);
  match i with
  | Some i =>
      e ← liftR (rd c i);
      c ← liftR (wr c i (ArpEntry (a_ip e) mac (a_age e) 1));
      set_arp c n
  | None =>
      if n <? 32 then
        e ← liftR (rd c n);
        c ← liftR (wr c n (ArpEntry ip mac (a_age e) 1));
        set_arp c (n + 1)
      else mret tt
  end.

(** The loop of [arp_lookup]. *)
Fixpoint lookup_from (fuel : nat) (c : list arp_cache_entry_t) (n : Z) (ip : list Z) (i : Z)
    : res (option (list Z)) :=
  if i <? n then
    match fuel with
    | O => Err OutOfFuel
    | S f =>
        e ← rd c i;
        b ← (if a_valid e =? 0 then Ok false else same_ip (a_ip e) ip);
        if (b : bool) then Ok (Some (a_mac e)) else lookup_from f c n ip (i + 1)
    end
  else Ok None.

Definition broadcast : list Z := [255; 255; 255; 255; 255; 255].

(** The Ethernet header and the ARP packet behind it, in the block [b]. *)
Definition build_arp (b : list Z) (x : net_interface_t) (eth_dest : list Z) (opcode : Z)
    (target_mac target_ip : list Z) : res (list Z) :=
  b ← wr_field b 0 eth_dest;
  b ← wr_field b 6 (mac_addr x);
  b ← wr16 b 12 (net_htons ETHERTYPE_ARP);
  b ← wr16 b (14 + 0) (net_htons 1);
  b ← wr16 b (14 + 2) (net_htons ETHERTYPE_IPV4);
  b ← wr b (14 + 4) 6;
  b ← wr b (14 + 5) 4;
  b ← wr16 b (14 + 6) (net_htons opcode);
  b ← wr_field b (14 + 8) (mac_addr x);
  b ← wr_field b (14 + 14) (ip_addr x);
  b ← wr_field b (14 + 18) target_mac;
  wr_field b (14 + 24) target_ip.

Definition arp_request (target_ip : list Z) : M net unit :=
  x ← the_iface;
  match x with
  | None => mret tt
  | Some x =>
      m ← alloc (ETH_HDR + ARP_PKT);
      match m with
      | None => mret tt
      | Some (ptr, b) =>
          b ← liftR (build_arp b x broadcast ARP_OP_REQUEST [0;0;0;0;0;0] target_ip);
          net_send_packet b (ETH_HDR + ARP_PKT) ;;
          release ptr
      end
  end.

Definition arp_send_reply (dest_ip dest_mac : list Z) : M net unit :=
  x ← the_iface;
  match x with
  | None => mret tt
  | Some x =>
      m ← alloc (ETH_HDR + ARP_PKT);
      match m with
      | None => mret tt
      | Some (ptr, b) =>
          b ← liftR (build_arp b x dest_mac ARP_OP_REPLY dest_mac dest_ip);
          net_send_packet b (ETH_HDR + ARP_PKT) ;;
          release ptr
      end
  end.

Definition arp_lookup (ip : list Z) : M net (list Z) :=
  s ← getS;
  m ← liftR (lookup_from (Z.to_nat (arp_cache_entries s)) (arp_cache s) (arp_cache_entries s) ip 0);
  match m with
  | Some mac => mret mac
  | None => arp_request ip ;; mret broadcast
  end.

Definition arp_handle_packet (data : list Z) (len : Z) : M net unit :=
  if len <? ARP_PKT then mret tt else
  hw ← liftR (rd16 data 0);
  if negb (net_ntohs hw =? 1) then mret tt else
  proto ← liftR (rd16 data 2);
  if negb (net_ntohs proto =? ETHERTYPE_IPV4) then mret tt else
  x ← the_iface;
  match x with
  | None => mret tt
  | Some x =>
      sip ← liftR (rd_field data 14 4);
      smac ← liftR (rd_field data 8 6);
      arp_cache_learn sip smac ;;
      op ← liftR (rd16 data 6);
      if net_ntohs op =? ARP_OP_REQUEST then
        tip ← liftR (rd_field data 24 4);
        mine ← liftR (same_ip tip (ip_addr x));
        if (mine : bool) then arp_send_reply sip smac else mret tt
      else mret tt
  end.

(** ** ICMP *)

Definition icmp_send_echo_reply (data : list Z) (len : Z) : M net unit :=
  m ← alloc len;
  match m with
  | None => mret tt
  | Some (ptr, b) =>
      b ← liftR (memcpy_at b 0 data 0 len);
      b ← liftR (wr b 0 ICMP_ECHO_REPLY);
      b ← liftR (wr16 b 2 0);
      ck ← liftR (net_checksum b len);
      b ← liftR (wr16 b 2 ck);
      emit (Printed (chars "ICMP Echo Reply" ++ [10])) ;;
      release ptr
  end.

Definition icmp_handle_packet (data : list Z) (len : Z) : M net unit :=
  if len <? ICMP_HDR then mret tt else
  ty ← liftR (rd data 0);
  if ty =? ICMP_ECHO_REQUEST then icmp_send_echo_reply data len else mret tt.

Definition udp_handle_packet (data : list Z) (len : Z) : M net unit :=
  if len <? UDP_HDR then mret tt else mret tt.
Definition tcp_handle_packet (data : list Z) (len : Z) : M net unit :=
  if len <? TCP_HDR then mret tt else mret tt.

(** ** IP *)

(** [data + ihl] as a pointer: past the end of the array it is one nobody may
    read through. *)
Definition ip_dispatch (protocol : Z) (payload : list Z) (payload_len : Z) : M net unit :=
  if protocol =? IP_PROTO_ICMP then icmp_handle_packet payload payload_len
  else if protocol =? IP_PROTO_UDP then udp_handle_packet payload payload_len
  else if protocol =? IP_PROTO_TCP then tcp_handle_packet payload payload_len
  else mret tt.

Definition ip_handle_packet (data : list Z) (len : Z) : M net unit :=
  if len <? IPV4_HDR then mret tt else
  x ← the_iface;
  match x with
  | None => mret tt
  | Some x =>
      version_ihl ← liftR (rd data 0);
      if negb (Z.shiftr version_ihl 4 =? 4) then mret tt else
      dest ← liftR (rd_field data 16 4);
      mine ← liftR (same_ip dest (ip_addr x));
      if negb (mine : bool) then mret tt else
      let ihl := Z.land version_ihl 0x0F * 4 in
      if len <? ihl then mret tt else
      total ← liftR (rd16 data 2);
      let payload_len := u16 (net_ntohs total - ihl) in
      protocol ← liftR (rd data 9);
      ip_dispatch protocol (drop (Z.to_nat ihl) data) payload_len
  end.

(** The IPv4 header at offset 14 of the block [b], checksum zero. *)
Definition build_ip (b : list Z) (x : net_interface_t) (dest : list Z) (proto len : Z) : res (list Z) :=
  b ← wr16 b 12 (net_htons ETHERTYPE_IPV4);
  b ← wr b (14 + 0) (Z.lor (Z.shiftl 4 4) 5);
  b ← wr b (14 + 1) 0;
  b ← wr16 b (14 + 2) (net_htons (u16 (IPV4_HDR + len)));
  b ← wr16 b (14 + 4) 0;
  b ← wr16 b (14 + 6) 0;
  b ← wr b (14 + 8) 64;
  b ← wr b (14 + 9) proto;
  b ← wr_field b (14 + 12) (ip_addr x);
  b ← wr_field b (14 + 16) dest;
  wr16 b (14 + 10) 0.

Definition ip_send_packet (dest : list Z) (proto : Z) (data : list Z) (len : Z) : M net unit :=
  x ← the_iface;
  match x with
  | None => mret tt
  | Some x =>
      let total_len := u16 (ETH_HDR + IPV4_HDR + len) in
      m ← alloc total_len;
      match m with
      | None => mret tt
      | Some (ptr, b) =>
          b ← liftR (wr_field b 6 (mac_addr x));
          mac ← arp_lookup dest;
          b ← liftR (wr_field b 0 mac);
          b ← liftR (build_ip b x dest proto len);
          ck ← liftR (net_checksum (drop 14 b) IPV4_HDR);
          b ← liftR (wr16 b (14 + 10) ck);
          b ← liftR (memcpy_at b (14 + 20) data 0 len);
          net_send_packet b total_len ;;
          release ptr
      end
  end.

Fixpoint count_bytes (n : nat) (i : Z) : list Z :=
  match n with O => [] | S n => i :: count_bytes n (i + 1) end.

Definition icmp_send_echo_request (dest : list Z) : M net unit :=
  m ← alloc (ICMP_HDR + 32);
  match m with
  | None => mret tt
  | Some (ptr, b) =>
      b ← liftR (wr b 0 ICMP_ECHO_REQUEST);
      b ← liftR (wr b 1 0);
      b ← liftR (wr16 b 4 (net_htons 0x1234));
      b ← liftR (wr16 b 6 (net_htons 1));
      b ← liftR (wr_field b 8 (count_bytes 32 0));
      b ← liftR (wr16 b 2 0);
      ck ← liftR (net_checksum b (ICMP_HDR + 32));
      b ← liftR (wr16 b 2 ck);
      ip_send_packet dest IP_PROTO_ICMP b (ICMP_HDR + 32) ;;
      release ptr
  end.

Definition udp_send_packet (dest : list Z) (src_port dest_port : Z) (data : list Z) (len : Z) : M net unit :=
  m ← alloc (UDP_HDR + len);
  match m with
  | None => mret tt
  | Some (ptr, b) =>
      b ← liftR (wr16 b 0 (net_htons src_port));
      b ← liftR (wr16 b 2 (net_htons dest_port));
      b ← liftR (wr16 b 4 (net_htons (u16 (UDP_HDR + len))));
      b ← liftR (memcpy_at b 8 data 0 len);
      b ← liftR (wr16 b 6 0);
      ip_send_packet dest IP_PROTO_UDP b (u16 (UDP_HDR + len)) ;;
      release ptr
  end.

Definition tcp_send_packet (dest : list Z) (src_port dest_port seq_num ack_num fl : Z)
    (data : list Z) (len : Z) : M net unit :=
  m ← alloc (TCP_HDR + len);
  match m with
  | None => mret tt
  | Some (ptr, b) =>
      b ← liftR (wr16 b 0 (net_htons src_port));
      b ← liftR (wr16 b 2 (net_htons dest_port));
      b ← liftR (wr32 b 4 (net_htonl seq_num));
      b ← liftR (wr32 b 8 (net_htonl ack_num));
      b ← liftR (wr b 12 (Z.shiftl 5 4));
      b ← liftR (wr b 13 fl);
      b ← liftR (wr16 b 14 (net_htons 65535));
      b ← liftR (wr16 b 18 0);
      b ← liftR (memcpy_at b 20 data 0 len);
      b ← liftR (wr16 b 16 0);
      ck ← liftR (net_checksum b (TCP_HDR + len));
      b ← liftR (wr16 b 16 ck);
      ip_send_packet dest IP_PROTO_TCP b (u16 (TCP_HDR + len)) ;;
      release ptr
  end.

(** ** Frames from the driver *)

Definition net_receive_frame (data : list Z) (len : Z) : M net unit :=
  if len <? ETH_HDR then mret tt else
  ty ← liftR (rd16 data 12);
  if net_ntohs ty =? ETHERTYPE_ARP then arp_handle_packet (drop 14 data) (len - ETH_HDR)
  else if net_ntohs ty =? ETHERTYPE_IPV4 then ip_handle_packet (drop 14 data) (len - ETH_HDR)
  else mret tt.

(** The four other [_init]s have empty bodies. *)
Definition net_init : M net unit :=
  emit (Printed (chars "Initializing network stack..." ++ [10])) ;;
  arp_init ;;
  emit (Printed (chars "Network stack initialized" ++ [10])).

(** ** The RTL8139 driver, [src/net/netdrv.c] *)

Definition rtl8139_init : M net unit :=
  emit (Printed (chars "Initializing RTL8139 network driver..." ++ [10])) ;;
  i ← net_register_interface eth0;
  match i with
  | None => emit (Printed (chars "Failed to register eth0" ++ [10]))
  | Some i =>
      upd_iface i (fun x =>
        {| if_name := if_name x;
           mac_addr := net_set_macaddr_bytes 0x52 0x54 0x00 0x12 0x34 0x56;
           ip_addr := net_set_ipaddr_bytes 192 168 1 100;
           netmask := net_set_ipaddr_bytes 255 255 255 0;
           gateway := net_set_ipaddr_bytes 192 168 1 1;
           dns1 := net_set_ipaddr_bytes 8 8 8 8;
           dns2 := net_set_ipaddr_bytes 8 8 4 4;
           mtu := mtu x;
           flags := Z.lor (flags x) NET_FLAG_RUNNING;
           if_send := true; if_receive := true |}) ;;
      emit (Printed (chars "RTL8139 driver initialized" ++ [10])) ;;
      emit (Printed (chars "eth0: 192.168.1.100" ++ [10]))
  end.

(** What the [send] callback prints for a frame once [net_iface] is set: the
    driver transmits nothing.  [buf] is its local [char buf[16]]. *)
Definition rtl8139_send (net_iface : bool) (len : Z) (buf : list Z) : res (list Z) :=
  if negb net_iface || (NET_MTU <? len) then Ok [] else
  buf ← itoa len buf 10;
  n ← strlen buf;
  Ok (chars "TX: " ++ take (Z.to_nat n) buf ++ chars " bytes" ++ [10]).

(** The driver receives nothing, and its interrupt is only acknowledged. *)
Definition rtl8139_receive : M net unit := mret tt.
Definition rtl8139_irq_handler `{Bus P} (net_iface : bool) (p : P) : P :=
  if net_iface then outb 0x20 0x20 p else p.
Definition net_driver_init : M net unit := rtl8139_init.

(** * Properties *)

(** ** Byte order *)

Lemma net_htons_spec v : is_u16 v -> net_htons v = v / 256 + 256 * (v mod 256).
Proof.
  intros Hv. unfold net_htons. rewrite !(land_mask _ 8) by done. rewrite Z.shiftr_div_pow2 by done.
  rewrite Z.lor_comm. rewrite lor_shiftl; [|done|apply Z.mod_pos_bound; done].
  change (2 ^ 8) with 256. unfold is_u16 in Hv.
  rewrite (Z.mod_small (v / 256)) by (Z.to_euclidean_division_equations; lia). lia.
Qed.

Lemma net_htons_u16 v : is_u16 v -> is_u16 (net_htons v).
Proof.
  intros Hv. rewrite net_htons_spec by done. unfold is_u16 in *.
  Z.to_euclidean_division_equations; lia.
Qed.

Lemma net_ntohs_htons v : is_u16 v -> net_ntohs (net_htons v) = v.
Proof.
  intros Hv. unfold net_ntohs. rewrite net_htons_spec by (by apply net_htons_u16).
  rewrite net_htons_spec by done. unfold is_u16 in Hv. Z.to_euclidean_division_equations; lia.
Qed.

(** The two octets of a 16-bit value in network order. *)
Definition be16 (v : Z) : list Z := [v / 256; v mod 256].

Lemma wr16_htons l off v : is_u16 v ->
  wr16 l off (net_htons v) = (l ← wr l off (v / 256); wr l (off + 1) (v mod 256)).
Proof.
  intros Hv. unfold wr16. rewrite !(land_mask _ 8), Z.shiftr_div_pow2 by done.
  rewrite net_htons_spec by done. unfold is_u16 in Hv.
  replace ((v / 256 + 256 * (v mod 256)) mod 2 ^ 8) with (v / 256)
    by (Z.to_euclidean_division_equations; lia).
  by replace (((v / 256 + 256 * (v mod 256)) / 2 ^ 8) mod 2 ^ 8) with (v mod 256)
    by (Z.to_euclidean_division_equations; lia).
Qed.

Lemma ntohs_rd16 l off a b : zget l off = Some a -> zget l (off + 1) = Some b ->
  is_u8 a -> is_u8 b -> exists w, rd16 l off = Ok w /\ net_ntohs w = 256 * a + b.
Proof.
  intros Ha Hb Ua Ub. exists (a + 256 * b). split; [by apply rd16_spec|].
  unfold net_ntohs, is_u8 in *. rewrite net_htons_spec by (unfold is_u16; lia).
  Z.to_euclidean_division_equations; lia.
Qed.

(** ** The checksum *)

(** The words of an array in network order, and an odd last byte as it is. *)
Fixpoint be_sum (l : list Z) : Z :=
  match l with
  | a :: b :: l => 256 * a + b + be_sum l
  | [a] => a
  | [] => 0
  end.

Lemma be_sum_bound n : forall l, (length l <= n)%nat -> Forall is_u8 l ->
  0 <= be_sum l /\ 2 * be_sum l <= 65536 * zlen l.
Proof.
  induction n as [|n IH]; intros [|a [|b l]] Hn Hl; unfold zlen in *; cbn in Hn |- *; try lia.
  - apply Forall_cons in Hl as [Ha _]. unfold is_u8 in Ha. lia.
  - apply Forall_cons in Hl as [Ha [Hb Hl]%Forall_cons]. unfold is_u8 in Ha, Hb.
    destruct (IH l) as [? ?]; [lia|done|]. lia.
Qed.

(** Folding ends, with the residue modulo [65535] in [1..65535], or [0] for [0]. *)
Definition ones (sum : Z) : Z := if sum =? 0 then 0 else (sum - 1) mod 65535 + 1.

Lemma ones_step sum : 65536 <= sum -> ones (sum mod 65536 + sum / 65536) = ones sum.
Proof.
  intros Hs. unfold ones.
  rewrite (proj2 (Z.eqb_neq _ _)) by (Z.to_euclidean_division_equations; lia).
  rewrite (proj2 (Z.eqb_neq sum 0)) by lia. f_equal.
  replace (sum - 1) with (sum mod 65536 + sum / 65536 - 1 + sum / 65536 * 65535)
    by (Z.to_euclidean_division_equations; lia).
  by rewrite Z_mod_plus_full.
Qed.

Lemma fold_carry_spec f : forall sum, is_u32 sum ->
  (match f with O => sum < 65536 | 1%nat => sum < 65536 + 65535 | 2%nat => sum < 2 ^ 17 | _ => True end) ->
  fold_carry f sum = Ok (ones sum).
Proof.
  assert (Hsmall : forall f sum, 0 <= sum < 65536 -> fold_carry f sum = Ok (ones sum)).
  { intros g sum Hs. assert (Hz : (Z.shiftr sum 16 =? 0) = true).
    { apply Z.eqb_eq. rewrite Z.shiftr_div_pow2 by done. by apply Z.div_small. }
    assert (Ho : ones sum = sum).
    { unfold ones. destruct (sum =? 0) eqn:E; [lia|]. rewrite Z.mod_small; lia. }
    destruct g; cbn [fold_carry]; rewrite Hz, Ho; done. }
  induction f as [|f IH]; intros sum Hu Hb; unfold is_u32 in Hu.
  { apply Hsmall. lia. }
  destruct (Z.lt_ge_cases sum 65536) as [Hl|Hl]; [apply Hsmall; lia|].
  cbn [fold_carry]. rewrite Z.shiftr_div_pow2 by done.
  rewrite (land_mask _ 16) by done. change (2 ^ 16) with 65536.
  rewrite (proj2 (Z.eqb_neq _ _)) by (Z.to_euclidean_division_equations; lia).
  rewrite u32_id by (unfold is_u32; Z.to_euclidean_division_equations; lia).
  rewrite IH; [rewrite ones_step by lia; done| |].
  - unfold is_u32. Z.to_euclidean_division_equations; lia.
  - destruct f as [|[|[|f]]]; try done; Z.to_euclidean_division_equations; lia.
Qed.

Lemma sum_words_spec n : forall data i sum, Forall is_u8 data -> 0 <= i ->
  2 * (i + Z.of_nat n) <= zlen data -> 0 <= sum ->
  sum + be_sum (slice data (2 * i) (2 * Z.of_nat n)) < 2 ^ 32 ->
  sum_words n data i sum = Ok (sum + be_sum (slice data (2 * i) (2 * Z.of_nat n))).
Proof.
  induction n as [|n IH]; intros data i sum Hd Hi Hlen Hs Hb; cbn [sum_words].
  { unfold slice. rewrite take_0. cbn [be_sum]. f_equal. lia. }
  destruct (rd_total data (2 * i)) as [a Ha]; [lia|].
  destruct (rd_total data (2 * i + 1)) as [b Hb']; [lia|].
  assert (Hsl : slice data (2 * i) (2 * Z.of_nat (S n)) =
    a :: b :: slice data (2 * (i + 1)) (2 * Z.of_nat n)).
  { replace (2 * Z.of_nat (S n)) with (1 + (1 + 2 * Z.of_nat n)) by lia.
    rewrite slice_add, (slice_one _ _ _ Ha) by lia. rewrite slice_add, (slice_one _ _ _ Hb') by lia.
    cbn. do 3 f_equal. lia. }
  rewrite Hsl in Hb |- *. cbn [be_sum] in Hb |- *.
  apply rd_Ok in Ha as Ga, Hb' as Gb.
  assert (Ua : is_u8 a) by (apply zget_Some in Ga as [_ Ga]; by eapply Forall_lookup_1).
  assert (Ub : is_u8 b) by (apply zget_Some in Gb as [_ Gb]; by eapply Forall_lookup_1).
  destruct (ntohs_rd16 _ _ _ _ Ga Gb Ua Ub) as (w & -> & Hw). rewrite bind_ret, Hw.
  assert (0 <= be_sum (slice data (2 * (i + 1)) (2 * Z.of_nat n))).
  { eapply be_sum_bound; [done|]. by apply Forall_take, Forall_drop. }
  unfold is_u8 in *. rewrite u32_id by (unfold is_u32; lia). rewrite IH; [f_equal; lia|done|lia..].
Qed.

Lemma be_sum_app n : forall l1 l2, length l1 = (2 * n)%nat -> be_sum (l1 ++ l2) = be_sum l1 + be_sum l2.
Proof.
  induction n as [|n IH]; intros [|a [|b l1]] l2 Hl; cbn in Hl; try lia; cbn [app be_sum]; [done|].
  rewrite IH by lia. lia.
Qed.

Lemma ones_range s : 0 <= s -> 0 <= ones s <= 65535.
Proof. intros. unfold ones. destruct (s =? 0); [lia|]. Z.to_euclidean_division_equations; lia. Qed.

(** The number of bytes for which the 32-bit sum cannot wrap. *)
Definition CHECKSUM_MAX : Z := 131070.

Lemma net_checksum_spec data len : Forall is_u8 data -> 0 <= len <= zlen data -> len <= CHECKSUM_MAX ->
  net_checksum data len = Ok (65535 - ones (be_sum (slice data 0 len))).
Proof.
  intros Hd Hlen Hmax. unfold net_checksum, CHECKSUM_MAX in *.
  assert (Hb : 0 <= be_sum (slice data 0 len) < 2 ^ 32).
  { destruct (be_sum_bound _ (slice data 0 len) (le_n _)); [by apply Forall_take, Forall_drop|].
    rewrite zlen_slice in * by lia. lia. }
  pose proof (Z.div_mod len 2 ltac:(lia)) as Hdiv.
  pose proof (Z.mod_pos_bound len 2 ltac:(lia)) as Hmod.
  assert (Hk : 0 <= len / 2) by (apply Z.div_pos; lia).
  set (k := len / 2) in *.
  assert (Hsplit : be_sum (slice data 0 len) =
    be_sum (slice data 0 (2 * k)) + be_sum (slice data (2 * k) (len mod 2))).
  { rewrite Hdiv at 1. rewrite slice_add by lia. apply (be_sum_app (Z.to_nat k)).
    pose proof (zlen_slice data 0 (2 * k) ltac:(lia) ltac:(lia) ltac:(lia)) as Hs. unfold zlen in Hs. lia. }
  assert (Hpos : 0 <= be_sum (slice data (2 * k) (len mod 2))).
  { eapply be_sum_bound; [done|]. by apply Forall_take, Forall_drop. }
  rewrite (sum_words_spec (Z.to_nat k) data 0 0); change (2 * 0) with 0; rewrite ?Z2Nat.id by lia; [|done|lia..].
  rewrite bind_ret.
  assert (Hsum : (if len mod 2 =? 0 then Ok (0 + be_sum (slice data 0 (2 * k)))
      else b ← rd data (len - 1); Ok (u32 (0 + be_sum (slice data 0 (2 * k)) + b))) =
      Ok (be_sum (slice data 0 len))).
  { rewrite Hsplit in Hb |- *. destruct (Z.eqb_spec (len mod 2) 0) as [E|E].
    - rewrite E in *. unfold slice at 3. rewrite take_0. cbn [be_sum]. f_equal. lia.
    - assert (E1 : len mod 2 = 1) by lia. rewrite E1 in *. replace (len - 1) with (2 * k) by lia.
      destruct (rd_total data (2 * k)) as [b Hr]; [lia|].
      rewrite Hr. rewrite bind_ret. rewrite (slice_one _ _ _ Hr) in *. cbn [be_sum] in *.
      by rewrite u32_id by (unfold is_u32; lia). }
  rewrite Hsum, bind_ret, fold_carry_spec by (exact I || (unfold is_u32; lia)). rewrite bind_ret.
  pose proof (ones_range _ (proj1 Hb)). f_equal. unfold u16, Z.lnot. Z.to_euclidean_division_equations; lia.
Qed.

Lemma be_sum_at pre a b post : Nat.Even (length pre) ->
  be_sum (pre ++ a :: b :: post) = be_sum pre + (256 * a + b) + be_sum post.
Proof. intros [n Hn]. rewrite (be_sum_app n) by done. cbn [be_sum]. lia. Qed.

Lemma ones_zero s : 0 <= s -> 65535 - ones s = 0 <-> 0 < s /\ s mod 65535 = 0.
Proof.
  intros Hs. unfold ones. destruct (Z.eqb_spec s 0) as [->|Hn]; [lia|].
  Z.to_euclidean_division_equations; lia.
Qed.

(** A checksum computed with the field zero and stored high byte first
    makes the checksum of the whole come out as zero, which is how a receiver
    verifies it.  Stored low byte first, as [ip->checksum = net_checksum(..)]
    does on the little-endian target, it verifies only if the two bytes are the
    same. *)
Lemma checksum_verifies pre post :
  Forall is_u8 (pre ++ 0 :: 0 :: post) -> Nat.Even (length pre) ->
  zlen (pre ++ 0 :: 0 :: post) <= CHECKSUM_MAX ->
  exists hi lo, is_u8 hi /\ is_u8 lo /\
    net_checksum (pre ++ 0 :: 0 :: post) (zlen (pre ++ 0 :: 0 :: post)) = Ok (256 * hi + lo) /\
    net_checksum (pre ++ hi :: lo :: post) (zlen (pre ++ hi :: lo :: post)) = Ok 0 /\
    wr16 (pre ++ 0 :: 0 :: post) (zlen pre) (256 * hi + lo) = Ok (pre ++ lo :: hi :: post) /\
    (net_checksum (pre ++ lo :: hi :: post) (zlen (pre ++ lo :: hi :: post)) = Ok 0 <-> hi = lo).
Proof.
  intros Hu He Hmax.
  assert (Hslice : forall l : list Z, slice l 0 (zlen l) = l).
  { intros l. unfold slice, zlen. by rewrite Nat2Z.id, drop_0, firstn_all. }
  assert (Hlen : forall a b, zlen (pre ++ a :: b :: post) = zlen (pre ++ 0 :: 0 :: post))
    by (intros; unfold zlen; by rewrite !length_app).
  assert (Hall : forall a b, is_u8 a -> is_u8 b -> Forall is_u8 (pre ++ a :: b :: post)).
  { intros a b Ua Ub. apply Forall_app in Hu as [? (? & [? ?]%Forall_cons)%Forall_cons].
    apply Forall_app. split; [done|]. by do 2 (apply Forall_cons; split; [done|]). }
  assert (Hck : forall a b, is_u8 a -> is_u8 b ->
    net_checksum (pre ++ a :: b :: post) (zlen (pre ++ a :: b :: post)) =
    Ok (65535 - ones (be_sum pre + be_sum post + (256 * a + b)))).
  { intros a b Ua Ub. rewrite net_checksum_spec, Hslice, be_sum_at;
      [do 3 f_equal; lia | done | by apply Hall | split; [apply zlen_nonneg|lia] | by rewrite Hlen]. }
  assert (Hs : 0 <= be_sum pre + be_sum post).
  { pose proof (Hall 0 0 ltac:(split; lia) ltac:(split; lia)) as [? (_ & [_ ?]%Forall_cons)%Forall_cons]%Forall_app.
    pose proof (be_sum_bound _ pre (le_n _)). pose proof (be_sum_bound _ post (le_n _)). intuition lia. }
  set (s := be_sum pre + be_sum post) in *. pose proof (ones_range s Hs) as Ho.
  exists ((65535 - ones s) / 256), ((65535 - ones s) mod 256).
  assert (Hones : ones s = 0 /\ s = 0 \/ 0 < ones s /\ 0 < s /\ (s - ones s) mod 65535 = 0).
  { unfold ones. destruct (Z.eqb_spec s 0); [by left|right]. Z.to_euclidean_division_equations; lia. }
  set (c := 65535 - ones s) in *.
  assert (Uhi : is_u8 (c / 256)) by (unfold is_u8; Z.to_euclidean_division_equations; lia).
  assert (Ulo : is_u8 (c mod 256)) by (unfold is_u8; Z.to_euclidean_division_equations; lia).
  assert (Hc : 256 * (c / 256) + c mod 256 = c) by (Z.to_euclidean_division_equations; lia).
  rewrite Hc, !Hck by (done || unfold is_u8; lia).
  split; [done|]. split; [done|]. split; [f_equal; unfold c; do 2 f_equal; lia|].
  split; [|split].
  - f_equal. apply ones_zero; [lia|]. Z.to_euclidean_division_equations; lia.
  - unfold wr16. rewrite wr_mid, bind_ret, !(land_mask _ 8), Z.shiftr_div_pow2 by done.
    change (2 ^ 8) with 256. rewrite (Z.mod_small (c / 256)) by done.
    pose proof (wr_mid (pre ++ [c mod 256]) 0 post (c / 256)) as Hw.
    rewrite zlen_app, <- !app_assoc in Hw. exact Hw.
  - unfold is_u8 in *. split.
    + intros [= Hz]. apply ones_zero in Hz; [|lia]. clear Hck Hall Hlen Hslice.
      Z.to_euclidean_division_equations; lia.
    + intros Heq. f_equal. apply ones_zero; [lia|]. rewrite <- Heq at 2.
      rewrite Heq at 1. clear Hck Hall Hlen Hslice. Z.to_euclidean_division_equations; lia.
Qed.

(** ** The ARP cache as a finite map *)

Lemma same_ip_spec a b : length a = 4%nat -> length b = 4%nat -> same_ip a b = Ok (bool_decide (a = b)).
Proof.
  intros Ha Hb. unfold same_ip. destruct (memcmp_spec 4 a b) as (r & -> & Hr); [lia..|].
  rewrite bind_ret. f_equal. rewrite !take_ge in Hr by lia.
  destruct (Z.eqb_spec r 0) as [->|Hn]; symmetry.
  - by apply bool_decide_eq_true, Hr.
  - apply bool_decide_eq_false. intros E. by apply Hn, Hr.
Qed.

Definition a_kv (e : arp_cache_entry_t) : list Z * list Z := (a_ip e, a_mac e).

Definition arp_map (c : list arp_cache_entry_t) (n : Z) : gmap (list Z) (list Z) :=
  list_to_map (a_kv <$> slice c 0 n).

(** A live entry; the table: 32 slots, the first [n] live, one per address. *)
Definition live (e : arp_cache_entry_t) : Prop := length (a_ip e) = 4%nat /\ a_valid e <> 0.

Definition arp_wf (c : list arp_cache_entry_t) (n : Z) : Prop :=
  length c = ARP_SLOTS /\ 0 <= n <= 32 /\ Forall live (slice c 0 n) /\ NoDup (a_ip <$> slice c 0 n).

Lemma lookup_from_spec f : forall c n ip i, length ip = 4%nat -> 0 <= i -> n - i <= Z.of_nat f ->
  n <= zlen c -> Forall live (slice c i (n - i)) ->
  lookup_from f c n ip i = Ok ((list_to_map (a_kv <$> slice c i (n - i)) : gmap _ _) !! ip).
Proof.
  induction f as [|f IH]; intros c n ip i Hip Hi Hf Hn Hl; cbn [lookup_from].
  { rewrite (proj2 (Z.ltb_ge _ _)) by lia. by rewrite slice_empty by lia. }
  destruct (Z.ltb_spec i n) as [Hin|]; [|by rewrite slice_empty by lia].
  destruct (rd_total c i) as [e He]; [lia|]. rewrite He, bind_ret.
  rewrite (slice_head _ _ _ _ He) in Hl |- * by lia. apply Forall_cons in Hl as [[Ha Hv] Hl].
  rewrite (proj2 (Z.eqb_neq _ _)) by done. rewrite same_ip_spec by done. rewrite bind_ret.
  rewrite fmap_cons. change (a_kv e) with (a_ip e, a_mac e). rewrite list_to_map_cons.
  case_bool_decide as Heq.
  - by rewrite <- Heq, lookup_insert_eq.
  - rewrite lookup_insert_ne by done. replace (n - i - 1) with (n - (i + 1)) in * by lia.
    apply IH; done || lia.
Qed.

Lemma learn_from_spec f : forall c n ip i, length ip = 4%nat -> 0 <= i -> n - i <= Z.of_nat f ->
  n <= zlen c -> Forall live (slice c i (n - i)) ->
  (exists j e, learn_from f c n ip i = Ok (Some j) /\ i <= j < n /\ rd c j = Ok e /\ a_ip e = ip) \/
  (learn_from f c n ip i = Ok None /\ ip ∉ a_ip <$> slice c i (n - i)).
Proof.
  induction f as [|f IH]; intros c n ip i Hip Hi Hf Hn Hl; cbn [learn_from].
  { right. rewrite (proj2 (Z.ltb_ge _ _)), slice_empty by lia. split; [done|]. apply not_elem_of_nil. }
  destruct (Z.ltb_spec i n) as [Hin|].
  2:{ right. rewrite slice_empty by lia. split; [done|]. apply not_elem_of_nil. }
  destruct (rd_total c i) as [e He]; [lia|]. rewrite He, bind_ret.
  rewrite (slice_head _ _ _ _ He) in Hl |- * by lia. apply Forall_cons in Hl as [[Ha Hv] Hl].
  rewrite same_ip_spec by done. rewrite bind_ret. case_bool_decide as Heq.
  - left. exists i, e. by repeat split; try lia.
  - replace (n - i - 1) with (n - (i + 1)) in * by lia.
    destruct (IH c n ip (i + 1) Hip) as [(j & e' & -> & Hj & Hr & Hie)|[-> Hni]]; [lia|lia|lia|done|..].
    + left. exists j, e'. by repeat split; try lia.
    + right. split; [done|]. rewrite fmap_cons. apply not_elem_of_cons. done.
Qed.

(** [l] around a cell. *)
Lemma slice_around {A} (l : list A) n j x : rd l j = Ok x -> 0 <= j < n -> n <= zlen l ->
  slice l 0 n = slice l 0 j ++ x :: slice l (j + 1) (n - (j + 1)) /\
  forall y, slice (<[Z.to_nat j := y]> l) 0 n = slice l 0 j ++ y :: slice l (j + 1) (n - (j + 1)).
Proof.
  intros Hx Hj Hn. apply rd_Ok in Hx as Hg.
  assert (Hs : forall (l' : list A) y, rd l' j = Ok y -> zlen l' = zlen l ->
    slice l' 0 n = slice l' 0 j ++ y :: slice l' (j + 1) (n - (j + 1))).
  { intros l' y Hy Hl. replace n with (j + (n - j)) at 1 by lia.
    rewrite slice_add, Z.add_0_l by lia. rewrite (slice_head _ _ _ _ Hy) by lia. do 3 f_equal. lia. }
  split; [by apply Hs|]. intros y. rewrite (Hs _ y).
  - rewrite !slice_insert_out by lia. done.
  - apply rd_Ok, zget_insert_eq. lia.
  - apply zlen_insert.
Qed.

(** What learning a pair does to the map: a known address is updated, a new one
    added while there is room for it. *)
Definition learn_spec (m : gmap (list Z) (list Z)) (p : list Z * list Z) : gmap (list Z) (list Z) :=
  if decide (is_Some (m !! p.1) \/ (size m < ARP_SLOTS)%nat) then <[p.1 := p.2]> m else m.

Lemma arp_map_size c n : arp_wf c n -> size (arp_map c n) = Z.to_nat n.
Proof.
  intros (Hl & Hn & _ & Hd). unfold arp_map. rewrite map_size_list_to_map.
  - rewrite length_fmap. pose proof (zlen_slice c 0 n). unfold zlen, ARP_SLOTS in *. lia.
  - by rewrite <- list_fmap_compose.
Qed.

Lemma arp_map_None c n ip : ip ∉ a_ip <$> slice c 0 n -> arp_map c n !! ip = None.
Proof. intros H. apply not_elem_of_list_to_map_1. by rewrite <- list_fmap_compose. Qed.

(** The map of a table split at an entry. *)
Lemma map_split (pre post : list arp_cache_entry_t) e : NoDup (a_ip <$> pre ++ e :: post) ->
  (list_to_map (a_kv <$> pre ++ e :: post) : gmap _ _) =
  <[a_ip e := a_mac e]> (list_to_map (a_kv <$> pre ++ post)).
Proof.
  intros Hd. change (<[a_ip e := a_mac e]> (list_to_map (a_kv <$> pre ++ post) : gmap (list Z) (list Z)))
    with (list_to_map (a_kv <$> e :: pre ++ post) : gmap (list Z) (list Z)).
  apply list_to_map_proper.
  - by rewrite <- list_fmap_compose.
  - apply fmap_Permutation. symmetry. apply Permutation_middle.
Qed.

Lemma learn_known c n j e mac : arp_wf c n -> 0 <= j < n -> rd c j = Ok e ->
  let c' := <[Z.to_nat j := ArpEntry (a_ip e) mac (a_age e) 1]> c in
  arp_wf c' n /\ arp_map c' n = <[a_ip e := mac]> (arp_map c n) /\ is_Some (arp_map c n !! a_ip e).
Proof.
  intros (Hl & Hn & Hlive & Hd) Hj He. cbv zeta.
  destruct (slice_around c n j e He Hj) as [Hs Hs']; [unfold zlen, ARP_SLOTS in *; lia|].
  set (e' := ArpEntry (a_ip e) mac (a_age e) 1).
  unfold arp_wf, arp_map. rewrite Hs' , Hs in *. rewrite length_insert.
  assert (Hd' : NoDup (a_ip <$> slice c 0 j ++ e' :: slice c (j + 1) (n - (j + 1))))
    by (rewrite fmap_app, fmap_cons in *; exact Hd).
  rewrite !map_split by done. change (a_ip e') with (a_ip e). change (a_mac e') with mac.
  rewrite insert_insert_eq, lookup_insert_eq. split; [|by eauto].
  apply Forall_app in Hlive as [? [[? ?] ?]%Forall_cons]. repeat (split; [done|]).
  split; [|done]. apply Forall_app. split; [done|]. by apply Forall_cons.
Qed.

Lemma learn_new c n e ip mac : arp_wf c n -> n < 32 -> rd c n = Ok e -> length ip = 4%nat ->
  ip ∉ a_ip <$> slice c 0 n ->
  let c' := <[Z.to_nat n := ArpEntry ip mac (a_age e) 1]> c in
  arp_wf c' (n + 1) /\ arp_map c' (n + 1) = <[ip := mac]> (arp_map c n).
Proof.
  intros (Hl & Hn & Hlive & Hd) H32 He Hip Hni. cbv zeta.
  destruct (slice_around c (n + 1) n e He) as [_ Hs]; [lia|unfold zlen, ARP_SLOTS in *; lia|].
  set (e' := ArpEntry ip mac (a_age e) 1). unfold arp_wf, arp_map. rewrite Hs, length_insert.
  rewrite (slice_empty c (n + 1)) by lia.
  assert (Hd' : NoDup (a_ip <$> slice c 0 n ++ [e'])).
  { rewrite fmap_app. apply NoDup_app. split; [done|]. split; [|apply NoDup_singleton].
    intros x Hx Hy. change (a_ip <$> [e']) with [ip] in Hy. apply list_elem_of_singleton in Hy. by subst. }
  rewrite map_split, app_nil_r by done. split; [|done].
  split; [done|]. split; [lia|]. split; [|done]. apply Forall_app. split; [done|]. by repeat constructor.
Qed.

Definition with_arp (s : net) (c : list arp_cache_entry_t) (n : Z) : net :=
  Net (interfaces s) (num_interfaces s) c n (n_heap s) (n_out s).

Lemma learn_refines s ip mac : arp_wf (arp_cache s) (arp_cache_entries s) -> length ip = 4%nat ->
  exists c n, arp_cache_learn ip mac s = Ok (tt, with_arp s c n) /\ arp_wf c n /\
    arp_map c n = learn_spec (arp_map (arp_cache s) (arp_cache_entries s)) (ip, mac).
Proof.
  intros Hwf Hip. pose proof Hwf as (Hl & Hn & Hlive & Hd).
  assert (Hz : zlen (arp_cache s) = 32) by (unfold zlen, ARP_SLOTS in *; lia).
  set (n := arp_cache_entries s) in *. pose proof (arp_map_size _ _ Hwf) as Hsize.
  destruct (learn_from_spec (Z.to_nat n) (arp_cache s) n ip 0 Hip) as [(j & e & Hr & Hj & He & Hie)|[Hr Hni]];
    [lia|lia|lia|by rewrite Z.sub_0_r|..].
  - destruct (learn_known _ _ _ _ mac Hwf Hj He) as (Hwf' & Hm & Hsome). rewrite Hie in *.
    eexists _, n. split; [|split; [exact Hwf'|]].
    + unfold arp_cache_learn, getS, liftR, mbind, M_bind. fold n. rewrite Hr. cbn [a_ip].
      rewrite He, wr_in by lia. rewrite Hie. done.
    + unfold learn_spec. cbn [fst snd]. rewrite decide_True by eauto. done.
  - rewrite Z.sub_0_r in Hni. pose proof (arp_map_None _ _ _ Hni) as Hnone.
    destruct (Z.ltb_spec n 32) as [H32|H32].
    + destruct (rd_total (arp_cache s) n) as [e He]; [lia|].
      destruct (learn_new _ _ _ ip mac Hwf H32 He Hip Hni) as [Hwf' Hm].
      eexists _, (n + 1). split; [|split; [exact Hwf'|]].
      * unfold arp_cache_learn, getS, liftR, mbind, M_bind. fold n. rewrite Hr.
        rewrite (proj2 (Z.ltb_lt _ _)), He, wr_in by lia. done.
      * unfold learn_spec. cbn [fst snd]. rewrite decide_True; [done|]. right. unfold ARP_SLOTS. lia.
    + exists (arp_cache s), n. split; [|split; [done|]].
      * unfold arp_cache_learn, getS, liftR, mbind, M_bind. fold n. rewrite Hr.
        rewrite (proj2 (Z.ltb_ge _ _)) by lia. by destruct s.
      * unfold learn_spec. cbn [fst snd]. rewrite decide_False; [done|].
        rewrite Hnone. intros [[? ?]|?]; [done|]. unfold ARP_SLOTS in *. lia.
Qed.

Fixpoint learn_all (ps : list (list Z * list Z)) : M net unit :=
  match ps with
  | [] => mret tt
  | (ip, mac) :: ps => arp_cache_learn ip mac ;; learn_all ps
  end.

Lemma learn_all_refines ps : forall s, arp_wf (arp_cache s) (arp_cache_entries s) ->
  Forall (fun p => length p.1 = 4%nat) ps ->
  exists c n, learn_all ps s = Ok (tt, with_arp s c n) /\ arp_wf c n /\
    arp_map c n = fold_left learn_spec ps (arp_map (arp_cache s) (arp_cache_entries s)).
Proof.
  induction ps as [|[ip mac] ps IH]; intros s Hwf Hps; cbn [learn_all fold_left].
  { exists (arp_cache s), (arp_cache_entries s). split; [by destruct s|done]. }
  apply Forall_cons in Hps as [Hip Hps].
  destruct (learn_refines s ip mac Hwf Hip) as (c1 & n1 & Hr & Hwf1 & Hm1).
  destruct (IH (with_arp s c1 n1) Hwf1 Hps) as (c2 & n2 & Hr2 & Hwf2 & Hm2).
  exists c2, n2. rewrite (M_bind_run _ _ _ _ _ Hr), Hr2. cbn [arp_cache arp_cache_entries with_arp] in Hm2.
  by rewrite <- Hm1.
Qed.

Lemma arp_lookup_refines s ip : arp_wf (arp_cache s) (arp_cache_entries s) -> length ip = 4%nat ->
  arp_lookup ip s = match arp_map (arp_cache s) (arp_cache_entries s) !! ip with
                    | Some mac => Ok (mac, s)
                    | None => (arp_request ip ;; mret broadcast) s
                    end.
Proof.
  intros (Hl & Hn & Hlive & Hd) Hip. unfold arp_lookup, arp_map.
  rewrite (M_bind_run _ _ _ s s) by done. unfold liftR at 1. unfold mbind at 1, M_bind at 1.
  rewrite lookup_from_spec by (rewrite ?Z.sub_0_r; done || unfold zlen, ARP_SLOTS in *; lia).
  rewrite Z.sub_0_r. by destruct (_ !! ip).
Qed.

(** C29.  The ARP cache is a finite map from addresses to hardware addresses
    with room for 32: after [arp_init] and any sequence of packets learned, it
    holds what the map holds, a lookup answers from the map without touching
    the state, and a miss sends a request and falls back on the broadcast
    address. *)
Theorem arp_cache_refines_map s ps ip :
  Forall (fun p => length p.1 = 4%nat) ps -> length ip = 4%nat ->
  let m := fold_left learn_spec ps ∅ in
  exists s', (arp_init ;; learn_all ps) s = Ok (tt, s') /\
    interfaces s' = interfaces s /\ n_heap s' = n_heap s /\ n_out s' = n_out s /\
    (size m <= ARP_SLOTS)%nat /\ arp_cache_entries s' = Z.of_nat (size m) /\
    arp_lookup ip s' = match m !! ip with
                       | Some mac => Ok (mac, s')
                       | None => (arp_request ip ;; mret broadcast) s'
                       end.
Proof.
  intros Hps Hip. cbv zeta.
  set (c0 := replicate ARP_SLOTS (ArpEntry [0;0;0;0] [0;0;0;0;0;0] 0 0)).
  assert (Hwf0 : arp_wf c0 0) by (repeat split; try constructor; lia).
  destruct (learn_all_refines ps (with_arp s c0 0) Hwf0 Hps) as (c & n & Hr & Hwf & Hm).
  change (arp_map (arp_cache (with_arp s c0 0)) _) with (∅ : gmap (list Z) (list Z)) in Hm.
  exists (with_arp s c n). split; [by rewrite (M_bind_run _ _ s tt (with_arp s c0 0))|].
  repeat (split; [done|]). pose proof (arp_map_size _ _ Hwf) as Hsize. rewrite Hm in Hsize.
  pose proof Hwf as (_ & Hn & _). split; [unfold ARP_SLOTS; lia|].
  split; [cbn [arp_cache_entries with_arp]; lia|].
  rewrite arp_lookup_refines by done. cbn [arp_cache arp_cache_entries with_arp]. by rewrite Hm.
Qed.

Definition ex_mac : list Z := [0x52; 0x54; 0; 0x12; 0x34; 0x56].
Definition ex_iface : net_interface_t :=
  Iface eth0 ex_mac [192;168;1;100] [255;255;255;0] [192;168;1;1] [8;8;8;8] [8;8;4;4] 1500 3 true true.
Definition ex_net : net :=
  Net [ex_iface] 1 (replicate ARP_SLOTS (ArpEntry [0;0;0;0] [0;0;0;0;0;0] 0 0)) 0
      (memory_init {| heap_ptr := 0; heap_ram := fun _ => 0 |}) [].

Lemma arp_cache_refines_map_witness :
  exists s', (arp_init ;; learn_all [([10;0;0;1], [1;1;1;1;1;1]); ([10;0;0;2], [2;2;2;2;2;2]);
                                    ([10;0;0;1], [3;3;3;3;3;3])]) ex_net = Ok (tt, s') /\
    arp_cache_entries s' = 2 /\ arp_lookup [10;0;0;1] s' = Ok ([3;3;3;3;3;3], s').
Proof.
  destruct (@arp_cache_refines_map ex_net
    [([10;0;0;1], [1;1;1;1;1;1]); ([10;0;0;2], [2;2;2;2;2;2]); ([10;0;0;1], [3;3;3;3;3;3])]
    [10;0;0;1]) as (s' & Hr & _ & _ & _ & _ & Hn & Hl).
  - by repeat constructor.
  - done.
  - exists s'. split; [exact Hr|]. split; [rewrite Hn; reflexivity|]. rewrite Hl. reflexivity.
Defined.

Lemma checksum_verifies_witness :
  let pre := [0x45; 0; 0; 0x54; 0; 0; 0; 0; 64; 1] in
  let post := [192; 168; 1; 100; 192; 168; 1; 1] in
  exists hi lo, net_checksum (pre ++ 0 :: 0 :: post) 20 = Ok (256 * hi + lo) /\
    net_checksum (pre ++ hi :: lo :: post) 20 = Ok 0 /\
    net_checksum (pre ++ lo :: hi :: post) 20 <> Ok 0.
Proof.
  destruct (@checksum_verifies [0x45; 0; 0; 0x54; 0; 0; 0; 0; 64; 1] [192; 168; 1; 100; 192; 168; 1; 1])
    as (hi & lo & Uhi & Ulo & Hc & Hv & _ & Hw).
  - repeat (apply Forall_cons; split; [vm_compute; split; congruence|]). constructor.
  - by exists 5%nat.
  - vm_compute; congruence.
  - exists hi, lo. split; [exact Hc|]. split; [exact Hv|]. intros E. apply Hw in E. subst lo.
    pose proof (eq_trans (eq_sym Hc) (eq_refl : net_checksum ([0x45; 0; 0; 0x54; 0; 0; 0; 0; 64; 1]
      ++ 0 :: 0 :: [192; 168; 1; 100; 192; 168; 1; 1]) 20 = Ok 0xF6F3)) as E.
    injection E as E. lia.
Defined.

(** ** Frames *)

(** [eth0] is registered, up, and driven. *)
Record eth_up (s : net) (x : net_interface_t) : Prop := {
  up_tab : interfaces s = [x];
  up_num : num_interfaces s = 1;
  up_name : if_name x = eth0;
  up_mac : length (mac_addr x) = 6%nat;
  up_ip : length (ip_addr x) = 4%nat;
  up_send : if_send x = true;
  up_flag : Z.land (flags x) NET_FLAG_UP <> 0
}.

(** [n] more bytes can be allocated. *)
Definition room (s : net) (n : Z) : Prop :=
  heap_wf (n_heap s) /\ heap_ptr (n_heap s) + n < HEAP_END.

(** The state after [n] bytes are taken from the heap, and after a frame. *)
Definition took (n : Z) (s : net) : net :=
  Net (interfaces s) (num_interfaces s) (arp_cache s) (arp_cache_entries s)
      {| heap_ptr := heap_ptr (n_heap s) + n; heap_ram := heap_ram (n_heap s) |} (n_out s).
Definition out (e : event) (s : net) : net :=
  Net (interfaces s) (num_interfaces s) (arp_cache s) (arp_cache_entries s) (n_heap s) (n_out s ++ [e]).

Lemma eth_up_took s x n : eth_up s x -> eth_up (took n s) x.
Proof. by intros []. Qed.
Lemma eth_up_out s x e : eth_up s x -> eth_up (out e s) x.
Proof. by intros []. Qed.
#[export] Hint Resolve eth_up_took eth_up_out : core.

Lemma room_took s n k : 0 <= n -> 0 <= k -> room s (n + k) -> room (took n s) k.
Proof. unfold room, heap_wf, took. cbn. lia. Qed.

Lemma room_weaken s n k : 0 <= k <= n -> room s n -> room s k.
Proof. unfold room. intuition lia. Qed.

Lemma the_iface_up s x : eth_up s x -> the_iface s = Ok (Some x, s).
Proof.
  intros [Ht Hn Hname _ _ _ _]. unfold the_iface, net_get_interface, getS, liftR, mbind, M_bind.
  rewrite Ht, Hn. change (Z.to_nat 1) with 1%nat. cbn [get_from]. change (0 <? 1) with true.
  change (rd [x] 0) with (Ok x). cbv iota. step. rewrite Hname.
  change (strcmp eth0 eth0) with (Ok 0). done.
Qed.

Lemma alloc_room s n : room s n -> 0 <= n <= MALLOC_SAFE ->
  alloc n s = Ok (Some (heap_ptr (n_heap s), fresh_block (heap_ptr (n_heap s)) n (n_heap s)), took n s).
Proof.
  intros [Hwf Hr] Hn. unfold alloc. rewrite malloc_ok by done.
  rewrite (proj2 (Z.eqb_neq _ _)); [done|]. unfold heap_wf, HEAP_START, NULL in *. lia.
Qed.

Lemma send_up s x b len : eth_up s x -> 0 <= len <= zlen b ->
  net_send_packet b len s = Ok (tt, out (Sent (slice b 0 len)) s).
Proof.
  intros [Ht Hn _ _ _ Hsend Hflag] Hlen. unfold net_send_packet, getS, liftR, mbind, M_bind.
  rewrite Ht, Hn. change (1 =? 0) with false. cbv iota. change (rd [x] 0) with (Ok x). cbv iota.
  rewrite Hsend. rewrite (proj2 (Z.eqb_neq _ _)) by done. cbn [negb andb].
  rewrite rd_field_in by lia. done.
Qed.

Lemma release_id ptr s : release ptr s = Ok (tt, s).
Proof. by destruct s. Qed.

Definition eth_frame (dest src : list Z) (ethertype : Z) (payload : list Z) : list Z :=
  dest ++ src ++ be16 ethertype ++ payload.

Definition arp_packet (op : Z) (smac sip tmac tip : list Z) : list Z :=
  be16 1 ++ be16 ETHERTYPE_IPV4 ++ [6; 4] ++ be16 op ++ smac ++ sip ++ tmac ++ tip.

Lemma cell_cons {A} (l : list A) n : length l = S n -> exists a l', l = a :: l' /\ length l' = n.
Proof. destruct l as [|a l]; [done|]. intros [= H]. eauto. Qed.

Lemma cell_nil {A} (l : list A) : length l = 0%nat -> l = [].
Proof. apply length_zero_iff_nil. Qed.

(** A list of a known length is that many cells. *)
Ltac open_cells H :=
  lazymatch type of H with
  | length ?l = S _ => let a := fresh "a" in let l' := fresh "l" in let E := fresh in
      destruct (cell_cons _ _ H) as (a & l' & E & H'); subst l; clear H; rename H' into H; open_cells H
  | length ?l = 0%nat => apply cell_nil in H; subst l
  end.

(** The octets of [v] are those the target finds in [net_htons v]. *)
Lemma be16_cells v : is_u16 v -> exists hi lo w, net_htons v = w /\ be16 v = [hi; lo] /\
  Z.land w 0xFF = hi /\ Z.land (Z.shiftr w 8) 0xFF = lo.
Proof.
  intros Hv. exists (v / 256), (v mod 256), (net_htons v). split; [done|]. split; [done|].
  rewrite !(land_mask _ 8), Z.shiftr_div_pow2, net_htons_spec by done. unfold is_u16 in Hv.
  split; Z.to_euclidean_division_equations; lia.
Qed.

Lemma build_arp_spec b x dest op tmac tip : length b = 42%nat -> length (mac_addr x) = 6%nat ->
  length (ip_addr x) = 4%nat -> length dest = 6%nat -> length tmac = 6%nat -> length tip = 4%nat ->
  is_u16 op ->
  build_arp b x dest op tmac tip =
  Ok (eth_frame dest (mac_addr x) ETHERTYPE_ARP (arp_packet op (mac_addr x) (ip_addr x) tmac tip)).
Proof.
  intros Hb Hm Hi Hd Ht Htip Hop. destruct x as [nm mac ip ? ? ? ? ? ? ? ?]; cbn [mac_addr ip_addr] in *.
  unfold build_arp. cbn [mac_addr ip_addr].
  open_cells Hb. open_cells Hm. open_cells Hi. open_cells Hd. open_cells Ht. open_cells Htip.
  unfold arp_packet. destruct (be16_cells op Hop) as (hi & lo & v & -> & -> & Hhi & Hlo). rewrite <- Hhi, <- Hlo.
  vm_compute. reflexivity.
Qed.

Definition request_frame (x : net_interface_t) (tip : list Z) : list Z :=
  eth_frame broadcast (mac_addr x) ETHERTYPE_ARP
    (arp_packet ARP_OP_REQUEST (mac_addr x) (ip_addr x) [0;0;0;0;0;0] tip).
Definition reply_frame (x : net_interface_t) (dip dmac : list Z) : list Z :=
  eth_frame dmac (mac_addr x) ETHERTYPE_ARP
    (arp_packet ARP_OP_REPLY (mac_addr x) (ip_addr x) dmac dip).

Lemma arp_frame_length x dest op tmac tip : length (mac_addr x) = 6%nat -> length (ip_addr x) = 4%nat ->
  length dest = 6%nat -> length tmac = 6%nat -> length tip = 4%nat ->
  length (eth_frame dest (mac_addr x) ETHERTYPE_ARP (arp_packet op (mac_addr x) (ip_addr x) tmac tip)) = 42%nat.
Proof. intros. unfold eth_frame, arp_packet, be16. rewrite !length_app. cbn [length]. lia. Qed.

Lemma slice_all {A} (l : list A) n : zlen l = n -> slice l 0 n = l.
Proof. intros <-. unfold slice, zlen. by rewrite Nat2Z.id, drop_0, firstn_all. Qed.

Lemma send_arp_frame s x dest op tmac tip : eth_up s x -> room s 42 -> length dest = 6%nat ->
  length tmac = 6%nat -> length tip = 4%nat -> is_u16 op ->
  (m ← alloc (ETH_HDR + ARP_PKT);
   match m with
   | None => mret tt
   | Some (ptr, b) => b ← liftR (build_arp b x dest op tmac tip);
       net_send_packet b (ETH_HDR + ARP_PKT) ;; release ptr
   end) s =
  Ok (tt, out (Sent (eth_frame dest (mac_addr x) ETHERTYPE_ARP
                       (arp_packet op (mac_addr x) (ip_addr x) tmac tip))) (took 42 s)).
Proof.
  intros Hup Hroom Hd Ht Htip Hop. pose proof Hup as [_ _ _ Hm Hi _ _].
  change (ETH_HDR + ARP_PKT) with 42. eapply M_run; [apply alloc_room; [exact Hroom|vm_compute; split; congruence]|]. cbv beta iota.
  eapply lift_run; [apply build_arp_spec; done|].
  cbv beta. pose proof (arp_frame_length x dest op tmac tip Hm Hi Hd Ht Htip) as Hl.
  eapply M_run; [apply (send_up _ x); [auto|unfold zlen; lia]|].
  rewrite release_id, slice_all by (unfold zlen; lia). done.
Qed.

Lemma arp_request_spec s x tip : eth_up s x -> room s 42 -> length tip = 4%nat ->
  arp_request tip s = Ok (tt, out (Sent (request_frame x tip)) (took 42 s)).
Proof.
  intros Hup Hroom Ht. unfold arp_request. eapply M_run; [by apply the_iface_up|]. cbv beta iota.
  by apply send_arp_frame.
Qed.

Lemma arp_send_reply_spec s x dip dmac : eth_up s x -> room s 42 -> length dip = 4%nat -> length dmac = 6%nat ->
  arp_send_reply dip dmac s = Ok (tt, out (Sent (reply_frame x dip dmac)) (took 42 s)).
Proof.
  intros Hup Hroom Ht Hm. unfold arp_send_reply. eapply M_run; [by apply the_iface_up|]. cbv beta iota.
  by apply send_arp_frame.
Qed.

(** What the sender of a datagram finds out about the next hop. *)
Definition resolve (s : net) (x : net_interface_t) (dest : list Z) : list Z * net :=
  match arp_map (arp_cache s) (arp_cache_entries s) !! dest with
  | Some mac => (mac, s)
  | None => (broadcast, out (Sent (request_frame x dest)) (took 42 s))
  end.

Lemma arp_lookup_spec s x dest : eth_up s x -> room s 42 -> length dest = 4%nat ->
  arp_wf (arp_cache s) (arp_cache_entries s) -> arp_lookup dest s = Ok (resolve s x dest).
Proof.
  intros Hup Hroom Hd Hwf. rewrite arp_lookup_refines by done. unfold resolve.
  destruct (_ !! dest); [done|]. eapply M_run; [by apply (arp_request_spec s x)|done].
Qed.

(** *** Receiving ARP *)

Lemma be16_rd16 a b l w : w = 256 * a + b -> is_u8 a -> is_u8 b ->
  exists v, rd16 (a :: b :: l) 0 = Ok v /\ net_ntohs v = w.
Proof. intros -> Ha Hb. by apply (ntohs_rd16 (a :: b :: l) 0). Qed.

Lemma arp_packet_fields op smac sip tmac tip : is_u16 op -> length smac = 6%nat -> length sip = 4%nat ->
  length tmac = 6%nat -> length tip = 4%nat ->
  let p := arp_packet op smac sip tmac tip in
  length p = 28%nat /\ rd16 p 0 = Ok 256 /\ rd16 p 2 = Ok 8 /\
  rd_field p 8 6 = Ok smac /\ rd_field p 14 4 = Ok sip /\ rd_field p 24 4 = Ok tip /\
  exists w, rd16 p 6 = Ok w /\ net_ntohs w = op.
Proof.
  intros Hop Hsm Hs Htm Ht. cbv zeta.
  assert (Hw : exists w, rd16 (arp_packet op smac sip tmac tip) 6 = Ok w /\ net_ntohs w = op).
  { destruct (ntohs_rd16 (arp_packet op smac sip tmac tip) 6 (op / 256) (op mod 256)) as (w & Hw & Hn);
      [reflexivity|reflexivity|unfold is_u8, is_u16 in *; Z.to_euclidean_division_equations; lia..|].
    exists w. split; [done|]. rewrite Hn. Z.to_euclidean_division_equations; lia. }
  split; [unfold arp_packet; rewrite !length_app; cbn [length be16]; lia|].
  repeat (split; [|exact Hw || idtac]); clear Hw;
    open_cells Hsm; open_cells Hs; open_cells Htm; open_cells Ht; reflexivity.
Qed.

Lemma net_receive_arp s op dest src smac sip tmac tip : is_u16 op -> length dest = 6%nat -> length src = 6%nat ->
  net_receive_frame (eth_frame dest src ETHERTYPE_ARP (arp_packet op smac sip tmac tip)) 42 s =
  arp_handle_packet (arp_packet op smac sip tmac tip) 28 s.
Proof.
  intros Hop Hd Hs. unfold net_receive_frame. change (42 <? ETH_HDR) with false. cbv iota.
  open_cells Hd. open_cells Hs. reflexivity.
Qed.

Lemma arp_handle_spec s x op smac sip tmac tip : eth_up s x -> (op = ARP_OP_REQUEST -> room s 42) ->
  arp_wf (arp_cache s) (arp_cache_entries s) -> is_u16 op -> length smac = 6%nat ->
  length sip = 4%nat -> length tmac = 6%nat -> length tip = 4%nat ->
  exists c n, arp_wf c n /\
    arp_map c n = learn_spec (arp_map (arp_cache s) (arp_cache_entries s)) (sip, smac) /\
    arp_handle_packet (arp_packet op smac sip tmac tip) 28 s =
      Ok (tt, if (op =? ARP_OP_REQUEST) && bool_decide (tip = ip_addr x)
              then out (Sent (reply_frame x sip smac)) (took 42 (with_arp s c n))
              else with_arp s c n).
Proof.
  intros Hup Hroom Hwf Hop Hsm Hs Htm Ht. pose proof Hup as [_ _ _ _ Hip _ _].
  destruct (arp_packet_fields op smac sip tmac tip) as (Hl & H0 & H2 & H8 & H14 & H24 & w & H6 & Hw); [done..|].
  destruct (learn_refines s sip smac Hwf Hs) as (c & n & Hlearn & Hwf' & Hm).
  exists c, n. split; [done|]. split; [done|]. unfold arp_handle_packet.
  change (28 <? ARP_PKT) with false. cbv iota.
  eapply lift_run; [exact H0|]. change (negb (net_ntohs 256 =? 1)) with false. cbv iota beta.
  eapply lift_run; [exact H2|]. change (negb (net_ntohs 8 =? ETHERTYPE_IPV4)) with false. cbv iota beta.
  eapply M_run; [by apply the_iface_up|]. cbv iota beta.
  eapply lift_run; [exact H14|]. eapply lift_run; [exact H8|].
  eapply M_run; [exact Hlearn|]. eapply lift_run; [exact H6|]. rewrite Hw.
  destruct (Z.eqb_spec op ARP_OP_REQUEST) as [Heq|]; [|done]. cbn [andb]. specialize (Hroom Heq).
  eapply lift_run; [exact H24|]. eapply lift_run; [by apply same_ip_spec|]. cbv beta.
  case_bool_decide; [|done]. apply arp_send_reply_spec; try done. destruct Hup; by constructor.
Qed.

(** Address resolution between two hosts: a lookup that misses makes the
    first host broadcast a request, the second host, receiving that frame,
    learns the first and answers with a reply, and the first host, receiving the
    reply, knows the hardware address of the second from then on. *)
Lemma arp_resolves sa xa sb xb :
  eth_up sa xa -> eth_up sb xb ->
  arp_wf (arp_cache sa) (arp_cache_entries sa) -> arp_wf (arp_cache sb) (arp_cache_entries sb) ->
  room sa 42 -> room sb 42 -> arp_cache_entries sa < 32 -> arp_cache_entries sb < 32 ->
  arp_map (arp_cache sa) (arp_cache_entries sa) !! ip_addr xb = None ->
  exists req sa1 rep sb1 sa2,
    arp_lookup (ip_addr xb) sa = Ok (broadcast, sa1) /\ n_out sa1 = n_out sa ++ [Sent req] /\
    net_receive_frame req 42 sb = Ok (tt, sb1) /\ n_out sb1 = n_out sb ++ [Sent rep] /\
    net_receive_frame rep 42 sa1 = Ok (tt, sa2) /\ n_out sa2 = n_out sa1 /\
    arp_lookup (ip_addr xb) sa2 = Ok (mac_addr xb, sa2) /\
    arp_lookup (ip_addr xa) sb1 = Ok (mac_addr xa, sb1).
Proof.
  intros Ha Hb Hwa Hwb Hra Hrb Hna Hnb Hmiss.
  pose proof (up_mac _ _ Ha) as Hma. pose proof (up_ip _ _ Ha) as Hia.
  pose proof (up_mac _ _ Hb) as Hmb. pose proof (up_ip _ _ Hb) as Hib.
  set (sa1 := out (Sent (request_frame xa (ip_addr xb))) (took 42 sa)).
  assert (Hua1 : eth_up sa1 xa) by (unfold sa1; auto).
  destruct (arp_handle_spec sb xb ARP_OP_REQUEST (mac_addr xa) (ip_addr xa) [0;0;0;0;0;0] (ip_addr xb))
    as (cb & nb & Hwb' & Hcb & Hrunb); [done..|].
  destruct (arp_handle_spec sa1 xa ARP_OP_REPLY (mac_addr xb) (ip_addr xb) (mac_addr xa) (ip_addr xa))
    as (ca & na & Hwa' & Hca & Hruna); [done..|].
  rewrite bool_decide_true in Hrunb by done. cbn [Z.eqb andb] in Hrunb.
  pose proof (arp_map_size _ _ Hwa) as Hsa. pose proof (arp_map_size _ _ Hwb) as Hsb.
  pose proof (proj1 (proj2 Hwa)). pose proof (proj1 (proj2 Hwb)).
  eexists _, sa1, _, _, _. split; [|split; [reflexivity|]].
  { rewrite (arp_lookup_spec sa xa) by done. unfold resolve. by rewrite Hmiss. }
  split; [unfold request_frame; rewrite net_receive_arp by done; exact Hrunb|].
  split; [reflexivity|].
  split; [unfold reply_frame; rewrite net_receive_arp by done; exact Hruna|].
  split; [reflexivity|]. split.
  - rewrite arp_lookup_refines by done. change (arp_map _ _) with (arp_map ca na). rewrite Hca.
    unfold learn_spec. cbn [fst snd]. rewrite decide_True; [by rewrite lookup_insert_eq|].
    right. change (arp_map _ _) with (arp_map (arp_cache sa) (arp_cache_entries sa)). unfold ARP_SLOTS. lia.
  - rewrite arp_lookup_refines by done. change (arp_map _ _) with (arp_map cb nb). rewrite Hcb.
    unfold learn_spec. cbn [fst snd]. rewrite decide_True; [by rewrite lookup_insert_eq|].
    right. unfold ARP_SLOTS. lia.
Qed.

Definition ex_iface2 : net_interface_t :=
  Iface eth0 [0x52; 0x54; 0; 0x12; 0x34; 0x57] [192;168;1;1] [255;255;255;0] [192;168;1;1] [8;8;8;8] [8;8;4;4]
        1500 3 true true.
Definition ex_net2 : net := Net [ex_iface2] 1 (arp_cache ex_net) 0 (n_heap ex_net) [].

Lemma ex_up : eth_up ex_net ex_iface /\ eth_up ex_net2 ex_iface2.
Proof. by split; constructor. Qed.

Lemma ex_wf : arp_wf (arp_cache ex_net) 0 /\ room ex_net 1000 /\ room ex_net2 1000.
Proof. repeat split; try constructor; done. Qed.

Lemma arp_resolves_witness : exists req sa1 rep sb1 sa2,
    arp_lookup [192;168;1;1] ex_net = Ok (broadcast, sa1) /\ n_out sa1 = [Sent req] /\
    net_receive_frame req 42 ex_net2 = Ok (tt, sb1) /\ n_out sb1 = [Sent rep] /\
    net_receive_frame rep 42 sa1 = Ok (tt, sa2) /\
    arp_lookup [192;168;1;1] sa2 = Ok ([0x52; 0x54; 0; 0x12; 0x34; 0x57], sa2).
Proof.
  destruct (@arp_resolves ex_net ex_iface ex_net2 ex_iface2)
    as (req & sa1 & rep & sb1 & sa2 & H1 & H2 & H3 & H4 & H5 & _ & H6 & _);
    try apply ex_up; try apply ex_wf; try reflexivity;
    try (eapply room_weaken; [|apply ex_wf]; lia).
  exists req, sa1, rep, sb1, sa2. exact (conj H1 (conj H2 (conj H3 (conj H4 (conj H5 H6))))).
Defined.

(** *** The driver *)

(** Booting the network brings [eth0] up, from the tables of a fresh boot. *)
Lemma driver_brings_eth0_up s x0 : interfaces s = [x0] -> num_interfaces s = 0 ->
  exists s' x, (net_init ;; rtl8139_init) s = Ok (tt, s') /\ eth_up s' x /\
    ip_addr x = [192;168;1;100] /\ mac_addr x = ex_mac /\
    arp_wf (arp_cache s') (arp_cache_entries s') /\ n_heap s' = n_heap s.
Proof.
  intros Hi Hn. destruct s as [l num c k h o]. cbn in Hi, Hn. subst.
  eexists _, _. split; [vm_compute; reflexivity|]. split; [by constructor|].
  repeat split; try constructor; done.
Qed.

(** *** Writes into the front of a block *)

(** [f] succeeds on every block of [k] bytes, keeps its size, and does the same
    to the first [k] bytes of a longer one. *)
Definition in_front (k : nat) (f : list Z -> res (list Z)) : Prop :=
  forall h, length h = k -> exists h', f h = Ok h' /\ length h' = k /\ forall r, f (h ++ r) = Ok (h' ++ r).

Lemma front_bind k f g : in_front k f -> in_front k g -> in_front k (fun b => b ← f b; g b).
Proof.
  intros Hf Hg h Hh. destruct (Hf h Hh) as (h1 & E1 & L1 & R1). destruct (Hg h1 L1) as (h2 & E2 & L2 & R2).
  exists h2. rewrite E1, bind_ret. repeat split; [done..|]. intros r. by rewrite R1, bind_ret.
Qed.

Lemma front_wr k off v : 0 <= off < Z.of_nat k -> in_front k (fun b => wr b off v).
Proof.
  intros Ho h Hh. exists (<[Z.to_nat off := v]> h). rewrite length_insert.
  rewrite wr_in by (unfold zlen; lia). repeat split; [done..|]. intros r.
  rewrite wr_in by (rewrite zlen_app; unfold zlen; lia). by rewrite insert_app_l by lia.
Qed.

Lemma front_wr16 k off v : 0 <= off -> off + 1 < Z.of_nat k -> in_front k (fun b => wr16 b off v).
Proof. intros. unfold wr16. apply front_bind; apply front_wr; lia. Qed.

Lemma front_field k off xs : 0 <= off -> off + zlen xs <= Z.of_nat k -> in_front k (fun b => wr_field b off xs).
Proof.
  intros H0 H1 h Hh. exists (splice h off xs). rewrite wr_field_in by (unfold zlen in *; lia).
  assert (Hl : length (splice h off xs) = k).
  { pose proof (zlen_splice h off xs H0) as Hz. unfold zlen in *. specialize (Hz ltac:(lia)). lia. }
  repeat split; [done..|]. intros r. rewrite wr_field_in by (rewrite ?zlen_app; unfold zlen in *; lia).
  f_equal. unfold splice. rewrite take_app_le, drop_app_le by (unfold zlen in *; lia). by rewrite <- !app_assoc.
Qed.

Lemma front_build_ip x dest proto len : length (ip_addr x) = 4%nat -> length dest = 4%nat ->
  in_front 34 (fun b => build_ip b x dest proto len).
Proof.
  intros Hi Hd. unfold build_ip.
  repeat apply front_bind; solve [apply front_wr; lia | apply front_wr16; lia
    | apply front_field; unfold zlen; lia].
Qed.

Definition ip_header (proto len c1 c2 : Z) (src dest : list Z) : list Z :=
  [0x45; 0] ++ be16 (u16 (IPV4_HDR + len)) ++ [0; 0; 0; 0; 64; proto; c1; c2] ++ src ++ dest.

Lemma build_ip_spec e x dest proto len h r : length (ip_addr x) = 4%nat -> length dest = 4%nat ->
  length e = 12%nat -> length h = 22%nat ->
  build_ip (e ++ h ++ r) x dest proto len =
  Ok (e ++ be16 ETHERTYPE_IPV4 ++ ip_header proto len 0 0 (ip_addr x) dest ++ r).
Proof.
  intros Hi Hd He Hh.
  destruct (front_build_ip x dest proto len Hi Hd (e ++ h)) as (h' & E & _ & R);
    [rewrite length_app; lia|]. cbv beta in R. rewrite app_assoc, R. f_equal.
  enough (h' = e ++ be16 ETHERTYPE_IPV4 ++ ip_header proto len 0 0 (ip_addr x) dest) as ->
    by by rewrite <- !app_assoc.
  cbv beta in E. assert (Ok h' = Ok (e ++ be16 ETHERTYPE_IPV4 ++ ip_header proto len 0 0 (ip_addr x) dest));
    [rewrite <- E|by simplify_eq]. clear E R.
  destruct x as [nm mac ip ? ? ? ? ? ? ? ?]; cbn [ip_addr] in *. unfold build_ip, ip_header. cbn [ip_addr].
  open_cells Hi. open_cells Hd. open_cells He. open_cells Hh.
  destruct (be16_cells (u16 (IPV4_HDR + len)) (u16_range _)) as (hi & lo & w & -> & -> & Hhi & Hlo).
  rewrite <- Hhi, <- Hlo. vm_compute. reflexivity.
Qed.

Lemma rd_app_l (h r : list Z) i : 0 <= i < zlen h -> rd (h ++ r) i = rd h i.
Proof.
  intros Hi. unfold rd, zget. rewrite (proj2 (Z.leb_le _ _)) by lia.
  by rewrite lookup_app_l by (unfold zlen in Hi; lia).
Qed.

Lemma sum_words_app n : forall h r i s, 0 <= i -> 2 * (i + Z.of_nat n) <= zlen h ->
  sum_words n (h ++ r) i s = sum_words n h i s.
Proof.
  induction n as [|n IH]; intros h r i s Hi Hl; cbn [sum_words]; [done|].
  unfold rd16. rewrite !rd_app_l by lia. destruct (rd h (2 * i)); [|done]. rewrite !bind_ret.
  destruct (rd h (2 * i + 1)); [|done]. rewrite !bind_ret. apply IH; lia.
Qed.

Lemma net_checksum_app h r : net_checksum (h ++ r) (zlen h) = net_checksum h (zlen h).
Proof.
  unfold net_checksum. pose proof (zlen_nonneg h).
  rewrite sum_words_app by (Z.to_euclidean_division_equations; lia).
  destruct (sum_words _ h 0 0); [|done]. rewrite !bind_ret.
  destruct (Z.eqb_spec (zlen h mod 2) 0); [done|].
  rewrite rd_app_l; [done|]. destruct (Z.eq_dec (zlen h) 0) as [E|]; [rewrite E in *; done|lia].
Qed.

(** *** Sending a datagram *)

Lemma wr_field_mid (d e m t : list Z) off : zlen d = off -> length e = length m ->
  wr_field (d ++ e ++ t) off m = Ok (d ++ m ++ t).
Proof.
  intros <- He. rewrite wr_field_in by (rewrite ?zlen_app; unfold zlen in *; lia).
  f_equal. unfold splice, zlen. rewrite Nat2Z.id, take_app_length. do 2 f_equal.
  rewrite app_assoc, drop_app_length'; [done|]. rewrite length_app. lia.
Qed.

Lemma wr16_mid (l1 : list Z) x y l2 v : is_u16 v ->
  wr16 (l1 ++ x :: y :: l2) (zlen l1) v = Ok (l1 ++ v mod 256 :: v / 256 :: l2).
Proof.
  intros Hv. unfold wr16. rewrite wr_mid, bind_ret, !(land_mask _ 8), Z.shiftr_div_pow2 by done.
  change (2 ^ 8) with 256. rewrite (Z.mod_small (v / 256)) by (unfold is_u16 in Hv; Z.to_euclidean_division_equations; lia).
  pose proof (wr_mid (l1 ++ [v mod 256]) y l2 (v / 256)) as Hw.
  rewrite zlen_app, <- !app_assoc in Hw. exact Hw.
Qed.

Lemma ip_header_length proto len c1 c2 src dest : length src = 4%nat -> length dest = 4%nat ->
  length (ip_header proto len c1 c2 src dest) = 20%nat.
Proof. intros. unfold ip_header, be16. rewrite !length_app. cbn [length]. lia. Qed.

Lemma ip_header_checksum proto len src dest : is_u8 proto -> length src = 4%nat -> length dest = 4%nat ->
  Forall is_u8 src -> Forall is_u8 dest ->
  exists ck, is_u16 ck /\ net_checksum (ip_header proto len 0 0 src dest) IPV4_HDR = Ok ck.
Proof.
  intros Hp Hs Hd Us Ud. set (h := ip_header proto len 0 0 src dest).
  assert (Hl : zlen h = 20) by (unfold zlen, h; rewrite ip_header_length by done; lia).
  assert (Hu : Forall is_u8 h).
  { pose proof (u16_range (IPV4_HDR + len)) as Hr. unfold h, ip_header, be16.
    repeat first [apply Forall_app; split | apply Forall_cons; split | apply Forall_nil; exact I | done];
      unfold is_u8, is_u16 in *; try lia; Z.to_euclidean_division_equations; lia. }
  destruct (be_sum_bound _ h (le_n _) Hu) as [H0 _].
  eexists. rewrite net_checksum_spec by (rewrite ?Hl; done || unfold IPV4_HDR, CHECKSUM_MAX; lia).
  split; [|reflexivity]. unfold IPV4_HDR. rewrite slice_all by done.
  pose proof (ones_range _ H0). unfold is_u16. lia.
Qed.

(** The datagram with the checksum as the code stores it, low byte first. *)
Definition datagram (proto : Z) (src dest payload : list Z) (ck : Z) : list Z :=
  ip_header proto (zlen payload) (ck mod 256) (ck / 256) src dest ++ payload.

(** The block after each write of [ip_send_packet]. *)
Lemma ip_block x mac dest proto data b : length (mac_addr x) = 6%nat -> length (ip_addr x) = 4%nat ->
  length mac = 6%nat -> length dest = 4%nat -> is_u8 proto -> Forall is_u8 (ip_addr x) -> Forall is_u8 dest ->
  zlen b = 34 + zlen data ->
  exists b1 b2 b3 b4 ck, is_u16 ck /\
    wr_field b 6 (mac_addr x) = Ok b1 /\ wr_field b1 0 mac = Ok b2 /\
    build_ip b2 x dest proto (zlen data) = Ok b3 /\ net_checksum (drop 14 b3) IPV4_HDR = Ok ck /\
    wr16 b3 (14 + 10) ck = Ok b4 /\ net_checksum (ip_header proto (zlen data) 0 0 (ip_addr x) dest) IPV4_HDR = Ok ck /\
    memcpy_at b4 (14 + 20) data 0 (zlen data) =
      Ok (eth_frame mac (mac_addr x) ETHERTYPE_IPV4 (datagram proto (ip_addr x) dest data ck)).
Proof.
  intros Hm Hi Hmac Hd Hp Ui Ud Hb.
  assert (Hsplit : exists d e h r, b = d ++ e ++ h ++ r /\ length d = 6%nat /\ length e = 6%nat /\
    length h = 22%nat /\ length r = length data).
  { exists (take 6 b), (take 6 (drop 6 b)), (take 22 (drop 12 b)), (drop 34 b).
    rewrite !length_take, !length_drop. unfold zlen in Hb. split; [|lia].
    rewrite <- (take_drop 6 b) at 1. f_equal. rewrite <- (take_drop 6 (drop 6 b)) at 1. f_equal.
    rewrite drop_drop. change (6 + 6)%nat with 12%nat.
    rewrite <- (take_drop 22 (drop 12 b)) at 1. by rewrite drop_drop. }
  destruct Hsplit as (d & e & h & r & -> & Hld & Hle & Hlh & Hlr).
  destruct (ip_header_checksum proto (zlen data) (ip_addr x) dest) as (ck & Hck & Hsum); [done..|].
  pose proof (ip_header_length proto (zlen data) 0 0 (ip_addr x) dest Hi Hd) as Hhl.
  exists (d ++ mac_addr x ++ h ++ r), (mac ++ mac_addr x ++ h ++ r),
    ((mac ++ mac_addr x) ++ be16 ETHERTYPE_IPV4 ++ ip_header proto (zlen data) 0 0 (ip_addr x) dest ++ r),
    (((mac ++ mac_addr x) ++ be16 ETHERTYPE_IPV4 ++
       ip_header proto (zlen data) (ck mod 256) (ck / 256) (ip_addr x) dest) ++ r), ck.
  split; [done|]. split; [apply wr_field_mid; unfold zlen; lia|].
  split; [apply (wr_field_mid [] d mac); [done|lia]|].
  split; [rewrite app_assoc; apply build_ip_spec; rewrite ?length_app; lia|].
  split; [|split; [|split; [exact Hsum|]]].
  - rewrite app_assoc, drop_app_length' by (rewrite !length_app; unfold be16; cbn [length]; lia).
    rewrite <- Hsum. replace IPV4_HDR with (zlen (ip_header proto (zlen data) 0 0 (ip_addr x) dest))
      by (unfold zlen at 1; by rewrite Hhl). apply net_checksum_app.
  - unfold ip_header.
    set (pre := (mac ++ mac_addr x) ++ be16 ETHERTYPE_IPV4 ++ [69; 0] ++
      be16 (u16 (IPV4_HDR + zlen data)) ++ [0; 0; 0; 0; 64; proto]).
    assert (Hpre : zlen pre = 14 + 10)
      by (unfold zlen at 1; unfold pre, be16; rewrite !length_app; cbn [length]; lia).
    pose proof (wr16_mid pre 0 0 ((ip_addr x ++ dest) ++ r) ck Hck) as Hw. rewrite Hpre in Hw. unfold pre in Hw.
    rewrite <- !app_assoc in Hw. repeat rewrite <- app_assoc. exact Hw.
  - rewrite memcpy_at_splice by (rewrite ?zlen_app; unfold zlen, be16; rewrite ?length_app, ?ip_header_length by done; cbn [length]; lia).
    f_equal. rewrite slice_all by done. unfold splice.
    rewrite take_app_length' by (rewrite !length_app, ip_header_length by done; unfold be16; cbn [length]; lia).
    rewrite drop_ge by (rewrite !length_app, ip_header_length by done; unfold be16, zlen; cbn [length]; lia).
    unfold eth_frame, datagram. rewrite app_nil_r. by rewrite <- !app_assoc.
Qed.

(** Sending succeeds with the frame of the datagram, after the address of the
    next hop was resolved. *)
Lemma ip_send_spec s x dest proto data : eth_up s x -> room s (76 + zlen data) ->
  arp_wf (arp_cache s) (arp_cache_entries s) ->
  (forall ip mac, arp_map (arp_cache s) (arp_cache_entries s) !! ip = Some mac -> length mac = 6%nat) ->
  length dest = 4%nat -> Forall is_u8 dest -> Forall is_u8 (ip_addr x) -> is_u8 proto ->
  34 + zlen data < 2 ^ 16 ->
  let '(mac, s1) := resolve (took (34 + zlen data) s) x dest in
  exists ck, is_u16 ck /\
    net_checksum (ip_header proto (zlen data) 0 0 (ip_addr x) dest) IPV4_HDR = Ok ck /\
    ip_send_packet dest proto data (zlen data) s =
      Ok (tt, out (Sent (eth_frame mac (mac_addr x) ETHERTYPE_IPV4
                           (datagram proto (ip_addr x) dest data ck))) s1).
Proof.
  intros Hup Hroom Hwf Hmacs Hd Ud Ui Hp Hlen. pose proof (zlen_nonneg data) as H0.
  set (n := 34 + zlen data) in *. set (s0 := took n s).
  assert (Hres : exists mac s1, resolve s0 x dest = (mac, s1) /\ length mac = 6%nat /\ eth_up s1 x).
  { unfold resolve. destruct (_ !! dest) as [mac|] eqn:E.
    - exists mac, s0. split; [done|]. split; [by eapply Hmacs|by apply eth_up_took].
    - eexists _, _. split; [reflexivity|]. split; [done|]. apply eth_up_out, eth_up_took. by apply eth_up_took. }
  destruct Hres as (mac & s1 & Hres & Hmac & Hup1). rewrite Hres.
  destruct (ip_block x mac dest proto data (fresh_block (heap_ptr (n_heap s)) n (n_heap s)))
    as (b1 & b2 & b3 & b4 & ck & Hck & E1 & E2 & E3 & E4 & E5 & Hsum & E6);
    [apply Hup|apply Hup|done..|by rewrite fresh_block_length by lia|].
  exists ck. split; [done|]. split; [done|]. unfold ip_send_packet.
  eapply M_run; [by apply the_iface_up|]. cbv iota beta zeta.
  replace (u16 (ETH_HDR + IPV4_HDR + zlen data)) with n
    by (unfold n, ETH_HDR, IPV4_HDR; symmetry; apply u16_id; unfold is_u16; lia).
  eapply M_run; [apply alloc_room;
    [eapply room_weaken; [|exact Hroom]; lia|unfold MALLOC_SAFE, HEAP_END, HEAP_START, HEAP_SIZE; lia]|].
  cbv iota beta. eapply lift_run; [exact E1|].
  eapply M_run; [rewrite (arp_lookup_spec s0 x), Hres; try done|].
  { by apply eth_up_took. }
  { apply room_took; [lia..|]. eapply room_weaken; [|exact Hroom]. lia. }
  eapply lift_run; [exact E2|]. eapply lift_run; [exact E3|]. eapply lift_run; [exact E4|].
  eapply lift_run; [exact E5|]. eapply lift_run; [exact E6|].
  assert (Hl : zlen (eth_frame mac (mac_addr x) ETHERTYPE_IPV4 (datagram proto (ip_addr x) dest data ck)) = n).
  { unfold zlen, eth_frame, datagram, be16. rewrite !length_app, ip_header_length by (done || apply Hup).
    rewrite (up_mac _ _ Hup). cbn [length]. unfold n, zlen. lia. }
  eapply M_run; [apply (send_up s1 x); [done|lia]|]. by rewrite release_id, slice_all.
Qed.

(** *** Receiving a datagram *)

(** The header of [ip_send_packet] taken apart by [ip_handle_packet], with
    [pad] behind the datagram. *)
Lemma ip_header_fields proto len c1 c2 src dest rest : 0 <= len -> IPV4_HDR + len < 2 ^ 16 ->
  length src = 4%nat -> length dest = 4%nat ->
  let p := ip_header proto len c1 c2 src dest ++ rest in
  rd p 0 = Ok 0x45 /\ rd_field p 16 4 = Ok dest /\ rd p 9 = Ok proto /\ drop 20 p = rest /\
  exists w, rd16 p 2 = Ok w /\ net_ntohs w = 20 + len.
Proof.
  intros H0 Hlen Hs Hd. cbv zeta. unfold IPV4_HDR in Hlen.
  split; [done|]. split; [|split; [done|split]].
  - rewrite rd_field_in; [|lia|].
    + open_cells Hs. open_cells Hd. reflexivity.
    + pose proof (zlen_nonneg rest). rewrite zlen_app. unfold zlen at 1. rewrite ip_header_length by done. lia.
  - rewrite drop_app_length'; [done|]. by rewrite ip_header_length.
  - destruct (ntohs_rd16 (ip_header proto len c1 c2 src dest ++ rest) 2 ((20 + len) / 256) ((20 + len) mod 256))
      as (w & Hw & Hn).
    + unfold ip_header, IPV4_HDR. rewrite u16_id by (unfold is_u16; lia). reflexivity.
    + unfold ip_header, IPV4_HDR. rewrite u16_id by (unfold is_u16; lia). reflexivity.
    + unfold is_u8. Z.to_euclidean_division_equations; lia.
    + unfold is_u8. Z.to_euclidean_division_equations; lia.
    + exists w. split; [done|]. rewrite Hn. Z.to_euclidean_division_equations; lia.
Qed.

Lemma net_receive_ip s dest src payload len : length dest = 6%nat -> length src = 6%nat -> 0 <= len ->
  net_receive_frame (eth_frame dest src ETHERTYPE_IPV4 payload) (14 + len) s = ip_handle_packet payload len s.
Proof.
  intros Hd Hs Hlen. unfold net_receive_frame. rewrite (proj2 (Z.ltb_ge _ _)) by (unfold ETH_HDR; lia).
  replace (14 + len - ETH_HDR) with len by (unfold ETH_HDR; lia).
  open_cells Hd. open_cells Hs. reflexivity.
Qed.

Lemma ip_handle_spec t y proto src data ck pad len : eth_up t y -> length src = 4%nat ->
  0 <= zlen data -> 20 + zlen data < 2 ^ 16 -> 20 <= len ->
  ip_handle_packet (datagram proto src (ip_addr y) data ck ++ pad) len t =
  ip_dispatch proto (data ++ pad) (zlen data) t.
Proof.
  intros Hup Hs H0 Hlen Hl. pose proof (up_ip _ _ Hup) as Hi. unfold datagram. rewrite <- app_assoc.
  destruct (ip_header_fields proto (zlen data) (ck mod 256) (ck / 256) src (ip_addr y) (data ++ pad))
    as (F0 & F16 & F9 & Fr & w & F2 & Fw); [done..|].
  unfold ip_handle_packet. rewrite (proj2 (Z.ltb_ge _ _)) by (unfold IPV4_HDR; lia).
  eapply M_run; [by apply the_iface_up|]. cbv iota beta.
  eapply lift_run; [exact F0|]. change (negb (Z.shiftr 69 4 =? 4)) with false. cbv iota beta.
  eapply lift_run; [exact F16|]. eapply lift_run; [by apply same_ip_spec|]. cbv beta.
  rewrite bool_decide_true by done. cbn [negb]. change (Z.land 69 15 * 4) with 20. cbv zeta.
  rewrite (proj2 (Z.ltb_ge _ _)) by lia. eapply lift_run; [exact F2|].
  eapply lift_run; [exact F9|]. rewrite Fw. change (Z.to_nat 20) with 20%nat. rewrite Fr.
  f_equal. rewrite u16_id; unfold is_u16; lia.
Qed.

(** The frame of a datagram with the checksum [ck] in its header, and what a host hands to the driver to get it to
    [dest]: that frame to the hardware address in its cache, or a request and the frame to everybody. *)
Definition ip_frame (mac : list Z) (x : net_interface_t) (proto : Z) (dest data : list Z) (ck : Z) : list Z :=
  eth_frame mac (mac_addr x) ETHERTYPE_IPV4 (datagram proto (ip_addr x) dest data ck).

Definition handed (s : net) (x : net_interface_t) (proto : Z) (dest data : list Z) (ck : Z) : list event :=
  match arp_map (arp_cache s) (arp_cache_entries s) !! dest with
  | Some mac => [Sent (ip_frame mac x proto dest data ck)]
  | None => [Sent (request_frame x dest); Sent (ip_frame broadcast x proto dest data ck)]
  end.

(** The checksum of the header the sender fills in. *)
Definition header_checksum (x : net_interface_t) (proto : Z) (dest data : list Z) : res Z :=
  net_checksum (ip_header proto (zlen data) 0 0 (ip_addr x) dest) IPV4_HDR.

Lemma ip_send_out s x dest proto data : eth_up s x -> room s (76 + zlen data) ->
  arp_wf (arp_cache s) (arp_cache_entries s) ->
  (forall ip mac, arp_map (arp_cache s) (arp_cache_entries s) !! ip = Some mac -> length mac = 6%nat) ->
  length dest = 4%nat -> Forall is_u8 dest -> Forall is_u8 (ip_addr x) -> is_u8 proto ->
  34 + zlen data < 2 ^ 16 ->
  exists ck s1, header_checksum x proto dest data = Ok ck /\ ip_send_packet dest proto data (zlen data) s = Ok (tt, s1) /\
    n_out s1 = n_out s ++ handed s x proto dest data ck.
Proof.
  intros Hx Hroom Hwf Hmacs Hd Ud Ui Hp Hlen. pose proof (ip_send_spec s x dest proto data Hx Hroom Hwf Hmacs Hd Ud Ui Hp Hlen) as Hsend.
  unfold handed. destruct (resolve (took (34 + zlen data) s) x dest) as [mac s1] eqn:Hres.
  destruct Hsend as (ck & _ & Hsum & Hsend). exists ck. eexists. split; [exact Hsum|]. split; [exact Hsend|].
  revert Hres. unfold resolve. cbn [arp_cache arp_cache_entries took n_out out].
  destruct (_ !! dest) as [m|]; intros [= <- <-]; [done|]. cbn [n_out out took]. by rewrite <- app_assoc.
Qed.

Lemma ip_frame_received t y mac x proto data ck : eth_up t y -> length mac = 6%nat -> length (mac_addr x) = 6%nat ->
  length (ip_addr x) = 4%nat -> 20 + zlen data < 2 ^ 16 ->
  net_receive_frame (ip_frame mac x proto (ip_addr y) data ck) (34 + zlen data) t = ip_dispatch proto data (zlen data) t.
Proof.
  intros Hy Hm Hmx Hix Hlen. pose proof (zlen_nonneg data). unfold ip_frame.
  replace (34 + zlen data) with (14 + (20 + zlen data)) by lia. rewrite net_receive_ip by (done || lia).
  rewrite <- (app_nil_r (datagram _ _ _ _ _)). rewrite (ip_handle_spec t y) by (done || lia). by rewrite app_nil_r.
Qed.

(** C17.  On an interface that is up and a heap with room for the frame, [ip_send_packet] hands the driver one frame, to the
    hardware address the cache knows for the destination or else (behind a request) to the broadcast address; its header
    carries the checksum of the header, low byte first.  A host that has the destination address takes such a frame
    apart into exactly the protocol and the payload that were sent - with any checksum whatever in it: the receiver
    does not verify it, where a host that does would drop the frame ([checksum_verifies]). *)
Theorem datagram_delivered s x t y proto data :
  eth_up s x -> eth_up t y -> room s (76 + zlen data) -> arp_wf (arp_cache s) (arp_cache_entries s) ->
  (forall ip mac, arp_map (arp_cache s) (arp_cache_entries s) !! ip = Some mac -> length mac = 6%nat) ->
  Forall is_u8 (ip_addr x) -> Forall is_u8 (ip_addr y) -> is_u8 proto -> 34 + zlen data < 2 ^ 16 ->
  exists ck s1, header_checksum x proto (ip_addr y) data = Ok ck /\
    ip_send_packet (ip_addr y) proto data (zlen data) s = Ok (tt, s1) /\
    n_out s1 = n_out s ++ handed s x proto (ip_addr y) data ck /\
    forall mac ck', length mac = 6%nat ->
      net_receive_frame (ip_frame mac x proto (ip_addr y) data ck') (34 + zlen data) t = ip_dispatch proto data (zlen data) t.
Proof.
  intros Hx Hy Hroom Hwf Hmacs Ux Uy Hp Hlen.
  destruct (ip_send_out s x (ip_addr y) proto data Hx Hroom Hwf Hmacs (up_ip _ _ Hy) Uy Ux Hp Hlen) as (ck & s1 & Hck & Hsend & Hout).
  exists ck, s1. split_and!; [done..|]. intros mac ck' Hm. apply ip_frame_received; (apply Hx || done || lia).
Qed.

(** Five bytes over UDP to an address that is not in the cache. *)
Lemma datagram_delivered_witness :
  exists frame s1, ip_send_packet [192;168;1;1] 17 [1;2;3;4;5] 5 ex_net = Ok (tt, s1) /\
    last (n_out s1) = Some (Sent frame) /\
    net_receive_frame frame 39 ex_net2 = ip_dispatch 17 [1;2;3;4;5] 5 ex_net2.
Proof.
  destruct (@datagram_delivered ex_net ex_iface ex_net2 ex_iface2 17 [1;2;3;4;5])
    as (ck & s1 & _ & Hsend & Hout & Hrecv); try apply ex_up; try apply ex_wf;
    try (repeat (apply Forall_cons; split; [vm_compute; split; congruence|]); constructor).
  - intros ip mac H. exfalso. change (arp_map _ _) with (∅ : gmap (list Z) (list Z)) in H. by rewrite lookup_empty in H.
  - vm_compute; congruence.
  - vm_compute; congruence.
  - exists (ip_frame broadcast ex_iface 17 [192;168;1;1] [1;2;3;4;5] ck), s1. split; [exact Hsend|].
    split; [by rewrite Hout|]. by apply (Hrecv broadcast ck).
Defined.

(** *** Ping *)

Lemma echo_reply_spec t data len : room t len -> ICMP_HDR <= len <= zlen data -> len < 2 ^ 16 ->
  Forall is_u8 data ->
  icmp_send_echo_reply data len t =
  Ok (tt, out (Printed (chars "ICMP Echo Reply" ++ [10])) (took len t)).
Proof.
  intros Hroom [H8 Hlen] Hmax Hu. unfold ICMP_HDR in H8. unfold icmp_send_echo_reply.
  eapply M_run; [apply alloc_room; [done|unfold MALLOC_SAFE, HEAP_END, HEAP_START, HEAP_SIZE; lia]|].
  cbv iota beta. pose proof (fresh_block_length (heap_ptr (n_heap t)) len (n_heap t) ltac:(lia)) as Hf.
  eapply lift_run; [apply memcpy_at_splice; lia|].
  set (b := splice _ _ _). assert (Hb : b = slice data 0 len).
  { unfold b, splice. rewrite zlen_slice by lia. rewrite (drop_ge (fresh_block _ _ _)) by (unfold zlen in Hf; lia).
    by rewrite app_nil_r. }
  assert (Hbl : zlen b = len) by (rewrite Hb; apply zlen_slice; lia).
  assert (Ub : Forall is_u8 b) by (rewrite Hb; by apply Forall_take, Forall_drop).
  clearbody b. clear Hb.
  eapply lift_run; [apply wr_in; lia|].
  eapply lift_run; [apply wr16_spec; rewrite ?zlen_insert; lia|].
  eapply lift_run; [apply net_checksum_spec; rewrite ?zlen_insert; [|lia|unfold CHECKSUM_MAX; lia]|].
  { do 2 (apply Forall_insert; [|vm_compute; split; congruence]).
    apply Forall_insert; [done|vm_compute; split; congruence]. }
  eapply lift_run; [apply wr16_spec; rewrite ?zlen_insert; lia|].
  eapply M_run; [reflexivity|]. apply release_id.
Qed.

(** The payload of an echo request, checksum as the code stores it. *)
Definition echo_request : list Z :=
  [8; 0; 0xC9; 0xF4; 0x12; 0x34; 0; 1] ++ count_bytes 32 0.

Lemma echo_request_sends s dest : room s 40 ->
  icmp_send_echo_request dest s = ip_send_packet dest IP_PROTO_ICMP echo_request 40 (took 40 s).
Proof.
  intros Hroom. unfold icmp_send_echo_request. change (ICMP_HDR + 32) with 40.
  eapply M_run; [apply alloc_room; [done|vm_compute; split; congruence]|]. cbv iota beta.
  set (b := fresh_block _ _ _). assert (Hb : length b = 40%nat) by done. clearbody b. open_cells Hb.
  do 8 (eapply lift_run; [vm_compute; reflexivity|]; cbv beta).
  match goal with |- (ip_send_packet _ _ ?l _ ≫= _) _ = _ => change l with echo_request end.
  unfold mbind, M_bind. destruct (ip_send_packet _ _ _ _ _) as [[[] s']|]; [apply release_id|done].
Qed.

(** A ping arrives and is not answered: the echo request of one host
    makes the other compute a reply and print that it did, but no frame leaves
    it. *)
Lemma ping_is_not_answered s x t y :
  eth_up s x -> eth_up t y -> room s 156 -> room t 40 -> arp_wf (arp_cache s) (arp_cache_entries s) ->
  (forall ip mac, arp_map (arp_cache s) (arp_cache_entries s) !! ip = Some mac -> length mac = 6%nat) ->
  Forall is_u8 (ip_addr x) -> Forall is_u8 (ip_addr y) ->
  exists frame s1 t1, icmp_send_echo_request (ip_addr y) s = Ok (tt, s1) /\
    last (n_out s1) = Some (Sent frame) /\
    net_receive_frame frame (zlen frame) t = Ok (tt, t1) /\
    n_out t1 = n_out t ++ [Printed (chars "ICMP Echo Reply" ++ [10])].
Proof.
  intros Hx Hy Hrs Hrt Hwf Hmacs Ux Uy.
  rewrite echo_request_sends by (eapply room_weaken; [|done]; lia).
  pose proof (ip_send_spec (took 40 s) x (ip_addr y) IP_PROTO_ICMP echo_request) as Hsend.
  change (zlen echo_request) with 40 in Hsend.
  specialize (Hsend (eth_up_took _ _ _ Hx) (room_took s 40 116 ltac:(lia) ltac:(lia) Hrs) Hwf Hmacs (up_ip _ _ Hy) Uy Ux
    ltac:(vm_compute; split; congruence) ltac:(lia)).
  destruct (resolve _ x (ip_addr y)) as [mac s1] eqn:Hres. destruct Hsend as (ck & Hck & _ & ->).
  assert (Hmac : length mac = 6%nat).
  { revert Hres. unfold resolve. cbn [arp_cache arp_cache_entries took].
    destruct (_ !! ip_addr y) as [m|] eqn:E; intros [= <- _]; [by eapply Hmacs|done]. }
  set (frame := eth_frame mac (mac_addr x) ETHERTYPE_IPV4 _).
  assert (Hl : zlen frame = 14 + 60).
  { unfold zlen, frame, eth_frame, datagram, be16. rewrite !length_app, ip_header_length by (apply Hx || apply Hy).
    rewrite (up_mac _ _ Hx), Hmac. done. }
  eexists frame, _, _. split; [reflexivity|]. split; [apply last_snoc|]. rewrite Hl. split.
  - unfold frame. rewrite net_receive_ip by (apply Hx || done).
    rewrite <- (app_nil_r (datagram _ _ _ _ _)).
    rewrite (ip_handle_spec t y) by (apply Hy || apply Hx || done). rewrite app_nil_r.
    change (ip_dispatch _ _ _ t) with (icmp_send_echo_reply echo_request 40 t).
    apply echo_reply_spec; [done|vm_compute; split; congruence|done|].
    repeat (apply Forall_cons; split; [vm_compute; split; congruence|]). constructor.
  - done.
Qed.

Lemma ping_is_not_answered_witness :
  exists frame s1 t1, icmp_send_echo_request [192;168;1;1] ex_net = Ok (tt, s1) /\
    last (n_out s1) = Some (Sent frame) /\ net_receive_frame frame (zlen frame) ex_net2 = Ok (tt, t1) /\
    n_out t1 = [Printed (chars "ICMP Echo Reply" ++ [10])].
Proof.
  apply (@ping_is_not_answered ex_net ex_iface ex_net2 ex_iface2); try apply ex_up; try apply ex_wf;
    try (repeat (apply Forall_cons; split; [vm_compute; split; congruence|]); constructor);
    try (eapply room_weaken; [|apply ex_wf]; lia).
  intros ip mac H. exfalso. change (arp_map _ _) with (∅ : gmap (list Z) (list Z)) in H. by rewrite lookup_empty in H.
Defined.

(** *** Lengths nobody checks *)

(** [ip_handle_packet] trusts the total length of the header: an echo
    request that claims a longer payload than the frame brought makes the reply
    routine read past the end of the receive buffer. *)
Lemma ip_trusts_total_length t y src body claim c1 c2 :
  eth_up t y -> length src = 4%nat -> room t claim ->
  ICMP_HDR <= claim -> zlen (ICMP_ECHO_REQUEST :: body) < claim -> IPV4_HDR + claim < 2 ^ 16 ->
  let packet := ip_header IP_PROTO_ICMP claim c1 c2 src (ip_addr y) ++ ICMP_ECHO_REQUEST :: body in
  ip_handle_packet packet (zlen packet) t = Err OutOfBounds.
Proof.
  intros Hup Hs Hroom H8 Hshort Hmax. cbv zeta. pose proof (up_ip _ _ Hup) as Hi.
  set (data := ICMP_ECHO_REQUEST :: body) in *. unfold IPV4_HDR, ICMP_HDR in *.
  destruct (ip_header_fields IP_PROTO_ICMP claim c1 c2 src (ip_addr y) data)
    as (F0 & F16 & F9 & Fr & w & F2 & Fw); [lia|done|done|done|].
  assert (Hl : 20 <= zlen (ip_header IP_PROTO_ICMP claim c1 c2 src (ip_addr y) ++ data)).
  { rewrite zlen_app. unfold zlen at 1. rewrite ip_header_length by done. pose proof (zlen_nonneg data). lia. }
  set (packet := ip_header _ _ _ _ _ _ ++ data) in *.
  unfold ip_handle_packet. rewrite (proj2 (Z.ltb_ge _ _)) by (unfold IPV4_HDR; lia).
  eapply M_run; [by apply the_iface_up|]. cbv iota beta.
  eapply lift_run; [exact F0|]. change (negb (Z.shiftr 69 4 =? 4)) with false. cbv iota beta.
  eapply lift_run; [exact F16|]. eapply lift_run; [by apply same_ip_spec|]. cbv beta.
  rewrite bool_decide_true by done. cbn [negb]. change (Z.land 69 15 * 4) with 20. cbv zeta.
  rewrite (proj2 (Z.ltb_ge _ _)) by lia. eapply lift_run; [exact F2|].
  eapply lift_run; [exact F9|]. rewrite Fw. change (Z.to_nat 20) with 20%nat. rewrite Fr.
  change (ip_dispatch IP_PROTO_ICMP) with icmp_handle_packet.
  replace (u16 (20 + claim - 20)) with claim by (rewrite u16_id; unfold is_u16; lia).
  unfold icmp_handle_packet. rewrite (proj2 (Z.ltb_ge _ _)) by (unfold ICMP_HDR; lia).
  eapply lift_run; [reflexivity|]. change (ICMP_ECHO_REQUEST =? ICMP_ECHO_REQUEST) with true. cbv iota beta.
  unfold icmp_send_echo_reply.
  eapply M_run; [apply alloc_room; [done|unfold MALLOC_SAFE, HEAP_END, HEAP_START, HEAP_SIZE; lia]|]. cbv iota beta.
  assert (Hc : forall b, memcpy_at b 0 data 0 claim = Err OutOfBounds).
  { intros b. unfold memcpy_at. case_if; [|done]. rewrite memcpy_fault; [done|]. right.
    rewrite length_drop. unfold zlen in Hshort. lia. }
  unfold mbind, M_bind, liftR. by rewrite Hc.
Qed.

Lemma ip_trusts_total_length_witness :
  let packet := ip_header 1 1000 0 0 [192;168;1;100] [192;168;1;1] ++ [8; 0; 0; 0; 0; 0; 0; 0] in
  zlen packet = 28 /\ net_receive_frame (eth_frame ex_mac ex_mac 0x0800 packet) 42 ex_net2 = Err OutOfBounds.
Proof.
  split; [reflexivity|].
  apply (@ip_trusts_total_length ex_net2 ex_iface2 [192;168;1;100] [0; 0; 0; 0; 0; 0; 0] 1000 0 0);
    try apply ex_up; try apply ex_wf; vm_compute; congruence.
Defined.

(** Out of bounds, or done without changing the size. *)
Definition fixed_size (f : list Z -> res (list Z)) : Prop :=
  forall b, f b = Err OutOfBounds \/ exists b', f b = Ok b' /\ zlen b' = zlen b.

Lemma fixed_bind f g : fixed_size f -> fixed_size g -> fixed_size (fun b => b ← f b; g b).
Proof.
  intros Hf Hg b. destruct (Hf b) as [->|(b1 & -> & E1)]; [by left|]. rewrite bind_ret.
  destruct (Hg b1) as [->|(b2 & -> & E2)]; [by left|right]. exists b2. by rewrite E2.
Qed.
Lemma fixed_wr off v : fixed_size (fun b => wr b off v).
Proof. intros b. unfold wr. case_if; [right|by left]. eexists. split; [done|apply zlen_insert]. Qed.
Lemma fixed_wr16 off v : fixed_size (fun b => wr16 b off v).
Proof. apply fixed_bind; apply fixed_wr. Qed.
Lemma fixed_field off xs : fixed_size (fun b => wr_field b off xs).
Proof.
  intros b. unfold wr_field. case_if; [right|by left]. eexists. split; [done|].
  apply andb_prop in Heqb0 as [?%Z.leb_le ?%Z.leb_le]. by apply zlen_splice.
Qed.

(** On a block that is too short for the two headers the writes end outside. *)
Lemma build_ip_short b x dest proto len : length dest = 4%nat -> zlen b < 34 ->
  build_ip b x dest proto len = Err OutOfBounds.
Proof.
  intros Hd Hb.
  assert (Hpre : fixed_size (fun b => b ← wr16 b 12 (net_htons ETHERTYPE_IPV4);
    b ← wr b (14 + 0) (Z.lor (Z.shiftl 4 4) 5); b ← wr b (14 + 1) 0;
    b ← wr16 b (14 + 2) (net_htons (u16 (IPV4_HDR + len))); b ← wr16 b (14 + 4) 0; b ← wr16 b (14 + 6) 0;
    b ← wr b (14 + 8) 64; b ← wr b (14 + 9) proto; wr_field b (14 + 12) (ip_addr x)))
    by (repeat apply fixed_bind; solve [apply fixed_wr | apply fixed_wr16 | apply fixed_field]).
  assert (Hsplit : build_ip b x dest proto len =
    ((b ← wr16 b 12 (net_htons ETHERTYPE_IPV4);
      b ← wr b (14 + 0) (Z.lor (Z.shiftl 4 4) 5); b ← wr b (14 + 1) 0;
      b ← wr16 b (14 + 2) (net_htons (u16 (IPV4_HDR + len))); b ← wr16 b (14 + 4) 0; b ← wr16 b (14 + 6) 0;
      b ← wr b (14 + 8) 64; b ← wr b (14 + 9) proto; wr_field b (14 + 12) (ip_addr x)) ≫=
     fun b => b ← wr_field b (14 + 16) dest; wr16 b (14 + 10) 0)).
  { unfold build_ip. by repeat setoid_rewrite bind_assoc. }
  rewrite Hsplit. destruct (Hpre b) as [E|(b' & E & Hb')]; cbv beta in E; rewrite E; [done|].
  rewrite bind_ret. unfold wr_field at 1. rewrite (proj2 (Z.leb_gt (14 + 16 + zlen dest) _)), andb_false_r;
    [done|]. unfold zlen in *. lia.
Qed.

(** The block of [ip_send_packet] is sized by a 16-bit sum: a payload of
    65502 bytes or more wraps it, and the headers are written outside of it. *)
Lemma ip_send_size_wraps s x dest proto data len :
  eth_up s x -> room s 76 -> arp_wf (arp_cache s) (arp_cache_entries s) -> length dest = 4%nat ->
  65502 <= len < 2 ^ 16 ->
  ip_send_packet dest proto data len s = Err OutOfBounds.
Proof.
  intros Hup Hroom Hwf Hd Hlen. unfold ip_send_packet.
  set (n := u16 (ETH_HDR + IPV4_HDR + len)).
  assert (Hn : n = len - 65502 /\ 0 <= n < 34).
  { unfold n, ETH_HDR, IPV4_HDR, u16. Z.to_euclidean_division_equations; lia. }
  clearbody n. destruct Hn as [_ Hn].
  eapply M_run; [by apply the_iface_up|]. cbv iota beta zeta.
  eapply M_run; [apply alloc_room;
    [eapply room_weaken; [|done]; lia|unfold MALLOC_SAFE, HEAP_END, HEAP_START, HEAP_SIZE; lia]|]. cbv iota beta.
  pose proof (fresh_block_length (heap_ptr (n_heap s)) n (n_heap s) ltac:(lia)) as Hf.
  destruct (fixed_field 6 (mac_addr x) (fresh_block (heap_ptr (n_heap s)) n (n_heap s))) as [E|(b1 & E & L1)];
    [unfold mbind, M_bind, liftR at 1; by rewrite E|].
  eapply lift_run; [exact E|]. cbv beta.
  destruct (resolve (took n s) x dest) as [mac s1] eqn:Hres.
  eapply M_run; [rewrite (arp_lookup_spec (took n s) x), Hres; try done|].
  { by apply eth_up_took. }
  { apply room_took; [lia..|]. eapply room_weaken; [|done]. lia. }
  destruct (fixed_field 0 mac b1) as [E2|(b2 & E2 & L2)];
    [unfold mbind, M_bind, liftR at 1; by rewrite E2|].
  eapply lift_run; [exact E2|]. cbv beta.
  unfold mbind, M_bind, liftR at 1. rewrite build_ip_short by (done || lia). done.
Qed.

Lemma ip_send_size_wraps_witness :
  ip_send_packet [192;168;1;1] 17 [] 65535 ex_net = Err OutOfBounds.
Proof.
  apply (@ip_send_size_wraps ex_net ex_iface); try apply ex_up; try apply ex_wf; try reflexivity.
  all: vm_compute; split; congruence.
Defined.
