(* ===== verification/Socket.v ===== *)
(** * Sockets *)
(** [src/net/socket.c]: the table of 16 sockets over the network core.  The
    table operations are pure functions on [sock_state]; sending goes through
    [udp_send_packet] of [Net.v]. *)

From stdpp Require Import gmap.
From S2P Require Import Prelude Memory Net.

Definition AF_INET : Z := 2.
Definition SOCK_STREAM : Z := 1.
Definition SOCK_DGRAM : Z := 2.
Definition IPPROTO_TCP : Z := 6.
Definition IPPROTO_UDP : Z := 17.
Definition SOCK_CLOSED : Z := 0.
Definition SOCK_CREATED : Z := 1.
Definition SOCK_LISTENING : Z := 2.
Definition SOCK_CONNECTING : Z := 3.
Definition SOCK_CONNECTED : Z := 4.
Definition MAX_SOCKETS : Z := 16.

Record socket_t := Sock {
  domain : Z;
  type : Z;
  protocol : Z;
  fd : Z;
  local_ip : list Z;
  local_port : Z;
  remote_ip : list Z;
  remote_port : Z;
  state : Z;
  buffer : Z;                  (* address of the receive buffer *)
  buf_len : Z
}.

Record sock_state := SockState {
  sockets : list socket_t;     (* sockets[16] *)
  next_fd : Z;
  s_net : net
}.

(** The tables of a fresh boot. *)
Definition blank_socket : socket_t := Sock 0 0 0 0 [0;0;0;0] 0 [0;0;0;0] 0 SOCK_CLOSED 0 0.
Definition boot_sockets (n : net) : sock_state :=
  {| sockets := replicate 16 blank_socket; next_fd := 1; s_net := n |}.

(** The loop every operation starts with: the first slot that satisfies [p]. *)
Fixpoint find_slot (fuel : nat) (l : list socket_t) (p : socket_t -> bool) (i : Z) : res (option Z) :=
  if i <? MAX_SOCKETS then
    match fuel with
    | O => Err OutOfFuel
    | S f =>
        x ← rd l i;
        if p x then Ok (Some i) else find_slot f l p (i + 1)
    end
  else Ok None.

Definition first_slot (l : list socket_t) (p : socket_t -> bool) : res (option Z) :=
  find_slot (Z.to_nat MAX_SOCKETS) l p 0.

(** Change slot [i] and return [r]. *)
Definition update (i : Z) (f : socket_t -> socket_t) (r : Z) : M sock_state Z :=
  s ← getS;
  x ← liftR (rd (sockets s) i);
  l ← liftR (wr (sockets s) i (f x));
  putS {| sockets := l; next_fd := next_fd s; s_net := s_net s |} ;;
  mret r.

Definition is_closed (x : socket_t) : bool := state x =? SOCK_CLOSED.
Definition is_open_fd (sockfd : Z) (x : socket_t) : bool := (fd x =? sockfd) && negb (state x =? SOCK_CLOSED).
Definition is_fd_in (sockfd st : Z) (x : socket_t) : bool := (fd x =? sockfd) && (state x =? st).

(** [malloc(NET_MTU)], the null pointer included. *)
Definition socket (dom ty proto : Z) : M sock_state Z :=
  if negb (dom =? AF_INET) || (negb (ty =? SOCK_STREAM) && negb (ty =? SOCK_DGRAM)) then mret (-1) else
  s ← getS;
  i ← liftR (first_slot (sockets s) is_closed);
  match i with
  | None => mret (-1)
  | Some i =>
      x ← liftR (rd (sockets s) i);
      let '(ptr, h) := malloc NET_MTU (n_heap (s_net s)) in
      l ← liftR (wr (sockets s) i
        {| domain := dom; type := ty; protocol := proto; fd := next_fd s; local_ip := local_ip x;
           local_port := 0; remote_ip := remote_ip x; remote_port := remote_port x;
           state := SOCK_CREATED; buffer := ptr; buf_len := 0 |});
      putS {| sockets := l; next_fd := i32 (next_fd s + 1);
              s_net := Net (interfaces (s_net s)) (num_interfaces (s_net s)) (arp_cache (s_net s))
                           (arp_cache_entries (s_net s)) h (n_out (s_net s)) |} ;;
      mret (next_fd s)
  end.

Definition bind (sockfd : Z) (addr : list Z) (port : Z) : M sock_state Z :=
  s ← getS;
  i ← liftR (first_slot (sockets s) (is_open_fd sockfd));
  match i with
  | None => mret (-1)
  | Some i => update i (fun x => Sock (domain x) (type x) (protocol x) (fd x) addr port (remote_ip x)
                (remote_port x) (state x) (buffer x) (buf_len x)) 0
  end.

Definition listen (sockfd : Z) (backlog : Z) : M sock_state Z :=
  s ← getS;
  i ← liftR (first_slot (sockets s) (is_fd_in sockfd SOCK_CREATED));
  match i with
  | None => mret (-1)
  | Some i => update i (fun x => Sock (domain x) (type x) (protocol x) (fd x) (local_ip x) (local_port x)
                (remote_ip x) (remote_port x) SOCK_LISTENING (buffer x) (buf_len x)) 0
  end.

Definition accept (sockfd : Z) : M sock_state Z :=
  s ← getS;
  i ← liftR (first_slot (sockets s) (is_fd_in sockfd SOCK_LISTENING));
  match i with None => mret (-1) | Some _ => mret (-1) end.

Definition connect (sockfd : Z) (addr : list Z) (port : Z) : M sock_state Z :=
  s ← getS;
  i ← liftR (first_slot (sockets s) (is_fd_in sockfd SOCK_CREATED));
  match i with
  | None => mret (-1)
  | Some i => update i (fun x => Sock (domain x) (type x) (protocol x) (fd x) (local_ip x) (local_port x)
                addr port (if type x =? SOCK_DGRAM then SOCK_CONNECTED else SOCK_CONNECTING)
                (buffer x) (buf_len x)) 0
  end.

(** Run an operation of the network core. *)
Definition on_net {A} (m : M net A) : M sock_state A := fun s =>
  match m (s_net s) with
  | Ok (a, n) => Ok (a, {| sockets := sockets s; next_fd := next_fd s; s_net := n |})
  | Err e => Err e
  end.

(** [sockets[i].fd == sockfd] with the type test of the inner [if]: a slot with
    the right number and another type is passed over. *)
Definition is_dgram_fd (sockfd : Z) (x : socket_t) : bool := (fd x =? sockfd) && (type x =? SOCK_DGRAM).

Definition sendto (sockfd : Z) (data : list Z) (len : Z) (addr : list Z) (port : Z) : M sock_state Z :=
  s ← getS;
  i ← liftR (first_slot (sockets s) (is_dgram_fd sockfd));
  match i with
  | None => mret (-1)
  | Some i =>
      x ← liftR (rd (sockets s) i);
      on_net (udp_send_packet addr (local_port x) port data len) ;;
      mret len
  end.

(** [state == SOCK_CONNECTED] and one of the two types of the inner tests. *)
Definition is_connected_fd (sockfd : Z) (x : socket_t) : bool :=
  is_fd_in sockfd SOCK_CONNECTED x && ((type x =? SOCK_DGRAM) || (type x =? SOCK_STREAM)).

Definition send (sockfd : Z) (data : list Z) (len : Z) : M sock_state Z :=
  s ← getS;
  i ← liftR (first_slot (sockets s) (is_connected_fd sockfd));
  match i with
  | None => mret (-1)
  | Some i =>
      x ← liftR (rd (sockets s) i);
      if type x =? SOCK_DGRAM then sendto sockfd data len (remote_ip x) (remote_port x)
      else mret len
  end.

Definition recv (sockfd : Z) : M sock_state Z :=
  s ← getS;
  i ← liftR (first_slot (sockets s) (is_fd_in sockfd SOCK_CONNECTED));
  match i with
  | None => mret (-1)
  | Some i => x ← liftR (rd (sockets s) i); mret (buf_len x)
  end.

Definition recvfrom (sockfd : Z) : M sock_state Z :=
  s ← getS;
  i ← liftR (first_slot (sockets s) (fun x => fd x =? sockfd));
  match i with
  | None => mret (-1)
  | Some i => x ← liftR (rd (sockets s) i); mret (buf_len x)
  end.

Definition close (sockfd : Z) : M sock_state Z :=
  s ← getS;
  i ← liftR (first_slot (sockets s) (is_open_fd sockfd));
  match i with
  | None => mret (-1)
  | Some i => update i (fun x => Sock (domain x) (type x) (protocol x) (fd x) (local_ip x) (local_port x)
                (remote_ip x) (remote_port x) SOCK_CLOSED (buffer x) (buf_len x)) 0
  end.

(** * Specification: a finite map from descriptors to open sockets *)

Record view := View { v_domain : Z; v_type : Z; v_protocol : Z; v_port : Z; v_state : Z; v_len : Z }.

(** The calls that manage sockets, and [recv]. *)
Inductive op :=
| OSocket (dom ty proto : Z)
| OBind (sockfd : Z) (addr : list Z) (port : Z)
| OListen (sockfd backlog : Z)
| OAccept (sockfd : Z)
| OConnect (sockfd : Z) (addr : list Z) (port : Z)
| ORecv (sockfd : Z)
| OClose (sockfd : Z).

Definition run_op (o : op) : M sock_state Z :=
  match o with
  | OSocket d t p => socket d t p
  | OBind k a p => bind k a p
  | OListen k b => listen k b
  | OAccept k => accept k
  | OConnect k a p => connect k a p
  | ORecv k => recv k
  | OClose k => close k
  end.

Fixpoint run_ops (os : list op) : M sock_state (list Z) :=
  match os with
  | [] => mret []
  | o :: os => r ← run_op o; rs ← run_ops os; mret (r :: rs)
  end.

(** The open sockets and the next descriptor. *)
Definition spec_state : Type := gmap Z view * Z.

Definition valid_args (dom ty : Z) : bool :=
  (dom =? AF_INET) && ((ty =? SOCK_STREAM) || (ty =? SOCK_DGRAM)).

(** An operation on the open socket [k] if it is in a state that [ok] allows. *)
Definition on_open (st : spec_state) (k : Z) (ok : view -> bool) (f : view -> option view) (r : view -> Z)
    : Z * spec_state :=
  match st.1 !! k with
  | Some v =>
      if ok v then (r v, (match f v with Some v' => <[k := v']> st.1 | None => delete k st.1 end, st.2))
      else (-1, st)
  | None => (-1, st)
  end.

Definition with_state (st : Z) (v : view) : view :=
  View (v_domain v) (v_type v) (v_protocol v) (v_port v) st (v_len v).

Definition spec_op (o : op) (st : spec_state) : Z * spec_state :=
  match o with
  | OSocket d t p =>
      if valid_args d t && (Z.of_nat (size st.1) <? MAX_SOCKETS)
      then (st.2, (<[st.2 := View d t p 0 SOCK_CREATED 0]> st.1, st.2 + 1))
      else (-1, st)
  | OBind k _ p => on_open st k (fun _ => true)
      (fun v => Some (View (v_domain v) (v_type v) (v_protocol v) p (v_state v) (v_len v))) (fun _ => 0)
  | OListen k _ => on_open st k (fun v => v_state v =? SOCK_CREATED)
      (fun v => Some (with_state SOCK_LISTENING v)) (fun _ => 0)
  | OAccept _ => (-1, st)
  | OConnect k _ _ => on_open st k (fun v => v_state v =? SOCK_CREATED)
      (fun v => Some (with_state (if v_type v =? SOCK_DGRAM then SOCK_CONNECTED else SOCK_CONNECTING) v)) (fun _ => 0)
  | ORecv k => on_open st k (fun v => v_state v =? SOCK_CONNECTED) Some v_len
  | OClose k => on_open st k (fun _ => true) (fun _ => None) (fun _ => 0)
  end.

Fixpoint spec_ops (os : list op) (st : spec_state) : list Z * spec_state :=
  match os with
  | [] => ([], st)
  | o :: os => let '(r, st1) := spec_op o st in let '(rs, st2) := spec_ops os st1 in (r :: rs, st2)
  end.

(** ** The table as a map *)

Definition open (x : socket_t) : Prop := state x <> SOCK_CLOSED.
#[global] Instance open_dec x : Decision (open x).
Proof. unfold open. apply _. Defined.

Definition view_of (x : socket_t) : view :=
  View (domain x) (type x) (protocol x) (local_port x) (state x) (buf_len x).
Definition entry (x : socket_t) : Z * view := (fd x, view_of x).

Definition opens (l : list socket_t) : list (Z * view) := entry <$> filter open l.
Definition smap (l : list socket_t) : gmap Z view := list_to_map (opens l).

Record sock_wf (l : list socket_t) (next : Z) : Prop := {
  wf_len : length l = 16%nat;
  wf_next : 1 <= next;
  wf_fds : Forall (fun x => fd x < next) l;
  wf_nodup : NoDup (opens l).*1
}.

Lemma opens_app l1 l2 : opens (l1 ++ l2) = opens l1 ++ opens l2.
Proof. unfold opens. by rewrite filter_app, fmap_app. Qed.

Lemma opens_split l i x : l !! i = Some x ->
  opens l = opens (take i l) ++ opens [x] ++ opens (drop (S i) l) /\
  forall y, opens (<[i := y]> l) = opens (take i l) ++ opens [y] ++ opens (drop (S i) l).
Proof.
  intros Hx. split.
  - rewrite <- (take_drop_middle l i x Hx) at 1. rewrite opens_app. f_equal. apply (opens_app [x]).
  - intros y. rewrite insert_take_drop by (by eapply lookup_lt_Some).
    rewrite opens_app. f_equal. apply (opens_app [y]).
Qed.

Lemma opens_open x : open x -> opens [x] = [entry x].
Proof. intros H. unfold opens. by rewrite filter_cons_True. Qed.
Lemma opens_closed x : ~ open x -> opens [x] = [].
Proof. intros H. unfold opens. by rewrite filter_cons_False. Qed.

Lemma opens_elem l k v : (k, v) ∈ opens l <-> exists i x, l !! i = Some x /\ open x /\ entry x = (k, v).
Proof.
  unfold opens. rewrite list_elem_of_fmap. split.
  - intros (x & Hx & [Ho [i Hi]%list_elem_of_lookup]%list_elem_of_filter). by exists i, x.
  - intros (i & x & Hi & Ho & He). exists x. split; [done|]. apply list_elem_of_filter.
    split; [done|]. by eapply list_elem_of_lookup_2.
Qed.

Lemma smap_Some l next k v : sock_wf l next ->
  smap l !! k = Some v <-> exists i x, l !! i = Some x /\ open x /\ entry x = (k, v).
Proof.
  intros Hwf. rewrite <- opens_elem. symmetry. apply elem_of_list_to_map, Hwf.
Qed.

Lemma smap_size l next : sock_wf l next -> size (smap l) = length (filter open l).
Proof.
  intros Hwf. unfold smap. rewrite map_size_list_to_map by apply Hwf. unfold opens. by rewrite length_fmap.
Qed.

Lemma middle_map (l1 l2 : list (Z * view)) k v : NoDup (l1 ++ (k, v) :: l2).*1 ->
  (list_to_map (l1 ++ (k, v) :: l2) : gmap Z view) = <[k := v]> (list_to_map (l1 ++ l2)).
Proof.
  intros Hd. rewrite <- list_to_map_cons. apply list_to_map_proper; [done|]. symmetry. apply Permutation_middle.
Qed.

Lemma nodup_middle (l1 l2 : list (Z * view)) k v : NoDup (l1 ++ (k, v) :: l2).*1 ->
  (k ∉ (l1 ++ l2).*1) /\ NoDup (l1 ++ l2).*1.
Proof.
  rewrite !fmap_app, fmap_cons. intros Hd. rewrite <-Permutation_middle in Hd. by apply NoDup_cons in Hd.
Qed.

(** An open slot changed without closing it, closed, and a closed slot opened. *)
Lemma smap_update l next i x y : sock_wf l next -> l !! i = Some x -> open x -> open y -> fd y = fd x ->
  sock_wf (<[i := y]> l) next /\ smap (<[i := y]> l) = <[fd x := view_of y]> (smap l).
Proof.
  intros [Hl Hn Hf Hd] Hx Hox Hoy Hfd. destruct (opens_split l i x Hx) as [E1 E2].
  rewrite opens_open in E1 by done. specialize (E2 y). rewrite opens_open in E2 by done.
  unfold entry in E1, E2. rewrite Hfd in E2. cbn [app] in E1, E2. unfold smap.
  assert (Hd2 : NoDup (opens (<[i := y]> l)).*1) by (rewrite E1 in Hd; rewrite E2, fmap_app, fmap_cons in *; exact Hd).
  split.
  - constructor; [by rewrite length_insert|done| |done]. apply Forall_insert; [done|]. rewrite Hfd.
    exact (Forall_lookup_1 _ _ _ _ Hf Hx).
  - rewrite E1 in Hd |- *. rewrite E2 in Hd2 |- *. rewrite !middle_map by done. by rewrite insert_insert_eq.
Qed.

Lemma smap_close l next i x y : sock_wf l next -> l !! i = Some x -> open x -> ~ open y -> fd y = fd x ->
  sock_wf (<[i := y]> l) next /\ smap (<[i := y]> l) = delete (fd x) (smap l).
Proof.
  intros [Hl Hn Hf Hd] Hx Hox Hoy Hfd. destruct (opens_split l i x Hx) as [E1 E2].
  rewrite opens_open in E1 by done. specialize (E2 y). rewrite opens_closed in E2 by done.
  unfold entry in E1. cbn [app] in E1, E2. unfold smap. rewrite E1 in Hd.
  destruct (nodup_middle _ _ _ _ Hd) as [Hni Hd2]. split.
  - constructor; [by rewrite length_insert|done| |by rewrite E2]. apply Forall_insert; [done|]. rewrite Hfd.
    exact (Forall_lookup_1 _ _ _ _ Hf Hx).
  - rewrite E1, E2, middle_map by done. rewrite delete_insert_id; [done|]. by apply not_elem_of_list_to_map_1.
Qed.

Lemma smap_open l next i x y : sock_wf l next -> l !! i = Some x -> ~ open x -> open y -> fd y = next ->
  sock_wf (<[i := y]> l) (next + 1) /\ smap (<[i := y]> l) = <[next := view_of y]> (smap l).
Proof.
  intros [Hl Hn Hf Hd] Hx Hox Hoy Hfd. destruct (opens_split l i x Hx) as [E1 E2].
  rewrite opens_closed in E1 by done. specialize (E2 y). rewrite opens_open in E2 by done.
  unfold entry in E2. rewrite Hfd in E2. cbn [app] in E1, E2. unfold smap.
  assert (Hni : next ∉ (opens l).*1).
  { intros ([k v] & Hk & (j & z & Hz & _ & He)%opens_elem)%list_elem_of_fmap. cbn in Hk. subst k.
    injection He as Hz1 _. eapply Forall_lookup_1 in Hf; [|exact Hz]. lia. }
  assert (Hd2 : NoDup (opens (<[i := y]> l)).*1).
  { rewrite E2, fmap_app, fmap_cons. rewrite <- Permutation_middle, <- fmap_app, <- E1. by constructor. }
  split.
  - constructor; [by rewrite length_insert|lia| |done]. apply Forall_insert; [|lia].
    eapply Forall_impl; [exact Hf|]. cbn. lia.
  - rewrite E2 in Hd2 |- *. by rewrite middle_map, <- E1 by done.
Qed.

(** ** The search loop *)

Lemma find_slot_spec f : forall l p i, length l = 16%nat -> 0 <= i -> i + Z.of_nat f = 16 ->
  (exists j x, find_slot f l p i = Ok (Some j) /\ i <= j < 16 /\ rd l j = Ok x /\ p x = true) \/
  (find_slot f l p i = Ok None /\ forall j x, i <= Z.of_nat j -> l !! j = Some x -> p x = false).
Proof.
  induction f as [|f IH]; intros l p i Hl Hi Hf; cbn [find_slot]; unfold MAX_SOCKETS.
  { right. rewrite (proj2 (Z.ltb_ge _ _)) by lia. split; [done|]. intros j x Hj Hx%lookup_lt_Some. lia. }
  rewrite (proj2 (Z.ltb_lt _ _)) by lia.
  destruct (rd_total l i) as [x Hx]; [unfold zlen; lia|]. rewrite Hx, bind_ret.
  destruct (p x) eqn:Ep; [left; exists i, x; repeat split; done || lia|].
  destruct (IH l p (i + 1)) as [(j & y & -> & Hj & Hr & Hp)|[-> Hno]]; [done|lia..| |].
  - left. exists j, y. repeat split; done || lia.
  - right. split; [done|]. intros j y Hj Hy. apply rd_Ok, zget_Some in Hx as [_ Hx].
    destruct (decide (j = Z.to_nat i)) as [->|]; [by simplify_eq|]. apply (Hno j y); [lia|done].
Qed.

Lemma first_slot_spec l p : length l = 16%nat ->
  (exists i x, first_slot l p = Ok (Some i) /\ 0 <= i < 16 /\ rd l i = Ok x /\ l !! Z.to_nat i = Some x /\ p x = true) \/
  (first_slot l p = Ok None /\ forall j x, l !! j = Some x -> p x = false).
Proof.
  intros Hl. destruct (find_slot_spec 16 l p 0 Hl) as [(i & x & H & Hi & Hr & Hp)|[H Hno]]; [lia|lia|..].
  - left. exists i, x. pose proof Hr as [_ Hx]%rd_Ok%zget_Some. done.
  - right. split; [done|]. intros j x. apply Hno. lia.
Qed.

(** Searching for the open socket [k] in an allowed state is a look into the map. *)
Lemma find_open l next k p ok : sock_wf l next ->
  (forall x, p x = true <-> fd x = k /\ open x /\ ok (view_of x) = true) ->
  (exists i x, first_slot l p = Ok (Some i) /\ 0 <= i < 16 /\ rd l i = Ok x /\ l !! Z.to_nat i = Some x /\
     fd x = k /\ open x /\ ok (view_of x) = true /\ smap l !! k = Some (view_of x)) \/
  (first_slot l p = Ok None /\ match smap l !! k with Some v => ok v = false | None => True end).
Proof.
  intros Hwf Hp. destruct (first_slot_spec l p) as [(i & x & H & Hi & Hr & Hx & Hpx)|[H Hno]]; [apply Hwf| |].
  - left. apply Hp in Hpx as (Hf & Ho & Hok). exists i, x. repeat (split; [done|]).
    apply (smap_Some l next _ _ Hwf). exists (Z.to_nat i), x. unfold entry. rewrite Hf. done.
  - right. split; [done|]. destruct (smap l !! k) as [v|] eqn:E; [|done].
    apply (smap_Some l next) in E as (i & x & Hx & Ho & He); [|done]. injection He as Hf <-.
    specialize (Hno i x Hx). destruct (ok (view_of x)) eqn:Eok; [|done].
    assert (p x = true) by (by apply Hp). congruence.
Qed.

Lemma is_open_fd_spec k x : is_open_fd k x = true <-> fd x = k /\ open x /\ true = true.
Proof. unfold is_open_fd, open. rewrite andb_true_iff, negb_true_iff, Z.eqb_eq, Z.eqb_neq. tauto. Qed.

Lemma is_fd_in_spec k st x : st <> SOCK_CLOSED ->
  is_fd_in k st x = true <-> fd x = k /\ open x /\ (v_state (view_of x) =? st) = true.
Proof.
  intros Hst. unfold is_fd_in, open. rewrite andb_true_iff, !Z.eqb_eq. cbn [v_state view_of].
  split; [|tauto]. intros [? ->]. tauto.
Qed.

(** ** Refinement *)

Record Rel (s : sock_state) (st : spec_state) : Prop := {
  rel_wf : sock_wf (sockets s) (next_fd s);
  rel_map : smap (sockets s) = st.1;
  rel_next : next_fd s = st.2
}.

Definition set_socks (s : sock_state) (l : list socket_t) : sock_state :=
  {| sockets := l; next_fd := next_fd s; s_net := s_net s |}.

Lemma update_run s i f r x : length (sockets s) = 16%nat -> 0 <= i < 16 -> rd (sockets s) i = Ok x ->
  update i f r s = Ok (r, set_socks s (<[Z.to_nat i := f x]> (sockets s))).
Proof.
  intros Hl Hi Hx. unfold update. eapply M_run; [reflexivity|]. eapply lift_run; [exact Hx|].
  eapply lift_run; [apply wr_in; unfold zlen; lia|]. done.
Qed.

(** The common shape of [bind], [listen], [connect] and [close]. *)
Lemma on_open_refines s st k p ok f g r : Rel s st ->
  (forall x, p x = true <-> fd x = k /\ open x /\ ok (view_of x) = true) ->
  (forall x, open x -> ok (view_of x) = true -> fd (f x) = fd x /\
     match g (view_of x) with Some v => open (f x) /\ view_of (f x) = v | None => ~ open (f x) end) ->
  exists s', (s ← getS; i ← liftR (first_slot (sockets s) p);
              match i with None => mret (-1) | Some i => update i f r end) s =
      Ok ((on_open st k ok g (fun _ => r)).1, s') /\ Rel s' (on_open st k ok g (fun _ => r)).2.
Proof.
  intros [Hwf Hm Hn] Hp Hf. pose proof (wf_len _ _ Hwf) as Hlen. unfold on_open. rewrite <- Hm.
  destruct (find_open _ _ k p ok Hwf Hp) as [(i & x & E & Hi & Hr & Hx & Hk & Ho & Hok & Hs)|[E Hs]].
  - rewrite Hs, Hok. eexists. split.
    + eapply M_run; [reflexivity|]. eapply lift_run; [exact E|]. by apply update_run.
    + destruct (Hf x Ho Hok) as [Hfd Hv]. rewrite <- Hk.
      destruct (g (view_of x)) as [v|]; [destruct Hv as [Ho' <-]|].
      * destruct (smap_update _ _ _ x (f x) Hwf Hx Ho Ho' Hfd) as [? ?]. by constructor.
      * destruct (smap_close _ _ _ x (f x) Hwf Hx Ho Hv Hfd) as [? ?]. by constructor.
  - exists s. split.
    + eapply M_run; [reflexivity|]. eapply lift_run; [exact E|]. destruct (smap _ !! k); [by rewrite Hs|done].
    + destruct (smap _ !! k); [rewrite Hs|]; by constructor.
Qed.

Lemma full_iff l next : sock_wf l next -> (forall j x, l !! j = Some x -> is_closed x = false) ->
  size (smap l) = 16%nat.
Proof.
  intros Hwf Hno. rewrite (smap_size _ _ Hwf), <- (wf_len _ _ Hwf). f_equal.
  assert (Hall : Forall open l).
  { apply Forall_lookup. intros j x Hx. specialize (Hno j x Hx). by apply Z.eqb_neq in Hno. }
  clear Hwf Hno. induction Hall as [|x l Hx _ IH]; [done|]. by rewrite filter_cons_True, IH.
Qed.

Lemma room_iff l next i x : sock_wf l next -> l !! i = Some x -> ~ open x -> (size (smap l) < 16)%nat.
Proof.
  intros Hwf Hx Ho. rewrite (smap_size _ _ Hwf), <- (wf_len _ _ Hwf).
  apply length_filter_lt with x; [by eapply list_elem_of_lookup_2|done].
Qed.

Lemma socket_refines s st d t p : Rel s st -> st.2 < 2 ^ 31 - 1 ->
  exists s', socket d t p s = Ok ((spec_op (OSocket d t p) st).1, s') /\ Rel s' (spec_op (OSocket d t p) st).2.
Proof.
  intros HR Hmax. pose proof HR as [Hwf Hm Hn]. pose proof (wf_len _ _ Hwf) as Hlen.
  unfold socket. cbn [spec_op]. unfold valid_args. rewrite <- negb_orb, <- negb_andb.
  destruct ((d =? AF_INET) && _); cbn [negb andb]; [|by exists s].
  destruct (first_slot_spec (sockets s) is_closed Hlen) as [(i & x & E & Hi & Hr & Hx & Hc)|[E Hno]].
  - apply Z.eqb_eq in Hc. assert (Ho : ~ open x) by (unfold open; tauto).
    pose proof (room_iff _ _ _ _ Hwf Hx Ho) as Hsz. rewrite Hm in Hsz.
    rewrite (proj2 (Z.ltb_lt _ _)) by (unfold MAX_SOCKETS; lia). cbn [fst snd].
    destruct (malloc NET_MTU (n_heap (s_net s))) as [ptr h] eqn:Em.
    set (y := Sock d t p (next_fd s) (local_ip x) 0 (remote_ip x) (remote_port x) SOCK_CREATED ptr 0).
    destruct (smap_open _ _ _ x y Hwf Hx Ho ltac:(done) eq_refl) as [Hwf' Hm'].
    eexists. split.
    + rewrite <- Hn. eapply M_run; [reflexivity|]. eapply lift_run; [exact E|].
      eapply lift_run; [exact Hr|]. rewrite Em. eapply lift_run; [apply wr_in; unfold zlen; lia|]. reflexivity.
    + pose proof (wf_next _ _ Hwf).
      constructor; cbn [sockets next_fd fst snd]; rewrite ?i32_id by (unfold is_i32; lia); [exact Hwf'| |lia].
      by rewrite <- Hn, <- Hm.
  - pose proof (full_iff _ _ Hwf Hno) as Hsz. rewrite Hm in Hsz. rewrite Hsz. change (Z.of_nat 16 <? MAX_SOCKETS) with false.
    exists s. split; [|done]. eapply M_run; [reflexivity|]. eapply lift_run; [exact E|]. done.
Qed.

Lemma op_refines s st o : Rel s st -> st.2 < 2 ^ 31 - 1 ->
  exists s', run_op o s = Ok ((spec_op o st).1, s') /\ Rel s' (spec_op o st).2.
Proof.
  intros HR Hmax. destruct o as [d t p|k a p|k b|k|k a p|k|k]; cbn [run_op].
  - by apply socket_refines.
  - apply (on_open_refines s st k (is_open_fd k) (fun _ => true)); [done|apply is_open_fd_spec|].
    intros x Ho _. done.
  - apply (on_open_refines s st k (is_fd_in k SOCK_CREATED)); [done|intros; by apply is_fd_in_spec|].
    intros x Ho _. done.
  - exists s. split; [|done]. unfold accept. eapply M_run; [reflexivity|].
    destruct (first_slot_spec (sockets s) (is_fd_in k SOCK_LISTENING)) as [(i & x & E & _)|[E _]];
      [apply HR|eapply lift_run; [exact E|]; done..].
  - apply (on_open_refines s st k (is_fd_in k SOCK_CREATED)); [done|intros; by apply is_fd_in_spec|].
    intros x Ho _. cbn. by destruct (type x =? SOCK_DGRAM).
  - pose proof HR as [Hwf Hm Hn]. cbn [spec_op]. unfold on_open, recv. rewrite <- Hm. exists s.
    destruct (find_open _ _ k (is_fd_in k SOCK_CONNECTED) (fun v => v_state v =? SOCK_CONNECTED) Hwf)
      as [(i & x & E & Hi & Hr & Hx & Hk & Ho & Hok & Hs)|[E Hs]]; [intros; by apply is_fd_in_spec|..].
    + rewrite Hs, Hok. split.
      * eapply M_run; [reflexivity|]. eapply lift_run; [exact E|]. eapply lift_run; [exact Hr|]. done.
      * rewrite insert_id by done. by constructor.
    + assert (Hspec : spec_op (ORecv k) st = (-1, st)).
      { cbn [spec_op]. unfold on_open. rewrite <- Hm. destruct (smap _ !! k); [by rewrite Hs|done]. }
      cbn [spec_op] in Hspec. unfold on_open in Hspec. rewrite <- Hm in Hspec. rewrite Hspec.
      split; [|by constructor]. eapply M_run; [reflexivity|]. eapply lift_run; [exact E|]. done.
  - change (spec_op (OClose k) st) with (on_open st k (fun _ => true) (fun _ => None) (fun _ => 0)).
    unfold close.
    apply (on_open_refines s st k (is_open_fd k) (fun _ => true)); [done|apply is_open_fd_spec|].
    intros x Ho _. split; [done|]. by intros H.
Qed.

Lemma spec_next o st : (spec_op o st).2.2 <= st.2 + 1.
Proof.
  assert (H : forall k ok f r, (on_open st k ok f r).2.2 <= st.2 + 1).
  { intros. unfold on_open. destruct (_ !! k); [|cbn; lia]. destruct (ok v); cbn; lia. }
  destruct o; cbn [spec_op]; try apply H; [|cbn; lia]. destruct (_ && _); cbn; lia.
Qed.

Lemma ops_refine os : forall s st, Rel s st -> st.2 + zlen os < 2 ^ 31 - 1 ->
  exists s', run_ops os s = Ok ((spec_ops os st).1, s') /\ Rel s' (spec_ops os st).2.
Proof.
  induction os as [|o os IH]; intros s st HR Hmax; cbn [run_ops spec_ops]; [by exists s|].
  unfold zlen in Hmax. cbn [length] in Hmax.
  destruct (op_refines s st o HR) as (s1 & E1 & R1); [lia|].
  pose proof (spec_next o st) as Hnx. destruct (spec_op o st) as [r st1]. cbn [fst snd] in *.
  destruct (IH s1 st1 R1) as (s2 & E2 & R2); [unfold zlen; lia|].
  destruct (spec_ops os st1) as [rs st2]. cbn [fst snd] in *. exists s2. split; [|done].
  eapply M_run; [exact E1|]. eapply M_run; [exact E2|]. done.
Qed.

Lemma boot_rel n : Rel (boot_sockets n) (∅, 1).
Proof. constructor; [constructor|done|done]; try done; [by apply Forall_replicate|constructor]. Qed.

(** C18.  From a fresh boot, any sequence of the seven calls [socket], [bind], [listen], [accept], [connect], [recv] and
    [close] gives the results of a finite map from descriptors to sockets that holds at most 16: a descriptor names
    one open socket, no descriptor is ever handed out twice, and every call finds its socket or returns -1.  The
    calls [sendto] and [recvfrom], and [send] which goes through [sendto], are not in the sequence: they look at closed
    sockets too and do not follow the map ([close_does_not_stop_sending]). *)
Theorem sockets_refine_map n os : 1 + zlen os < 2 ^ 31 - 1 ->
  exists s', run_ops os (boot_sockets n) = Ok ((spec_ops os (∅, 1)).1, s') /\
    smap (sockets s') = (spec_ops os (∅, 1)).2.1 /\ (size (smap (sockets s')) <= 16)%nat.
Proof.
  intros Hmax. destruct (ops_refine os _ _ (boot_rel n) Hmax) as (s' & E & [Hwf Hm _]).
  exists s'. split; [exact E|]. split; [exact Hm|]. rewrite (smap_size _ _ Hwf), <- (wf_len _ _ Hwf).
  apply length_filter.
Qed.

Lemma sockets_refine_map_witness :
  let os := [OSocket 2 2 17; OBind 1 [0;0;0;0] 53; OConnect 1 [8;8;8;8] 53; OSocket 2 1 6; OListen 2 1;
             OAccept 2; OClose 1; OClose 1; OSocket 2 1 6; ORecv 3] in
  exists s', run_ops os (boot_sockets ex_net) = Ok ([1; 0; 0; 2; 0; -1; 0; -1; 3; -1], s') /\
    (size (smap (sockets s')) <= 16)%nat.
Proof.
  destruct (@sockets_refine_map ex_net
    [OSocket 2 2 17; OBind 1 [0;0;0;0] 53; OConnect 1 [8;8;8;8] 53; OSocket 2 1 6; OListen 2 1;
     OAccept 2; OClose 1; OClose 1; OSocket 2 1 6; ORecv 3]) as (s' & E & _ & H).
  - vm_compute. congruence.
  - exists s'. split; [exact E|exact H].
Defined.

(** ** What the sockets do not do *)

Definition set_net (s : sock_state) (n : net) : sock_state :=
  {| sockets := sockets s; next_fd := next_fd s; s_net := n |}.

(** [sendto] in terms of the slot it finds. *)
Lemma sendto_found s k data len addr port i x :
  first_slot (sockets s) (is_dgram_fd k) = Ok (Some i) -> rd (sockets s) i = Ok x ->
  sendto k data len addr port s =
    match udp_send_packet addr (local_port x) port data len (s_net s) with
    | Ok (_, n) => Ok (len, set_net s n)
    | Err e => Err e
    end.
Proof.
  intros E Hx. unfold sendto. eapply M_run; [reflexivity|]. eapply lift_run; [exact E|].
  eapply lift_run; [exact Hx|]. unfold mbind, M_bind, on_net.
  destruct (udp_send_packet _ _ _ _ _ _) as [[[] n]|]; done.
Qed.

(** A slot that is the only one to satisfy [p] is found; one that nobody
    satisfies is not. *)
Lemma first_slot_only l p i x : length l = 16%nat -> rd l i = Ok x -> p x = true ->
  (forall j y, l !! j = Some y -> p y = true -> j = Z.to_nat i) -> first_slot l p = Ok (Some i).
Proof.
  intros Hl Hx Hp Hu. apply rd_Ok, zget_Some in Hx as [Hi Hx].
  destruct (first_slot_spec l p Hl) as [(j & y & E & Hj & _ & Hy & Hpy)|[_ Hno]].
  - specialize (Hu _ _ Hy Hpy). replace i with j by lia. done.
  - specialize (Hno _ _ Hx). congruence.
Qed.

Lemma first_slot_none l p : length l = 16%nat -> (forall j y, l !! j = Some y -> p y = false) ->
  first_slot l p = Ok None.
Proof.
  intros Hl Hno. destruct (first_slot_spec l p Hl) as [(j & y & E & Hj & _ & Hy & Hpy)|[E _]]; [|done].
  specialize (Hno _ _ Hy). congruence.
Qed.

(** Closing a datagram socket does not stop it from sending: [close]
    succeeds and [bind] then refuses the descriptor, but [sendto] does not look
    at the state: it hands the very same datagram to UDP and reports success. *)
Lemma close_does_not_stop_sending s k i x data len addr port n :
  length (sockets s) = 16%nat -> rd (sockets s) i = Ok x -> fd x = k -> open x -> type x = SOCK_DGRAM ->
  (forall j y, sockets s !! j = Some y -> fd y = k -> j = Z.to_nat i) ->
  sendto k data len addr port s = Ok (len, set_net s n) ->
  exists s1, close k s = Ok (0, s1) /\ bind k addr port s1 = Ok (-1, s1) /\
    sendto k data len addr port s1 = Ok (len, set_net s1 n).
Proof.
  intros Hl Hx Hk Ho Hty Hu Hs. pose proof Hx as [Hi0 Hlk]%rd_Ok%zget_Some.
  pose proof (lookup_lt_Some _ _ _ Hlk) as Hi. assert (Hrange : 0 <= i < 16) by lia.
  set (y := Sock (domain x) (type x) (protocol x) (fd x) (local_ip x) (local_port x)
                 (remote_ip x) (remote_port x) SOCK_CLOSED (buffer x) (buf_len x)).
  set (l1 := <[Z.to_nat i := y]> (sockets s)).
  assert (Hl1 : length l1 = 16%nat) by (unfold l1; by rewrite length_insert).
  assert (Hy : rd l1 i = Ok y) by (apply rd_Ok, zget_insert_eq; unfold zlen; lia).
  assert (Hu1 : forall j z, l1 !! j = Some z -> fd z = k -> j = Z.to_nat i /\ z = y).
  { intros j z Hz Hf. destruct (decide (j = Z.to_nat i)) as [->|Hne].
    - split; [done|]. unfold l1 in Hz. rewrite list_lookup_insert_eq in Hz by lia. by injection Hz.
    - unfold l1 in Hz. rewrite list_lookup_insert_ne in Hz by done. by apply Hu in Hz. }
  assert (Hclose : first_slot (sockets s) (is_open_fd k) = Ok (Some i)).
  { apply (first_slot_only _ _ _ x); [done|done|by apply is_open_fd_spec|].
    intros j z Hz [Hf _]%is_open_fd_spec. by eapply Hu. }
  assert (Hdg : forall l z, length l = 16%nat -> rd l i = Ok z -> fd z = k -> type z = SOCK_DGRAM ->
    (forall j w, l !! j = Some w -> fd w = k -> j = Z.to_nat i) -> first_slot l (is_dgram_fd k) = Ok (Some i)).
  { intros l z Hlz Hz Hf Ht Hq. apply (first_slot_only _ _ _ z); [done|done| |].
    - unfold is_dgram_fd. by rewrite Hf, Ht, !Z.eqb_refl.
    - intros j w Hw [Hfw%Z.eqb_eq _]%andb_prop. by eapply Hq. }
  rewrite (sendto_found s k _ _ _ _ i x (Hdg _ x Hl Hx Hk Hty Hu) Hx) in Hs.
  exists (set_socks s l1). split; [|split].
  - unfold close. eapply M_run; [reflexivity|]. eapply lift_run; [exact Hclose|].
    exact (update_run s i _ 0 x Hl Hrange Hx).
  - unfold bind. eapply M_run; [reflexivity|]. apply (lift_run _ _ _ None); [|reflexivity].
    apply first_slot_none; [done|]. intros j z Hz. apply not_true_is_false.
    intros (Hf & Hop & _)%is_open_fd_spec. destruct (Hu1 _ _ Hz Hf) as [_ ->]. by apply Hop.
  - rewrite (sendto_found (set_socks s l1) k _ _ _ _ i y (Hdg l1 y Hl1 Hy Hk Hty (fun j z Hz Hf => proj1 (Hu1 j z Hz Hf))) Hy).
    change (local_port y) with (local_port x). cbn [s_net set_socks].
    destruct (udp_send_packet _ _ _ _ _ _) as [[[] n1]|]; [|done]. injection Hs as <-. done.
Qed.

Definition ex_sock : sock_state :=
  SockState (Sock 2 2 17 1 [0;0;0;0] 53 [0;0;0;0] 0 SOCK_CREATED HEAP_START 0 :: replicate 15 blank_socket) 2 ex_net.

Lemma close_does_not_stop_sending_witness :
  exists n s1, length (n_out n) = 2%nat /\ close 1 ex_sock = Ok (0, s1) /\
    bind 1 [192;168;1;1] 99 s1 = Ok (-1, s1) /\
    sendto 1 [1;2;3] 3 [192;168;1;1] 99 s1 = Ok (3, set_net s1 n).
Proof.
  set (n := match udp_send_packet [192;168;1;1] 53 99 [1;2;3] 3 ex_net with Ok (_, n) => n | Err _ => ex_net end).
  destruct (@close_does_not_stop_sending ex_sock 1 0
    (Sock 2 2 17 1 [0;0;0;0] 53 [0;0;0;0] 0 SOCK_CREATED HEAP_START 0) [1;2;3] 3 [192;168;1;1] 99 n)
    as (s1 & H); [reflexivity|reflexivity|reflexivity|vm_compute; congruence|reflexivity|..].
  - intros [|j] y Hy Hf; [done|]. apply lookup_replicate in Hy as [-> _]. discriminate.
  - rewrite (sendto_found ex_sock 1 _ _ _ _ 0 (Sock 2 2 17 1 [0;0;0;0] 53 [0;0;0;0] 0 SOCK_CREATED HEAP_START 0))
      by reflexivity.
    change (s_net ex_sock) with ex_net. unfold n. cbn [local_port].
    assert (Hok : match udp_send_packet [192;168;1;1] 53 99 [1;2;3] 3 ex_net with Ok _ => true | Err _ => false end = true)
      by (vm_compute; reflexivity).
    by destruct (udp_send_packet _ _ _ _ _ ex_net) as [[[] ?]|].
  - exists n, s1. split; [vm_compute; reflexivity|exact H].
Defined.

(** *** Nothing is ever received *)

Definition empty_buf (x : socket_t) : Prop := buf_len x = 0.

Lemma update_empty i f r s v s1 : (forall x, buf_len (f x) = buf_len x) -> Forall empty_buf (sockets s) ->
  update i f r s = Ok (v, s1) -> Forall empty_buf (sockets s1) /\ length (sockets s1) = length (sockets s).
Proof.
  intros Hf He H. unfold update, getS, liftR, putS, mbind, M_bind in H.
  destruct (rd (sockets s) i) as [x|] eqn:Ex; [|done].
  destruct (wr (sockets s) i (f x)) as [l|] eqn:Ew; [|done]. injection H as _ <-.
  apply wr_Ok in Ew as [_ ->]. cbn [sockets]. split; [|apply length_insert].
  apply Forall_insert; [done|]. apply rd_Ok, zget_Some in Ex as [_ Ex].
  unfold empty_buf. rewrite Hf. exact (Forall_lookup_1 _ _ _ _ He Ex).
Qed.

Lemma run_op_empty o s r s1 : Forall empty_buf (sockets s) -> run_op o s = Ok (r, s1) ->
  Forall empty_buf (sockets s1) /\ length (sockets s1) = length (sockets s).
Proof.
  intros He H. destruct o as [d t p|k a p|k b|k|k a p|k|k]; cbn [run_op] in H.
  1: { unfold socket, getS, liftR, putS, mbind, M_bind in H.
       destruct (_ || _); [by injection H as _ <-|].
       destruct (first_slot _ _) as [[i|]|]; [|by injection H as _ <-|done].
       destruct (rd (sockets s) i) as [x|]; [|done]. destruct (malloc _ _) as [ptr h].
       destruct (wr _ _ _) as [l|] eqn:Ew; [|done]. injection H as _ <-. apply wr_Ok in Ew as [_ ->].
       cbn [sockets]. split; [by apply Forall_insert|apply length_insert]. }
  all: unfold bind, listen, accept, connect, recv, close, getS, liftR, mbind, M_bind in H;
    (destruct (first_slot _ _) as [[i|]|]; [|by injection H as _ <-|done]);
    first [ by injection H as _ <-
          | by eapply update_empty in H
          | destruct (rd _ _); [by injection H as _ <-|done] ].
Qed.

Lemma run_ops_empty os : forall s rs s1, Forall empty_buf (sockets s) -> run_ops os s = Ok (rs, s1) ->
  Forall empty_buf (sockets s1) /\ length (sockets s1) = length (sockets s).
Proof.
  induction os as [|o os IH]; intros s rs s1 He H; cbn [run_ops] in H.
  { injection H as _ <-. done. }
  apply M_bind_Ok in H as (r & s2 & Ho & H). apply M_bind_Ok in H as (rs' & s3 & Hos & H). injection H as _ <-.
  destruct (run_op_empty _ _ _ _ He Ho) as [He2 Hl2]. destruct (IH _ _ _ He2 Hos) as [He3 Hl3]. by rewrite Hl3.
Qed.

(** [recvfrom] finds the socket and an empty buffer, or nothing. *)
Lemma recvfrom_empty k s : length (sockets s) = 16%nat -> Forall empty_buf (sockets s) ->
  recvfrom k s = Ok (0, s) \/ recvfrom k s = Ok (-1, s).
Proof.
  intros Hl He. unfold recvfrom.
  destruct (first_slot_spec (sockets s) (fun x => fd x =? k) Hl) as [(i & x & E & _ & Hr & Hx & _)|[E _]].
  - left. eapply M_run; [reflexivity|]. eapply lift_run; [exact E|]. eapply lift_run; [exact Hr|].
    pose proof (Forall_lookup_1 _ _ _ _ He Hx) as Hb. unfold empty_buf in Hb. by rewrite Hb.
  - right. eapply M_run; [reflexivity|]. apply (lift_run _ _ _ None); [exact E|done].
Qed.

Lemma boot_empty n : Forall empty_buf (sockets (boot_sockets n)).
Proof. by apply Forall_replicate. Qed.
