(* ===== verification/Dns.v ===== *)
(** * The DNS server *)
(** [src/net/dns.c]: the two name conversions, the construction of a reply from
    a received packet, and the server around them.  Local arrays are arguments
    where the code leaves them uninitialised. *)

From Stdlib Require Import String.
From stdpp Require Import gmap.
From S2P Require Import Prelude Memory CString Net Socket.

Definition DNS_PORT : Z := 53.
Definition DNS_MAX_QNAME : Z := 256.
Definition DNS_BUFFER_SIZE : Z := 512.
(** [sizeof(dns_hdr_t)]: id 0, flags 2, qdcount 4, ancount 6, nscount 8, arcount 10. *)
Definition DNS_HDR : Z := 12.

(** ** Names *)

(** [for (i = 0; i < len && pos < buflen; i++) out[o++] = buf[pos++]], the packet
    starting at [base]. *)
Fixpoint copy_in (n : nat) (buf : list Z) (base buflen pos o : Z) (out : list Z) {struct n}
    : res (Z * Z * list Z) :=
  match n with
  | O => Ok (pos, o, out)
  | S n =>
      if pos <? buflen then
        b ← rd buf (base + pos);
        out ← wr out o b;
        copy_in n buf base buflen (pos + 1) (o + 1) out
      else Ok (pos, o, out)
  end.

Fixpoint decode_loop (fuel : nat) (buf : list Z) (base buflen : Z) (outlen pos o : Z) (out : list Z)
    {struct fuel} : res (Z * list Z) :=
  if pos <? buflen then
    match fuel with
    | O => Err OutOfFuel
    | S f =>
        len ← rd buf (base + pos);
        let pos := pos + 1 in
        if len =? 0 then
          if o =? 0
          then out ← wr out 0 46; out ← wr out 1 0; Ok (pos, out)
          else out ← wr out o 0; Ok (pos, out)
        else if outlen <=? o + len + 1 then Ok (-1, out)
        else
          out ← (if o =? 0 then Ok out else wr out o 46);
          let o := if o =? 0 then o else o + 1 in
          '(pos, o, out) ← copy_in (Z.to_nat len) buf base buflen pos o out;
          decode_loop f buf base buflen outlen pos o out
    end
  else Ok (-1, out).

Definition dns_decode_qname (buf : list Z) (base buflen : Z) (out : list Z) (outlen : Z) : res (Z * list Z) :=
  decode_loop (Z.to_nat buflen) buf base buflen outlen 0 0 out.

(** The walk of [dot] up to a dot or the terminator: how far it gets. *)
Fixpoint scan_label (s : list Z) : res Z :=
  match s with
  | [] => Err OutOfBounds
  | c :: s => if (c =? 0) || (c =? 46) then Ok 0 else n ← scan_label s; Ok (n + 1)
  end.

Fixpoint copy_out (n : nat) (src : list Z) (i : Z) (out : list Z) (o : Z) {struct n} : res (list Z) :=
  match n with
  | O => Ok out
  | S n => b ← rd src i; out ← wr out o b; copy_out n src (i + 1) out (o + 1)
  end.

(** [out] is written from [base] on. *)
Definition encode_end (out : list Z) (base outlen o : Z) : res (Z * list Z) :=
  if outlen <=? o then Ok (-1, out) else out ← wr out (base + o) 0; Ok (o + 1, out).

Fixpoint encode_loop (fuel : nat) (start : list Z) (out : list Z) (base outlen o : Z) {struct fuel}
    : res (Z * list Z) :=
  c ← rd start 0;
  if c =? 0 then encode_end out base outlen o else
  match fuel with
  | O => Err OutOfFuel
  | S f =>
      label_len ← scan_label start;
      if label_len =? 0 then encode_end out base outlen o else
      if outlen <=? o + 1 + label_len then Ok (-1, out) else
      out ← wr out (base + o) (u8 label_len);
      out ← copy_out (Z.to_nat label_len) start 0 out (base + o + 1);
      d ← rd start label_len;
      encode_loop f (drop (Z.to_nat (if d =? 46 then label_len + 1 else label_len)) start)
        out base outlen (o + 1 + label_len)
  end.

Definition dns_encode_qname (name : list Z) (out : list Z) (base outlen : Z) : res (Z * list Z) :=
  encode_loop (length name) name out base outlen 0.

(** ** The reply *)

(** [while (qname[i]) { ... name_l[i++] = c; } name_l[i] = 0]. *)
Fixpoint lower_name (fuel : nat) (qname name_l : list Z) (i : Z) {struct fuel} : res (list Z) :=
  c ← rd qname i;
  if c =? 0 then wr name_l i 0 else
  match fuel with
  | O => Err OutOfFuel
  | S f =>
      let c := if (65 <=? schar c) && (schar c <=? 90) then u8 (c + 32) else c in
      name_l ← wr name_l i c;
      lower_name f qname name_l (i + 1)
  end.

Definition vlsos_local : list Z := chars "vlsos.local" ++ [0].
Definition vlsos : list Z := chars "vlsos" ++ [0].

(** Type A, class IN, TTL 300, length 4 and the address, behind the name. *)
Definition answer_rest (ip : list Z) : list Z := [0; 1; 0; 1; 0; 0; 1; 0x2C; 0; 4] ++ ip.

(** Lines 102 to 180 of [dns_poll]: [None] is a return without a reply. *)
Definition dns_reply (buf : list Z) (n : Z) (ip : option (list Z)) (qname name_l : list Z)
    : res (option (list Z * Z)) :=
  if n <? DNS_HDR then Ok None else
  '(consumed, qname) ← dns_decode_qname buf DNS_HDR (n - DNS_HDR) qname DNS_MAX_QNAME;
  if consumed <? 0 then Ok None else
  let pos := DNS_HDR + consumed in
  if n <? pos + 4 then Ok None else
  q ← rd_field buf pos 4;
  q0 ← rd q 0; q1 ← rd q 1; q2 ← rd q 2; q3 ← rd q 3;
  let qtype := Z.lor (Z.shiftl q0 8) q1 in
  let qclass := Z.lor (Z.shiftl q2 8) q3 in
  let resp := replicate (Z.to_nat DNS_BUFFER_SIZE) 0 in
  id ← rd_field buf 0 2;
  resp ← wr_field resp 0 id;
  resp ← wr16 resp 2 0x8000;
  qd ← rd_field buf 4 2;
  resp ← wr_field resp 4 qd;
  '(qlen, resp) ← dns_encode_qname qname resp DNS_HDR (DNS_BUFFER_SIZE - DNS_HDR);
  if qlen <? 0 then Ok None else
  let roff := DNS_HDR + qlen in
  if DNS_BUFFER_SIZE <? roff + 4 then Ok None else
  resp ← put_all [q0; q1; q2; q3] resp roff;
  let roff := roff + 4 in
  if (qtype =? 1) && (qclass =? 1) then
    name_l ← lower_name (length name_l) qname name_l 0;
    c1 ← strcmp name_l vlsos_local;
    c2 ← (if c1 =? 0 then Ok 0 else strcmp name_l vlsos);
    if (c1 =? 0) || (c2 =? 0) then
      '(nql, resp) ← dns_encode_qname qname resp roff (DNS_BUFFER_SIZE - roff);
      if nql <? 0 then Ok None else
      let roff := roff + nql in
      resp ← put_all (answer_rest (default [0; 0; 0; 0] ip)) resp roff;
      let roff := roff + 14 in
      resp ← wr16 resp 6 1;
      Ok (Some (resp, roff))
    else
      resp ← wr16 resp 2 (Z.lor 0x8000 0x0003);
      resp ← wr16 resp 6 0;
      Ok (Some (resp, roff))
  else
    resp ← wr16 resp 2 (Z.lor 0x8000 0x0004);
    resp ← wr16 resp 6 0;
    Ok (Some (resp, roff)).

(** ** The server *)

Record dns_server_t := DnsServer { running : Z; sockfd : Z }.

Record dns_state := DnsState { dns_server : dns_server_t; d_sock : sock_state }.

Definition on_sock {A} (m : M sock_state A) : M dns_state A := fun s =>
  match m (d_sock s) with
  | Ok (a, k) => Ok (a, {| dns_server := dns_server s; d_sock := k |})
  | Err e => Err e
  end.

Definition say (t : string) : M dns_state unit := on_sock (on_net (emit (Printed (chars t ++ [10])))).

Definition set_server (v : dns_server_t) : M dns_state unit := fun s =>
  Ok (tt, {| dns_server := v; d_sock := d_sock s |}).

Definition dns_init : M dns_state unit := set_server {| running := 0; sockfd := -1 |}.

Definition dns_start : M dns_state unit :=
  st ← getS;
  if negb (running (dns_server st) =? 0) then say "DNS server already running" else
  s ← on_sock (socket AF_INET SOCK_DGRAM IPPROTO_UDP);
  if s <? 0 then say "Failed to create DNS socket" else
  r ← on_sock (bind s [0; 0; 0; 0] DNS_PORT);
  if r <? 0 then say "Failed to bind DNS socket to port 53" ;; on_sock (close s) ;; mret tt else
  set_server {| running := 1; sockfd := s |} ;;
  say "DNS server started on port 53".

Definition dns_stop : M dns_state unit :=
  st ← getS;
  if running (dns_server st) =? 0 then say "DNS server not running" else
  on_sock (close (sockfd (dns_server st))) ;;
  set_server {| running := 0; sockfd := -1 |} ;;
  say "DNS server stopped".

(** [buf], [from] and [port] are locals that [recvfrom] would fill, and does not. *)
Definition dns_poll (buf qname name_l from : list Z) : M dns_state unit :=
  st ← getS;
  if running (dns_server st) =? 0 then mret tt else
  n ← on_sock (recvfrom (sockfd (dns_server st)));
  if n <=? 0 then mret tt else
  x ← on_sock (on_net the_iface);
  r ← liftR (dns_reply buf n (ip_addr <$> x) qname name_l);
  match r with
  | None => mret tt
  | Some (resp, roff) => on_sock (sendto (sockfd (dns_server st)) resp roff from 0) ;; mret tt
  end.

(** * Properties *)

(** ** Names as lists of labels *)

Definition label_ok (l : list Z) : Prop := l <> [] /\ zlen l <= 255 /\ nul_free l /\ 46 ∉ l.

(** The format of the wire, and the one with dots. *)
Definition wire_labels (ls : list (list Z)) : list Z := mjoin ((fun l => zlen l :: l) <$> ls).
Definition wire (ls : list (list Z)) : list Z := wire_labels ls ++ [0].
Definition tail_dots (ls : list (list Z)) : list Z := mjoin (cons 46 <$> ls).
Definition dotted (ls : list (list Z)) : list Z :=
  match ls with [] => [] | l :: ls => l ++ tail_dots ls end.

Lemma wire_cons l ls : wire (l :: ls) = zlen l :: l ++ wire ls.
Proof. unfold wire, wire_labels. cbn. by rewrite <- app_assoc. Qed.

Lemma tail_dots_cons l ls : tail_dots (l :: ls) = 46 :: l ++ tail_dots ls.
Proof. done. Qed.

Lemma wire_tail_length ls : zlen (wire ls) = zlen (tail_dots ls) + 1.
Proof.
  induction ls as [|l ls IH]; [done|]. rewrite wire_cons, tail_dots_cons. unfold zlen in *. cbn [length].
  rewrite !length_app in *. lia.
Qed.

Lemma wire_dotted_length ls : ls <> [] -> zlen (wire ls) = zlen (dotted ls) + 2.
Proof.
  destruct ls as [|l ls]; [done|]. intros _. rewrite wire_tail_length, tail_dots_cons. cbn [dotted].
  unfold zlen. cbn [length]. lia.
Qed.

(** ** Encoding *)

Lemma scan_label_spec l c r : nul_free l -> 46 ∉ l -> c = 0 \/ c = 46 ->
  scan_label (l ++ c :: r) = Ok (zlen l).
Proof.
  intros Hl Hd Hc. induction l as [|a l IH]; cbn [app scan_label].
  - by destruct Hc as [-> | ->].
  - apply Forall_cons in Hl as [[_ Ha] Hl]. apply not_elem_of_cons in Hd as [Ha' Hd].
    rewrite (proj2 (Z.eqb_neq a 0)), (proj2 (Z.eqb_neq a 46)) by done. cbn [orb].
    rewrite IH by done. rewrite bind_ret. f_equal. unfold zlen. cbn [length]. lia.
Qed.

Lemma copy_out_spec n : forall src i out o, 0 <= i -> i + Z.of_nat n <= zlen src -> 0 <= o ->
  o + Z.of_nat n <= zlen out ->
  copy_out n src i out o = Ok (splice out o (slice src i (Z.of_nat n))).
Proof.
  induction n as [|n IH]; intros src i out o Hi Hs Ho Hl; cbn [copy_out].
  - rewrite slice_empty by lia. by rewrite splice_nil.
  - destruct (rd_total src i) as [b Hb]; [lia|]. rewrite Hb, bind_ret.
    rewrite wr_splice1 by lia. rewrite bind_ret.
    assert (Hone : zlen [b] = 1) by done.
    rewrite IH by (rewrite ?zlen_splice; rewrite ?Hone; lia). f_equal.
    rewrite (slice_head _ _ _ _ Hb) by lia. replace (Z.of_nat (S n) - 1) with (Z.of_nat n) by lia.
    rewrite <- Hone at 2. rewrite splice_splice; [done|lia|]. rewrite Hone, zlen_slice; lia.
Qed.

(** The walk over one label: what follows it decides how the walk goes on. *)
Lemma encode_loop_label f l c r out base outlen o : label_ok l -> c = 0 \/ c = 46 ->
  0 <= base -> 0 <= o -> o + 1 + zlen l < outlen -> base + outlen <= zlen out ->
  encode_loop (S f) (l ++ c :: r) out base outlen o =
  encode_loop f (if c =? 46 then r else c :: r) (splice out (base + o) (zlen l :: l)) base outlen (o + 1 + zlen l).
Proof.
  intros (Hne & H255 & Hnf & Hdot) Hc Hb Ho Hroom Hlen. cbn [encode_loop].
  destruct l as [|a l'] eqn:El; [done|]. rewrite <- El in *. assert (Hlpos : 0 < zlen l) by (rewrite El; unfold zlen; cbn; lia).
  assert (Ha : rd (l ++ c :: r) 0 = Ok a) by (by rewrite El).
  assert (Ha0 : a <> 0) by (rewrite El in Hnf; apply Forall_cons in Hnf as [[_ ?] _]; done).
  rewrite Ha, bind_ret, (proj2 (Z.eqb_neq _ _)) by done.
  rewrite scan_label_spec by done. rewrite bind_ret, (proj2 (Z.eqb_neq _ _)) by lia.
  rewrite (proj2 (Z.leb_gt _ _)) by lia.
  rewrite u8_id by (unfold is_u8; lia). rewrite wr_splice1 by lia. rewrite bind_ret.
  assert (Hone : zlen [zlen l] = 1) by done.
  rewrite copy_out_spec; [|lia| | |]; rewrite ?Z2Nat.id by lia;
    [|rewrite zlen_app; unfold zlen; cbn; lia|lia|rewrite zlen_splice; rewrite ?Hone; lia].
  rewrite bind_ret, rd_mid, bind_ret.
  replace (slice (l ++ c :: r) 0 (zlen l)) with l
    by (unfold slice, zlen; by rewrite drop_0, Nat2Z.id, take_app_length).
  replace (base + o + 1) with (base + o + zlen [zlen l]) by lia.
  rewrite splice_splice by (rewrite ?Hone; lia). cbn [app]. f_equal.
  destruct Hc as [-> | ->]; cbn [Z.eqb Pos.eqb].
  - unfold zlen. by rewrite Nat2Z.id, drop_app_length.
  - unfold zlen. rewrite drop_app_ge by lia.
    by replace (Z.to_nat (Z.of_nat (length l) + 1) - length l)%nat with 1%nat by lia.
Qed.

Lemma encode_end_loop f out base outlen o r : 0 <= base -> 0 <= o < outlen -> base + outlen <= zlen out ->
  encode_loop f (0 :: r) out base outlen o = Ok (o + 1, splice out (base + o) [0]).
Proof.
  intros. assert (He : encode_end out base outlen o = Ok (o + 1, splice out (base + o) [0])).
  { unfold encode_end. rewrite (proj2 (Z.leb_gt _ _)) by lia. by rewrite wr_splice1 by lia. }
  destruct f; cbn [encode_loop]; exact He.
Qed.

Lemma encode_loop_spec ls : forall f r out base outlen o, ls <> [] -> Forall label_ok ls ->
  (length ls <= f)%nat -> 0 <= base -> 0 <= o -> o + zlen (wire ls) <= outlen -> base + outlen <= zlen out ->
  encode_loop f (dotted ls ++ 0 :: r) out base outlen o =
  Ok (o + zlen (wire ls), splice out (base + o) (wire ls)).
Proof.
  induction ls as [|l ls IH]; intros f r out base outlen o Hne Hok Hf Hb Ho Hroom Hlen; [done|]. clear Hne.
  apply Forall_cons in Hok as [Hl Hok]. cbn [length] in Hf. destruct f as [|f]; [lia|].
  rewrite wire_cons in *. replace (zlen (zlen l :: l ++ wire ls)) with (1 + zlen l + zlen (wire ls)) in *
    by (unfold zlen; cbn [length]; rewrite length_app; lia).
  pose proof (zlen_nonneg l). pose proof (zlen_nonneg (tail_dots ls)). pose proof (wire_tail_length ls).
  assert (Hhead : zlen (zlen l :: l) = 1 + zlen l) by (unfold zlen; cbn [length]; lia).
  change (zlen l :: l ++ wire ls) with ((zlen l :: l) ++ wire ls).
  rewrite <- (splice_splice out (base + o)) by lia.
  destruct ls as [|l2 ls].
  - cbn [dotted tail_dots]. change (tail_dots []) with (@nil Z). rewrite app_nil_r.
    rewrite encode_loop_label by (done || lia || by left). cbn [Z.eqb].
    change (zlen (wire [])) with 1 in *. change (wire []) with [0].
    rewrite encode_end_loop by (rewrite ?zlen_splice; lia). f_equal. f_equal; [lia|].
    f_equal. lia.
  - cbn [dotted]. rewrite tail_dots_cons, <- !app_assoc. cbn [app].
    rewrite encode_loop_label by (done || lia || by right). change (46 =? 46) with true. cbv iota.
    change (l2 ++ tail_dots ls) with (dotted (l2 :: ls)).
    rewrite IH; [|done|done|lia|lia|lia|lia|rewrite zlen_splice; lia].
    f_equal. f_equal; [lia|]. f_equal. lia.
Qed.

(** ** Decoding *)

Lemma copy_in_spec n : forall buf base buflen pos o out, 0 <= base -> 0 <= pos -> 0 <= o ->
  pos + Z.of_nat n <= buflen -> base + buflen <= zlen buf -> o + Z.of_nat n <= zlen out ->
  copy_in n buf base buflen pos o out =
  Ok (pos + Z.of_nat n, o + Z.of_nat n, splice out o (slice buf (base + pos) (Z.of_nat n))).
Proof.
  induction n as [|n IH]; intros buf base buflen pos o out Hb Hp Ho Hbuf Hlen Hout; cbn [copy_in].
  - rewrite slice_empty, splice_nil by lia. rewrite !Z.add_0_r. done.
  - rewrite (proj2 (Z.ltb_lt _ _)) by lia.
    destruct (rd_total buf (base + pos)) as [b Hbt]; [lia|]. rewrite Hbt, bind_ret.
    rewrite wr_splice1 by lia. rewrite bind_ret. assert (Hone : zlen [b] = 1) by done.
    rewrite IH by (rewrite ?zlen_splice; rewrite ?Hone; lia).
    rewrite (slice_head _ _ _ _ Hbt) by lia. replace (Z.of_nat (S n) - 1) with (Z.of_nat n) by lia.
    replace (base + (pos + 1)) with (base + pos + 1) by lia.
    replace (o + 1) with (o + zlen [b]) at 2 by lia.
    rewrite splice_splice by (rewrite ?zlen_slice; lia). f_equal. f_equal. f_equal; lia.
Qed.

(** One label, behind [o] bytes of the name; the dot comes with it. *)
Lemma decode_loop_label f pre l post buflen outlen pos o out base : label_ok l ->
  zlen pre = base + pos -> 0 <= base -> 0 <= pos -> 0 <= o -> pos + 1 + zlen l <= buflen ->
  base + buflen <= zlen (pre ++ (zlen l :: l) ++ post) -> o + zlen l + 1 < outlen -> outlen <= zlen out ->
  let sep := if o =? 0 then [] else [46] in
  decode_loop (S f) (pre ++ (zlen l :: l) ++ post) base buflen outlen pos o out =
  decode_loop f (pre ++ (zlen l :: l) ++ post) base buflen outlen (pos + 1 + zlen l) (o + zlen (sep ++ l))
    (splice out o (sep ++ l)).
Proof.
  intros (Hne & H255 & Hnf & Hdot) Hpre Hb Hp Ho Hbuf Hlen Hout Hol. cbv zeta.
  assert (Hlpos : 0 < zlen l) by (destruct l; [done|unfold zlen; cbn [length]; lia]).
  set (buf := pre ++ (zlen l :: l) ++ post) in *. cbn [decode_loop].
  rewrite (proj2 (Z.ltb_lt _ _)) by lia.
  assert (Hrd : rd buf (base + pos) = Ok (zlen l)) by (rewrite <- Hpre; apply rd_mid).
  rewrite Hrd, bind_ret, (proj2 (Z.eqb_neq (zlen l) 0)) by lia.
  rewrite (proj2 (Z.leb_gt _ _)) by lia.
  assert (Hsl : slice buf (base + (pos + 1)) (zlen l) = l).
  { unfold buf, slice. cbn [app]. rewrite app_comm_cons, (app_assoc pre), <- app_assoc.
    replace (pre ++ (zlen l :: l) ++ post) with ((pre ++ [zlen l]) ++ l ++ post) by (by rewrite <- app_assoc).
    rewrite drop_app_length' by (rewrite length_app; unfold zlen in *; cbn [length]; lia).
    unfold zlen. by rewrite Nat2Z.id, take_app_length. }
  destruct (o =? 0) eqn:Eo.
  - apply Z.eqb_eq in Eo. subst o. rewrite bind_ret. cbn [app].
    rewrite copy_in_spec by (rewrite ?Z2Nat.id; lia). rewrite bind_ret, Z2Nat.id by lia. by rewrite Hsl.
  - apply Z.eqb_neq in Eo. rewrite wr_splice1 by lia. rewrite bind_ret.
    assert (Hone : zlen [46] = 1) by done.
    rewrite copy_in_spec by (rewrite ?zlen_splice; rewrite ?Z2Nat.id, ?Hone; lia).
    rewrite bind_ret, Z2Nat.id, Hsl by lia.
    replace (o + 1) with (o + zlen [46]) at 2 by lia. rewrite splice_splice by (rewrite ?Hone; lia).
    f_equal. rewrite zlen_app, Hone. lia.
Qed.

Lemma decode_loop_end f pre post buflen outlen pos o out base :
  zlen pre = base + pos -> pos < buflen -> 0 < o < outlen -> outlen <= zlen out ->
  decode_loop (S f) (pre ++ 0 :: post) base buflen outlen pos o out = Ok (pos + 1, splice out o [0]).
Proof.
  intros Hpre Hp Ho Hol. cbn [decode_loop]. rewrite (proj2 (Z.ltb_lt _ _)) by lia.
  rewrite <- Hpre, rd_mid, bind_ret, Z.eqb_refl. rewrite (proj2 (Z.eqb_neq _ _)) by lia.
  by rewrite wr_splice1 by lia.
Qed.

Lemma decode_tail ls : forall f pre post buflen outlen pos o out base, Forall label_ok ls ->
  (length ls < f)%nat -> zlen pre = base + pos -> 0 <= base -> 0 <= pos -> 0 < o ->
  pos + zlen (wire ls) <= buflen -> base + buflen <= zlen (pre ++ wire ls ++ post) ->
  o + zlen (tail_dots ls) < outlen -> outlen <= zlen out ->
  decode_loop f (pre ++ wire ls ++ post) base buflen outlen pos o out =
  Ok (pos + zlen (wire ls), splice out o (tail_dots ls ++ [0])).
Proof.
  induction ls as [|l ls IH]; intros f pre post buflen outlen pos o out base Hok Hf Hpre Hb Hp Ho Hbuf Hlen Hout Hol;
    (destruct f as [|f]; [cbn [length] in Hf; lia|]).
  - change (zlen (wire [])) with 1 in *. change (wire []) with [0] in *. change (tail_dots []) with (@nil Z) in *.
    change (zlen (@nil Z)) with 0 in *. apply (decode_loop_end f pre post); lia.
  - apply Forall_cons in Hok as [Hl Hok]. cbn [length] in Hf.
    rewrite wire_cons, tail_dots_cons in *.
    change (zlen l :: l ++ wire ls) with ((zlen l :: l) ++ wire ls) in *. rewrite <- app_assoc in *.
    change (46 :: l ++ tail_dots ls) with ((46 :: l) ++ tail_dots ls) in *. rewrite !zlen_app in Hbuf, Hout |- *.
    assert (H1 : forall a, zlen (a :: l) = 1 + zlen l) by (intros; unfold zlen; cbn [length]; lia).
    rewrite H1 in *. pose proof (zlen_nonneg l). pose proof (wire_tail_length ls). pose proof (zlen_nonneg (tail_dots ls)).
    rewrite (decode_loop_label f pre l (wire ls ++ post)) by (done || lia).
    rewrite (proj2 (Z.eqb_neq o 0)) by lia. change ([46] ++ l) with (46 :: l). rewrite H1.
    pose proof (IH f (pre ++ zlen l :: l) post buflen outlen (pos + 1 + zlen l) (o + (1 + zlen l))
      (splice out o (46 :: l)) base Hok) as IH'. rewrite <- app_assoc in IH'.
    rewrite IH'; [|lia|rewrite zlen_app, H1; lia|lia|lia|lia|lia|exact Hlen|lia|rewrite zlen_splice; rewrite ?H1; lia].
    f_equal. f_equal; [lia|]. rewrite <- (H1 46), splice_splice; [by rewrite <- app_assoc|lia|].
    rewrite H1, zlen_app. change (zlen [0]) with 1. lia.
Qed.

Lemma decode_spec ls pre post buflen out base : ls <> [] -> Forall label_ok ls -> zlen pre = base -> 0 <= base ->
  zlen (wire ls) <= buflen -> base + buflen <= zlen (pre ++ wire ls ++ post) ->
  zlen (dotted ls) + 1 < DNS_MAX_QNAME -> zlen out = DNS_MAX_QNAME ->
  dns_decode_qname (pre ++ wire ls ++ post) base buflen out DNS_MAX_QNAME =
  Ok (zlen (wire ls), splice out 0 (dotted ls ++ [0])).
Proof.
  intros Hne Hok Hpre Hb Hbuf Hlen Hout Hol. unfold dns_decode_qname.
  destruct ls as [|l ls]; [done|]. clear Hne. apply Forall_cons in Hok as [Hl Hok].
  cbn [dotted] in *. rewrite wire_cons in *.
  change (zlen l :: l ++ wire ls) with ((zlen l :: l) ++ wire ls) in *. rewrite <- app_assoc in *.
  rewrite !zlen_app in Hbuf, Hout |- *.
  assert (H1 : zlen (zlen l :: l) = 1 + zlen l) by (unfold zlen; cbn [length]; lia). rewrite H1 in *.
  pose proof (zlen_nonneg l). pose proof (wire_tail_length ls). pose proof (zlen_nonneg (tail_dots ls)).
  assert (Hlpos : 0 < zlen l) by (destruct Hl as [Hn _]; destruct l; [done|unfold zlen; cbn [length]; lia]).
  assert (Hcount : Z.of_nat (length ls) <= zlen (tail_dots ls)).
  { clear. induction ls as [|l ls IH]; [done|]. rewrite tail_dots_cons. unfold zlen in *. cbn [length].
    rewrite length_app. lia. }
  destruct (Z.to_nat buflen) as [|f] eqn:Ef; [lia|].
  rewrite (decode_loop_label f pre l (wire ls ++ post)) by (done || lia).
  change ((if 0 =? 0 then [] else [46]) ++ l) with l.
  pose proof (decode_tail ls f (pre ++ zlen l :: l) post buflen DNS_MAX_QNAME (0 + 1 + zlen l) (0 + zlen l)
    (splice out 0 l) base Hok) as Ht. rewrite <- app_assoc in Ht.
  rewrite Ht; [|lia|rewrite zlen_app, H1; lia|lia|lia|lia|lia|exact Hlen|lia|rewrite zlen_splice; lia].
  f_equal. f_equal. rewrite splice_splice; [by rewrite <- app_assoc|lia|]. rewrite zlen_app.
  change (zlen [0]) with 1. lia.
Qed.

(** C26.  A name of labels survives the trip over the wire: what
    [dns_encode_qname] writes is the length-prefixed form, and
    [dns_decode_qname], reading it back from there, consumes exactly those bytes
    and leaves the dotted name, terminated. *)
Theorem qname_roundtrip ls r out base outlen qname :
  ls <> [] -> Forall label_ok ls -> 0 <= base -> base + outlen <= zlen out ->
  zlen (dotted ls) + 2 <= outlen -> zlen (dotted ls) + 1 < DNS_MAX_QNAME -> zlen qname = DNS_MAX_QNAME ->
  exists n out', dns_encode_qname (dotted ls ++ 0 :: r) out base outlen = Ok (n, out') /\
    n = zlen (dotted ls) + 2 /\ slice out' base n = wire ls /\ zlen out' = zlen out /\
    exists q, dns_decode_qname out' base outlen qname DNS_MAX_QNAME = Ok (n, dotted ls ++ 0 :: q).
Proof.
  intros Hne Hok Hb Hlen Hroom Hmax Hq. pose proof (wire_dotted_length ls Hne) as Hwl.
  pose proof (zlen_nonneg (dotted ls)) as H0.
  exists (zlen (wire ls)), (splice out base (wire ls)).
  assert (Hcount : (length ls <= length (dotted ls ++ 0%Z :: r))%nat).
  { clear -Hok Hne. destruct ls as [|l ls]; [done|]. cbn [dotted]. clear Hne. apply Forall_cons in Hok as [[Hl _] _].
    assert ((length ls <= length (tail_dots ls))%nat).
    { clear. induction ls as [|l ls IH]; [done|]. rewrite tail_dots_cons. cbn [length]. rewrite length_app. lia. }
    rewrite !length_app. cbn [length]. lia. }
  split; [|split; [|split; [|split]]].
  - unfold dns_encode_qname. rewrite encode_loop_spec by (done || lia). by rewrite Z.add_0_r.
  - done.
  - apply slice_splice_in; lia.
  - apply zlen_splice; lia.
  - exists (drop (Z.to_nat (0 + zlen (dotted ls ++ [0]))) qname). unfold splice at 1.
    rewrite decode_spec; [|done|done| |lia|lia| |done|done].
    + f_equal. f_equal. unfold splice. change (Z.to_nat 0) with O. rewrite take_0. cbn [app].
      by rewrite <- app_assoc.
    + unfold zlen. rewrite length_take. unfold zlen in *. lia.
    + pose proof (zlen_splice out base (wire ls) Hb) as Hz. unfold splice in Hz. rewrite Hz by lia. lia.
Qed.

Lemma qname_roundtrip_witness :
  let name := chars "www.vlsos.local" in
  exists out' q, dns_encode_qname (name ++ [0]) (replicate 512 0) 12 500 = Ok (17, out') /\
    slice out' 12 17 = 3 :: chars "www" ++ 5 :: chars "vlsos" ++ 5 :: chars "local" ++ [0] /\
    dns_decode_qname out' 12 500 (replicate 256 7) 256 = Ok (17, name ++ 0 :: q).
Proof.
  destruct (@qname_roundtrip [chars "www"; chars "vlsos"; chars "local"] [] (replicate 512 0) 12 500 (replicate 256 7))
    as (n & out' & E & -> & Hs & _ & q & Hq);
    [discriminate| |lia|vm_compute; congruence|vm_compute; congruence|reflexivity|reflexivity|].
  - repeat (apply Forall_cons; split); [| | |constructor];
      (split; [done|split; [vm_compute; congruence|split;
        [repeat (apply Forall_cons; split; [vm_compute; repeat split; congruence|]); constructor
        |apply (bool_decide_unpack _); vm_compute; exact I]]]).
  - exists out', q. split; [exact E|]. split; [exact Hs|exact Hq].
Defined.

(** ** No packet makes the server fault *)

(** Bytes with a zero among them are a C string. *)
Lemma cstr_of q : forall k, Forall is_u8 q -> q !! k = Some 0 ->
  exists s r, q = cstr s r /\ nul_free s /\ (length s <= k)%nat.
Proof.
  induction q as [|c q IH]; intros k Hu Hk; [done|]. apply Forall_cons in Hu as [Hc Hu].
  destruct (decide (c = 0)) as [->|Hne]; [exists [], q; repeat split; [constructor|cbn; lia]|].
  destruct k as [|k]; [cbn in Hk; congruence|].
  destruct (IH k Hu Hk) as (s & r & -> & Hs & Hl). exists (c :: s), r.
  repeat split; [by constructor|cbn [length]; lia].
Qed.

Lemma wr_u8 l i x : Forall is_u8 l -> is_u8 x -> 0 <= i < zlen l ->
  exists l', wr l i x = Ok l' /\ Forall is_u8 l' /\ zlen l' = zlen l /\ l' !! Z.to_nat i = Some x.
Proof.
  intros Hl Hx Hi. exists (<[Z.to_nat i := x]> l). rewrite wr_in by done. split; [done|].
  split; [by apply Forall_insert|]. split; [apply zlen_insert|].
  apply list_lookup_insert_eq. unfold zlen in Hi. lia.
Qed.

Lemma rd_u8 l i : Forall is_u8 l -> 0 <= i < zlen l -> exists x, rd l i = Ok x /\ is_u8 x.
Proof.
  intros Hl Hi. destruct (rd_total l i Hi) as [x Hx]. exists x. split; [done|].
  apply rd_Ok, zget_Some in Hx as [_ Hx]. exact (Forall_lookup_1 _ _ _ _ Hl Hx).
Qed.

Lemma copy_in_safe n : forall buf base buflen pos o out, Forall is_u8 buf -> Forall is_u8 out ->
  0 <= base -> 0 <= pos <= buflen -> base + buflen <= zlen buf -> 0 <= o -> o + Z.of_nat n <= zlen out ->
  exists pos' o' out', copy_in n buf base buflen pos o out = Ok (pos', o', out') /\
    pos <= pos' <= buflen /\ o <= o' <= o + Z.of_nat n /\ zlen out' = zlen out /\ Forall is_u8 out'.
Proof.
  induction n as [|n IH]; intros buf base buflen pos o out Ub Uo Hb Hp Hl Ho Hol; cbn [copy_in].
  { eexists _, _, _. split; [done|]. repeat split; done || lia. }
  destruct (Z.ltb_spec pos buflen).
  2:{ eexists _, _, _. split; [done|]. repeat split; done || lia. }
  destruct (rd_u8 buf (base + pos) Ub) as (b & -> & Hbu); [lia|]. rewrite bind_ret.
  destruct (wr_u8 out o b Uo Hbu) as (out1 & -> & U1 & L1 & _); [lia|]. rewrite bind_ret.
  destruct (IH buf base buflen (pos + 1) (o + 1) out1) as (p' & o' & out' & E & Hp' & Ho' & L' & U'); [done|done|lia..|].
  exists p', o', out'. split; [done|]. repeat split; done || lia.
Qed.

Lemma decode_loop_safe f : forall buf base buflen outlen pos o out, Forall is_u8 buf -> Forall is_u8 out ->
  0 <= base -> 0 <= pos <= buflen -> base + buflen <= zlen buf -> buflen - pos <= Z.of_nat f ->
  2 <= outlen <= zlen out -> 0 <= o < outlen ->
  exists v q, decode_loop f buf base buflen outlen pos o out = Ok (v, q) /\ zlen q = zlen out /\
    (v = -1 \/ 0 < v <= buflen /\ exists s r, q = cstr s r /\ nul_free s /\ zlen s < outlen).
Proof.
  induction f as [|f IH]; intros buf base buflen outlen pos o out Ub Uo Hb Hp Hl Hf Hol Ho; cbn [decode_loop].
  { rewrite (proj2 (Z.ltb_ge _ _)) by lia. eexists _, _. split; [done|]. split; [done|]. by left. }
  destruct (Z.ltb_spec pos buflen); [|eexists _, _; split; [done|]; split; [done|]; by left].
  destruct (rd_u8 buf (base + pos) Ub) as (len & -> & Hlu); [lia|]. rewrite bind_ret.
  assert (Hfin : forall q k, Forall is_u8 q -> zlen q = zlen out -> (Z.of_nat k < outlen) -> q !! k = Some 0 ->
    exists v q', Ok (pos + 1, q) = Ok (v, q') /\ zlen q' = zlen out /\
      (v = -1 \/ 0 < v <= buflen /\ exists s r, q' = cstr s r /\ nul_free s /\ zlen s < outlen)).
  { intros q k Uq Lq Hk Hz. destruct (cstr_of q k Uq Hz) as (s & r & Hq & Hs & Hsl).
    eexists _, _. split; [done|]. split; [done|]. right. split; [lia|]. exists s, r. unfold zlen. repeat split; done || lia. }
  destruct (Z.eqb_spec len 0) as [->|Hlen0].
  - destruct (o =? 0).
    + destruct (wr_u8 out 0 46 Uo) as (o1 & -> & U1 & L1 & _); [by vm_compute|lia|]. rewrite bind_ret.
      destruct (wr_u8 o1 1 0 U1) as (o2 & -> & U2 & L2 & Hz); [by vm_compute|lia|]. rewrite bind_ret.
      apply (Hfin o2 1%nat); done || lia.
    + destruct (wr_u8 out o 0 Uo) as (o1 & -> & U1 & L1 & Hz); [by vm_compute|lia|]. rewrite bind_ret.
      apply (Hfin o1 (Z.to_nat o)); done || lia.
  - destruct (Z.leb_spec outlen (o + len + 1)); [eexists _, _; split; [done|]; split; [done|]; by left|].
    unfold is_u8 in Hlu.
    assert (Hdot : exists out1, (if o =? 0 then Ok out else wr out o 46) = Ok out1 /\ Forall is_u8 out1 /\ zlen out1 = zlen out).
    { destruct (o =? 0); [by exists out|]. destruct (wr_u8 out o 46 Uo) as (o1 & -> & U1 & L1 & _);
        [by vm_compute|lia|by exists o1]. }
    destruct Hdot as (out1 & -> & U1 & L1). rewrite bind_ret.
    set (o1 := if o =? 0 then o else o + 1). assert (Ho1 : 0 <= o1 <= o + 1) by (unfold o1; destruct (o =? 0); lia).
    destruct (copy_in_safe (Z.to_nat len) buf base buflen (pos + 1) o1 out1)
      as (p' & o' & out' & -> & Hp' & Ho' & L' & U'); [done|done|lia..|]. rewrite bind_ret.
    rewrite <- L1, <- L'. apply IH; done || lia.
Qed.

(** A C string without the zero: up to its first dot, and from there on. *)
Lemma label_split s : nul_free s -> exists l t, s = l ++ t /\ nul_free l /\ (46 ∉ l) /\
  (t = [] \/ exists t', t = 46 :: t' /\ nul_free t').
Proof.
  induction s as [|c s IH]; intros Hs.
  { exists [], []. repeat split; [constructor|apply not_elem_of_nil|by left]. }
  apply Forall_cons in Hs as [Hc Hs]. destruct (decide (c = 46)) as [->|Hne].
  { exists [], (46 :: s). repeat split; [constructor|apply not_elem_of_nil|right; by exists s]. }
  destruct (IH Hs) as (l & t & -> & Hl & Hd & Ht). exists (c :: l), t.
  repeat split; [by constructor| |done]. by apply not_elem_of_cons.
Qed.

Lemma encode_end_safe out base outlen o : 0 <= base -> 0 <= o -> base + outlen <= zlen out ->
  exists v out', encode_end out base outlen o = Ok (v, out') /\ zlen out' = zlen out /\
    (v = -1 \/ v = o + 1 /\ v <= outlen).
Proof.
  intros. unfold encode_end. destruct (Z.leb_spec outlen o); [eexists _, _; split; [done|]; split; [done|by left]|].
  rewrite wr_in by lia. rewrite bind_ret. eexists _, _. split; [done|]. split; [apply zlen_insert|right; lia].
Qed.

Lemma encode_loop_safe f : forall s r out base outlen o, nul_free s -> (length s <= f)%nat -> zlen s <= 255 ->
  0 <= base -> 0 <= o -> base + outlen <= zlen out ->
  exists v out', encode_loop f (cstr s r) out base outlen o = Ok (v, out') /\ zlen out' = zlen out /\
    (v = -1 \/ 0 < v <= outlen /\ v <= o + zlen s + 2).
Proof.
  induction f as [|f IH]; intros s r out base outlen o Hs Hf H255 Hb Ho Hl.
  - destruct s; [|cbn in Hf; lia]. destruct (encode_end_safe out base outlen o Hb Ho Hl) as (v & out' & E & L & Hv).
    exists v, out'. cbn. rewrite E. split; [done|]. split; [done|]. destruct Hv as [->|[-> ?]]; [by left|right].
    unfold zlen; cbn; lia.
  - destruct (label_split s Hs) as (l & t & -> & Hln & Hld & Ht).
    pose proof (zlen_nonneg l) as Hl0. pose proof (zlen_nonneg t) as Ht0. rewrite zlen_app in *.
    destruct (decide (l = [])) as [->|Hlne].
    + destruct (encode_end_safe out base outlen o Hb Ho Hl) as (v & out' & E & L & Hv). exists v, out'.
      split; [|split; [done|destruct Hv as [->|[-> ?]]; [by left|right; change (zlen []) with 0; lia]]].
      destruct Ht as [->|(t' & -> & _)]; cbn; exact E.
    + assert (Hlab : label_ok l) by (split; [done|split; [lia|done]]).
      destruct (Z.leb_spec outlen (o + 1 + zlen l)) as [Hbig|Hfit].
      * exists (-1), out. split; [|split; [done|by left]].
        destruct l as [|a l']; [done|]. apply Forall_cons in Hln as Hln'. destruct Hln' as [[Ha Ha0] _].
        cbn [encode_loop]. assert (Hr : rd (cstr ((a :: l') ++ t) r) 0 = Ok a) by done. rewrite Hr, bind_ret.
        rewrite (proj2 (Z.eqb_neq _ _)) by done. unfold cstr. rewrite <- app_assoc.
        destruct Ht as [->|(t' & -> & _)].
        -- change ([] ++ 0 :: r) with (0 :: r). rewrite (scan_label_spec (a :: l') 0) by (done || by left). rewrite bind_ret.
           rewrite (proj2 (Z.eqb_neq _ _)) by (unfold zlen; cbn; lia). by rewrite (proj2 (Z.leb_le _ _)).
        -- change ((46 :: t') ++ 0 :: r) with (46 :: t' ++ 0 :: r). rewrite (scan_label_spec (a :: l') 46) by (done || by right). rewrite bind_ret.
           rewrite (proj2 (Z.eqb_neq _ _)) by (unfold zlen; cbn; lia). by rewrite (proj2 (Z.leb_le _ _)).
      * assert (H1 : zlen (zlen l :: l) = 1 + zlen l) by (unfold zlen; cbn [length]; lia).
        assert (Hlf : (1 <= length l)%nat) by (destruct l; [done|cbn; lia]). rewrite length_app in Hf.
        unfold cstr. rewrite <- app_assoc. destruct Ht as [->|(t' & -> & Ht')].
        -- cbn [app]. rewrite encode_loop_label by (done || lia || by left). cbn [Z.eqb].
           destruct (encode_end_safe (splice out (base + o) (zlen l :: l)) base outlen (o + 1 + zlen l))
             as (v & out' & E & L & Hv); [lia|lia|rewrite zlen_splice; lia|].
           exists v, out'. split; [destruct f; exact E|]. rewrite L, zlen_splice by lia. split; [done|].
           change (zlen (@nil Z)) with 0 in *. destruct Hv as [->|?]; [by left|right; lia].
        -- rewrite <- app_comm_cons. rewrite encode_loop_label by (done || lia || by right).
           change (46 =? 46) with true. cbv iota.
           assert (H46 : zlen (46 :: t') = 1 + zlen t') by (unfold zlen; cbn [length]; lia). rewrite H46 in *.
           destruct (IH t' r (splice out (base + o) (zlen l :: l)) base outlen (o + 1 + zlen l))
             as (v & out' & E & L & Hv); [done|cbn [length] in Hf; lia|lia|lia|lia|rewrite zlen_splice; lia|].
           exists v, out'. split; [exact E|]. rewrite L, zlen_splice by lia. split; [done|].
           destruct Hv as [->|?]; [by left|right; lia].
Qed.

Definition lower_char (c : Z) : Z := if (65 <=? schar c) && (schar c <=? 90) then u8 (c + 32) else c.

Lemma lower_char_ok c : is_u8 c -> c <> 0 -> is_u8 (lower_char c) /\ lower_char c <> 0.
Proof.
  intros Hc H0. unfold lower_char. destruct ((65 <=? schar c) && (schar c <=? 90)) eqn:E; [|done].
  apply andb_prop in E as [E1%Z.leb_le E2%Z.leb_le]. unfold schar in *. unfold is_u8 in Hc.
  destruct (c <? 128) eqn:E3; [|lia]. rewrite u8_id by (unfold is_u8; lia). unfold is_u8. lia.
Qed.

Lemma nul_free_lower s : nul_free s -> nul_free (lower_char <$> s).
Proof. intros Hs. apply Forall_fmap. eapply Forall_impl; [exact Hs|]. intros c [Hc H0]. by apply lower_char_ok. Qed.

Lemma lower_name_spec s : forall f pre r name_l, nul_free s -> (length s <= f)%nat ->
  zlen pre + zlen s < zlen name_l ->
  lower_name f (pre ++ s ++ 0 :: r) name_l (zlen pre) = Ok (splice name_l (zlen pre) ((lower_char <$> s) ++ [0])).
Proof.
  induction s as [|c s IH]; intros f pre r name_l Hs Hf Hl; pose proof (zlen_nonneg pre).
  - change (zlen (@nil Z)) with 0 in Hl. destruct f as [|f]; cbn [lower_name app fmap list_fmap];
      rewrite rd_mid, bind_ret, Z.eqb_refl; apply wr_splice1; lia.
  - cbn [length] in Hf. destruct f as [|f]; [lia|]. apply Forall_cons in Hs as [[Hc Hc0] Hs].
    assert (H1 : zlen (c :: s) = 1 + zlen s) by (unfold zlen; cbn [length]; lia). rewrite H1 in Hl.
    pose proof (zlen_nonneg s). cbn [lower_name app]. rewrite rd_mid, bind_ret, (proj2 (Z.eqb_neq _ _)) by done.
    fold (lower_char c). rewrite wr_splice1 by lia. rewrite bind_ret.
    assert (Hone : zlen [lower_char c] = 1) by done.
    pose proof (IH f (pre ++ [c]) r (splice name_l (zlen pre) [lower_char c]) Hs ltac:(lia)) as IH'.
    rewrite <- app_assoc, zlen_app in IH'. cbn [app] in IH'. change (zlen [c]) with 1 in IH'.
    rewrite IH' by (rewrite zlen_splice; rewrite ?Hone; lia). f_equal.
    replace (zlen pre + 1) with (zlen pre + zlen [lower_char c]) by lia.
    rewrite splice_splice; [done|lia|]. rewrite Hone, zlen_app. unfold zlen. rewrite length_fmap.
    cbn [length]. unfold zlen in *. lia.
Qed.

(** The name the comparison sees, and what it says. *)
Lemma name_matches s name_l : nul_free s -> zlen s < 256 -> zlen name_l = 256 ->
  let t := splice name_l 0 ((lower_char <$> s) ++ [0]) in
  exists c1 c2, strcmp t vlsos_local = Ok c1 /\ (if c1 =? 0 then Ok 0 else strcmp t vlsos) = Ok c2 /\
    ((c1 =? 0) || (c2 =? 0) = true <-> lower_char <$> s = chars "vlsos.local" \/ lower_char <$> s = chars "vlsos").
Proof.
  intros Hs Hl Hn. cbv zeta.
  set (t := splice name_l 0 ((lower_char <$> s) ++ [0])).
  assert (Ht : exists r, t = cstr (lower_char <$> s) r).
  { unfold t, splice. eexists. change (Z.to_nat 0) with O. rewrite take_0. cbn [app].
    rewrite <- app_assoc. reflexivity. }
  destruct Ht as [r Ht]. rewrite Ht. pose proof (nul_free_lower s Hs) as Hlow.
  assert (H1 : nul_free (chars "vlsos.local")).
  { repeat (apply Forall_cons; split; [vm_compute; repeat split; congruence|]). constructor. }
  assert (H2 : nul_free (chars "vlsos")).
  { repeat (apply Forall_cons; split; [vm_compute; repeat split; congruence|]). constructor. }
  destruct (strcmp_cstr _ _ r [] Hlow H1) as (c1 & E1 & I1).
  destruct (strcmp_cstr _ _ r [] Hlow H2) as (c2 & E2 & I2).
  change (cstr (chars "vlsos.local") []) with vlsos_local in E1. change (cstr (chars "vlsos") []) with vlsos in E2.
  exists c1. destruct (Z.eqb_spec c1 0) as [Hc|Hc].
  - exists 0. split; [done|]. split; [done|]. cbn [orb]. split; [|done]. intros _. left. by apply I1.
  - exists c2. split; [done|]. split; [done|]. cbn [orb]. rewrite Z.eqb_eq, I2.
    split; [by right|]. intros [H|H]; [|done]. by apply I1 in H.
Qed.

Lemma wr16_ok l off v : 0 <= off -> off + 1 < zlen l -> exists l', wr16 l off v = Ok l' /\ zlen l' = zlen l.
Proof.
  intros H0 H1. rewrite wr16_splice by done. eexists. split; [done|]. apply zlen_splice; [done|].
  unfold zlen at 1. cbn [length]. lia.
Qed.

Lemma rd_field_u8 l off n : Forall is_u8 l -> 0 <= off -> 0 <= n -> off + n <= zlen l ->
  exists q, rd_field l off n = Ok q /\ zlen q = n /\ Forall is_u8 q.
Proof.
  intros Hl Ho Hn Hb. exists (slice l off n). rewrite rd_field_in by done.
  split; [done|]. split; [by apply zlen_slice|]. by apply Forall_take, Forall_drop.
Qed.

Lemma wr_field_ok l off xs : 0 <= off -> off + zlen xs <= zlen l ->
  exists l', wr_field l off xs = Ok l' /\ zlen l' = zlen l.
Proof. intros. rewrite wr_field_in by done. eexists. split; [done|by apply zlen_splice]. Qed.

(** What is known of a reply, whichever branch built it. *)
Definition reply_fits (r : option (list Z * Z)) : Prop :=
  match r with Some (resp, roff) => zlen resp = DNS_BUFFER_SIZE /\ DNS_HDR < roff <= DNS_BUFFER_SIZE | None => True end.

(** The refusals: the response code is set and the question sent back. *)
Lemma refusal_fits resp roff v : zlen resp = DNS_BUFFER_SIZE -> DNS_HDR < roff <= DNS_BUFFER_SIZE ->
  exists r, (resp ← wr16 resp 2 v; resp ← wr16 resp 6 0; Ok (Some (resp, roff))) = Ok r /\ reply_fits r.
Proof.
  unfold DNS_BUFFER_SIZE. intros Hl Hr.
  destruct (wr16_ok resp 2 v) as (r1 & -> & L1); [lia..|]. rewrite bind_ret.
  destruct (wr16_ok r1 6 0) as (r2 & -> & L2); [lia..|]. rewrite bind_ret.
  eexists. split; [done|]. cbn. unfold DNS_BUFFER_SIZE. lia.
Qed.

(** The answer for the own name fits: a name that matches is short. *)
Lemma answer_fits s r resp roff ip : nul_free s -> zlen s <= 11 -> zlen resp = DNS_BUFFER_SIZE ->
  12 < roff <= 29 -> length ip = 4%nat ->
  exists q, ('(nql, resp) ← dns_encode_qname (cstr s r) resp roff (DNS_BUFFER_SIZE - roff);
    if nql <? 0 then Ok None else
    let roff := roff + nql in
    resp ← put_all (answer_rest ip) resp roff;
    let roff := roff + 14 in
    resp ← wr16 resp 6 1;
    Ok (Some (resp, roff))) = Ok q /\ reply_fits q.
Proof.
  unfold DNS_BUFFER_SIZE. intros Hs H11 Hl Hr Hip. unfold dns_encode_qname.
  assert (Hlen : (length s <= length (cstr s r))%nat) by (unfold cstr; rewrite length_app; lia).
  destruct (encode_loop_safe _ s r resp roff (512 - roff) 0 Hs Hlen) as (v & out & -> & L & Hv); [lia..|].
  rewrite bind_ret. destruct (Z.ltb_spec v 0); [by exists None|]. cbv zeta.
  assert (Hal : zlen (answer_rest ip) = 14) by (unfold zlen, answer_rest; rewrite length_app, Hip; done).
  rewrite put_all_spec by lia. rewrite bind_ret.
  destruct (wr16_ok (splice out (roff + v) (answer_rest ip)) 6 1) as (r2 & -> & L2);
    [lia|rewrite zlen_splice; lia|]. rewrite bind_ret.
  eexists. split; [done|]. cbn. rewrite L2, zlen_splice by lia. unfold DNS_HDR, DNS_BUFFER_SIZE. lia.
Qed.

(** C27.  No packet makes the server fault: for any 512 bytes of buffer and any
    number of them received, building the reply ends, stays inside every array
    (the two names of 256 bytes and the reply of 512), and gives no reply or one
    of at most 512 bytes. *)
Theorem dns_reply_safe buf n ip qname name_l :
  Forall is_u8 buf -> zlen buf = DNS_BUFFER_SIZE -> 0 <= n <= DNS_BUFFER_SIZE ->
  Forall is_u8 qname -> zlen qname = DNS_MAX_QNAME -> zlen name_l = DNS_MAX_QNAME ->
  (forall a, ip = Some a -> length a = 4%nat) ->
  exists r, dns_reply buf n ip qname name_l = Ok r /\ reply_fits r.
Proof.
  intros Ub Lb Hn Uq Lq Ln Hip. unfold DNS_BUFFER_SIZE, DNS_MAX_QNAME in *. unfold dns_reply, DNS_BUFFER_SIZE, DNS_MAX_QNAME.
  change DNS_HDR with 12. destruct (Z.ltb_spec n 12); [by exists None|].
  unfold dns_decode_qname.
  destruct (decode_loop_safe (Z.to_nat (n - 12)) buf 12 (n - 12) 256 0 0 qname) as (v & q & -> & Lq' & Hv);
    [done|done|lia..|]. rewrite bind_ret.
  destruct (Z.ltb_spec v 0); [by exists None|]. destruct Hv as [->|(Hv & s & r & -> & Hs & Hsl)]; [lia|]. cbv zeta.
  destruct (Z.ltb_spec n (12 + v + 4)); [by exists None|].
  destruct (rd_field_u8 buf (12 + v) 4 Ub) as (qq & -> & Lqq & _); [lia..|]. rewrite bind_ret.
  assert (Hqq : exists q0 q1 q2 q3, qq = [q0; q1; q2; q3]).
  { unfold zlen in Lqq. destruct qq as [|q0 [|q1 [|q2 [|q3 [|]]]]]; cbn in Lqq; try lia. by exists q0, q1, q2, q3. }
  destruct Hqq as (q0 & q1 & q2 & q3 & ->). change (rd [q0; q1; q2; q3] 0) with (Ok q0).
  change (rd [q0; q1; q2; q3] 1) with (Ok q1). change (rd [q0; q1; q2; q3] 2) with (Ok q2).
  change (rd [q0; q1; q2; q3] 3) with (Ok q3). rewrite !bind_ret.
  assert (L0 : zlen (replicate (Z.to_nat 512) 0) = 512) by done.
  destruct (rd_field_u8 buf 0 2 Ub) as (id & -> & Lid & _); [lia..|]. rewrite bind_ret.
  destruct (wr_field_ok (replicate (Z.to_nat 512) 0) 0 id) as (r1 & -> & L1); [lia..|]. rewrite bind_ret.
  destruct (wr16_ok r1 2 0x8000) as (r2 & -> & L2); [lia..|]. rewrite bind_ret.
  destruct (rd_field_u8 buf 4 2 Ub) as (qd & -> & Lqd & _); [lia..|]. rewrite bind_ret.
  destruct (wr_field_ok r2 4 qd) as (r3 & -> & L3); [lia..|]. rewrite bind_ret.
  assert (Hlen : (length s <= length (cstr s r))%nat) by (unfold cstr; rewrite length_app; lia).
  destruct (encode_loop_safe _ s r r3 12 (512 - 12) 0 Hs Hlen) as (ql & r4 & E4 & L4 & Hql); [lia..|].
  change (dns_encode_qname (cstr s r) r3 12 (512 - 12) = Ok (ql, r4)) in E4. rewrite E4, bind_ret.
  destruct (Z.ltb_spec ql 0); [by exists None|]. destruct Hql as [->|Hql]; [lia|].
  destruct (Z.ltb_spec 512 (12 + ql + 4)); [by exists None|].
  assert (Hq4 : zlen [q0; q1; q2; q3] = 4) by done.
  rewrite put_all_spec by lia. rewrite bind_ret. set (r5 := splice r4 (12 + ql) [q0; q1; q2; q3]).
  assert (L5 : zlen r5 = 512) by (unfold r5; rewrite zlen_splice; lia).
  destruct (_ && _); [|apply refusal_fits; unfold DNS_HDR, DNS_BUFFER_SIZE; lia].
  pose proof (lower_name_spec s (length name_l) [] r name_l Hs) as Hlow. cbn [app] in Hlow.
  change (zlen []) with 0 in Hlow. unfold cstr. rewrite Hlow by (unfold zlen in *; lia). rewrite bind_ret.
  destruct (name_matches s name_l Hs) as (c1 & c2 & -> & E2 & Hm); [lia|done|]. rewrite bind_ret, E2, bind_ret.
  destruct ((c1 =? 0) || (c2 =? 0)); [|apply refusal_fits; unfold DNS_HDR, DNS_BUFFER_SIZE; lia].
  assert (H11 : zlen s <= 11).
  { destruct (proj1 Hm eq_refl) as [E|E]; apply (f_equal length) in E; rewrite length_fmap in E;
      unfold zlen; rewrite E; vm_compute; congruence. }
  apply (answer_fits s r r5 (12 + ql + 4)); [done|done|done|lia|].
  destruct ip as [a|]; [by apply Hip|done].
Qed.

(** ** The answer for the own name *)

(** The bytes of the reply from the writes that made it. *)
Lemma reply_layout id flg qd w4 ans : zlen id = 2 -> zlen flg = 2 -> zlen qd = 2 -> zlen w4 + zlen ans <= 500 ->
  let r0 := replicate (Z.to_nat 512) 0 in
  let r3 := splice (splice (splice r0 0 id) 2 flg) 4 qd in
  let r8 := splice (splice (splice r3 12 w4) (12 + zlen w4) ans) 6 [1; 0] in
  slice r8 0 6 = id ++ flg ++ qd /\ slice r8 6 2 = [1; 0] /\ slice r8 12 (zlen w4 + zlen ans) = w4 ++ ans.
Proof.
  intros Hid Hf Hqd Hl. cbv zeta. pose proof (zlen_nonneg w4). pose proof (zlen_nonneg ans).
  assert (L0 : zlen (replicate (Z.to_nat 512) 0) = 512) by done.
  replace (splice (splice (splice (replicate (Z.to_nat 512) 0) 0 id) 2 flg) 4 qd)
    with (splice (replicate (Z.to_nat 512) 0) 0 (id ++ flg ++ qd)).
  2:{ rewrite <- (splice_splice _ 0 id (flg ++ qd)) by (rewrite ?zlen_app; lia).
      replace (0 + zlen id) with 2 by lia.
      rewrite <- (splice_splice _ 2 flg qd) by (rewrite ?zlen_splice; lia). by rewrite Hf. }
  set (r3 := splice _ 0 _). assert (L3 : zlen r3 = 512) by (unfold r3; rewrite zlen_splice; rewrite ?zlen_app; lia).
  rewrite splice_splice by lia. set (r7 := splice r3 12 _).
  assert (L7 : zlen r7 = 512) by (unfold r7; rewrite zlen_splice; rewrite ?zlen_app; lia).
  assert (L2 : zlen [1; 0] = 2) by done. assert (L6 : zlen (id ++ flg ++ qd) = 6) by (rewrite !zlen_app; lia).
  split; [|split].
  - rewrite slice_splice_before by lia. unfold r7. rewrite slice_splice_before by (rewrite ?zlen_app; lia).
    unfold r3. rewrite <- L6. apply slice_splice_in; lia.
  - rewrite <- L2. apply slice_splice_in; lia.
  - rewrite slice_splice_after by lia. unfold r7. rewrite <- zlen_app. apply slice_splice_in; rewrite ?zlen_app; lia.
Qed.

Lemma splice_cstr l s : exists r, splice l 0 (s ++ [0]) = s ++ 0 :: r.
Proof.
  eexists. unfold splice. change (Z.to_nat 0) with O. rewrite take_0. cbn [app]. by rewrite <- app_assoc.
Qed.

(** The name encoded at [base], wherever there is room for it. *)
Lemma encode_spec ls r out base : ls <> [] -> Forall label_ok ls -> 0 <= base ->
  zlen out = 512 -> base + zlen (wire ls) <= 512 ->
  dns_encode_qname (dotted ls ++ 0 :: r) out base (512 - base) = Ok (zlen (wire ls), splice out base (wire ls)).
Proof.
  intros Hne Hok Hb Hl Hr. unfold dns_encode_qname.
  rewrite encode_loop_spec; [by rewrite Z.add_0_r|done|done| |lia..].
  clear -Hok Hne. destruct ls as [|l ls]; [done|]. cbn [dotted]. apply Forall_cons in Hok as [[Hl _] _].
  assert ((length ls <= length (tail_dots ls))%nat).
  { clear. induction ls as [|l ls IH]; [done|]. rewrite tail_dots_cons. cbn [length]. rewrite length_app. lia. }
  rewrite !length_app. cbn [length]. lia.
Qed.

(** A query of type A and class IN for [vlsos.local] or [vlsos], in any
    case, is answered: the reply repeats identifier and question and carries one
    record with the name asked for and the interface address.  The flags and
    the answer count are stored low byte first, which a resolver reads as
    something else. *)
Lemma dns_answers_own_name ls id flg qd mid pad n ip qname name_l :
  ls <> [] -> Forall label_ok ls ->
  lower_char <$> dotted ls = chars "vlsos.local" \/ lower_char <$> dotted ls = chars "vlsos" ->
  zlen id = 2 -> zlen flg = 2 -> zlen qd = 2 -> zlen mid = 6 -> length ip = 4%nat ->
  let w := zlen (wire ls) in
  let buf := id ++ flg ++ qd ++ mid ++ wire ls ++ [0; 1; 0; 1] ++ pad in
  zlen buf = DNS_BUFFER_SIZE -> DNS_HDR + w + 4 <= n <= DNS_BUFFER_SIZE ->
  zlen qname = DNS_MAX_QNAME -> zlen name_l = DNS_MAX_QNAME ->
  exists resp, dns_reply buf n (Some ip) qname name_l = Ok (Some (resp, 30 + 2 * w)) /\
    slice resp 0 6 = id ++ [0x00; 0x80] ++ qd /\ slice resp 6 2 = [1; 0] /\
    slice resp 12 (18 + 2 * w) = wire ls ++ [0; 1; 0; 1] ++ wire ls ++ answer_rest ip.
Proof.
  intros Hne Hok Hname Hid Hflg Hqd Hmid Hip. cbv zeta. set (w := zlen (wire ls)).
  unfold DNS_BUFFER_SIZE, DNS_MAX_QNAME. intros Lb Hn Lq Ln. change DNS_HDR with 12 in *.
  pose proof (wire_dotted_length ls Hne) as Hw. fold w in Hw.
  assert (H11 : 0 <= zlen (dotted ls) <= 11).
  { split; [apply zlen_nonneg|]. destruct Hname as [E|E]; apply (f_equal length) in E; rewrite length_fmap in E;
      unfold zlen; rewrite E; vm_compute; congruence. }
  assert (Hnf : nul_free (dotted ls)).
  { clear -Hok. destruct ls as [|l ls]; [constructor|]. apply Forall_cons in Hok as [(_ & _ & Hl & _) Hok].
    cbn [dotted]. apply nul_free_app. split; [done|]. induction Hok as [|l2 ls (_ & _ & Hl2 & _) _ IH]; [constructor|].
    rewrite tail_dots_cons. apply Forall_cons. split; [split; [split; [lia|vm_compute; congruence]|done]|].
    apply nul_free_app. done. }
  set (buf := id ++ flg ++ qd ++ mid ++ wire ls ++ [0; 1; 0; 1] ++ pad) in *.
  unfold dns_reply, DNS_BUFFER_SIZE, DNS_MAX_QNAME. change DNS_HDR with 12.
  rewrite (proj2 (Z.ltb_ge _ _)) by lia.
  assert (Eb : buf = (id ++ flg ++ qd ++ mid) ++ wire ls ++ [0; 1; 0; 1] ++ pad)
    by (unfold buf; by rewrite <- !app_assoc).
  assert (E1 : dns_decode_qname buf 12 (n - 12) qname 256 = Ok (w, splice qname 0 (dotted ls ++ [0]))).
  { rewrite Eb. apply decode_spec; [done|done|rewrite !zlen_app; lia|lia|fold w; lia|rewrite <- Eb; lia
      |unfold DNS_MAX_QNAME; lia|done]. }
  destruct (splice_cstr qname (dotted ls)) as [r Er]. rewrite Er in E1.
  rewrite E1, bind_ret, (proj2 (Z.ltb_ge _ _)) by lia. cbv zeta. rewrite (proj2 (Z.ltb_ge _ _)) by lia.
  assert (E2 : rd_field buf (12 + w) 4 = Ok [0; 1; 0; 1]).
  { rewrite Eb, app_assoc. apply rd_field_mid; [rewrite !zlen_app; fold w; lia|done]. }
  rewrite E2, bind_ret. change (rd [0; 1; 0; 1] 0) with (Ok 0). change (rd [0; 1; 0; 1] 1) with (Ok 1).
  change (rd [0; 1; 0; 1] 2) with (Ok 0). change (rd [0; 1; 0; 1] 3) with (Ok 1). rewrite !bind_ret.
  change (Z.lor (Z.shiftl 0 8) 1) with 1. change ((1 =? 1) && (1 =? 1)) with true. cbv iota.
  assert (E3 : rd_field buf 0 2 = Ok id) by (apply (rd_field_mid []); done).
  assert (E4 : rd_field buf 4 2 = Ok qd).
  { unfold buf. rewrite app_assoc. apply rd_field_mid; [rewrite zlen_app; lia|done]. }
  assert (L0 : zlen (replicate (Z.to_nat 512) 0) = 512) by done.
  rewrite E3, bind_ret, wr_field_in, bind_ret by lia.
  rewrite wr16_splice by (rewrite ?zlen_splice; lia). rewrite bind_ret, E4, bind_ret.
  change [0x8000 mod 256; (0x8000 / 256) mod 256] with [0; 128].
  assert (L2 : zlen [0; 128] = 2) by done.
  rewrite wr_field_in by (rewrite ?zlen_splice; rewrite ?zlen_splice; rewrite ?L2; lia). rewrite bind_ret.
  set (r3 := splice (splice (splice _ 0 id) 2 [0; 128]) 4 qd).
  assert (L3 : zlen r3 = 512) by (unfold r3; rewrite !zlen_splice; rewrite ?zlen_splice; rewrite ?zlen_splice; rewrite ?L2; lia).
  rewrite (encode_spec ls r r3 12) by (done || fold w; lia). fold w. rewrite bind_ret.
  rewrite (proj2 (Z.ltb_ge _ _)) by lia. rewrite (proj2 (Z.ltb_ge _ _)) by lia.
  assert (L4 : zlen [0; 1; 0; 1] = 4) by done.
  rewrite put_all_spec by (rewrite ?zlen_splice; fold w; rewrite ?L4; lia). rewrite bind_ret.
  pose proof (lower_name_spec (dotted ls) (length name_l) [] r name_l Hnf) as Hlow. cbn [app] in Hlow.
  change (zlen (@nil Z)) with 0 in Hlow. rewrite Hlow by (unfold zlen in *; lia). rewrite bind_ret.
  destruct (name_matches (dotted ls) name_l Hnf) as (c1 & c2 & -> & Ec & Hm); [lia|done|].
  rewrite bind_ret, Ec, bind_ret, (proj2 Hm Hname). cbv iota.
  set (r5 := splice (splice r3 12 (wire ls)) (12 + w) [0; 1; 0; 1]).
  assert (L5 : zlen r5 = 512) by (unfold r5; rewrite !zlen_splice; rewrite ?zlen_splice; fold w; rewrite ?L4; lia).
  rewrite (encode_spec ls r r5 (12 + w + 4)) by (done || fold w; lia). fold w. rewrite bind_ret.
  rewrite (proj2 (Z.ltb_ge _ _)) by lia. change (default [0; 0; 0; 0] (Some ip)) with ip.
  assert (Hal : zlen (answer_rest ip) = 14) by (unfold zlen, answer_rest; rewrite length_app, Hip; done).
  rewrite put_all_spec by (rewrite ?zlen_splice; fold w; lia). rewrite bind_ret.
  rewrite wr16_splice by (rewrite ?zlen_splice; rewrite ?zlen_splice; fold w; lia). rewrite bind_ret.
  change [1 mod 256; (1 / 256) mod 256] with [1; 0]. eexists. split; [do 2 f_equal; f_equal; lia|].
  pose proof (reply_layout id [0; 128] qd (wire ls) ([0; 1; 0; 1] ++ wire ls ++ answer_rest ip) Hid L2 Hqd) as Hlay.
  cbv zeta in Hlay. fold r3 w in Hlay. rewrite !zlen_app in Hlay. fold w in Hlay. rewrite Hal, L4 in Hlay.
  specialize (Hlay ltac:(lia)). replace (w + (4 + (w + 14))) with (18 + 2 * w) in Hlay by lia.
  unfold r5. rewrite <- (splice_splice _ _ [0; 1; 0; 1]) in Hlay by (rewrite ?zlen_app, ?zlen_splice; fold w; lia).
  rewrite L4 in Hlay. rewrite <- (splice_splice _ _ (wire ls) (answer_rest ip)) in Hlay
    by (rewrite ?zlen_splice; rewrite ?zlen_splice; fold w; lia).
  fold w in Hlay. exact Hlay.
Qed.

Definition ex_query : list Z :=
  [0x12; 0x34] ++ [1; 0] ++ [0; 1] ++ [0; 0; 0; 0; 0; 0] ++ wire [chars "VlsOs"; chars "local"]
    ++ [0; 1; 0; 1] ++ replicate 483 0.

Lemma dns_answers_own_name_witness :
  exists resp, dns_reply ex_query 29 (Some [192;168;1;100]) (replicate 256 0) (replicate 256 0) = Ok (Some (resp, 56)) /\
    slice resp 0 6 = [0x12; 0x34; 0; 0x80; 0; 1] /\ 
    slice resp 12 44 = wire [chars "VlsOs"; chars "local"] ++ [0; 1; 0; 1] ++ wire [chars "VlsOs"; chars "local"]
      ++ [0; 1; 0; 1; 0; 0; 1; 0x2C; 0; 4; 192; 168; 1; 100].
Proof.
  destruct (@dns_answers_own_name [chars "VlsOs"; chars "local"] [0x12; 0x34] [1; 0] [0; 1] [0;0;0;0;0;0]
    (replicate 483 0) 29 [192;168;1;100] (replicate 256 0) (replicate 256 0)) as (resp & E & H0 & _ & H12);
    [discriminate| |left; reflexivity|reflexivity|reflexivity|reflexivity|reflexivity|reflexivity|reflexivity
    |vm_compute; split; congruence|reflexivity|reflexivity|].
  - repeat (apply Forall_cons; split); [| |constructor];
      (split; [done|split; [vm_compute; congruence|split;
        [repeat (apply Forall_cons; split; [vm_compute; repeat split; congruence|]); constructor
        |apply (bool_decide_unpack _); vm_compute; exact I]]]).
  - exists resp. split; [exact E|]. split; [exact H0|exact H12].
Defined.

Lemma dns_reply_safe_witness :
  exists r, dns_reply ex_query 29 (Some [192;168;1;100]) (replicate 256 0) (replicate 256 0) = Ok r /\ reply_fits r.
Proof.
  apply (@dns_reply_safe ex_query 29 (Some [192;168;1;100]) (replicate 256 0) (replicate 256 0));
    [|reflexivity|vm_compute; split; congruence| |reflexivity|reflexivity|by intros ? [= <-]].
  - apply (bool_decide_unpack _). vm_compute. exact I.
  - apply Forall_replicate. vm_compute. split; congruence.
Defined.
