(* ===== verification/Dhcp.v ===== *)
(** * The DHCP server *)
(** [src/net/dhcp.c]: the scan for the message type, the two replies, and the
    server around them.  A packet is a byte array with the layout of
    [dhcp_pkt_t]: op 0, htype 1, hlen 2, xid 4, yiaddr 16, siaddr 20,
    chaddr 28, options 236. *)

From Stdlib Require Import String.
From stdpp Require Import gmap.
From S2P Require Import Prelude Memory CString Net Socket.
From S2P Require Dns.

Definition DHCP_SERVER_PORT : Z := 67.
Definition DHCP_CLIENT_PORT : Z := 68.
Definition DHCP_BUFFER_SIZE : Z := 548.
Definition DHCP_OP_BOOTREPLY : Z := 2.
Definition DHCPDISCOVER : Z := 1.
Definition DHCPOFFER : Z := 2.
Definition DHCPREQUEST : Z := 3.
Definition DHCPACK : Z := 5.
(** [sizeof(dhcp_pkt_t)], the offset and the size of its options. *)
Definition DHCP_PKT : Z := 548.
Definition OPTIONS : Z := 236.
Definition OPTIONS_SIZE : Z := 312.

Record dhcp_server_t := DhcpServer {
  running : Z;
  sockfd : Z;
  pool_start : list Z;
  pool_end : list Z;
  server_ip : list Z;
  srv_netmask : list Z;
  srv_gateway : list Z
}.

(** ** Replies *)

(** The stores [opt[p++] = ..] of [dhcp_fill_offer], in order. *)
Definition offer_options (srv : dhcp_server_t) : list Z :=
  [99; 130; 83; 99; 53; 1; DHCPOFFER; 1; 4] ++ srv_netmask srv ++ [3; 4] ++ srv_gateway srv ++
  [54; 4] ++ server_ip srv ++ [51; 4; 0; 0; 0x0E; 0x10; 255].

Definition dhcp_fill_offer (srv : dhcp_server_t) (req resp : list Z) (offer_ip : list Z) : res (list Z) :=
  resp ← memset_at resp 0 0 DHCP_PKT;
  resp ← wr resp 0 DHCP_OP_BOOTREPLY;
  htype ← rd req 1;
  resp ← wr resp 1 htype;
  hlen ← rd req 2;
  resp ← wr resp 2 hlen;
  xid ← rd_field req 4 4;
  resp ← wr_field resp 4 xid;
  resp ← memcpy_at resp 28 req 28 16;
  resp ← wr_field resp 16 offer_ip;
  resp ← wr_field resp 20 (server_ip srv);
  put_all (offer_options srv) resp OPTIONS.

(** The loop of [dhcp_fill_ack]. *)
Fixpoint set_ack (fuel : nat) (resp : list Z) (i : Z) {struct fuel} : res (list Z) :=
  if i <? OPTIONS_SIZE then
    match fuel with
    | O => Err OutOfFuel
    | S f =>
        code ← rd resp (OPTIONS + i);
        if code =? 255 then Ok resp else
        if OPTIONS_SIZE <=? i + 1 then Ok resp else
        len ← rd resp (OPTIONS + (i + 1));
        if (code =? 53) && (1 <=? len) then wr resp (OPTIONS + (i + 2)) DHCPACK
        else set_ack f resp (i + 2 + len)
    end
  else Ok resp.

Definition dhcp_fill_ack (srv : dhcp_server_t) (req resp : list Z) (assign_ip : list Z) : res (list Z) :=
  resp ← dhcp_fill_offer srv req resp assign_ip;
  set_ack (Z.to_nat OPTIONS_SIZE) resp 4.

(** ** The request *)

(** The loop of [dhcp_poll]: the value of option 53, or 0. *)
Fixpoint find_type (fuel : nat) (buf : list Z) (i : Z) {struct fuel} : res Z :=
  if i <? OPTIONS_SIZE then
    match fuel with
    | O => Err OutOfFuel
    | S f =>
        code ← rd buf (OPTIONS + i);
        if code =? 255 then Ok 0 else
        if OPTIONS_SIZE <=? i + 1 then Ok 0 else
        len ← rd buf (OPTIONS + (i + 1));
        if (code =? 53) && (1 <=? len) then rd buf (OPTIONS + (i + 2))
        else find_type f buf (i + 2 + len)
    end
  else Ok 0.

Definition message_type (buf : list Z) : res Z := find_type (Z.to_nat OPTIONS_SIZE) buf 0.

(** Lines 97 to 122: the reply and what is printed after it is sent. *)
Definition dhcp_reply (srv : dhcp_server_t) (buf : list Z) (n : Z) (resp : list Z)
    : res (option (list Z * string)) :=
  if n <? DHCP_PKT - OPTIONS_SIZE then Ok None else
  typ ← message_type buf;
  if typ =? DHCPDISCOVER then
    r ← dhcp_fill_offer srv buf resp (pool_start srv); Ok (Some (r, "DHCP: Sent DHCPOFFER"%string))
  else if typ =? DHCPREQUEST then
    r ← dhcp_fill_ack srv buf resp (pool_start srv); Ok (Some (r, "DHCP: Sent DHCPACK"%string))
  else Ok None.

(** ** The server *)

Record dhcp_state := DhcpState { dhcp_server : dhcp_server_t; h_sock : sock_state }.

Definition on_sock {A} (m : M sock_state A) : M dhcp_state A := fun s =>
  match m (h_sock s) with
  | Ok (a, k) => Ok (a, {| dhcp_server := dhcp_server s; h_sock := k |})
  | Err e => Err e
  end.

Definition say (t : string) : M dhcp_state unit := on_sock (on_net (emit (Printed (chars t ++ [10])))).

Definition set_server (v : dhcp_server_t) : M dhcp_state unit := fun s =>
  Ok (tt, {| dhcp_server := v; h_sock := h_sock s |}).

Definition set_running (r k : Z) : M dhcp_state unit := fun s =>
  let v := dhcp_server s in
  set_server (DhcpServer r k (pool_start v) (pool_end v) (server_ip v) (srv_netmask v) (srv_gateway v)) s.

Definition dhcp_init : M dhcp_state unit :=
  let lo := net_set_ipaddr_bytes 192 168 1 150 in
  let hi := net_set_ipaddr_bytes 192 168 1 160 in
  x ← on_sock (on_net the_iface);
  match x with
  | Some x => set_server (DhcpServer 0 (-1) lo hi (ip_addr x) (netmask x) (gateway x))
  | None => set_server (DhcpServer 0 (-1) lo hi [0; 0; 0; 0] [0; 0; 0; 0] [0; 0; 0; 0])
  end.

Definition dhcp_start : M dhcp_state unit :=
  st ← getS;
  if negb (running (dhcp_server st) =? 0) then say "DHCP server already running" else
  s ← on_sock (socket AF_INET SOCK_DGRAM IPPROTO_UDP);
  if s <? 0 then say "Failed to create DHCP socket" else
  r ← on_sock (bind s [0; 0; 0; 0] DHCP_SERVER_PORT);
  if r <? 0 then say "Failed to bind DHCP socket" ;; on_sock (close s) ;; mret tt else
  set_running 1 s ;;
  say "DHCP server started on port 67".

Definition dhcp_stop : M dhcp_state unit :=
  st ← getS;
  if running (dhcp_server st) =? 0 then say "DHCP server not running" else
  on_sock (close (sockfd (dhcp_server st))) ;;
  set_running 0 (-1) ;;
  say "DHCP server stopped".

(** [buf] and [resp] are locals. *)
Definition dhcp_poll (buf resp : list Z) : M dhcp_state unit :=
  st ← getS;
  if running (dhcp_server st) =? 0 then mret tt else
  n ← on_sock (recvfrom (sockfd (dhcp_server st)));
  if n <=? 0 then mret tt else
  r ← liftR (dhcp_reply (dhcp_server st) buf n resp);
  match r with
  | None => mret tt
  | Some (resp, text) =>
      on_sock (sendto (sockfd (dhcp_server st)) resp DHCP_PKT (net_set_ipaddr_bytes 255 255 255 255) DHCP_CLIENT_PORT) ;;
      say text
  end.

(** * Properties *)

(** ** The replies *)

(** How a client reads options (RFC 2132): pad, end, or code, length and value. *)
Fixpoint opt_get (fuel : nat) (code : Z) (opts : list Z) : option (list Z) :=
  match fuel, opts with
  | S f, c :: r =>
      if c =? 0 then opt_get f code r else
      if c =? 255 then None else
      match r with
      | len :: r => if c =? code then Some (slice r 0 len) else opt_get f code (drop (Z.to_nat len) r)
      | [] => None
      end
  | _, _ => None
  end.

Definition option_of (code : Z) (packet : list Z) : option (list Z) := opt_get 312 code (drop 240 packet).

(** The packet of a reply, field by field. *)
Definition reply_packet (srv : dhcp_server_t) (typ h1 h2 : Z) (xid ip chaddr : list Z) : list Z :=
  [DHCP_OP_BOOTREPLY; h1; h2; 0] ++ xid ++ replicate 8 0 ++ ip ++ server_ip srv ++ replicate 4 0 ++ chaddr ++
  replicate 192 0 ++ [99; 130; 83; 99; 53; 1; typ; 1; 4] ++ srv_netmask srv ++ [3; 4] ++ srv_gateway srv ++
  [54; 4] ++ server_ip srv ++ [51; 4; 0; 0; 0x0E; 0x10; 255] ++ replicate 280 0.

Record srv_ok (srv : dhcp_server_t) : Prop := {
  ok_pool : length (pool_start srv) = 4%nat;
  ok_ip : length (server_ip srv) = 4%nat;
  ok_mask : length (srv_netmask srv) = 4%nat;
  ok_gw : length (srv_gateway srv) = 4%nat
}.

Lemma memcpy_at_field d doff s soff n : 0 <= doff -> 0 <= soff -> 0 <= n -> soff + n <= zlen s ->
  memcpy_at d doff s soff n = wr_field d doff (slice s soff n).
Proof.
  intros Hd Hs Hn Hl. destruct (Z.le_gt_cases (doff + n) (zlen d)) as [Hf|Hf].
  - rewrite memcpy_at_splice by done. rewrite wr_field_in; [done|done|]. by rewrite zlen_slice.
  - rewrite memcpy_at_fault by lia. unfold wr_field. rewrite zlen_slice by done.
    by rewrite (proj2 (Z.leb_gt (doff + n) _)), andb_false_r by lia.
Qed.

(** The stores into the zeroed packet, and then the change of the type. *)
Lemma fill_values srv h1 h2 xid ip chaddr : srv_ok srv -> length xid = 4%nat -> length ip = 4%nat ->
  length chaddr = 16%nat ->
  (resp ← wr (replicate 548 0) 0 DHCP_OP_BOOTREPLY; resp ← wr resp 1 h1; resp ← wr resp 2 h2;
   resp ← wr_field resp 4 xid; resp ← wr_field resp 28 chaddr; resp ← wr_field resp 16 ip;
   resp ← wr_field resp 20 (server_ip srv); put_all (offer_options srv) resp OPTIONS) =
  Ok (reply_packet srv DHCPOFFER h1 h2 xid ip chaddr) /\
  set_ack 312 (reply_packet srv DHCPOFFER h1 h2 xid ip chaddr) 4 =
  Ok (reply_packet srv DHCPACK h1 h2 xid ip chaddr).
Proof.
  intros [Hp Hs Hm Hg] Hx Hi Hc. destruct srv as [run fd p e s m g]; cbn [pool_start server_ip srv_netmask srv_gateway] in Hp, Hs, Hm, Hg.
  open_cells Hs. open_cells Hm. open_cells Hg. open_cells Hx. open_cells Hi. open_cells Hc.
  split; vm_compute; reflexivity.
Qed.

Lemma fill_offer_spec srv req resp ip : srv_ok srv -> zlen req = DHCP_PKT -> zlen resp = DHCP_PKT ->
  length ip = 4%nat ->
  exists h1 h2, rd req 1 = Ok h1 /\ rd req 2 = Ok h2 /\
    dhcp_fill_offer srv req resp ip =
      Ok (reply_packet srv DHCPOFFER h1 h2 (slice req 4 4) ip (slice req 28 16)) /\
    dhcp_fill_ack srv req resp ip =
      Ok (reply_packet srv DHCPACK h1 h2 (slice req 4 4) ip (slice req 28 16)).
Proof.
  unfold DHCP_PKT. intros Hsrv Hreq Hresp Hip.
  destruct (rd_total req 1) as [h1 E1]; [lia|]. destruct (rd_total req 2) as [h2 E2]; [lia|].
  exists h1, h2. split; [done|]. split; [done|].
  assert (Hx : length (slice req 4 4) = 4%nat) by (pose proof (zlen_slice req 4 4 ltac:(lia) ltac:(lia) ltac:(lia)); unfold zlen in *; lia).
  assert (Hc : length (slice req 28 16) = 16%nat) by (pose proof (zlen_slice req 28 16 ltac:(lia) ltac:(lia) ltac:(lia)); unfold zlen in *; lia).
  destruct (fill_values srv h1 h2 _ _ _ Hsrv Hx Hip Hc) as [Ho Ha].
  assert (Hoffer : dhcp_fill_offer srv req resp ip =
      Ok (reply_packet srv DHCPOFFER h1 h2 (slice req 4 4) ip (slice req 28 16))).
  { rewrite <- Ho. unfold dhcp_fill_offer, memset_at, DHCP_PKT. rewrite (proj2 (Z.leb_le 0 (zlen resp))) by lia.
    cbn [Z.leb Z.compare andb]. rewrite memset_spec by (unfold zlen in *; change (Z.to_nat 0) with O; rewrite drop_0; lia).
    change (Z.to_nat 0) with O. rewrite drop_0, (drop_ge resp) by (unfold zlen in *; lia). rewrite !bind_ret, app_nil_r.
    cbn [take app]. change (replicate (Z.to_nat 548) (u8 0)) with (replicate 548 0).
    rewrite E1, E2. setoid_rewrite bind_ret. rewrite rd_field_in by lia.
    setoid_rewrite bind_ret. setoid_rewrite memcpy_at_field; [reflexivity|lia..]. }
  split; [exact Hoffer|]. unfold dhcp_fill_ack. by rewrite Hoffer, bind_ret.
Qed.

Lemma reply_options srv typ h1 h2 xid ip chaddr : srv_ok srv -> length xid = 4%nat -> length ip = 4%nat ->
  length chaddr = 16%nat ->
  let r := reply_packet srv typ h1 h2 xid ip chaddr in
  slice r 236 4 = [99; 130; 83; 99] /\ option_of 53 r = Some [typ] /\ option_of 1 r = Some (srv_netmask srv) /\
  option_of 3 r = Some (srv_gateway srv) /\ option_of 54 r = Some (server_ip srv) /\
  option_of 51 r = Some [0; 0; 0x0E; 0x10].
Proof.
  intros [Hp Hs Hm Hg] Hx Hi Hc. destruct srv as [run fd p e s m g];
    cbn [pool_start server_ip srv_netmask srv_gateway] in Hp, Hs, Hm, Hg.
  open_cells Hs. open_cells Hm. open_cells Hg. open_cells Hx. open_cells Hi. open_cells Hc.
  repeat split; vm_compute; reflexivity.
Qed.

(** The reply to a packet in which the scan finds a DISCOVER or a REQUEST. *)
Lemma reply_found srv buf n resp typ :
  srv_ok srv -> zlen buf = DHCP_PKT -> zlen resp = DHCP_PKT -> DHCP_PKT - OPTIONS_SIZE <= n ->
  message_type buf = Ok typ -> typ = DHCPDISCOVER \/ typ = DHCPREQUEST ->
  let answer := if typ =? DHCPDISCOVER then DHCPOFFER else DHCPACK in
  exists r text h1 h2, dhcp_reply srv buf n resp = Ok (Some (r, text)) /\
    rd buf 1 = Ok h1 /\ rd buf 2 = Ok h2 /\
    r = reply_packet srv answer h1 h2 (slice buf 4 4) (pool_start srv) (slice buf 28 16) /\
    slice r 236 4 = [99; 130; 83; 99] /\ option_of 53 r = Some [answer] /\
    option_of 1 r = Some (srv_netmask srv) /\ option_of 3 r = Some (srv_gateway srv) /\
    option_of 54 r = Some (server_ip srv) /\ option_of 51 r = Some [0; 0; 0x0E; 0x10].
Proof.
  intros Hsrv Hb Hr Hn Ht Htyp. cbv zeta. pose proof Hb as Hb'. unfold DHCP_PKT in Hb'.
  destruct (fill_offer_spec srv buf resp (pool_start srv) Hsrv Hb Hr (ok_pool _ Hsrv)) as (h1 & h2 & E1 & E2 & Eo & Ea).
  set (answer := if typ =? DHCPDISCOVER then DHCPOFFER else DHCPACK).
  exists (reply_packet srv answer h1 h2 (slice buf 4 4) (pool_start srv) (slice buf 28 16)).
  assert (Hrep : exists text, dhcp_reply srv buf n resp =
      Ok (Some (reply_packet srv answer h1 h2 (slice buf 4 4) (pool_start srv) (slice buf 28 16), text))).
  { unfold dhcp_reply. rewrite (proj2 (Z.ltb_ge _ _)) by lia. rewrite Ht, bind_ret, Eo, Ea, !bind_ret.
    unfold answer. destruct Htyp as [-> | ->]; by eexists. }
  destruct Hrep as [text Hrep]. exists text, h1, h2. do 4 (split; [done|]).
  apply reply_options; [done| |apply Hsrv|].
  - pose proof (zlen_slice buf 4 4 ltac:(lia) ltac:(lia) ltac:(lia)) as Hl. unfold zlen in Hl. lia.
  - pose proof (zlen_slice buf 28 16 ltac:(lia) ltac:(lia) ltac:(lia)) as Hl. unfold zlen in Hl. lia.
Qed.

(** ** The scan *)

Lemma find_type_spec f : forall buf i, Forall is_u8 buf -> zlen buf = 548 -> 0 <= i -> 312 - i <= Z.of_nat f ->
  (exists t, find_type f buf i = Ok t /\ is_u8 t) \/
  (find_type f buf i = Err OutOfBounds /\ rd buf 546 = Ok 53).
Proof.
  induction f as [|f IH]; intros buf i Hu Hl Hi Hf; cbn [find_type]; unfold OPTIONS_SIZE, OPTIONS in *.
  { rewrite (proj2 (Z.ltb_ge _ _)) by lia. left. exists 0. split; [done|vm_compute; split; congruence]. }
  assert (H0 : exists t, Ok 0 = Ok t /\ is_u8 t) by (exists 0; split; [done|vm_compute; split; congruence]).
  destruct (Z.ltb_spec i 312); [|by left].
  destruct (Dns.rd_u8 buf (236 + i) Hu) as (code & Ec & _); [lia|]. rewrite Ec, bind_ret.
  destruct (code =? 255); [by left|]. destruct (Z.leb_spec 312 (i + 1)); [by left|].
  destruct (Dns.rd_u8 buf (236 + (i + 1)) Hu) as (len & El & Hlen); [lia|]. rewrite El, bind_ret.
  destruct ((code =? 53) && (1 <=? len)) eqn:E.
  - apply andb_prop in E as [E%Z.eqb_eq _]. subst code. destruct (Z.eq_dec i 310) as [->|Hne].
    + right. split; [|exact Ec]. unfold rd. destruct (zget buf _) eqn:Eg; [|done].
      apply zget_lt in Eg. lia.
    + left. destruct (Dns.rd_u8 buf (236 + (i + 2)) Hu) as (t & -> & Ht); [lia|by exists t].
  - unfold is_u8 in Hlen. apply IH; [done|done|lia|lia].
Qed.

(** The option scan ends on every buffer, with a byte or, in one case, by
    reading the byte behind the packet: when its last code is the message type.
    That case occurs. *)
Lemma dhcp_scan_ends :
  (forall buf, Forall is_u8 buf -> zlen buf = DHCP_BUFFER_SIZE ->
     (exists t, message_type buf = Ok t /\ is_u8 t) \/
     (message_type buf = Err OutOfBounds /\ rd buf (OPTIONS + 310) = Ok 53)) /\
  exists buf, Forall is_u8 buf /\ zlen buf = DHCP_BUFFER_SIZE /\ message_type buf = Err OutOfBounds.
Proof.
  split.
  - intros buf Hu Hl.
    destruct (find_type_spec 312 buf 0 Hu Hl) as [H|H]; [lia|lia|left; exact H|right; exact H].
  - exists (replicate 236 0 ++ [99; 130; 83; 99] ++ replicate 128 0 ++ [1; 176] ++ replicate 176 0 ++ [53; 1]).
    split; [|split; [reflexivity|vm_compute; reflexivity]].
    apply (bool_decide_unpack _). vm_compute. exact I.
Qed.

(** An option of another kind is stepped over. *)
Lemma find_type_skip f buf i code len : 0 <= i -> i + 1 < 312 -> rd buf (OPTIONS + i) = Ok code ->
  rd buf (OPTIONS + (i + 1)) = Ok len -> code <> 255 -> code <> 53 ->
  find_type (S f) buf i = find_type f buf (i + 2 + len).
Proof.
  intros Hi Hi1 Hc Hl H255 H53. cbn [find_type]. unfold OPTIONS_SIZE.
  rewrite (proj2 (Z.ltb_lt _ _)), Hc, bind_ret, (proj2 (Z.eqb_neq _ _)) by lia.
  rewrite (proj2 (Z.leb_gt _ _)), Hl, bind_ret by lia. by rewrite (proj2 (Z.eqb_neq code 53)) by lia.
Qed.

Lemma find_type_zeros f : forall buf i, 0 <= i -> 312 - i <= Z.of_nat f ->
  (forall j, i <= j < 312 -> rd buf (OPTIONS + j) = Ok 0) -> find_type f buf i = Ok 0.
Proof.
  induction f as [|f IH]; intros buf i Hi Hf Hz.
  { cbn [find_type]. unfold OPTIONS_SIZE. by rewrite (proj2 (Z.ltb_ge _ _)) by lia. }
  destruct (Z.lt_ge_cases (i + 1) 312) as [Hi1|Hi1].
  - rewrite (find_type_skip f buf i 0 0) by (done || lia || (apply Hz; lia)).
    apply IH; [lia|lia|]. intros j Hj. apply Hz. lia.
  - cbn [find_type]. unfold OPTIONS_SIZE. destruct (Z.ltb_spec i 312); [|done].
    rewrite (Hz i) by lia. rewrite bind_ret. change (0 =? 255) with false. cbv iota.
    by rewrite (proj2 (Z.leb_le _ _)) by lia.
Qed.

(** The scan starts at the magic cookie and takes its first two bytes for
    an option of 130 bytes: whatever a client writes into the first 132 bytes of
    the options, behind the cookie every DHCP packet starts them with, is skipped,
    so an ordinary request gets no reply. *)
Lemma dhcp_ignores_standard_packets srv head body n resp :
  zlen head = OPTIONS -> zlen body <= 128 ->
  let buf := head ++ [99; 130; 83; 99] ++ body ++ replicate (Z.to_nat (308 - zlen body)) 0 in
  message_type buf = Ok 0 /\ dhcp_reply srv buf n resp = Ok None.
Proof.
  intros Hh Hb. cbv zeta. pose proof (zlen_nonneg body) as H0.
  set (buf := head ++ _).
  assert (Hcell : forall i b x r, buf = b ++ x :: r -> zlen b = OPTIONS + i -> rd buf (OPTIONS + i) = Ok x).
  { intros i b x r -> <-. apply rd_mid. }
  assert (Hm : message_type buf = Ok 0).
  { unfold message_type. change (Z.to_nat OPTIONS_SIZE) with 312%nat.
    rewrite (find_type_skip 311 buf 0 99 130); [|lia|lia| | |lia|lia].
    2:{ apply (Hcell 0 head 99 ([130; 83; 99] ++ body ++ replicate (Z.to_nat (308 - zlen body)) 0)); [done|lia]. }
    2:{ apply (Hcell (0 + 1) (head ++ [99]) 130 ([83; 99] ++ body ++ replicate (Z.to_nat (308 - zlen body)) 0));
          [unfold buf; by rewrite <- app_assoc|rewrite zlen_app; change (zlen [99]) with 1; lia]. }
    apply find_type_zeros; [lia|lia|]. intros j Hj.
    set (k := Z.to_nat (308 - zlen body)). set (m := Z.to_nat (j - 4 - zlen body)).
    assert (Hsplit : replicate k 0 = replicate m 0 ++ 0 :: replicate (k - S m) 0).
    { rewrite <- (replicate_S (k - S m)), <- replicate_add. f_equal. unfold k, m. lia. }
    apply (Hcell j (head ++ [99; 130; 83; 99] ++ body ++ replicate m 0) 0 (replicate (k - S m) 0)).
    - unfold buf. fold k. rewrite Hsplit. by rewrite <- !app_assoc.
    - rewrite !zlen_app. change (zlen [99; 130; 83; 99]) with 4. unfold zlen at 3. rewrite length_replicate.
      unfold m. lia. }
  split; [exact Hm|]. unfold dhcp_reply. destruct (n <? _); [done|]. by rewrite Hm, bind_ret.
Qed.

(** C28.  The server goes by the type its own scan of the options finds, and the scan starts at the magic cookie
    and not behind it.  So an ordinary packet, whose options are the cookie and at most 128 bytes more, is not
    recognised and gets no reply, no more than one that is too short.  Where the scan does find a DISCOVER the answer is
    an OFFER, and where it finds a REQUEST an ACK, and the two differ in nothing else: a reply for the client's
    transaction and hardware address that gives it the first address of the pool, from which a client reads the
    message type, the mask, the router, the server and a lease of an hour. *)
Theorem dhcp_answers srv buf n resp typ :
  srv_ok srv -> zlen buf = DHCP_PKT -> zlen resp = DHCP_PKT -> message_type buf = Ok typ ->
  let answer := if typ =? DHCPDISCOVER then DHCPOFFER else DHCPACK in
  (if (n <? DHCP_PKT - OPTIONS_SIZE) || negb ((typ =? DHCPDISCOVER) || (typ =? DHCPREQUEST))
   then dhcp_reply srv buf n resp = Ok None
   else exists r text h1 h2, dhcp_reply srv buf n resp = Ok (Some (r, text)) /\
     rd buf 1 = Ok h1 /\ rd buf 2 = Ok h2 /\
     r = reply_packet srv answer h1 h2 (slice buf 4 4) (pool_start srv) (slice buf 28 16) /\
     slice r 236 4 = [99; 130; 83; 99] /\ option_of 53 r = Some [answer] /\
     option_of 1 r = Some (srv_netmask srv) /\ option_of 3 r = Some (srv_gateway srv) /\
     option_of 54 r = Some (server_ip srv) /\ option_of 51 r = Some [0; 0; 0x0E; 0x10]) /\
  (forall head body, zlen head = OPTIONS -> zlen body <= 128 ->
     buf = head ++ [99; 130; 83; 99] ++ body ++ replicate (Z.to_nat (308 - zlen body)) 0 ->
     dhcp_reply srv buf n resp = Ok None).
Proof.
  intros Hsrv Hb Hr Ht answer. split.
  2: { intros head body Hh Hbody ->. exact (proj2 (dhcp_ignores_standard_packets srv head body n resp Hh Hbody)). }
  destruct (n <? _) eqn:En; cbn [orb]; [by unfold dhcp_reply; rewrite En|].
  destruct ((typ =? DHCPDISCOVER) || (typ =? DHCPREQUEST)) eqn:Etyp; cbn [negb].
  - apply reply_found; try done; [by apply Z.ltb_ge in En|]. apply orb_prop in Etyp as [E|E]; apply Z.eqb_eq in E; tauto.
  - apply orb_false_iff in Etyp as [E1 E2]. unfold dhcp_reply. by rewrite En, Ht, bind_ret, E1, E2.
Qed.

(** ** The servers never get a packet *)

Lemma poll_ends {S A} (m : M S Z) (f : Z -> M S A) s v a : m s = Ok (v, s) -> f v s = Ok (a, s) ->
  (m ≫= f) s = Ok (a, s).
Proof. intros H1 H2. by eapply M_run. Qed.

(** Whatever the sockets were used for since boot, a poll of the DNS or the
    DHCP server returns without a reply and without any effect: nothing ever puts
    a byte into the receive buffer of a socket. *)
Lemma servers_are_mute n os rs s1 :
  run_ops os (boot_sockets n) = Ok (rs, s1) ->
  (forall srv buf qname name_l from,
     Dns.dns_poll buf qname name_l from (Dns.DnsState srv s1) = Ok (tt, Dns.DnsState srv s1)) /\
  (forall srv buf resp, dhcp_poll buf resp (DhcpState srv s1) = Ok (tt, DhcpState srv s1)).
Proof.
  intros Hrun. destruct (run_ops_empty _ _ _ _ (boot_empty n) Hrun) as [He Hl].
  change (length (sockets (boot_sockets n))) with 16%nat in Hl. split.
  - intros srv buf qname name_l from. unfold Dns.dns_poll. eapply M_run; [reflexivity|].
    cbn [Dns.dns_server]. destruct (Dns.running srv =? 0); [done|].
    destruct (recvfrom_empty (Dns.sockfd srv) s1 Hl He) as [E|E];
      (eapply M_run; [unfold Dns.on_sock; cbn [Dns.d_sock]; rewrite E; reflexivity|done]).
  - intros srv buf resp. unfold dhcp_poll. eapply M_run; [reflexivity|].
    cbn [dhcp_server]. destruct (running srv =? 0); [done|].
    destruct (recvfrom_empty (sockfd srv) s1 Hl He) as [E|E];
      (eapply M_run; [unfold on_sock; cbn [h_sock]; rewrite E; reflexivity|done]).
Qed.

(** ** Instances *)

Definition ex_srv : dhcp_server_t :=
  DhcpServer 1 1 [192;168;1;150] [192;168;1;160] [192;168;1;100] [255;255;255;0] [192;168;1;1].

Lemma dhcp_answers_witness :
  let buf := replicate 236 7 ++ [53; 1; DHCPREQUEST; 255] ++ replicate 308 0 in
  exists r text, dhcp_reply ex_srv buf 300 (replicate 548 9) = Ok (Some (r, text)) /\
    option_of 53 r = Some [DHCPACK] /\ slice r 4 4 = [7; 7; 7; 7].
Proof.
  destruct (@dhcp_answers ex_srv (replicate 236 7 ++ [53; 1; DHCPREQUEST; 255] ++ replicate 308 0) 300 (replicate 548 9)
    DHCPREQUEST) as [(r & text & h1 & h2 & E & _ & _ & Hr & _ & H53 & _) _];
    [by constructor|reflexivity|reflexivity|vm_compute; reflexivity|].
  exists r, text. split; [exact E|]. split; [exact H53|]. rewrite Hr. vm_compute. reflexivity.
Defined.

Lemma dhcp_scan_ends_witness :
  let buf := replicate 236 0 ++ [53; 1; 1; 255] ++ replicate 308 0 in
  (exists t, message_type buf = Ok t /\ is_u8 t) \/
  (message_type buf = Err OutOfBounds /\ rd buf (OPTIONS + 310) = Ok 53).
Proof.
  apply (proj1 dhcp_scan_ends); [apply (bool_decide_unpack _); vm_compute; exact I|reflexivity].
Defined.

Lemma dhcp_ignores_standard_packets_witness :
  let buf := replicate 236 0 ++ [99; 130; 83; 99] ++ [53; 1; DHCPDISCOVER; 255] ++ replicate 304 0 in
  dhcp_reply ex_srv buf 548 (replicate 548 0) = Ok None.
Proof.
  apply (@dhcp_ignores_standard_packets ex_srv (replicate 236 0) [53; 1; DHCPDISCOVER; 255] 548 (replicate 548 0));
    [reflexivity|vm_compute; congruence].
Defined.

Lemma servers_are_mute_witness :
  exists rs s1, run_ops [OSocket 2 2 17; OBind 1 [0;0;0;0] 67] (boot_sockets ex_net) = Ok (rs, s1) /\
    dhcp_poll [] [] (DhcpState ex_srv s1) = Ok (tt, DhcpState ex_srv s1).
Proof.
  destruct (run_ops [OSocket 2 2 17; OBind 1 [0;0;0;0] 67] (boot_sockets ex_net)) as [[rs s1]|e] eqn:E.
  - exists rs, s1. split; [reflexivity|]. apply (proj2 (@servers_are_mute _ _ _ _ E)).
  - exfalso. assert (H : match run_ops [OSocket 2 2 17; OBind 1 [0;0;0;0] 67] (boot_sockets ex_net) with
      Ok _ => true | Err _ => false end = true) by (vm_compute; reflexivity). by rewrite E in H.
Defined.
