(* ===== verification/Devices.v ===== *)
(** * Keyboard, timer and interrupt table *)
(** [src/kernel/keyboard.c], [src/kernel/pit.c] and [src/kernel/idt.c], with the
    common entry path of [src/kernel/interrupts.asm]: the three small drivers that
    the rest of the kernel waits on. *)

From Stdlib Require Import String.
From S2P Require Import Prelude CString Ports.
From S2P Require Process Vga.

(** ** Keyboard *)

Definition KB_PORT : Z := 0x60.
Definition KB_STATUS_OUT_FULL : Z := 0x01.

Definition scancode_map : list Z :=
  [0; 27] ++ chars "1234567890-=" ++ [8; 9] ++ chars "qwertyuiop[]" ++ [10; 0] ++
  chars "asdfghjkl;'`" ++ [0] ++ chars "\zxcvbnm,./" ++ [0] ++ chars "*" ++ [0] ++ chars " " ++ [0] ++
  [0; 0; 0; 0; 0; 0; 0; 0; 0; 0] ++ [0; 0].

Section Keyboard.
Context `{Bus P}.

Definition keyboard_init (s : Vga.vga) (p : P) : res (Vga.vga * P) :=
  Vga.vga_write_string (chars "Keyboard driver loaded" ++ [10; 0]) s p.

(** [while (1)]: [fuel] turns of the polling loop. *)
Fixpoint keyboard_read_char (fuel : nat) (p : P) : res (Z * P) :=
  match fuel with
  | O => Err OutOfFuel
  | S fuel =>
      let '(status, p) := inb (KB_PORT + 4) p in
      if negb (Z.land status KB_STATUS_OUT_FULL =? 0) then
        let '(scancode, p) := inb KB_PORT p in
        if (Z.land scancode 0x80 =? 0) && (scancode <? zlen scancode_map) then
          c ← rd scancode_map scancode; Ok (c, p)
        else keyboard_read_char fuel p
      else keyboard_read_char fuel p
  end.
End Keyboard.

(** The controller: behind port 0x64 a status whose bit 0 says that a scan code
    waits, behind port 0x60 the scan codes in order.  [kbd p l]: the codes [l] are
    waiting. *)
Class Keyboard (P : Type) `{Bus P} := {
  kbd : P -> list Z -> Prop;
  kbd_codes p l : kbd p l -> Forall is_u8 l;
  kbd_status p c l : kbd p (c :: l) ->
    exists v p', in8 0x64 p = (v, p') /\ Z.odd v = true /\ kbd p' (c :: l);
  kbd_data p c l : kbd p (c :: l) -> exists p', in8 0x60 p = (c, p') /\ kbd p' l
}.

(** What a scan code types: the releases of keys and the codes outside the map
    type nothing. *)
Definition typed_by (c : Z) : option Z :=
  if c <? zlen scancode_map then zget scancode_map c else None.

(** All that the scan codes [l] type. *)
Definition typed (l : list Z) : list Z := omap typed_by l.

(** ** Timer *)

Definition PIT_PORT_0 : Z := 0x40.
Definition PIT_CONTROL : Z := 0x43.
Definition PIT_FREQUENCY : Z := 1193182.

Section Timer.
Context `{Bus P}.

(** The result is the new value of [ticks] and the bus. *)
Definition pit_init (frequency : Z) (p : P) : Z * P :=
  let frequency := if frequency =? 0 then 1 else frequency in
  let divisor := PIT_FREQUENCY / frequency in
  let p := outb PIT_CONTROL 0x34 p in
  let lo := Z.land divisor 0xFF in
  let hi := Z.land (Z.shiftr divisor 8) 0xFF in
  (0, outb PIT_PORT_0 hi (outb PIT_PORT_0 lo p)).
End Timer.

Definition pit_get_ticks (ticks : Z) : Z := ticks.

Definition wait_ticks (ms : Z) : Z := u32 (ms * 1000) / PIT_FREQUENCY.

(** [while ((ticks - start) < wait_ticks) hlt]: [wakes] are the values of [ticks]
    after each interrupt that wakes the processor. *)
Fixpoint wait_loop (wakes : list Z) (start wait t : Z) : res Z :=
  if u32 (t - start) <? wait then
    match wakes with
    | [] => Err OutOfFuel
    | t :: wakes => wait_loop wakes start wait t
    end
  else Ok t.

Definition pit_wait_ms (ms : Z) (wakes : list Z) (ticks : Z) : res Z :=
  wait_loop wakes ticks (wait_ticks ms) ticks.

(** ** Interrupt table *)

Definition IDT_ENTRIES : Z := 256.

Record idt_entry := Gate { base_lo : Z; selector : Z; zero : Z; flags : Z; base_hi : Z }.

Definition idt_set_gate (num base sel fl : Z) (idt : list idt_entry) : res (list idt_entry) :=
  wr idt num (Gate (Z.land base 0xFFFF) sel 0 fl (Z.land (Z.shiftr base 16) 0xFFFF)).

(** [for (i = 0; i < IDT_ENTRIES; i++)] *)
Fixpoint clear_gates (n : nat) (idt : list idt_entry) (i : Z) : res (list idt_entry) :=
  match n with
  | O => Ok idt
  | S n => idt ← wr idt i (Gate 0 0 0 0 0); clear_gates n idt (i + 1)
  end.

(** The addresses of the entry stubs of [interrupts.asm], for the linker to give. *)
Record stubs := Stubs { isr0 : Z; isr1 : Z; isr8 : Z; isr14 : Z; irq0 : Z; irq1 : Z }.

Definition idt_init (h : stubs) (idt : list idt_entry) : res (list idt_entry) :=
  idt ← clear_gates (Z.to_nat IDT_ENTRIES) idt 0;
  idt ← idt_set_gate 0 (isr0 h) 0x08 0x8E idt;
  idt ← idt_set_gate 1 (isr1 h) 0x08 0x8E idt;
  idt ← idt_set_gate 8 (isr8 h) 0x08 0x8E idt;
  idt ← idt_set_gate 14 (isr14 h) 0x08 0x8E idt;
  idt ← idt_set_gate 32 (irq0 h) 0x08 0x8E idt;
  idt_set_gate 33 (irq1 h) 0x08 0x8E idt.

(** ** Interrupts *)

Definition isr_message (isrnum : Z) : list Z :=
  if isrnum =? 0 then chars "Divide by zero" ++ [10; 0]
  else if isrnum =? 1 then chars "Debug exception" ++ [10; 0]
  else if isrnum =? 8 then chars "Double fault" ++ [10; 0]
  else if isrnum =? 14 then chars "Page fault" ++ [10; 0]
  else chars "Unknown exception" ++ [10; 0].

(** What the handlers reach: the tick counter, the process table and the ports. *)
Record machine (P : Type) := Machine { ticks : Z; procs : Process.proc_state; ports : P }.
Arguments Machine {P} _ _ _.
Arguments ticks {P} _. Arguments procs {P} _. Arguments ports {P} _.

Section Interrupts.
Context `{Bus P}.

Definition isr_handler (isrnum : Z) (s : Vga.vga) (p : P) : res (Vga.vga * P) :=
  '(s, p) ← Vga.vga_write_string (chars "Exception: " ++ [0]) s p;
  Vga.vga_write_string (isr_message isrnum) s p.

Definition pit_irq0_handler (m : machine P) : res (machine P) :=
  s ← Process.process_tick (procs m);
  Ok (Machine (u32 (ticks m + 1)) s (outb 0x20 0x20 (ports m))).

Definition irq_handler (irqnum : Z) (m : machine P) : res (machine P) :=
  m ← (if irqnum =? 0 then pit_irq0_handler m else Ok m);
  Ok (Machine (ticks m) (procs m) (outb 0x20 0x20 (ports m))).
End Interrupts.

(** The stubs push a number, then [pusha], then [mov ax, ds; push eax]; the handler
    they call takes the last word pushed as its argument. *)
Definition pushed_ds (eax ds : Z) : Z := Z.lor (Z.shiftl (Z.shiftr eax 16) 16) ds.

(** Entry through [isr<n>] and [irq<n>], whatever number the stub pushed first. *)
Definition isr_common_stub `{Bus P} (num eax ds : Z) : Vga.vga -> P -> res (Vga.vga * P) :=
  isr_handler (pushed_ds eax ds).
Definition irq_common_stub `{Bus P} (num eax ds : Z) : machine P -> res (machine P) :=
  irq_handler (pushed_ds eax ds).

(** ** The keyboard delivers what is typed *)

Lemma make_code c : 0 <= c < 128 -> Z.land c 0x80 = 0.
Proof.
  intros Hc. change 0x80 with (Z.shiftl 1 7). rewrite <- (Z.mod_small c (2 ^ 7)) by lia.
  apply Z.bits_inj'. intros n Hn. rewrite Z.land_spec, Z.bits_0.
  destruct (Z.lt_ge_cases n 7).
  - rewrite Z.shiftl_spec_low by done. apply andb_false_r.
  - by rewrite Z.mod_pow2_bits_high by lia.
Qed.

Lemma scancode_map_length : zlen scancode_map = 71.
Proof. reflexivity. Qed.

Section Keys.
Context {P : Type} `{Keyboard P}.

Lemma read_char_spec l : forall fuel (p : P) k ks, kbd p l -> typed l = k :: ks -> (length l < fuel)%nat ->
  exists p' l', keyboard_read_char fuel p = Ok (k, p') /\ kbd p' l' /\ typed l' = ks /\
    (length l' < length l)%nat.
Proof.
  induction l as [|c l IH]; intros fuel p k ks Hk Ht Hf; [done|].
  destruct fuel as [|fuel]; [cbn in Hf; lia|].
  destruct (kbd_status _ _ _ Hk) as (v & p1 & E1 & Hodd & Hk1).
  destruct (kbd_data _ _ _ Hk1) as (p2 & E2 & Hk2).
  pose proof (kbd_codes _ _ Hk) as [Hc _]%Forall_cons.
  cbn [keyboard_read_char]. unfold inb, KB_PORT, KB_STATUS_OUT_FULL.
  change (u16 (0x60 + 4)) with 0x64. change (u16 0x60) with 0x60. rewrite E1.
  rewrite (land_mask (u8 v) 1 1) by done.
  assert (Hb : u8 v mod 2 ^ 1 = 1).
  { change (2 ^ 1) with 2. rewrite Zmod_odd. unfold u8. rewrite <- Z.bit0_odd, Z.mod_pow2_bits_low, Z.bit0_odd, Hodd by lia. done. }
  rewrite Hb. cbn [negb Z.eqb]. rewrite E2, u8_id by done. unfold typed in *. cbn [omap list_omap] in Ht.
  unfold typed_by in Ht at 1. rewrite scancode_map_length in *.
  destruct (Z.ltb_spec c 71) as [Hlt|Hge].
  - rewrite make_code by (unfold is_u8 in Hc; lia). cbn [Z.eqb andb].
    destruct (rd_total scancode_map c) as [x Hx]; [rewrite scancode_map_length; unfold is_u8 in Hc; lia|].
    rewrite Hx, bind_ret. apply rd_Ok in Hx. rewrite Hx in Ht. injection Ht as -> <-.
    exists p2, l. split_and!; try done. cbn. lia.
  - rewrite andb_false_r. cbn [length] in Hf.
    destruct (IH fuel p2 k ks Hk2 Ht ltac:(lia)) as (p' & l' & E & ? & ? & ?).
    exists p', l'. split_and!; try done. cbn. lia.
Qed.
End Keys.

(** A keyboard with nothing else on the bus. *)
Definition key_bus : Bus (list Z) :=
  {| in8 := fun port l =>
       if port =? 0x64 then (match l with [] => 0 | _ => 1 end, l)
       else if port =? 0x60 then match l with [] => (0, []) | c :: l => (c, l) end
       else (0xFF, l);
     out8 := fun _ _ l => l; in16 := fun _ l => (0xFFFF, l); out16 := fun _ _ l => l |}.

#[export] Instance key_keyboard : @Keyboard (list Z) key_bus.
Proof.
  refine (@Build_Keyboard _ key_bus (fun p l => p = l /\ Forall is_u8 l) _ _ _).
  - by intros p l [_ ?].
  - intros p c l [-> Hl]. exists 1, (c :: l). by split_and!.
  - intros p c l [-> Hl]. exists l. apply Forall_cons in Hl as [? ?]. by split_and!.
Defined.

(** ** The timer *)

Lemma wait_ticks_bounds ms : 0 <= wait_ticks ms <= 3599.
Proof.
  unfold wait_ticks, PIT_FREQUENCY. pose proof (u32_range (ms * 1000)) as Hu. unfold is_u32 in Hu.
  split; [apply Z.div_pos; lia|]. apply Z.lt_succ_r, Z.div_lt_upper_bound; lia.
Qed.

Lemma elapsed start i : 0 <= i < 2 ^ 32 -> u32 (u32 (start + i) - start) = i.
Proof.
  intros Hi. unfold u32. rewrite Zminus_mod_idemp_l. replace (start + i - start) with i by lia.
  by apply Z.mod_small.
Qed.

(** A clock that has advanced by [i] ticks and advances by one at each wake. *)
Definition clock (start i : Z) (n : nat) : list Z := (fun k => u32 (start + k)) <$> seqZ (i + 1) (Z.of_nat n).

Lemma wait_loop_spec n : forall start w i, 0 <= i -> i + Z.of_nat n < 2 ^ 32 ->
  wait_loop (clock start i n) start w (u32 (start + i)) =
    if w <=? i + Z.of_nat n then Ok (u32 (start + Z.max i w)) else Err OutOfFuel.
Proof.
  unfold clock. induction n as [|n IH]; intros start w i Hi Hn.
  - change (Z.of_nat 0) with 0. rewrite Z.add_0_r. change (seqZ (i + 1) 0) with (@nil Z).
    cbn [fmap list_fmap wait_loop].
    rewrite elapsed by lia. destruct (Z.leb_spec w i).
    + rewrite (proj2 (Z.ltb_ge _ _)) by lia. by rewrite Z.max_l by lia.
    + by rewrite (proj2 (Z.ltb_lt _ _)) by lia.
  - rewrite (seqZ_cons (i + 1)) by lia. cbn [fmap list_fmap wait_loop]. rewrite elapsed by lia.
    destruct (Z.ltb_spec i w) as [Hlt|Hge].
    + replace (Z.pred (Z.of_nat (S n))) with (Z.of_nat n) by lia.
      replace (Z.succ (i + 1)) with (i + 1 + 1) by lia. rewrite (IH start w (i + 1)) by lia.
      replace (i + 1 + Z.of_nat n) with (i + Z.of_nat (S n)) by lia.
      destruct (w <=? i + Z.of_nat (S n)); [|done]. by rewrite !Z.max_r by lia.
    + rewrite (proj2 (Z.leb_le _ _)) by lia. by rewrite Z.max_l by lia.
Qed.

(** ** The interrupt table *)

Lemma clear_gates_spec n : forall idt i, 0 <= i -> i + Z.of_nat n <= zlen idt ->
  clear_gates n idt i = Ok (splice idt i (replicate n (Gate 0 0 0 0 0))).
Proof.
  induction n as [|n IH]; intros idt i Hi Hn; cbn [clear_gates].
  - change (replicate 0 (Gate 0 0 0 0 0)) with (@nil idt_entry). by rewrite splice_nil.
  - rewrite wr_splice1, bind_ret by lia.
    assert (H1 : zlen [Gate 0 0 0 0 0] = 1) by done.
    rewrite IH by (rewrite ?zlen_splice by (rewrite ?H1; lia); lia).
    change (i + 1) with (i + zlen [Gate 0 0 0 0 0]). rewrite splice_splice; [done|done|].
    rewrite H1. unfold zlen at 1. rewrite length_replicate. lia.
Qed.

(** The vectors that [idt_init] sets, and the address an entry leads to. *)
Definition handler_of (h : stubs) (n : Z) : option Z :=
  if n =? 0 then Some (isr0 h) else if n =? 1 then Some (isr1 h) else if n =? 8 then Some (isr8 h)
  else if n =? 14 then Some (isr14 h) else if n =? 32 then Some (irq0 h)
  else if n =? 33 then Some (irq1 h) else None.

Definition gate_base (g : idt_entry) : Z := base_lo g + 65536 * base_hi g.
Definition present (g : idt_entry) : bool := Z.testbit (flags g) 7.

Lemma gate_base_split a : is_u32 a -> Z.land a 0xFFFF + 65536 * Z.land (Z.shiftr a 16) 0xFFFF = a.
Proof.
  intros Ha. unfold is_u32 in Ha. rewrite !(land_mask _ 16) by done. rewrite Z.shiftr_div_pow2 by done.
  rewrite (Z.mod_small (a / 2 ^ 16)); [|split; [apply Z.div_pos; lia|apply Z.div_lt_upper_bound; lia]].
  pose proof (Z.div_mod a (2 ^ 16) ltac:(lia)). lia.
Qed.

(** The vector [v] of the table: either [n] is [v], or [n] is another one. *)
Ltac at_vector n v Ha :=
  destruct (Z.eq_dec n v) as [->|?];
  [ repeat (rewrite zget_insert_ne by lia); rewrite zget_insert_eq by (rewrite ?zlen_insert; lia);
    cbn [Z.eqb Pos.eqb] in *; eexists; split; [reflexivity|];
    split_and!; [apply gate_base_split; by apply Ha|done..]
  | rewrite (proj2 (Z.eqb_neq n v)) in * by done ].

Definition stubs_ok (h : stubs) : Prop := forall n a, handler_of h n = Some a -> is_u32 a.

Lemma idt_init_spec h idt :
  stubs_ok h -> zlen idt = IDT_ENTRIES ->
  exists idt', idt_init h idt = Ok idt' /\ zlen idt' = IDT_ENTRIES /\
    forall n, 0 <= n < 256 -> exists g, rd idt' n = Ok g /\
      match handler_of h n with
      | Some a => gate_base g = a /\ selector g = 0x08 /\ flags g = 0x8E /\ present g = true
      | None => present g = false
      end.
Proof.
  intros Hh Hl. unfold IDT_ENTRIES in *. unfold idt_init, idt_set_gate.
  rewrite clear_gates_spec by (unfold IDT_ENTRIES; lia). rewrite bind_ret.
  set (z := splice idt 0 (replicate (Z.to_nat IDT_ENTRIES) (Gate 0 0 0 0 0))).
  assert (Hz : z = replicate 256 (Gate 0 0 0 0 0)).
  { unfold z, splice. change (Z.to_nat 0) with 0%nat. rewrite take_0. cbn [app].
    change (0 + zlen (replicate (Z.to_nat IDT_ENTRIES) (Gate 0 0 0 0 0))) with 256.
    rewrite drop_ge by (unfold zlen in Hl; lia). by rewrite app_nil_r. }
  rewrite Hz. clear z Hz.
  assert (Hz : zlen (replicate 256 (Gate 0 0 0 0 0)) = 256) by done.
  assert (Hzero : forall n, 0 <= n < 256 -> zget (replicate 256 (Gate 0 0 0 0 0)) n = Some (Gate 0 0 0 0 0)).
  { intros n Hn. apply zget_Some. split; [lia|]. apply lookup_replicate_2. lia. }
  generalize dependent (replicate 256 (Gate 0 0 0 0 0)). intros z Hz Hzero.
  do 5 (rewrite wr_in by (rewrite ?zlen_insert; lia); rewrite bind_ret).
  rewrite wr_in by (rewrite ?zlen_insert; lia).
  eexists. split; [reflexivity|]. split; [by rewrite !zlen_insert|]. intros n Hn.
  setoid_rewrite rd_Ok.
  pose proof (Hh n) as Ha. unfold handler_of in *.
  at_vector n 0 Ha. at_vector n 1 Ha. at_vector n 8 Ha. at_vector n 14 Ha. at_vector n 32 Ha. at_vector n 33 Ha.
  repeat (rewrite zget_insert_ne by lia). eexists. split; [by apply Hzero|done].
Qed.

(** ** Properties *)

(** Whatever releases and unknown codes come in between, [keyboard_read_char]
    returns the next character typed on a keyboard that has one waiting, and
    leaves the rest of what was typed for the next call. *)
Lemma keyboard_delivers {P} `{Keyboard P} (p : P) l k ks :
  kbd p l -> typed l = k :: ks ->
  exists p' l', keyboard_read_char (S (length l)) p = Ok (k, p') /\ kbd p' l' /\ typed l' = ks.
Proof.
  intros Hk Ht. destruct (read_char_spec l (S (length l)) p k ks Hk Ht ltac:(lia)) as (p' & l' & ? & ? & ? & _).
  by exists p', l'.
Qed.

(** Shift and its release, then the keys a and b. *)
Lemma keyboard_delivers_witness :
  exists p' l', @keyboard_read_char _ key_bus 6 [0xAA; 0x70; 0x1E; 0x9E; 0x30] = Ok (97, p') /\
    @kbd _ key_bus key_keyboard p' l' /\ typed l' = [98].
Proof.
  apply (@keyboard_delivers _ key_bus key_keyboard [0xAA; 0x70; 0x1E; 0x9E; 0x30] [0xAA; 0x70; 0x1E; 0x9E; 0x30]).
  - split; [done|]. apply (bool_decide_unpack _); vm_compute; exact I.
  - reflexivity.
Defined.

(** On a clock that advances by one tick per interrupt, [pit_wait_ms] returns
    after exactly [ms * 1000 / PIT_FREQUENCY] interrupts, the product on 32 bits:
    at most 3599 for any argument, and none at all below 1194 milliseconds,
    whatever the frequency the timer was set to. *)
Lemma pit_wait_bounded ms start n :
  0 <= ms -> is_u32 start -> Z.of_nat n < 2 ^ 32 ->
  pit_wait_ms ms (clock start 0 n) start =
    (if wait_ticks ms <=? Z.of_nat n then Ok (u32 (start + wait_ticks ms)) else Err OutOfFuel) /\
  0 <= wait_ticks ms <= 3599 /\ (ms < 1194 -> wait_ticks ms = 0).
Proof.
  intros Hms Hs Hn. pose proof (wait_ticks_bounds ms) as Hb. split_and!; try apply Hb.
  - unfold pit_wait_ms. rewrite <- (u32_id start Hs) at 3. rewrite <- (Z.add_0_r start) at 3.
    rewrite wait_loop_spec by lia. rewrite Z.max_r by lia. done.
  - intros Hlt. unfold wait_ticks, PIT_FREQUENCY. rewrite u32_id by (unfold is_u32; lia).
    apply Z.div_small. lia.
Qed.

(** Two seconds are one interrupt. *)
Lemma pit_wait_bounded_witness :
  pit_wait_ms 2000 (clock 0xFFFFFFFF 0 3) 0xFFFFFFFF = Ok 0 /\ 0 <= wait_ticks 2000 <= 3599.
Proof.
  destruct (@pit_wait_bounded 2000 0xFFFFFFFF 3) as (E & ? & _); [done|by vm_compute|done|].
  split; [exact E|done].
Defined.

(** C31.  [idt_init] leaves a present interrupt gate to the right stub, in the kernel's
    code segment, at the vectors 0, 1, 8, 14, 32 and 33, and an entry that is not
    present everywhere else; so the vector 0x80 of the system calls leads nowhere. *)
Theorem idt_init_installs h idt :
  stubs_ok h -> zlen idt = IDT_ENTRIES ->
  exists idt', idt_init h idt = Ok idt' /\ zlen idt' = IDT_ENTRIES /\
    forall n, 0 <= n < 256 -> exists g, rd idt' n = Ok g /\
      match handler_of h n with
      | Some a => gate_base g = a /\ selector g = 0x08 /\ flags g = 0x8E /\ present g = true
      | None => present g = false
      end.
Proof. apply idt_init_spec. Qed.

Definition ex_stubs : stubs := Stubs 0x101000 0x101010 0x101020 0x101030 0x101040 0x101050.

Lemma idt_init_installs_witness :
  exists idt', idt_init ex_stubs (replicate 256 (Gate 1 2 3 4 5)) = Ok idt' /\ zlen idt' = IDT_ENTRIES /\
    exists g, rd idt' 0x80 = Ok g /\ present g = false.
Proof.
  destruct (@idt_init_installs ex_stubs (replicate 256 (Gate 1 2 3 4 5))) as (idt' & E & Hl & Hg).
  - intros n a. unfold handler_of. repeat case_if; intros [= <-]; by vm_compute.
  - reflexivity.
  - exists idt'. split; [exact E|]. split; [exact Hl|]. apply (Hg 0x80). lia.
Defined.

(** The handler of interrupt 0 would count a tick, run the scheduler's tick and
    acknowledge the interrupt twice; but the entry stub hands the handler the data
    segment register and not the number it pushed, so with any selector other
    than 0 a timer interrupt only gets acknowledged: no tick is counted and no
    process is preempted. *)
Lemma timer_interrupt_lost {P} `{Bus P} (m : machine P) num eax ds :
  is_u16 ds -> ds <> 0 ->
  irq_common_stub num eax ds m = Ok (Machine (ticks m) (procs m) (outb 0x20 0x20 (ports m))) /\
  forall s, Process.process_tick (procs m) = Ok s ->
    irq_handler 0 m = Ok (Machine (u32 (ticks m + 1)) s (outb 0x20 0x20 (outb 0x20 0x20 (ports m)))).
Proof.
  intros Hds Hne. split.
  - unfold irq_common_stub, irq_handler, pushed_ds.
    assert (Hnz : Z.lor (Z.shiftl (Z.shiftr eax 16) 16) ds <> 0) by (rewrite Z.lor_eq_0_iff; tauto).
    by rewrite (proj2 (Z.eqb_neq _ _) Hnz), bind_ret.
  - intros s Hs. unfold irq_handler, pit_irq0_handler. cbn [Z.eqb]. rewrite Hs, !bind_ret. done.
Qed.

(** Entry with the selector 0x10 that the stub itself loads. *)
Lemma timer_interrupt_lost_witness :
  let m := Machine 7 (Process.ProcState [] 0 0 0) tt in
  @irq_common_stub unit Vga.ex_bus 32 0x1234 0x10 m = Ok m.
Proof.
  destruct (@timer_interrupt_lost unit Vga.ex_bus (Machine 7 (Process.ProcState [] 0 0 0) tt) 32 0x1234 0x10) as [E _];
    [by vm_compute|done|exact E].
Defined.
