(* ===== verification/Syscall.v ===== *)
(** * System calls *)
(** [src/utils/syscall.c]: the dispatcher of [int 0x80] and the calls behind it,
    over the file system, the process table and the console.  The machine is the
    record [kernel]; memory that user pointers point to is [mem], one array per
    address. *)

From S2P Require Import Prelude Memory CString Block Ports.
From S2P Require Process FileSys Vga.
From S2P Require Import Devices.

Definition SYS_EXIT : Z := 1.
Definition SYS_READ : Z := 3.
Definition SYS_WRITE : Z := 4.
Definition SYS_OPEN : Z := 5.
Definition SYS_CLOSE : Z := 6.
Definition SYS_SEEK : Z := 19.
Definition SYS_GETPID : Z := 20.
Definition SYS_KILL : Z := 37.
Definition SYS_PIPE : Z := 42.
Definition STDIN_FD : Z := 0.
Definition STDOUT_FD : Z := 1.
Definition STDERR_FD : Z := 2.
Definition FIRST_USER_FD : Z := 3.
Definition KERNEL_MAX_FILES : Z := 16.

Record syscall_context_t := Ctx {
  eax : Z; ebx : Z; ecx : Z; edx : Z; esi : Z; edi : Z; ebp : Z; esp : Z;
  eip : Z; eflags : Z; ds : Z; es : Z
}.

Definition set_eax (x : Z) (c : syscall_context_t) : syscall_context_t :=
  Ctx x (ebx c) (ecx c) (edx c) (esi c) (edi c) (ebp c) (esp c) (eip c) (eflags c) (ds c) (es c).

(** The parts of the system the calls reach; [now] is the tick counter. *)
Record kernel (D P : Type) := Kernel {
  k_fs : FileSys.fs;
  k_disk : D;
  k_proc : Process.proc_state;
  k_vga : Vga.vga;
  k_ports : P;
  now : Z;
  g_kernel_fds : list Z;       (* int g_kernel_fds[16] *)
  mem : Z -> list Z
}.
Arguments Kernel {D P} _ _ _ _ _ _ _ _.
Arguments k_fs {D P} _. Arguments k_disk {D P} _. Arguments k_proc {D P} _. Arguments k_vga {D P} _.
Arguments k_ports {D P} _. Arguments now {D P} _.
Arguments g_kernel_fds {D P} _. Arguments mem {D P} _ _.

(** [static int g_kernel_fds[16] = {-1}]: an initialiser for element 0 only. *)
Definition boot_fds : list Z := -1 :: replicate 15 0.

Section Syscalls.
Context {D P : Type} `{BlockDev D} `{Bus P} (polls : nat).
Implicit Types (s : kernel D P).

Definition set_fs (f : FileSys.fs) (d : D) s : kernel D P :=
  Kernel f d (k_proc s) (k_vga s) (k_ports s) (now s) (g_kernel_fds s) (mem s).
Definition set_proc (p : Process.proc_state) s : kernel D P :=
  Kernel (k_fs s) (k_disk s) p (k_vga s) (k_ports s) (now s) (g_kernel_fds s) (mem s).
Definition set_vga (v : Vga.vga) (p : P) s : kernel D P :=
  Kernel (k_fs s) (k_disk s) (k_proc s) v p (now s) (g_kernel_fds s) (mem s).
Definition set_fds (l : list Z) s : kernel D P :=
  Kernel (k_fs s) (k_disk s) (k_proc s) (k_vga s) (k_ports s) (now s) l (mem s).
Definition set_mem (a : Z) (b : list Z) s : kernel D P :=
  Kernel (k_fs s) (k_disk s) (k_proc s) (k_vga s) (k_ports s) (now s) (g_kernel_fds s)
         (fun x => if x =? a then b else mem s x).

(** Calls into the components, on the machine. *)
Definition on_fs (m : FileSys.fs -> res (Z * FileSys.fs)) : M (kernel D P) Z := fun s =>
  match m (k_fs s) with Ok (r, f) => Ok (r, set_fs f (k_disk s) s) | Err e => Err e end.

Definition put_char (c : Z) : M (kernel D P) unit := fun s =>
  match Vga.vga_write_char c (k_vga s) (k_ports s) with
  | Ok (v, p) => Ok (tt, set_vga v p s)
  | Err e => Err e
  end.

(** [str[i] = c] through a user pointer. *)
Definition store_byte (a i c : Z) : M (kernel D P) unit := fun s =>
  match wr (mem s a) i c with Ok b => Ok (tt, set_mem a b s) | Err e => Err e end.

(** [g_kernel_fds[i] = x]. *)
Definition store_fd (i x : Z) : M (kernel D P) unit := fun s =>
  match wr (g_kernel_fds s) i x with Ok l => Ok (tt, set_fds l s) | Err e => Err e end.

Definition sys_exit (code : Z) : M (kernel D P) unit := fun s =>
  match Process.process_exit code (now s) (k_proc s) with Ok p => Ok (tt, set_proc p s) | Err e => Err e end.

(** [for (i = 0; i < count && str[i]; i++) vga_write_char(str[i])], with
    [n = count - i] turns left. *)
Fixpoint write_chars (n : nat) (str : list Z) (i : Z) {struct n} : M (kernel D P) unit :=
  match n with
  | O => mret tt
  | S n =>
      c ← liftR (rd str i);
      if c =? 0 then mret tt else put_char c ;; write_chars n str (i + 1)
  end.

(** [g_kernel_fds[fd - FIRST_USER_FD]] if [fd] is a user descriptor whose entry is
    not negative: the test the calls on files share. *)
Definition user_fd (fd : Z) : M (kernel D P) (option Z) := fun s =>
  if (FIRST_USER_FD <=? fd) && (fd <? FIRST_USER_FD + KERNEL_MAX_FILES) then
    match rd (g_kernel_fds s) (fd - FIRST_USER_FD) with
    | Ok real_fd => Ok (if 0 <=? real_fd then Some real_fd else None, s)
    | Err e => Err e
    end
  else Ok (None, s).

Definition sys_write (fd buffer count : Z) : M (kernel D P) Z :=
  if (buffer =? NULL) || (count =? 0) then mret (-1) else
  if (fd =? STDOUT_FD) || (fd =? STDERR_FD) then
    s ← getS;
    write_chars (Z.to_nat count) (mem s buffer) 0 ;;
    mret (i32 count)
  else if fd =? STDIN_FD then mret (-1) else
  r ← user_fd fd;
  match r with
  | Some real_fd => s ← getS; mret (FileSys.fs_write real_fd (mem s buffer) (u16 count))
  | None => mret (-1)
  end.

(** [keyboard_read_char()] on the machine, [polls] turns of its loop. *)
Definition read_char : M (kernel D P) Z := fun s =>
  match Devices.keyboard_read_char polls (k_ports s) with
  | Ok (c, p) => Ok (c, set_vga (k_vga s) p s)
  | Err e => Err e
  end.

(** The loop of [sys_read] on the keyboard; [n = count - i] turns are left. *)
Fixpoint read_keys (n : nat) (buffer i count : Z) {struct n} : M (kernel D P) Z :=
  match n with
  | O => mret (i32 count)
  | S n =>
      c ← read_char;
      if c =? 10 then store_byte buffer i 0 ;; mret (i32 i)
      else store_byte buffer i c ;; read_keys n buffer (i + 1) count
  end.

Definition read_file (real_fd buffer count : Z) : M (kernel D P) Z := fun s =>
  match FileSys.fs_read real_fd (Some (mem s buffer)) count (k_fs s) (k_disk s) with
  | Ok (r, b, f, d) => Ok (r, set_mem buffer (default [] b) (set_fs f d s))
  | Err e => Err e
  end.

Definition sys_read (fd buffer count : Z) : M (kernel D P) Z :=
  if (buffer =? NULL) || (count =? 0) then mret (-1) else
  if fd =? STDIN_FD then read_keys (Z.to_nat count) buffer 0 count else
  r ← user_fd fd;
  match r with
  | Some real_fd => read_file real_fd buffer (u16 count)
  | None => mret (-1)
  end.

(** The search for a free entry. *)
Fixpoint free_fd (n : nat) (fds : list Z) (i : Z) {struct n} : res (option Z) :=
  match n with
  | O => Ok None
  | S n => x ← rd fds i; if x =? -1 then Ok (Some i) else free_fd n fds (i + 1)
  end.

Definition sys_open (filename flags : Z) : M (kernel D P) Z :=
  if filename =? NULL then mret (-1) else
  s ← getS;
  real_fd ← on_fs (FileSys.fs_open (Some (mem s filename)));
  if real_fd <? 0 then mret (-1) else
  s ← getS;
  i ← liftR (free_fd (Z.to_nat KERNEL_MAX_FILES) (g_kernel_fds s) 0);
  match i with
  | Some i =>
      store_fd i real_fd ;;
      mret (FIRST_USER_FD + i)
  | None => on_fs (FileSys.fs_close real_fd) ;; mret (-1)
  end.

Definition sys_close (fd : Z) : M (kernel D P) Z :=
  if (fd =? STDIN_FD) || (fd =? STDOUT_FD) || (fd =? STDERR_FD) then mret 0 else
  r ← user_fd fd;
  match r with
  | Some real_fd =>
      result ← on_fs (FileSys.fs_close real_fd);
      store_fd (fd - FIRST_USER_FD) (-1) ;;
      mret result
  | None => mret (-1)
  end.

Definition sys_getpid : M (kernel D P) Z := fun s =>
  match Process.process_current (k_proc s) with
  | Some cur => match Process.slot (k_proc s) cur with
                | Ok p => Ok (Process.pid p, s) | Err e => Err e end
  | None => Ok (0, s)
  end.

Definition sys_kill (pid signal : Z) : M (kernel D P) Z := fun s =>
  match Process.process_kill pid (now s) (k_proc s) with
  | Ok (r, p) => Ok (r, set_proc p s)
  | Err e => Err e
  end.

Definition sys_pipe (fds : Z) : M (kernel D P) Z := mret (-1).

Definition sys_seek (fd offset : Z) : M (kernel D P) Z :=
  r ← user_fd fd;
  match r with
  | Some real_fd => on_fs (FileSys.fs_seek real_fd offset)
  | None => mret (-1)
  end.

(** The value of [result] at the end of the switch. *)
Definition dispatch (ctx : syscall_context_t) : M (kernel D P) Z :=
  let n := eax ctx in
  if n =? SYS_EXIT then sys_exit (i32 (ebx ctx)) ;; mret (-1)
  else if n =? SYS_WRITE then sys_write (i32 (ebx ctx)) (ecx ctx) (edx ctx)
  else if n =? SYS_READ then sys_read (i32 (ebx ctx)) (ecx ctx) (edx ctx)
  else if n =? SYS_OPEN then sys_open (ebx ctx) (ecx ctx)
  else if n =? SYS_CLOSE then sys_close (i32 (ebx ctx))
  else if n =? SYS_GETPID then r ← sys_getpid; mret (i32 r)
  else if n =? SYS_KILL then sys_kill (ebx ctx) (i32 (ecx ctx))
  else if n =? SYS_PIPE then sys_pipe (ebx ctx)
  else if n =? SYS_SEEK then sys_seek (i32 (ebx ctx)) (ecx ctx)
  else mret (-1).

Definition syscall_handler (ctx : syscall_context_t) : M (kernel D P) syscall_context_t :=
  result ← dispatch ctx;
  mret (set_eax (u32 result) ctx).
End Syscalls.

(** ** The invariant *)

Definition fd_entry (x : Z) : Prop := -1 <= x < 16.

Section Invariant.
Context {D P : Type} `{BlockSafe D} `{Bus P} (stacks : Z).
Implicit Types (s : kernel D P).

Record kernel_wf s : Prop := {
  kw_fs : FileSys.fs_wf (k_fs s);
  kw_disk : blk_ok (k_disk s);
  kw_proc : Process.proc_wf stacks (k_proc s);
  kw_vga : Vga.vga_wf (k_vga s);
  kw_fds : length (g_kernel_fds s) = 16%nat /\ Forall fd_entry (g_kernel_fds s)
}.

Lemma boot_fds_ok : length boot_fds = 16%nat /\ Forall fd_entry boot_fds.
Proof. split; [done|]. repeat constructor; unfold fd_entry; lia. Qed.

Lemma set_fs_wf s f d : kernel_wf s -> FileSys.fs_wf f -> blk_ok d -> kernel_wf (set_fs f d s).
Proof. by intros [] ??; constructor. Qed.
Lemma set_proc_wf s p : kernel_wf s -> Process.proc_wf stacks p -> kernel_wf (set_proc p s).
Proof. by intros [] ?; constructor. Qed.
Lemma set_vga_wf s v p : kernel_wf s -> Vga.vga_wf v -> kernel_wf (set_vga v p s).
Proof. by intros [] ?; constructor. Qed.
Lemma set_mem_wf s a b : kernel_wf s -> kernel_wf (set_mem a b s).
Proof. by intros []; constructor. Qed.
Lemma set_fds_wf s i x : kernel_wf s -> fd_entry x ->
  kernel_wf (set_fds (<[Z.to_nat i := x]> (g_kernel_fds s)) s).
Proof.
  intros [? ? ? ? [Hl Hf]] ?; constructor; try done. cbn. split; [by rewrite length_insert|by apply Forall_insert].
Qed.

(** A call that returns in a well-formed machine. *)
Definition safe {A} (m : M (kernel D P) A) s : Prop := exists r s', m s = Ok (r, s') /\ kernel_wf s'.

Lemma safe_ret {A} (a : A) s : kernel_wf s -> safe (mret a) s.
Proof. by exists a, s. Qed.

Lemma safe_bind {A B} (m : M (kernel D P) A) (f : A -> M (kernel D P) B) s :
  safe m s -> (forall a s', m s = Ok (a, s') -> kernel_wf s' -> safe (f a) s') -> safe (m ≫= f) s.
Proof.
  intros (a & s1 & E & Hw) Hf. destruct (Hf a s1 E Hw) as (b & s2 & E2 & Hw2).
  exists b, s2. split; [|done]. by rewrite (M_bind_run _ _ _ _ _ E).
Qed.

Lemma user_fd_spec s fd : kernel_wf s ->
  user_fd fd s = Ok (None, s) \/
  exists x, user_fd fd s = Ok (Some x, s) /\ 0 <= x < 16 /\ 3 <= fd < 19 /\
    rd (g_kernel_fds s) (fd - 3) = Ok x.
Proof.
  intros [_ _ _ _ [Hl Hf]]. unfold user_fd, FIRST_USER_FD, KERNEL_MAX_FILES.
  destruct ((3 <=? fd) && (fd <? 3 + 16)) eqn:E; [|by left].
  destruct (rd_total (g_kernel_fds s) (fd - 3)) as [x Hx]; [unfold zlen; lia|]. rewrite Hx.
  pose proof (FileSys.rd_Forall _ _ _ _ Hf Hx) as Hr. unfold fd_entry in Hr.
  destruct (Z.leb_spec 0 x); [right|by left]. exists x. split_and!; done || lia.
Qed.

Lemma store_fd_in s i x : length (g_kernel_fds s) = 16%nat -> 0 <= i < 16 ->
  store_fd i x s = Ok (tt, set_fds (<[Z.to_nat i := x]> (g_kernel_fds s)) s).
Proof. intros Hl Hi. unfold store_fd. by rewrite wr_in by (unfold zlen; lia). Qed.

Lemma put_char_safe c s : kernel_wf s -> safe (put_char c) s.
Proof.
  intros Hw. destruct (Vga.write_char_spec c (k_vga s) (k_ports s) (kw_vga _ Hw)) as (v & E & Hv & _).
  eexists tt, _. unfold put_char. rewrite E. split; [done|]. by apply set_vga_wf.
Qed.

Lemma write_chars_safe n : forall str i s, kernel_wf s -> 0 <= i -> i + Z.of_nat n <= zlen str ->
  safe (write_chars n str i) s.
Proof.
  induction n as [|n IH]; intros str i s Hw Hi Hn; cbn [write_chars]; [by apply safe_ret|].
  destruct (rd_total str i) as [c Hc]; [lia|]. rewrite Hc.
  apply safe_bind; [by apply safe_ret|]. intros c' s1 [= <- <-] _.
  destruct (c =? 0); [by apply safe_ret|].
  apply safe_bind; [by apply put_char_safe|]. intros _ s1 _ Hw1. apply IH; done || lia.
Qed.

Lemma on_fs_safe s (m : FileSys.fs -> res (Z * FileSys.fs)) : kernel_wf s ->
  (exists r f, m (k_fs s) = Ok (r, f) /\ FileSys.fs_wf f) -> safe (on_fs m) s.
Proof.
  intros Hw (r & f & E & Hf). exists r, (set_fs f (k_disk s) s). unfold on_fs. rewrite E. split; [done|].
  apply set_fs_wf; [done|done|apply Hw].
Qed.

(** What the caller must have prepared: buffers of the size given, a C string as
    a name, an offset the seek arithmetic can hold, and no read from the keyboard,
    which waits for its user. *)
Definition call_ok (ctx : syscall_context_t) s : Prop :=
  is_u32 (ebx ctx) /\ is_u32 (ecx ctx) /\ is_u32 (edx ctx) /\
  (eax ctx = SYS_WRITE \/ eax ctx = SYS_READ -> edx ctx <= zlen (mem s (ecx ctx))) /\
  (eax ctx = SYS_READ -> ebx ctx <> 0) /\
  (eax ctx = SYS_OPEN -> ebx ctx <> NULL -> FileSys.is_cstr (mem s (ebx ctx))) /\
  (eax ctx = SYS_SEEK -> ecx ctx <= 2 ^ 32 - 512).

Lemma free_fd_spec suf : forall pre, exists o, free_fd (length suf) (pre ++ suf) (zlen pre) = Ok o /\
  match o with
  | Some i => exists n, i = zlen pre + Z.of_nat n /\ suf !! n = Some (-1) /\ Forall (fun x => x <> -1) (take n suf)
  | None => Forall (fun x => x <> -1) suf
  end.
Proof.
  induction suf as [|x suf IH]; intros pre; cbn [free_fd length]; [by exists None|].
  rewrite rd_mid, bind_ret. destruct (Z.eqb_spec x (-1)) as [->|Hx].
  - exists (Some (zlen pre)). split; [done|]. exists 0%nat. split_and!; [lia|done|constructor].
  - destruct (IH (pre ++ [x])) as (o & E & Ho). rewrite <- app_assoc, zlen_app in E.
    change (zlen [x]) with 1 in E. exists o. split; [done|]. destruct o as [i|].
    + destruct Ho as (n & -> & Hn & Hf). exists (S n). rewrite zlen_app. change (zlen [x]) with 1.
      split_and!; [lia|done|]. cbn [firstn]. by constructor.
    + by constructor.
Qed.

Lemma free_fd_found fds : length fds = 16%nat -> exists o, free_fd (Z.to_nat KERNEL_MAX_FILES) fds 0 = Ok o /\
  match o with
  | Some i => 0 <= i < 16 /\ fds !! Z.to_nat i = Some (-1) /\ Forall (fun x => x <> -1) (take (Z.to_nat i) fds)
  | None => Forall (fun x => x <> -1) fds
  end.
Proof.
  intros Hl. destruct (free_fd_spec fds []) as (o & E & Ho). rewrite Hl in E. exists o. split; [done|].
  destruct o as [i|]; [|done]. destruct Ho as (n & -> & Hn & Hf). change (zlen []) with 0.
  replace (Z.to_nat (0 + Z.of_nat n)) with n by lia. split_and!; try done; [|].
  - lia.
  - apply lookup_lt_Some in Hn. lia.
Qed.

(** [sys_open] with a name: what the file system answers, and where it is kept. *)
Lemma open_run s filename flags : kernel_wf s -> filename <> NULL -> FileSys.is_cstr (mem s filename) ->
  exists fd f, FileSys.fs_open (Some (mem s filename)) (k_fs s) = Ok (fd, f) /\ FileSys.fs_wf f /\ -1 <= fd < 16 /\
    let s1 := set_fs f (k_disk s) s in
    if fd <? 0 then sys_open filename flags s = Ok (-1, s1) else
    exists o, free_fd (Z.to_nat KERNEL_MAX_FILES) (g_kernel_fds s) 0 = Ok o /\
    match o with
    | Some i => 0 <= i < 16 /\ g_kernel_fds s !! Z.to_nat i = Some (-1) /\
        Forall (fun x => x <> -1) (take (Z.to_nat i) (g_kernel_fds s)) /\
        sys_open filename flags s = Ok (3 + i, set_fds (<[Z.to_nat i := fd]> (g_kernel_fds s)) s1)
    | None => Forall (fun x => x <> -1) (g_kernel_fds s) /\
        exists r f', FileSys.fs_close fd f = Ok (r, f') /\ FileSys.fs_wf f' /\
          sys_open filename flags s = Ok (-1, set_fs f' (k_disk s) s)
    end.
Proof.
  intros Hw Hne Hstr. destruct (FileSys.open_wf _ _ (kw_fs _ Hw) Hstr) as (fd & f & E & Hf & Hr).
  exists fd, f. split_and!; try done; try lia. cbv zeta.
  pose proof (kw_fds _ Hw) as [Hl _].
  unfold sys_open. rewrite (proj2 (Z.eqb_neq _ _) Hne).
  rewrite (M_bind_run getS _ s s s) by done.
  rewrite (M_bind_run (on_fs _) _ s fd (set_fs f (k_disk s) s)) by (unfold on_fs; by rewrite E).
  destruct (Z.ltb_spec fd 0) as [|Hpos]; [done|].
  set (s1 := set_fs f (k_disk s) s). rewrite (M_bind_run getS _ s1 s1 s1) by done.
  change (g_kernel_fds s1) with (g_kernel_fds s).
  destruct (free_fd_found _ Hl) as (o & Eo & Hspec). exists o. split; [done|].
  rewrite (M_bind_run (liftR _) _ s1 o s1) by (unfold liftR; by rewrite Eo).
  destruct o as [i|].
  - destruct Hspec as (Hi & Hat & Hfree). split_and!; try done; try lia.
    rewrite (M_bind_run (store_fd i fd) _ s1 tt (set_fds (<[Z.to_nat i := fd]> (g_kernel_fds s)) s1));
      [done|]. by apply (store_fd_in s1).
  - split; [done|]. destruct (FileSys.close_spec f fd Hf ltac:(unfold is_i32; lia)) as (r & f' & Ec & Hf').
    exists r, f'. split_and!; try done.
    rewrite (M_bind_run (on_fs _) _ s1 r (set_fs f' (k_disk s1) s1)); [done|].
    unfold on_fs. change (k_fs s1) with f. by rewrite Ec.
Qed.

Lemma open_safe s filename flags : kernel_wf s ->
  (filename <> NULL -> FileSys.is_cstr (mem s filename)) -> safe (sys_open filename flags) s.
Proof.
  intros Hw Hstr. destruct (Z.eq_dec filename NULL) as [->|Hne].
  { unfold sys_open. rewrite Z.eqb_refl. by apply safe_ret. }
  destruct (open_run s filename flags Hw Hne (Hstr Hne)) as (fd & f & E & Hf & Hr & Hrun). cbv zeta in Hrun.
  pose proof (set_fs_wf s f (k_disk s) Hw Hf (kw_disk _ Hw)) as Hw1.
  destruct (Z.ltb_spec fd 0); [by eexists _, _|]. destruct Hrun as ([i|] & _ & Ho).
  - destruct Ho as (Hi & _ & _ & Erun). eexists _, _. split; [exact Erun|].
    apply (set_fds_wf (set_fs f (k_disk s) s) i fd Hw1). unfold fd_entry. lia.
  - destruct Ho as (_ & r & f' & _ & Hf' & Erun). eexists _, _. split; [exact Erun|].
    apply set_fs_wf; [done|done|apply Hw].
Qed.

Lemma close_safe s fd : kernel_wf s -> safe (sys_close fd) s.
Proof.
  intros Hw. unfold sys_close. destruct (_ || _ || _); [by apply safe_ret|].
  destruct (user_fd_spec s fd Hw) as [E|(x & E & Hx & Hfd & Hrd)];
    unfold safe; rewrite (M_bind_run _ _ _ _ _ E); [by apply safe_ret|].
  apply safe_bind.
  - apply on_fs_safe; [done|]. apply FileSys.close_spec; [apply Hw|unfold is_i32; lia].
  - intros r s1 _ Hw1. pose proof (kw_fds _ Hw1) as [Hl _]. unfold FIRST_USER_FD.
    apply safe_bind; [|intros; by apply safe_ret].
    eexists tt, _. split; [apply store_fd_in; [done|lia]|].
    apply set_fds_wf; [done|]. unfold fd_entry. lia.
Qed.

Lemma seek_safe s fd offset : kernel_wf s -> 0 <= offset <= 2 ^ 32 - 512 -> safe (sys_seek fd offset) s.
Proof.
  intros Hw Ho. unfold sys_seek.
  destruct (user_fd_spec s fd Hw) as [E|(x & E & Hx & Hfd & Hrd)];
    unfold safe; rewrite (M_bind_run _ _ _ _ _ E); [by apply safe_ret|].
  apply on_fs_safe; [done|]. apply FileSys.seek_wf; [apply Hw|unfold is_i32; lia|done].
Qed.

Lemma read_file_safe s fd a n : kernel_wf s -> is_i32 fd -> is_u16 n -> n <= zlen (mem s a) ->
  safe (read_file fd a n) s.
Proof.
  intros Hw Hfd Hn Hl. unfold safe, read_file.
  destruct (FileSys.read_wf fd (mem s a) n (k_fs s) (k_disk s)) as (r & b & f & d & E & Hf & Hd & _);
    try done; [apply Hw..|].
  rewrite E. eexists _, _. split; [reflexivity|]. by apply set_mem_wf, set_fs_wf.
Qed.

Lemma write_safe s fd a n : kernel_wf s -> 0 <= n <= zlen (mem s a) -> safe (sys_write fd a n) s.
Proof.
  intros Hw Hn. unfold sys_write. destruct (_ || _); [by apply safe_ret|].
  destruct (_ || _).
  - apply safe_bind; [by eexists _, _|]. intros s0 s1 [= <- <-] _.
    apply safe_bind; [|intros; by apply safe_ret]. apply write_chars_safe; done || lia.
  - destruct (_ =? _); [by apply safe_ret|].
    destruct (user_fd_spec s fd Hw) as [E|(x & E & _)]; unfold safe; rewrite (M_bind_run _ _ _ _ _ E);
      [by apply safe_ret|by eexists _, _].
Qed.

Lemma read_safe_file s polls fd a n : kernel_wf s -> fd <> 0 -> 0 <= n <= zlen (mem s a) ->
  safe (sys_read polls fd a n) s.
Proof.
  intros Hw Hne Hn. unfold sys_read, STDIN_FD. destruct (_ || _); [by apply safe_ret|].
  rewrite (proj2 (Z.eqb_neq _ _) Hne).
  destruct (user_fd_spec s fd Hw) as [E|(x & E & Hx & _)]; unfold safe; rewrite (M_bind_run _ _ _ _ _ E);
    [by apply safe_ret|].
  apply read_file_safe; [done|unfold is_i32; lia|apply u16_range|].
  unfold u16. pose proof (Z.mod_le n (2 ^ 16)). lia.
Qed.

Lemma getpid_spec s : kernel_wf s -> sys_getpid s = Ok (Process.g_current_pid (k_proc s), s).
Proof.
  intros Hw. destruct (kw_proc _ Hw) as [Hwf (p & Hp & Hst)]. unfold sys_getpid.
  rewrite (Process.current_spec stacks) by done. rewrite (proj2 (Process.slot_Ok _ _ _) Hp).
  destruct (Process.so_used _ _ _ (Process.wf_slots _ _ Hwf _ _ Hp)) as (-> & _); [by rewrite Hst|done].
Qed.

Lemma i32_nonzero x : is_u32 x -> x <> 0 -> i32 x <> 0.
Proof. unfold is_u32, i32. intros Hx Hne He. Z.to_euclidean_division_equations. lia. Qed.

Lemma i32_range x : is_i32 (i32 x).
Proof. unfold is_i32, i32. pose proof (Z.mod_pos_bound (x + 2 ^ 31) (2 ^ 32)). lia. Qed.

Lemma dispatch_safe s polls ctx : kernel_wf s -> call_ok ctx s -> safe (dispatch polls ctx) s.
Proof.
  intros Hw (Hb & Hc & Hd & Hbuf & Hstd & Hname & Hoff). unfold is_u32 in Hb, Hc, Hd. unfold dispatch.
  destruct (Z.eqb_spec (eax ctx) SYS_EXIT).
  { apply safe_bind; [|intros; by apply safe_ret]. unfold safe, sys_exit.
    destruct (Process.exit_wf stacks (k_proc s) (i32 (ebx ctx)) (now s) (kw_proc _ Hw)) as (p & -> & Hp).
    eexists _, _. split; [reflexivity|]. by apply set_proc_wf. }
  destruct (Z.eqb_spec (eax ctx) SYS_WRITE) as [E|].
  { apply write_safe; [done|]. split; [lia|]. apply Hbuf. by left. }
  destruct (Z.eqb_spec (eax ctx) SYS_READ) as [E|].
  { apply read_safe_file; [done|apply i32_nonzero; [done|by apply Hstd]|]. split; [lia|]. apply Hbuf. by right. }
  destruct (Z.eqb_spec (eax ctx) SYS_OPEN) as [E|]; [by apply open_safe; [|apply Hname]|].
  destruct (_ =? SYS_CLOSE); [by apply close_safe|].
  destruct (_ =? SYS_GETPID).
  { apply safe_bind; [|intros; by apply safe_ret]. eexists _, _. split; [by apply getpid_spec|done]. }
  destruct (_ =? SYS_KILL).
  { unfold safe, sys_kill. destruct (Process.kill_wf stacks (k_proc s) (ebx ctx) (now s) (kw_proc _ Hw))
      as (r & p & -> & Hp); [lia|]. eexists _, _. split; [reflexivity|]. by apply set_proc_wf. }
  destruct (_ =? SYS_PIPE); [by apply safe_ret|].
  destruct (Z.eqb_spec (eax ctx) SYS_SEEK) as [E|]; [|by apply safe_ret].
  apply seek_safe; [done|]. split; [lia|by apply Hoff].
Qed.

(** A descriptor whose entry is set goes to the file system. *)
Lemma user_fd_at s i x : length (g_kernel_fds s) = 16%nat -> 0 <= i < 16 -> 0 <= x ->
  g_kernel_fds s !! Z.to_nat i = Some x -> user_fd (3 + i) s = Ok (Some x, s).
Proof.
  intros Hl Hi Hx Hat. unfold user_fd, FIRST_USER_FD, KERNEL_MAX_FILES.
  rewrite (proj2 (Z.leb_le _ _)), (proj2 (Z.ltb_lt _ _)) by lia. cbn [andb].
  replace (3 + i - 3) with i by lia. rewrite (proj2 (rd_Ok _ _ x)); [|apply zget_Some; split; [lia|done]].
  by rewrite (proj2 (Z.leb_le _ _)).
Qed.

Lemma read_through s polls i x a n : length (g_kernel_fds s) = 16%nat -> 0 <= i < 16 -> 0 <= x ->
  g_kernel_fds s !! Z.to_nat i = Some x -> a <> NULL -> n <> 0 ->
  sys_read polls (3 + i) a n s = read_file x a (u16 n) s.
Proof.
  intros Hl Hi Hx Hat Ha Hn. unfold sys_read, STDIN_FD.
  rewrite (proj2 (Z.eqb_neq _ _) Ha), (proj2 (Z.eqb_neq _ _) Hn), (proj2 (Z.eqb_neq (3 + i) 0)) by lia.
  cbn [orb]. by rewrite (M_bind_run _ _ _ _ _ (user_fd_at s i x Hl Hi Hx Hat)).
Qed.

Lemma seek_through s i x o : length (g_kernel_fds s) = 16%nat -> 0 <= i < 16 -> 0 <= x ->
  g_kernel_fds s !! Z.to_nat i = Some x -> sys_seek (3 + i) o s = on_fs (FileSys.fs_seek x o) s.
Proof.
  intros Hl Hi Hx Hat. unfold sys_seek. by rewrite (M_bind_run _ _ _ _ _ (user_fd_at s i x Hl Hi Hx Hat)).
Qed.

Lemma close_through s i x r f : length (g_kernel_fds s) = 16%nat -> 0 <= i < 16 -> 0 <= x ->
  g_kernel_fds s !! Z.to_nat i = Some x -> FileSys.fs_close x (k_fs s) = Ok (r, f) ->
  sys_close (3 + i) s = Ok (r, set_fds (<[Z.to_nat i := -1]> (g_kernel_fds s)) (set_fs f (k_disk s) s)).
Proof.
  intros Hl Hi Hx Hat Hc. unfold sys_close, STDIN_FD, STDOUT_FD, STDERR_FD, FIRST_USER_FD.
  rewrite !(proj2 (Z.eqb_neq (3 + i) _)) by lia. cbn [orb].
  rewrite (M_bind_run _ _ _ _ _ (user_fd_at s i x Hl Hi Hx Hat)).
  rewrite (M_bind_run _ _ s r (set_fs f (k_disk s) s)) by (unfold on_fs; by rewrite Hc).
  replace (3 + i - 3) with i by lia.
  by rewrite (M_bind_run _ _ _ _ _ (store_fd_in (set_fs f (k_disk s) s) i (-1) Hl Hi)).
Qed.
End Invariant.

(** ** Lines from the keyboard *)

Section Stdin.
Context {D P : Type} `{BlockDev D} `{Devices.Keyboard P}.
Implicit Types (s : kernel D P).

Lemma read_char_key polls s l k ks : kbd (k_ports s) l -> Devices.typed l = k :: ks -> (length l < polls)%nat ->
  exists p' l', read_char polls s = Ok (k, set_vga (k_vga s) p' s) /\ kbd p' l' /\ Devices.typed l' = ks /\
    (length l' < length l)%nat.
Proof.
  intros Hk Ht Hp. destruct (Devices.read_char_spec l polls (k_ports s) k ks Hk Ht Hp) as (p' & l' & E & ? & ? & ?).
  exists p', l'. unfold read_char. by rewrite E.
Qed.

Lemma store_byte_in s a i c : 0 <= i < zlen (mem s a) ->
  store_byte a i c s = Ok (tt, set_mem a (splice (mem s a) i [c]) s).
Proof. intros Hi. unfold store_byte. by rewrite wr_splice1. Qed.

Lemma mem_set s a b : mem (set_mem a b s) a = b.
Proof. cbn. by rewrite Z.eqb_refl. Qed.

Lemma read_keys_spec polls a count line : forall n s i l rest,
  kbd (k_ports s) l -> Devices.typed l = line ++ 10 :: rest -> (length l < polls)%nat ->
  Forall (fun c => c <> 10) line -> (length line < n)%nat -> 0 <= i -> i + zlen line < zlen (mem s a) ->
  i + zlen line < 2 ^ 31 ->
  exists s' l', read_keys polls n a i count s = Ok (i + zlen line, s') /\ kbd (k_ports s') l' /\
    Devices.typed l' = rest /\ mem s' a = splice (mem s a) i (line ++ [0]).
Proof.
  induction line as [|c line IH]; intros n s i l rest Hk Ht Hp Hn Hlen Hi Hroom Hbound;
    (destruct n as [|n]; [cbn in Hlen; lia|]); cbn [read_keys]; cbn [app] in Ht.
  - change (zlen []) with 0 in *. rewrite Z.add_0_r in *.
    destruct (read_char_key polls s l 10 rest Hk Ht Hp) as (p' & l' & E & Hk' & Ht' & _).
    rewrite (M_bind_run _ _ _ _ _ E). change (10 =? 10) with true. cbv iota.
    set (s1 := set_vga (k_vga s) p' s). rewrite (M_bind_run _ _ _ _ _ (store_byte_in s1 a i 0 (conj Hi Hroom))).
    eexists _, l'. split; [unfold mret, M_ret; rewrite i32_id by (unfold is_i32; lia); reflexivity|].
    split_and!; [done|done|]. by rewrite mem_set.
  - apply Forall_cons in Hn as [Hc Hn].
    assert (Hz : zlen (c :: line) = 1 + zlen line) by (unfold zlen; cbn [length]; lia). rewrite Hz in *.
    pose proof (zlen_nonneg line).
    destruct (read_char_key polls s l c (line ++ 10 :: rest) Hk Ht Hp) as (p' & l' & E & Hk' & Ht' & Hl').
    rewrite (M_bind_run _ _ _ _ _ E), (proj2 (Z.eqb_neq _ _) Hc).
    set (s1 := set_vga (k_vga s) p' s).
    assert (Hin : 0 <= i < zlen (mem s1 a)) by (change (mem s1 a) with (mem s a); lia).
    rewrite (M_bind_run _ _ _ _ _ (store_byte_in s1 a i c Hin)).
    set (s2 := set_mem a (splice (mem s1 a) i [c]) s1).
    assert (Hm : mem s2 a = splice (mem s a) i [c]) by apply mem_set.
    assert (Hone : zlen [c] = 1) by done.
    destruct (IH n s2 (i + 1) l' rest Hk' Ht' ltac:(lia) Hn) as (s' & l'' & E' & Hk'' & Ht'' & Hm'').
    + cbn [length] in Hlen. lia.
    + lia.
    + rewrite Hm, zlen_splice by lia. lia.
    + lia.
    + exists s', l''. rewrite E'. split_and!; [do 2 f_equal; lia|done|done|].
      rewrite Hm'', Hm. replace (i + 1) with (i + zlen [c]) by lia.
      rewrite splice_splice; [done|done|]. rewrite zlen_app, Hone. change (zlen [0]) with 1. lia.
Qed.
End Stdin.

(** ** Properties *)

(** C14.  In a well-formed machine every system call with prepared arguments returns,
    whatever its number: the file system, the process table, the console and the
    table of descriptors stay well formed, and of the caller's registers only
    [eax] changes.  Reading from the keyboard is the one call left out. *)
Theorem syscalls_safe {D P} `{BlockSafe D} `{Bus P} stacks polls ctx (s : kernel D P) :
  kernel_wf stacks s -> call_ok ctx s ->
  exists x s', syscall_handler polls ctx s = Ok (set_eax x ctx, s') /\ is_u32 x /\ kernel_wf stacks s'.
Proof.
  intros Hw Hc. destruct (dispatch_safe stacks s polls ctx Hw Hc) as (r & s' & E & Hw').
  exists (u32 r), s'. split; [|split; [apply u32_range|done]].
  unfold syscall_handler. by rewrite (M_bind_run _ _ _ _ _ E).
Qed.

(** A machine with the file A.TXT of [FileSys], at the moment the table of
    descriptors is as the program's image has it. *)
Definition ex_kernel {P} (p : P) (fds : list Z) : kernel ram P :=
  Kernel FileSys.ex_ready FileSys.ex_disk Process.ex_state Vga.ex_vga p 0 fds
    (fun a => if a =? 0x1000 then FileSys.ex_name else replicate 64 0).

Lemma ex_kernel_wf {P} `{Bus P} (p : P) fds : length fds = 16%nat /\ Forall fd_entry fds ->
  kernel_wf 0x8000 (ex_kernel p fds).
Proof.
  intros Hf. constructor; [apply FileSys.ex_ready_wf|done|apply Process.ex_state_wf|apply Vga.ex_vga_wf|done].
Qed.

Definition ex_call (n b c d : Z) : syscall_context_t := Ctx n b c d 0 0 0 0 0 0 0 0.

Lemma ex_name_cstr : FileSys.is_cstr FileSys.ex_name.
Proof. eexists [65; 46; 84; 88; 84], []. split; [reflexivity|]. apply (bool_decide_unpack _). vm_compute. exact I. Qed.

Lemma syscalls_safe_witness :
  exists x s', @syscall_handler ram unit _ Vga.ex_bus 9 (ex_call SYS_OPEN 0x1000 0 0) (ex_kernel tt boot_fds) =
    Ok (set_eax x (ex_call SYS_OPEN 0x1000 0 0), s') /\ is_u32 x /\ kernel_wf 0x8000 s'.
Proof.
  apply (@syscalls_safe ram unit _ _ Vga.ex_bus 0x8000 9 (ex_call SYS_OPEN 0x1000 0 0)).
  - apply (@ex_kernel_wf unit Vga.ex_bus), boot_fds_ok.
  - unfold call_ok, ex_call; cbn [eax ebx ecx edx]. split_and!; try (by vm_compute); try (intros E; vm_compute in E; lia).
    intros _ _. exact ex_name_cstr.
Defined.

(** C15.  A successful [sys_open] stores the descriptor of the file system in the first free
    entry of the table and returns 3 plus its index; reads and seeks on that
    number go to that file, and closing it succeeds and gives the table back as
    it was. *)
Theorem open_gives_descriptor {D P} `{BlockSafe D} `{Bus P} stacks filename fl fd (s s1 : kernel D P) :
  kernel_wf stacks s -> filename <> NULL -> FileSys.is_cstr (mem s filename) ->
  sys_open filename fl s = Ok (fd, s1) -> fd <> -1 ->
  exists i real f, fd = 3 + i /\ 0 <= i < 16 /\ g_kernel_fds s !! Z.to_nat i = Some (-1) /\
    Forall (fun x => x <> -1) (take (Z.to_nat i) (g_kernel_fds s)) /\
    FileSys.fs_open (Some (mem s filename)) (k_fs s) = Ok (real, f) /\ k_fs s1 = f /\
    (forall polls a n, a <> NULL -> n <> 0 -> sys_read polls fd a n s1 = read_file real a (u16 n) s1) /\
    (forall o, sys_seek fd o s1 = on_fs (FileSys.fs_seek real o) s1) /\
    exists s2, sys_close fd s1 = Ok (0, s2) /\ g_kernel_fds s2 = g_kernel_fds s.
Proof.
  intros Hw Hne Hstr E Hfd.
  destruct (open_run stacks s filename fl Hw Hne Hstr) as (real & f & Eo & Hf & Hr & Hrun). cbv zeta in Hrun.
  destruct (Z.ltb_spec real 0) as [|Hpos]; [rewrite Hrun in E; injection E as <- _; done|].
  destruct Hrun as ([i|] & _ & Ho); [|destruct Ho as (_ & ? & ? & _ & _ & E'); rewrite E' in E; injection E as <- _; done].
  destruct Ho as (Hi & Hat & Hfree & E'). rewrite E' in E. injection E as <- <-.
  set (s1 := set_fds _ _). pose proof (kw_fds _ _ Hw) as [Hl _].
  assert (Hl1 : length (g_kernel_fds s1) = 16%nat) by (cbn; by rewrite length_insert).
  assert (Hat1 : g_kernel_fds s1 !! Z.to_nat i = Some real) by (cbn; apply list_lookup_insert_eq; lia).
  exists i, real, f. split_and!; try done; try lia.
  - intros. by apply read_through.
  - intros. by apply seek_through.
  - destruct (FileSys.open_close _ _ _ _ (kw_fs _ _ Hw) Hstr Eo Hpos) as (f2 & Ec).
    eexists. split; [by apply (close_through s1 i real 0 f2)|]. cbn.
    rewrite list_insert_insert_eq. by apply list_insert_id.
Qed.

Lemma open_gives_descriptor_witness :
  exists s1 s2, @sys_open ram unit 0x1000 0 (ex_kernel tt (replicate 16 (-1))) = Ok (3, s1) /\
    @sys_close ram unit 3 s1 = Ok (0, s2) /\ g_kernel_fds s2 = replicate 16 (-1).
Proof.
  destruct (@sys_open ram unit 0x1000 0 (ex_kernel tt (replicate 16 (-1)))) as [[r s1]|e] eqn:E;
    [|vm_compute in E; discriminate].
  assert (Hr : r = 3).
  { apply (f_equal (fun x => match x with Ok (r, _) => r | Err _ => 0 end)) in E. vm_compute in E. by symmetry. }
  subst r.
  destruct (@open_gives_descriptor ram unit _ _ Vga.ex_bus 0x8000 0x1000 0 3 (ex_kernel tt (replicate 16 (-1))) s1)
    as (i & real & f & _ & _ & _ & _ & _ & _ & _ & _ & s2 & Ec & Hs).
  - apply (@ex_kernel_wf unit Vga.ex_bus). split; [done|]. repeat constructor; unfold fd_entry; lia.
  - done.
  - exact ex_name_cstr.
  - exact E.
  - done.
  - exists s1, s2. split_and!; [reflexivity|exact Ec|exact Hs].
Defined.

(** The initialiser of the table sets its first entry only.  So before anything is
    opened, the numbers 4 to 18 read from descriptor 0 of the file system; the
    first successful [sys_open] takes the only free entry, and after it every
    [sys_open] fails. *)
Lemma fd_table_not_initialised {D P} `{BlockSafe D} `{Bus P} stacks (s : kernel D P) :
  kernel_wf stacks s -> g_kernel_fds s = boot_fds ->
  (forall polls fd a n, 4 <= fd < 19 -> a <> NULL -> n <> 0 -> sys_read polls fd a n s = read_file 0 a (u16 n) s) /\
  (forall filename fl fd s1, filename <> NULL -> FileSys.is_cstr (mem s filename) ->
     sys_open filename fl s = Ok (fd, s1) -> fd <> -1 -> fd = 3 /\
     forall filename' fl', filename' <> NULL -> FileSys.is_cstr (mem s1 filename') ->
       exists s2, sys_open filename' fl' s1 = Ok (-1, s2)).
Proof.
  intros Hw Hb. split.
  - intros polls fd a n Hfd Ha Hn. replace fd with (3 + (fd - 3)) by lia. apply read_through; try done; try lia.
    + by rewrite Hb.
    + rewrite Hb. unfold boot_fds. replace (Z.to_nat (fd - 3)) with (S (Z.to_nat (fd - 4))) by lia.
      cbn [lookup list_lookup]. apply lookup_replicate_2. lia.
  - intros filename fl fd s1 Hne Hstr E Hfd.
    destruct (open_run stacks s filename fl Hw Hne Hstr) as (real & f & Eo & Hf & Hr & Hrun). cbv zeta in Hrun.
    destruct (Z.ltb_spec real 0) as [|Hpos]; [rewrite Hrun in E; injection E as <- _; done|].
    destruct Hrun as (o & Efree & Ho). rewrite Hb in Efree. change (Ok (Some 0) = Ok o) in Efree. injection Efree as <-.
    destruct Ho as (_ & _ & _ & E'). rewrite E' in E. injection E as <- <-. split; [lia|].
    intros filename' fl' Hne' Hstr'. set (s1 := set_fds _ _) in *.
    assert (Hw1 : kernel_wf stacks s1).
    { apply (set_fds_wf stacks (set_fs f (k_disk s) s) 0 real); [|unfold fd_entry; lia].
      apply set_fs_wf; [done|done|apply Hw]. }
    assert (Hfds : g_kernel_fds s1 = real :: replicate 15 0) by (cbn; by rewrite Hb).
    destruct (open_run stacks s1 filename' fl' Hw1 Hne' Hstr') as (real' & f' & _ & _ & _ & Hrun'). cbv zeta in Hrun'.
    destruct (Z.ltb_spec real' 0); [by eexists|]. destruct Hrun' as ([i|] & _ & Ho').
    + exfalso. destruct Ho' as (Hi & Hat & _). rewrite Hfds in Hat.
      apply (list_elem_of_lookup_2 _ _ _) in Hat. apply elem_of_cons in Hat as [Heq|Hat]; [lia|].
      by apply elem_of_replicate in Hat as [? _].
    + destruct Ho' as (_ & r & f2 & _ & _ & E2). by eexists.
Qed.

Lemma fd_table_not_initialised_witness :
  @sys_read ram unit _ Vga.ex_bus 9 7 0x2000 10 (ex_kernel tt boot_fds) =
    read_file 0 0x2000 10 (ex_kernel tt boot_fds).
Proof.
  destruct (@fd_table_not_initialised ram unit _ _ Vga.ex_bus 0x8000 (ex_kernel tt boot_fds)) as [Hr _].
  - apply (@ex_kernel_wf unit Vga.ex_bus), boot_fds_ok.
  - reflexivity.
  - apply Hr; done || lia.
Defined.

(** C30.  Reading from descriptor 0 with a line on the keyboard that is shorter than the
    buffer returns the length of the line and leaves it in the buffer, terminated,
    with the rest of the buffer as it was and what was typed after it still
    waiting. *)
Theorem stdin_reads_line {D P} `{BlockDev D} `{Devices.Keyboard P} polls a count (s : kernel D P) l line rest :
  kbd (k_ports s) l -> Devices.typed l = line ++ 10 :: rest -> Forall (fun c => c <> 10) line ->
  (length l < polls)%nat -> a <> NULL -> is_u32 count -> count <= zlen (mem s a) ->
  zlen line < count -> zlen line < 2 ^ 31 ->
  exists s' l', sys_read polls STDIN_FD a count s = Ok (zlen line, s') /\ kbd (k_ports s') l' /\
    Devices.typed l' = rest /\ mem s' a = splice (mem s a) 0 (line ++ [0]).
Proof.
  intros Hk Ht Hline Hp Ha Hc Hroom Hlen Hb. pose proof (zlen_nonneg line).
  destruct (read_keys_spec polls a count line (Z.to_nat count) s 0 l rest) as (s' & l' & E & Hrest);
    try done; try lia; [unfold zlen in *; lia|].
  exists s', l'. split; [|done]. unfold sys_read. rewrite (proj2 (Z.eqb_neq _ _) Ha), (proj2 (Z.eqb_neq count 0)) by lia.
  cbn [orb]. change (STDIN_FD =? STDIN_FD) with true. cbv iota. rewrite E. done.
Qed.

(** The keys h, i, Enter and x, with their releases, into 64 bytes. *)
Lemma stdin_reads_line_witness :
  let codes := [0x23; 0xA3; 0x17; 0x97; 0x1C; 0x9C; 0x2D] in
  exists s' l', @sys_read ram (list Z) _ Devices.key_bus 8 STDIN_FD 0x2000 64 (ex_kernel codes boot_fds) = Ok (2, s') /\
    @kbd _ Devices.key_bus Devices.key_keyboard (k_ports s') l' /\ Devices.typed l' = [120] /\
    mem s' 0x2000 = splice (replicate 64 0) 0 [104; 105; 0].
Proof.
  apply (@stdin_reads_line ram (list Z) _ Devices.key_bus Devices.key_keyboard 8 0x2000 64
    (ex_kernel [0x23; 0xA3; 0x17; 0x97; 0x1C; 0x9C; 0x2D] boot_fds) [0x23; 0xA3; 0x17; 0x97; 0x1C; 0x9C; 0x2D]
    [104; 105] [120]).
  - split; [done|]. apply (bool_decide_unpack _). vm_compute. exact I.
  - reflexivity.
  - repeat constructor; lia.
  - cbn. lia.
  - done.
  - by vm_compute.
  - by vm_compute.
  - done.
  - done.
Defined.
