(* ===== verification/Http.v ===== *)
(** * HTTP: the server and the client *)
(** [src/net/http.c] and [src/net/http_client.c]: the server's life cycle and the
    response it builds, the client's request, its parser of dotted addresses and
    its parser of responses.  Local arrays are arguments where the code leaves
    them uninitialised. *)

From Stdlib Require Import String.
From stdpp Require Import gmap.
From S2P Require Import Prelude Memory CString Net Socket.

Definition HTTP_PORT : Z := 80.
Definition HTTP_MAX_CLIENTS : Z := 4.
Definition HTTP_200_OK : Z := 200.
Definition HTTP_400_BAD_REQUEST : Z := 400.
Definition HTTP_404_NOT_FOUND : Z := 404.
Definition HTTP_500_INTERNAL_SERVER_ERROR : Z := 500.
Definition HTTP_CLIENT_BUFFER_SIZE : Z := 2048.

(** ** The server *)

(** The fields [method], [path] and [buffer] are never used. *)
Record http_client_t := HttpClient { client_ip : Z; client_port : Z; buffer_len : Z; active : Z }.

Record http_server_t := HttpServer {
  server_socket : Z;
  running : Z;
  clients : list http_client_t;      (* clients[4] *)
  requests_served : Z
}.

Record http_state := HttpState { http_server : http_server_t; h_sock : sock_state }.

Definition on_sock {A} : M sock_state A -> M http_state A :=
  zoom h_sock (fun k s => HttpState (http_server s) k).

Definition print (t : list Z) : M http_state unit := on_sock (on_net (emit (Printed t))).
Definition say (t : string) : M http_state unit := print (chars t ++ [10]).

Definition set_server (f : http_server_t -> http_server_t) : M http_state unit := fun s =>
  Ok (tt, HttpState (f (http_server s)) (h_sock s)).

Definition no_client : http_client_t := HttpClient 0 0 0 0.

Definition http_server_init : M http_state unit :=
  set_server (fun _ => HttpServer (-1) 0 (replicate 4 no_client) 0).

Definition http_server_start : M http_state unit :=
  st ← getS;
  if negb (running (http_server st) =? 0) then say "HTTP server already running" else
  k ← on_sock (socket AF_INET SOCK_STREAM 0);
  set_server (fun v => HttpServer k (running v) (clients v) (requests_served v)) ;;
  if k <? 0 then say "Failed to create HTTP server socket" else
  r ← on_sock (bind k [0; 0; 0; 0] HTTP_PORT);
  if r <? 0 then say "Failed to bind HTTP server to port 80" ;; on_sock (close k) ;; mret tt else
  r ← on_sock (listen k HTTP_MAX_CLIENTS);
  if r <? 0 then say "Failed to listen on HTTP server socket" ;; on_sock (close k) ;; mret tt else
  set_server (fun v => HttpServer (server_socket v) 1 (clients v) (requests_served v)) ;;
  say "HTTP server started on port 80".

Definition http_server_stop : M http_state unit :=
  st ← getS;
  if running (http_server st) =? 0 then say "HTTP server not running" else
  on_sock (close (server_socket (http_server st))) ;;
  set_server (fun v => HttpServer (server_socket v) 0 (clients v) (requests_served v)) ;;
  say "HTTP server stopped".

(** *** The response *)

Definition status_message (code : Z) : list Z :=
  if code =? HTTP_200_OK then lit "OK"
  else if code =? HTTP_400_BAD_REQUEST then lit "Bad Request"
  else if code =? HTTP_404_NOT_FOUND then lit "Not Found"
  else if code =? HTTP_500_INTERNAL_SERVER_ERROR then lit "Internal Server Error"
  else lit "Unknown".

Definition header_text : list Z :=
  [13; 10] ++ chars "Content-Type: text/html" ++ [13; 10] ++ chars "Connection: close" ++ [13; 10; 13; 10].

(** The arrays [response[512]], [status_text[32]] and [count_str[16]]. *)
Definition build_response (status served : Z) (body response status_text count_str : list Z)
    : res (list Z * list Z) :=
  '(_, status_text) ← strcpy status_text (status_message status);
  '(_, response) ← strcpy response (lit "HTTP/1.1 ");
  count_str ← itoa status count_str 10;
  '(_, response) ← strcat response count_str;
  '(_, response) ← strcat response (lit " ");
  '(_, response) ← strcat response status_text;
  '(_, response) ← strcat response (header_text ++ [0]);
  '(_, response) ← strcat response body;
  count_str ← itoa (i32 served) count_str 10;
  '(_, response) ← strcat response count_str;
  '(_, response) ← strcat response (lit "</p></body></html>");
  Ok (response, count_str).

(** The array up to its terminator. *)
Fixpoint upto_nul (l : list Z) : list Z :=
  match l with [] => [] | c :: l => if c =? 0 then [] else c :: upto_nul l end.

Definition http_send_response (status : Z) (body response status_text count_str : list Z)
    : M http_state unit :=
  st ← getS;
  '(_, count_str) ← liftR (build_response status (requests_served (http_server st)) body response status_text count_str);
  print (chars "HTTP/1.1 ") ;;
  count_str ← liftR (itoa status count_str 10);
  print (upto_nul count_str) ;;
  print [10] ;;
  set_server (fun v => HttpServer (server_socket v) (running v) (clients v) (u32 (requests_served v + 1))).

Definition html_response : list Z :=
  lit "<html><head><title>VlsOs</title></head><body><h1>Welcome to VlsOs HTTP Server!</h1><p>This is a simple web server running inside an x86 OS.</p><p>Requests served: ".

Definition set_client (i : Z) (c : http_client_t) : M http_state unit := fun s =>
  match wr (clients (http_server s)) i c with
  | Ok l => let v := http_server s in
      Ok (tt, HttpState (HttpServer (server_socket v) (running v) l (requests_served v)) (h_sock s))
  | Err e => Err e
  end.

Definition get_client (i : Z) : M http_state http_client_t := fun s =>
  match rd (clients (http_server s)) i with Ok c => Ok (c, s) | Err e => Err e end.

Definition http_handle_client (i : Z) (response status_text count_str : list Z) : M http_state unit :=
  http_send_response HTTP_200_OK html_response response status_text count_str ;;
  c ← get_client i;
  set_client i (HttpClient (client_ip c) (client_port c) (buffer_len c) 0).

(** [accept] would fill [addr] and [port]. *)
Fixpoint accept_clients (n : nat) (i addr port : Z) : M http_state unit :=
  match n with
  | O => mret tt
  | S n =>
      c ← get_client i;
      (if active c =? 0 then
         st ← getS;
         k ← on_sock (accept (server_socket (http_server st)));
         if 0 <=? k then set_client i (HttpClient addr port 0 1) else mret tt
       else mret tt) ;;
      accept_clients n (i + 1) addr port
  end.

Fixpoint handle_clients (n : nat) (i : Z) (response status_text count_str : list Z) : M http_state unit :=
  match n with
  | O => mret tt
  | S n =>
      c ← get_client i;
      (if active c =? 0 then mret tt else http_handle_client i response status_text count_str) ;;
      handle_clients n (i + 1) response status_text count_str
  end.

Definition http_server_poll (addr port : Z) (response status_text count_str : list Z) : M http_state unit :=
  st ← getS;
  if running (http_server st) =? 0 then mret tt else
  accept_clients (Z.to_nat HTTP_MAX_CLIENTS) 0 addr port ;;
  handle_clients (Z.to_nat HTTP_MAX_CLIENTS) 0 response status_text count_str.

(** ** The client *)

Record http_response_t := HttpResponse {
  status_code : Z;
  content_length : Z;
  body : option (Z * list Z);        (* null, or the block on the heap *)
  body_len : Z
}.

Definition zero_response : http_response_t := HttpResponse 0 0 None 0.

(** *** Responses *)

(** [while (i < buflen && buf[i] != c) i++]; [fuel = buflen - i]. *)
Fixpoint skip_to (fuel : nat) (buf : list Z) (buflen c i : Z) : res Z :=
  if i <? buflen then
    x ← rd buf i;
    if x =? c then Ok i else
    match fuel with O => Err OutOfFuel | S fuel => skip_to fuel buf buflen c (i + 1) end
  else Ok i.

Definition skip (buf : list Z) (buflen c i : Z) : res Z := skip_to (Z.to_nat (buflen - i)) buf buflen c i.

(** [while (i < buflen && j < 15 && ...) len_str[j++] = buf[i++]]; [n = 15 - j]. *)
Fixpoint read_digits (n : nat) (buf : list Z) (buflen i j : Z) (len_str : list Z) : res (Z * Z * list Z) :=
  match n with
  | O => Ok (i, j, len_str)
  | S n =>
      if i <? buflen then
        c ← rd buf i;
        if (48 <=? c) && (c <=? 57) then
          len_str ← wr len_str j c; read_digits n buf buflen (i + 1) (j + 1) len_str
        else Ok (i, j, len_str)
      else Ok (i, j, len_str)
  end.

Definition content_length_name : list Z := chars "Content-Length: ".

(** The header at [i]: where it was read up to, and [content_length]. *)
Definition read_length (buf : list Z) (buflen i cl : Z) : res (Z * Z) :=
  if i + 16 <=? buflen then
    r ← memcmp (drop (Z.to_nat i) buf) content_length_name 16;
    if r =? 0 then
      '(i, j, len_str) ← read_digits 15 buf buflen (i + 16) 0 (replicate 16 0);
      len_str ← wr len_str j 0;
      n ← atoi len_str;
      Ok (i, u32 n)
    else Ok (i, cl)
  else Ok (i, cl).

(** The loop over the header lines; a turn moves [i] on, so [buflen - i] turns are
    enough. *)
Fixpoint headers (fuel : nat) (buf : list Z) (buflen i cl : Z) : res (Z * Z) :=
  if i <? buflen then
    c ← rd buf i;
    if c =? 10 then Ok (i, cl) else
    match fuel with
    | O => Err OutOfFuel
    | S fuel =>
        '(i, cl) ← read_length buf buflen i cl;
        i ← skip buf buflen 10 i;
        headers fuel buf buflen (if i <? buflen then i + 1 else i) cl
    end
  else Ok (i, cl).

Definition http_client_parse_response (buf : list Z) (buflen : Z) (resp : http_response_t) (h : heap)
    : res (Z * http_response_t * heap) :=
  if buflen <? 12 then Ok (-1, resp, h) else
  i ← skip buf buflen 32 0;
  if buflen <=? i then Ok (-1, resp, h) else
  let i := i + 1 in
  if buflen <? i + 3 then Ok (-1, resp, h) else
  a ← rd buf i; b ← rd buf (i + 1); c ← rd buf (i + 2);
  code ← atoi [a; b; c; 0];
  let resp := HttpResponse (u16 code) (content_length resp) (body resp) (body_len resp) in
  i ← skip buf buflen 10 (i + 3);
  if buflen <=? i then Ok (-1, resp, h) else
  '(i, cl) ← headers (Z.to_nat (buflen - (i + 1))) buf buflen (i + 1) 0;
  let i := if i <? buflen then i + 1 else i in
  let size := u32 (buflen - i + 1) in
  let '(ptr, h') := malloc size h in
  if ptr =? NULL then Ok (-1, HttpResponse (status_code resp) cl None (body_len resp), h') else
  let n := u16 (buflen - i) in
  block ← memcpy (fresh_block ptr size h) (drop (Z.to_nat i) buf) (Z.to_nat n);
  block ← wr block n 0;
  Ok (0, HttpResponse (status_code resp) cl (Some (ptr, block)) n, h').

Definition http_client_free (resp : http_response_t) : http_response_t :=
  HttpResponse (status_code resp) (content_length resp) None 0.

(** *** Addresses *)

(** The loop over the text: the octets read, their number and [num_buf]. *)
Fixpoint quad_loop (str octets : list Z) (count : Z) (num_buf : list Z) (num_idx : Z)
    : res (list Z * Z * list Z) :=
  match str with
  | [] => Err OutOfBounds
  | c :: str =>
      if (c =? 0) || (4 <=? count) then Ok (octets, count, num_buf) else
      if c =? 46 then
        if 0 <? num_idx then
          v ← atoi num_buf;
          octets ← wr octets count v;
          num_buf ← wr num_buf 0 0;
          quad_loop str octets (count + 1) num_buf 0
        else quad_loop str octets count num_buf num_idx
      else if isdigit (schar c) && (num_idx <? 3) then
        num_buf ← wr num_buf num_idx c;
        num_buf ← wr num_buf (num_idx + 1) 0;
        quad_loop str octets count num_buf (num_idx + 1)
      else quad_loop str octets count num_buf num_idx
  end.

(** [None] is the message "Invalid host IP". *)
Definition parse_quad (str octets : list Z) : res (option (list Z)) :=
  '(octets, count, num_buf) ← quad_loop str octets 0 [0; 0; 0; 0] 0;
  '(octets, count) ← (if count <? 4
                      then v ← atoi num_buf; octets ← wr octets count v; Ok (octets, count + 1)
                      else Ok (octets, count) : res (list Z * Z));
  Ok (if count =? 4 then Some (u8 <$> octets) else None).

(** *** Requests *)

Definition strcpy_at (dest : list Z) (off : Z) (src : list Z) : res (list Z) :=
  if (0 <=? off) && (off <=? zlen dest) then
    '(_, tl) ← strcpy (drop (Z.to_nat off) dest) src; Ok (take (Z.to_nat off) dest ++ tl)
  else Err OutOfBounds.

Definition build_request (host : list Z) (path : option (list Z)) (request : list Z) : res (list Z * Z) :=
  let p := default (lit "/") path in
  request ← strcpy_at request 0 (lit "GET ");
  request ← strcpy_at request 4 p;
  n ← strlen p;
  let req_len := 4 + n in
  request ← strcpy_at request req_len (chars " HTTP/1.1" ++ [13; 10; 0]);
  let req_len := req_len + 11 in
  request ← strcpy_at request req_len (lit "Host: ");
  let req_len := req_len + 6 in
  request ← strcpy_at request req_len host;
  n ← strlen host;
  let req_len := req_len + n in
  request ← strcpy_at request req_len [13; 10; 13; 10; 0];
  Ok (request, req_len + 4).

(** [request[512]] and [response_buf[2048]] are the caller's stack. *)
Definition http_client_get (host : list Z) (port : Z) (path : option (list Z)) (request response_buf : list Z)
    : M sock_state (Z * http_response_t) :=
  let resp := zero_response in
  let say t := on_net (emit (Printed (chars t ++ [10]))) in
  ip ← liftR (parse_quad host [0; 0; 0; 0]);
  match ip with
  | None => say "Invalid host IP"%string ;; mret (-1, resp)
  | Some server_ip =>
      sock ← socket AF_INET SOCK_STREAM IPPROTO_TCP;
      if sock <? 0 then say "Failed to create socket"%string ;; mret (-1, resp) else
      r ← connect sock server_ip port;
      if r <? 0 then say "Failed to connect"%string ;; close sock ;; mret (-1, resp) else
      '(request, req_len) ← liftR (build_request host path request);
      r ← send sock request req_len;
      if r <? 0 then say "Failed to send request"%string ;; close sock ;; mret (-1, resp) else
      recv_len ← recv sock;
      close sock ;;
      if recv_len <=? 0 then say "Failed to receive response"%string ;; mret (-1, resp) else
      s ← getS;
      '(r, resp, h) ← liftR (http_client_parse_response response_buf (u16 recv_len) resp (n_heap (s_net s)));
      on_net (fun n => Ok (tt, Net (interfaces n) (num_interfaces n) (arp_cache n) (arp_cache_entries n) h (n_out n))) ;;
      if r <? 0 then say "Failed to parse response"%string ;; mret (-1, resp) else
      mret (0, resp)
  end.

(** ** The parser of addresses *)

(** [num_buf] with the digits [ds] in it. *)
Record num_holds (nb ds : list Z) : Prop := {
  nh_text : exists r, nb = cstr ds r;
  nh_length : length nb = 4%nat;
  nh_digits : Forall digit_c ds
}.

Lemma num_value nb ds : num_holds nb ds -> atoi nb = Ok (i32 (digits_int ds 0)).
Proof. intros [(r & ->) _ Hd]. by apply atoi_string. Qed.

Lemma num_reset nb ds : num_holds nb ds -> exists nb', wr nb 0 0 = Ok nb' /\ num_holds nb' [].
Proof.
  intros [_ Hl _]. rewrite wr_in by (unfold zlen; lia). eexists. split; [reflexivity|].
  destruct nb as [|x nb]; [done|]. constructor; [by exists nb|done|constructor].
Qed.

Lemma num_push nb ds c : num_holds nb ds -> (length ds < 3)%nat -> digit_c c ->
  exists nb1 nb2, wr nb (zlen ds) c = Ok nb1 /\ wr nb1 (zlen ds + 1) 0 = Ok nb2 /\ num_holds nb2 (ds ++ [c]).
Proof.
  intros [(r & ->) Hl Hd] Hlen Hc. unfold cstr in *. rewrite length_app in Hl. cbn [length] in Hl.
  destruct r as [|x r]; [cbn in Hl; lia|]. exists (ds ++ c :: x :: r), ((ds ++ [c]) ++ 0 :: r).
  rewrite wr_mid. split; [done|]. split.
  - change (ds ++ c :: x :: r) with (ds ++ [c] ++ x :: r). rewrite app_assoc.
    replace (zlen ds + 1) with (zlen (ds ++ [c])) by (rewrite zlen_app; done). by rewrite wr_mid.
  - constructor; [by exists r| |apply Forall_app; split; [done|by constructor]].
    rewrite !length_app. cbn [length] in *. lia.
Qed.

(** Whatever the text, the loop ends with at most four octets read. *)
Lemma quad_loop_total str : forall r o n nb ds,
  Forall is_u8 str -> length o = 4%nat -> 0 <= n <= 4 -> num_holds nb ds -> (length ds <= 3)%nat ->
  exists o' n' nb' ds', quad_loop (cstr str r) o n nb (zlen ds) = Ok (o', n', nb') /\
    length o' = 4%nat /\ 0 <= n' <= 4 /\ num_holds nb' ds'.
Proof.
  induction str as [|c str IH]; intros r o n nb ds Hu Ho Hn Hnb Hds; cbn [cstr app quad_loop].
  { exists o, n, nb, ds. done. }
  apply Forall_cons in Hu as [Hc Hu]. change (str ++ 0 :: r) with (cstr str r).
  destruct ((c =? 0) || (4 <=? n)) eqn:E; [by exists o, n, nb, ds|].
  apply orb_false_iff in E as [_ Hn4%Z.leb_gt].
  destruct (c =? 46).
  - destruct (Z.ltb_spec 0 (zlen ds)); [|by apply IH].
    rewrite (num_value _ _ Hnb), bind_ret. rewrite (wr_in o n) by (unfold zlen; lia). rewrite bind_ret.
    destruct (num_reset _ _ Hnb) as (nb' & -> & Hnb'). rewrite bind_ret.
    change 0 with (zlen (@nil Z)) at 2. apply IH; try done; [by rewrite length_insert|lia|cbn; lia].
  - destruct (isdigit (schar c) && (zlen ds <? 3)) eqn:Ed; [|by apply IH].
    apply andb_true_iff in Ed as [Ed Hlt]. apply isdigit_digit_c in Ed; [|done].
    destruct (num_push nb ds c Hnb) as (nb1 & nb2 & E1 & E2 & Hnb2); [unfold zlen in Hlt; lia|done|].
    rewrite E1, bind_ret, E2, bind_ret. replace (zlen ds + 1) with (zlen (ds ++ [c])) by (rewrite zlen_app; done).
    apply IH; try done. rewrite length_app. cbn. unfold zlen in Hlt. lia.
Qed.

Lemma empty_num : num_holds [0; 0; 0; 0] [].
Proof. constructor; [by exists [0; 0; 0]|done|constructor]. Qed.

Lemma parse_quad_total str r octets : Forall is_u8 str -> length octets = 4%nat ->
  exists ip, parse_quad (cstr str r) octets = Ok ip /\
    match ip with Some l => length l = 4%nat /\ Forall is_u8 l | None => True end.
Proof.
  intros Hu Ho. unfold parse_quad.
  destruct (quad_loop_total str r octets 0 _ [] Hu Ho ltac:(lia) empty_num ltac:(cbn; lia))
    as (o & n & nb & ds & E & Hl & Hn & Hnb). change (zlen (@nil Z)) with 0 in E. rewrite E, bind_ret.
  assert (Hend : exists o' n', (if n <? 4 then v ← atoi nb; octets ← wr o n v; Ok (octets, n + 1) else Ok (o, n))
      = Ok (o', n') /\ length o' = 4%nat).
  { destruct (Z.ltb_spec n 4); [|by exists o, n]. rewrite (num_value _ _ Hnb), bind_ret.
    rewrite wr_in by (unfold zlen; lia). rewrite bind_ret. eexists _, _. split; [done|]. by rewrite length_insert. }
  destruct Hend as (o' & n' & -> & Hl'). rewrite bind_ret. eexists. split; [done|].
  destruct (n' =? 4); [|done]. split; [by rewrite length_fmap|]. apply Forall_fmap, Forall_true. intros. apply u8_range.
Qed.

(** Reading a number that is written out. *)
Lemma quad_digits t : forall rest o n nb ds, Forall digit_c t -> num_holds nb ds -> 0 <= n < 4 ->
  (length ds + length t <= 3)%nat ->
  exists nb', quad_loop (t ++ rest) o n nb (zlen ds) = quad_loop rest o n nb' (zlen (ds ++ t)) /\
    num_holds nb' (ds ++ t).
Proof.
  induction t as [|c t IH]; intros rest o n nb ds Ht Hnb Hn Hl; cbn [app].
  { exists nb. by rewrite app_nil_r. }
  apply Forall_cons in Ht as [Hc Ht]. cbn [length] in Hl. destruct (digit_c_isdigit c Hc) as [H1 _].
  destruct (num_push nb ds c Hnb) as (nb1 & nb2 & E1 & E2 & Hnb2); [lia|done|].
  destruct (IH rest o n nb2 (ds ++ [c]) Ht Hnb2 Hn) as (nb' & E & Hnb'); [rewrite length_app; cbn; lia|].
  rewrite <- app_assoc in E, Hnb'. cbn [app] in E, Hnb'. exists nb'. split; [|done]. cbn [quad_loop].
  unfold digit_c in Hc. rewrite (proj2 (Z.eqb_neq c 0)), (proj2 (Z.leb_gt 4 n)), (proj2 (Z.eqb_neq c 46)) by lia.
  cbn [orb]. rewrite H1, (proj2 (Z.ltb_lt (zlen ds) 3)) by (unfold zlen; lia). cbn [andb].
  rewrite E1, bind_ret, E2, bind_ret, <- E. do 2 f_equal. by rewrite zlen_app.
Qed.

(** The decimal text of an octet. *)
Definition dec (v : Z) : list Z := itoa_text v 10.

Lemma dec_octet v : is_u8 v -> Forall digit_c (dec v) /\ (1 <= length (dec v) <= 3)%nat /\
  i32 (digits_int (dec v) 0) = v.
Proof.
  intros Hv. unfold is_u8 in Hv.
  assert (Hall : Forall (fun v => Forall digit_c (dec v) /\ (1 <= length (dec v) <= 3)%nat /\
    i32 (digits_int (dec v) 0) = v) (seqZ 0 256)).
  { unfold digit_c. apply (bool_decide_unpack _). vm_compute. exact I. }
  rewrite Forall_forall in Hall. apply Hall, elem_of_seqZ. lia.
Qed.

(** An octet and the dot behind it. *)
Lemma quad_octet v rest o n nb : is_u8 v -> num_holds nb [] -> 0 <= n < 4 -> length o = 4%nat ->
  exists nb', quad_loop (dec v ++ 46 :: rest) o n nb 0 = quad_loop rest (<[Z.to_nat n := v]> o) (n + 1) nb' 0 /\
    num_holds nb' [].
Proof.
  intros Hv Hnb Hn Ho. destruct (dec_octet v Hv) as (Hd & Hl & Hval).
  destruct (quad_digits (dec v) (46 :: rest) o n nb [] Hd Hnb Hn ltac:(cbn [length]; lia)) as (nb1 & E & Hnb1).
  cbn [app] in E, Hnb1. change (zlen (@nil Z)) with 0 in E.
  destruct (num_reset _ _ Hnb1) as (nb' & Er & Hnb'). exists nb'. split; [|done]. rewrite E. cbn [quad_loop].
  change (46 =? 0) with false. change (46 =? 46) with true. rewrite (proj2 (Z.leb_gt 4 n)) by lia. cbn [orb].
  rewrite (proj2 (Z.ltb_lt 0 _)) by (unfold zlen; lia). rewrite (num_value _ _ Hnb1), bind_ret, Hval.
  rewrite (wr_in o n) by (unfold zlen; lia). rewrite bind_ret, Er, bind_ret. done.
Qed.

Definition quad_text (a b c d : Z) : list Z := dec a ++ 46 :: dec b ++ 46 :: dec c ++ 46 :: dec d.

Lemma parse_quad_text a b c d r octets : is_u8 a -> is_u8 b -> is_u8 c -> is_u8 d -> length octets = 4%nat ->
  parse_quad (cstr (quad_text a b c d) r) octets = Ok (Some [a; b; c; d]).
Proof.
  intros Ha Hb Hc Hd Ho. unfold parse_quad, cstr, quad_text.
  repeat (rewrite <- app_assoc; cbn [app]).
  destruct octets as [|x0 [|x1 [|x2 [|x3 [|]]]]]; try done.
  destruct (quad_octet a (dec b ++ 46 :: dec c ++ 46 :: dec d ++ 0 :: r) [x0; x1; x2; x3] 0 _ Ha empty_num) as (nb1 & -> & H1); [lia|done|].
  destruct (quad_octet b (dec c ++ 46 :: dec d ++ 0 :: r) [a; x1; x2; x3] 1 nb1 Hb H1) as (nb2 & E2 & H2); [lia|done|].
  destruct (quad_octet c (dec d ++ 0 :: r) [a; b; x2; x3] 2 nb2 Hc H2) as (nb3 & E3 & H3); [lia|done|].
  destruct (dec_octet d Hd) as (Hdd & Hdl & Hdv).
  destruct (quad_digits (dec d) (0 :: r) [a; b; c; x3] 3 nb3 [] Hdd H3) as (nb4 & E4 & H4); [lia|cbn [length]; lia|].
  change (<[Z.to_nat 0:=a]> [x0; x1; x2; x3]) with [a; x1; x2; x3]. change (0 + 1) with 1.
  rewrite E2. change (<[Z.to_nat 1:=b]> [a; x1; x2; x3]) with [a; b; x2; x3]. change (1 + 1) with 2.
  rewrite E3. change (<[Z.to_nat 2:=c]> [a; b; x2; x3]) with [a; b; c; x3]. change (2 + 1) with 3.
  change (zlen (@nil Z)) with 0 in E4. rewrite E4. cbn [quad_loop app]. change (0 =? 0) with true. cbn [orb].
  rewrite bind_ret. change (3 <? 4) with true. cbv iota beta. cbn [app] in H4.
  rewrite (num_value _ _ H4), bind_ret, Hdv. change (wr [a; b; c; x3] 3 d) with (Ok [a; b; c; d]).
  rewrite !bind_ret. change (3 + 1 =? 4) with true. cbv iota beta. cbn [fmap list_fmap].
  by rewrite !u8_id by done.
Qed.

(** ** The request *)

Lemma strcpy_at_spec d off s r : nul_free s -> 0 <= off -> off + zlen s < zlen d ->
  strcpy_at d off (cstr s r) = Ok (splice d off (s ++ [0])).
Proof.
  intros Hs Hoff Hl. unfold strcpy_at. pose proof (zlen_nonneg s).
  rewrite (proj2 (Z.leb_le _ _)), (proj2 (Z.leb_le _ _)) by lia. cbn [andb].
  rewrite strcpy_cstr by (try done; rewrite length_drop; unfold zlen in *; lia). rewrite bind_ret. cbv beta iota.
  f_equal. unfold splice. f_equal. rewrite <- app_assoc. cbn [app]. do 2 f_equal.
  rewrite drop_drop. f_equal. unfold zlen in *. rewrite length_app. cbn [length]. lia.
Qed.

(** The next string goes over the terminator of the one before. *)
Lemma strcpy_at_next d off o2 s t r : nul_free t -> 0 <= off -> o2 = off + zlen s -> off + zlen s + zlen t < zlen d ->
  strcpy_at (splice d off (s ++ [0])) o2 (cstr t r) = Ok (splice d off ((s ++ t) ++ [0])).
Proof.
  intros Ht Hoff -> Hl. pose proof (zlen_nonneg s). pose proof (zlen_nonneg t).
  assert (H1 : zlen (s ++ [0]) = zlen s + 1) by (rewrite zlen_app; done).
  assert (H2 : zlen (t ++ [0]) = zlen t + 1) by (rewrite zlen_app; done).
  rewrite strcpy_at_spec by (rewrite ?zlen_splice by lia; done || lia). f_equal.
  unfold splice. set (p := take (Z.to_nat off) d).
  assert (Hp : length p = Z.to_nat off) by (unfold p; rewrite length_take; unfold zlen in *; lia).
  rewrite <- !app_assoc. rewrite (app_assoc p s). rewrite take_app_length' by (rewrite length_app, Hp; unfold zlen; lia).
  rewrite <- !app_assoc. do 4 f_equal.
  rewrite (app_assoc p), drop_app_ge by (rewrite length_app, Hp; unfold zlen in *; lia).
  rewrite (drop_app_ge [0]) by (rewrite length_app, Hp; cbn [length]; unfold zlen in *; lia).
  rewrite drop_drop. f_equal. rewrite !zlen_app, length_app, Hp. change (zlen [0]) with 1.
  cbn [length]. unfold zlen in *. lia.
Qed.

Definition request_text (host path : list Z) : list Z :=
  (((chars "GET " ++ path) ++ (chars " HTTP/1.1" ++ [13; 10])) ++ chars "Host: ") ++ host ++ [13; 10; 13; 10].

Lemma nul_free_lit (l : list Z) : bool_decide (nul_free l) = true -> nul_free l.
Proof. apply bool_decide_eq_true_1. Qed.

Lemma build_request_spec host path r1 r2 request : nul_free host -> nul_free path ->
  zlen (request_text host path) < zlen request ->
  build_request (cstr host r1) (Some (cstr path r2)) request =
    Ok (splice request 0 (request_text host path ++ [0]), zlen (request_text host path)).
Proof.
  intros Hh Hp Hl. unfold request_text in Hl |- *. rewrite !zlen_app in Hl.
  change (zlen (chars "GET ")) with 4 in Hl. change (zlen (chars " HTTP/1.1")) with 9 in Hl.
  change (zlen [13; 10]) with 2 in Hl. change (zlen (chars "Host: ")) with 6 in Hl. change (zlen [13; 10; 13; 10]) with 4 in Hl.
  pose proof (zlen_nonneg host). pose proof (zlen_nonneg path). unfold build_request. cbv zeta.
  change (default (lit "/") (Some (cstr path r2))) with (cstr path r2).
  change (lit "GET ") with (cstr (chars "GET ") []).
  change (lit "Host: ") with (cstr (chars "Host: ") []).
  change (chars " HTTP/1.1" ++ [13; 10; 0]) with (cstr (chars " HTTP/1.1" ++ [13; 10]) []).
  change [13; 10; 13; 10; 0] with (cstr [13; 10; 13; 10] []).
  rewrite strcpy_at_spec; [|by apply nul_free_lit|done|change (zlen (chars "GET ")) with 4; lia]. rewrite bind_ret.
  rewrite strcpy_at_next; [|done|done|done|change (zlen (chars "GET ")) with 4; lia]. rewrite bind_ret.
  rewrite !strlen_cstr by done. rewrite bind_ret.
  assert (L1 : zlen (chars "GET " ++ path) = 4 + zlen path) by (by rewrite zlen_app).
  rewrite strcpy_at_next; [|by apply nul_free_lit|done|lia|change (zlen (chars " HTTP/1.1" ++ [13; 10])) with 11; lia].
  rewrite bind_ret.
  assert (L2 : zlen ((chars "GET " ++ path) ++ chars " HTTP/1.1" ++ [13; 10]) = 4 + zlen path + 11) by (by rewrite zlen_app, L1).
  rewrite strcpy_at_next; [|by apply nul_free_lit|done|lia|change (zlen (chars "Host: ")) with 6; lia]. rewrite bind_ret.
  set (t3 := (_ ++ chars "Host: ")).
  assert (L3 : zlen t3 = 4 + zlen path + 11 + 6) by (unfold t3; by rewrite zlen_app, L2).
  rewrite strcpy_at_next; [|done|done|lia|lia]. rewrite !bind_ret.
  rewrite strcpy_at_next; [|by apply nul_free_lit|done|rewrite zlen_app; lia|rewrite zlen_app; change (zlen [13; 10; 13; 10]) with 4; lia].
  rewrite bind_ret, <- (app_assoc t3). do 2 f_equal. rewrite !zlen_app, L3. change (zlen [13; 10; 13; 10]) with 4. lia.
Qed.

(** ** A stream socket never sends *)

Lemma send_not_connected s st k v data len : Rel s st -> st.1 !! k = Some v -> v_state v <> SOCK_CONNECTED ->
  send k data len s = Ok (-1, s).
Proof.
  intros [Hwf Hm Hn] Hk Hv. unfold send. eapply M_run; [reflexivity|].
  eapply lift_run; [apply first_slot_none; [apply Hwf|]|done]. intros j y Hy.
  unfold is_connected_fd. destruct (is_fd_in k SOCK_CONNECTED y) eqn:E; [|done]. exfalso.
  apply is_fd_in_spec in E as (Hf & Ho & Hs); [|done]. apply Z.eqb_eq in Hs.
  assert (Hv' : smap (sockets s) !! k = Some (view_of y)).
  { apply (smap_Some _ _ _ _ Hwf). exists j, y. unfold entry. by rewrite Hf. }
  rewrite Hm, Hk in Hv'. injection Hv' as ->. done.
Qed.

Lemma say_run t s : on_net (emit (Printed t)) s = Ok (tt, set_net s (out (Printed t) (s_net s))).
Proof. done. Qed.

Lemma rel_set_net s st n : Rel s st -> Rel (set_net s n) st.
Proof. by intros []; constructor. Qed.

(** ** The response of the server *)

Lemma strcat_cstr' s r t r' : nul_free s -> nul_free t -> (length t <= length r)%nat ->
  exists k, strcat (cstr s r) (cstr t r') = Ok (k, cstr (s ++ t) (drop (length t) r)).
Proof.
  intros Hs Ht Hl. eexists. rewrite strcat_cstr by (done || lia). unfold cstr. by rewrite app_assoc.
Qed.

Lemma itoa_cstr v l : - 2 ^ 31 < v < 2 ^ 31 -> 12 <= zlen l -> exists r, itoa v l 10 = Ok (cstr (dec v) r) /\
  (S (length (dec v) + length r) = length l)%nat.
Proof.
  intros Hv Hl. pose proof (itoa_text_digits v 10 10 ltac:(lia) ltac:(lia) ltac:(lia)).
  assert (Hd : zlen (itoa_text v 10) <= 11) by (destruct (v <? 0); lia).
  eexists. rewrite itoa_spec by lia. split; [reflexivity|]. unfold dec. rewrite length_drop. unfold zlen in *. lia.
Qed.

Lemma digit_char_u8 d : 0 <= d < 36 -> is_u8 (digit_char d) /\ digit_char d <> 0.
Proof. unfold is_u8, digit_char. intros. case_if; lia. Qed.

Lemma dec_nul_free v : nul_free (dec v).
Proof.
  unfold dec, itoa_text. apply Forall_app. split.
  - destruct (v <? 0); repeat constructor; unfold is_u8; lia.
  - destruct (v =? 0); [repeat constructor; unfold is_u8; lia|].
    apply Forall_fmap, Forall_rev. eapply Forall_impl; [apply (digits_range 32 (Z.abs v) 10); lia|].
    intros d Hd. apply digit_char_u8. cbv beta in Hd. lia.
Qed.

Lemma dec_length v : - 2 ^ 31 < v < 2 ^ 31 -> zlen (dec v) <= 11.
Proof.
  intros Hv. pose proof (itoa_text_digits v 10 10 ltac:(lia) ltac:(lia) ltac:(lia)). unfold dec.
  destruct (v <? 0); lia.
Qed.

(** An array of [n] bytes with the string [s] in it. *)
Definition holds (n : nat) (l s : list Z) : Prop := nul_free s /\ length l = n /\ exists r, l = cstr s r.

Lemma holds_strcat n l s t r : holds n l s -> nul_free t -> (length s + length t < n)%nat ->
  exists k l', strcat l (cstr t r) = Ok (k, l') /\ holds n l' (s ++ t).
Proof.
  intros (Hs & Hl & r0 & ->) Ht Hn. unfold cstr in Hl. rewrite length_app in Hl. cbn [length] in Hl.
  destruct (strcat_cstr' s r0 t r Hs Ht) as [k E]; [lia|]. exists k, (cstr (s ++ t) (drop (length t) r0)).
  split; [done|]. split_and!; [by apply nul_free_app| |by eexists].
  unfold cstr. rewrite !length_app. cbn [length]. rewrite length_drop. lia.
Qed.

Lemma holds_strcpy n l t r : length l = n -> nul_free t -> (length t < n)%nat ->
  exists k l', strcpy l (cstr t r) = Ok (k, l') /\ holds n l' t.
Proof.
  intros Hl Ht Hn. eexists _, _. rewrite strcpy_cstr by (done || lia). split; [reflexivity|].
  split_and!; [done| |by eexists]. rewrite length_app. cbn [length]. rewrite length_drop. lia.
Qed.

Lemma status_message_text code : exists m, status_message code = cstr m [] /\ nul_free m /\ (length m <= 21)%nat.
Proof.
  unfold status_message.
  repeat case_if; eexists; (split; [reflexivity|]; split; [by apply nul_free_lit|cbn; lia]).
Qed.

(** The status line without its number, as text. *)
Definition message (code : Z) : list Z := removelast (status_message code).

Lemma message_text code m : status_message code = cstr m [] -> message code = m.
Proof. unfold message, cstr. intros ->. by rewrite removelast_app, app_nil_r. Qed.

Definition response_text (status served : Z) (b : list Z) : list Z :=
  chars "HTTP/1.1 " ++ dec status ++ chars " " ++ message status ++ header_text ++ b ++ dec served ++ chars "</p></body></html>".

Lemma build_response_spec status served b r response status_text count_str :
  - 2 ^ 31 < status < 2 ^ 31 -> - 2 ^ 31 < i32 served < 2 ^ 31 -> nul_free b -> (length b <= 390)%nat ->
  length response = 512%nat -> length status_text = 32%nat -> length count_str = 16%nat ->
  exists response' count_str', build_response status served (cstr b r) response status_text count_str = Ok (response', count_str') /\
    holds 512 response' (response_text status (i32 served) b) /\ length count_str' = 16%nat.
Proof.
  intros Hst Hsv Hb Hbl Hr Ht Hc. unfold build_response.
  destruct (status_message_text status) as (m & Em & Hm & Hml).
  unfold response_text. rewrite (message_text _ _ Em). rewrite Em.
  destruct (holds_strcpy 32 status_text m [] Ht Hm) as (k1 & st & -> & (_ & _ & r1 & ->)); [lia|].
  rewrite bind_ret. cbv beta iota.
  change (lit "HTTP/1.1 ") with (cstr (chars "HTTP/1.1 ") []). change (lit " ") with (cstr (chars " ") []).
  change (header_text ++ [0]) with (cstr header_text []).
  change (lit "</p></body></html>") with (cstr (chars "</p></body></html>") []).
  pose proof (dec_length status Hst) as Hd1. pose proof (dec_length (i32 served) Hsv) as Hd2. unfold zlen in Hd1, Hd2.
  assert (Lh : length header_text = 48%nat) by done.
  destruct (holds_strcpy 512 response (chars "HTTP/1.1 ") [] Hr) as (k2 & l2 & -> & H2); [by apply nul_free_lit|cbn; lia|].
  rewrite bind_ret. cbv beta iota.
  destruct (itoa_cstr status count_str Hst) as (r3 & -> & Hr3); [unfold zlen; lia|]. rewrite bind_ret.
  destruct (holds_strcat _ _ _ (dec status) r3 H2 (dec_nul_free _)) as (k3 & l3 & -> & H3); [cbn [length chars]; lia|].
  rewrite bind_ret. cbv beta iota.
  destruct (holds_strcat _ _ _ (chars " ") [] H3) as (k4 & l4 & -> & H4); [by apply nul_free_lit|rewrite length_app; cbn [length chars]; lia|].
  rewrite bind_ret. cbv beta iota.
  destruct (holds_strcat _ _ _ m r1 H4 Hm) as (k5 & l5 & -> & H5); [rewrite !length_app; cbn [length chars]; lia|].
  rewrite bind_ret. cbv beta iota.
  destruct (holds_strcat _ _ _ header_text [] H5) as (k6 & l6 & -> & H6); [by apply nul_free_lit|rewrite !length_app, Lh; cbn [length chars]; lia|].
  rewrite bind_ret. cbv beta iota.
  destruct (holds_strcat _ _ _ b r H6 Hb) as (k7 & l7 & -> & H7); [rewrite !length_app, Lh; cbn [length chars]; lia|].
  rewrite bind_ret. cbv beta iota.
  destruct (itoa_cstr (i32 served) (cstr (dec status) r3) Hsv) as (r8 & -> & Hr8).
  { unfold zlen, cstr. rewrite length_app. cbn [length]. lia. }
  rewrite bind_ret.
  destruct (holds_strcat _ _ _ (dec (i32 served)) r8 H7 (dec_nul_free _)) as (k8 & l8 & -> & H8);
    [rewrite !length_app, Lh; cbn [length chars]; lia|].
  rewrite bind_ret. cbv beta iota.
  destruct (holds_strcat _ _ _ (chars "</p></body></html>") [] H8) as (k9 & l9 & -> & H9);
    [by apply nul_free_lit|rewrite !length_app, Lh; cbn [length chars]; lia|].
  rewrite bind_ret. eexists _, _. split; [reflexivity|]. split; [by rewrite <- !app_assoc in H9|].
  unfold cstr in Hr8 |- *. rewrite length_app in Hr8 |- *. cbn [length] in *. lia.
Qed.

(** ** The server's clients *)

Lemma accept_refuses k s : length (sockets s) = 16%nat -> accept k s = Ok (-1, s).
Proof.
  intros Hl. unfold accept. eapply M_run; [reflexivity|].
  destruct (first_slot_spec (sockets s) (is_fd_in k SOCK_LISTENING) Hl) as [(i & x & E & _)|[E _]];
    (eapply lift_run; [exact E|]); done.
Qed.

Lemma get_client_in i s : 0 <= i < zlen (clients (http_server s)) ->
  exists c, get_client i s = Ok (c, s) /\ clients (http_server s) !! Z.to_nat i = Some c.
Proof.
  intros Hi. destruct (rd_total _ _ Hi) as [c Hc]. exists c. unfold get_client. rewrite Hc.
  by apply rd_Ok, zget_Some in Hc as [_ ?].
Qed.

Lemma accept_clients_none n : forall i addr port s, 0 <= i -> i + Z.of_nat n <= zlen (clients (http_server s)) ->
  length (sockets (h_sock s)) = 16%nat -> accept_clients n i addr port s = Ok (tt, s).
Proof.
  induction n as [|n IH]; intros i addr port s Hi Hn Hl; cbn [accept_clients]; [done|].
  destruct (get_client_in i s) as (c & E & _); [lia|]. eapply M_run; [exact E|].
  eapply M_run; [|apply IH; done || lia].
  destruct (active c =? 0); [|done]. eapply M_run; [reflexivity|].
  eapply M_run; [apply zoom_run, accept_refuses; done|]. cbv beta. by destruct s.
Qed.

Lemma handle_clients_none n : forall i r1 r2 r3 s, 0 <= i -> i + Z.of_nat n <= zlen (clients (http_server s)) ->
  Forall (fun c => active c = 0) (clients (http_server s)) -> handle_clients n i r1 r2 r3 s = Ok (tt, s).
Proof.
  induction n as [|n IH]; intros i r1 r2 r3 s Hi Hn Hf; cbn [handle_clients]; [done|].
  destruct (get_client_in i s) as (c & E & Hc); [lia|]. eapply M_run; [exact E|].
  rewrite (Forall_lookup_1 _ _ _ _ Hf Hc). eapply M_run; [done|]. apply IH; done || lia.
Qed.

(** ** Reading responses *)

Lemma skip_to_spec c buf buflen j : j <= buflen -> (j = buflen \/ rd buf j = Ok c) ->
  forall fuel i, 0 <= i <= j -> buflen - i <= Z.of_nat fuel ->
  (forall k, i <= k < j -> exists x, rd buf k = Ok x /\ x <> c) -> skip_to fuel buf buflen c i = Ok j.
Proof.
  intros Hj Hend. induction fuel as [|fuel IH]; intros i Hi Hf Hno; cbn [skip_to].
  - rewrite (proj2 (Z.ltb_ge _ _)) by lia. f_equal. lia.
  - destruct (Z.ltb_spec i buflen) as [Hlt|Hge]; [|f_equal; lia].
    destruct (Z.eq_dec i j) as [->|Hne].
    + destruct Hend as [->|Hc]; [lia|]. rewrite Hc, bind_ret. by rewrite Z.eqb_refl.
    + destruct (Hno i) as (x & Hx & Hxc); [lia|]. rewrite Hx, bind_ret, (proj2 (Z.eqb_neq _ _) Hxc).
      apply IH; [lia|lia|]. intros k Hk. apply Hno. lia.
Qed.

Lemma rd_in_mid (pre h rest : list Z) k : zlen pre <= k < zlen pre + zlen h ->
  exists x, rd (pre ++ h ++ rest) k = Ok x /\ x ∈ h.
Proof.
  intros Hk. destruct (lookup_lt_is_Some_2 h (Z.to_nat (k - zlen pre))) as [x Hx]; [unfold zlen in *; lia|].
  exists x. split; [|by eapply list_elem_of_lookup_2].
  pose proof (zlen_nonneg pre). apply rd_Ok, zget_Some. split; [lia|].
  rewrite lookup_app_r by (unfold zlen in *; lia). rewrite lookup_app_l by (unfold zlen in *; lia).
  rewrite <- Hx. f_equal. unfold zlen in *. lia.
Qed.

(** Where a line ends: at its line feed, or with the text. *)
Definition line_end (c : Z) (buflen j : Z) (rest : list Z) : Prop :=
  j = buflen \/ (j < buflen /\ exists r, rest = c :: r).

Lemma skip_line c pre h rest buflen i : Forall (fun x => x <> c) h ->
  zlen pre <= i <= zlen pre + zlen h -> line_end c buflen (zlen pre + zlen h) rest ->
  skip (pre ++ h ++ rest) buflen c i = Ok (zlen pre + zlen h).
Proof.
  intros Hh Hi He. pose proof (zlen_nonneg pre). unfold skip. apply skip_to_spec.
  - destruct He as [|[? _]]; lia.
  - destruct He as [->|[_ (r & ->)]]; [by left|right].
    rewrite app_assoc, <- zlen_app. apply rd_mid.
  - lia.
  - destruct He as [|[? _]]; lia.
  - intros k Hk. destruct (rd_in_mid pre h rest k) as (x & Hx & Hin); [lia|]. exists x. split; [done|].
    rewrite Forall_forall in Hh. by apply Hh.
Qed.

(** The digits at the head of [t], at most [n] of them. *)
Fixpoint lead (n : nat) (t : list Z) : list Z :=
  match n, t with
  | S n, c :: t => if (48 <=? c) && (c <=? 57) then c :: lead n t else []
  | _, _ => []
  end.

Lemma lead_digits n : forall t, Forall digit_c (lead n t).
Proof.
  induction n as [|n IH]; intros [|c t]; cbn; try constructor.
  destruct ((48 <=? c) && (c <=? 57)) eqn:E; [|constructor]. constructor; [unfold digit_c; lia|apply IH].
Qed.

Lemma lead_length n : forall t, (length (lead n t) <= n)%nat /\ (length (lead n t) <= length t)%nat.
Proof.
  induction n as [|n IH]; intros [|c t]; cbn; try lia.
  destruct (_ && _); cbn; [|lia]. specialize (IH t). lia.
Qed.

Lemma read_digits_spec n : forall t pre rest buflen ds k, line_end 10 buflen (zlen pre + zlen t) rest ->
  (n <= k)%nat ->
  read_digits n (pre ++ t ++ rest) buflen (zlen pre) (zlen ds) (ds ++ replicate k 0) =
    Ok (zlen pre + zlen (lead n t), zlen ds + zlen (lead n t), ds ++ lead n t ++ replicate (k - length (lead n t)) 0).
Proof.
  induction n as [|n IH]; intros t pre rest buflen ds k He Hk; cbn [read_digits lead].
  { change (zlen []) with 0. rewrite !Z.add_0_r. cbn [app length]. by rewrite Nat.sub_0_r. }
  assert (Hnil : Ok (zlen pre, zlen ds, ds ++ replicate k 0) =
    Ok (zlen pre + zlen (@nil Z), zlen ds + zlen (@nil Z), ds ++ [] ++ replicate (k - length (@nil Z)) 0)).
  { change (zlen (@nil Z)) with 0. rewrite !Z.add_0_r. cbn [app length]. by rewrite Nat.sub_0_r. }
  destruct t as [|c t].
  - change (zlen []) with 0 in He. rewrite Z.add_0_r in He. cbn [app].
    destruct He as [He|[Hlt (r & ->)]]; [rewrite (proj2 (Z.ltb_ge _ _)) by lia; exact Hnil|].
    rewrite (proj2 (Z.ltb_lt _ _)) by lia. rewrite rd_mid, bind_ret. cbn [Z.leb Z.compare Pos.compare Pos.compare_cont andb].
    exact Hnil.
  - assert (Hz : zlen (c :: t) = 1 + zlen t) by (unfold zlen; cbn [length]; lia). rewrite Hz in He. pose proof (zlen_nonneg t).
    rewrite (proj2 (Z.ltb_lt _ _)) by (destruct He as [|[? _]]; lia). cbn [app]. rewrite rd_mid, bind_ret.
    destruct ((48 <=? c) && (c <=? 57)); [|exact Hnil].
    destruct k as [|k]; [lia|]. cbn [replicate]. rewrite wr_mid, bind_ret.
    assert (Hc1 : zlen (pre ++ [c]) = zlen pre + 1) by (by rewrite zlen_app).
    assert (Hc2 : zlen (ds ++ [c]) = zlen ds + 1) by (by rewrite zlen_app).
    assert (E : pre ++ c :: t ++ rest = (pre ++ [c]) ++ t ++ rest) by (by rewrite <- app_assoc).
    assert (E2 : ds ++ c :: replicate k 0 = (ds ++ [c]) ++ replicate k 0) by (by rewrite <- app_assoc).
    rewrite E, E2, <- Hc1, <- Hc2, IH; [|rewrite Hc1; by replace (zlen pre + 1 + zlen t) with (zlen pre + (1 + zlen t)) by lia|lia].
    f_equal. rewrite Hc1, Hc2. assert (Hz2 : zlen (c :: lead n t) = 1 + zlen (lead n t)) by (unfold zlen; cbn [length]; lia).
    rewrite Hz2. rewrite <- app_assoc. cbn [app length].
    repeat match goal with |- (_, _) = (_, _) => f_equal end; try lia; done.
Qed.

(** What a header line says about the length. *)
Definition length_text (h : list Z) : option (list Z) :=
  if decide (take 16 h = content_length_name) then Some (lead 15 (drop 16 h)) else None.

Definition header_length (h : list Z) (cl : Z) : Z :=
  match length_text h with Some ds => u32 (i32 (digits_int ds 0)) | None => cl end.

Lemma take_line (h rest pre : list Z) buflen : line_end 10 buflen (zlen pre + zlen h) rest ->
  zlen pre + 16 <= buflen -> take 16 (h ++ rest) = content_length_name -> take 16 h = content_length_name.
Proof.
  intros He Hl Ht. destruct (decide (length h < 16)%nat) as [Hlt|Hge].
  - exfalso. destruct He as [He|[_ (r & ->)]]; [unfold zlen in *; lia|].
    assert (Hin : 10 ∈ take 16 (h ++ 10 :: r)).
    { rewrite take_app_ge by lia. apply elem_of_app. right. destruct (16 - length h)%nat eqn:En; [lia|].
      cbn. by left. }
    rewrite Ht in Hin. revert Hin. apply (bool_decide_unpack _). vm_compute. exact I.
  - by rewrite take_app_le in Ht by lia.
Qed.

Lemma drop_zlen (pre l : list Z) : drop (Z.to_nat (zlen pre)) (pre ++ l) = l.
Proof. unfold zlen. by rewrite Nat2Z.id, drop_app_length. Qed.

Lemma read_length_spec pre h rest buflen cl : line_end 10 buflen (zlen pre + zlen h) rest ->
  buflen <= zlen (pre ++ h ++ rest) ->
  exists i, read_length (pre ++ h ++ rest) buflen (zlen pre) cl = Ok (i, header_length h cl) /\
    zlen pre <= i <= zlen pre + zlen h.
Proof.
  intros He Hbuf. unfold read_length, header_length, length_text. pose proof (zlen_nonneg h).
  assert (Hbl : zlen pre + zlen h <= buflen) by (destruct He as [|[? _]]; lia).
  destruct (Z.leb_spec (zlen pre + 16) buflen) as [Hroom|Hno].
  - rewrite drop_zlen.
    assert (Hlong : (16 <= length (h ++ rest))%nat) by (rewrite zlen_app in Hbuf; unfold zlen in *; lia).
    destruct (memcmp_spec 16 (h ++ rest) content_length_name Hlong) as (r & -> & Hr); [cbn; lia|].
    rewrite bind_ret. change (take 16 content_length_name) with content_length_name in Hr.
    destruct (Z.eqb_spec r 0) as [->|Hr0].
    * pose proof (take_line _ _ _ _ He Hroom (proj1 Hr eq_refl)) as Ht. rewrite decide_True by done.
      assert (Hh : h = content_length_name ++ drop 16 h) by (rewrite <- Ht; by rewrite take_drop).
      set (t := drop 16 h) in *. rewrite Hh.
      assert (E : pre ++ (content_length_name ++ t) ++ rest = (pre ++ content_length_name) ++ t ++ rest)
        by (by rewrite <- !app_assoc).
      assert (Hn : zlen (pre ++ content_length_name) = zlen pre + 16) by (by rewrite zlen_app).
      assert (Hzh : zlen h = 16 + zlen t) by (rewrite Hh at 1; by rewrite zlen_app).
      assert (He' : line_end 10 buflen (zlen (pre ++ content_length_name) + zlen t) rest)
        by (rewrite Hn; by replace (zlen pre + 16 + zlen t) with (zlen pre + zlen h) by lia).
      pose proof (read_digits_spec 15 t (pre ++ content_length_name) rest buflen [] 16 He' ltac:(lia)) as Erd.
      change (zlen (@nil Z)) with 0 in Erd. rewrite Z.add_0_l in Erd. cbn [app] in Erd.
      change (replicate 16 0) with ([] ++ replicate 16 0) in Erd |- *. rewrite E, <- Hn. cbn [app] in Erd |- *.
      rewrite Erd, bind_ret. cbv beta iota.
      pose proof (lead_length 15 t) as [Hl1 Hl2].
      destruct (16 - length (lead 15 t))%nat as [|k] eqn:Ek; [lia|]. cbn [replicate].
      pose proof (atoi_string (lead 15 t) (replicate k 0) (lead_digits 15 t)) as Ea. unfold cstr in Ea.
      rewrite wr_mid, bind_ret, Ea, bind_ret.
      eexists. split; [reflexivity|]. rewrite Hn, (zlen_app content_length_name t). change (zlen content_length_name) with 16. unfold zlen in *. lia.
    * rewrite decide_False; [|intros Ht; apply Hr0, Hr; rewrite take_app_le; [done|]].
      { exists (zlen pre). split; [done|lia]. }
      apply (f_equal length) in Ht. rewrite length_take in Ht. change (length content_length_name) with 16%nat in Ht. lia.
  - rewrite decide_False; [exists (zlen pre); split; [done|lia]|]. intros Ht.
    apply (f_equal length) in Ht. rewrite length_take in Ht. change (length content_length_name) with 16%nat in Ht. unfold zlen in *. lia.
Qed.

(** ** The loop over the lines *)

Definition line_ok (h : list Z) : Prop := h <> [] /\ Forall (fun c => c <> 10) h.
Definition lines (hs : list (list Z)) : list Z := mjoin ((fun h => h ++ [10]) <$> hs).

Lemma lines_cons h hs : lines (h :: hs) = h ++ 10 :: lines hs.
Proof. unfold lines. cbn. by rewrite <- app_assoc. Qed.

(** One turn, on a line that is not empty. *)
Lemma headers_turn fuel pre h rest buflen cl : line_ok h -> line_end 10 buflen (zlen pre + zlen h) rest ->
  buflen <= zlen (pre ++ h ++ rest) ->
  headers (S fuel) (pre ++ h ++ rest) buflen (zlen pre) cl =
    headers fuel (pre ++ h ++ rest) buflen
      (if zlen pre + zlen h <? buflen then zlen pre + zlen h + 1 else zlen pre + zlen h) (header_length h cl).
Proof.
  intros [Hne Hh] He Hb. destruct h as [|c h]; [done|]. cbn [headers].
  assert (Hz : zlen (c :: h) = 1 + zlen h) by (unfold zlen; cbn [length]; lia). pose proof (zlen_nonneg h).
  rewrite (proj2 (Z.ltb_lt _ _)) by (destruct He as [|[? _]]; lia).
  assert (Hrd : rd (pre ++ (c :: h) ++ rest) (zlen pre) = Ok c) by apply rd_mid. rewrite Hrd, bind_ret.
  pose proof Hh as [Hc _]%Forall_cons. rewrite (proj2 (Z.eqb_neq _ _) Hc).
  destruct (read_length_spec pre (c :: h) rest buflen cl He Hb) as (i & -> & Hi). rewrite bind_ret. cbv beta iota.
  by rewrite (skip_line 10 pre (c :: h) rest buflen i Hh Hi He), bind_ret.
Qed.

Lemma headers_lines buflen hs : forall fuel pre rest cl,
  Forall line_ok hs -> zlen (pre ++ lines hs) <= buflen -> buflen <= zlen (pre ++ lines hs ++ rest) ->
  (length hs <= fuel)%nat ->
  headers fuel (pre ++ lines hs ++ rest) buflen (zlen pre) cl =
    headers (fuel - length hs) ((pre ++ lines hs) ++ rest) buflen (zlen (pre ++ lines hs))
      (fold_left (fun cl h => header_length h cl) hs cl).
Proof.
  induction hs as [|h hs IH]; intros fuel pre rest cl Hok Hin Hb Hf; cbn [fold_left length].
  { change (lines []) with (@nil Z). rewrite !app_nil_r, Nat.sub_0_r. done. }
  apply Forall_cons in Hok as [Hh Hok]. cbn [length] in Hf. destruct fuel as [|fuel]; [lia|].
  assert (E : pre ++ lines (h :: hs) ++ rest = pre ++ h ++ 10 :: lines hs ++ rest)
    by (rewrite lines_cons, <- app_assoc; done).
  assert (E2 : pre ++ h ++ 10 :: lines hs ++ rest = (pre ++ h ++ [10]) ++ lines hs ++ rest)
    by (rewrite <- !app_assoc; done).
  assert (E3 : pre ++ lines (h :: hs) = (pre ++ h ++ [10]) ++ lines hs)
    by (rewrite lines_cons, <- !app_assoc; done).
  assert (Hz : zlen (pre ++ h ++ [10]) = zlen pre + zlen h + 1) by (rewrite !zlen_app; change (zlen [10]) with 1; lia).
  pose proof (zlen_nonneg (lines hs)).
  assert (Hlt : zlen pre + zlen h < buflen) by (rewrite E3, zlen_app in Hin; lia).
  rewrite E, headers_turn; [|done|right; split; [done|by eexists]|by rewrite <- E].
  rewrite (proj2 (Z.ltb_lt _ _)) by done. rewrite E2, <- Hz, IH; [|done|by rewrite <- E3|by rewrite <- E2, <- E|lia].
  rewrite E3. f_equal.
Qed.

(** The two ways in which the header ends: an empty line, or the end of the text
    in the middle of a line. *)
Lemma headers_blank fuel pre rest buflen cl : zlen pre < buflen ->
  headers fuel (pre ++ 10 :: rest) buflen (zlen pre) cl = Ok (zlen pre, cl).
Proof.
  intros Hlt. destruct fuel; cbn [headers]; rewrite (proj2 (Z.ltb_lt _ _)) by done;
    by rewrite rd_mid, bind_ret.
Qed.

Lemma headers_end fuel pre h rest cl : Forall (fun c => c <> 10) h -> (length h <= fuel)%nat ->
  exists cl', headers fuel (pre ++ h ++ rest) (zlen (pre ++ h)) (zlen pre) cl = Ok (zlen (pre ++ h), cl').
Proof.
  intros Hh Hf. destruct h as [|c h].
  { rewrite app_nil_r. exists cl. destruct fuel; cbn [headers]; by rewrite Z.ltb_irrefl. }
  destruct fuel as [|fuel]; [cbn in Hf; lia|]. exists (header_length (c :: h) cl).
  pose proof (zlen_nonneg rest).
  rewrite headers_turn; [|done|left; by rewrite zlen_app|rewrite !zlen_app; lia].
  rewrite <- (zlen_app pre (c :: h)), Z.ltb_irrefl. destruct fuel; cbn [headers]; by rewrite Z.ltb_irrefl.
Qed.

Definition status_value (a b c : Z) : Z := 100 * (a - 48) + 10 * (b - 48) + (c - 48).

Lemma status_digits a b c : digit_c a -> digit_c b -> digit_c c ->
  exists v, atoi [a; b; c; 0] = Ok v /\ u16 v = status_value a b c.
Proof.
  intros Ha Hb Hc. assert (Hd : Forall digit_c [a; b; c]) by (by repeat apply Forall_cons_2).
  eexists. split; [exact (atoi_string [a; b; c] [] Hd)|].
  unfold digits_int, digit_c, status_value in *. cbn [fold_left].
  rewrite (i32_id (0 * 10 + (a - 48))) by (unfold is_i32; lia).
  rewrite (i32_id ((0 * 10 + (a - 48)) * 10 + (b - 48))) by (unfold is_i32; lia).
  rewrite !i32_id by (unfold is_i32; rewrite ?i32_id by (unfold is_i32; lia); lia).
  rewrite u16_id by (unfold is_u16; lia). lia.
Qed.

(** The status line. *)
Definition status_line (ver : list Z) (a b c : Z) (reason : list Z) : list Z := ver ++ 32 :: a :: b :: c :: reason ++ [10].

Lemma status_line_length ver a b c reason : zlen (status_line ver a b c reason) = zlen ver + zlen reason + 5.
Proof. unfold status_line. unfold zlen. rewrite length_app. cbn [length]. rewrite length_app. cbn [length]. lia. Qed.

Lemma parse_run ver a b c reason tail buflen resp h i cl :
  let pre := status_line ver a b c reason in let buf := pre ++ tail in
  let j := if i <? buflen then i + 1 else i in let n := buflen - j in
  Forall (fun x => x <> 32) ver -> digit_c a -> digit_c b -> digit_c c -> Forall (fun x => x <> 10) reason ->
  12 <= buflen < 65536 -> zlen pre <= buflen <= zlen buf ->
  headers (Z.to_nat (buflen - zlen pre)) buf buflen (zlen pre) 0 = Ok (i, cl) -> zlen pre <= i <= buflen ->
  heap_wf h -> heap_ptr h + (n + 1) < HEAP_END ->
  exists h', http_client_parse_response buf buflen resp h =
    Ok (0, HttpResponse (status_value a b c) cl (Some (heap_ptr h, slice buf j n ++ [0])) n, h').
Proof.
  intros pre buf j n Hver Ha Hb Hc Hre Hbl Hpre Hh Hi Hwf Hroom.
  assert (Hzp : zlen pre = zlen ver + zlen reason + 5) by apply status_line_length.
  pose proof (zlen_nonneg ver). pose proof (zlen_nonneg reason).
  assert (B1 : buf = [] ++ ver ++ 32 :: a :: b :: c :: reason ++ 10 :: tail).
  { unfold buf, pre, status_line. cbn [app]. rewrite <- app_assoc. cbn [app]. rewrite <- app_assoc. done. }
  assert (B2 : buf = (ver ++ [32; a; b; c]) ++ reason ++ 10 :: tail).
  { rewrite B1. cbn [app]. rewrite <- app_assoc. done. }
  assert (Hz4 : zlen (ver ++ [32; a; b; c]) = zlen ver + 4) by (by rewrite zlen_app).
  unfold http_client_parse_response. rewrite (proj2 (Z.ltb_ge buflen 12)) by lia.
  assert (S1 : skip buf buflen 32 0 = Ok (zlen ver)).
  { rewrite B1. change (zlen ver) with (0 + zlen ver). change 0 with (zlen (@nil Z)).
    apply skip_line; [done|change (zlen (@nil Z)) with 0; lia|].
    right. change (zlen (@nil Z)) with 0. split; [lia|by eexists]. }
  rewrite S1, bind_ret. cbv beta. rewrite (proj2 (Z.leb_gt _ _)) by lia. cbv zeta.
  rewrite (proj2 (Z.ltb_ge _ _)) by lia.
  assert (R1 : rd buf (zlen ver + 1) = Ok a).
  { rewrite B1. replace (zlen ver + 1) with (zlen (ver ++ [32])) by (by rewrite zlen_app).
    cbn [app]. change (ver ++ 32 :: a :: ?x) with (ver ++ [32] ++ a :: x). rewrite app_assoc. apply rd_mid. }
  assert (R2 : rd buf (zlen ver + 1 + 1) = Ok b).
  { rewrite B1. replace (zlen ver + 1 + 1) with (zlen (ver ++ [32; a])) by (rewrite zlen_app; change (zlen [32; a]) with 2; lia).
    cbn [app]. change (ver ++ 32 :: a :: b :: ?x) with (ver ++ [32; a] ++ b :: x). rewrite app_assoc. apply rd_mid. }
  assert (R3 : rd buf (zlen ver + 1 + 2) = Ok c).
  { rewrite B1. replace (zlen ver + 1 + 2) with (zlen (ver ++ [32; a; b])) by (rewrite zlen_app; change (zlen [32; a; b]) with 3; lia).
    cbn [app]. change (ver ++ 32 :: a :: b :: c :: ?x) with (ver ++ [32; a; b] ++ c :: x). rewrite app_assoc. apply rd_mid. }
  rewrite R1, bind_ret, R2, bind_ret, R3, bind_ret.
  destruct (status_digits a b c Ha Hb Hc) as (v & -> & Hv). rewrite bind_ret, Hv.
  assert (S2 : skip buf buflen 10 (zlen ver + 1 + 3) = Ok (zlen ver + 4 + zlen reason)).
  { rewrite B2, <- Hz4. apply skip_line; [done|lia|]. right. split; [lia|by eexists]. }
  rewrite S2, bind_ret. rewrite (proj2 (Z.leb_gt _ _)) by lia.
  replace (zlen ver + 4 + zlen reason + 1) with (zlen pre) by lia. rewrite Hh, bind_ret. cbv beta iota.
  fold j. assert (Hj : 0 <= j <= buflen) by (unfold j; destruct (Z.ltb_spec i buflen); lia).
  assert (Hn : 0 <= n < 65536) by (unfold n; lia).
  rewrite u32_id by (unfold is_u32; lia). fold n.
  rewrite (malloc_ok (n + 1) h) by (try done; unfold MALLOC_SAFE, HEAP_END, HEAP_START, HEAP_SIZE; lia).
  unfold heap_wf, HEAP_START in Hwf. unfold NULL. rewrite (proj2 (Z.eqb_neq (heap_ptr h) 0)) by lia.
  rewrite u16_id by (unfold is_u16; lia).
  pose proof (fresh_block_length (heap_ptr h) (n + 1) h ltac:(lia)) as Hf.
  rewrite memcpy_spec; [|unfold zlen in Hf; lia|rewrite length_drop; unfold zlen in *; lia]. rewrite bind_ret.
  change (take (Z.to_nat n) (drop (Z.to_nat j) buf)) with (slice buf j n).
  destruct (drop (Z.to_nat n) (fresh_block (heap_ptr h) (n + 1) h)) as [|x [|y l]] eqn:Ed;
    apply (f_equal length) in Ed; rewrite length_drop in Ed; cbn [length] in Ed; try (unfold zlen in Hf; lia).
  assert (Hsl : zlen (slice buf j n) = n) by (apply zlen_slice; unfold n in *; lia).
  assert (Hw : forall l, zlen l = n -> wr (l ++ [x]) n 0 = Ok (l ++ [0])) by (intros l <-; apply wr_mid).
  rewrite (Hw _ Hsl), bind_ret. by eexists.
Qed.

(** ** Properties *)

(** The dotted decimal text of an address parses back to its four octets, whatever
    follows the string; the same loop serves [ping]. *)
Lemma quad_roundtrip a b c d r octets :
  is_u8 a -> is_u8 b -> is_u8 c -> is_u8 d -> length octets = 4%nat ->
  parse_quad (cstr (quad_text a b c d) r) octets = Ok (Some [a; b; c; d]).
Proof. apply parse_quad_text. Qed.

Lemma quad_roundtrip_witness :
  parse_quad (chars "192.168.1.100" ++ [0; 55]) [9; 9; 9; 9] = Ok (Some [192; 168; 1; 100]).
Proof. apply (@quad_roundtrip 192 168 1 100 [55] [9; 9; 9; 9]); (by vm_compute) || done. Defined.

(** The response the server builds is the status line with the number and its message,
    the two headers, the body, the count of requests and the closing tags, and it
    fits its 512 bytes for any status and any body of up to 390 characters. *)
Lemma response_fits status served b r response status_text count_str :
  is_u16 status -> is_u32 served -> served <> 2 ^ 31 -> nul_free b -> (length b <= 390)%nat ->
  length response = 512%nat -> length status_text = 32%nat -> length count_str = 16%nat ->
  exists response' count_str', build_response status served (cstr b r) response status_text count_str = Ok (response', count_str') /\
    holds 512 response' (response_text status (i32 served) b) /\ length count_str' = 16%nat.
Proof.
  intros Hst Hsv Hne. unfold is_u16, is_u32 in *. apply build_response_spec; [lia|].
  unfold i32. Z.to_euclidean_division_equations. lia.
Qed.

Lemma response_fits_witness :
  exists response' count_str', build_response 200 7 html_response (replicate 512 1) (replicate 32 2) (replicate 16 3) = Ok (response', count_str') /\
    holds 512 response' (response_text 200 7 (removelast html_response)) /\ length count_str' = 16%nat.
Proof.
  apply (@response_fits 200 7 (removelast html_response) []); try (by vm_compute) || done.
  - by apply nul_free_lit.
  - cbn. lia.
Defined.

(** A response whose lines end in single line feeds is parsed: the status code, the
    value of the last Content-Length header, and a copy of the body, terminated,
    on the heap.  What the buffer holds behind the response does not matter. *)
Lemma parse_response_lf ver a b c reason hs bdy junk resp h :
  let buf := status_line ver a b c reason ++ lines hs ++ 10 :: bdy ++ junk in
  let buflen := zlen (status_line ver a b c reason ++ lines hs ++ 10 :: bdy) in
  Forall (fun x => x <> 32) ver -> digit_c a -> digit_c b -> digit_c c -> Forall (fun x => x <> 10) reason ->
  Forall line_ok hs -> 12 <= buflen < 65536 -> heap_wf h -> heap_ptr h + (zlen bdy + 1) < HEAP_END ->
  exists h', http_client_parse_response buf buflen resp h =
    Ok (0, HttpResponse (status_value a b c) (fold_left (fun cl x => header_length x cl) hs 0)
             (Some (heap_ptr h, bdy ++ [0])) (zlen bdy), h').
Proof.
  intros buf buflen Hver Ha Hb Hc Hre Hhs Hbl Hwf Hroom. set (pre := status_line ver a b c reason) in *.
  pose proof (zlen_nonneg bdy). pose proof (zlen_nonneg junk). pose proof (zlen_nonneg (lines hs)).
  assert (Hz : buflen = zlen (pre ++ lines hs) + 1 + zlen bdy).
  { unfold buflen. rewrite app_assoc, zlen_app. unfold zlen at 2. cbn [length]. unfold zlen. lia. }
  assert (Hbuf : zlen buf = buflen + zlen junk).
  { unfold buf. rewrite app_assoc, zlen_app, Hz. unfold zlen. cbn [length]. rewrite !length_app. lia. }
  assert (Hlen : (length hs <= length (lines hs))%nat).
  { clear. induction hs as [|x hs IH]; [done|]. rewrite lines_cons, length_app. cbn [length]. lia. }
  assert (Hhead : headers (Z.to_nat (buflen - zlen pre)) buf buflen (zlen pre) 0 =
    Ok (zlen (pre ++ lines hs), fold_left (fun cl x => header_length x cl) hs 0)).
  { unfold buf. rewrite (headers_lines buflen hs _ pre (10 :: bdy ++ junk) 0); [|done|lia|fold buf; lia|].
    - apply headers_blank. lia.
    - rewrite zlen_app in Hz. unfold zlen in *. lia. }
  rewrite zlen_app in Hz.
  destruct (parse_run ver a b c reason (lines hs ++ 10 :: bdy ++ junk) buflen resp h (zlen (pre ++ lines hs))
    (fold_left (fun cl x => header_length x cl) hs 0) Hver Ha Hb Hc Hre Hbl) as (h' & E); [fold pre; fold buf; lia|exact Hhead|fold pre; rewrite zlen_app; lia|done| |].
  - rewrite (proj2 (Z.ltb_lt _ _)) by (rewrite zlen_app; lia). rewrite zlen_app. lia.
  - exists h'. fold pre buf in E. rewrite E. rewrite (proj2 (Z.ltb_lt _ _)) by (rewrite zlen_app; lia).
    rewrite zlen_app. replace (buflen - (zlen pre + zlen (lines hs) + 1)) with (zlen bdy) by lia.
    do 6 f_equal.
    assert (Eb : buf = (pre ++ lines hs ++ [10]) ++ bdy ++ junk) by (unfold buf; rewrite <- !app_assoc; done).
    rewrite Eb. replace (zlen pre + zlen (lines hs) + 1) with (zlen (pre ++ lines hs ++ [10]))
      by (rewrite !zlen_app; change (zlen [10]) with 1; lia).
    by rewrite slice_mid.
Qed.

Lemma parse_response_lf_witness :
  exists h', http_client_parse_response
      (chars "HTTP/1.0 200 OK" ++ [10] ++ chars "Server: x" ++ [10] ++ chars "Content-Length: 2" ++ [10; 10] ++ chars "hi" ++ [7; 7])
      (15 + 1 + 9 + 1 + 17 + 2 + 2) zero_response (Heap HEAP_START (fun _ => 0)) =
    Ok (0, HttpResponse 200 2 (Some (HEAP_START, chars "hi" ++ [0])) 2, h').
Proof.
  apply (@parse_response_lf (chars "HTTP/1.0") 50 48 48 (chars " OK") [chars "Server: x"; chars "Content-Length: 2"] (chars "hi") [7; 7]
    zero_response (Heap HEAP_START (fun _ => 0))).
  - apply (bool_decide_unpack _). vm_compute. exact I.
  - unfold digit_c. lia.
  - unfold digit_c. lia.
  - unfold digit_c. lia.
  - apply (bool_decide_unpack _). vm_compute. exact I.
  - repeat constructor; discriminate || lia.
  - by vm_compute.
  - by vm_compute.
  - by vm_compute.
Defined.

Lemma lines_app hs ls : lines (hs ++ ls) = lines hs ++ lines ls.
Proof. unfold lines. by rewrite fmap_app, join_app. Qed.

Definition cr (h : list Z) : list Z := h ++ [13].

(** In a response with the line ends of the standard the parser takes the empty line
    for a header, because it does not start with a line feed, and goes on into the
    body: unless the body has an empty line of its own, nothing of it is
    delivered, and the call reports success. *)
Lemma crlf_body_lost ver a b c reason hs ls last junk resp h :
  let bdy := lines ls ++ last in
  let text := status_line ver a b c (cr reason) ++ lines (cr <$> hs) ++ [13; 10] ++ bdy in
  Forall (fun x => x <> 32) ver -> digit_c a -> digit_c b -> digit_c c -> Forall (fun x => x <> 10) reason ->
  Forall (Forall (fun x => x <> 10)) hs -> Forall line_ok ls -> Forall (fun x => x <> 10) last ->
  12 <= zlen text < 65536 -> heap_wf h -> heap_ptr h + 1 < HEAP_END ->
  exists cl h', http_client_parse_response (text ++ junk) (zlen text) resp h =
    Ok (0, HttpResponse (status_value a b c) cl (Some (heap_ptr h, [0])) 0, h').
Proof.
  intros bdy text Hver Ha Hb Hc Hre Hhs Hls Hlast Hbl Hwf Hroom.
  set (pre := status_line ver a b c (cr reason)) in *. set (all := (cr <$> hs) ++ [[13]] ++ ls).
  assert (Ht : text = pre ++ lines all ++ last).
  { unfold text, bdy, all. rewrite !lines_app. change (lines [[13]]) with [13; 10]. by rewrite <- !app_assoc. }
  pose proof (zlen_nonneg junk). pose proof (zlen_nonneg last). pose proof (zlen_nonneg (lines all)).
  assert (Hall : Forall line_ok all).
  { unfold all. apply Forall_app. split; [|apply Forall_cons; split; [split; [done|repeat constructor; lia]|done]].
    apply Forall_fmap. eapply Forall_impl; [exact Hhs|]. intros x Hx. cbn. split; [by destruct x|].
    apply Forall_app. split; [done|]. repeat constructor; lia. }
  assert (Hre' : Forall (fun x => x <> 10) (cr reason)) by (apply Forall_app; split; [done|repeat constructor; lia]).
  assert (Hlen : (length all <= length (lines all))%nat).
  { clear. induction all as [|x l IH]; [done|]. rewrite lines_cons, length_app. cbn [length]. lia. }
  assert (Hz : zlen text = zlen pre + zlen (lines all) + zlen last) by (rewrite Ht, !zlen_app; lia).
  assert (Hbuf : text ++ junk = pre ++ lines all ++ last ++ junk) by (rewrite Ht, <- !app_assoc; done).
  assert (Hhead : exists cl, headers (Z.to_nat (zlen text - zlen pre)) (text ++ junk) (zlen text) (zlen pre) 0 = Ok (zlen text, cl)).
  { rewrite Hbuf, (headers_lines (zlen text) all _ pre (last ++ junk) 0); [|done|rewrite zlen_app; lia|rewrite !zlen_app; lia|].
    - assert (He : zlen text = zlen ((pre ++ lines all) ++ last)) by (rewrite !zlen_app; lia). rewrite He.
      apply headers_end; [done|]. unfold zlen in *. lia.
    - unfold zlen in *. lia. }
  destruct Hhead as [cl Hhead]. rewrite Hbuf in Hhead.
  destruct (parse_run ver a b c (cr reason) (lines all ++ last ++ junk) (zlen text) resp h (zlen text) cl
    Hver Ha Hb Hc Hre' Hbl) as (h' & E); [fold pre; rewrite !zlen_app; lia|exact Hhead|fold pre; lia|done| |].
  - rewrite Z.ltb_irrefl, Z.sub_diag. lia.
  - exists cl, h'. rewrite Hbuf. fold pre in E. rewrite E, Z.ltb_irrefl, Z.sub_diag. done.
Qed.

Lemma crlf_body_lost_witness :
  exists cl h', http_client_parse_response
      ((chars "HTTP/1.1 200 OK" ++ [13; 10] ++ chars "Content-Length: 5" ++ [13; 10; 13; 10] ++ chars "hello") ++ [7; 7])
      (17 + 19 + 2 + 5) zero_response (Heap HEAP_START (fun _ => 0)) =
    Ok (0, HttpResponse 200 cl (Some (HEAP_START, [0])) 0, h').
Proof.
  apply (@crlf_body_lost (chars "HTTP/1.1") 50 48 48 (chars " OK") [chars "Content-Length: 5"] [] (chars "hello") [7; 7]
    zero_response (Heap HEAP_START (fun _ => 0))).
  - apply (bool_decide_unpack _). vm_compute. exact I.
  - unfold digit_c. lia.
  - unfold digit_c. lia.
  - unfold digit_c. lia.
  - apply (bool_decide_unpack _). vm_compute. exact I.
  - apply (bool_decide_unpack _). vm_compute. exact I.
  - constructor.
  - apply (bool_decide_unpack _). vm_compute. exact I.
  - by vm_compute.
  - by vm_compute.
  - by vm_compute.
Defined.

(** With any address and path that fit the request, and in any reachable state of the
    sockets, [http_client_get] ends with -1 and an empty response: a stream
    socket is never connected by [connect], so the request is never sent.  The
    sockets it opened are closed again. *)
Lemma get_always_fails host port path r1 r2 request response_buf (s : sock_state) st :
  Rel s st -> st.2 + 1 < 2 ^ 31 - 1 -> nul_free host -> nul_free path ->
  zlen (request_text host path) < zlen request ->
  exists s', http_client_get (cstr host r1) port (Some (cstr path r2)) request response_buf s = Ok ((-1, zero_response), s') /\
    exists next, Rel s' (st.1, next).
Proof.
  intros HR Hmax Hh Hp Hfit. unfold http_client_get.
  assert (Hu : Forall is_u8 host) by (eapply Forall_impl; [exact Hh|by intros ? []]).
  destruct (parse_quad_total host r1 [0; 0; 0; 0] Hu eq_refl) as ([ip|] & Eq & _).
  2: { eexists. split; [|exists st.2; rewrite <- surjective_pairing; by apply rel_set_net].
       eapply lift_run; [exact Eq|]. eapply M_run; [apply say_run|]. reflexivity. }
  destruct (op_refines s st (OSocket AF_INET SOCK_STREAM IPPROTO_TCP) HR ltac:(lia)) as (s1 & E1 & R1).
  cbn [run_op] in E1. cbn [spec_op] in E1, R1. change (valid_args AF_INET SOCK_STREAM) with true in E1, R1.
  cbn [andb] in E1, R1.
  destruct (Z.of_nat (size st.1) <? MAX_SOCKETS); cbn [fst snd] in E1, R1.
  2: { eexists. split; [|exists st.2; rewrite <- surjective_pairing; apply rel_set_net, R1].
       eapply lift_run; [exact Eq|]. eapply M_run; [exact E1|]. eapply M_run; [apply say_run|]. reflexivity. }
  set (k := st.2) in *. set (v := View AF_INET SOCK_STREAM IPPROTO_TCP 0 SOCK_CREATED 0) in *.
  assert (Hk : 1 <= k).
  { pose proof (wf_next _ _ (rel_wf _ _ HR)) as Hn. by rewrite (rel_next _ _ HR) in Hn. }
  set (st1 := (<[k:=v]> st.1, k + 1)) in *.
  assert (Hfresh : st.1 !! k = None).
  { destruct (st.1 !! k) as [w|] eqn:E; [exfalso|done]. rewrite <- (rel_map _ _ HR) in E.
    apply (smap_Some _ _ _ _ (rel_wf _ _ HR)) in E as (i & x & Hx & _ & He). injection He as Hf _.
    pose proof (wf_fds _ _ (rel_wf _ _ HR)) as Hfd. rewrite Forall_forall in Hfd.
    specialize (Hfd x (list_elem_of_lookup_2 _ _ _ Hx)). cbv beta in Hfd. rewrite (rel_next _ _ HR) in Hfd.
    change (fd x < k) in Hfd. lia. }
  destruct (op_refines s1 st1 (OConnect k ip port) R1 ltac:(cbn; lia)) as (s2 & E2 & R2).
  cbn [run_op] in E2. cbn [spec_op] in E2, R2. unfold on_open in E2, R2. cbn [fst snd st1] in E2, R2.
  rewrite lookup_insert_eq in E2, R2. change (v_state v =? SOCK_CREATED) with true in E2, R2.
  change (v_type v =? SOCK_DGRAM) with false in E2, R2. cbv iota in E2, R2. cbn [fst snd] in E2, R2.
  rewrite insert_insert_eq in R2. set (w := with_state SOCK_CONNECTING v) in *.
  set (s3 := set_net s2 (out (Printed (chars "Failed to send request" ++ [10])) (s_net s2))).
  pose proof (rel_set_net _ _ (out (Printed (chars "Failed to send request" ++ [10])) (s_net s2)) R2) as R3.
  fold s3 in R3.
  destruct (op_refines s3 _ (OClose k) R3 ltac:(cbn; lia)) as (s4 & E4 & R4).
  cbn [run_op] in E4. cbn [spec_op] in E4, R4. unfold on_open in E4, R4. cbn [fst snd] in E4, R4.
  rewrite lookup_insert_eq in E4, R4. cbn [fst snd] in E4, R4.
  rewrite delete_insert_eq, delete_id in R4 by done.
  exists s4. split; [|by eexists].
  eapply lift_run; [exact Eq|]. eapply M_run; [exact E1|]. rewrite (proj2 (Z.ltb_ge k 0)) by lia.
  eapply M_run; [exact E2|]. change (0 <? 0) with false. cbv iota.
  eapply lift_run; [by apply build_request_spec|]. cbv beta iota.
  eapply M_run; [apply (send_not_connected s2 _ k w _ _ R2); [apply lookup_insert_eq|done]|].
  change (-1 <? 0) with true. cbv iota. eapply M_run; [apply say_run|].
  eapply M_run; [exact E4|]. reflexivity.
Qed.

Lemma get_always_fails_witness :
  exists s', http_client_get (chars "10.0.0.1" ++ [0]) 80 (Some (chars "/index" ++ [0])) (replicate 512 0) [] (boot_sockets ex_net) =
    Ok ((-1, zero_response), s') /\ exists next, Rel s' (∅, next).
Proof.
  apply (@get_always_fails (chars "10.0.0.1") 80 (chars "/index") [] [] (replicate 512 0) [] (boot_sockets ex_net) (∅, 1)).
  - apply boot_rel.
  - done.
  - by apply nul_free_lit.
  - by apply nul_free_lit.
  - by vm_compute.
Defined.

(** While no client is active, polling the server changes nothing, whatever its
    socket: [accept] never returns a connection, so no client ever becomes
    active. *)
Lemma http_serves_nobody addr port r1 r2 r3 (s : http_state) :
  length (sockets (h_sock s)) = 16%nat -> length (clients (http_server s)) = 4%nat ->
  Forall (fun c => active c = 0) (clients (http_server s)) ->
  http_server_poll addr port r1 r2 r3 s = Ok (tt, s).
Proof.
  intros Hl Hc Ha. unfold http_server_poll. eapply M_run; [reflexivity|].
  destruct (running (http_server s) =? 0); [done|].
  eapply M_run; [apply accept_clients_none; [done|unfold zlen, HTTP_MAX_CLIENTS; lia|done]|].
  apply handle_clients_none; [done|unfold zlen, HTTP_MAX_CLIENTS; lia|done].
Qed.

(** After a start on a fresh boot. *)
Lemma http_serves_nobody_witness :
  exists s, (http_server_init ;; http_server_start) (HttpState (HttpServer 0 0 [] 0) (boot_sockets ex_net)) = Ok (tt, s) /\
    running (http_server s) = 1 /\ http_server_poll 0 0 [] [] [] s = Ok (tt, s).
Proof.
  destruct ((http_server_init ;; http_server_start) (HttpState (HttpServer 0 0 [] 0) (boot_sockets ex_net)))
    as [[[] s]|e] eqn:E; [|vm_compute in E; discriminate].
  exists s. split; [reflexivity|].
  assert (Hs : Ok (tt, s) = (http_server_init ;; http_server_start) (HttpState (HttpServer 0 0 [] 0) (boot_sockets ex_net))) by done.
  assert (H4 : match (http_server_init ;; http_server_start) (HttpState (HttpServer 0 0 [] 0) (boot_sockets ex_net)) with
    | Ok (_, s) => running (http_server s) = 1 /\ length (sockets (h_sock s)) = 16%nat /\
        length (clients (http_server s)) = 4%nat /\ forallb (fun c => active c =? 0) (clients (http_server s)) = true
    | Err _ => False end) by (vm_compute; split_and!; reflexivity).
  rewrite <- Hs in H4. destruct H4 as (H1 & H2 & H3 & H4). split; [exact H1|].
  apply (@http_serves_nobody 0 0 [] [] [] s H2 H3). rewrite Forall_forall. intros c Hc.
  rewrite forallb_forall in H4. apply Z.eqb_eq, H4. by apply list_elem_of_In.
Defined.
