(* ===== verification/Ui.v ===== *)
(** * The full-screen user interface *)
(** [src/ui/ui.c]: header, footer and content area, drawn with the console of
    [Vga.v], and the buffer that is meant to let the content scroll. *)

From Stdlib Require Import String.
From S2P Require Import Prelude CString Ports Vga.
From S2P Require Net.

Definition UI_HEADER_HEIGHT : Z := 1.
Definition UI_FOOTER_HEIGHT : Z := 1.
Definition UI_CONTENT_ROWS : Z := 25 - UI_HEADER_HEIGHT - UI_FOOTER_HEIGHT.
Definition VGA_COLOR_BLACK : Z := 0.
Definition VGA_COLOR_BLUE : Z := 1.
Definition VGA_COLOR_LIGHT_GREY : Z := 7.
Definition VGA_COLOR_YELLOW : Z := 14.
Definition VGA_COLOR_WHITE : Z := 15.

Record ui_state_t := UiState { enabled : Z; show_cursor : Z; uptime_ticks : Z }.

Record ui := Ui {
  g_ui_state : ui_state_t;
  content_buffer : list Z;        (* char content_buffer[23 * 80] *)
  content_lines : Z;
  content_scroll : Z
}.

(** The interface and the console it draws on. *)
Record screen (P : Type) := Screen { u_ui : ui; u_vga : vga; u_ports : P }.
Arguments Screen {P} _ _ _.
Arguments u_ui {P} _. Arguments u_vga {P} _. Arguments u_ports {P} _.

Section Ui.
Context `{Bus P}.

(** The console calls. *)
Definition on_vga (f : vga -> P -> res (vga * P)) : M (screen P) unit := fun s =>
  match f (u_vga s) (u_ports s) with Ok (v, p) => Ok (tt, Screen (u_ui s) v p) | Err e => Err e end.
Definition write_char (c : Z) : M (screen P) unit := on_vga (vga_write_char c).
Definition write_string (str : list Z) : M (screen P) unit := on_vga (vga_write_string str).
Definition clear_screen : M (screen P) unit := on_vga vga_clear_screen.
Definition set_position (row col : Z) : M (screen P) unit := on_vga (fun v p => Ok (vga_set_position row col v p)).
Definition set_color (fg bg : Z) : M (screen P) unit := on_vga (fun v p => Ok (vga_set_color fg bg v, p)).

Definition set_ui (f : ui -> ui) : M (screen P) unit := fun s => Ok (tt, Screen (f (u_ui s)) (u_vga s) (u_ports s)).
Definition set_lines (n : Z) : M (screen P) unit :=
  set_ui (fun u => Ui (g_ui_state u) (content_buffer u) n (content_scroll u)).
Definition set_enabled (x : Z) : M (screen P) unit :=
  set_ui (fun u => Ui (UiState x (show_cursor (g_ui_state u)) (uptime_ticks (g_ui_state u)))
                      (content_buffer u) (content_lines u) (content_scroll u)).
Definition store (i c : Z) : M (screen P) unit := fun s =>
  match wr (content_buffer (u_ui s)) i c with
  | Ok b => set_ui (fun u => Ui (g_ui_state u) b (content_lines u) (content_scroll u)) s
  | Err e => Err e
  end.
Definition load (i : Z) : M (screen P) Z := fun s =>
  match rd (content_buffer (u_ui s)) i with Ok c => Ok (c, s) | Err e => Err e end.

Definition ui_init : M (screen P) unit := fun s =>
  Ok (tt, Screen (Ui (UiState 0 0 0) (replicate (length (content_buffer (u_ui s))) 0)
                     (content_lines (u_ui s)) (content_scroll (u_ui s))) (u_vga s) (u_ports s)).

(** [n] blanks, the loops that pad. *)
Fixpoint blanks (n : nat) : M (screen P) unit :=
  match n with O => mret tt | S n => write_char 32 ;; blanks n end.

Definition ui_draw_header : M (screen P) unit :=
  set_position 0 0 ;;
  set_color VGA_COLOR_WHITE VGA_COLOR_BLUE ;;
  write_string (lit "VlsOs OS") ;;
  blanks (80 - 8) ;;
  set_color VGA_COLOR_LIGHT_GREY VGA_COLOR_BLACK.

Definition ui_draw_footer (prompt : option (list Z)) : M (screen P) unit :=
  set_position 0 24 ;;
  set_color VGA_COLOR_YELLOW VGA_COLOR_BLACK ;;
  match prompt with Some t => write_string t | None => mret tt end ;;
  set_color VGA_COLOR_LIGHT_GREY VGA_COLOR_BLACK.

Definition ui_enable : M (screen P) unit :=
  set_enabled 1 ;;
  clear_screen ;;
  ui_draw_header ;;
  ui_draw_footer (Some (lit "vlsos> ")).

Definition ui_disable : M (screen P) unit :=
  set_enabled 0 ;;
  clear_screen ;;
  set_color VGA_COLOR_LIGHT_GREY VGA_COLOR_BLACK.

(** Rows [row] to 23. *)
Fixpoint clear_rows (n : nat) (row : Z) : M (screen P) unit :=
  match n with
  | O => mret tt
  | S n => set_position 0 row ;; blanks 80 ;; clear_rows n (row + 1)
  end.

Definition ui_clear_content : M (screen P) unit :=
  clear_rows 23 1 ;;
  set_position 0 1 ;;
  set_ui (fun u => Ui (g_ui_state u) (content_buffer u) 0 0).

Fixpoint shift_lines (n : nat) (i : Z) : M (screen P) unit :=
  match n with
  | O => mret tt
  | S n => c ← load (i + 80); store i c ;; shift_lines n (i + 1)
  end.

Fixpoint clear_cells (n : nat) (i : Z) : M (screen P) unit :=
  match n with O => mret tt | S n => store i 0 ;; clear_cells n (i + 1) end.

Fixpoint redraw_row (n : nat) (idx : Z) : M (screen P) unit :=
  match n with
  | O => mret tt
  | S n => c ← load idx; write_char (if c =? 0 then 32 else c) ;; redraw_row n (idx + 1)
  end.

Fixpoint redraw (n : nat) (row : Z) : M (screen P) unit :=
  match n with
  | O => mret tt
  | S n => set_position 0 row ;; redraw_row 80 ((row - 1) * 80) ;; redraw n (row + 1)
  end.

Definition ui_scroll_content : M (screen P) unit :=
  s ← getS;
  if content_lines (u_ui s) <? UI_CONTENT_ROWS then mret tt else
  shift_lines (Z.to_nat ((UI_CONTENT_ROWS - 1) * 80)) 0 ;;
  clear_cells 80 ((UI_CONTENT_ROWS - 1) * 80) ;;
  redraw 23 1.

(** [for (i = 0; text[i] && col < 80; i++)]: [col] is [i]. *)
Fixpoint print_chars (text : list Z) (line col : Z) : M (screen P) unit :=
  match text with
  | [] => liftR (Err OutOfBounds)
  | c :: text =>
      if (c =? 0) || (80 <=? col) then mret tt else
      write_char c ;;
      store (line * 80 + col) c ;;
      print_chars text line (col + 1)
  end.

Definition ui_print_content (text : option (list Z)) : M (screen P) unit :=
  match text with
  | None => mret tt
  | Some text =>
      s ← getS;
      let row := 1 + content_lines (u_ui s) in
      row ← (if 24 <=? row then ui_scroll_content ;; mret 23 else mret row);
      set_position 0 row ;;
      set_color VGA_COLOR_LIGHT_GREY VGA_COLOR_BLACK ;;
      print_chars text (content_lines (u_ui s)) 0 ;;
      let n := content_lines (u_ui s) + 1 in
      set_lines (if UI_CONTENT_ROWS <=? n then UI_CONTENT_ROWS - 1 else n)
  end.

(** [lines] are the pointers of the caller's array. *)
Fixpoint draw_lines (n : nat) (lines : list (option (list Z))) (i : Z) : M (screen P) unit :=
  match n with
  | O => mret tt
  | S n =>
      if i <? UI_CONTENT_ROWS then
        set_position 0 (1 + i) ;;
        set_color VGA_COLOR_LIGHT_GREY VGA_COLOR_BLACK ;;
        t ← liftR (rd lines i);
        match t with Some t => write_string t | None => mret tt end ;;
        draw_lines n lines (i + 1)
      else mret tt
  end.

Definition ui_draw_content (lines : list (option (list Z))) (line_count : Z) : M (screen P) unit :=
  ui_clear_content ;;
  draw_lines (Z.to_nat line_count) lines 0 ;;
  set_lines line_count.

(** [iface] is what [net_get_interface("eth0")] gives. *)
Definition ui_update_header (iface : option Net.net_interface_t) : M (screen P) unit :=
  set_position 0 0 ;;
  set_color VGA_COLOR_WHITE VGA_COLOR_BLUE ;;
  write_string (lit "VlsOs") ;;
  set_position 60 0 ;;
  write_string (match iface with
                | Some x => if Z.land (Net.flags x) 2 =? 0 then lit "[NET DOWN]" else lit "[NET UP]"
                | None => lit "[NET DOWN]"
                end) ;;
  set_color VGA_COLOR_LIGHT_GREY VGA_COLOR_BLACK.
End Ui.

(** ** The invariant *)

Create HintDb safe.

Record ui_wf (u : ui) : Prop := {
  uw_buffer : length (content_buffer u) = 1840%nat;
  uw_lines : 0 <= content_lines u < UI_CONTENT_ROWS
}.

Section Safety.
Context `{Bus P}.
Implicit Types (s : screen P).

(** A call that returns with the console well formed and leaves [Q] of the
    interface. *)
Definition safe_for (Q : ui -> Prop) (m : M (screen P) unit) : Prop := forall s,
  vga_wf (u_vga s) -> Q (u_ui s) -> exists s', m s = Ok (tt, s') /\ vga_wf (u_vga s') /\ Q (u_ui s').

Lemma safe_done Q : safe_for Q (mret tt).
Proof. intros s ? ?. by exists s. Qed.

Lemma safe_seq Q m1 m2 : safe_for Q m1 -> safe_for Q m2 -> safe_for Q (m1 ;; m2).
Proof.
  intros H1 H2 s Hv Hq. destruct (H1 s Hv Hq) as (s1 & E1 & Hv1 & Hq1).
  destruct (H2 s1 Hv1 Hq1) as (s2 & E2 & ?). exists s2. split; [|done]. by eapply M_run.
Qed.

Lemma safe_write_char Q c : safe_for Q (write_char c).
Proof.
  intros s Hv Hq. destruct (write_char_spec c (u_vga s) (u_ports s) Hv) as (v & E & Hv' & _).
  unfold write_char, on_vga. rewrite E. eexists. split; [done|]. by split.
Qed.

Lemma safe_write_string Q t : (exists str r, t = cstr str r /\ nul_free str) -> safe_for Q (write_string t).
Proof.
  intros (str & r & -> & Hn) s Hv Hq.
  destruct (write_string_spec str (u_vga s) (u_ports s) r Hv) as (v & p & E & Hv' & _).
  { eapply Forall_impl; [exact Hn|by intros ? []]. }
  unfold write_string, on_vga. rewrite E. eexists. split; [done|]. by split.
Qed.

Lemma safe_lit Q t : nul_free (chars t) -> safe_for Q (write_string (lit t)).
Proof. intros. apply safe_write_string. by exists (chars t), []. Qed.

Lemma safe_set_position Q row col : safe_for Q (set_position row col).
Proof.
  intros s [Hb Hx Hy] Hq. unfold set_position, on_vga, vga_set_position, VGA_HEIGHT, VGA_WIDTH in *.
  destruct (_ && _) eqn:E; eexists; (split; [done|]); (split; [|done]); constructor; cbn; unfold VGA_WIDTH, VGA_HEIGHT; try done; lia.
Qed.

Lemma safe_set_color Q fg bg : safe_for Q (set_color fg bg).
Proof. intros s [Hb Hx Hy] Hq. eexists. split; [done|]. by split; [constructor|]. Qed.

Lemma safe_set_ui (Q : ui -> Prop) f : (forall u, Q u -> Q (f u)) -> safe_for Q (set_ui f).
Proof. intros Hf s Hv Hq. eexists. split; [done|]. split; [done|]. by apply Hf. Qed.

Lemma safe_clear_screen Q : safe_for Q clear_screen.
Proof.
  intros s [Hb Hx Hy] Hq. unfold clear_screen, on_vga.
  destruct (clear_screen_wf (u_vga s) (u_ports s) Hb) as (v & q & -> & Hv & _). eexists. split; [done|]. by split.
Qed.

Hint Resolve safe_done safe_seq safe_write_char safe_set_position safe_set_color safe_clear_screen : safe.

Lemma safe_blanks Q n : safe_for Q (blanks n).
Proof. induction n as [|n IH]; cbn [blanks]; auto with safe. Qed.

Hint Resolve safe_blanks : safe.

Lemma safe_header Q : safe_for Q ui_draw_header.
Proof.
  unfold ui_draw_header. repeat apply safe_seq; auto with safe.
  apply safe_lit. apply (bool_decide_unpack _). vm_compute. exact I.
Qed.

Definition text_ok (t : option (list Z)) : Prop :=
  match t with Some t => exists str r, t = cstr str r /\ nul_free str | None => True end.

Lemma safe_footer Q t : text_ok t -> safe_for Q (ui_draw_footer t).
Proof.
  intros Ht. unfold ui_draw_footer. repeat apply safe_seq; auto with safe.
  destruct t; [by apply safe_write_string|auto with safe].
Qed.

Lemma prompt_ok : text_ok (Some (lit "vlsos> ")).
Proof. exists (chars "vlsos> "), []. split; [done|]. apply (bool_decide_unpack _). vm_compute. exact I. Qed.

Lemma safe_enabled x : safe_for ui_wf (set_enabled x).
Proof. apply safe_set_ui. by intros u []. Qed.

Lemma safe_lines n : 0 <= n < UI_CONTENT_ROWS -> safe_for ui_wf (set_lines n).
Proof. intros Hn. apply safe_set_ui. by intros u []. Qed.

Lemma safe_enable : safe_for ui_wf ui_enable.
Proof.
  apply safe_seq; [apply safe_enabled|]. apply safe_seq; [auto with safe|].
  apply safe_seq; [apply safe_header|apply safe_footer, prompt_ok].
Qed.

Lemma safe_disable : safe_for ui_wf ui_disable.
Proof. unfold ui_disable. repeat apply safe_seq; auto using safe_enabled with safe. Qed.

Lemma safe_clear_rows Q n : forall row, safe_for Q (clear_rows n row).
Proof. induction n as [|n IH]; intros row; cbn [clear_rows]; auto with safe. Qed.

Lemma safe_clear_content : safe_for ui_wf ui_clear_content.
Proof.
  apply safe_seq; [apply safe_clear_rows|]. apply safe_seq; [auto with safe|].
  apply safe_set_ui. intros u []. constructor; [done|]. cbn. unfold UI_CONTENT_ROWS, UI_HEADER_HEIGHT, UI_FOOTER_HEIGHT. lia.
Qed.

(** With the buffer of 1840 cells alone: the part the scrolling needs. *)
Definition buffer_wf (u : ui) : Prop := length (content_buffer u) = 1840%nat.

Lemma safe_store i c : 0 <= i < 1840 -> safe_for buffer_wf (store i c).
Proof.
  intros Hi s Hv Hb. unfold store. unfold buffer_wf in Hb. rewrite wr_in by (unfold zlen; lia).
  eexists. split; [done|]. split; [done|]. unfold buffer_wf. cbn. by rewrite length_insert.
Qed.

Lemma safe_load Q i (f : Z -> M (screen P) unit) : 0 <= i < 1840 -> (forall u, Q u -> buffer_wf u) ->
  (forall c, safe_for Q (f c)) -> safe_for Q (c ← load i; f c).
Proof.
  intros Hi HQ Hf s Hv Hq. pose proof (HQ _ Hq) as Hb. unfold buffer_wf in Hb.
  destruct (rd_total (content_buffer (u_ui s)) i) as [c Hc]; [unfold zlen; lia|].
  destruct (Hf c s Hv Hq) as (s' & E & ?). exists s'. split; [|done].
  eapply M_run; [unfold load; by rewrite Hc|done].
Qed.

Lemma safe_shift n : forall i, 0 <= i -> i + Z.of_nat n + 80 <= 1840 -> safe_for buffer_wf (shift_lines n i).
Proof.
  induction n as [|n IH]; intros i Hi Hn; cbn [shift_lines]; [auto with safe|].
  apply safe_load; [lia|done|]. intros c. apply safe_seq; [apply safe_store; lia|apply IH; lia].
Qed.

Lemma safe_clear_cells n : forall i, 0 <= i -> i + Z.of_nat n <= 1840 -> safe_for buffer_wf (clear_cells n i).
Proof.
  induction n as [|n IH]; intros i Hi Hn; cbn [clear_cells]; [auto with safe|].
  apply safe_seq; [apply safe_store; lia|apply IH; lia].
Qed.

Lemma safe_redraw_row n : forall i, 0 <= i -> i + Z.of_nat n <= 1840 -> safe_for buffer_wf (redraw_row n i).
Proof.
  induction n as [|n IH]; intros i Hi Hn; cbn [redraw_row]; [auto with safe|].
  apply safe_load; [lia|done|]. intros c. apply safe_seq; [auto with safe|apply IH; lia].
Qed.

Lemma safe_redraw n : forall row, 1 <= row -> row + Z.of_nat n <= 24 -> safe_for buffer_wf (redraw n row).
Proof.
  induction n as [|n IH]; intros row Hr Hn; cbn [redraw]; [auto with safe|].
  apply safe_seq; [auto with safe|]. apply safe_seq; [apply safe_redraw_row; lia|apply IH; lia].
Qed.

Lemma safe_scroll : safe_for buffer_wf ui_scroll_content.
Proof.
  intros s Hv Hb. unfold ui_scroll_content. change (Z.to_nat ((UI_CONTENT_ROWS - 1) * 80)) with 1760%nat.
  assert (Hs : safe_for buffer_wf (shift_lines 1760 0 ;; clear_cells 80 ((UI_CONTENT_ROWS - 1) * 80) ;; redraw 23 1)).
  { apply safe_seq; [apply safe_shift; lia|]. apply safe_seq; [|apply safe_redraw; lia].
    change ((UI_CONTENT_ROWS - 1) * 80) with 1760. apply safe_clear_cells; lia. }
  destruct (content_lines (u_ui s) <? UI_CONTENT_ROWS) eqn:E.
  - exists s. split; [|done]. eapply M_run; [done|]. by rewrite E.
  - destruct (Hs s Hv Hb) as (s' & E' & ?). exists s'. split; [|done]. eapply M_run; [done|]. rewrite E. exact E'.
Qed.

Lemma safe_print_chars text r : forall line col, nul_free text -> 0 <= line < 23 -> 0 <= col ->
  safe_for ui_wf (print_chars (cstr text r) line col).
Proof.
  induction text as [|c text IH]; intros line col Hn Hl Hc; cbn [cstr app print_chars]; [apply safe_done|].
  apply Forall_cons in Hn as [_ Hn]. destruct ((c =? 0) || (80 <=? col)) eqn:E; [apply safe_done|].
  apply orb_false_iff in E as [_ E%Z.leb_gt]. apply safe_seq; [auto with safe|].
  apply safe_seq; [|by apply IH; [|lia|lia]].
  intros s Hv [Hb Hu]. unfold store. rewrite wr_in by (unfold zlen; lia).
  eexists. split; [done|]. split; [done|]. constructor; [cbn; by rewrite length_insert|done].
Qed.

Lemma scroll_idle s : ui_wf (u_ui s) -> ui_scroll_content s = Ok (tt, s).
Proof.
  intros [_ Hl]. unfold ui_scroll_content. eapply M_run; [done|]. by rewrite (proj2 (Z.ltb_lt _ _)) by lia.
Qed.

Lemma safe_print_content t : text_ok t -> safe_for ui_wf (ui_print_content t).
Proof.
  destruct t as [t|]; [|intros _; apply safe_done]. intros (str & r & -> & Hn) s Hv Hu.
  pose proof Hu as [_ Hl]. unfold UI_CONTENT_ROWS, UI_HEADER_HEIGHT, UI_FOOTER_HEIGHT in Hl.
  assert (Hs : safe_for ui_wf (set_position 0 (1 + content_lines (u_ui s)) ;;
    set_color VGA_COLOR_LIGHT_GREY VGA_COLOR_BLACK ;;
    print_chars (cstr str r) (content_lines (u_ui s)) 0 ;;
    set_lines (if UI_CONTENT_ROWS <=? content_lines (u_ui s) + 1 then UI_CONTENT_ROWS - 1 else content_lines (u_ui s) + 1))).
  { apply safe_seq; [auto with safe|]. apply safe_seq; [auto with safe|].
    apply safe_seq; [apply safe_print_chars; done || lia|]. apply safe_lines.
    unfold UI_CONTENT_ROWS, UI_HEADER_HEIGHT, UI_FOOTER_HEIGHT. destruct (_ <=? _) eqn:E; lia. }
  destruct (Hs s Hv Hu) as (s' & E & ?). exists s'. split; [|done]. unfold ui_print_content.
  eapply M_run; [done|]. rewrite (proj2 (Z.leb_gt 24 (1 + content_lines (u_ui s)))) by lia. eapply M_run; [done|]. exact E.
Qed.

Lemma safe_draw_lines n lines : Forall text_ok lines -> forall i, 0 <= i -> i + Z.of_nat n <= zlen lines ->
  safe_for ui_wf (draw_lines n lines i).
Proof.
  intros Hok. induction n as [|n IH]; intros i Hi Hn; cbn [draw_lines]; [apply safe_done|].
  destruct (i <? UI_CONTENT_ROWS); [|apply safe_done].
  apply safe_seq; [auto with safe|]. apply safe_seq; [auto with safe|].
  destruct (rd_total lines i) as [t Ht]; [lia|]. intros s Hv Hu.
  assert (Hs : safe_for ui_wf (match t with Some t => write_string t | None => mret tt end ;; draw_lines n lines (i + 1))).
  { apply safe_seq; [|apply IH; lia]. apply rd_Ok, zget_Some in Ht as [_ Ht].
    pose proof (Forall_lookup_1 _ _ _ _ Hok Ht) as Htok. destruct t; [by apply safe_write_string|apply safe_done]. }
  destruct (Hs s Hv Hu) as (s' & E & ?). exists s'. split; [|done].
  eapply lift_run; [exact Ht|exact E].
Qed.

Lemma safe_draw_content lines n : Forall text_ok lines -> 0 <= n <= zlen lines -> n < UI_CONTENT_ROWS ->
  safe_for ui_wf (ui_draw_content lines n).
Proof.
  intros Hok Hn Hlt. apply safe_seq; [apply safe_clear_content|]. apply safe_seq; [apply safe_draw_lines; done || lia|].
  apply safe_lines. lia.
Qed.

Lemma safe_update_header iface : safe_for ui_wf (ui_update_header iface).
Proof.
  apply safe_seq; [auto with safe|]. apply safe_seq; [auto with safe|].
  apply safe_seq; [apply safe_lit; apply (bool_decide_unpack _); vm_compute; exact I|].
  apply safe_seq; [auto with safe|]. apply safe_seq; [|auto with safe].
  destruct iface as [x|]; [destruct (_ =? 0)|]; apply safe_lit; apply (bool_decide_unpack _); vm_compute; exact I.
Qed.
End Safety.

(** ** Runs of the interface *)

Inductive ui_op :=
| UiEnable
| UiDisable
| UiFooter (prompt : option (list Z))
| UiClear
| UiScroll
| UiPrint (text : option (list Z))
| UiDraw (lines : list (option (list Z))) (line_count : Z)
| UiUpdate (iface : option Net.net_interface_t).

Definition ui_op_ok (op : ui_op) : Prop :=
  match op with
  | UiFooter t | UiPrint t => text_ok t
  | UiDraw lines n => Forall text_ok lines /\ 0 <= n <= zlen lines /\ n < UI_CONTENT_ROWS
  | _ => True
  end.

Section Runs.
Context `{Bus P}.

Definition ui_step (op : ui_op) : M (screen P) unit :=
  match op with
  | UiEnable => ui_enable
  | UiDisable => ui_disable
  | UiFooter t => ui_draw_footer t
  | UiClear => ui_clear_content
  | UiScroll => ui_scroll_content
  | UiPrint t => ui_print_content t
  | UiDraw lines n => ui_draw_content lines n
  | UiUpdate iface => ui_update_header iface
  end.

Fixpoint ui_run (ops : list ui_op) : M (screen P) unit :=
  match ops with [] => mret tt | op :: ops => ui_step op ;; ui_run ops end.

Lemma ui_step_safe op : ui_op_ok op -> safe_for ui_wf (ui_step op).
Proof.
  destruct op as [| |t| | |t|lines n|iface]; cbn [ui_op_ok ui_step]; intros Hok.
  - apply safe_enable.
  - apply safe_disable.
  - by apply safe_footer.
  - apply safe_clear_content.
  - intros s Hv Hu. exists s. split; [by apply scroll_idle|done].
  - by apply safe_print_content.
  - destruct Hok as (? & ? & ?). by apply safe_draw_content.
  - apply safe_update_header.
Qed.

Lemma ui_run_safe ops : Forall ui_op_ok ops -> safe_for ui_wf (ui_run ops).
Proof.
  induction 1 as [|op ops Hop _ IH]; cbn [ui_run]; [apply safe_done|]. by apply safe_seq; [apply ui_step_safe|].
Qed.
End Runs.

Definition ex_ui : ui := Ui (UiState 0 0 0) (replicate 1840 0) 0 0.

Lemma ex_ui_wf : ui_wf ex_ui.
Proof. constructor; [done|]. vm_compute. split; congruence. Qed.

(** ** Properties *)

(** From a well-formed console and content buffer, any sequence of interface calls
    with C strings, and with at most 22 lines given to [ui_draw_content], returns
    with both well formed.  In all these states [ui_scroll_content] does nothing:
    the count of lines never reaches the 23 rows it waits for. *)
Lemma ui_never_faults {P} `{Bus P} ops (s : screen P) :
  vga_wf (u_vga s) -> ui_wf (u_ui s) -> Forall ui_op_ok ops ->
  exists s', ui_run ops s = Ok (tt, s') /\ vga_wf (u_vga s') /\ ui_wf (u_ui s') /\ ui_scroll_content s' = Ok (tt, s').
Proof.
  intros Hv Hu Hops. destruct (ui_run_safe ops Hops s Hv Hu) as (s' & E & Hv' & Hu').
  exists s'. split_and!; try done. by apply scroll_idle.
Qed.

Lemma ui_never_faults_witness :
  let ops := [UiEnable; UiUpdate None; UiPrint (Some (lit "Enhanced UI enabled")); UiDraw [Some (lit "a"); None] 2; UiDisable] in
  exists s', @ui_run unit ex_bus ops (Screen ex_ui ex_vga tt) = Ok (tt, s') /\ vga_wf (u_vga s') /\ ui_wf (u_ui s') /\
    @ui_scroll_content unit ex_bus s' = Ok (tt, s').
Proof.
  apply (@ui_never_faults unit ex_bus
    [UiEnable; UiUpdate None; UiPrint (Some (lit "Enhanced UI enabled")); UiDraw [Some (lit "a"); None] 2; UiDisable]
    (Screen ex_ui ex_vga tt)).
  - exact ex_vga_wf.
  - exact ex_ui_wf.
  - assert (Ht : forall t, bool_decide (nul_free (chars t)) = true -> text_ok (Some (lit t))).
    { intros t Hn. exists (chars t), []. split; [done|]. exact (bool_decide_eq_true_1 _ Hn). }
    repeat apply Forall_cons_2; try exact I; try constructor; try (apply Ht; vm_compute; reflexivity).
    + repeat constructor. apply Ht. vm_compute. reflexivity.
    + vm_compute. repeat split; congruence.
Defined.

(** [vga_set_position] takes the row first and the interface gives it the column
    first: the prompt that [ui_draw_footer] is to put at the start of row 24
    appears on row 0 from column 24 on, and nothing else of the screen changes. *)
Lemma footer_on_first_row {P} `{Bus P} prompt r (s : screen P) :
  vga_wf (u_vga s) -> Forall printable prompt -> zlen prompt <= 56 ->
  exists s', ui_draw_footer (Some (cstr prompt r)) s = Ok (tt, s') /\
    vga_buffer (u_vga s') = splice (vga_buffer (u_vga s)) 24 ((fun c => vga_entry c VGA_COLOR_YELLOW) <$> prompt) /\
    vga_get_cursor_y (u_vga s') * 80 + vga_get_cursor_x (u_vga s') = 24 + zlen prompt.
Proof.
  intros Hv Hp Hl. pose proof Hv as [Hb Hx Hy]. pose proof (zlen_nonneg prompt).
  set (v1 := vga_set_color VGA_COLOR_YELLOW VGA_COLOR_BLACK (set_cursor 24 0 (u_vga s))).
  assert (Hv1 : vga_wf v1) by (constructor; [done|vm_compute; split; congruence..]).
  destruct (console_prints_text prompt r v1 (vga_update_cursor (set_cursor 24 0 (u_vga s)) (u_ports s)) Hv1 Hp)
    as (v2 & p2 & E & _ & Hbuf & Hpos); [change (cursor_y v1 * VGA_WIDTH + cursor_x v1) with 24; unfold CELLS, VGA_WIDTH, VGA_HEIGHT; lia|].
  exists (Screen (u_ui s) (vga_set_color VGA_COLOR_LIGHT_GREY VGA_COLOR_BLACK v2) p2). split.
  - unfold ui_draw_footer. eapply M_run; [reflexivity|]. eapply M_run; [reflexivity|].
    assert (Ew : write_string (cstr prompt r)
        (Screen (u_ui s) v1 (vga_update_cursor (set_cursor 24 0 (u_vga s)) (u_ports s))) = Ok (tt, Screen (u_ui s) v2 p2)).
    { unfold write_string, on_vga. cbn [u_vga u_ports]. by rewrite E. }
    eapply M_run; [exact Ew|reflexivity].
  - change (cursor_y v1 * VGA_WIDTH + cursor_x v1) with 24 in Hbuf, Hpos. cbn. split; [exact Hbuf|exact Hpos].
Qed.

Lemma footer_on_first_row_witness :
  exists s', @ui_draw_footer unit ex_bus (Some (lit "vlsos> ")) (Screen ex_ui ex_vga tt) = Ok (tt, s') /\
    vga_buffer (u_vga s') = splice (vga_buffer ex_vga) 24 ((fun c => vga_entry c VGA_COLOR_YELLOW) <$> chars "vlsos> ") /\
    vga_get_cursor_y (u_vga s') * 80 + vga_get_cursor_x (u_vga s') = 24 + 7.
Proof.
  apply (@footer_on_first_row unit ex_bus (chars "vlsos> ") [] (Screen ex_ui ex_vga tt)).
  - exact ex_vga_wf.
  - repeat constructor; vm_compute; congruence.
  - vm_compute. congruence.
Defined.

(** [ui_draw_content] counts all the lines it is given: after 23 or more, the next
    line printed is stored behind the content buffer. *)
Lemma print_after_full_content {P} `{Bus P} c text (s : screen P) :
  vga_wf (u_vga s) -> length (content_buffer (u_ui s)) = 1840%nat -> UI_CONTENT_ROWS <= content_lines (u_ui s) ->
  c <> 0 -> ui_print_content (Some (c :: text)) s = Err OutOfBounds.
Proof.
  intros Hv Hb Hl Hc. unfold UI_CONTENT_ROWS, UI_HEADER_HEIGHT, UI_FOOTER_HEIGHT in Hl.
  destruct (safe_scroll s Hv Hb) as (s1 & E1 & Hv1 & Hb1). unfold ui_print_content.
  rewrite (M_bind_run getS _ s s s) by done. rewrite (proj2 (Z.leb_le 24 (1 + content_lines (u_ui s)))) by lia.
  rewrite (M_bind_run _ _ s 23 s1) by (by rewrite (M_bind_run _ _ _ _ _ E1)).
  destruct (safe_set_position buffer_wf 0 23 s1 Hv1 Hb1) as (s2 & E2 & Hv2 & Hb2). rewrite (M_bind_run _ _ _ _ _ E2).
  destruct (safe_set_color buffer_wf VGA_COLOR_LIGHT_GREY VGA_COLOR_BLACK s2 Hv2 Hb2) as (s3 & E3 & Hv3 & Hb3).
  rewrite (M_bind_run _ _ _ _ _ E3).
  cbn [print_chars]. rewrite (proj2 (Z.eqb_neq _ _) Hc). change (80 <=? 0) with false. cbn [orb].
  destruct (safe_write_char buffer_wf c s3 Hv3 Hb3) as (s4 & E4 & Hv4 & Hb4).
  unfold buffer_wf in Hb4.
  assert (E5 : store (content_lines (u_ui s) * 80 + 0) c s4 = Err OutOfBounds).
  { unfold store, wr. by rewrite (proj2 (Z.ltb_ge _ (zlen (content_buffer (u_ui s4))))), andb_false_r by (unfold zlen; lia). }
  unfold mbind, M_bind. by rewrite E4, E5.
Qed.
