(* ===== verification/Netcmd.v ===== *)
(** * The commands of the shell over the whole system *)
(** [src/net/netcmd.c], with [process_display_info] of [src/kernel/process.c]: the
    commands that the shell's table takes from other files.  Here the components
    meet: the record [sys] holds the state of each. *)

From Stdlib Require Import String.
From S2P Require Import Prelude Memory CString Block Ports.
From S2P Require Vga Process Ipc FileSys Disk Net Socket Dns Dhcp Http Ui.

Definition FS_ATTR_DIRECTORY : Z := 0x10.

(** The disk as the file system uses it ([D]) and the ports of the console ([P])
    are machines of their own. *)
Record sys (D P : Type) := Sys {
  y_vga : Vga.vga;
  y_ports : P;
  y_disk : D;
  y_drives : Disk.disks;
  y_fs : FileSys.fs;
  y_proc : Process.proc_state;
  y_ipc : Ipc.ipc;
  y_socks : Socket.sock_state;
  y_http : Http.http_server_t;
  y_dns : Dns.dns_server_t;
  y_dhcp : Dhcp.dhcp_server_t;
  y_ui : Ui.ui;
  y_now : Z
}.
Arguments Sys {D P} _ _ _ _ _ _ _ _ _ _ _ _ _.
Arguments y_vga {D P} _. Arguments y_ports {D P} _. Arguments y_disk {D P} _. Arguments y_drives {D P} _.
Arguments y_fs {D P} _. Arguments y_proc {D P} _. Arguments y_ipc {D P} _. Arguments y_socks {D P} _.
Arguments y_http {D P} _. Arguments y_dns {D P} _. Arguments y_dhcp {D P} _. Arguments y_ui {D P} _.
Arguments y_now {D P} _.

Section Commands.
Context {D P : Type} `{BlockDev D} `{Bus P}.
Implicit Types (s : sys D P).

(** ** Parts of the system *)

Definition set_console (v : Vga.vga) (p : P) s : sys D P :=
  Sys v p (y_disk s) (y_drives s) (y_fs s) (y_proc s) (y_ipc s) (y_socks s) (y_http s) (y_dns s) (y_dhcp s) (y_ui s) (y_now s).
Definition set_fs (f : FileSys.fs) (d : D) s : sys D P :=
  Sys (y_vga s) (y_ports s) d (y_drives s) f (y_proc s) (y_ipc s) (y_socks s) (y_http s) (y_dns s) (y_dhcp s) (y_ui s) (y_now s).
Definition set_proc (q : Process.proc_state) s : sys D P :=
  Sys (y_vga s) (y_ports s) (y_disk s) (y_drives s) (y_fs s) q (y_ipc s) (y_socks s) (y_http s) (y_dns s) (y_dhcp s) (y_ui s) (y_now s).
Definition set_ipc (i : Ipc.ipc) s : sys D P :=
  Sys (y_vga s) (y_ports s) (y_disk s) (y_drives s) (y_fs s) (y_proc s) i (y_socks s) (y_http s) (y_dns s) (y_dhcp s) (y_ui s) (y_now s).
Definition set_socks (k : Socket.sock_state) s : sys D P :=
  Sys (y_vga s) (y_ports s) (y_disk s) (y_drives s) (y_fs s) (y_proc s) (y_ipc s) k (y_http s) (y_dns s) (y_dhcp s) (y_ui s) (y_now s).
Definition set_servers (h : Http.http_server_t) (d : Dns.dns_server_t) (c : Dhcp.dhcp_server_t) s : sys D P :=
  Sys (y_vga s) (y_ports s) (y_disk s) (y_drives s) (y_fs s) (y_proc s) (y_ipc s) (y_socks s) h d c (y_ui s) (y_now s).
Definition set_screen (u : Ui.screen P) s : sys D P :=
  Sys (Ui.u_vga u) (Ui.u_ports u) (y_disk s) (y_drives s) (y_fs s) (y_proc s) (y_ipc s) (y_socks s) (y_http s) (y_dns s) (y_dhcp s) (Ui.u_ui u) (y_now s).

Definition on_console (f : Vga.vga -> P -> res (Vga.vga * P)) : M (sys D P) unit := fun s =>
  match f (y_vga s) (y_ports s) with Ok (v, p) => Ok (tt, set_console v p s) | Err e => Err e end.
Definition put (c : Z) : M (sys D P) unit := on_console (Vga.vga_write_char c).
Definition write (str : list Z) : M (sys D P) unit := on_console (Vga.vga_write_string str).
(** A literal, and one with a line feed behind it. *)
Definition say (t : string) : M (sys D P) unit := write (lit t).
Definition sayln (t : string) : M (sys D P) unit := write (chars t ++ [10; 0]).

Fixpoint spaces (n : nat) : M (sys D P) unit :=
  match n with O => mret tt | S n => put 32 ;; spaces n end.
(** [for (j = strlen(str); j < width; j++) vga_write_char(' ')] *)
Definition pad (str : list Z) (width : Z) : M (sys D P) unit :=
  n ← liftR (strlen str); spaces (Z.to_nat (width - n)).

(** [itoa(value, buf, base); vga_write_string(buf)]: the new contents of [buf]. *)
Definition number (value : Z) (buf : list Z) (base : Z) : M (sys D P) (list Z) :=
  buf ← liftR (itoa (i32 value) buf base); write buf ;; mret buf.

Definition on_fs (m : FileSys.fs -> res (Z * FileSys.fs)) : M (sys D P) Z := fun s =>
  match m (y_fs s) with Ok (r, f) => Ok (r, set_fs f (y_disk s) s) | Err e => Err e end.
Definition on_ipc {A} : M Ipc.ipc A -> M (sys D P) A := zoom y_ipc set_ipc.

(** What the network code printed goes to the console when the call is over:
    nothing else writes to it meanwhile.  A frame goes to the only driver there is,
    which prints its length; the driver's [buf[16]] is written before it is read. *)
Fixpoint replay (es : list Net.event) : M (sys D P) unit :=
  match es with
  | [] => mret tt
  | Net.Printed t :: es => write (t ++ [0]) ;; replay es
  | Net.Sent frame :: es =>
      t ← liftR (Net.rtl8139_send true (zlen frame) (replicate 16 0));
      write (t ++ [0]) ;;
      replay es
  | Net.Polled :: es => replay es
  end.
Definition printed_since (k0 k : Socket.sock_state) : list Net.event :=
  drop (length (Net.n_out (Socket.s_net k0))) (Net.n_out (Socket.s_net k)).

Definition on_socks {A} (m : M Socket.sock_state A) : M (sys D P) A :=
  s ← getS;
  a ← zoom y_socks set_socks m;
  s' ← getS;
  replay (printed_since (y_socks s) (y_socks s')) ;;
  mret a.

Definition on_http (m : M Http.http_state unit) : M (sys D P) unit :=
  s ← getS;
  zoom (fun s => Http.HttpState (y_http s) (y_socks s))
       (fun h s => set_socks (Http.h_sock h) (set_servers (Http.http_server h) (y_dns s) (y_dhcp s) s)) m ;;
  s' ← getS;
  replay (printed_since (y_socks s) (y_socks s')).
Definition on_dns (m : M Dns.dns_state unit) : M (sys D P) unit :=
  s ← getS;
  zoom (fun s => Dns.DnsState (y_dns s) (y_socks s))
       (fun h s => set_socks (Dns.d_sock h) (set_servers (y_http s) (Dns.dns_server h) (y_dhcp s) s)) m ;;
  s' ← getS;
  replay (printed_since (y_socks s) (y_socks s')).
Definition on_dhcp (m : M Dhcp.dhcp_state unit) : M (sys D P) unit :=
  s ← getS;
  zoom (fun s => Dhcp.DhcpState (y_dhcp s) (y_socks s))
       (fun h s => set_socks (Dhcp.h_sock h) (set_servers (y_http s) (y_dns s) (Dhcp.dhcp_server h) s)) m ;;
  s' ← getS;
  replay (printed_since (y_socks s) (y_socks s')).
Definition on_ui (m : M (Ui.screen P) unit) : M (sys D P) unit :=
  zoom (fun s => Ui.Screen (y_ui s) (y_vga s) (y_ports s)) set_screen m.

Definition iface : M (sys D P) (option Net.net_interface_t) := on_socks (Socket.on_net Net.the_iface).

(** ** Network commands *)

(** Octets [i] on, in [base], with [sep] between them. *)
Fixpoint print_mac (n : nat) (octets : list Z) (i : Z) (buf : list Z) : M (sys D P) (list Z) :=
  match n with
  | O => mret buf
  | S n =>
      x ← liftR (rd octets i);
      buf ← liftR (itoa x buf 16);
      b1 ← liftR (rd buf 1);
      (if b1 =? 0 then put 48 else mret tt) ;;
      write buf ;;
      (if i <? 5 then put 58 else mret tt) ;;
      print_mac n octets (i + 1) buf
  end.

Fixpoint print_quad (n : nat) (octets : list Z) (i : Z) (buf : list Z) : M (sys D P) (list Z) :=
  match n with
  | O => mret buf
  | S n =>
      x ← liftR (rd octets i);
      buf ← number x buf 10;
      (if i <? 3 then put 46 else mret tt) ;;
      print_quad n octets (i + 1) buf
  end.

(** [buf] is [char buf[3]]. *)
Definition cmd_ifconfig (buf : list Z) : M (sys D P) Z :=
  x ← iface;
  match x with
  | None => sayln "No network interface found" ;; mret 0
  | Some x =>
      say "eth0: " ;;
      say "MAC=" ;;
      buf ← print_mac 6 (Net.mac_addr x) 0 buf;
      write [10; 0] ;;
      say "      inet " ;;
      buf ← print_quad 4 (Net.ip_addr x) 0 buf;
      say " " ;;
      say "netmask " ;;
      buf ← print_quad 4 (Net.netmask x) 0 buf;
      write [10; 0] ;;
      say "      gateway " ;;
      buf ← print_quad 4 (Net.gateway x) 0 buf;
      write [10; 0] ;;
      say "      dns1 " ;;
      buf ← print_quad 4 (Net.dns1 x) 0 buf;
      say " dns2 " ;;
      print_quad 4 (Net.dns2 x) 0 buf ;;
      write [10; 0] ;;
      mret 0
  end.

(** The loop of [cmd_ping] is the one of [http_client_get]; [octets] is not
    initialised. *)
Definition ping_address (arg octets : list Z) : res (option (list Z)) := Http.parse_quad arg octets.

Definition cmd_ping (argc : Z) (argv : list (list Z)) (octets : list Z) : M (sys D P) Z :=
  if argc <? 2 then sayln "Usage: ping <ip_address>" ;; mret 0 else
  arg ← liftR (rd argv 1);
  addr ← liftR (ping_address arg octets);
  match addr with
  | None => sayln "Invalid IP address" ;; mret 0
  | Some addr =>
      say "PING " ;;
      write arg ;;
      write [10; 0] ;;
      on_socks (Socket.on_net (Net.icmp_send_echo_request addr)) ;;
      mret 0
  end.

Definition cmd_netstat : M (sys D P) Z := sayln "TCP/UDP connections (not yet implemented)" ;; mret 0.
Definition cmd_arp : M (sys D P) Z := sayln "ARP cache (not yet implemented)" ;; mret 0.
Definition cmd_route : M (sys D P) Z := sayln "Routing table (not yet implemented)" ;; mret 0.

(** [strcmp(argv[1], name) == 0] *)
Definition arg_is (arg : list Z) (name : string) : M (sys D P) bool :=
  r ← liftR (strcmp arg (lit name)); mret (r =? 0).

Definition cmd_http (argc : Z) (argv : list (list Z)) : M (sys D P) Z :=
  if argc <? 2 then sayln "Usage: http start|stop|status" ;; mret 1 else
  arg ← liftR (rd argv 1);
  b ← arg_is arg "start";
  if (b : bool) then on_http Http.http_server_start ;; mret 0 else
  b ← arg_is arg "stop";
  if (b : bool) then on_http Http.http_server_stop ;; mret 0 else
  b ← arg_is arg "status";
  if (b : bool) then sayln "HTTP server status (not yet implemented)" ;; mret 0 else
  sayln "Unknown http command" ;; mret 1.

Definition cmd_dns (argc : Z) (argv : list (list Z)) : M (sys D P) Z :=
  if argc <? 2 then sayln "Usage: dns start|stop|status" ;; mret 1 else
  arg ← liftR (rd argv 1);
  b ← arg_is arg "start";
  if (b : bool) then on_dns Dns.dns_start ;; mret 0 else
  b ← arg_is arg "stop";
  if (b : bool) then on_dns Dns.dns_stop ;; mret 0 else
  b ← arg_is arg "status";
  if (b : bool) then sayln "DNS server status (not yet implemented)" ;; mret 0 else
  sayln "Unknown dns command" ;; mret 1.

Definition cmd_dhcp (argc : Z) (argv : list (list Z)) : M (sys D P) Z :=
  if argc <? 2 then sayln "Usage: dhcp start|stop|status" ;; mret 1 else
  arg ← liftR (rd argv 1);
  b ← arg_is arg "start";
  if (b : bool) then on_dhcp Dhcp.dhcp_start ;; mret 0 else
  b ← arg_is arg "stop";
  if (b : bool) then on_dhcp Dhcp.dhcp_stop ;; mret 0 else
  b ← arg_is arg "status";
  if (b : bool) then sayln "DHCP server status (not yet implemented)" ;; mret 0 else
  sayln "Unknown dhcp command" ;; mret 1.

(** *** wget *)

(** [while (host_start[i] && ... && i < 63)]: the host copied so far and what is
    left of the URL. *)
Fixpoint url_host (url host : list Z) (i : Z) : res (list Z * Z * list Z) :=
  match url with
  | [] => Err OutOfBounds
  | c :: rest =>
      if (c =? 0) || (c =? 58) || (c =? 47) || (63 <=? i) then Ok (host, i, url) else
      host ← wr host i c; url_host rest host (i + 1)
  end.

Fixpoint url_port (url port_str : list Z) (p_idx : Z) : res (list Z * Z * list Z) :=
  match url with
  | [] => Err OutOfBounds
  | c :: rest =>
      if (48 <=? c) && (c <=? 57) && (p_idx <? 5) then
        port_str ← wr port_str p_idx c; url_port rest port_str (p_idx + 1)
      else Ok (port_str, p_idx, url)
  end.

(** Host, port and path of what follows [http://]. *)
Definition parse_url (url : list Z) : res (list Z * Z * list Z) :=
  '(host, n, url) ← url_host url (replicate 64 0) 0;
  host ← wr host n 0;
  c ← rd url 0;
  '(port, url) ← (if c =? 58
                  then '(port_str, p_idx, url) ← url_port (drop 1 url) (replicate 6 0) 0;
                       port_str ← wr port_str p_idx 0;
                       v ← (if 0 <? p_idx then atoi port_str else Ok 80);
                       Ok (u16 v, url)
                  else Ok (80, url) : res (Z * list Z));
  c ← rd url 0;
  Ok (host, port, if c =? 47 then url else lit "/").

(** [vga_write_char] of the first [n] bytes of the body. *)
Fixpoint put_bytes (n : nat) (b : list Z) (i : Z) : M (sys D P) unit :=
  match n with
  | O => mret tt
  | S n => c ← liftR (rd b i); put c ;; put_bytes n b (i + 1)
  end.

(** The locals: [portstr[6]], [status_str[4]] and the buffers of
    [http_client_get]. *)
Definition cmd_wget (argc : Z) (argv : list (list Z)) (portstr status_str request response_buf : list Z)
    : M (sys D P) Z :=
  if argc <? 2 then sayln "Usage: wget <url>" ;; sayln "Example: wget http://192.168.1.100/" ;; mret 1 else
  url ← liftR (rd argv 1);
  r ← liftR (strncmp url (lit "http://") 7);
  if negb (r =? 0) then sayln "Only http:// URLs supported" ;; mret 1 else
  '(host, port, path) ← liftR (parse_url (drop 7 url));
  say "Fetching " ;;
  write host ;;
  say ":" ;;
  number port portstr 10 ;;
  write path ;;
  sayln " ..." ;;
  '(r, resp) ← on_socks (Http.http_client_get host port (Some path) request response_buf);
  if r <? 0 then mret 1 else
  say "Status: " ;;
  number (Http.status_code resp) status_str 10 ;;
  write [10; 0] ;;
  match Http.body resp with
  | None => mret 0
  | Some (_, b) =>
      sayln "Content:" ;;
      sayln "---" ;;
      put_bytes (Z.to_nat (Http.body_len resp)) b 0 ;;
      write (10 :: chars "---" ++ [10; 0]) ;;
      mret 0
  end.

(** ** Disk and files *)

(** [for (i = 0; i < 4; i++)] of [disk info]. *)
Fixpoint disk_info (n : nat) (i : Z) (buf : list Z) : M (sys D P) (list Z) :=
  match n with
  | O => mret buf
  | S n =>
      s ← getS;
      e ← liftR (Disk.disk_drive_exists i (y_drives s));
      buf ← (match (if e =? 0 then None else Disk.disk_get_info i (y_drives s)) with
        | None => mret buf
        | Some k =>
            disk ← liftR (rd (Disk.g_disks (y_drives s)) k);
            say "Drive " ;;
            buf ← number i buf 10;
            sayln ":" ;;
            say "  Model: " ;;
            write (Disk.model disk) ;;
            write [10; 0] ;;
            say "  Cylinders: " ;;
            buf ← number (Disk.cylinders disk) buf 10;
            say "  Heads: " ;;
            buf ← number (Disk.heads disk) buf 10;
            say "  Sectors/track: " ;;
            buf ← number (Disk.sectors disk) buf 10;
            write [10; 0] ;;
            say "  Total sectors: " ;;
            buf ← number (Disk.total_sectors disk) buf 10;
            say "  (" ;;
            let mb := u32 (Disk.total_sectors disk * 512) / (1024 * 1024) in
            buf ← number mb buf 10;
            write (chars " MB)" ++ [10; 10; 0]) ;;
            mret buf
        end);
      disk_info n (i + 1) buf
  end.

(** [for (i = 0; i < 256; i++)] of [disk read]. *)
Fixpoint hex_dump (n : nat) (i : Z) (sector buf : list Z) : M (sys D P) (list Z) :=
  match n with
  | O => mret buf
  | S n =>
      buf ← (if i mod 16 =? 0
             then write ([10] ++ lit "0x") ;; buf ← number i buf 16; say ": " ;; mret buf
             else mret buf);
      byte ← liftR (rd sector i);
      (if byte <? 16 then put 48 else mret tt) ;;
      buf ← number byte buf 16;
      put 32 ;;
      hex_dump n (i + 1) sector buf
  end.

Definition read_sector (drive lba : Z) (buffer : list Z) : M (sys D P) (Z * list Z) := fun s =>
  match disk_read_sector drive lba buffer (y_disk s) with
  | Ok (r, b, d) => Ok ((r, b), set_fs (y_fs s) d s)
  | Err e => Err e
  end.

(** [sector] is [buffer[512]], [buf] is [buf[32]]. *)
Definition cmd_disk (argc : Z) (argv : list (list Z)) (sector buf : list Z) : M (sys D P) Z :=
  if argc <? 2 then
    sayln "Usage: disk info|read|write" ;;
    sayln "  disk info              - Show disk information" ;;
    sayln "  disk read <drive> <lba> - Read sector from disk" ;;
    mret 1
  else
  arg ← liftR (rd argv 1);
  b ← arg_is arg "info";
  if (b : bool) then
    s ← getS;
    say "Disk subsystem: " ;;
    buf ← number (Disk.disk_get_drive_count (y_drives s)) buf 10;
    write (chars " drive(s) detected" ++ [10; 10; 0]) ;;
    disk_info 4 0 buf ;;
    mret 0
  else
  b ← arg_is arg "read";
  if (b : bool) then
    if argc <? 4 then sayln "Usage: disk read <drive> <lba>" ;; mret 1 else
    a2 ← liftR (rd argv 2); drive ← liftR (atoi a2);
    a3 ← liftR (rd argv 3); lba ← liftR (atoi a3);
    let drive := u8 drive in let lba := u32 lba in
    s ← getS;
    e ← liftR (Disk.disk_drive_exists drive (y_drives s));
    if e =? 0 then sayln "Drive not found" ;; mret 1 else
    '(result, sector) ← read_sector drive lba sector;
    if result <? 0 then sayln "Read failed" ;; mret 1 else
    say "Sector 0x" ;;
    buf ← number lba buf 16;
    say " (" ;;
    buf ← number lba buf 10;
    sayln "):" ;;
    hex_dump 256 0 sector buf ;;
    write [10; 0] ;;
    mret 0
  else
  b ← arg_is arg "write";
  if (b : bool) then sayln "Write command not implemented" ;; mret 1 else
  sayln "Unknown disk command" ;; mret 1.

Fixpoint list_entries (n : nat) (entries : list FileSys.fs_dir_info_t) (i : Z) (buf : list Z)
    : M (sys D P) (list Z) :=
  match n with
  | O => mret buf
  | S n =>
      e ← liftR (rd entries i);
      write (FileSys.di_filename e) ;;
      pad (FileSys.di_filename e) 16 ;;
      buf ← number (FileSys.di_file_size e) buf 10;
      pad buf 9 ;;
      (if negb (Z.land (FileSys.di_attributes e) FS_ATTR_DIRECTORY =? 0) then say "<DIR>" else say "-") ;;
      put 10 ;;
      list_entries n entries (i + 1) buf
  end.

(** [entries] is the array of 224 on the stack. *)
Definition cmd_ls (entries : list FileSys.fs_dir_info_t) (buf : list Z) : M (sys D P) Z :=
  s ← getS;
  '(count, entries) ← liftR (FileSys.fs_list_dir (y_fs s) (Some entries) FileSys.FS_ROOT_ENTRIES);
  if count <? 0 then sayln "Failed to list directory" ;; mret 1 else
  sayln "NAME             SIZE      ATTR" ;;
  sayln "================ ========= ======" ;;
  buf ← list_entries (Z.to_nat count) (default [] entries) 0 buf;
  write ([10] ++ lit "Total: ") ;;
  number count buf 10 ;;
  sayln " entries" ;;
  mret 0.

(** [while ((bytes_read = fs_read(fd, buffer, 256)) > 0)]: a turn reads at least
    one byte of the file, so its size in turns is enough. *)
Fixpoint cat_loop (fuel : nat) (fd : Z) (buffer : list Z) : M (sys D P) unit :=
  match fuel with
  | O => liftR (Err OutOfFuel)
  | S fuel =>
      s ← getS;
      '(n, b, f, d) ← liftR (FileSys.fs_read fd (Some buffer) 256 (y_fs s) (y_disk s));
      (fun s => Ok (tt, set_fs f d s)) ;;
      let buffer := default [] b in
      if 0 <? n then put_bytes (Z.to_nat n) buffer 0 ;; cat_loop fuel fd buffer else mret tt
  end.

Definition cmd_cat (fuel : nat) (argc : Z) (argv : list (list Z)) (buffer : list Z) : M (sys D P) Z :=
  if argc <? 2 then sayln "Usage: cat <filename>" ;; mret 1 else
  name ← liftR (rd argv 1);
  s ← getS;
  e ← liftR (FileSys.fs_file_exists (y_fs s) name);
  if e =? 0 then say "File not found: " ;; write name ;; put 10 ;; mret 1 else
  fd ← on_fs (FileSys.fs_open (Some name));
  if fd <? 0 then sayln "Failed to open file" ;; mret 1 else
  cat_loop fuel fd buffer ;;
  on_fs (FileSys.fs_close fd) ;;
  put 10 ;;
  mret 0.

Definition cmd_file (argc : Z) (argv : list (list Z)) (info : FileSys.fs_dir_info_t) (buf : list Z) : M (sys D P) Z :=
  if argc <? 2 then sayln "Usage: file <filename>" ;; mret 1 else
  name ← liftR (rd argv 1);
  s ← getS;
  '(r, info) ← liftR (FileSys.fs_get_file_info (y_fs s) name (Some info));
  if r <? 0 then sayln "File not found" ;; mret 1 else
  match info with
  | None => liftR (Err NullDeref)
  | Some info =>
      say "File: " ;;
      write (FileSys.di_filename info) ;;
      put 10 ;;
      say "Size: " ;;
      buf ← number (FileSys.di_file_size info) buf 10;
      sayln " bytes" ;;
      say "Start cluster: " ;;
      buf ← number (FileSys.di_start_cluster info) buf 10;
      put 10 ;;
      say "Attributes: " ;;
      number (FileSys.di_attributes info) buf 16 ;;
      put 10 ;;
      mret 0
  end.

(** ** Pipes, interface and processes *)

(** [process_current()->pid], or 0. *)
Definition current_pid : M (sys D P) Z :=
  s ← getS;
  match Process.process_current (y_proc s) with
  | Some cur => p ← liftR (Process.slot (y_proc s) cur); mret (Process.pid p)
  | None => mret 0
  end.

(** [msg1] and [msg2] are not initialised. *)
Definition cmd_pipe (msg1 msg2 : Z) (buf : list Z) : M (sys D P) Z :=
  sayln "Creating pipe..." ;;
  owner ← current_pid;
  pipe_id ← on_ipc (Ipc.ipc_pipe_create owner);
  if pipe_id <? 0 then sayln "Failed to create pipe" ;; mret 1 else
  say "Pipe created: ID=" ;;
  buf ← number pipe_id buf 10;
  put 10 ;;
  sayln "Writing test message..." ;;
  on_ipc (Ipc.ipc_pipe_write pipe_id 0x12345678) ;;
  on_ipc (Ipc.ipc_pipe_write pipe_id 0xDEADBEEF) ;;
  '(_, m1) ← on_ipc (fun i => match Ipc.ipc_pipe_read pipe_id (Some msg1) i with
                              | Ok (r, m, i) => Ok ((r, m), i) | Err e => Err e end);
  '(_, m2) ← on_ipc (fun i => match Ipc.ipc_pipe_read pipe_id (Some msg2) i with
                              | Ok (r, m, i) => Ok ((r, m), i) | Err e => Err e end);
  say "Read from pipe: 0x" ;;
  buf ← number (default 0 m1) buf 16;
  say " and 0x" ;;
  number (default 0 m2) buf 16 ;;
  put 10 ;;
  on_ipc (Ipc.ipc_pipe_close pipe_id) ;;
  sayln "Pipe closed" ;;
  mret 0.

Definition cmd_ui (argc : Z) (argv : list (list Z)) : M (sys D P) Z :=
  if argc <? 2 then sayln "Usage: ui on|off|status" ;; mret 1 else
  arg ← liftR (rd argv 1);
  b ← arg_is arg "on";
  if (b : bool) then
    on_ui Ui.ui_enable ;;
    x ← iface;
    on_ui (Ui.ui_update_header x) ;;
    on_ui (Ui.ui_print_content (Some (lit "Enhanced UI enabled"))) ;;
    on_ui (Ui.ui_draw_footer (Some (lit "vlsos> "))) ;;
    mret 0
  else
  b ← arg_is arg "off";
  if (b : bool) then on_ui Ui.ui_disable ;; sayln "UI disabled" ;; mret 0 else
  b ← arg_is arg "status";
  if (b : bool) then
    say "UI status: " ;;
    s ← getS;
    (if negb (Ui.enabled (Ui.g_ui_state (y_ui s)) =? 0) then sayln "ON" else sayln "OFF") ;;
    mret 0
  else
  sayln "Unknown ui command" ;; mret 1.

Definition state_name (st : Process.process_state_t) : list Z :=
  match st with
  | Process.PROC_STATE_UNUSED => lit "unused"
  | Process.PROC_STATE_READY => lit "ready"
  | Process.PROC_STATE_RUNNING => lit "running"
  | Process.PROC_STATE_BLOCKED => lit "blocked"
  | Process.PROC_STATE_TERMINATED => lit "terminated"
  end.

Fixpoint list_processes (n : nat) (table : list Process.process_t) (i : Z) (buf : list Z) : M (sys D P) (list Z) :=
  match n with
  | O => mret buf
  | S n =>
      p ← liftR (rd table i);
      buf ← (if decide (Process.state p = Process.PROC_STATE_UNUSED) then mret buf else
        buf ← number (Process.pid p) buf 10;
        say "  " ;;
        write (state_name (Process.state p)) ;;
        pad (state_name (Process.state p)) 9 ;;
        buf ← number (Process.priority p) buf 10;
        pad buf 9 ;;
        write (Process.name p) ;;
        put 10 ;;
        mret buf);
      list_processes n table (i + 1) buf
  end.

Definition process_display_info (buf : list Z) : M (sys D P) unit :=
  sayln "PID  STATE      PRIORITY  NAME" ;;
  sayln "===  ========== ========  ============================" ;;
  s ← getS;
  buf ← list_processes (Z.to_nat Process.MAX_PROCESSES) (Process.g_process_table (y_proc s)) 0 buf;
  write ([10] ++ lit "Total processes: ") ;;
  number (Process.g_process_count (y_proc s)) buf 10 ;;
  put 10.

Definition cmd_ps (buf : list Z) : M (sys D P) Z := process_display_info buf ;; mret 0.

Definition kill (pid : Z) : M (sys D P) Z := fun s =>
  match Process.process_kill pid (y_now s) (y_proc s) with
  | Ok (r, q) => Ok (r, set_proc q s)
  | Err e => Err e
  end.

Definition cmd_kill (argc : Z) (argv : list (list Z)) (buf : list Z) : M (sys D P) Z :=
  if argc <? 2 then sayln "Usage: kill <pid>" ;; mret 1 else
  arg ← liftR (rd argv 1);
  pid ← liftR (atoi arg);
  let pid := u32 pid in
  if pid =? 0 then sayln "Cannot kill kernel process" ;; mret 1 else
  s ← getS;
  proc ← liftR (Process.process_get (y_proc s) pid);
  match proc with
  | None => sayln "Process not found" ;; mret 1
  | Some _ =>
      result ← kill pid;
      if result =? 0 then
        say "Killed process " ;; number pid buf 10 ;; write [10; 0] ;; mret 0
      else sayln "Failed to kill process" ;; mret 1
  end.
End Commands.

(** ** Commands on the console *)

Section Lemmas.
Context {D P : Type} `{BlockMedium D} `{Bus P}.
Implicit Types (s : sys D P).

Lemma put_spec c s : Vga.vga_wf (y_vga s) ->
  exists v p, put c s = Ok (tt, set_console v p s) /\ Vga.vga_wf v /\
    Vga.term_of v = Vga.Term.put c (Vga.term_of (y_vga s)).
Proof.
  intros Hwf. destruct (Vga.write_char_spec c (y_vga s) (y_ports s) Hwf) as (v & E & Hw & _ & Ht).
  exists v. eexists. unfold put, on_console. rewrite E. done.
Qed.

Lemma write_spec str r s : Vga.vga_wf (y_vga s) -> Forall (fun c => c <> 0) str ->
  exists v p, write (cstr str r) s = Ok (tt, set_console v p s) /\ Vga.vga_wf v /\
    Vga.term_of v = Vga.Term.write str (Vga.term_of (y_vga s)).
Proof.
  intros Hwf Hn. destruct (Vga.write_string_spec str (y_vga s) (y_ports s) r Hwf Hn) as (v & p & E & Hw & _ & Ht & _).
  exists v, p. unfold write, on_console. rewrite E. done.
Qed.

Lemma term_write_app a b t : Vga.Term.write (a ++ b) t = Vga.Term.write b (Vga.Term.write a t).
Proof. unfold Vga.Term.write. apply foldl_app. Qed.

Lemma console_twice v p v' p' s : set_console v' p' (set_console v p s) = set_console v' p' s.
Proof. reflexivity. Qed.

Lemma put_bytes_prints n : forall b i s, Vga.vga_wf (y_vga s) -> 0 <= i -> i + Z.of_nat n <= zlen b ->
  exists v p, put_bytes n b i s = Ok (tt, set_console v p s) /\ Vga.vga_wf v /\
    Vga.term_of v = Vga.Term.write (slice b i (Z.of_nat n)) (Vga.term_of (y_vga s)).
Proof.
  induction n as [|n IH]; intros b i s Hwf Hi Hb.
  - exists (y_vga s), (y_ports s). rewrite slice_empty by lia. by destruct s.
  - destruct (rd_total b i ltac:(lia)) as [c Hrd].
    destruct (put_spec c s Hwf) as (v & p & E & Hw & Ht).
    destruct (IH b (i + 1) (set_console v p s) Hw ltac:(lia) ltac:(lia)) as (v' & p' & E' & Hw' & Ht').
    exists v', p'. split; [|split; [done|]].
    + cbn [put_bytes]. eapply lift_run; [exact Hrd|]. eapply M_run; [exact E|]. by rewrite E', console_twice.
    + rewrite (slice_head b i _ c Hrd) by lia. cbn [y_vga set_console] in Ht'. rewrite Ht', Ht.
      replace (Z.of_nat (S n) - 1) with (Z.of_nat n) by lia. done.
Qed.

(** [prints Q m t]: from any well-formed console, [m] writes [t] on it, changes
    nothing else and returns a result in [Q].  [faults m]: it runs out of bounds. *)
Definition prints {A} (Q : A -> Prop) (m : M (sys D P) A) (t : list Z) (s : sys D P) : Prop :=
  exists a v p, m s = Ok (a, set_console v p s) /\ Q a /\ Vga.vga_wf v /\
    Vga.term_of v = Vga.Term.write t (Vga.term_of (y_vga s)).

Lemma prints_ret {A} (Q : A -> Prop) a s : Vga.vga_wf (y_vga s) -> Q a -> prints Q (mret a) [] s.
Proof. intros Hw Hq. exists a, (y_vga s), (y_ports s). split_and!; try done. by destruct s. Qed.

Lemma prints_bind {A B} (Q : A -> Prop) (R : B -> Prop) m (f : A -> M (sys D P) B) t1 t2 s :
  prints Q m t1 s ->
  (forall a v p, Q a -> Vga.vga_wf v -> prints R (f a) t2 (set_console v p s)) ->
  prints R (m ≫= f) (t1 ++ t2) s.
Proof.
  intros (a & v & p & E & Hq & Hw & Ht) Hf. destruct (Hf a v p Hq Hw) as (b & v' & p' & E' & Hr & Hw' & Ht').
  exists b, v', p'. split_and!; try done; [eapply M_run; [exact E|]; by rewrite E', console_twice|].
  rewrite term_write_app, <- Ht. exact Ht'.
Qed.

Lemma prints_lift {A B} (R : B -> Prop) (r : res A) a (f : A -> M (sys D P) B) t s :
  r = Ok a -> prints R (f a) t s -> prints R (liftR r ≫= f) t s.
Proof. intros -> (b & v & p & E & H'). by exists b, v, p. Qed.

Lemma prints_if {A} (R : A -> Prop) (b : bool) m1 m2 t1 t2 s :
  prints R m1 t1 s -> prints R m2 t2 s -> prints R (if b then m1 else m2) (if b then t1 else t2) s.
Proof. by destruct b. Qed.

Lemma prints_put c s : Vga.vga_wf (y_vga s) -> prints (fun _ => True) (put c) [c] s.
Proof. intros Hw. destruct (put_spec c s Hw) as (v & p & E & Hv & Ht). by exists tt, v, p. Qed.

Lemma prints_write str r s : Vga.vga_wf (y_vga s) -> Forall (fun c => c <> 0) str ->
  prints (fun _ => True) (write (cstr str r)) str s.
Proof. intros Hw Hn. destruct (write_spec str r s Hw Hn) as (v & p & E & Hv & Ht). by exists tt, v, p. Qed.

(** Text of the program's own: it holds no NUL, which evaluation shows. *)
Lemma prints_say t s : Vga.vga_wf (y_vga s) -> bool_decide (Forall (fun c => c <> 0) (chars t)) = true ->
  prints (fun _ => True) (say t) (chars t) s.
Proof. intros Hw Hn. apply (prints_write (chars t) []); [done|exact (bool_decide_eq_true_1 _ Hn)]. Qed.

Lemma prints_text t r s : Vga.vga_wf (y_vga s) -> bool_decide (Forall (fun c => c <> 0) t) = true ->
  prints (fun _ => True) (write (t ++ 0 :: r)) t s.
Proof. intros Hw Hn. apply (prints_write t r); [done|exact (bool_decide_eq_true_1 _ Hn)]. Qed.

Lemma prints_sayln t s : Vga.vga_wf (y_vga s) -> bool_decide (Forall (fun c => c <> 0) (chars t)) = true ->
  prints (fun _ => True) (sayln t) (chars t ++ [10]) s.
Proof.
  intros Hw Hn. unfold sayln. change [10; 0] with ([10] ++ [0]). rewrite app_assoc.
  apply (prints_write _ []); [done|]. apply Forall_app. split; [exact (bool_decide_eq_true_1 _ Hn)|]. by repeat constructor.
Qed.

(** Any literal that ends in its only NUL. *)
Lemma prints_closed l s : Vga.vga_wf (y_vga s) ->
  bool_decide (l = removelast l ++ [0] /\ Forall (fun c => c <> 0) (removelast l)) = true ->
  prints (fun _ => True) (write l) (removelast l) s.
Proof.
  intros Hw Hb. destruct (bool_decide_eq_true_1 _ Hb) as [Hl Hn]. rewrite Hl at 1.
  by apply (prints_write (removelast l) []).
Qed.

Lemma prints_newline s : Vga.vga_wf (y_vga s) -> prints (fun _ => True) (write [10; 0]) [10] s.
Proof. intros Hw. apply (prints_write [10] []); [done|]. by repeat constructor. Qed.

Definition faults {A} (m : M (sys D P) A) s : Prop := m s = Err OutOfBounds.

Lemma faults_bind {A B} (m : M (sys D P) A) (f : A -> M (sys D P) B) s : faults m s -> faults (m ≫= f) s.
Proof. unfold faults, mbind, M_bind. by intros ->. Qed.

Lemma faults_after {A B} (Q : A -> Prop) m (f : A -> M (sys D P) B) t s : prints Q m t s ->
  (forall a v p, Q a -> Vga.vga_wf v -> faults (f a) (set_console v p s)) -> faults (m ≫= f) s.
Proof.
  intros (a & v & p & E & Hq & Hw & _) Hf. unfold faults. eapply M_run; [exact E|]. by apply Hf.
Qed.

Lemma faults_lift {A B} (r : res A) a (f : A -> M (sys D P) B) s :
  r = Ok a -> faults (f a) s -> faults (liftR r ≫= f) s.
Proof. by intros ->. Qed.

Lemma cat_loop_spec fd cs img fuel : forall s f buffer,
  Vga.vga_wf (y_vga s) -> FileSys.reading (y_fs s) fd cs f -> FileSys.within (span D) cs -> medium (y_disk s) img ->
  length buffer = 256%nat -> FileSys.f_size f - FileSys.position f + 256 <= 256 * Z.of_nat fuel ->
  exists s' f', cat_loop fuel fd buffer s = Ok (tt, s') /\ Vga.vga_wf (y_vga s') /\
    FileSys.reading (y_fs s') fd cs f' /\
    Vga.term_of (y_vga s') =
      Vga.Term.write (slice (FileSys.contents img cs) (FileSys.position f) (FileSys.f_size f - FileSys.position f))
                     (Vga.term_of (y_vga s)).
Proof.
  induction fuel as [|fuel IH]; intros s f buffer Hw Hg Hin Hmed Hb Hfuel;
    pose proof Hg as [_ _ _ _ [_ _ Hsz _ Hp _]]; [lia|].
  destruct (FileSys.read_at (y_fs s) fd cs f img buffer 256 (y_disk s) Hg Hin Hmed ltac:(unfold is_u16; lia)
              ltac:(unfold zlen; lia)) as (cur & f1 & d1 & E & Hmed1 & Hg1 & _).
  set (n := Z.min 256 (FileSys.f_size f - FileSys.position f)) in *.
  set (b1 := splice buffer 0 _) in *.
  assert (Hcl : zlen (FileSys.contents img cs) = 512 * zlen cs)
    by (apply FileSys.contents_length; intros; by apply (medium_sector (y_disk s) img)).
  assert (Hlen : zlen (slice (FileSys.contents img cs) (FileSys.position f) n) = n)
    by (apply zlen_slice; unfold n; lia).
  set (s1 := set_fs f1 d1 s).
  assert (Hstep : cat_loop (S fuel) fd buffer s =
    (if 0 <? n then put_bytes (Z.to_nat n) b1 0 ;; cat_loop fuel fd b1 else mret tt) s1).
  { cbn [cat_loop]. eapply M_run; [reflexivity|]. cbv beta. eapply lift_run; [exact E|]. reflexivity. }
  rewrite Hstep. destruct (Z.ltb_spec 0 n) as [Hn|Hn].
  - assert (Hb1 : zlen b1 = 256) by (unfold b1; rewrite zlen_splice; unfold zlen in *; lia).
    destruct (put_bytes_prints (Z.to_nat n) b1 0 s1 Hw ltac:(lia) ltac:(lia)) as (v & p & E1 & Hw1 & Ht1).
    destruct (IH (set_console v p s1) _ b1 Hw1 Hg1 Hin Hmed1 ltac:(unfold zlen in *; lia)) as (s' & f' & E2 & Hw2 & Hg2 & Ht2).
    { cbn [FileSys.move_file FileSys.f_size FileSys.position]. lia. }
    exists s', f'. split_and!; try done; [by eapply M_run; [exact E1|]|].
    rewrite Ht2. cbn [y_vga set_console FileSys.move_file FileSys.f_size FileSys.position]. rewrite Ht1.
    change (y_vga s1) with (y_vga s). rewrite Z2Nat.id by lia.
    assert (Hb0 : slice b1 0 n = slice (FileSys.contents img cs) (FileSys.position f) n).
    { rewrite <- Hlen at 1. apply slice_splice_in; unfold zlen in *; lia. }
    rewrite Hb0, <- term_write_app, <- slice_add by lia. do 2 f_equal. lia.
  - exists s1. eexists. split_and!; [done|done|exact Hg1|]. rewrite slice_empty by lia. done.
Qed.

(** A step that only looks. *)
Lemma prints_query {A B} (R : B -> Prop) (m : M (sys D P) A) (f : A -> M (sys D P) B) a t s :
  m s = Ok (a, s) -> prints R (f a) t s -> prints R (m ≫= f) t s.
Proof. intros E (b & v & p & E' & H'). exists b, v, p. split; [|done]. eapply M_run; [exact E|done]. Qed.

Lemma faults_query {A B} (m : M (sys D P) A) (f : A -> M (sys D P) B) a s :
  m s = Ok (a, s) -> faults (f a) s -> faults (m ≫= f) s.
Proof. intros E E'. unfold faults. eapply M_run; [exact E|done]. Qed.

(** *** Octets in a buffer of three bytes *)

Definition octet (x : Z) : Prop := 0 <= x < 256.

(** What [cmd_ifconfig] shows of an address. *)
Fixpoint dots (l : list Z) : list Z :=
  match l with
  | [] => []
  | [x] => itoa_text x 10
  | x :: l => itoa_text x 10 ++ 46 :: dots l
  end.
Definition hex2 (x : Z) : list Z := (if x <? 16 then [48] else []) ++ itoa_text x 16.
Fixpoint colons (l : list Z) : list Z :=
  match l with
  | [] => []
  | [x] => hex2 x
  | x :: l => hex2 x ++ 58 :: colons l
  end.

Lemma seqZ_case (Q : Z -> bool) m n x : forallb Q (seqZ m n) = true -> m <= x < m + n -> Q x = true.
Proof. intros HQ Hx. rewrite forallb_forall in HQ. apply HQ, list_elem_of_In, elem_of_seqZ. lia. Qed.

Lemma itoa_text_clean x b : 2 <= b <= 36 -> Forall (fun c => c <> 0) (itoa_text x b).
Proof.
  intros Hb. unfold itoa_text. apply Forall_app. split; [by case_if; repeat constructor|].
  case_if; [by repeat constructor|]. apply Forall_fmap, Forall_rev.
  eapply Forall_impl; [apply digits_range; lia|]. intros d Hd. cbn in Hd |- *. unfold digit_char. destruct (d <? 10); lia.
Qed.

Lemma octet_fits x buf : 0 <= x < 100 -> length buf = 3%nat ->
  exists r, itoa (i32 x) buf 10 = Ok (cstr (itoa_text x 10) r) /\ length (cstr (itoa_text x 10) r) = 3%nat.
Proof.
  intros Hx Hb. rewrite i32_id by (unfold is_i32; lia).
  pose proof (itoa_text_digits x 10 2 ltac:(lia) ltac:(lia) ltac:(change (10 ^ Z.of_nat 2) with 100; lia)) as Hl.
  rewrite (proj2 (Z.ltb_ge _ _)) in Hl by lia.
  exists (drop (S (length (itoa_text x 10))) buf). rewrite itoa_spec by (unfold zlen in *; lia).
  split; [done|]. unfold cstr. rewrite length_app. cbn [length]. rewrite length_drop. unfold zlen in *. lia.
Qed.

Lemma octet_overflows x buf : 100 <= x < 256 -> length buf = 3%nat -> itoa (i32 x) buf 10 = Err OutOfBounds.
Proof.
  intros Hx Hb. rewrite i32_id by (unfold is_i32; lia).
  destruct buf as [|a [|b [|c [|]]]]; try done.
  pose proof (seqZ_case (fun x => match itoa x [a; b; c] 10 with Err OutOfBounds => true | _ => false end)
    100 156 x ltac:(by vm_compute) Hx) as Hc.
  cbv beta in Hc. by destruct (itoa x _ 10) as [|[]].
Qed.

(** A byte in hexadecimal always fits, and the second character tells whether a
    zero is missing in front. *)
Lemma hex_fits x buf : octet x -> length buf = 3%nat ->
  exists r b1, itoa x buf 16 = Ok (cstr (itoa_text x 16) r) /\ length (cstr (itoa_text x 16) r) = 3%nat /\
    rd (cstr (itoa_text x 16) r) 1 = Ok b1 /\ (b1 =? 0) = (x <? 16).
Proof.
  intros Hx Hb. pose proof (itoa_text_digits x 16 2 ltac:(lia) ltac:(lia) ltac:(change (16 ^ Z.of_nat 2) with 256; unfold octet in Hx; lia)) as Hl.
  rewrite (proj2 (Z.ltb_ge _ _)) in Hl by (unfold octet in Hx; lia).
  set (r := drop (S (length (itoa_text x 16))) buf).
  assert (Hlen : length (cstr (itoa_text x 16) r) = 3%nat).
  { unfold cstr, r. rewrite length_app. cbn [length]. rewrite length_drop. unfold zlen in *. lia. }
  assert (Hb1 : exists b1, rd (cstr (itoa_text x 16) r) 1 = Ok b1 /\ (b1 =? 0) = (x <? 16)).
  { pose proof (seqZ_case (fun x => match rd (cstr (itoa_text x 16) r) 1 with
      Ok b1 => Bool.eqb (b1 =? 0) (x <? 16) | Err _ => false end) 0 256 x ltac:(by vm_compute) Hx) as Hc.
    cbv beta in Hc. destruct (rd _ 1) as [b1|]; [|done]. exists b1. split; [done|]. by apply Bool.eqb_prop. }
  destruct Hb1 as (b1 & ? & ?). exists r, b1. rewrite itoa_spec by (unfold zlen in *; unfold octet in Hx; lia). done.
Qed.

Lemma prints_nil_r {A} (Q : A -> Prop) m t s : prints Q m (t ++ []) s -> prints Q m t s.
Proof. by rewrite app_nil_r. Qed.

Lemma number_fits x buf s : Vga.vga_wf (y_vga s) -> 0 <= x < 100 -> length buf = 3%nat ->
  prints (fun b => length b = 3%nat) (number x buf 10) (itoa_text x 10) s.
Proof.
  intros Hw Hx Hb. destruct (octet_fits x buf Hx Hb) as (r & Hi & Hr). unfold number.
  eapply prints_lift; [exact Hi|]. apply prints_nil_r.
  eapply prints_bind; [apply prints_write; [done|by apply itoa_text_clean]|]. intros. by apply prints_ret.
Qed.

(** The loop over the octets [l] behind [pre], while all fit. *)
Lemma quad_prints l : forall pre buf s, Vga.vga_wf (y_vga s) -> Forall (fun x => 0 <= x < 100) l ->
  zlen pre + zlen l = 4 -> length buf = 3%nat ->
  prints (fun b => length b = 3%nat) (print_quad (length l) (pre ++ l) (zlen pre) buf) (dots l) s.
Proof.
  induction l as [|x l IH]; intros pre buf s Hw Hl Hn Hb; [by apply prints_ret|].
  apply Forall_cons in Hl as [Hx Hl]. cbn [length print_quad].
  eapply prints_lift; [apply rd_app_mid|].
  replace (dots (x :: l)) with (itoa_text x 10 ++ (if zlen pre <? 3 then [46] else []) ++ dots l).
  - eapply prints_bind; [by apply number_fits|]. intros b v p Hlb Hv.
    eapply prints_bind; [apply (prints_if (fun _ => True)); [by apply prints_put|by apply prints_ret]|].
    intros _ v' p' _ Hv'. rewrite cons_middle, (assoc_L app).
    replace (zlen pre + 1) with (zlen (pre ++ [x])) by (rewrite zlen_app; done).
    apply IH; try done. rewrite zlen_app. unfold zlen in *. cbn [length] in *. lia.
  - unfold zlen in *. destruct l; cbn [length dots] in *.
    + rewrite (proj2 (Z.ltb_ge _ _)) by lia. by rewrite app_nil_r.
    + by rewrite (proj2 (Z.ltb_lt _ _)) by lia.
Qed.

Lemma quad_faults l : forall pre buf s, Vga.vga_wf (y_vga s) -> Forall octet l ->
  Exists (fun x => 100 <= x) l -> zlen pre + zlen l = 4 -> length buf = 3%nat ->
  faults (print_quad (length l) (pre ++ l) (zlen pre) buf) s.
Proof.
  induction l as [|x l IH]; intros pre buf s Hw Ho He Hn Hb; [by apply Exists_nil in He|].
  apply Forall_cons in Ho as [Hx Ho]. cbn [length print_quad]. eapply faults_lift; [apply rd_app_mid|].
  destruct (Z.ltb_spec x 100) as [Hlt|Hge].
  - eapply (faults_after (fun b => length b = 3%nat)); [apply number_fits; unfold octet in Hx; done || lia|].
    intros b v p Hlb Hv.
    eapply (faults_after (fun _ => True));
      [apply (prints_if (fun _ => True)); [by apply prints_put|by apply prints_ret]|].
    intros _ v' p' _ Hv'. rewrite cons_middle, (assoc_L app).
    replace (zlen pre + 1) with (zlen (pre ++ [x])) by (rewrite zlen_app; done).
    apply IH; try done; [apply Exists_cons in He as [?|?]; [lia|done]|].
    rewrite zlen_app. unfold zlen in *. cbn [length] in *. lia.
  - apply faults_bind. unfold faults, number. unfold octet in Hx. by rewrite octet_overflows by (lia || done).
Qed.

Lemma mac_prints l : forall pre buf s, Vga.vga_wf (y_vga s) -> Forall octet l ->
  zlen pre + zlen l = 6 -> length buf = 3%nat ->
  prints (fun b => length b = 3%nat) (print_mac (length l) (pre ++ l) (zlen pre) buf) (colons l) s.
Proof.
  induction l as [|x l IH]; intros pre buf s Hw Hl Hn Hb; [by apply prints_ret|].
  apply Forall_cons in Hl as [Hx Hl]. cbn [length print_mac].
  eapply prints_lift; [apply rd_app_mid|].
  destruct (hex_fits x buf Hx Hb) as (r & b1 & Hi & Hr & Hrd & Hz).
  eapply prints_lift; [exact Hi|]. eapply prints_lift; [exact Hrd|].
  replace (colons (x :: l)) with
    ((if b1 =? 0 then [48] else []) ++ itoa_text x 16 ++ (if zlen pre <? 5 then [58] else []) ++ colons l).
  - eapply prints_bind; [apply (prints_if (fun _ => True)); [by apply prints_put|by apply prints_ret]|].
    intros _ v p _ Hv. eapply prints_bind; [apply prints_write; [done|by apply itoa_text_clean]|].
    intros _ v1 p1 _ Hv1.
    eapply prints_bind; [apply (prints_if (fun _ => True)); [by apply prints_put|by apply prints_ret]|].
    intros _ v' p' _ Hv'. rewrite cons_middle, (assoc_L app).
    replace (zlen pre + 1) with (zlen (pre ++ [x])) by (rewrite zlen_app; done).
    apply IH; try done. rewrite zlen_app. unfold zlen in *. cbn [length] in *. lia.
  - rewrite Hz. unfold zlen in *. destruct l; cbn [length colons] in *; unfold hex2.
    + rewrite (proj2 (Z.ltb_ge _ 5)) by lia. cbn [app]. by rewrite app_nil_r.
    + rewrite (proj2 (Z.ltb_lt _ 5)) by lia. cbn [app]. by rewrite <- !app_assoc.
Qed.

Lemma iface_run s o : Net.the_iface (Socket.s_net (y_socks s)) = Ok (o, Socket.s_net (y_socks s)) ->
  iface s = Ok (o, s).
Proof.
  intros E.
  assert (Hz : zoom y_socks set_socks (Socket.on_net Net.the_iface) s = Ok (o, s)).
  { unfold zoom, Socket.on_net. rewrite E. by destruct s as [? ? ? ? ? ? ? []]. }
  unfold iface, on_socks. eapply M_run; [reflexivity|]. cbv beta. eapply M_run; [exact Hz|].
  eapply M_run; [reflexivity|]. cbv beta. unfold printed_since. by rewrite drop_all.
Qed.

End Lemmas.

(** ** Properties *)

(** The lines of [cmd_ifconfig]. *)
Definition ifconfig_text (x : Net.net_interface_t) : list Z :=
  chars "eth0: " ++ chars "MAC=" ++ colons (Net.mac_addr x) ++ [10] ++
  chars "      inet " ++ dots (Net.ip_addr x) ++ chars " " ++ chars "netmask " ++ dots (Net.netmask x) ++ [10] ++
  chars "      gateway " ++ dots (Net.gateway x) ++ [10] ++
  chars "      dns1 " ++ dots (Net.dns1 x) ++ chars " dns2 " ++ dots (Net.dns2 x) ++ [10].

Definition octets_of (x : Net.net_interface_t) : list Z :=
  Net.ip_addr x ++ Net.netmask x ++ Net.gateway x ++ Net.dns1 x ++ Net.dns2 x.

Record addresses (x : Net.net_interface_t) : Prop := {
  ad_mac : length (Net.mac_addr x) = 6%nat;
  ad_ip : length (Net.ip_addr x) = 4%nat;
  ad_mask : length (Net.netmask x) = 4%nat;
  ad_gate : length (Net.gateway x) = 4%nat;
  ad_dns1 : length (Net.dns1 x) = 4%nat;
  ad_dns2 : length (Net.dns2 x) = 4%nat;
  ad_mac_u8 : Forall octet (Net.mac_addr x);
  ad_u8 : Forall octet (octets_of x)
}.

Lemma quad_all {D P} `{Bus P} l buf (s : sys D P) : Vga.vga_wf (y_vga s) -> length l = 4%nat ->
  Forall (fun x => x < 100) l -> Forall octet l -> length buf = 3%nat ->
  prints (fun b => length b = 3%nat) (print_quad 4 l 0 buf) (dots l) s.
Proof.
  intros Hw Hl Ho Hu Hb. rewrite <- Hl. apply (quad_prints l []); try done; [|unfold zlen; rewrite Hl; done].
  apply Forall_forall. intros x Hx. rewrite Forall_forall in Ho, Hu. specialize (Ho x Hx). specialize (Hu x Hx).
  unfold octet in Hu. lia.
Qed.

Lemma quad_bad {D P} `{Bus P} l buf (s : sys D P) : Vga.vga_wf (y_vga s) -> length l = 4%nat ->
  ~ Forall (fun x => x < 100) l -> Forall octet l -> length buf = 3%nat -> faults (print_quad 4 l 0 buf) s.
Proof.
  intros Hw Hl Ho Hu Hb. rewrite <- Hl. apply (quad_faults l []); try done; [|unfold zlen; rewrite Hl; done].
  apply not_Forall_Exists in Ho; [|apply _]. eapply Exists_impl; [exact Ho|]. cbn. lia.
Qed.

(** One step of a command that prints and of one that will fault. *)
Ltac print_step t :=
  eapply prints_bind; [first [by apply prints_say | by apply prints_sayln | by apply prints_newline | t]|]; intros ? ? ? ? ?.
Ltac fault_step t :=
  eapply faults_after; [first [by apply prints_say | by apply prints_newline | t]|]; intros ? ? ? ? ?.

(** C36.  [cmd_ifconfig] formats octets into [char buf[3]].  For any interface: when every octet of the
    five addresses is below 100 the command returns 0 and the screen has received
    the lines with the MAC address in hexadecimal and the addresses in dotted
    notation; when some octet has three digits (every netmask with a 255) it
    writes behind the buffer. *)
Theorem ifconfig_in_three_bytes {D P} `{Bus P} x buf (s : sys D P) :
  Vga.vga_wf (y_vga s) -> addresses x -> length buf = 3%nat ->
  Net.the_iface (Socket.s_net (y_socks s)) = Ok (Some x, Socket.s_net (y_socks s)) ->
  (Forall (fun o => o < 100) (octets_of x) -> prints (fun r => r = 0) (cmd_ifconfig buf) (ifconfig_text x) s) /\
  (~ Forall (fun o => o < 100) (octets_of x) -> faults (cmd_ifconfig buf) s).
Proof.
  intros Hw [Hm Hi Hk Hg Hd1 Hd2 Um U] Hb Hif.
  unfold octets_of in *. rewrite !Forall_app in U. destruct U as (Ui & Uk & Ug & U1 & U2).
  rewrite !Forall_app.
  assert (Hmac : forall s : sys D P, Vga.vga_wf (y_vga s) ->
    prints (fun b => length b = 3%nat) (print_mac 6 (Net.mac_addr x) 0 buf) (colons (Net.mac_addr x)) s).
  { intros s' Hw'. rewrite <- Hm. apply (mac_prints _ []); try done. unfold zlen. by rewrite Hm. }
  split.
  - intros (Fi & Fk & Fg & F1 & F2). unfold cmd_ifconfig, ifconfig_text.
    eapply prints_query; [exact (iface_run s (Some x) Hif)|].
    repeat print_step ltac:(first [by apply Hmac | by apply quad_all]).
    apply prints_nil_r. print_step idtac. by apply prints_ret.
  - intros Hf. unfold cmd_ifconfig. eapply faults_query; [exact (iface_run s (Some x) Hif)|].
    do 2 fault_step idtac. fault_step ltac:(by apply Hmac).
    destruct (decide (Forall (fun o => o < 100) (Net.ip_addr x))),
      (decide (Forall (fun o => o < 100) (Net.netmask x))), (decide (Forall (fun o => o < 100) (Net.gateway x))),
      (decide (Forall (fun o => o < 100) (Net.dns1 x))), (decide (Forall (fun o => o < 100) (Net.dns2 x)));
      try (exfalso; tauto);
      repeat first [apply faults_bind; by apply quad_bad | fault_step ltac:(by apply quad_all)].
Qed.

(** A system with a disk that holds the file A.TXT, two user processes and a
    network interface. *)
Definition ex_fs : FileSys.fs :=
  match FileSys.fs_init FileSys.ex_heap FileSys.ex_boot FileSys.ex_disk with
  | Ok (_, _, s, _) => s
  | Err _ => FileSys.ex_boot
  end.
Definition ex_sys : sys ram unit :=
  Sys Vga.ex_vga tt FileSys.ex_disk Disk.ex_disks ex_fs Process.ex_state Ipc.ipc_boot
      (Socket.boot_sockets Net.ex_net) (Http.HttpServer 0 0 [] 0) (Dns.DnsServer 0 0) Dhcp.ex_srv Ui.ex_ui 7.

Lemma ifconfig_in_three_bytes_witness :
  Net.ip_addr Net.ex_iface = [192; 168; 1; 100] /\
  (~ Forall (fun o => o < 100) (octets_of Net.ex_iface) -> faults (@cmd_ifconfig ram unit Vga.ex_bus [0; 0; 0]) ex_sys).
Proof.
  split; [reflexivity|].
  apply (@ifconfig_in_three_bytes ram unit Vga.ex_bus Net.ex_iface [0; 0; 0] ex_sys Vga.ex_vga_wf).
  - constructor; try reflexivity; apply (bool_decide_unpack _); vm_compute; exact I.
  - reflexivity.
  - vm_compute. reflexivity.
Defined.

(** On a disk whose sectors read back, [cat] of a name that exists and opens
    returns 0 and leaves its descriptor free: the screen has received the whole
    file, byte for byte, and a line feed.  A turn for every 256 bytes and one more
    is fuel enough, so the loop always ends. *)
Lemma cat_prints_file {D P} `{BlockMedium D} `{Bus P} fuel argv name img cs f fd f1 buffer (s : sys D P) :
  Vga.vga_wf (y_vga s) -> rd argv 1 = Ok name ->
  FileSys.fs_file_exists (y_fs s) name = Ok 1 -> FileSys.fs_open (Some name) (y_fs s) = Ok (fd, f1) ->
  FileSys.reading f1 fd cs f -> FileSys.within (span D) cs -> FileSys.position f = 0 -> medium (y_disk s) img ->
  length buffer = 256%nat -> FileSys.f_size f + 256 <= 256 * Z.of_nat fuel ->
  exists s' f', cmd_cat fuel 2 argv buffer s = Ok (0, s') /\ Vga.vga_wf (y_vga s') /\
    Vga.term_of (y_vga s') =
      Vga.Term.write (slice (FileSys.contents img cs) 0 (FileSys.f_size f) ++ [10]) (Vga.term_of (y_vga s)) /\
    rd (FileSys.g_files (y_fs s')) fd = Ok f' /\ FileSys.f_in_use f' = 0.
Proof.
  intros Hw Harg Hex Hop Hg Hin Hpos Hmed Hb Hfuel.
  destruct (cat_loop_spec fd cs img fuel (set_fs f1 (y_disk s) s) f buffer) as (s2 & f2 & E2 & Hw2 & Hg2 & Ht2);
    try done; [lia|].
  destruct (FileSys.close_reading _ _ _ _ Hg2) as (f3 & f' & Hcl & Hrd & Huse).
  destruct (put_spec 10 (set_fs f3 (y_disk s2) s2) Hw2) as (v & p & Ep & Hwp & Htp).
  destruct (FileSys.fd_good f1 fd f (FileSys.rg_len _ _ _ _ Hg) (FileSys.rg_fd _ _ _ _ Hg)) as [_ Hfd].
  exists (set_console v p (set_fs f3 (y_disk s2) s2)), f'. split; [|split; [done|split]]; [| |done].
  - unfold cmd_cat. change (2 <? 2) with false. cbv iota. eapply lift_run; [exact Harg|].
    eapply M_run; [reflexivity|]. eapply lift_run; [exact Hex|]. change (1 =? 0) with false. cbv iota.
    eapply (M_run _ _ _ fd); [unfold on_fs; by rewrite Hop|]. cbv beta.
    rewrite (proj2 (Z.ltb_ge _ _)) by lia. eapply M_run; [exact E2|].
    eapply (M_run _ _ _ 0); [unfold on_fs; by rewrite Hcl|]. eapply M_run; [exact Ep|]. done.
  - cbn [y_vga set_console]. rewrite Htp. cbn [y_vga set_fs] in Ht2 |- *. rewrite Ht2, Hpos, Z.sub_0_r, term_write_app. done.
Qed.

Lemma cat_prints_file_witness :
  exists s' f', cmd_cat (H0 := Vga.ex_bus) 6 2 [lit "cat"; FileSys.ex_name] (replicate 256 0) ex_sys = Ok (0, s') /\
    Vga.vga_wf (y_vga s') /\
    Vga.term_of (y_vga s') =
      Vga.Term.write (slice (FileSys.contents FileSys.ex_img [2; 3; 4]) 0 1100 ++ [10]) (Vga.term_of Vga.ex_vga) /\
    rd (FileSys.g_files (y_fs s')) 0 = Ok f' /\ FileSys.f_in_use f' = 0.
Proof.
  apply (@cat_prints_file ram unit _ _ Vga.ex_bus 6 [lit "cat"; FileSys.ex_name] FileSys.ex_name FileSys.ex_img [2; 3; 4]
           FileSys.ex_file 0 FileSys.ex_open (replicate 256 0) ex_sys Vga.ex_vga_wf).
  - reflexivity.
  - vm_compute. reflexivity.
  - vm_compute. reflexivity.
  - exact FileSys.ex_reading.
  - exact FileSys.ex_within.
  - reflexivity.
  - intros lba. reflexivity.
  - reflexivity.
  - vm_compute. congruence.
Defined.

(** ** The table of [ps] *)

(** The characters of a string up to its NUL. *)
Fixpoint text_of (l : list Z) : list Z :=
  match l with
  | [] => []
  | c :: l => if c =? 0 then [] else c :: text_of l
  end.
Definition padded (t : list Z) (width : Z) : list Z := t ++ replicate (Z.to_nat (width - zlen t)) 32.

Definition ps_row (p : Process.process_t) : list Z :=
  if decide (Process.state p = Process.PROC_STATE_UNUSED) then [] else
  itoa_text (Process.pid p) 10 ++ chars "  " ++ padded (text_of (state_name (Process.state p))) 9 ++
  padded (itoa_text (Process.priority p) 10) 9 ++ text_of (Process.name p) ++ [10].

Definition ps_text (q : Process.proc_state) : list Z :=
  chars "PID  STATE      PRIORITY  NAME" ++ [10] ++
  chars "===  ========== ========  ============================" ++ [10] ++
  concat (ps_row <$> Process.g_process_table q) ++
  [10] ++ chars "Total processes: " ++ itoa_text (Process.g_process_count q) 10 ++ [10].

(** A number that [itoa] shows as it is. *)
Definition shown (v : Z) : Prop := 0 <= v < 2 ^ 31.
Definition row_ok (p : Process.process_t) : Prop :=
  Process.state p = Process.PROC_STATE_UNUSED \/
  (shown (Process.pid p) /\ shown (Process.priority p) /\ FileSys.is_cstr (Process.name p)).

Section Ps.
Context {D P : Type} `{Bus P}.
Implicit Types (s : sys D P).

Lemma text_of_cstr t r : Forall (fun c => c <> 0) t -> text_of (cstr t r) = t.
Proof.
  induction t as [|c t IH]; intros Ht; [done|]. apply Forall_cons in Ht as [Hc Ht]. cbn.
  rewrite (proj2 (Z.eqb_neq _ _) Hc). f_equal. by apply IH.
Qed.

Lemma strlen_clean t r : Forall (fun c => c <> 0) t -> strlen (cstr t r) = Ok (zlen t).
Proof.
  induction t as [|c t IH]; intros Ht; [done|]. apply Forall_cons in Ht as [Hc Ht].
  change (cstr (c :: t) r) with (c :: cstr t r). cbn [strlen].
  rewrite (proj2 (Z.eqb_neq _ _) Hc), IH, bind_ret by done. f_equal. unfold zlen. cbn [length]. lia.
Qed.

Lemma spaces_prints n : forall s, Vga.vga_wf (y_vga s) -> prints (fun _ => True) (spaces n) (replicate n 32) s.
Proof.
  induction n as [|n IH]; intros s Hw; [by apply prints_ret|]. cbn [spaces replicate].
  change (32 :: replicate n 32) with ([32] ++ replicate n 32).
  eapply prints_bind; [by apply prints_put|]. intros. by apply IH.
Qed.

Lemma pad_prints t r w s : Vga.vga_wf (y_vga s) -> Forall (fun c => c <> 0) t ->
  prints (fun _ => True) (pad (cstr t r) w) (replicate (Z.to_nat (w - zlen t)) 32) s.
Proof. intros Hw Ht. unfold pad. eapply prints_lift; [by apply strlen_clean|]. by apply spaces_prints. Qed.

Lemma number_prints v buf s : Vga.vga_wf (y_vga s) -> shown v -> 11 <= zlen buf ->
  prints (fun b => zlen b = zlen buf /\ exists r, b = cstr (itoa_text v 10) r) (number v buf 10) (itoa_text v 10) s.
Proof.
  intros Hw Hv Hb. unfold shown in Hv. unfold number. rewrite i32_id by (unfold is_i32; lia).
  pose proof (itoa_text_digits v 10 10 ltac:(lia) ltac:(lia) ltac:(change (10 ^ Z.of_nat 10) with 10000000000; lia)) as Hl.
  rewrite (proj2 (Z.ltb_ge _ _)) in Hl by lia.
  eapply prints_lift; [apply itoa_spec; lia|]. apply prints_nil_r.
  eapply prints_bind; [apply prints_write; [done|by apply itoa_text_clean]|]. intros. apply prints_ret; [done|].
  split; [|by eexists]. unfold zlen in *. rewrite length_app. cbn [length]. rewrite length_drop. lia.
Qed.

Lemma state_name_text st : exists t, state_name st = cstr t [] /\ Forall (fun c => c <> 0) t.
Proof. destruct st; eexists (chars _); (split; [reflexivity|]); apply (bool_decide_unpack _); vm_compute; exact I. Qed.

(** The body of the loop, then the rest of it. *)
Lemma rows_print l : forall pre buf s, Vga.vga_wf (y_vga s) -> Forall row_ok l -> 11 <= zlen buf ->
  prints (fun b => zlen b = zlen buf) (list_processes (length l) (pre ++ l) (zlen pre) buf) (concat (ps_row <$> l)) s.
Proof.
  induction l as [|p l IH]; intros pre buf s Hw Hl Hb; [by apply prints_ret|].
  apply Forall_cons in Hl as [Hp Hl]. cbn [length list_processes fmap list_fmap concat].
  eapply prints_lift; [apply rd_app_mid|].
  eapply (prints_bind (fun b => zlen b = zlen buf)).
  - unfold ps_row. destruct (decide _) as [Hu|Hu]; [by apply prints_ret|].
    destruct Hp as [?|(Hpid & Hpr & nm & r & Hnm & Hnf)]; [done|].
    destruct (state_name_text (Process.state p)) as (st & -> & Hst). rewrite text_of_cstr by done.
    unfold padded. rewrite <- !app_assoc.
    eapply prints_bind; [by apply number_prints|]. intros b1 w1 q1 [Hb1 _] ?.
    print_step idtac. eapply prints_bind; [by apply prints_write|]. intros _ ? ? _ ?.
    eapply prints_bind; [by apply pad_prints|]. intros _ ? ? _ ?.
    eapply prints_bind; [apply number_prints; done || lia|]. intros b2 w2 q2 (Hb2 & r2 & ->) ?.
    eapply prints_bind; [apply pad_prints; [done|by apply itoa_text_clean]|]. intros _ ? ? _ ?.
    rewrite Hnm. assert (Hclean : Forall (fun c => c <> 0) nm).
    { eapply Forall_impl; [exact Hnf|]. by intros ? []. }
    rewrite text_of_cstr by done. eapply prints_bind; [by apply prints_write|]. intros _ ? ? _ ?.
    apply prints_nil_r. eapply prints_bind; [by apply prints_put|]. intros. apply prints_ret; [done|lia].
  - intros b v p' Hb1 Hv. rewrite cons_middle, (assoc_L app).
    replace (zlen pre + 1) with (zlen (pre ++ [p])) by (rewrite zlen_app; done). rewrite <- Hb1.
    apply IH; done || lia.
Qed.
End Ps.

(** [ps] prints the heading, one row for every slot that is in use, in the order of
    the table (its identifier, state and priority in columns and its name), and the number of processes; and
    changes nothing but the screen. *)
Lemma ps_lists_processes {D P} `{Bus P} buf (s : sys D P) :
  Vga.vga_wf (y_vga s) -> length (Process.g_process_table (y_proc s)) = Z.to_nat Process.MAX_PROCESSES ->
  Forall row_ok (Process.g_process_table (y_proc s)) -> shown (Process.g_process_count (y_proc s)) ->
  length buf = 32%nat ->
  prints (fun r => r = 0) (cmd_ps buf) (ps_text (y_proc s)) s.
Proof.
  intros Hw Hlen Hrows Hc Hb. unfold cmd_ps, process_display_info, ps_text.
  apply prints_nil_r. eapply prints_bind; [|intros; by apply prints_ret].
  rewrite (app_assoc (chars "PID  STATE      PRIORITY  NAME")). print_step idtac.
  rewrite (app_assoc (chars "===  ========== ========  ============================")). print_step idtac.
  eapply prints_query; [reflexivity|]. cbn [y_proc set_console]. rewrite <- Hlen.
  eapply prints_bind; [apply (rows_print _ []); done || (unfold zlen; rewrite Hb; lia)|]. intros b w q Hb1 ?.
  rewrite (app_assoc [10]). eapply prints_bind; [by apply (prints_text ([10] ++ chars "Total processes: ") [])|].
  intros _ ? ? _ ?. eapply prints_bind; [apply number_prints; [done|done|rewrite Hb1; unfold zlen; rewrite Hb; lia]|].
  intros. by apply prints_put.
Qed.

Lemma ps_lists_processes_witness :
  prints (fun r => r = 0) (@cmd_ps ram unit Vga.ex_bus (replicate 32 0)) (ps_text Process.ex_state) ex_sys /\
  take 31 (drop 86 (ps_text Process.ex_state)) = chars "0  running  0        kernel" ++ [10] ++ chars "1  ".
Proof.
  split; [|vm_compute; reflexivity].
  apply (@ps_lists_processes ram unit Vga.ex_bus (replicate 32 0) ex_sys Vga.ex_vga_wf).
  - reflexivity.
  - change (Forall row_ok (Process.g_process_table Process.ex_state)).
    destruct (Process.g_process_table Process.ex_state) as [|k [|a [|b l]]] eqn:E; vm_compute in E; try discriminate E.
    injection E as <- <- <- <-.
    repeat (apply Forall_cons; split;
      [first [left; reflexivity | right; split; [vm_compute; split; congruence|split; [vm_compute; split; congruence|]]]|]).
    + exists (chars "kernel"), (replicate 25 0). split; [reflexivity|]. by apply Http.nul_free_lit.
    + exists (chars "sh"), (replicate 29 0). split; [reflexivity|]. by apply Http.nul_free_lit.
    + exists (chars "sh"), (replicate 29 0). split; [reflexivity|]. by apply Http.nul_free_lit.
    + constructor.
  - vm_compute. split; congruence.
  - reflexivity.
Defined.

(** ** [ping] *)

(** What is read on the screen of events, and the events it can show. *)
Definition heard (e : Net.event) : list Z :=
  match e with
  | Net.Printed t => t
  | Net.Sent f =>
      if Net.NET_MTU <? zlen f then [] else chars "TX: " ++ itoa_text (zlen f) 10 ++ chars " bytes" ++ [10]
  | Net.Polled => []
  end.
Definition clean (e : Net.event) : Prop :=
  match e with Net.Printed t => Forall (fun c => c <> 0) t | _ => True end.

Lemma sent_text f : exists t, Net.rtl8139_send true (zlen f) (replicate 16 0) = Ok t /\ t = heard (Net.Sent f) /\
  Forall (fun c => c <> 0) t.
Proof.
  unfold Net.rtl8139_send, heard. cbn [negb orb]. destruct (Z.ltb_spec Net.NET_MTU (zlen f)) as [_|Hl]; [by eexists|].
  unfold Net.NET_MTU in Hl. pose proof (zlen_nonneg f).
  pose proof (itoa_text_digits (zlen f) 10 4 ltac:(lia) ltac:(lia) ltac:(change (10 ^ Z.of_nat 4) with 10000; lia)) as Hd.
  rewrite (proj2 (Z.ltb_ge _ _)) in Hd by lia.
  rewrite itoa_spec by (change (zlen (replicate 16 0)) with 16; lia). rewrite bind_ret.
  fold (cstr (itoa_text (zlen f) 10) (drop (S (length (itoa_text (zlen f) 10))) (replicate 16 0))).
  rewrite strlen_clean by (apply itoa_text_clean; lia). rewrite bind_ret.
  unfold cstr, zlen at 1. rewrite Nat2Z.id, take_app_length. eexists. split; [reflexivity|]. split; [done|].
  apply Forall_app. split; [apply (bool_decide_unpack _); vm_compute; exact I|].
  apply Forall_app. split; [apply itoa_text_clean; lia|]. apply (bool_decide_unpack _); vm_compute; exact I.
Qed.

Lemma replay_prints {D P} `{Bus P} es : forall s : sys D P, Vga.vga_wf (y_vga s) -> Forall clean es ->
  prints (fun _ => True) (replay es) (concat (heard <$> es)) s.
Proof.
  induction es as [|e es IH]; intros s Hw Hes; [by apply prints_ret|]. apply Forall_cons in Hes as [He Hes].
  cbn [fmap list_fmap concat]. destruct e as [f| |t]; cbn [replay].
  - destruct (sent_text f) as (t & Et & -> & Hc). eapply prints_lift; [exact Et|].
    eapply prints_bind; [by apply (prints_write _ [])|]. intros. by apply IH.
  - by apply IH.
  - eapply prints_bind; [by apply (prints_write _ [])|]. intros. by apply IH.
Qed.

Lemma quad_clean a b c d : Forall (fun x => x <> 0) (Http.quad_text a b c d).
Proof.
  assert (Hd : forall v, Forall (fun x => x <> 0) (Http.dec v)) by (intros; by apply itoa_text_clean).
  unfold Http.quad_text. repeat (apply Forall_app; split; [apply Hd|]; apply Forall_cons; split; [done|]). apply Hd.
Qed.

Lemma handed_clean s x proto dest data ck : Forall clean (Net.handed s x proto dest data ck).
Proof. unfold Net.handed. destruct (_ !! dest); by repeat constructor. Qed.

(** The echo request leaves in one frame and prints nothing. *)
Lemma echo_request_out s x dest : Net.eth_up s x -> Net.room s 156 ->
  Net.arp_wf (Net.arp_cache s) (Net.arp_cache_entries s) ->
  (forall ip mac, Net.arp_map (Net.arp_cache s) (Net.arp_cache_entries s) !! ip = Some mac -> length mac = 6%nat) ->
  length dest = 4%nat -> Forall is_u8 dest -> Forall is_u8 (Net.ip_addr x) ->
  exists s1 ck, Net.header_checksum x Net.IP_PROTO_ICMP dest Net.echo_request = Ok ck /\
    Net.icmp_send_echo_request dest s = Ok (tt, s1) /\
    Net.n_out s1 = Net.n_out s ++ Net.handed s x Net.IP_PROTO_ICMP dest Net.echo_request ck.
Proof.
  intros Hx Hroom Hwf Hmacs Hd Ud Ux.
  rewrite Net.echo_request_sends by (eapply Net.room_weaken; [|done]; lia).
  destruct (Net.ip_send_out (Net.took 40 s) x dest Net.IP_PROTO_ICMP Net.echo_request (Net.eth_up_took _ _ _ Hx)
    (Net.room_took s 40 116 ltac:(lia) ltac:(lia) Hroom) Hwf Hmacs Hd Ud Ux ltac:(vm_compute; split; congruence)
    ltac:(change (zlen Net.echo_request) with 40; lia)) as (ck & s1 & Hck & E & Hout).
  exists s1, ck. split; [exact Hck|]. split; [exact E|exact Hout].
Qed.

(** C35.  [ping] of a dotted decimal address, on an interface that is up (the booted kernel has none, [Kernel.no_network])
    and with heap room for the packet, prints [PING] with the address and hands to the driver's [send] an ICMP echo
    request for exactly that address: one frame to the hardware address in the cache, or behind a request for it one
    to everybody, its header checksum the one computed, stored low byte first.  What the driver, a simulator
    that transmits nothing, says of the frames follows on the screen; the command returns 0. *)
Theorem ping_sends_echo {D P} `{Bus P} a b c d r argv octets x (s : sys D P) :
  let n := Socket.s_net (y_socks s) in
  Vga.vga_wf (y_vga s) -> rd argv 1 = Ok (cstr (Http.quad_text a b c d) r) ->
  Forall is_u8 [a; b; c; d] -> length octets = 4%nat ->
  Net.eth_up n x -> Net.room n 156 -> Net.arp_wf (Net.arp_cache n) (Net.arp_cache_entries n) ->
  (forall ip mac, Net.arp_map (Net.arp_cache n) (Net.arp_cache_entries n) !! ip = Some mac -> length mac = 6%nat) ->
  Forall is_u8 (Net.ip_addr x) ->
  exists s' ck, Net.header_checksum x Net.IP_PROTO_ICMP [a; b; c; d] Net.echo_request = Ok ck /\
    let es := Net.handed n x Net.IP_PROTO_ICMP [a; b; c; d] Net.echo_request ck in
    cmd_ping 2 argv octets s = Ok (0, s') /\ Vga.vga_wf (y_vga s') /\
    Vga.term_of (y_vga s') =
      Vga.Term.write (chars "PING " ++ Http.quad_text a b c d ++ [10] ++ concat (heard <$> es)) (Vga.term_of (y_vga s)) /\
    Net.n_out (Socket.s_net (y_socks s')) = Net.n_out n ++ es.
Proof.
  intros n Hw Harg Hu Ho Hx Hroom Hwf Hmacs Ux.
  destruct (echo_request_out n x [a; b; c; d] Hx Hroom Hwf Hmacs ltac:(done) Hu Ux)
    as (n1 & ck & Hck & Esend & Hout).
  set (es := Net.handed n x Net.IP_PROTO_ICMP [a; b; c; d] Net.echo_request ck) in *.
  assert (Hes : Forall clean es) by apply handed_clean.
  apply Forall_cons in Hu as [Ha Hu]. apply Forall_cons in Hu as [Hb Hu]. apply Forall_cons in Hu as [Hc Hu].
  apply Forall_cons in Hu as [Hd _].
  destruct (prints_say "PING " s Hw eq_refl) as ([] & v1 & p1 & E1 & _ & Hw1 & Ht1).
  destruct (write_spec (Http.quad_text a b c d) r (set_console v1 p1 s) Hw1 (quad_clean a b c d)) as (v2 & p2 & E2 & Hw2 & Ht2).
  destruct (prints_newline (set_console v2 p2 s) Hw2) as ([] & v3 & p3 & E3 & _ & Hw3 & Ht3).
  set (k3 := {| Socket.sockets := Socket.sockets (y_socks s); Socket.next_fd := Socket.next_fd (y_socks s); Socket.s_net := n1 |}).
  destruct (replay_prints es (set_socks k3 (set_console v3 p3 s)) Hw3 Hes) as ([] & v4 & p4 & E4 & _ & Hw4 & Ht4).
  exists (set_console v4 p4 (set_socks k3 (set_console v3 p3 s))), ck. split; [exact Hck|]. cbv zeta. fold es. split; [|split; [done|split; [|exact Hout]]].
  - unfold cmd_ping. change (2 <? 2) with false. cbv iota. eapply lift_run; [exact Harg|].
    eapply lift_run; [by apply Http.parse_quad_text|]. cbv beta iota.
    eapply M_run; [exact E1|]. eapply M_run; [exact E2|]. eapply M_run; [exact E3|].
    eapply (M_run _ _ _ tt); [|reflexivity]. unfold on_socks. eapply M_run; [reflexivity|]. cbv beta.
    eapply (M_run _ _ _ tt (set_socks k3 (set_console v3 p3 s))).
    + unfold zoom, Socket.on_net. cbn [y_socks set_console]. fold n. by rewrite Esend.
    + eapply M_run; [reflexivity|]. cbv beta. unfold printed_since.
      cbn [y_socks set_socks set_console Socket.s_net k3]. fold n. rewrite Hout, drop_app_length.
      eapply M_run; [exact E4|done].
  - cbn [y_vga set_socks set_console] in *. rewrite Ht4, Ht3, Ht2, Ht1, <- !term_write_app. done.
Qed.

Lemma ping_sends_echo_witness :
  exists s' ck, Net.header_checksum Net.ex_iface Net.IP_PROTO_ICMP [192; 168; 1; 1] Net.echo_request = Ok ck /\
    let es := [Net.Sent (Net.request_frame Net.ex_iface [192; 168; 1; 1]);
               Net.Sent (Net.eth_frame Net.broadcast Net.ex_mac Net.ETHERTYPE_IPV4
                 (Net.datagram Net.IP_PROTO_ICMP [192;168;1;100] [192;168;1;1] Net.echo_request ck))] in
    cmd_ping (H0 := Vga.ex_bus) 2 [lit "ping"; lit "192.168.1.1"] [0; 0; 0; 0] ex_sys = Ok (0, s') /\
    Vga.vga_wf (y_vga s') /\
    Vga.term_of (y_vga s') =
      Vga.Term.write (chars "PING " ++ chars "192.168.1.1" ++ [10] ++ concat (heard <$> es)) (Vga.term_of Vga.ex_vga) /\
    Net.n_out (Socket.s_net (y_socks s')) = es.
Proof.
  apply (@ping_sends_echo ram unit Vga.ex_bus 192 168 1 1 [] [lit "ping"; lit "192.168.1.1"] [0; 0; 0; 0] Net.ex_iface
           ex_sys Vga.ex_vga_wf); try apply Net.ex_up; try apply Net.ex_wf; try reflexivity;
    try (apply (bool_decide_unpack _); vm_compute; exact I);
    try (repeat (apply Forall_cons; split; [vm_compute; split; congruence|]); constructor);
    try (eapply Net.room_weaken; [|apply Net.ex_wf]; lia).
Defined.
