(* ===== verification/Kernel.v ===== *)
(** * The kernel: start-up, the shell's loop and the panic *)
(** [src/kernel/main.c] and the loop of [shell_main] in [src/shell/shell.c]: the
    order in which [kmain] brings the components up, and the shell that runs the
    commands of [Shell] and [Netcmd] over all of them. *)

From Stdlib Require Import String.
From S2P Require Import Prelude Memory CString Block Ports Netcmd.
From S2P Require Vga Process Ipc FileSys Disk Net Socket Dns Dhcp Http Devices Shell Ui.

Definition VGA_COLOR_LIGHT_GREEN : Z := 10.
Definition VGA_COLOR_LIGHT_RED : Z := 12.
Definition MULTIBOOT_MAGIC : Z := 0x2BADB002.

(** ** The shell *)

(** What the commands find in the arrays on the stack: C leaves them
    uninitialised. *)
Record locals := Locals {
  l_buf3 : list Z;                          (* char buf[3] of ifconfig *)
  l_octets : list Z;                        (* int octets[4] of ping *)
  l_portstr : list Z;
  l_status_str : list Z;
  l_request : list Z;
  l_response_buf : list Z;
  l_sector : list Z;                        (* uint8_t buffer[512] of disk *)
  l_buf : list Z;                           (* char buf[32] *)
  l_entries : list FileSys.fs_dir_info_t;   (* fs_dir_info_t entries[224] of ls *)
  l_buffer : list Z;                        (* uint8_t buffer[256] of cat *)
  l_info : FileSys.fs_dir_info_t;
  l_msg1 : Z;
  l_msg2 : Z
}.

(** The arrays of [shell_main] and [parse_command], and the keys still to be
    typed. *)
Record frame := Frame {
  f_keys : list Z;
  f_line : list Z;      (* buffer[BUFFER_SIZE] of shell_main *)
  f_buffer : list Z;    (* the static one of parse_command *)
  f_argv : list Z
}.

Inductive turn :=
| Waiting
| Turn (exit : bool) (f : frame).

Section Shell.
Context {D P : Type} `{BlockDev D} `{Bus P}.

Definition on_device {A} (f : Vga.vga * P -> res (A * (Vga.vga * P))) : M (sys D P) A := fun s =>
  match f (y_vga s, y_ports s) with
  | Ok (a, (v, p)) => Ok (a, set_console v p s)
  | Err e => Err e
  end.
Definition set_color (foreground background : Z) : M (sys D P) unit :=
  on_console (fun v p => Ok (Vga.vga_set_color foreground background v, p)).

(** [commands[i].handler(argc, argv)]; [fuel] is for the loop of [cat]. *)
Definition run_command (fuel : nat) (k : locals) (command argc : Z) (argv : list (list Z)) : M (sys D P) Z :=
  match command with
  | 0 => on_device Shell.cmd_help
  | 1 => on_device (Shell.cmd_echo argc argv)
  | 2 => on_device Shell.cmd_clear
  | 3 => s ← getS; on_device (Shell.cmd_uptime (Devices.pit_get_ticks (y_now s)))
  | 4 => mret Shell.cmd_exit
  | 5 => cmd_ifconfig (l_buf3 k)
  | 6 => cmd_ping argc argv (l_octets k)
  | 7 => cmd_netstat
  | 8 => cmd_arp
  | 9 => cmd_route
  | 10 => cmd_http argc argv
  | 11 => cmd_dns argc argv
  | 12 => cmd_dhcp argc argv
  | 13 => cmd_wget argc argv (l_portstr k) (l_status_str k) (l_request k) (l_response_buf k)
  | 14 => cmd_disk argc argv (l_sector k) (l_buf k)
  | 15 => cmd_ps (l_buf k)
  | 16 => cmd_kill argc argv (l_buf k)
  | 17 => cmd_ls (l_entries k) (l_buf k)
  | 18 => cmd_cat fuel argc argv (l_buffer k)
  | 19 => cmd_file argc argv (l_info k) (l_buf k)
  | 20 => cmd_pipe (l_msg1 k) (l_msg2 k) (l_buf k)
  | 21 => cmd_ui argc argv
  | _ => liftR (Err OutOfBounds)
  end.

(** The inner loop of [shell_main]; [None] when the keys run out first. *)
Definition read_keys (f : frame) : M (sys D P) (option (Z * list Z * list Z)) := fun s =>
  match Shell.read_line (f_keys f) (f_line f) 0 (y_vga s, y_ports s) with
  | Ok None => Ok (None, s)
  | Ok (Some (pos, line, keys, (v, p))) => Ok (Some (pos, line, keys), set_console v p s)
  | Err e => Err e
  end.

(** One turn of [while (1)]. *)
Definition shell_turn (fuel : nat) (k : locals) (f : frame) : M (sys D P) turn :=
  say "vlsos> " ;;
  r ← read_keys f;
  match r with
  | None => mret Waiting
  | Some (pos, line, keys) =>
      '(action, buffer, argv) ← liftR (Shell.shell_line pos line (f_buffer f) (f_argv f));
      let f := Frame keys line buffer argv in
      match action with
      | Shell.NoCommand => mret (Turn false f)
      | Shell.Run command argc args =>
          result ← run_command fuel k command argc args;
          mret (Turn (result =? -1) f)
      | Shell.Unknown name =>
          say "Unknown command: " ;;
          write name ;;
          write [10; 0] ;;
          mret (Turn false f)
      end
  end.

(** The result: whether the shell has returned, and not only waits for a key.
    A turn reads at least one key, so one turn more than there are keys is
    enough. *)
Fixpoint shell_loop (turns fuel : nat) (k : nat -> locals) (f : frame) : M (sys D P) bool :=
  match turns with
  | O => liftR (Err OutOfFuel)
  | S t =>
      r ← shell_turn fuel (k t) f;
      match r with
      | Waiting => mret false
      | Turn true _ => mret true
      | Turn false f => shell_loop t fuel k f
      end
  end.

Definition shell_main (turns fuel : nat) (k : nat -> locals) (f : frame) : M (sys D P) bool :=
  set_color Ui.VGA_COLOR_LIGHT_GREY Ui.VGA_COLOR_BLACK ;;
  shell_loop turns fuel k f.

(** What comes after is [cli; hlt], for ever. *)
Definition kernel_panic (message : list Z) : M (sys D P) unit :=
  set_color VGA_COLOR_LIGHT_RED Ui.VGA_COLOR_BLACK ;;
  write (10 :: lit "KERNEL PANIC: ") ;;
  write message ;;
  write [10; 0].
End Shell.

(** ** Start-up *)

(** The system over the real disk driver; [A] is the ports of the ATA controllers.
    [malloc] has one heap, which is the one of the network code. *)
Record kernel (A P : Type) := Kernel {
  k_sys : sys (Disk.disks * A) P;
  k_idt : list Devices.idt_entry
}.
Arguments Kernel {A P} _ _. Arguments k_sys {A P} _. Arguments k_idt {A P} _.

#[local] Existing Instance Disk.disk_blocks.
#[local] Existing Instance Disk.disk_safe.

Inductive fate := Halted | AtPrompt.

Section Boot.
Context {A P : Type} `{Bus A} `{Bus P}.
(** Where the linker put the process stacks and the interrupt stubs. *)
Context (stacks : Z) (stubs : Devices.stubs).

Definition heap_of (s : sys (Disk.disks * A) P) : heap := Net.n_heap (Socket.s_net (y_socks s)).
Definition set_heap (h : heap) (s : sys (Disk.disks * A) P) : sys (Disk.disks * A) P :=
  let k := y_socks s in let n := Socket.s_net k in
  set_socks (Socket.SockState (Socket.sockets k) (Socket.next_fd k)
    (Net.Net (Net.interfaces n) (Net.num_interfaces n) (Net.arp_cache n) (Net.arp_cache_entries n) h (Net.n_out n))) s.
Definition set_disks (d : Disk.disks) (a : A) (s : sys (Disk.disks * A) P) : sys (Disk.disks * A) P :=
  Sys (y_vga s) (y_ports s) (d, a) d (y_fs s) (y_proc s) (y_ipc s) (y_socks s) (y_http s) (y_dns s) (y_dhcp s) (y_ui s) (y_now s).
Definition set_timer (t : Z) (p : P) (s : sys (Disk.disks * A) P) : sys (Disk.disks * A) P :=
  Sys (y_vga s) p (y_disk s) (y_drives s) (y_fs s) (y_proc s) (y_ipc s) (y_socks s) (y_http s) (y_dns s) (y_dhcp s) (y_ui s) t.

Definition in_sys {B} : M (sys (Disk.disks * A) P) B -> M (kernel A P) B :=
  zoom k_sys (fun s k => Kernel s (k_idt k)).
Definition update (f : sys (Disk.disks * A) P -> res (sys (Disk.disks * A) P)) : M (kernel A P) unit :=
  in_sys (fun s => match f s with Ok s => Ok (tt, s) | Err e => Err e end).

Definition init_idt : M (kernel A P) unit := fun k =>
  match Devices.idt_init stubs (k_idt k) with
  | Ok idt => Ok (tt, Kernel (k_sys k) idt)
  | Err e => Err e
  end.
Definition init_disk (s : sys (Disk.disks * A) P) : res (sys (Disk.disks * A) P) :=
  '(d, a) ← Disk.disk_init (y_disk s).1 (y_disk s).2; Ok (set_disks d a s).
Definition init_fs (s : sys (Disk.disks * A) P) : res (sys (Disk.disks * A) P) :=
  '(_, h, f, d) ← FileSys.fs_init (heap_of s) (y_fs s) (y_disk s); Ok (set_heap h (set_fs f d s)).

(** [kmain] up to [shell_main]; [false] after the panic. *)
Definition kmain_init (magic : Z) : M (kernel A P) bool :=
  in_sys (on_console (fun v p => Ok (Vga.vga_init v p))) ;;
  in_sys (on_console Vga.vga_clear_screen) ;;
  in_sys (set_color VGA_COLOR_LIGHT_GREEN Ui.VGA_COLOR_BLACK) ;;
  in_sys (sayln "VlsOs Operating System v0.1.0") ;;
  in_sys (write (chars "================================" ++ [10; 10; 0])) ;;
  if negb (magic =? MULTIBOOT_MAGIC) then
    in_sys (kernel_panic (lit "Invalid multiboot magic number!")) ;; mret false
  else
  in_sys (sayln "Initializing kernel...") ;;
  update (fun s => Ok (set_heap (memory_init (heap_of s)) s)) ;;
  in_sys (sayln "Memory management initialized") ;;
  init_idt ;;
  in_sys (sayln "Interrupt handler initialized") ;;
  update (fun s => q ← Process.process_init stacks (y_proc s); Ok (set_proc q s)) ;;
  in_sys (sayln "Process manager initialized") ;;
  update (fun s => let '(t, p) := Devices.pit_init 1000 (y_ports s) in Ok (set_timer t p s)) ;;
  in_sys (sayln "Timer initialized") ;;
  in_sys (on_console Devices.keyboard_init) ;;
  in_sys (sayln "Keyboard initialized") ;;
  update init_disk ;;
  in_sys (sayln "Disk subsystem initialized") ;;
  update init_fs ;;
  in_sys (sayln "File system initialized") ;;
  update (fun s => Ok (set_ipc (Ipc.ipc_init (y_ipc s)) s)) ;;
  in_sys (sayln "IPC subsystem initialized") ;;
  in_sys (write (10 :: chars "Kernel initialization complete!" ++ [10; 0])) ;;
  in_sys (write (chars "Type 'help' for available commands." ++ [10; 10; 0])) ;;
  in_sys (set_color Ui.VGA_COLOR_LIGHT_GREY Ui.VGA_COLOR_BLACK) ;;
  mret true.

Definition kmain (turns fuel : nat) (k : nat -> locals) (f : frame) (magic : Z) : M (kernel A P) fate :=
  up ← kmain_init magic;
  if (up : bool) then
    exited ← in_sys (shell_main turns fuel k f);
    if (exited : bool) then in_sys (kernel_panic (lit "Shell exited unexpectedly!")) ;; mret Halted
    else mret AtPrompt
  else mret Halted.
End Boot.

(** ** Running the start-up *)

Section Starting.
Context {A P : Type} `{Bus A} `{Bus P}.
Implicit Types (k : kernel A P).

Definition with_console (v : Vga.vga) (p : P) k : kernel A P := Kernel (set_console v p (k_sys k)) (k_idt k).

(** [m] returns [b] in a state that satisfies [Q]. *)
Definition reaches {B} (m : M (kernel A P) B) (b : B) (Q : kernel A P -> Prop) k : Prop :=
  exists k', m k = Ok (b, k') /\ Q k'.

Lemma reach_ret {B} (b : B) (Q : kernel A P -> Prop) k : Q k -> reaches (mret b) b Q k.
Proof. intros Hq. by exists k. Qed.

Lemma reach_print {B} m t (f : unit -> M (kernel A P) B) b Q k :
  prints (fun _ => True) m t (k_sys k) ->
  (forall v p, Vga.vga_wf v -> Vga.term_of v = Vga.Term.write t (Vga.term_of (y_vga (k_sys k))) ->
     reaches (f tt) b Q (with_console v p k)) ->
  reaches (in_sys m ≫= f) b Q k.
Proof.
  intros ([] & v & p & E & _ & Hv & Ht) Hf. destruct (Hf v p Hv Ht) as (k' & E' & Hq). exists k'. split; [|done].
  eapply M_run; [|exact E']. unfold in_sys, zoom. by rewrite E.
Qed.

Lemma reach_console {B} g v p (f : unit -> M (kernel A P) B) b Q k :
  g (y_vga (k_sys k)) (y_ports (k_sys k)) = Ok (v, p) -> reaches (f tt) b Q (with_console v p k) ->
  reaches (in_sys (on_console g) ≫= f) b Q k.
Proof.
  intros E (k' & E' & Hq). exists k'. split; [|done]. eapply M_run; [|exact E'].
  unfold in_sys, zoom, on_console. by rewrite E.
Qed.

Lemma reach_keyboard {B} (f : unit -> M (kernel A P) B) b Q k : Vga.vga_wf (y_vga (k_sys k)) ->
  (forall v p, Vga.vga_wf v -> reaches (f tt) b Q (with_console v p k)) ->
  reaches (in_sys (on_console Devices.keyboard_init) ≫= f) b Q k.
Proof.
  intros Hw Hf.
  destruct (prints_closed (chars "Keyboard driver loaded" ++ [10; 0]) (k_sys k) Hw) as (u & v & p & E & _ & Hv & _);
    [by vm_compute|].
  unfold write, on_console in E. eapply (reach_console _ v p); [|by apply Hf].
  unfold Devices.keyboard_init. by destruct (Vga.vga_write_string _ _ _) as [[v' p']|]; [injection E as _ <- <-|].
Qed.

Lemma reach_color {B} fg bg (f : unit -> M (kernel A P) B) b Q k :
  Vga.vga_wf (y_vga (k_sys k)) ->
  (forall v p, Vga.vga_wf v -> Vga.color v = u8 (Z.lor (Z.shiftl bg 4) fg) -> reaches (f tt) b Q (with_console v p k)) ->
  reaches (in_sys (set_color fg bg) ≫= f) b Q k.
Proof. intros [] Hf. eapply reach_console; [reflexivity|]. apply Hf; [by constructor|reflexivity]. Qed.

Lemma reach_update {B} g s' (f : unit -> M (kernel A P) B) b Q k :
  g (k_sys k) = Ok s' -> reaches (f tt) b Q (Kernel s' (k_idt k)) -> reaches (update g ≫= f) b Q k.
Proof.
  intros E (k' & E' & Hq). exists k'. split; [|done]. eapply M_run; [|exact E'].
  unfold update, in_sys, zoom. by rewrite E.
Qed.

Lemma reach_idt {B} h idt (f : unit -> M (kernel A P) B) b Q k :
  Devices.idt_init h (k_idt k) = Ok idt -> reaches (f tt) b Q (Kernel (k_sys k) idt) ->
  reaches (init_idt h ≫= f) b Q k.
Proof.
  intros E (k' & E' & Hq). exists k'. split; [|done]. eapply M_run; [|exact E'].
  unfold init_idt. by rewrite E.
Qed.
End Starting.

(** What the loader and the linker provide. *)
Record loaded {A P} (stacks : Z) (h : Devices.stubs) (k : kernel A P) : Prop := {
  lo_screen : zlen (Vga.vga_buffer (y_vga (k_sys k))) = Vga.CELLS;
  lo_stubs : Devices.stubs_ok h;
  lo_idt : zlen (k_idt k) = Devices.IDT_ENTRIES;
  lo_stacks : is_u32 stacks;
  lo_procs : Process.table_at_boot (y_proc (k_sys k));
  lo_disks : length (Disk.g_disks (y_disk (k_sys k)).1) = 4%nat;
  lo_models : Forall (fun d => length (Disk.model d) = 41%nat) (Disk.g_disks (y_disk (k_sys k)).1);
  lo_fs : FileSys.fs_boot (y_fs (k_sys k));
  lo_ram : forall a, is_u8 (heap_ram (heap_of (k_sys k)) a);
  lo_ipc : Ipc.ipc_tables_ok (y_ipc (k_sys k))
}.

(** Every component that [kmain] starts in the state its own theorems start from. *)
Record up {A P} `{Bus A} (stacks : Z) (h : Devices.stubs) (k : kernel A P) : Prop := {
  up_screen : Vga.vga_wf (y_vga (k_sys k));
  up_heap : heap_wf (heap_of (k_sys k));
  up_gates : forall n, 0 <= n < 256 -> exists g, rd (k_idt k) n = Ok g /\
    match Devices.handler_of h n with
    | Some a => Devices.gate_base g = a /\ Devices.present g = true
    | None => Devices.present g = false
    end;
  up_procs : Process.proc_wf stacks (y_proc (k_sys k));
  up_ticks : y_now (k_sys k) = 0;
  up_drives : Disk.probed 4 (y_drives (k_sys k)) /\ (y_disk (k_sys k)).1 = y_drives (k_sys k);
  up_fs : FileSys.fs_wf (y_fs (k_sys k));
  up_pipes : Ipc.pipes_rel (y_ipc (k_sys k)) Ipc.Fifo.init;
  up_queues : Ipc.queues_rel (y_ipc (k_sys k)) Ipc.Stream.init
}.

Section Boots.
Context {A P : Type} `{Bus A} `{Bus P}.
Implicit Types (k : kernel A P).

(** Reading a sector does not change the table of drives. *)
Lemma read_keeps_drives drive lba n buf (d : Disk.disks * A) r b d' :
  read_sectors drive lba n buf d = Ok (r, b, d') -> d'.1 = d.1.
Proof.
  destruct d as [ds a]. cbn. intros E. apply res_bind_Ok in E as ([[r0 b0] a0] & _ & E).
  by injection E as _ _ <-.
Qed.

Lemma fs_init_drives h f (d : Disk.disks * A) r h' f' d' :
  FileSys.fs_init h f d = Ok (r, h', f', d') -> d'.1 = d.1.
Proof.
  intros E. unfold FileSys.fs_init in E. destruct (negb _); [by injection E as _ _ _ <-|].
  cbv zeta in E. destruct (malloc _ h) as [p1 h1]. destruct (p1 =? NULL); [by injection E as _ _ _ <-|].
  destruct (malloc _ h1) as [p2 h2]. destruct (p2 =? NULL); [by injection E as _ _ _ <-|].
  apply res_bind_Ok in E as ([[r1 fat] d1] & E1 & E). apply read_keeps_drives in E1.
  destruct (r1 <? 0); [by injection E as _ _ _ <-|].
  apply res_bind_Ok in E as ([[r2 root] d2] & E2 & E). apply read_keeps_drives in E2.
  destruct (r2 <? 0); injection E as _ _ _ <-; congruence.
Qed.

Lemma init_fs_run (s : sys (Disk.disks * A) P) h f d r h' f' d' : heap_of s = h -> y_fs s = f -> y_disk s = d ->
  FileSys.fs_init h f d = Ok (r, h', f', d') -> init_fs s = Ok (set_heap h' (set_fs f' d' s)).
Proof. intros <- <- <- E. unfold init_fs. by rewrite E. Qed.

(** The screen comes up first. *)
Lemma screen_ready {B} (f : unit -> M (kernel A P) B) b Q k :
  zlen (Vga.vga_buffer (y_vga (k_sys k))) = Vga.CELLS ->
  (forall v p, Vga.vga_wf v -> reaches (f tt) b Q (with_console v p k)) ->
  reaches (in_sys (on_console (fun v p => Ok (Vga.vga_init v p))) ;;
           in_sys (on_console Vga.vga_clear_screen) ;; f tt) b Q k.
Proof.
  intros Hl Hf. eapply reach_console; [reflexivity|].
  set (v0 := {| Vga.vga_buffer := _; Vga.cursor_x := 0; Vga.cursor_y := 0; Vga.color := 0x0F |}).
  set (p0 := Vga.vga_update_cursor v0 _).
  destruct (Vga.clear_screen_wf v0 p0 Hl) as (v & p & E & Hv & _).
  eapply reach_console; [exact E|]. apply (Hf v p Hv).
Qed.
End Boots.

Ltac boot_say := eapply reach_print; [apply prints_closed; [done|vm_compute; reflexivity]|]; intros ? ? ? _.

(** The network, from the table of interfaces to the sockets, but for the heap it shares. *)
Definition net_tables (s : Socket.sock_state) :=
  (Socket.sockets s, Socket.next_fd s, Net.interfaces (Socket.s_net s), Net.num_interfaces (Socket.s_net s),
   Net.arp_cache (Socket.s_net s), Net.arp_cache_entries (Socket.s_net s), Net.n_out (Socket.s_net s)).

(** The parts that nothing in [kmain] starts: network and sockets, the servers, the user interface. *)
Record left_alone {A P} (k k' : kernel A P) : Prop := {
  la_net : net_tables (y_socks (k_sys k')) = net_tables (y_socks (k_sys k));
  la_http : y_http (k_sys k') = y_http (k_sys k);
  la_dns : y_dns (k_sys k') = y_dns (k_sys k);
  la_dhcp : y_dhcp (k_sys k') = y_dhcp (k_sys k);
  la_ui : y_ui (k_sys k') = y_ui (k_sys k)
}.

(** Start-up with what probing the drives and mounting come to. *)
Lemma boots_through {A P} `{Bus A} `{Bus P} stacks h (k : kernel A P) ds a r h' f' d' :
  loaded stacks h k -> Disk.disk_init (y_disk (k_sys k)).1 (y_disk (k_sys k)).2 = Ok (ds, a) ->
  FileSys.fs_init (memory_init (heap_of (k_sys k))) (y_fs (k_sys k)) (ds, a) = Ok (r, h', f', d') ->
  reaches (kmain_init stacks h MULTIBOOT_MAGIC) true
    (fun k' => (up stacks h k' /\ left_alone k k') /\ y_fs (k_sys k') = f' /\ y_disk (k_sys k') = d') k.
Proof.
  intros [Hscr Hstub Hidt Hstk Hproc Hdl Hdm Hfs Hram Hipc] Ed Ef. unfold kmain_init.
  apply (screen_ready (fun _ => _) true _ k Hscr). intros v1 p1 Hv1.
  apply reach_color; [done|]. intros v2 p2 Hv2 _. boot_say. boot_say.
  change (negb (MULTIBOOT_MAGIC =? MULTIBOOT_MAGIC)) with false. cbv iota. boot_say.
  eapply reach_update; [reflexivity|]. boot_say.
  destruct (Devices.idt_init_spec h (k_idt k) Hstub Hidt) as (idt & Ei & _ & Hg).
  eapply reach_idt; [exact Ei|]. boot_say.
  destruct (Process.process_init_wf stacks (y_proc (k_sys k)) Hstk Hproc) as (q & Eq & Hq & _).
  eapply reach_update; [cbn [with_console k_sys set_console y_proc set_heap set_socks]; rewrite Eq; reflexivity|].
  boot_say. eapply reach_update; [reflexivity|]. boot_say.
  apply reach_keyboard; [done|]. intros ? ? ?. boot_say.
  destruct (Disk.init_spec (y_disk (k_sys k)).1 (y_disk (k_sys k)).2 Hdl Hdm) as (ds0 & a0 & Ed0 & Hds).
  rewrite Ed in Ed0. injection Ed0 as <- <-.
  eapply reach_update; [unfold init_disk; cbn [with_console k_sys set_console y_disk set_timer set_proc set_heap set_socks];
    rewrite Ed; reflexivity|]. boot_say.
  destruct (FileSys.fs_init_wf (memory_init (heap_of (k_sys k))) (y_fs (k_sys k)) (ds, a) Hfs) as
    (r0 & h0 & f0 & d0 & Ef0 & Hfw & _); [exact (Disk.pb_len _ _ Hds)|exact Hram|].
  rewrite Ef in Ef0. injection Ef0 as <- <- <- <-.
  pose proof (FileSys.fs_init_heap _ _ _ _ _ _ _ Ef (memory_init_wf _)) as Hheap.
  pose proof (fs_init_drives _ _ _ _ _ _ _ Ef) as Hdr.
  eapply reach_update; [eapply init_fs_run; [reflexivity..|exact Ef]|]. boot_say.
  eapply reach_update; [reflexivity|]. do 3 boot_say.
  apply reach_color; [done|]. intros ? ? ? _. apply reach_ret. split; [|done]. split; [|by constructor].
  constructor; try done.
  - intros n Hn. destruct (Hg n Hn) as (g & Hr & Hc). exists g. split; [exact Hr|].
    destruct (Devices.handler_of h n); [|exact Hc]. by destruct Hc as (? & _ & _ & ?).
  - exact (Ipc.ipc_init_rel _ Hipc).
  - exact (Ipc.ipc_init_queues _ Hipc).
Qed.

Lemma boots_up {A P} `{Bus A} `{Bus P} stacks h (k : kernel A P) :
  loaded stacks h k ->
  reaches (kmain_init stacks h MULTIBOOT_MAGIC) true (fun k' => up stacks h k' /\ left_alone k k') k.
Proof.
  intros Hk. destruct (Disk.init_spec _ (y_disk (k_sys k)).2 (lo_disks _ _ _ Hk) (lo_models _ _ _ Hk)) as (ds & a & Ed & Hds).
  destruct (FileSys.fs_init_wf (memory_init (heap_of (k_sys k))) (y_fs (k_sys k)) (ds, a) (lo_fs _ _ _ Hk)) as
    (r & h' & f' & d' & Ef & _); [exact (Disk.pb_len _ _ Hds)|exact (lo_ram _ _ _ Hk)|].
  destruct (boots_through stacks h k ds a r h' f' d' Hk Ed Ef) as (k' & E & Hup & _). by exists k'.
Qed.

(** ** Running the shell *)

Section Turns.
Context {D P : Type} `{BlockDev D} `{Bus P}.
Implicit Types (s : sys D P) (f : frame).

Record frame_ok f : Prop := {
  fo_line : zlen (f_line f) = Shell.BUFFER_SIZE;
  fo_buffer : length (f_buffer f) = 256%nat;
  fo_argv : length (f_argv f) = 16%nat
}.

Lemma edited_clean keys : forall line l left, Forall is_u8 keys -> nul_free line ->
  Shell.edited keys line = Some (l, left) -> nul_free l.
Proof.
  induction keys as [|c keys IH]; intros line l left Hu Hn E; [discriminate E|].
  apply Forall_cons in Hu as [Hc Hu]. cbn [Shell.edited] in E.
  destruct (c =? 10); [by injection E as <- _|].
  destruct (c =? 8); [eapply IH; [done| |exact E]; by apply Forall_take|].
  destruct (Shell.key_text c) eqn:Ek; [|by eapply IH].
  eapply IH; [done| |exact E]. apply Forall_app. split; [done|]. apply Forall_singleton. split; [done|].
  intros ->. vm_compute in Ek. discriminate.
Qed.

(** The keys of one line: the prompt is shown, the line edited, and the arrays
    are as long as before. *)
Lemma keys_read f s l left : Vga.vga_wf (y_vga s) -> frame_ok f -> Shell.line_fits (f_keys f) [] ->
  Shell.edited (f_keys f) [] = Some (l, left) ->
  exists v p r, (say "vlsos> " ;; read_keys f) s = Ok (Some (zlen l, cstr l r, left), set_console v p s) /\
    Vga.vga_wf v /\ zlen (cstr l r) = Shell.BUFFER_SIZE /\
    Vga.term_of v = Vga.Term.write (chars "vlsos> " ++ Shell.echo (f_keys f) []) (Vga.term_of (y_vga s)).
Proof.
  intros Hw [Hl _ _] Hk He. destruct (prints_say "vlsos> " s Hw ltac:(by vm_compute)) as ([] & v & p & E & _ & Hv & Ht).
  destruct (Shell.read_line_edited (f_keys f) [] (f_line f) left l (v, p) Hv He) as (b & [v' p'] & Er & (r & ->) & Hb & Hv' & Ht').
  { exact Hk. }
  { exact Hl. }
  exists v', p', r. cbn [fst] in *. split; [|split_and!; try done; by rewrite term_write_app, <- Ht]. eapply M_run; [exact E|]. unfold read_keys.
  cbn [y_vga y_ports set_console]. cbn [app] in Er. change (zlen (@nil Z)) with 0 in Er. by rewrite Er.
Qed.
End Turns.

(** What the shell does with a line: [exec] runs the command at a position of the
    table with [argc] and the strings. *)
Definition line_runs {D P} `{BlockDev D} `{Bus P} (fuel : nat) (k : locals) (f f' : frame) (l : list Z) (s s1 : sys D P) : Prop :=
  match Shell.words l with
  | [] => shell_turn fuel k f s = Ok (Turn false f', s1)
  | w :: _ =>
      match list_find (fun n => n = w) Shell.command_names with
      | Some (i, _) => exists args,
          Forall2 (fun a v => exists rest, a = cstr v rest) args (take 16 (Shell.words l)) /\
          shell_turn fuel k f s =
            (r ← run_command fuel k (Z.of_nat i) (Z.min 16 (zlen (Shell.words l))) args; mret (Turn (r =? -1) f')) s1
      | None => exists v p, shell_turn fuel k f s = Ok (Turn false f', set_console v p s1) /\ Vga.vga_wf v /\
          Vga.term_of v = Vga.Term.write (chars "Unknown command: " ++ w ++ [10]) (Vga.term_of (y_vga s1))
      end
  end.

Lemma shell_turn_spec {D P} `{BlockDev D} `{Bus P} fuel k f l left (s : sys D P) :
  Vga.vga_wf (y_vga s) -> frame_ok f -> Forall is_u8 (f_keys f) -> Shell.line_fits (f_keys f) [] ->
  Shell.edited (f_keys f) [] = Some (l, left) ->
  exists v p f', Vga.vga_wf v /\ frame_ok f' /\ f_keys f' = left /\ line_runs fuel k f f' l s (set_console v p s) /\
    Vga.term_of v = Vga.Term.write (chars "vlsos> " ++ Shell.echo (f_keys f) []) (Vga.term_of (y_vga s)).
Proof.
  intros Hw Hf Hu Hk He. pose proof (edited_clean _ _ _ _ Hu (Forall_nil_2 _) He) as Hn.
  destruct (keys_read f s l left Hw Hf Hk He) as (v & p & r & E & Hv & Hz & Ht). pose proof Hf as [_ Hfb Hfa].
  assert (Hstep : shell_turn fuel k f s =
    ('(action, buffer, argv) ← liftR (Shell.shell_line (zlen l) (cstr l r) (f_buffer f) (f_argv f));
     let f := Frame left (cstr l r) buffer argv in
     match action with
     | Shell.NoCommand => mret (Turn false f)
     | Shell.Run command argc args => result ← run_command fuel k command argc args; mret (Turn (result =? -1) f)
     | Shell.Unknown name =>
         say "Unknown command: " ;; write name ;; write [10; 0] ;; mret (Turn false f)
     end) (set_console v p s)).
  { unfold shell_turn. revert E. unfold mbind, M_bind. destruct (say _ s) as [[[] s0]|]; [|done]. by intros ->. }
  destruct (decide (l = [])) as [->|Hne].
  - exists v, p, (Frame left (cstr [] r) (f_buffer f) (f_argv f)). split; [done|]. split; [by constructor|]. split; [done|]. split; [|exact Ht].
    unfold line_runs. change (Shell.words []) with (@nil (list Z)). cbv iota. rewrite Hstep. reflexivity.
  - assert (Hl : (length l < 256)%nat).
    { unfold zlen, cstr, Shell.BUFFER_SIZE in Hz. rewrite length_app in Hz. cbn [length] in Hz. lia. }
    destruct (Shell.shell_line_spec l r (f_buffer f) (f_argv f) Hn Hne Hl Hfb) as (act & b & a & Es & Hact).
    { unfold zlen. rewrite Hfa. done. }
    destruct (Shell.shell_line_length _ _ _ _ _ _ _ Es) as [Hlb Hla].
    exists v, p, (Frame left (cstr l r) b a). split; [done|]. split; [constructor; cbn; done || congruence|]. split; [done|]. split; [|exact Ht].
    rewrite Es in Hstep. unfold line_runs.
    destruct (Shell.words l) as [|w ws] eqn:Ew; [by rewrite Hstep, Hact|].
    destruct (list_find _ _) as [[i n]|].
    + destruct Hact as (args & -> & Ha). exists args. split; [done|]. by rewrite Hstep.
    + destruct Hact as (rest & ->).
      pose proof (Shell.words_nul_free l Hn) as Hwn. rewrite Ew in Hwn. apply Forall_cons in Hwn as [Hwn _].
      assert (Hclean : Forall (fun c => c <> 0) w) by (eapply Forall_impl; [exact Hwn|by intros ? []]).
      assert (Hp : prints (fun t => t = Turn false (Frame left (cstr l r) b a))
        (say "Unknown command: " ;; write (cstr w rest) ;; write [10; 0] ;;
         mret (Turn false (Frame left (cstr l r) b a)))
        (chars "Unknown command: " ++ w ++ [10]) (set_console v p s)).
      { eapply prints_bind; [by apply prints_say|]. intros _ ? ? _ ?.
        eapply prints_bind; [by apply prints_write|]. intros _ ? ? _ ?.
        apply prints_nil_r. eapply prints_bind; [by apply prints_newline|]. intros. by apply prints_ret. }
      destruct Hp as (t & v' & p' & Ep & -> & Hv' & Htt). exists v', p'. split; [|done]. rewrite Hstep. exact Ep.
Qed.

(** *** A turn reads a key *)

Lemma read_line_shorter {P} `{Bus P} keys : forall line pos d r line' keys' d', pos < Shell.BUFFER_SIZE - 1 ->
  Shell.read_line keys line pos d = Ok (Some (r, line', keys', d')) -> (length keys' < length keys)%nat.
Proof.
  assert (Hfull : forall keys line pos d r line' keys' d', Shell.BUFFER_SIZE - 1 <= pos ->
    Shell.read_line keys line pos d = Ok (Some (r, line', keys', d')) -> keys' = keys).
  { intros [|] line pos d r line' keys' d' Hp E; cbn [Shell.read_line] in E;
      rewrite (proj2 (Z.leb_le _ _)) in E by done; by injection E as _ _ <- _. }
  assert (Hrec : forall keys line pos d r line' keys' d',
    (forall line pos d r line' keys' d', pos < Shell.BUFFER_SIZE - 1 ->
       Shell.read_line keys line pos d = Ok (Some (r, line', keys', d')) -> (length keys' < length keys)%nat) ->
    Shell.read_line keys line pos d = Ok (Some (r, line', keys', d')) -> (length keys' <= length keys)%nat).
  { intros ks line pos d r line' keys' d' IH E. destruct (Z_lt_le_dec pos (Shell.BUFFER_SIZE - 1)) as [Hp|Hp].
    - apply IH in E; [lia|done].
    - by rewrite (Hfull _ _ _ _ _ _ _ _ Hp E). }
  induction keys as [|c keys IH]; intros line pos d r line' keys' d' Hp E; cbn [Shell.read_line] in E;
    rewrite (proj2 (Z.leb_gt _ _)) in E by done; [discriminate E|]. cbn [length].
  destruct (c =? 10).
  - apply res_bind_Ok in E as (b & _ & E). apply res_bind_Ok in E as (d1 & _ & E). injection E as _ _ <- _. lia.
  - apply Nat.lt_succ_r. destruct (c =? 8); [destruct (0 <? pos)|destruct (_ && _)].
    + apply res_bind_Ok in E as (d1 & _ & E). by eapply Hrec.
    + by eapply Hrec.
    + apply res_bind_Ok in E as (b & _ & E). apply res_bind_Ok in E as (d1 & _ & E). by eapply Hrec.
    + by eapply Hrec.
Qed.

Section Termination.
Context {D P : Type} `{BlockDev D} `{Bus P}.
Implicit Types (s : sys D P).

Lemma turn_reads fuel k f s b f' s' : shell_turn fuel k f s = Ok (Turn b f', s') ->
  (length (f_keys f') < length (f_keys f))%nat.
Proof.
  intros E. unfold shell_turn in E. apply M_bind_Ok in E as ([] & s0 & _ & E).
  apply M_bind_Ok in E as (r & s1 & Er & E). unfold read_keys in Er.
  destruct (Shell.read_line _ _ 0 _) as [[[[[pos line] keys] [v p]]|]|] eqn:El; try discriminate Er;
    injection Er as <- <-; [|discriminate E].
  apply read_line_shorter in El; [|vm_compute; reflexivity].
  apply M_bind_Ok in E as ([[act b1] a1] & s2 & _ & E). cbv zeta in E.
  assert (Hf : f' = Frame keys line b1 a1); [|by rewrite Hf].
  destruct act as [|name|c n args].
  - by injection E as _ <- _.
  - apply M_bind_Ok in E as (? & ? & _ & E). apply M_bind_Ok in E as (? & ? & _ & E).
    apply M_bind_Ok in E as (? & ? & _ & E). by injection E as _ <- _.
  - apply M_bind_Ok in E as (? & ? & _ & E). by injection E as _ <- _.
Qed.

Lemma loop_enough turns fuel k : forall f s, (length (f_keys f) < turns)%nat ->
  shell_loop turns fuel k f s = Err OutOfFuel -> exists t f' s', shell_turn fuel (k t) f' s' = Err OutOfFuel.
Proof.
  induction turns as [|t IH]; intros f s Hl E; [lia|]. cbn [shell_loop] in E.
  destruct (shell_turn fuel (k t) f s) as [[r s1]|e] eqn:Et.
  - rewrite (M_bind_run _ _ _ _ _ Et) in E. destruct r as [|[|] f1]; try discriminate E.
    apply turn_reads in Et. apply (IH f1 s1); [lia|done].
  - unfold mbind, M_bind in E. rewrite Et in E. injection E as ->. by exists t, f, s.
Qed.
End Termination.

(** *** The panic *)

Definition panic_text (message : list Z) : list Z := 10 :: chars "KERNEL PANIC: " ++ message ++ [10].

(** The message in light red on black, after whatever is on the screen. *)
Definition panicked {D P} (message : list Z) (s : sys D P) : Prop :=
  Vga.vga_wf (y_vga s) /\ exists t, Vga.Term.attr t = VGA_COLOR_LIGHT_RED /\
    Vga.term_of (y_vga s) = Vga.Term.write (panic_text message) t.

Lemma panic_spec {D P} `{Bus P} m (s : sys D P) : Vga.vga_wf (y_vga s) -> Forall (fun c => c <> 0) m ->
  exists v p, kernel_panic (m ++ [0]) s = Ok (tt, set_console v p s) /\ panicked m (set_console v p s).
Proof.
  intros [Hb Hx Hy] Hm.
  set (v0 := Vga.vga_set_color VGA_COLOR_LIGHT_RED Ui.VGA_COLOR_BLACK (y_vga s)).
  assert (Hv0 : Vga.vga_wf v0) by (by constructor).
  assert (Hp : prints (fun _ => True) (write (10 :: lit "KERNEL PANIC: ") ;; write (m ++ [0]) ;; write [10; 0])
    (panic_text m) (set_console v0 (y_ports s) s)).
  { change (panic_text m) with ((10 :: chars "KERNEL PANIC: ") ++ m ++ [10]).
    eapply prints_bind; [by apply (prints_closed (10 :: lit "KERNEL PANIC: "))|]. intros _ ? ? _ ?.
    eapply prints_bind; [by apply (prints_write m [])|]. intros _ ? ? _ ?. by apply prints_newline. }
  destruct Hp as ([] & v & p & E & _ & Hv & Ht). exists v, p. split.
  - unfold kernel_panic. eapply M_run; [reflexivity|]. exact E.
  - split; [done|]. exists (Vga.term_of v0). split; [reflexivity|]. exact Ht.
Qed.

Lemma panic_in_kernel {A P} `{Bus P} m (k : kernel A P) : Vga.vga_wf (y_vga (k_sys k)) -> Forall (fun c => c <> 0) m ->
  exists v p, in_sys (kernel_panic (m ++ [0])) k = Ok (tt, with_console v p k) /\ panicked m (k_sys (with_console v p k)).
Proof.
  intros Hw Hm. destruct (panic_spec m (k_sys k) Hw Hm) as (v & p & E & Hp). exists v, p. split; [|done].
  unfold in_sys, zoom. by rewrite E.
Qed.

Lemma wrong_magic {A P} `{Bus A} `{Bus P} stacks h magic (k : kernel A P) :
  zlen (Vga.vga_buffer (y_vga (k_sys k))) = Vga.CELLS -> magic <> MULTIBOOT_MAGIC ->
  reaches (kmain_init stacks h magic) false
    (fun k' => panicked (chars "Invalid multiboot magic number!") (k_sys k') /\
               exists v p, k' = with_console v p k) k.
Proof.
  intros Hs Hm. unfold kmain_init. apply (screen_ready (fun _ => _) false _ k Hs). intros v1 p1 Hv1.
  apply reach_color; [done|]. intros v2 p2 Hv2 _. boot_say. boot_say.
  rewrite (proj2 (Z.eqb_neq _ _) Hm). cbn [negb].
  match goal with |- reaches _ _ _ ?k0 => set (k1 := k0) end.
  destruct (panic_in_kernel (chars "Invalid multiboot magic number!") k1) as (v3 & p3 & E & Hp);
    [done|by apply (bool_decide_unpack _); vm_compute|].
  exists (with_console v3 p3 k1). split; [|split; [exact Hp|by exists v3, p3]].
  eapply M_run; [exact E|]. done.
Qed.

(** ** A machine with no drives and nothing on its ports *)

Definition ex_kernel : kernel unit unit :=
  Kernel (Sys Vga.ex_vga tt (Disk.ex_disks, tt) Disk.ex_disks FileSys.ex_boot Process.boot_state Ipc.ipc_boot
            (Socket.boot_sockets (Net.Net [Net.ex_iface] 0 [] 0 FileSys.ex_heap [])) (Http.HttpServer 0 0 [] 0)
            (Dns.DnsServer 0 0) Dhcp.ex_srv Ui.ex_ui 7)
         (replicate 256 (Devices.Gate 1 2 3 4 5)).

Lemma ex_loaded : loaded 0x8000 Devices.ex_stubs ex_kernel.
Proof.
  constructor; try reflexivity.
  - intros n a. unfold Devices.handler_of, Devices.ex_stubs. cbn.
    repeat match goal with |- context [if ?b then _ else _] => destruct b end;
      intros [= <-]; vm_compute; split; congruence.
  - vm_compute. split; congruence.
  - apply Process.boot_ok.
  - change (Disk.g_disks (y_disk (k_sys ex_kernel)).1) with (replicate 4 Disk.ex_slot). by apply Forall_replicate.
  - exact FileSys.ex_boot_ok.
  - intros a. vm_compute. split; congruence.
  - exact Ipc.ipc_boot_ok.
Qed.

Definition ex_info : FileSys.fs_dir_info_t :=
  {| FileSys.di_filename := replicate 13 0; FileSys.di_attributes := 0; FileSys.di_file_size := 0;
     FileSys.di_start_cluster := 0; FileSys.di_write_date := 0; FileSys.di_write_time := 0 |}.
Definition ex_locals : locals :=
  Locals (replicate 3 0) (replicate 4 0) (replicate 6 0) (replicate 4 0) (replicate 512 0) (replicate 4096 0)
    (replicate 512 0) (replicate 32 0) (replicate 224 ex_info) (replicate 256 0) ex_info 0 0.
(** [exit now] typed with one correction. *)
Definition ex_keys : list Z := chars "exot" ++ [8; 8] ++ chars "it now" ++ [10].
Definition ex_frame : frame := Frame ex_keys (replicate 256 1) (replicate 256 1) (replicate 16 0).

Lemma ex_frame_ok : frame_ok ex_frame.
Proof. by constructor. Qed.

Lemma ex_keys_u8 : Forall is_u8 ex_keys.
Proof. repeat (apply Forall_cons; split; [vm_compute; split; congruence|]). constructor. Qed.

(** Nothing in [kmain] registers an interface, so on the system it boots the
    network commands find none. *)
Lemma no_network {D P} `{Bus P} buf (s : sys D P) : Vga.vga_wf (y_vga s) ->
  Net.num_interfaces (Socket.s_net (y_socks s)) = 0 ->
  prints (fun r => r = 0) (cmd_ifconfig buf) (chars "No network interface found" ++ [10]) s.
Proof.
  intros Hw Hn.
  assert (E : Net.the_iface (Socket.s_net (y_socks s)) = Ok (None, Socket.s_net (y_socks s))).
  { unfold Net.the_iface. eapply M_run; [reflexivity|]. cbv beta. unfold Net.net_get_interface. by rewrite Hn. }
  unfold cmd_ifconfig. eapply prints_query; [exact (iface_run s None E)|]. cbv iota.
  apply prints_nil_r. eapply prints_bind; [by apply prints_sayln|]. intros. by apply prints_ret.
Qed.

(** ** Properties *)

(** C8.  From what the loader leaves, whatever the drives answer, [kmain] runs to
    the shell without a fault, and brings the components it starts into the state their own
    theorems start from: console, heap, interrupt gates, process table, timer, drives, file system (mounted or not),
    pipes and queues.  It starts nothing else: the tables of the network and the sockets, the HTTP, DNS and DHCP servers
    and the user interface are as the loader left them, so that there is no interface. *)
Theorem kernel_boots {A P} `{Bus A} `{Bus P} stacks h (k : kernel A P) :
  loaded stacks h k ->
  reaches (kmain_init stacks h MULTIBOOT_MAGIC) true (fun k' => up stacks h k' /\ left_alone k k') k.
Proof. apply boots_up. Qed.

Lemma kernel_boots_witness :
  reaches (@kmain_init unit unit Vga.ex_bus Vga.ex_bus 0x8000 Devices.ex_stubs MULTIBOOT_MAGIC) true
    (fun k' => @up unit unit Vga.ex_bus 0x8000 Devices.ex_stubs k' /\ left_alone ex_kernel k') ex_kernel.
Proof. exact (@kernel_boots unit unit Vga.ex_bus Vga.ex_bus 0x8000 Devices.ex_stubs ex_kernel ex_loaded). Defined.

(** C9.  From a well-formed console, one line typed at the prompt, which however it is edited stays below 255 characters until the
    line feed, leads to the next turn with whatever keys were typed ahead: an empty line changes nothing but the screen, a line
    whose first word names a command runs that command of the table with its first
    sixteen words, and the result -1 alone ends the shell; any other line is
    reported with its first word.  Before that the screen has received the prompt and the echo of the keys. *)
Theorem shell_runs_line {D P} `{BlockDev D} `{Bus P} fuel k f l left (s : sys D P) :
  Vga.vga_wf (y_vga s) -> frame_ok f -> Forall is_u8 (f_keys f) -> Shell.line_fits (f_keys f) [] ->
  Shell.edited (f_keys f) [] = Some (l, left) ->
  exists v p f', Vga.vga_wf v /\ frame_ok f' /\ f_keys f' = left /\ line_runs fuel k f f' l s (set_console v p s) /\
    Vga.term_of v = Vga.Term.write (chars "vlsos> " ++ Shell.echo (f_keys f) []) (Vga.term_of (y_vga s)).
Proof. apply shell_turn_spec. Qed.

Lemma shell_runs_line_witness :
  Shell.edited ex_keys [] = Some (chars "exit now", []) /\
  exists v p f', Vga.vga_wf v /\ frame_ok f' /\ f_keys f' = [] /\
    @line_runs ram unit _ Vga.ex_bus 6 ex_locals ex_frame f' (chars "exit now") ex_sys (set_console v p ex_sys) /\
    Vga.term_of v = Vga.Term.write (chars "vlsos> " ++ Shell.echo ex_keys []) (Vga.term_of (y_vga ex_sys)).
Proof.
  split; [vm_compute; reflexivity|].
  apply (@shell_runs_line ram unit _ Vga.ex_bus 6 ex_locals ex_frame (chars "exit now") [] ex_sys Vga.ex_vga_wf
           ex_frame_ok ex_keys_u8).
  - vm_compute. exact I.
  - vm_compute. reflexivity.
Defined.

(** Every turn of the shell reads a key, so with more turns than keys the loop is never
    cut off: it runs out only if a command itself does. *)
Lemma shell_loop_ends {D P} `{BlockDev D} `{Bus P} turns fuel k f (s : sys D P) :
  (length (f_keys f) < turns)%nat -> shell_loop turns fuel k f s = Err OutOfFuel ->
  exists t f' s', shell_turn fuel (k t) f' s' = Err OutOfFuel.
Proof. apply loop_enough. Qed.

(** A [cat] without fuel. *)
Lemma shell_loop_ends_witness :
  exists (t : nat) f' s', @shell_turn ram unit _ Vga.ex_bus 0 ex_locals f' s' = Err OutOfFuel.
Proof.
  apply (@shell_loop_ends ram unit _ Vga.ex_bus 11 0 (fun _ => ex_locals)
           (Frame (chars "cat A.TXT" ++ [10]) (replicate 256 1) (replicate 256 1) (replicate 16 0)) ex_sys).
  - apply Nat.ltb_lt. reflexivity.
  - vm_compute. reflexivity.
Defined.

(** [kmain] halts in exactly the way the code means to: with a wrong magic number
    after the welcome, no component but the screen touched; and with the right
    one when the first line typed is [exit], with or without more words.  Both
    times the screen ends with the panic message in light red. *)
Lemma kmain_panics {A P} `{Bus A} `{Bus P} stacks h turns fuel kk f l left ws magic (k : kernel A P) :
  loaded stacks h k -> frame_ok f -> Forall is_u8 (f_keys f) -> Shell.line_fits (f_keys f) [] ->
  Shell.edited (f_keys f) [] = Some (l, left) -> Shell.words l = chars "exit" :: ws ->
  exists k', kmain stacks h (S turns) fuel kk f magic k = Ok (Halted, k') /\
    if magic =? MULTIBOOT_MAGIC then panicked (chars "Shell exited unexpectedly!") (k_sys k')
    else panicked (chars "Invalid multiboot magic number!") (k_sys k') /\ exists v p, k' = with_console v p k.
Proof.
  intros Hk Hf Hu Hlen He Hws. destruct (Z.eqb_spec magic MULTIBOOT_MAGIC) as [->|Hm].
  - destruct (boots_up stacks h k Hk) as (k1 & E1 & Hup & _).
    set (s0 := set_console (Vga.vga_set_color 7 0 (y_vga (k_sys k1))) (y_ports (k_sys k1)) (k_sys k1)).
    assert (Hv0 : Vga.vga_wf (y_vga s0)) by (destruct (up_screen _ _ _ Hup); by constructor).
    destruct (shell_turn_spec fuel (kk turns) f l left s0 Hv0 Hf Hu Hlen He) as (v & p & f' & Hv & _ & _ & Hline & _).
    unfold line_runs in Hline. rewrite Hws in Hline.
    replace (list_find (fun n => n = chars "exit") Shell.command_names) with (Some (4%nat, chars "exit")) in Hline
      by (vm_compute; reflexivity).
    destruct Hline as (args & _ & Et).
    set (k2 := with_console v p k1).
    destruct (panic_in_kernel (chars "Shell exited unexpectedly!") k2 Hv) as (v3 & p3 & E3 & Hp);
      [by apply (bool_decide_unpack _); vm_compute|].
    exists (with_console v3 p3 k2). split; [|exact Hp].
    unfold kmain. eapply M_run; [exact E1|]. cbv iota.
    eapply (M_run _ _ _ true k2); [|eapply M_run; [exact E3|reflexivity]].
    unfold in_sys. apply zoom_run with (t := set_console v p s0). unfold shell_main. eapply M_run; [reflexivity|].
    cbn [shell_loop]. eapply M_run; [exact Et|]. done.
  - destruct (wrong_magic stacks h magic k (lo_screen _ _ _ Hk) Hm) as (k' & E & Hp). exists k'. split; [|exact Hp].
    unfold kmain. eapply M_run; [exact E|]. done.
Qed.

Lemma kmain_panics_witness :
  exists k', @kmain unit unit Vga.ex_bus Vga.ex_bus 0x8000 Devices.ex_stubs 1 0 (fun _ => ex_locals) ex_frame
      MULTIBOOT_MAGIC ex_kernel = Ok (Halted, k') /\
    if MULTIBOOT_MAGIC =? MULTIBOOT_MAGIC then panicked (chars "Shell exited unexpectedly!") (k_sys k')
    else panicked (chars "Invalid multiboot magic number!") (k_sys k') /\ exists v p, k' = with_console v p ex_kernel.
Proof.
  apply (@kmain_panics unit unit Vga.ex_bus Vga.ex_bus 0x8000 Devices.ex_stubs 0 0 (fun _ => ex_locals) ex_frame
           (chars "exit now") [] [chars "now"] MULTIBOOT_MAGIC ex_kernel ex_loaded ex_frame_ok ex_keys_u8).
  - vm_compute. exact I.
  - vm_compute. reflexivity.
  - vm_compute. reflexivity.
Defined.

