(* ===== verification/Quiet.v ===== *)
(** * The network stack with no interface *)
(** What the sockets of [Socket] and the servers of [Http], [Dns] and [Dhcp] do
    while no interface is registered, as after [kmain]: every call returns,
    nothing is received, and all that leaves is text for the console. *)

From Stdlib Require Import String.
From S2P Require Import Prelude Memory CString Net Socket.
From S2P Require Http Dns Dhcp.

(** An event that the console can show: its text holds no NUL. *)
Definition showable (e : event) : Prop :=
  match e with Printed t => Forall (fun c => c <> 0) t | _ => True end.

(** A state with the network core in it, and when that is at rest. *)
Class Networked (S : Type) := {
  at_rest : S -> Prop;
  net_of : S -> net
}.

#[export] Instance net_networked : Networked net := {
  at_rest n := num_interfaces n = 0;
  net_of n := n
}.

(** No socket has a byte to deliver. *)
Record quiet_socks (k : sock_state) : Prop := {
  qs_len : length (sockets k) = 16%nat;
  qs_empty : Forall (fun x => buf_len x = 0) (sockets k);
  qs_none : at_rest (s_net k)
}.

#[export] Instance sockets_networked : Networked sock_state := { at_rest := quiet_socks; net_of := s_net }.
#[export] Instance http_networked : Networked Http.http_state := {
  at_rest h := quiet_socks (Http.h_sock h);
  net_of h := s_net (Http.h_sock h)
}.
#[export] Instance dns_networked : Networked Dns.dns_state := {
  at_rest h := quiet_socks (Dns.d_sock h);
  net_of h := s_net (Dns.d_sock h)
}.
#[export] Instance dhcp_networked : Networked Dhcp.dhcp_state := {
  at_rest h := quiet_socks (Dhcp.h_sock h);
  net_of h := s_net (Dhcp.h_sock h)
}.

(** ** Rules *)

Section Rules.
Context {S : Type} `{Networked S}.

(** [m] returns with a result in [Q], keeps the network at rest, and adds only
    showable events to its output. *)
Definition quiet {A} (Q : A -> Prop) (m : M S A) : Prop := forall s, at_rest s ->
  exists a s' es, m s = Ok (a, s') /\ at_rest s' /\ Q a /\
    n_out (net_of s') = n_out (net_of s) ++ es /\ Forall showable es.

Lemma quiet_silent {A} (Q : A -> Prop) m :
  (forall s, at_rest s -> exists a s', m s = Ok (a, s') /\ at_rest s' /\ Q a /\ n_out (net_of s') = n_out (net_of s)) ->
  quiet Q m.
Proof.
  intros Hm s Hs. destruct (Hm s Hs) as (a & s' & E & Hs' & Hq & Ho). exists a, s', []. by rewrite Ho, app_nil_r.
Qed.

Lemma quiet_ret {A} (Q : A -> Prop) a : Q a -> quiet Q (mret a).
Proof. intros Hq. apply quiet_silent. intros s Hs. by exists a, s. Qed.

Lemma quiet_bind {A B} (Q : A -> Prop) (R : B -> Prop) m (f : A -> M S B) :
  quiet Q m -> (forall a, Q a -> quiet R (f a)) -> quiet R (m ≫= f).
Proof.
  intros Hm Hf s Hs. destruct (Hm s Hs) as (a & s1 & es1 & E1 & H1 & Ha & O1 & C1).
  destruct (Hf a Ha s1 H1) as (b & s2 & es2 & E2 & H2 & Hb & O2 & C2). exists b, s2, (es1 ++ es2).
  split; [by eapply M_run|]. split; [done|]. split; [done|]. split; [|by apply Forall_app].
  by rewrite O2, O1, app_assoc.
Qed.

Lemma quiet_getS : quiet at_rest getS.
Proof. apply quiet_silent. intros s Hs. by exists s, s. Qed.

Lemma quiet_lift {A B} (r : res A) a (R : B -> Prop) (f : A -> M S B) :
  r = Ok a -> quiet R (f a) -> quiet R (liftR r ≫= f).
Proof. intros -> Hf s Hs. destruct (Hf s Hs) as (b & s' & es & Hr). by exists b, s', es. Qed.

Lemma quiet_if {A} (Q : A -> Prop) (b : bool) m1 m2 : quiet Q m1 -> quiet Q m2 -> quiet Q (if b then m1 else m2).
Proof. by destruct b. Qed.

Lemma quiet_weaken {A} (Q R : A -> Prop) m : quiet Q m -> (forall a, Q a -> R a) -> quiet R m.
Proof. intros Hm Hi s Hs. destruct (Hm s Hs) as (a & s' & es & ? & ? & ? & ?). exists a, s', es. by auto. Qed.
End Rules.

(** An operation of a part of the state. *)
Lemma quiet_part {S T A} `{Networked S} `{Networked T} (get : T -> S) (Q : A -> Prop) (m : M S A) (m' : M T A) :
  (forall t, at_rest t -> at_rest (get t) /\ net_of t = net_of (get t)) ->
  (forall t a x, at_rest t -> at_rest x -> m (get t) = Ok (a, x) ->
     exists t', m' t = Ok (a, t') /\ at_rest t' /\ net_of t' = net_of x) ->
  quiet Q m -> quiet Q m'.
Proof.
  intros Hget Hput Hm t Ht. destruct (Hget t Ht) as [Hg Hn]. destruct (Hm (get t) Hg) as (a & x & es & E & Hx & Hq & Ho & Hc).
  destruct (Hput t a x Ht Hx E) as (t' & E' & Ht' & Hn'). exists a, t', es. by rewrite Hn, Hn'.
Qed.

(** ** The core *)

Lemma the_iface_none n : at_rest n -> the_iface n = Ok (None, n).
Proof. intros Hn. unfold the_iface. eapply M_run; [reflexivity|]. cbv beta. unfold net_get_interface. by rewrite Hn. Qed.

Lemma quiet_iface : quiet (fun x => x = None) the_iface.
Proof. apply quiet_silent. intros n Hn. exists None, n. by rewrite the_iface_none. Qed.

Lemma quiet_ip_send dest proto b len : quiet (fun _ => True) (ip_send_packet dest proto b len).
Proof. eapply quiet_bind; [apply quiet_iface|]. intros ? ->. by apply quiet_ret. Qed.

Lemma quiet_emit t : Forall (fun c => c <> 0) t -> quiet (fun _ => True) (emit (Printed t)).
Proof.
  intros Ht n Hn. eexists tt, _, [Printed t]. split; [reflexivity|]. split; [exact Hn|].
  split; [done|]. split; [done|]. by apply Forall_singleton.
Qed.

Lemma quiet_alloc size : 0 <= size ->
  quiet (fun m => match m with None => True | Some (_, b) => zlen b = size end) (alloc size).
Proof.
  intros Hs. apply quiet_silent. intros n Hn. unfold alloc. destruct (malloc size (n_heap n)) as [ptr h].
  eexists _, _. split; [reflexivity|]. split; [done|]. split; [|done].
  destruct (ptr =? NULL); [done|]. by apply fresh_block_length.
Qed.

Lemma quiet_release ptr : quiet (fun _ => True) (release ptr).
Proof. apply quiet_silent. intros n Hn. exists tt, n. by rewrite release_id. Qed.

(** A 16-bit store in range. *)
Lemma quiet_wr16 {B} (R : B -> Prop) b off v (f : list Z -> M net B) : 0 <= off -> off + 1 < zlen b ->
  (forall b', zlen b' = zlen b -> quiet R (f b')) -> quiet R (liftR (wr16 b off v) ≫= f).
Proof.
  intros Ho Hl Hf. eapply quiet_lift; [by apply wr16_splice|]. apply Hf. apply zlen_splice; [done|].
  change (zlen [_; _]) with 2. lia.
Qed.

Lemma quiet_udp dest src port data len : 0 <= len <= zlen data ->
  quiet (fun _ => True) (udp_send_packet dest src port data len).
Proof.
  intros Hl. eapply quiet_bind; [apply quiet_alloc; unfold UDP_HDR; lia|]. intros [[ptr b]|] Hb; [|by apply quiet_ret].
  unfold UDP_HDR in Hb. do 3 (apply quiet_wr16; [lia..|]; intros ? ?).
  eapply quiet_lift; [apply memcpy_at_splice; lia|].
  apply quiet_wr16; [lia|rewrite zlen_splice; rewrite ?zlen_slice; lia|]. intros ? _.
  eapply quiet_bind; [apply quiet_ip_send|]. intros _ _. apply quiet_release.
Qed.

Lemma quiet_echo dest : quiet (fun _ => True) (icmp_send_echo_request dest).
Proof.
  eapply quiet_bind; [by apply quiet_alloc|]. intros [[ptr b]|] Hb; [|by apply quiet_ret].
  change (ICMP_HDR + 32) with 40 in *.
  assert (Hlen : length b = 40%nat) by (unfold zlen in Hb; lia). clear Hb. open_cells Hlen.
  do 8 (eapply quiet_lift; [vm_compute; reflexivity|]; cbv beta).
  eapply quiet_bind; [apply quiet_ip_send|]. intros _ _. apply quiet_release.
Qed.

(** ** Sockets *)

Lemma quiet_on_net {A} (Q : A -> Prop) m : quiet Q m -> quiet Q (on_net m).
Proof.
  apply (quiet_part s_net); [intros t []; by split|]. intros t a x [] Hx E. unfold on_net. rewrite E.
  eexists. split; [reflexivity|]. done.
Qed.

(** The loop that looks for a slot, then what is done with it. *)
Lemma quiet_find (p : sock_state -> socket_t -> bool) (Q : Z -> Prop) F : Q (-1) ->
  (forall s i, at_rest s -> 0 <= i < 16 -> quiet Q (F s i)) ->
  quiet Q (s ← getS; i ← liftR (first_slot (sockets s) (p s)); match i with None => mret (-1) | Some i => F s i end).
Proof.
  intros Hq HF. eapply quiet_bind; [apply quiet_getS|]. intros s Hs.
  destruct (first_slot_spec (sockets s) (p s) (qs_len _ Hs)) as [(i & x & E & Hi & _)|[E _]];
    (eapply quiet_lift; [exact E|]); [by apply HF|by apply quiet_ret].
Qed.

Lemma quiet_slot {B} (R : B -> Prop) s i (f : socket_t -> M sock_state B) : quiet_socks s -> 0 <= i < 16 ->
  (forall x, buf_len x = 0 -> quiet R (f x)) -> quiet R (liftR (rd (sockets s) i) ≫= f).
Proof.
  intros [Hl He _] Hi Hf. destruct (rd_total (sockets s) i) as [x Hx]; [unfold zlen; lia|].
  eapply quiet_lift; [exact Hx|]. apply Hf. apply rd_Ok, zget_Some in Hx as [_ Hx]. by eapply Forall_lookup_1 in He.
Qed.

Lemma quiet_update i f r : 0 <= i < 16 -> (forall x, buf_len (f x) = buf_len x) ->
  quiet (fun k => k = r) (update i f r).
Proof.
  intros Hi Hf. apply quiet_silent. intros s [Hl He Hn]. assert (Hz : 0 <= i < zlen (sockets s)) by (unfold zlen; lia).
  destruct (rd_total (sockets s) i Hz) as [x Hx]. eexists r, _. split.
  - unfold update. eapply M_run; [reflexivity|]. eapply lift_run; [exact Hx|]. eapply lift_run; [by apply wr_in|]. reflexivity.
  - split; [|done]. apply rd_Ok, zget_Some in Hx as [_ Hx]. constructor; cbn; [by rewrite length_insert| |done].
    apply Forall_insert; [done|]. rewrite Hf. by eapply Forall_lookup_1 in He.
Qed.

Lemma quiet_socket dom ty proto : quiet (fun _ => True) (socket dom ty proto).
Proof.
  unfold socket. destruct (_ || _); [by apply quiet_ret|]. apply quiet_silent. intros s Hs. pose proof Hs as [Hl He Hn].
  destruct (first_slot_spec (sockets s) is_closed Hl) as [(i & x & E & Hi & Hx & Hxl & _)|[E _]].
  2: { eexists (-1), s. split; [|done]. eapply M_run; [reflexivity|]. by eapply lift_run; [exact E|]. }
  destruct (malloc NET_MTU (n_heap (s_net s))) as [ptr h] eqn:Em.
  eexists (next_fd s), _. split.
  - eapply M_run; [reflexivity|]. eapply lift_run; [exact E|]. eapply lift_run; [exact Hx|]. rewrite Em.
    eapply lift_run; [apply wr_in; unfold zlen; lia|]. reflexivity.
  - split; [|done]. constructor; cbn; [by rewrite length_insert| |exact Hn]. by apply Forall_insert.
Qed.

Lemma quiet_bind_op k addr port : quiet (fun _ => True) (bind k addr port).
Proof.
  unfold bind. apply (quiet_find (fun _ => is_open_fd k)); [done|]. intros s i _ Hi. eapply quiet_weaken; [by apply quiet_update|done].
Qed.

Lemma quiet_listen k n : quiet (fun _ => True) (listen k n).
Proof.
  unfold listen. apply (quiet_find (fun _ => is_fd_in k SOCK_CREATED)); [done|]. intros s i _ Hi.
  eapply quiet_weaken; [by apply quiet_update|done].
Qed.

Lemma quiet_connect k addr port : quiet (fun _ => True) (connect k addr port).
Proof.
  unfold connect. apply (quiet_find (fun _ => is_fd_in k SOCK_CREATED)); [done|]. intros s i _ Hi.
  eapply quiet_weaken; [by apply quiet_update|done].
Qed.

Lemma quiet_close k : quiet (fun _ => True) (close k).
Proof.
  unfold close. apply (quiet_find (fun _ => is_open_fd k)); [done|]. intros s i _ Hi. eapply quiet_weaken; [by apply quiet_update|done].
Qed.

Lemma quiet_sendto k data len addr port : 0 <= len <= zlen data -> quiet (fun _ => True) (sendto k data len addr port).
Proof.
  intros Hl. unfold sendto. apply (quiet_find (fun _ => is_dgram_fd k)); [done|]. intros s i Hs Hi. apply quiet_slot; [done..|]. intros x _.
  eapply quiet_bind; [by apply quiet_on_net, quiet_udp|]. intros _ _. by apply quiet_ret.
Qed.

Lemma quiet_send k data len : 0 <= len <= zlen data -> quiet (fun _ => True) (send k data len).
Proof.
  intros Hl. unfold send. apply (quiet_find (fun _ => is_connected_fd k)); [done|]. intros s i Hs Hi. apply quiet_slot; [done..|].
  intros x _. apply quiet_if; [by apply quiet_sendto|by apply quiet_ret].
Qed.

Lemma quiet_recv k : quiet (fun r => r <= 0) (recv k).
Proof.
  unfold recv. apply (quiet_find (fun _ => is_fd_in k SOCK_CONNECTED)); [done|]. intros s i Hs Hi. apply quiet_slot; [done..|].
  intros x Hx. apply quiet_ret. lia.
Qed.

(** ** Servers *)

(** Text of the program's own. *)
Lemma quiet_say t : bool_decide (Forall (fun c => c <> 0) (chars t ++ [10])) = true ->
  quiet (fun _ => True) (on_net (emit (Printed (chars t ++ [10])))).
Proof. intros Ht. apply quiet_on_net, quiet_emit. exact (bool_decide_eq_true_1 _ Ht). Qed.

Lemma quiet_http {A} (Q : A -> Prop) m : quiet Q m -> quiet Q (Http.on_sock m).
Proof.
  apply (quiet_part Http.h_sock); [done|]. intros t a x _ Hx E. eexists. split; [by apply zoom_run|]. done.
Qed.
Lemma quiet_dns {A} (Q : A -> Prop) m : quiet Q m -> quiet Q (Dns.on_sock m).
Proof.
  apply (quiet_part Dns.d_sock); [done|]. intros t a x _ Hx E. unfold Dns.on_sock. rewrite E. by eexists.
Qed.
Lemma quiet_dhcp {A} (Q : A -> Prop) m : quiet Q m -> quiet Q (Dhcp.on_sock m).
Proof.
  apply (quiet_part Dhcp.h_sock); [done|]. intros t a x _ Hx E. unfold Dhcp.on_sock. rewrite E. by eexists.
Qed.

Lemma quiet_http_set f : quiet (fun _ => True) (Http.set_server f).
Proof. apply quiet_silent. intros s Hs. by eexists tt, _. Qed.
Lemma quiet_dns_set v : quiet (fun _ => True) (Dns.set_server v).
Proof. apply quiet_silent. intros s Hs. by eexists tt, _. Qed.
Lemma quiet_dhcp_set r k : quiet (fun _ => True) (Dhcp.set_running r k).
Proof. apply quiet_silent. intros s Hs. by eexists tt, _. Qed.

Create HintDb quiet.
#[export] Hint Resolve quiet_socket quiet_bind_op quiet_listen quiet_connect quiet_close quiet_http quiet_dns quiet_dhcp
  quiet_http_set quiet_dns_set quiet_dhcp_set : quiet.

(** Walk through a server's operation: its branches, its calls, its messages. *)
Ltac quiet_walk :=
  repeat first
    [ progress cbv zeta
    | by apply quiet_ret
    | apply quiet_if
    | eapply quiet_bind; [by apply quiet_getS | intros ? _]
    | eapply quiet_bind; [by eauto with quiet | intros ? _]
    | eapply quiet_bind; [by first [apply quiet_http, quiet_say | apply quiet_dns, quiet_say | apply quiet_dhcp, quiet_say]
                         | intros ? _]
    | by first [apply quiet_http, quiet_say | apply quiet_dns, quiet_say | apply quiet_dhcp, quiet_say] ].

Lemma http_start_quiet : quiet (fun _ => True) Http.http_server_start.
Proof. unfold Http.http_server_start. quiet_walk. Qed.
Lemma http_stop_quiet : quiet (fun _ => True) Http.http_server_stop.
Proof. unfold Http.http_server_stop. quiet_walk. Qed.
Lemma dns_start_quiet : quiet (fun _ => True) Dns.dns_start.
Proof. unfold Dns.dns_start. quiet_walk. Qed.
Lemma dns_stop_quiet : quiet (fun _ => True) Dns.dns_stop.
Proof. unfold Dns.dns_stop. quiet_walk. Qed.
Lemma dhcp_start_quiet : quiet (fun _ => True) Dhcp.dhcp_start.
Proof. unfold Dhcp.dhcp_start. quiet_walk. Qed.
Lemma dhcp_stop_quiet : quiet (fun _ => True) Dhcp.dhcp_stop.
Proof. unfold Dhcp.dhcp_stop. quiet_walk. Qed.

(** ** The client *)

(** [http_client_get] of any host and path that the request can hold ends with -1. *)
Lemma get_quiet host port path r1 r2 request response_buf : nul_free host -> nul_free path ->
  zlen (Http.request_text host path) < zlen request ->
  quiet (fun x => x.1 = -1) (Http.http_client_get (cstr host r1) port (Some (cstr path r2)) request response_buf).
Proof.
  intros Hh Hp Hfit. unfold Http.http_client_get.
  assert (Hu : Forall is_u8 host) by (eapply Forall_impl; [exact Hh|by intros ? []]).
  destruct (Http.parse_quad_total host r1 [0; 0; 0; 0] Hu eq_refl) as ([ip|] & Eq & _);
    (eapply quiet_lift; [exact Eq|]; cbv beta iota zeta).
  2: { eapply quiet_bind; [by apply quiet_say|]. intros _ _. by apply quiet_ret. }
  eapply quiet_bind; [apply quiet_socket|]. intros k _.
  apply quiet_if; [eapply quiet_bind; [by apply quiet_say|]; intros _ _; by apply quiet_ret|].
  eapply quiet_bind; [apply quiet_connect|]. intros r _.
  apply quiet_if; [eapply quiet_bind; [by apply quiet_say|]; intros _ _;
    eapply quiet_bind; [apply quiet_close|]; intros _ _; by apply quiet_ret|].
  eapply quiet_lift; [by apply Http.build_request_spec|]. cbv beta iota.
  eapply quiet_bind; [apply quiet_send|].
  { rewrite zlen_splice; [pose proof (zlen_nonneg (Http.request_text host path)); lia|done|].
    rewrite zlen_app. change (zlen [0]) with 1. lia. }
  intros r' _. apply quiet_if; [eapply quiet_bind; [by apply quiet_say|]; intros _ _;
    eapply quiet_bind; [apply quiet_close|]; intros _ _; by apply quiet_ret|].
  eapply quiet_bind; [apply quiet_recv|]. intros n Hn. eapply quiet_bind; [apply quiet_close|]. intros _ _.
  cbv beta in Hn. rewrite (proj2 (Z.leb_le n 0)) by done.
  eapply quiet_bind; [by apply quiet_say|]. intros _ _. by apply quiet_ret.
Qed.
