(* ===== verification/Safety.v ===== *)
(** * No command faults *)
(** The components meet in the shell: whatever is typed at the prompt of the
    system that [kmain] boots, no command leaves an array, follows a null pointer
    or divides by zero, and each returns.  The invariant is the conjunction of the
    components' own. *)

From Stdlib Require Import String.
From S2P Require Import Prelude Memory CString Block Ports Netcmd Quiet.
From S2P Require Vga Process Ipc FileSys Disk Net Socket Dns Dhcp Http Devices Shell Ui Kernel.

(** ** Files *)

Section Files.
Import FileSys.

(** The names [fs_list_dir] fills in are strings. *)
Lemma list_names cache max fuel : root_ok cache -> forall es count i n es',
  Forall (fun x => length (di_filename x) = 13%nat) es -> 0 <= i -> i + Z.of_nat fuel = FS_ROOT_ENTRIES -> 0 <= count ->
  (forall j x, 0 <= j < count -> rd es j = Ok x -> is_cstr (di_filename x)) ->
  list_from fuel cache es max count i = Ok (n, es') ->
  forall j x, 0 <= j < n -> rd es' j = Ok x -> is_cstr (di_filename x).
Proof.
  intros Hr. induction fuel as [|fuel IH]; intros es count i n es' He Hi Hf Hc Hn E; cbn [list_from] in E.
  { injection E as <- <-. exact Hn. }
  destruct (max <=? count); [injection E as <- <-; exact Hn|].
  destruct (dir_entry_spec cache i Hr) as (e & Ee & Hok); [unfold FS_ROOT_ENTRIES in *; lia|].
  rewrite Ee, bind_ret in E. apply res_bind_Ok in E as (c0 & _ & E).
  destruct (c0 =? 0); [injection E as <- <-; exact Hn|].
  destruct (_ || _); [eapply (IH es count (i + 1)); try done; lia|].
  apply res_bind_Ok in E as (inf & Hinf & E). unfold fill_info in E.
  rewrite build_name_spec in E by (try done; by eapply rd_Forall in He). rewrite !bind_ret in E.
  apply res_bind_Ok in E as (es1 & Hw & E). apply wr_Ok in Hw as [Hin ->].
  destruct (built_cstr e (drop (S (length (text83 e))) (di_filename inf)) Hok) as (r & Er & Hnf).
  eapply (IH _ (count + 1) (i + 1)); try exact E; try lia.
  - apply Forall_insert; [done|]. cbn [di_filename]. rewrite length_app. cbn [length]. rewrite length_drop.
    pose proof (text83_length e Hok). pose proof (rd_Forall _ _ _ _ He Hinf) as Hl. cbv beta in Hl. lia.
  - intros j x Hj Hx. apply rd_Ok in Hx. destruct (Z.eq_dec j count) as [->|Hne].
    + rewrite zget_insert_eq in Hx by done. injection Hx as <-. cbn [di_filename]. by exists (entry_name e), r.
    + rewrite zget_insert_ne in Hx by done. apply (Hn j); [lia|]. by apply rd_Ok.
Qed.

Lemma list_dir_ok s es : fs_wf s -> length es = 224%nat -> Forall (fun x => length (di_filename x) = 13%nat) es ->
  exists n es', fs_list_dir s (Some es) FS_ROOT_ENTRIES = Ok (n, Some es') /\ n <= zlen es' /\
    forall j x, 0 <= j < n -> rd es' j = Ok x -> is_cstr (di_filename x).
Proof.
  intros [_ _ Hroot Hinit _] Hl He. unfold fs_list_dir. destruct (Z.eqb_spec (g_fs_initialized s) 0) as [Hi|Hi].
  { exists (-1), es. split; [done|]. split; [pose proof (zlen_nonneg es); lia|]. intros; lia. }
  destruct (Hinit Hi) as [cache Hcache]. rewrite Hcache in Hroot |- *. cbn in Hroot.
  destruct (list_from_spec cache FS_ROOT_ENTRIES (Z.to_nat FS_ROOT_ENTRIES) Hroot es 0 0) as (n & es' & E & Hn & Hm & Hlen);
    try done; [unfold zlen; rewrite Hl; done|].
  rewrite E, bind_ret. exists n, es'. split; [done|].
  split; [unfold zlen, FS_ROOT_ENTRIES in *; lia|].
  apply (list_names cache FS_ROOT_ENTRIES (Z.to_nat FS_ROOT_ENTRIES) Hroot es 0 0 n es'); try done. intros; lia.
Qed.

(** What [fs_get_file_info] finds has a name that is a string. *)
Lemma info_ok s name r0 info : fs_wf s -> nul_free name -> length (di_filename info) = 13%nat ->
  (exists r o, fs_get_file_info s (cstr name r0) (Some info) = Ok (r, o) /\ r < 0) \/
  exists r inf, fs_get_file_info s (cstr name r0) (Some info) = Ok (r, Some inf) /\ is_cstr (di_filename inf).
Proof.
  intros [_ _ Hroot _ _] Hn Hl. unfold fs_get_file_info.
  destruct (dir_find_spec s name r0) as (i & found & -> & Hs); [done..|]. rewrite bind_ret. cbv beta iota.
  destruct (i <? 0); [left; by eexists _, _|]. destruct found as [e|]; [right|left; by eexists _, _].
  assert (Hok : entry_ok e).
  { apply (found_entry_ok s i e Hroot). destruct (g_root_dir_cache s); [by exists name|by destruct Hs]. }
  unfold fill_info. rewrite build_name_spec by done. rewrite !bind_ret. eexists _, _. split; [reflexivity|].
  cbn [di_filename]. destruct (built_cstr e (drop (S (length (text83 e))) (di_filename info)) Hok) as (r & -> & Hnf).
  by exists (entry_name e), r.
Qed.

(** Sizes that the 32-bit position can reach without wrapping. *)
Definition small (n : Z) : Prop := 0 <= n <= 2 ^ 32 - 512.
Definition small_root (s : fs) : Prop := forall cache i e,
  g_root_dir_cache s = Some cache -> dir_entry cache i = Ok e -> small (file_size e).

Lemma to_copy_small pos size remaining : 0 <= pos -> pos < size -> small size -> 0 < remaining ->
  1 <= to_copy pos size remaining <= remaining /\ pos + to_copy pos size remaining <= size.
Proof.
  unfold small, to_copy, FS_BYTES_PER_SECTOR. intros. pose proof (Z.mod_pos_bound pos 512 ltac:(lia)).
  set (n := if remaining <? 512 - pos mod 512 then remaining else 512 - pos mod 512).
  assert (Hn : 1 <= n <= 512 /\ n <= remaining) by (unfold n; destruct (remaining <? _) eqn:?; lia).
  rewrite u32_id by (unfold is_u32; lia). destruct (Z.ltb_spec size (pos + n)); [|lia].
  rewrite u32_id by (unfold is_u32; lia). lia.
Qed.

Section Progress.
Context {D : Type} `{BlockDev D}.

(** A read moves the position by what it returns. *)
Lemma read_progress fat fuel : forall f buf cb off remaining (d : D) b n f' cb' d',
  small (f_size f) -> 0 <= position f <= f_size f -> 0 <= off -> 0 <= remaining -> off + remaining < 2 ^ 16 ->
  read_loop fuel fat f buf cb off remaining d = Ok (b, n, f', cb', d') ->
  f_size f' = f_size f /\ f_in_use f' = f_in_use f /\ position f' = position f + (n - off) /\ position f' <= f_size f' /\ off <= n.
Proof.
  induction fuel as [|fuel IH]; intros f buf cb off remaining d b n f' cb' d' Hs Hp Ho Hr Hor E; cbn [read_loop] in E.
  { destruct (_ && _); [discriminate E|]. injection E as _ <- <- _ _. split_and!; try done; lia. }
  destruct ((0 <? remaining) && (position f <? f_size f)) eqn:Eg; [|injection E as _ <- <- _ _; split_and!; try done; lia].
  apply res_bind_Ok in E as ([[r cb1] d1] & _ & E). destruct (r <? 0); [injection E as _ <- <- _ _; split_and!; try done; lia|].
  destruct (to_copy_small (position f) (f_size f) remaining) as [Hn1 Hn2]; [lia..|done|lia|].
  set (m := to_copy _ _ _) in *. cbv zeta in E. apply res_bind_Ok in E as (b1 & _ & E).
  rewrite (u32_id (position f + m)), (u32_id (off + m)), (u32_id (remaining - m)) in E by (unfold is_u32, small in *; lia).
  assert (Hnext : forall c, read_loop fuel fat (move_file f c (position f + m)) b1 cb1 (off + m) (remaining - m) d1 =
      Ok (b, n, f', cb', d') ->
    f_size f' = f_size f /\ f_in_use f' = f_in_use f /\ position f' = position f + (n - off) /\ position f' <= f_size f' /\ off <= n).
  { intros c E1. apply IH in E1; cbn [move_file f_size position f_in_use] in *; try done; lia. }
  destruct ((_ =? 0) && _); [|by eapply Hnext].
  apply res_bind_Ok in E as (nx & _ & E). destruct (_ <=? _); [|by eapply Hnext].
  injection E as _ <- <- _ _. cbn [move_file f_size position f_in_use]. split_and!; try done; lia.
Qed.
End Progress.
End Files.

(** ** The invariant of the whole system *)

(** A string the console can print, whatever follows its end. *)
Definition shows (l : list Z) : Prop := exists t r, l = cstr t r /\ Forall (fun c => c <> 0) t.

Lemma shows_terminated l : 0 ∈ l -> shows l.
Proof.
  induction l as [|c l IH]; intros Hin; [by apply not_elem_of_nil in Hin|].
  destruct (Z.eq_dec c 0) as [->|Hc]; [by exists [], l|].
  apply elem_of_cons in Hin as [?|Hin]; [lia|]. destruct (IH Hin) as (t & r & -> & Ht). exists (c :: t), r.
  split; [done|]. by constructor.
Qed.

Lemma shows_cstr l : FileSys.is_cstr l -> shows l.
Proof. intros (t & r & -> & Ht). exists t, r. split; [done|]. eapply Forall_impl; [exact Ht|by intros ? []]. Qed.

Lemma shows_closed l : bool_decide (0 ∈ l) = true -> shows l.
Proof. intros Hb. apply shows_terminated. exact (bool_decide_eq_true_1 _ Hb). Qed.

(** A number in a buffer: [itoa] needs twelve bytes at most, whatever the number. *)
Lemma itoa_shows v buf base : base = 10 \/ base = 16 -> 12 <= zlen buf ->
  exists b, itoa (i32 v) buf base = Ok b /\ zlen b = zlen buf /\ shows b.
Proof.
  intros Hb Hl. set (x := i32 v). assert (Hx : - 2 ^ 31 <= x < 2 ^ 31) by (unfold x, i32; lia).
  destruct (Z.eq_dec x (- 2 ^ 31)) as [->|Hne].
  - destruct (itoa_int_min base buf ltac:(lia) ltac:(lia)) as [E _]. eexists. split; [exact E|].
    split; [|exists [45], (drop 2 buf); split; [done|by repeat constructor]].
    unfold zlen in *. cbn [length]. rewrite length_drop. lia.
  - assert (Ht : zlen (itoa_text x base) <= 11).
    { destruct Hb as [-> | ->].
      - pose proof (itoa_text_digits x 10 10 ltac:(lia) ltac:(lia) ltac:(change (10 ^ Z.of_nat 10) with 10000000000; lia)).
        destruct (x <? 0); lia.
      - pose proof (itoa_text_digits x 16 8 ltac:(lia) ltac:(lia) ltac:(change (16 ^ Z.of_nat 8) with 4294967296; lia)).
        destruct (x <? 0); lia. }
    rewrite itoa_spec by lia. eexists. split; [done|]. split.
    + unfold zlen in *. rewrite length_app. cbn [length]. rewrite length_drop. lia.
    + eexists _, _. split; [done|]. apply itoa_text_clean. lia.
Qed.

Definition drives_ok (ds : Disk.disks) : Prop :=
  length (Disk.g_disks ds) = 4%nat /\ Forall (fun k => Disk.is_present k -> 0 ∈ Disk.model k) (Disk.g_disks ds).

Section System.
Context {D P : Type} `{BlockSafe D} `{Bus P}.
(** Where the linker put the process stacks. *)
Context (stacks : Z).
Implicit Types (s : sys D P).

Record sys_ok s : Prop := {
  ok_screen : Vga.vga_wf (y_vga s);
  ok_fs : FileSys.fs_wf (y_fs s);
  ok_root : small_root (y_fs s);
  ok_disk : blk_ok (y_disk s);
  ok_drives : drives_ok (y_drives s);
  ok_proc : Process.proc_wf stacks (y_proc s);
  ok_pipes : exists a, Ipc.pipes_rel (y_ipc s) a;
  ok_socks : quiet_socks (y_socks s);
  ok_ui : Ui.ui_wf (y_ui s)
}.

Lemma console_ok v p s : sys_ok s -> Vga.vga_wf v -> sys_ok (set_console v p s).
Proof. by intros [] ?; constructor. Qed.
Lemma files_ok f d s : sys_ok s -> FileSys.fs_wf f -> FileSys.g_root_dir_cache f = FileSys.g_root_dir_cache (y_fs s) ->
  blk_ok d -> sys_ok (set_fs f d s).
Proof. intros [] ? E ?; constructor; try done. cbn. unfold small_root. by rewrite E. Qed.
Lemma socks_ok k s : sys_ok s -> quiet_socks k -> sys_ok (set_socks k s).
Proof. by intros [] ?; constructor. Qed.
Lemma servers_ok h d c s : sys_ok s -> sys_ok (set_servers h d c s).
Proof. by intros []; constructor. Qed.

(** [m] returns with a result in [Q], and the system is as well as before. *)
Definition runs {A} (Q : A -> Prop) (m : M (sys D P) A) : Prop := forall s, sys_ok s ->
  exists a s', m s = Ok (a, s') /\ sys_ok s' /\ Q a.

Lemma runs_ret {A} (Q : A -> Prop) a : Q a -> runs Q (mret a).
Proof. intros Hq s Hs. by exists a, s. Qed.

Lemma runs_bind {A B} (Q : A -> Prop) (R : B -> Prop) m (f : A -> M (sys D P) B) :
  runs Q m -> (forall a, Q a -> runs R (f a)) -> runs R (m ≫= f).
Proof.
  intros Hm Hf s Hs. destruct (Hm s Hs) as (a & s1 & E1 & Hs1 & Ha). destruct (Hf a Ha s1 Hs1) as (b & s2 & E2 & ? & ?).
  exists b, s2. split; [by eapply M_run|done].
Qed.

Lemma runs_lift {A B} (r : res A) a (R : B -> Prop) (f : A -> M (sys D P) B) :
  r = Ok a -> runs R (f a) -> runs R (liftR r ≫= f).
Proof. intros -> Hf s Hs. destruct (Hf s Hs) as (b & s' & Hr). by exists b, s'. Qed.

Lemma runs_if {A} (Q : A -> Prop) (b : bool) m1 m2 : runs Q m1 -> runs Q m2 -> runs Q (if b then m1 else m2).
Proof. by destruct b. Qed.

Lemma runs_getS : runs sys_ok getS.
Proof. intros s Hs. by exists s, s. Qed.

Lemma runs_weaken {A} (Q R : A -> Prop) m : runs Q m -> (forall a, Q a -> R a) -> runs R m.
Proof. intros Hm Hi s Hs. destruct (Hm s Hs) as (a & s' & ? & ? & ?). exists a, s'. by auto. Qed.

(** *** The console *)

Lemma runs_prints {A} (Q : A -> Prop) m :
  (forall s, Vga.vga_wf (y_vga s) -> exists t, prints Q m t s) -> runs Q m.
Proof.
  intros Hm s Hs. destruct (Hm s (ok_screen _ Hs)) as (t & a & v & p & E & Hq & Hv & _).
  exists a, (set_console v p s). split; [done|]. split; [by apply console_ok|done].
Qed.

Lemma runs_put c : runs (fun _ => True) (put c).
Proof. apply runs_prints. intros s Hw. exists [c]. by apply prints_put. Qed.

Lemma runs_write l : shows l -> runs (fun _ => True) (write l).
Proof. intros (t & r & -> & Ht). apply runs_prints. intros s Hw. exists t. by apply prints_write. Qed.

Lemma runs_text l : bool_decide (0 ∈ l) = true -> runs (fun _ => True) (write l).
Proof. intros Hl. by apply runs_write, shows_closed. Qed.

Lemma runs_say t : runs (fun _ => True) (say t).
Proof. apply runs_write, shows_terminated. unfold lit. apply elem_of_app. right. by apply list_elem_of_here. Qed.

Lemma runs_sayln t : runs (fun _ => True) (sayln t).
Proof. apply runs_write, shows_terminated. apply elem_of_app. right. by apply list_elem_of_further, list_elem_of_here. Qed.

Lemma runs_spaces n : runs (fun _ => True) (spaces n).
Proof.
  induction n as [|n IH]; [by apply runs_ret|]. cbn [spaces]. eapply runs_bind; [apply runs_put|]. by intros _ _.
Qed.

Lemma runs_pad l w : shows l -> runs (fun _ => True) (pad l w).
Proof. intros (t & r & -> & Ht). eapply runs_lift; [by apply strlen_clean|]. apply runs_spaces. Qed.

Lemma runs_number v buf base : base = 10 \/ base = 16 -> 12 <= zlen buf ->
  runs (fun b => zlen b = zlen buf /\ shows b) (number v buf base).
Proof.
  intros Hb Hl. destruct (itoa_shows v buf base Hb Hl) as (b & E & Hz & Hs). unfold number. eapply runs_lift; [exact E|].
  eapply runs_bind; [by apply runs_write|]. intros _ _. by apply runs_ret.
Qed.

(** *** The network and the interface *)

(** An operation whose events are replayed when it is over. *)
Lemma runs_heard {A B} (Q : A -> Prop) (R : B -> Prop) m (F : A -> list Net.event -> M (sys D P) B) :
  (forall s, sys_ok s -> exists a s' es, m s = Ok (a, s') /\ sys_ok s' /\ Q a /\
     Net.n_out (Socket.s_net (y_socks s')) = Net.n_out (Socket.s_net (y_socks s)) ++ es /\ Forall showable es) ->
  (forall a es, Q a -> Forall showable es -> runs R (F a es)) ->
  runs R (s ← getS; a ← m; s' ← getS; F a (printed_since (y_socks s) (y_socks s'))).
Proof.
  intros Hm HF s Hs. destruct (Hm s Hs) as (a & s1 & es & E & Hs1 & Hq & Ho & Hc).
  destruct (HF a es Hq Hc s1 Hs1) as (b & s2 & E2 & Hr). exists b, s2. split; [|done].
  eapply M_run; [reflexivity|]. eapply M_run; [exact E|]. eapply M_run; [reflexivity|].
  unfold printed_since. rewrite Ho, drop_app_length. exact E2.
Qed.

Lemma runs_replay es : Forall showable es -> runs (fun _ => True) (replay es).
Proof. intros He. apply runs_prints. intros s Hw. eexists. by apply replay_prints. Qed.

(** An operation on a part of the system that holds the sockets. *)
Lemma heard_zoom {T A} `{Networked T} (get : sys D P -> T) put (Q : A -> Prop) (m : M T A) :
  (forall s, sys_ok s -> at_rest (get s) /\ net_of (get s) = Socket.s_net (y_socks s)) ->
  (forall s t, sys_ok s -> at_rest t -> sys_ok (put t s) /\ Socket.s_net (y_socks (put t s)) = net_of t) ->
  quiet Q m -> forall s, sys_ok s -> exists a s' es, zoom get put m s = Ok (a, s') /\ sys_ok s' /\ Q a /\
     Net.n_out (Socket.s_net (y_socks s')) = Net.n_out (Socket.s_net (y_socks s)) ++ es /\ Forall showable es.
Proof.
  intros Hget Hput Hm s Hs. destruct (Hget s Hs) as [Hg Hn]. destruct (Hm _ Hg) as (a & t & es & E & Ht & Hq & Ho & Hc).
  destruct (Hput s t Hs Ht) as [Hp Hpn]. exists a, (put t s), es. split; [by apply zoom_run|]. by rewrite Hpn, <- Hn.
Qed.

Lemma runs_socks {A} (Q : A -> Prop) m : quiet Q m -> runs Q (on_socks m).
Proof.
  intros Hm. eapply (runs_heard Q Q _ (fun a es => replay es ;; mret a)).
  - eapply heard_zoom; [|by intros; split; [by apply socks_ok|]|exact Hm]. intros s Hs. split; [apply Hs|done].
  - intros a es Hq He. eapply runs_bind; [by apply runs_replay|]. intros _ _. by apply runs_ret.
Qed.

Lemma server_ok k h d c s : sys_ok s -> quiet_socks k -> sys_ok (set_socks k (set_servers h d c s)).
Proof. intros. by apply socks_ok; [apply servers_ok|]. Qed.

Lemma runs_http m : quiet (fun _ => True) m -> runs (fun _ => True) (on_http m).
Proof.
  intros Hm. eapply (runs_heard (fun _ => True) _ _ (fun _ es => replay es)); [|by intros; apply runs_replay].
  eapply heard_zoom; [|by intros; split; [by apply server_ok|]|exact Hm]. intros s Hs. split; [apply Hs|done].
Qed.
Lemma runs_dns m : quiet (fun _ => True) m -> runs (fun _ => True) (on_dns m).
Proof.
  intros Hm. eapply (runs_heard (fun _ => True) _ _ (fun _ es => replay es)); [|by intros; apply runs_replay].
  eapply heard_zoom; [|by intros; split; [by apply server_ok|]|exact Hm]. intros s Hs. split; [apply Hs|done].
Qed.
Lemma runs_dhcp m : quiet (fun _ => True) m -> runs (fun _ => True) (on_dhcp m).
Proof.
  intros Hm. eapply (runs_heard (fun _ => True) _ _ (fun _ es => replay es)); [|by intros; apply runs_replay].
  eapply heard_zoom; [|by intros; split; [by apply server_ok|]|exact Hm]. intros s Hs. split; [apply Hs|done].
Qed.

Lemma runs_iface : runs (fun x => x = None) iface.
Proof. apply runs_socks, quiet_on_net, quiet_iface. Qed.

Lemma runs_ui m : Ui.safe_for Ui.ui_wf m -> runs (fun _ => True) (on_ui m).
Proof.
  intros Hm s Hs. destruct (Hm (Ui.Screen (y_ui s) (y_vga s) (y_ports s)) (ok_screen _ Hs) (ok_ui _ Hs)) as (u & E & Hv & Hu).
  exists tt, (set_screen u s). split; [by apply zoom_run|]. split; [|done]. destruct Hs. by constructor.
Qed.

(** *** The device *)

Lemma runs_device {A} (f : Vga.vga * P -> res (A * (Vga.vga * P))) :
  (forall d, Vga.vga_wf d.1 -> exists a d', f d = Ok (a, d') /\ Vga.vga_wf d'.1) -> runs (fun _ => True) (Kernel.on_device f).
Proof.
  intros Hf s Hs. destruct (Hf (y_vga s, y_ports s) (ok_screen _ Hs)) as (a & [v p] & E & Hv).
  exists a, (set_console v p s). unfold Kernel.on_device. rewrite E. split; [done|]. split; [by apply console_ok|done].
Qed.
End System.

Create HintDb runs.
#[export] Hint Resolve runs_put runs_write runs_text runs_say runs_sayln runs_spaces runs_pad runs_number runs_socks
  runs_http runs_dns runs_dhcp runs_iface runs_ui : runs.
