(* ===== verification/Prompt.v ===== *)
(** * No command faults *)
(** The components meet in the shell: whatever is typed at the prompt of the
    system that [kmain] boots, no command leaves an array, follows a null pointer
    or divides by zero, and each returns.  The invariant and its rules are those
    of [Safety]; here are the commands of the table, the loop of the shell and
    [kmain]. *)

From Stdlib Require Import String.
From S2P Require Import Prelude Memory CString Block Ports Netcmd Quiet Safety Kernel.
From S2P Require Vga Process Ipc FileSys Disk Net Socket Dns Dhcp Http Devices Shell Ui.

(** ** Arguments *)

(** A word of a line. *)
Definition word (v : list Z) : Prop := nul_free v /\ zlen v <= 255.
Definition arg_ok (a : list Z) : Prop := exists v r, a = cstr v r /\ word v.
Definition args_ok (argc : Z) (argv : list (list Z)) : Prop := Forall arg_ok argv /\ argc <= zlen argv.

Lemma arg_at argc argv n : args_ok argc argv -> 0 <= n < argc -> exists a, rd argv n = Ok a /\ arg_ok a.
Proof.
  intros [Ha Hl] Hn. destruct (rd_total argv n ltac:(lia)) as [a E]. exists a. split; [done|]. by eapply FileSys.rd_Forall.
Qed.

Lemma arg_cstr a : arg_ok a -> FileSys.is_cstr a.
Proof. intros (v & r & -> & Hv & _). by exists v, r. Qed.
Lemma arg_shows a : arg_ok a -> shows a.
Proof. intros Ha. by apply shows_cstr, arg_cstr. Qed.

Lemma atoi_total v r : nul_free v -> exists x, atoi (cstr v r) = Ok x.
Proof.
  intros Hv. unfold atoi.
  assert (Hsp : exists w, atoi_spaces (cstr v r) = Ok (cstr w r) /\ nul_free w).
  { induction Hv as [|c v Hc Hv IH]; [exists []; by split; [|constructor]|].
    change (cstr (c :: v) r) with (c :: cstr v r). cbn [atoi_spaces].
    destruct (isspace _); [done|]. exists (c :: v). by split; [|constructor]. }
  destruct Hsp as (w & -> & Hw). rewrite bind_ret.
  assert (Hdig : forall w, nul_free w -> forall acc, exists x, atoi_digits (cstr w r) acc = Ok x).
  { clear. induction 1 as [|c w Hc Hw IH]; intros acc; [by exists acc|].
    change (cstr (c :: w) r) with (c :: cstr w r). cbn [atoi_digits]. destruct (isdigit _); [apply IH|by exists acc]. }
  destruct Hw as [|c w Hc Hw].
  { cbn. by eexists. }
  change (cstr (c :: w) r) with (c :: cstr w r). cbv iota.
  destruct (c =? 45); [|destruct (c =? 43)].
  - destruct (Hdig w Hw 0) as [x ->]. rewrite bind_ret. by eexists.
  - destruct (Hdig w Hw 0) as [x ->]. rewrite bind_ret. by eexists.
  - destruct (Hdig (c :: w) ltac:(by constructor) 0) as [x E]. change (cstr (c :: w) r) with (c :: cstr w r) in E.
    rewrite E, bind_ret. by eexists.
Qed.

(** ** The address of [wget] *)

Lemma cstr_head u r : rd (cstr u r) 0 = Ok (hd 0 u).
Proof. by destruct u. Qed.

Lemma url_host_total u : forall r h rest, nul_free u -> nul_free h -> zlen h <= 63 -> zlen h + zlen rest = 64 ->
  exists h' rest' u', url_host (cstr u r) (h ++ rest) (zlen h) = Ok (h' ++ rest', zlen h', cstr u' r) /\
    nul_free h' /\ zlen h' <= 63 /\ zlen h' + zlen rest' = 64 /\ nul_free u' /\ zlen u' <= zlen u.
Proof.
  induction u as [|c u IH]; intros r h rest Hu Hh Hl Hr.
  { exists h, rest, []. by split_and!. }
  change (cstr (c :: u) r) with (c :: cstr u r). cbn [url_host].
  destruct ((c =? 0) || (c =? 58) || (c =? 47) || (63 <=? zlen h)) eqn:Ec.
  { exists h, rest, (c :: u). by split_and!. }
  apply orb_false_iff in Ec as [_ Hlt]. apply Forall_cons in Hu as [Hc Hu].
  destruct rest as [|x rest]; [change (zlen (@nil Z)) with 0 in Hr; lia|].
  rewrite wr_mid, bind_ret. change (h ++ c :: rest) with (h ++ [c] ++ rest). rewrite app_assoc.
  assert (Hz : zlen (h ++ [c]) = zlen h + 1) by (rewrite zlen_app; done).
  assert (Hx : zlen (x :: rest) = 1 + zlen rest) by (unfold zlen; cbn [length]; lia).
  assert (Huc : zlen (c :: u) = 1 + zlen u) by (unfold zlen; cbn [length]; lia).
  rewrite <- Hz. destruct (IH r (h ++ [c]) rest) as (h' & rest' & u' & -> & ? & ? & ? & ? & ?); try done; try lia.
  { apply Forall_app. split; [done|]. by apply Forall_singleton. }
  exists h', rest', u'. split_and!; try done. lia.
Qed.

Lemma url_port_total u : forall r d rest, nul_free u -> Forall digit_c d -> zlen d <= 5 -> zlen d + zlen rest = 6 ->
  exists d' rest' u', url_port (cstr u r) (d ++ rest) (zlen d) = Ok (d' ++ rest', zlen d', cstr u' r) /\
    Forall digit_c d' /\ zlen d' <= 5 /\ zlen d' + zlen rest' = 6 /\ nul_free u' /\ zlen u' <= zlen u.
Proof.
  induction u as [|c u IH]; intros r d rest Hu Hd Hl Hr.
  { exists d, rest, []. by split_and!. }
  change (cstr (c :: u) r) with (c :: cstr u r). cbn [url_port].
  destruct ((48 <=? c) && (c <=? 57) && (zlen d <? 5)) eqn:Ec; [|exists d, rest, (c :: u); by split_and!].
  apply andb_true_iff in Ec as [Hcd Hlt]. apply andb_true_iff in Hcd as [Hc1 Hc2]. apply Forall_cons in Hu as [Hc Hu].
  destruct rest as [|x rest]; [change (zlen (@nil Z)) with 0 in Hr; lia|].
  rewrite wr_mid, bind_ret. change (d ++ c :: rest) with (d ++ [c] ++ rest). rewrite app_assoc.
  assert (Hz : zlen (d ++ [c]) = zlen d + 1) by (rewrite zlen_app; done).
  assert (Hx : zlen (x :: rest) = 1 + zlen rest) by (unfold zlen; cbn [length]; lia).
  assert (Huc : zlen (c :: u) = 1 + zlen u) by (unfold zlen; cbn [length]; lia).
  rewrite <- Hz. destruct (IH r (d ++ [c]) rest) as (d' & rest' & u' & -> & ? & ? & ? & ? & ?); try done; try lia.
  { apply Forall_app. split; [done|]. apply Forall_singleton. unfold digit_c. lia. }
  exists d', rest', u'. split_and!; try done. lia.
Qed.

Lemma parse_url_total u r : nul_free u -> exists host hr port path pr,
  parse_url (cstr u r) = Ok (cstr host hr, port, cstr path pr) /\ nul_free host /\ zlen host <= 63 /\
  nul_free path /\ zlen path <= Z.max 1 (zlen u) /\ is_u16 port.
Proof.
  intros Hu. unfold parse_url.
  destruct (url_host_total u r [] (replicate 64 0) Hu (Forall_nil_2 _)) as (h & rest & u1 & E & Hh & Hhl & Hr & Hu1 & Hl1);
    [done..|].
  change (zlen (@nil Z)) with 0 in E. cbn [app] in E. rewrite E, bind_ret. cbv beta iota.
  destruct rest as [|x rest]; [change (zlen (@nil Z)) with 0 in Hr; lia|]. rewrite wr_mid, bind_ret, cstr_head, bind_ret.
  assert (Hport : exists port u2, (if hd 0 u1 =? 58
     then '(port_str, p_idx, url) ← url_port (drop 1 (cstr u1 r)) (replicate 6 0) 0;
          port_str ← wr port_str p_idx 0;
          v ← (if 0 <? p_idx then atoi port_str else Ok 80);
          Ok (u16 v, url)
     else Ok (80, cstr u1 r)) = Ok (port, cstr u2 r) /\ is_u16 port /\ nul_free u2 /\ zlen u2 <= zlen u).
  { destruct (hd 0 u1 =? 58) eqn:Ec; [|by exists 80, u1]. destruct u1 as [|c u1]; [done|].
    change (drop 1 (cstr (c :: u1) r)) with (cstr u1 r). apply Forall_cons in Hu1 as [_ Hu1].
    destruct (url_port_total u1 r [] (replicate 6 0) Hu1 (Forall_nil_2 _)) as (d & rest2 & u2 & E2 & Hd & Hdl & Hr2 & Hu2 & Hl2);
      [done..|].
    change (zlen (@nil Z)) with 0 in E2. cbn [app] in E2. rewrite E2, bind_ret. cbv beta iota.
    destruct rest2 as [|y rest2]; [change (zlen (@nil Z)) with 0 in Hr2; lia|]. rewrite wr_mid, bind_ret.
    fold (cstr d rest2). rewrite atoi_string by done.
    assert (zlen (c :: u1) = 1 + zlen u1) by (unfold zlen; cbn [length]; lia).
    destruct (0 <? zlen d); rewrite bind_ret; (eexists _, u2; split; [reflexivity|]; split; [apply u16_range|]; split; [done|]; lia). }
  destruct Hport as (port & u2 & -> & Hp & Hu2 & Hl2). rewrite bind_ret. cbv beta iota. rewrite cstr_head, bind_ret.
  destruct (hd 0 u2 =? 47).
  - exists h, rest, port, u2, r. split_and!; try done; lia.
  - exists h, rest, port, [47], []. split_and!; try done; [repeat constructor; done|].
    change (zlen [47]) with 1. lia.
Qed.

(** A prefix that [strncmp] accepts. *)
Lemma strncmp_prefix p : forall v r r2, nul_free v -> nul_free p ->
  exists k, strncmp (cstr v r) (cstr p r2) (length p) = Ok k /\ (k = 0 -> exists w, v = p ++ w).
Proof.
  induction p as [|c p IH]; intros v r r2 Hv Hp; [exists 0; split; [done|]; intros _; by exists v|].
  apply Forall_cons in Hp as [[Hc Hc0] Hp]. change (cstr (c :: p) r2) with (c :: cstr p r2). cbn [length].
  destruct v as [|x v].
  - change (cstr [] r) with (0 :: r). cbn [strncmp]. rewrite (proj2 (Z.eqb_neq 0 c)) by lia. cbn [negb].
    exists (schar 0 - schar c). split; [done|]. intros. exfalso. apply Hc0, schar_0; [done|]. change (schar 0) with 0 in *. lia.
  - apply Forall_cons in Hv as [[Hx Hx0] Hv]. change (cstr (x :: v) r) with (x :: cstr v r). cbn [strncmp].
    destruct (Z.eqb_spec x c) as [->|Hne]; cbn [negb].
    + rewrite (proj2 (Z.eqb_neq c 0)) by done. destruct (IH v r r2 Hv Hp) as (k & E & Hk). exists k. split; [done|].
      intros H0. destruct (Hk H0) as [w ->]. by exists w.
    + exists (schar x - schar c). split; [done|]. intros. exfalso. apply Hne, schar_inj; done || lia.
Qed.

Section Commands.
Context {D P : Type} `{BlockSafe D} `{Bus P}.
Context (stacks : Z).
Implicit Types (s : sys D P).
Abbreviation runs := (runs (D := D) (P := P) stacks).

(** Walk through a command: its branches, what it prints, what it calls. *)
Ltac walk :=
  repeat first
    [ by apply runs_ret
    | apply runs_if
    | eapply runs_bind; [by first [apply runs_say | apply runs_sayln | apply runs_text | apply runs_put | apply runs_iface] | intros ? ?]
    | by first [apply runs_say | apply runs_sayln | apply runs_text | apply runs_put] ].

Lemma runs_arg_is {B} (R : B -> Prop) a t (f : bool -> M (sys D P) B) : arg_ok a -> bool_decide (nul_free (chars t)) = true ->
  (forall b, runs R (f b)) -> runs R (arg_is a t ≫= f).
Proof.
  intros (v & r & -> & Hv & _) Ht Hf. unfold arg_is.
  destruct (strcmp_cstr v (chars t) r [] Hv (bool_decide_eq_true_1 _ Ht)) as (k & E & _).
  eapply (runs_bind _ (fun _ => True)); [|by intros b _].
  eapply runs_lift; [exact E|]. by apply runs_ret.
Qed.

(** The first argument, in a command that has checked [argc]. *)
Lemma runs_arg {B} (R : B -> Prop) argc argv n (f : list Z -> M (sys D P) B) : args_ok argc argv -> 0 <= n < argc ->
  (forall a, arg_ok a -> runs R (f a)) -> runs R (liftR (rd argv n) ≫= f).
Proof. intros Ha Hn Hf. destruct (arg_at argc argv n Ha Hn) as (a & E & Hok). eapply runs_lift; [exact E|]. by apply Hf. Qed.

(** The test of [argc] at the start of most commands. *)
Lemma runs_usage {B} (R : B -> Prop) argc n (m1 m2 : M (sys D P) B) : runs R m1 -> (n <= argc -> runs R m2) ->
  runs R (if argc <? n then m1 else m2).
Proof. intros Hm1 Hm2. destruct (Z.ltb_spec argc n); [done|]. by apply Hm2. Qed.

(** *** The network *)

Lemma runs_ifconfig buf : runs (fun _ => True) (cmd_ifconfig buf).
Proof. eapply runs_bind; [apply runs_iface|]. intros ? ->. walk. Qed.

Lemma runs_ping argc argv octets : args_ok argc argv -> length octets = 4%nat ->
  runs (fun _ => True) (cmd_ping argc argv octets).
Proof.
  intros Ha Ho. apply runs_usage; [walk|]. intros Hc. eapply runs_arg; [exact Ha|lia|]. intros a (v & r & -> & Hv & _).
  assert (Hu : Forall is_u8 v) by (eapply Forall_impl; [exact Hv|by intros ? []]).
  destruct (Http.parse_quad_total v r octets Hu Ho) as ([ip|] & E & _); (eapply runs_lift; [exact E|]; cbv iota); [|walk].
  eapply runs_bind; [apply runs_say|]. intros _ _.
  eapply runs_bind; [apply runs_write, shows_cstr; by exists v, r|]. intros _ _. walk.
  eapply runs_bind; [by apply runs_socks, quiet_on_net, quiet_echo|]. intros _ _. walk.
Qed.

Lemma runs_servers argc argv : args_ok argc argv ->
  runs (fun _ => True) (cmd_http argc argv) /\ runs (fun _ => True) (cmd_dns argc argv) /\
  runs (fun _ => True) (cmd_dhcp argc argv).
Proof.
  intros Ha. split_and!; (apply runs_usage; [walk|]; intros Hc; eapply runs_arg; [exact Ha|lia|]; intros a Hok;
    apply runs_arg_is; [done..|]; intros b; apply runs_if; [|apply runs_arg_is; [done..|]; intros b1; apply runs_if;
      [|apply runs_arg_is; [done..|]; intros b2; walk]]); (eapply runs_bind; [|intros _ _; walk]).
  - apply runs_http, http_start_quiet.
  - apply runs_http, http_stop_quiet.
  - apply runs_dns, dns_start_quiet.
  - apply runs_dns, dns_stop_quiet.
  - apply runs_dhcp, dhcp_start_quiet.
  - apply runs_dhcp, dhcp_stop_quiet.
Qed.

Lemma number_u16 v buf : is_u16 v -> 6 <= zlen buf -> runs (fun _ => True) (number v buf 10).
Proof.
  unfold is_u16. intros Hv Hb. unfold number. rewrite i32_id by (unfold is_i32; lia).
  pose proof (itoa_text_digits v 10 5 ltac:(lia) ltac:(lia) ltac:(change (10 ^ Z.of_nat 5) with 100000; lia)) as Hl.
  rewrite (proj2 (Z.ltb_ge _ _)) in Hl by lia. eapply runs_lift; [apply itoa_spec; lia|].
  eapply runs_bind; [|intros _ _; by apply runs_ret].
  apply runs_write. eexists _, _. split; [reflexivity|]. apply itoa_text_clean. lia.
Qed.

Lemma runs_wget argc argv portstr status_str request response_buf : args_ok argc argv ->
  6 <= zlen portstr -> zlen request = 512 ->
  runs (fun _ => True) (cmd_wget argc argv portstr status_str request response_buf).
Proof.
  intros Ha Hp Hr. apply runs_usage; [walk|]. intros Hc. eapply runs_arg; [exact Ha|lia|].
  intros a (v & r & -> & Hv & Hl).
  destruct (strncmp_prefix (chars "http://") v r [] Hv) as (k & E & Hk); [by apply Http.nul_free_lit|].
  eapply runs_lift; [exact E|]. destruct (Z.eqb_spec k 0) as [Hk0|]; cbn [negb]; [|walk].
  destruct (Hk Hk0) as [w ->]. apply Forall_app in Hv as [_ Hw]. rewrite zlen_app in Hl.
  change (zlen (chars "http://")) with 7 in Hl. change (drop 7 (cstr (chars "http://" ++ w) r)) with (cstr w r).
  destruct (parse_url_total w r Hw) as (host & hr & port & path & pr & Eu & Hh & Hhl & Hpath & Hpl & Hport).
  eapply runs_lift; [exact Eu|]. cbv beta iota. pose proof (zlen_nonneg host). pose proof (zlen_nonneg path).
  walk. eapply runs_bind; [apply runs_write, shows_cstr; by exists host, hr|]. intros _ _. walk.
  eapply runs_bind; [by apply number_u16|]. intros _ _.
  eapply runs_bind; [apply runs_write, shows_cstr; by exists path, pr|]. intros _ _. walk.
  eapply (runs_bind _ (fun x => x.1 = -1)).
  { apply runs_socks, get_quiet; [done..|]. unfold Http.request_text. rewrite !zlen_app.
    repeat match goal with |- context [zlen (chars ?t)] => let z := eval vm_compute in (zlen (chars t)) in
      change (zlen (chars t)) with z end. change (zlen [13; 10]) with 2. change (zlen [13; 10; 13; 10]) with 4. lia. }
  intros [x resp] Hx. cbn in Hx. subst x. change (-1 <? 0) with true. cbv iota. walk.
Qed.

(** *** Numbers *)

Lemma runs_numbered {B} (R : B -> Prop) v buf base (f : list Z -> M (sys D P) B) : base = 10 \/ base = 16 -> 12 <= zlen buf ->
  (forall b, zlen b = zlen buf -> shows b -> runs R (f b)) -> runs R (number v buf base ≫= f).
Proof. intros Hb Hl Hf. eapply runs_bind; [by apply runs_number|]. intros b [Hz Hs]. by apply Hf. Qed.

Ltac numbers := repeat first [progress walk | apply runs_numbered; [lia|lia|intros ? ? ?]].

(** *** The disk *)

Lemma runs_disk_info n : forall i buf, 0 <= i -> i + Z.of_nat n <= 4 -> 12 <= zlen buf ->
  runs (fun b => zlen b = zlen buf) (disk_info n i buf).
Proof.
  induction n as [|n IH]; intros i buf Hi Hn Hb; cbn [disk_info]; [by apply runs_ret|].
  eapply runs_bind; [apply runs_getS|]. intros s Hs. destruct (ok_drives _ _ Hs) as [Hl Hm].
  destruct (rd_total (Disk.g_disks (y_drives s)) i) as [k Hk]; [unfold zlen; lia|].
  assert (Hmax : (Disk.MAX_DRIVES <=? i) = false) by (apply Z.leb_gt; unfold Disk.MAX_DRIVES; lia).
  eapply runs_lift; [unfold Disk.disk_drive_exists; rewrite Hmax, Hk; reflexivity|].
  eapply (runs_bind _ (fun b => zlen b = zlen buf)).
  - destruct (Z.eqb_spec (Disk.present k) 0) as [|Hp]; [by apply runs_ret|]. unfold Disk.disk_get_info. rewrite Hmax.
    eapply runs_lift; [exact Hk|]. numbers.
    eapply runs_bind; [apply runs_write, shows_terminated; by eapply (FileSys.rd_Forall _ _ _ _ Hm Hk)|]. intros _ _.
    numbers. apply runs_ret. lia.
  - intros b Hz. eapply runs_weaken; [apply IH; lia|]. intros b' ?. cbv beta in *. lia.
Qed.

Lemma runs_hex_dump n : forall i sector buf, 0 <= i -> i + Z.of_nat n <= zlen sector -> 12 <= zlen buf ->
  runs (fun _ => True) (hex_dump n i sector buf).
Proof.
  induction n as [|n IH]; intros i sector buf Hi Hn Hb; cbn [hex_dump]; [by apply runs_ret|].
  eapply (runs_bind _ (fun b => zlen b = zlen buf)); [destruct (i mod 16 =? 0); numbers; by apply runs_ret|].
  intros b Hz. destruct (rd_total sector i ltac:(lia)) as [x Hx]. eapply runs_lift; [exact Hx|].
  eapply (runs_bind _ (fun _ => True)); [walk|]. intros _ _. numbers. apply IH; lia.
Qed.

Lemma runs_read_sector {B} (R : B -> Prop) drive lba buffer (f : Z * list Z -> M (sys D P) B) :
  is_u8 drive -> is_u32 lba -> zlen buffer = 512 -> Forall is_u8 buffer ->
  (forall r b, zlen b = 512 -> runs R (f (r, b))) -> runs R (read_sector drive lba buffer ≫= f).
Proof.
  intros Hd Hl Hz Hu Hf. apply (runs_bind _ (fun x => zlen x.2 = 512)); [|intros [r b]; apply Hf].
  intros s Hs. destruct (read_safe drive lba 1 buffer (y_disk s) (ok_disk _ _ Hs) Hd Hl) as (r & b & d & E & _ & Hd' & Hzb & _).
  - unfold is_u8. lia.
  - unfold SECTOR_SIZE. lia.
  - done.
  - exists (r, b), (set_fs (y_fs s) d s). unfold read_sector, disk_read_sector. rewrite E. split; [done|].
    split; [by apply files_ok; [|apply Hs|..]|cbn; lia].
Qed.

Lemma runs_disk argc argv sector buf : args_ok argc argv -> zlen sector = 512 -> Forall is_u8 sector -> 12 <= zlen buf ->
  runs (fun _ => True) (cmd_disk argc argv sector buf).
Proof.
  intros Ha Hz Hu Hb. apply runs_usage; [walk|]. intros Hc. eapply runs_arg; [exact Ha|lia|]. intros a Hok.
  apply runs_arg_is; [done..|]. intros b. apply runs_if.
  { eapply runs_bind; [apply runs_getS|]. intros s Hs. numbers.
    eapply runs_bind; [apply runs_disk_info; lia|]. intros b1 _. walk. }
  apply runs_arg_is; [done..|]. intros b1. apply runs_if.
  2: { apply runs_arg_is; [done..|]. intros b2. walk. }
  apply runs_usage; [walk|]. intros Hc4.
  eapply runs_arg; [exact Ha|lia|]. intros a2 (v2 & r2 & -> & Hv2 & _). destruct (atoi_total v2 r2 Hv2) as [x2 E2].
  eapply runs_lift; [exact E2|].
  eapply runs_arg; [exact Ha|lia|]. intros a3 (v3 & r3 & -> & Hv3 & _). destruct (atoi_total v3 r3 Hv3) as [x3 E3].
  eapply runs_lift; [exact E3|]. cbv zeta. eapply runs_bind; [apply runs_getS|]. intros s Hs.
  destruct (ok_drives _ _ Hs) as [Hl _]. pose proof (u8_range x2) as Hx2.
  assert (He : exists e, Disk.disk_drive_exists (u8 x2) (y_drives s) = Ok e).
  { unfold Disk.disk_drive_exists. destruct (Z.leb_spec Disk.MAX_DRIVES (u8 x2)); [by eexists|].
    destruct (rd_total (Disk.g_disks (y_drives s)) (u8 x2)) as [k ->].
    - unfold is_u8, Disk.MAX_DRIVES, zlen in *. lia.
    - by eexists. }
  destruct He as [e Ee]. eapply runs_lift; [exact Ee|]. apply runs_if; [walk|].
  apply runs_read_sector; [done|apply u32_range|done|done|]. intros r b2 Hz2. cbv beta iota. numbers.
  eapply runs_bind; [apply runs_hex_dump; lia|]. intros ? _. walk.
Qed.

(** *** Files *)

Lemma runs_list_entries es n : forall i buf, 0 <= i -> i + Z.of_nat n <= zlen es -> 12 <= zlen buf ->
  (forall j x, 0 <= j < i + Z.of_nat n -> rd es j = Ok x -> FileSys.is_cstr (FileSys.di_filename x)) ->
  runs (fun b => zlen b = zlen buf) (list_entries n es i buf).
Proof.
  induction n as [|n IH]; intros i buf Hi Hn Hb He; cbn [list_entries]; [by apply runs_ret|].
  destruct (rd_total es i ltac:(lia)) as [x Hx]. eapply runs_lift; [exact Hx|].
  pose proof (shows_cstr _ (He i x ltac:(lia) Hx)) as Hname.
  eapply runs_bind; [by apply runs_write|]. intros _ _. eapply runs_bind; [by apply runs_pad|]. intros _ _. numbers.
  eapply runs_bind; [by apply runs_pad|]. intros _ _. eapply (runs_bind _ (fun _ => True)); [walk|]. intros _ _. walk.
  eapply runs_weaken; [apply IH; [lia|lia|lia|intros j y Hj; apply He; lia]|]. intros b' ?. cbv beta in *. lia.
Qed.

Lemma runs_ls entries buf : length entries = 224%nat ->
  Forall (fun x => length (FileSys.di_filename x) = 13%nat) entries -> 12 <= zlen buf ->
  runs (fun _ => True) (cmd_ls entries buf).
Proof.
  intros Hl He Hb. eapply runs_bind; [apply runs_getS|]. intros s Hs.
  destruct (list_dir_ok (y_fs s) entries (ok_fs _ _ Hs) Hl He) as (n & es & E & Hn & Hnames).
  eapply runs_lift; [exact E|]. cbv beta iota. destruct (Z.ltb_spec n 0); [walk|]. walk.
  eapply runs_bind; [apply runs_list_entries; [lia|change (default [] (Some es)) with es; lia|done|intros j x Hj; apply Hnames; lia]|].
  intros b Hz. cbv beta in Hz. numbers.
Qed.

(** The file that [cat] reads: its position is inside a file that 32 bits can count. *)
Definition readable (f : FileSys.fs) (fd : Z) (left : Z) : Prop := exists x,
  rd (FileSys.g_files f) fd = Ok x /\ small (FileSys.f_size x) /\
  0 <= FileSys.position x <= FileSys.f_size x /\ FileSys.f_size x - FileSys.position x <= left.

Lemma read_on fd left buffer s : sys_ok stacks s -> 0 <= fd < 16 -> readable (y_fs s) fd left -> zlen buffer = 256 ->
  exists n b f d, FileSys.fs_read fd (Some buffer) 256 (y_fs s) (y_disk s) = Ok (n, Some b, f, d) /\
    sys_ok stacks (set_fs f d s) /\ zlen b = 256 /\ n <= 256 /\ readable f fd (left - Z.max 0 n).
Proof.
  intros Hs Hfd (x & Hx & Hsm & Hpos & Hleft) Hb. pose proof (ok_fs _ _ Hs) as Hwf.
  destruct (FileSys.read_wf fd buffer 256 (y_fs s) (y_disk s) Hwf (ok_disk _ _ Hs) ltac:(unfold is_i32; lia)
    ltac:(unfold is_u16; lia) ltac:(lia)) as (n & b & f & d & E & Hf & Hd & Hzb & Hn).
  exists n, b, f, d. split; [exact E|]. unfold FileSys.fs_read, FileSys.bad_fd, FileSys.FS_MAX_FILES in E.
  rewrite (proj2 (Z.ltb_ge fd 0)), (proj2 (Z.leb_gt 16 fd)) in E by lia. cbn [orb] in E. rewrite Hx, bind_ret in E.
  destruct (FileSys.f_in_use x =? 0).
  { injection E as <- _ <- <-. split; [by apply files_ok|]. split; [lia|]. split; [lia|]. exists x. split_and!; done || lia. }
  apply res_bind_Ok in E as ([[[[b1 m] x'] cb] d1] & El & E). apply res_bind_Ok in E as (files & Hw & E).
  injection E as Em _ Ef _. apply wr_Ok in Hw as [Hin ->].
  pose proof (read_progress _ _ _ _ _ 0 256 _ _ _ _ _ _ Hsm Hpos ltac:(lia) ltac:(lia) ltac:(lia) El)
    as (Hsz & _ & Hp & Hp' & Hm).
  split; [apply files_ok; try done; by rewrite <- Ef|]. split; [lia|]. split; [lia|].
  assert (Hmn : m = n).
  { destruct (FileSys.read_loop_safe (FileSys.g_fat_cache (y_fs s)) (FileSys.sw_fat _ Hwf) (Z.to_nat 256) x buffer
      (FileSys.g_cluster_buffer (y_fs s)) 0 256 (y_disk s)) as (b2 & m2 & x2 & cb2 & d2 & E2 & _ & Hm2 & _); try done; try lia.
    - apply Hs.
    - by apply (FileSys.rd_Forall _ _ _ _ (proj2 (FileSys.sw_files _ Hwf)) Hx).
    - apply Hwf.
    - rewrite E2 in El. injection El as _ -> _ _ _. rewrite i32_id in Em by (unfold is_i32; lia). lia. }
  exists x'. rewrite <- Ef. cbn [FileSys.set_cluster_buffer FileSys.set_files FileSys.g_files].
  split; [by apply rd_Ok, zget_insert_eq|]. rewrite Hsz. split; [done|]. lia.
Qed.

Lemma cat_ends fd fuel : forall s left buffer, sys_ok stacks s -> 0 <= fd < 16 -> readable (y_fs s) fd left ->
  zlen buffer = 256 -> left < Z.of_nat fuel ->
  exists s', cat_loop fuel fd buffer s = Ok (tt, s') /\ sys_ok stacks s'.
Proof.
  induction fuel as [|fuel IH]; intros s left buffer Hs Hfd Hr Hb Hf.
  { destruct Hr as (x & _ & _ & ? & ?). lia. }
  destruct (read_on fd left buffer s Hs Hfd Hr Hb) as (n & b & f & d & E & Hs1 & Hzb & Hn & Hr1).
  cbn [cat_loop]. set (s1 := set_fs f d s) in *.
  assert (Hstep : forall X, (if 0 <? n then put_bytes (Z.to_nat n) b 0 ;; cat_loop fuel fd b else mret tt) s1 = X ->
    (s ← getS;
     '(n, b, f, d) ← liftR (FileSys.fs_read fd (Some buffer) 256 (y_fs s) (y_disk s));
     (fun s => Ok (tt, set_fs f d s)) ;;
     let buffer := default [] b in
     if 0 <? n then put_bytes (Z.to_nat n) buffer 0 ;; cat_loop fuel fd buffer else mret tt) s = X).
  { intros X HX. eapply M_run; [reflexivity|]. cbv beta. eapply lift_run; [exact E|]. exact HX. }
  destruct (Z.ltb_spec 0 n) as [Hpos|Hz].
  - destruct (put_bytes_prints (Z.to_nat n) b 0 s1 (ok_screen _ _ Hs1) ltac:(lia) ltac:(lia)) as (v & p & Ep & Hv & _).
    destruct (IH (set_console v p s1) (left - Z.max 0 n) b) as (s' & E' & Hs'); try done; try lia.
    + by apply console_ok.
    + exists s'. split; [|done]. apply Hstep. eapply M_run; [exact Ep|]. exact E'.
  - exists s1. split; [|done]. by apply Hstep.
Qed.

Lemma open_readable name s : sys_ok stacks s -> FileSys.is_cstr name ->
  exists r f, FileSys.fs_open (Some name) (y_fs s) = Ok (r, f) /\ sys_ok stacks (set_fs f (y_disk s) s) /\
    (r < 0 \/ (0 <= r < 16 /\ readable f r (2 ^ 32))).
Proof.
  intros Hs (n & r0 & -> & Hn). pose proof (ok_fs _ _ Hs) as Hwf.
  assert (Hsame : sys_ok stacks (set_fs (y_fs s) (y_disk s) s)) by (apply files_ok; apply Hs || done).
  destruct (decide (FileSys.g_fs_initialized (y_fs s) = 0)) as [Hi|Hi].
  { exists (-1), (y_fs s). unfold FileSys.fs_open. rewrite Hi. split; [done|]. split; [done|]. left. lia. }
  destruct (FileSys.open_spec (y_fs s) n r0 Hwf Hn Hi)
    as [(fd & fname & cache & i & e & E & Hfd & _ & _ & Hl & He & Hc & _ & Hrd & _)|[E _]].
  2: { exists (-1), (y_fs s). split; [done|]. split; [done|]. left. lia. }
  pose proof (ok_root _ _ Hs cache i e Hc Hrd) as Hsm. unfold small in Hsm. eexists fd, _. split; [exact E|]. split.
  - apply files_ok; [done| |done|apply Hs]. apply FileSys.set_files_wf; [done|]. by apply FileSys.opened_wf.
  - right. split; [done|]. exists (FileSys.opened e fname).
    split; [apply rd_Ok, zget_insert_eq; destruct (FileSys.sw_files _ Hwf) as [Hlen _]; unfold zlen; lia|].
    unfold small. cbn [FileSys.opened FileSys.f_size FileSys.position]. lia.
Qed.

Lemma runs_close fd : is_i32 fd -> runs (fun _ => True) (on_fs (FileSys.fs_close fd)).
Proof.
  intros Hfd s Hs. destruct (FileSys.close_spec (y_fs s) fd (ok_fs _ _ Hs) Hfd) as (r & f & E & Hf).
  exists r, (set_fs f (y_disk s) s). unfold on_fs. rewrite E. split; [done|]. split; [|done]. apply files_ok; try done; [|apply Hs].
  unfold FileSys.fs_close in E. destruct (FileSys.bad_fd fd); [by injection E as _ <-|].
  apply res_bind_Ok in E as (x & _ & E). destruct (FileSys.f_in_use x =? 0); [by injection E as _ <-|].
  apply res_bind_Ok in E as (l & _ & E). by injection E as _ <-.
Qed.

(** A file has less than 2^32 bytes and every turn of the loop but the last reads one. *)
Lemma runs_cat fuel argc argv buffer : args_ok argc argv -> zlen buffer = 256 -> 2 ^ 32 < Z.of_nat fuel ->
  runs (fun _ => True) (cmd_cat fuel argc argv buffer).
Proof.
  intros Ha Hb Hf. apply runs_usage; [walk|]. intros Hc. eapply runs_arg; [exact Ha|lia|]. intros name Hok.
  pose proof (arg_cstr _ Hok) as Hname. eapply runs_bind; [apply runs_getS|]. intros s Hs.
  destruct Hname as (n & r0 & -> & Hn). destruct (FileSys.exists_spec (y_fs s) n r0 (ok_fs _ _ Hs) Hn) as [e Ee].
  eapply runs_lift; [exact Ee|]. apply runs_if.
  { walk. eapply runs_bind; [apply runs_write; by apply arg_shows|]. intros _ _. walk. }
  clear s Hs Ee. intros s Hs. destruct (open_readable (cstr n r0) s Hs) as (fd & f & E & Hs1 & Hfd); [by exists n, r0|].
  set (s1 := set_fs f (y_disk s) s) in *.
  assert (Ho : on_fs (FileSys.fs_open (Some (cstr n r0))) s = Ok (fd, s1)) by (unfold on_fs; by rewrite E).
  destruct Hfd as [Hneg|[Hfd Hr]].
  - assert (Hfail : runs (fun _ => True) (sayln "Failed to open file" ;; mret 1)) by walk.
    destruct (Hfail s1 Hs1) as (a & s2 & E2 & Hs2). exists a, s2. split; [|done]. eapply M_run; [exact Ho|].
    by rewrite (proj2 (Z.ltb_lt fd 0)).
  - destruct (cat_ends fd fuel s1 (2 ^ 32) buffer Hs1 Hfd Hr Hb Hf) as (s2 & E2 & Hs2).
    assert (Hend : runs (fun _ => True) (on_fs (FileSys.fs_close fd) ;; put 10 ;; mret 0)).
    { eapply runs_bind; [apply runs_close; unfold is_i32; lia|]. intros _ _. walk. }
    destruct (Hend s2 Hs2) as (a & s3 & E3 & Hs3). exists a, s3. split; [|done]. eapply M_run; [exact Ho|].
    rewrite (proj2 (Z.ltb_ge fd 0)) by lia. eapply M_run; [exact E2|]. exact E3.
Qed.

Lemma runs_file argc argv info buf : args_ok argc argv -> length (FileSys.di_filename info) = 13%nat -> 12 <= zlen buf ->
  runs (fun _ => True) (cmd_file argc argv info buf).
Proof.
  intros Ha Hl Hb. apply runs_usage; [walk|]. intros Hc. eapply runs_arg; [exact Ha|lia|]. intros name (n & r0 & -> & Hn & _).
  eapply runs_bind; [apply runs_getS|]. intros s Hs.
  destruct (info_ok (y_fs s) n r0 info (ok_fs _ _ Hs) Hn Hl) as [(r & o & E & Hr)|(r & inf & E & Hinf)];
    (eapply runs_lift; [exact E|]); cbv beta iota.
  - rewrite (proj2 (Z.ltb_lt r 0)) by done. walk.
  - apply runs_if; [walk|]. walk. eapply runs_bind; [by apply runs_write, shows_cstr|]. intros _ _. numbers.
Qed.

(** *** Processes *)

Lemma runs_rows table n : forall i buf, 0 <= i -> i + Z.of_nat n <= zlen table -> 12 <= zlen buf ->
  (forall j p, rd table j = Ok p -> Process.state p <> Process.PROC_STATE_UNUSED -> 0 ∈ Process.name p) ->
  runs (fun b => zlen b = zlen buf) (list_processes n table i buf).
Proof.
  induction n as [|n IH]; intros i buf Hi Hn Hb Hp; cbn [list_processes]; [by apply runs_ret|].
  destruct (rd_total table i ltac:(lia)) as [p E]. eapply runs_lift; [exact E|].
  eapply (runs_bind _ (fun b => zlen b = zlen buf)).
  - destruct (decide _) as [|Hu]; [by apply runs_ret|]. destruct (state_name_text (Process.state p)) as (st & Est & Hst).
    assert (Hs : shows (state_name (Process.state p))) by (rewrite Est; by exists st, []).
    numbers. eapply runs_bind; [by apply runs_write|]. intros _ _. eapply runs_bind; [by apply runs_pad|]. intros _ _.
    numbers. eapply runs_bind; [by apply runs_pad|]. intros _ _.
    eapply runs_bind; [by eapply runs_write, shows_terminated, Hp|]. intros _ _. walk. apply runs_ret. lia.
  - intros b Hz. cbv beta in Hz. eapply runs_weaken; [apply IH; done || lia|]. intros b' ?. cbv beta in *. lia.
Qed.

Lemma runs_ps buf : 12 <= zlen buf -> runs (fun _ => True) (cmd_ps buf).
Proof.
  intros Hb. unfold cmd_ps. eapply runs_bind; [|intros _ _; walk]. unfold process_display_info. walk.
  eapply runs_bind; [apply runs_getS|]. intros s Hs. destruct (ok_proc _ _ Hs) as [Hwf _].
  eapply runs_bind; [apply runs_rows; [done| |done|]|].
  - rewrite (Process.wf_len _ _ Hwf). done.
  - intros j p Hj Hu. apply rd_Ok in Hj. by destruct (Process.so_used _ _ _ (Process.wf_slots _ _ Hwf j p Hj) Hu) as (_ & _ & _ & ?).
  - intros b Hz. cbv beta in Hz. numbers.
Qed.

Lemma runs_kill argc argv buf : args_ok argc argv -> 12 <= zlen buf -> runs (fun _ => True) (cmd_kill argc argv buf).
Proof.
  intros Ha Hb. apply runs_usage; [walk|]. intros Hc. eapply runs_arg; [exact Ha|lia|]. intros a (v & r & -> & Hv & _).
  destruct (atoi_total v r Hv) as [x E]. eapply runs_lift; [exact E|]. cbv zeta. pose proof (u32_range x) as Hx.
  unfold is_u32 in Hx. apply runs_if; [walk|]. eapply runs_bind; [apply runs_getS|]. intros s Hs.
  destruct (ok_proc _ _ Hs) as [Hwf _].
  destruct (Process.get_spec _ _ (u32 x) Hwf ltac:(lia)) as [[Eg _]|(p & Eg & _)]; (eapply runs_lift; [exact Eg|]); [walk|].
  eapply (runs_bind _ (fun _ => True)).
  - intros s1 Hs1. destruct (Process.kill_wf stacks (y_proc s1) (u32 x) (y_now s1) (ok_proc _ _ Hs1) ltac:(lia)) as (k & q & Ek & Hq).
    exists k, (set_proc q s1). unfold kill. rewrite Ek. split; [done|]. split; [|done]. destruct Hs1. by constructor.
  - intros k _. apply runs_if; [|walk]. numbers.
Qed.

(** *** Pipes *)

(** Operations of the pipes: each is a step of [Ipc.pipe_step]. *)
Lemma runs_pipe_op {A} (g : Ipc.ipc -> res (A * Ipc.ipc)) op :
  (forall i r m i', Ipc.pipe_step op i = Ok (r, m, i') -> exists a, g i = Ok (a, i')) -> runs (fun _ => True) (on_ipc g).
Proof.
  intros Hg s Hs. destruct (ok_pipes _ _ Hs) as [a Ha]. destruct (Ipc.pipe_step_refines op _ _ Ha) as (i & E & Hi).
  destruct (Ipc.fifo_step op a) as [[r m] a']. destruct (Hg _ _ _ _ E) as [x Ex]. exists x, (set_ipc i s).
  split; [by apply zoom_run|]. split; [|done]. destruct Hs. constructor; try done. by exists a'.
Qed.

Lemma runs_create owner : runs (fun _ => True) (on_ipc (Ipc.ipc_pipe_create owner)).
Proof.
  apply (runs_pipe_op _ (Ipc.PCreate owner)). intros i r m i' E. cbn in E.
  apply res_bind_Ok in E as ([x j] & E & E'). injection E' as _ _ <-. by exists x.
Qed.
Lemma runs_pipe_write id m : runs (fun _ => True) (on_ipc (Ipc.ipc_pipe_write id m)).
Proof.
  apply (runs_pipe_op _ (Ipc.PWrite id m)). intros i r w i' E. cbn in E.
  apply res_bind_Ok in E as ([x j] & E & E'). injection E' as _ _ <-. by exists x.
Qed.
Lemma runs_pipe_close id : runs (fun _ => True) (on_ipc (Ipc.ipc_pipe_close id)).
Proof.
  apply (runs_pipe_op _ (Ipc.PClose id)). intros i r m i' E. cbn in E.
  apply res_bind_Ok in E as ([x j] & E & E'). injection E' as _ _ <-. by exists x.
Qed.
Lemma runs_pipe_read id old : runs (fun _ => True)
  (on_ipc (fun i => match Ipc.ipc_pipe_read id (Some old) i with Ok (r, m, i) => Ok ((r, m), i) | Err e => Err e end)).
Proof.
  apply (runs_pipe_op _ (Ipc.PRead id old)). intros i r m i' E. cbn [Ipc.pipe_step] in E. rewrite E. by eexists.
Qed.

Lemma runs_current : runs (fun _ => True) current_pid.
Proof.
  eapply runs_bind; [apply runs_getS|]. intros s Hs. destruct (ok_proc _ _ Hs) as [Hwf (p & Hp & _)].
  rewrite (Process.current_spec _ _ Hwf). eapply runs_lift; [apply Process.slot_Ok; exact Hp|]. by apply runs_ret.
Qed.

Lemma runs_pipe msg1 msg2 buf : 12 <= zlen buf -> runs (fun _ => True) (cmd_pipe msg1 msg2 buf).
Proof.
  intros Hb. unfold cmd_pipe. walk. eapply runs_bind; [apply runs_current|]. intros owner _.
  eapply runs_bind; [apply runs_create|]. intros id _. apply runs_if; [walk|]. numbers.
  eapply runs_bind; [apply runs_pipe_write|]. intros _ _. eapply runs_bind; [apply runs_pipe_write|]. intros _ _.
  eapply runs_bind; [apply runs_pipe_read|]. intros [? m1] _. eapply runs_bind; [apply runs_pipe_read|]. intros [? m2] _.
  numbers. eapply runs_bind; [apply runs_pipe_close|]. intros _ _. walk.
Qed.

(** *** The user interface *)

Lemma text_lit t : bool_decide (nul_free (chars t)) = true -> Ui.text_ok (Some (lit t)).
Proof. intros Ht. exists (chars t), []. split; [done|]. exact (bool_decide_eq_true_1 _ Ht). Qed.

Lemma runs_ui_cmd argc argv : args_ok argc argv -> runs (fun _ => True) (cmd_ui argc argv).
Proof.
  intros Ha. apply runs_usage; [walk|]. intros Hc. eapply runs_arg; [exact Ha|lia|]. intros a Hok.
  apply runs_arg_is; [done..|]. intros b. apply runs_if.
  { eapply runs_bind; [apply runs_ui, Ui.safe_enable|]. intros _ _. walk.
    eapply runs_bind; [apply runs_ui, Ui.safe_update_header|]. intros _ _.
    eapply runs_bind; [by apply runs_ui, Ui.safe_print_content, text_lit|]. intros _ _.
    eapply runs_bind; [by apply runs_ui, Ui.safe_footer, text_lit|]. intros _ _. walk. }
  apply runs_arg_is; [done..|]. intros b1. apply runs_if.
  { eapply runs_bind; [apply runs_ui, Ui.safe_disable|]. intros _ _. walk. }
  apply runs_arg_is; [done..|]. intros b2. apply runs_if; [|walk].
  walk. eapply runs_bind; [apply runs_getS|]. intros s _. eapply runs_bind; [|intros _ _; walk].
  apply runs_if; apply runs_sayln.
Qed.

(** *** The shell's own commands *)

Lemma print_total l (d : Vga.vga * P) : shows l -> Vga.vga_wf d.1 ->
  exists d', Shell.print l d = Ok d' /\ Vga.vga_wf d'.1.
Proof.
  intros (t & r & -> & Ht) Hd. destruct d as [v p].
  destruct (Vga.write_string_spec t v p r Hd Ht) as (v' & p' & E & Hv & _). by exists (v', p').
Qed.

(** One more line of a command that prints, in a goal about its result. *)
Ltac print_line :=
  match goal with Hd : Vga.vga_wf (fst ?d) |- context [Shell.print ?l ?d ≫= _] =>
    let d' := fresh "d" in let E := fresh in let Hd' := fresh in
    destruct (print_total l d) as (d' & E & Hd'); [by first [assumption | apply shows_closed] | exact Hd |];
    rewrite E, bind_ret; clear E Hd; rename Hd' into Hd
  end.

Lemma help_total cs : Forall (fun c => shows c.1 /\ shows c.2) cs -> forall d : Vga.vga * P, Vga.vga_wf d.1 ->
  exists d', Shell.help_loop cs d = Ok d' /\ Vga.vga_wf d'.1.
Proof.
  induction 1 as [|[name help] cs [Hname Hhelp] _ IH]; intros d Hd; [by exists d|]. cbn [fst snd] in Hname, Hhelp.
  cbn [Shell.help_loop]. do 4 print_line. by apply IH.
Qed.

Lemma strs_shows t : shows (Shell.strs t).
Proof. apply shows_terminated. unfold Shell.strs. apply elem_of_app. right. by apply list_elem_of_here. Qed.

Lemma runs_help : runs (fun _ => True) (on_device Shell.cmd_help).
Proof.
  apply runs_device. intros d Hd. unfold Shell.cmd_help. do 2 print_line.
  destruct (help_total Shell.commands) with (d := d1) as (d2 & E & Hd2); [|done|].
  - unfold Shell.commands. apply Forall_fmap, Forall_true. intros [n h]. split; apply strs_shows.
  - rewrite E, bind_ret. by exists 0, d2.
Qed.

Lemma echo_total argc argv n : forall i (d : Vga.vga * P), args_ok argc argv -> 0 <= i -> argc <= i + Z.of_nat n -> Vga.vga_wf d.1 ->
  exists d', Shell.echo_loop n i argc argv d = Ok d' /\ Vga.vga_wf d'.1.
Proof.
  induction n as [|n IH]; intros i d Ha Hi Hn Hd; cbn [Shell.echo_loop]; destruct (Z.ltb_spec i argc); try (by exists d); [lia|].
  destruct (arg_at argc argv i Ha ltac:(lia)) as (a & E & Hok). rewrite E, bind_ret. pose proof (arg_shows _ Hok). print_line.
  destruct (i <? argc - 1); [print_line|rewrite bind_ret]; apply IH; done || lia.
Qed.

Lemma runs_echo argc argv : args_ok argc argv -> runs (fun _ => True) (on_device (Shell.cmd_echo argc argv)).
Proof.
  intros Ha. apply runs_device. intros d Hd. unfold Shell.cmd_echo.
  destruct (echo_total argc argv (Z.to_nat argc) 1 d Ha) as (d1 & E & Hd1); [lia|lia|done|].
  rewrite E, bind_ret. clear E Hd d. print_line. by eexists _, _.
Qed.

Lemma runs_clear : runs (fun _ => True) (on_device Shell.cmd_clear).
Proof.
  apply runs_device. intros [v p] [Hb Hx Hy]. unfold Shell.cmd_clear. cbn [fst snd].
  destruct (Vga.clear_screen_wf v p Hb) as (v' & q & E & [] & _). rewrite E, bind_ret. eexists _, _.
  split; [reflexivity|]. by constructor.
Qed.

Lemma runs_uptime t : runs (fun _ => True) (on_device (Shell.cmd_uptime t)).
Proof.
  apply runs_device. intros d Hd. unfold Shell.cmd_uptime. print_line.
  destruct (itoa_shows t (replicate 16 0) 10) as (b & E & _ & Hs); [by left|done|]. rewrite E, bind_ret.
  do 2 print_line. by eexists _, _.
Qed.

(** *** The table *)

(** The arrays on the stack, as long as the C code declares them. *)
Record locals_ok (k : locals) : Prop := {
  lk_octets : length (l_octets k) = 4%nat;
  lk_portstr : zlen (l_portstr k) = 6;
  lk_request : zlen (l_request k) = 512;
  lk_sector : zlen (l_sector k) = 512 /\ Forall is_u8 (l_sector k);
  lk_buf : zlen (l_buf k) = 32;
  lk_entries : length (l_entries k) = 224%nat /\
    Forall (fun x => length (FileSys.di_filename x) = 13%nat) (l_entries k);
  lk_buffer : zlen (l_buffer k) = 256;
  lk_info : length (FileSys.di_filename (l_info k)) = 13%nat
}.

Lemma command_runs fuel k command argc argv : locals_ok k -> args_ok argc argv -> 2 ^ 32 < Z.of_nat fuel ->
  0 <= command < zlen Shell.commands -> runs (fun _ => True) (run_command fuel k command argc argv).
Proof.
  intros [] Ha Hf Hc. change (zlen Shell.commands) with 22 in Hc.
  destruct (runs_servers argc argv Ha) as (Hhttp & Hdns & Hdhcp).
  assert (Hi : command ∈ seqZ 0 22) by (apply elem_of_seqZ; lia). vm_compute seqZ in Hi.
  repeat (apply elem_of_cons in Hi as [->|Hi]); [..|by apply not_elem_of_nil in Hi]; cbn [run_command].
  - apply runs_help.
  - by apply runs_echo.
  - apply runs_clear.
  - eapply runs_bind; [apply runs_getS|]. intros s _. apply runs_uptime.
  - by apply runs_ret.
  - apply runs_ifconfig.
  - by apply runs_ping.
  - walk.
  - walk.
  - walk.
  - exact Hhttp.
  - exact Hdns.
  - exact Hdhcp.
  - apply runs_wget; done || lia.
  - apply runs_disk; try apply lk_sector0; done || lia.
  - apply runs_ps. lia.
  - apply runs_kill; done || lia.
  - apply runs_ls; try apply lk_entries0; lia.
  - by apply runs_cat.
  - apply runs_file; done || lia.
  - apply runs_pipe. lia.
  - by apply runs_ui_cmd.
Qed.
End Commands.

(** ** Lines *)

(** Every line is typed with at most [n] keys, the first with what is left of them:
    the line feed comes before the buffer of 256 bytes is full. *)
Fixpoint fits (n : nat) (keys : list Z) : bool :=
  match keys with
  | [] => true
  | c :: keys =>
      if c =? 10 then fits 254 keys else
      match n with O => false | S n => fits n keys end
  end.

Definition no_feed (keys : list Z) : Prop := Forall (fun c => c <> 10) keys.

(** The next line and the lines after it, or no line yet. *)
Lemma fits_split keys : forall n, fits n keys = true ->
  (exists line rest, keys = line ++ 10 :: rest /\ no_feed line /\ (length line <= n)%nat /\ fits 254 rest = true) \/
  (no_feed keys /\ (length keys <= n)%nat).
Proof.
  induction keys as [|c keys IH]; intros n E; [right; split; [constructor|cbn; lia]|]. cbn [fits] in E.
  destruct (Z.eqb_spec c 10) as [->|Hc].
  - left. exists [], keys. split_and!; try done; [constructor|cbn; lia].
  - destruct n as [|n]; [done|]. destruct (IH n E) as [(line & rest & -> & Hl & Hn & Hr)|[Hl Hn]].
    + left. exists (c :: line), rest. split_and!; try done; [by constructor|cbn; lia].
    + right. split; [by constructor|cbn; lia].
Qed.

Lemma edited_feed keys : forall line, no_feed keys -> exists l, Shell.edited (keys ++ [10]) line = Some (l, []).
Proof.
  induction keys as [|c keys IH]; intros line Hn; [by exists line|]. apply Forall_cons in Hn as [Hc Hn].
  cbn [app Shell.edited]. rewrite (proj2 (Z.eqb_neq c 10)) by done.
  destruct (c =? 8); [by apply IH|]. destruct (Shell.key_text c); by apply IH.
Qed.

Lemma edited_length keys : forall line l left, Shell.edited keys line = Some (l, left) ->
  (length l <= length line + length keys)%nat.
Proof.
  induction keys as [|c keys IH]; intros line l left E; [done|]. cbn [Shell.edited] in E. cbn [length].
  destruct (c =? 10); [injection E as <- _; lia|].
  destruct (c =? 8); [|destruct (Shell.key_text c)]; apply IH in E; rewrite ?length_take, ?length_app in E; cbn [length] in E; lia.
Qed.

Lemma words_length l : Forall (fun w => (length w <= length l)%nat) (Shell.words l).
Proof.
  unfold Shell.words. assert (Hs : (length (Shell.split_space l).1 <= length l)%nat /\
    Forall (fun w => (length w <= length l)%nat) (Shell.split_space l).2).
  { induction l as [|c l [IH1 IH2]]; [done|]. cbn [Shell.split_space]. destruct (Shell.split_space l) as [w ws].
    cbn [fst snd] in *. assert (Hws : Forall (fun w => (length w <= length (c :: l))%nat) ws)
      by (eapply Forall_impl; [exact IH2|]; cbn; lia).
    destruct (isspace c); cbn [fst snd length]; (split; [lia|]); [|done]. constructor; [cbn; lia|done]. }
  destruct (Shell.split_space l) as [w ws]. destruct Hs as [Hw Hws]. apply Forall_forall.
  intros x [_ Hx]%list_elem_of_filter. revert x Hx. apply Forall_forall. by constructor.
Qed.

(** Keys behind the line do not matter to it. *)
Lemma read_line_more {P} `{Bus P} keys more : forall buffer pos (d : Vga.vga * P) r b left d',
  Shell.read_line keys buffer pos d = Ok (Some (r, b, left, d')) ->
  Shell.read_line (keys ++ more) buffer pos d = Ok (Some (r, b, left ++ more, d')).
Proof.
  induction keys as [|c keys IH]; intros buffer pos d r b left d' E; cbn [app Shell.read_line] in E |- *.
  - destruct (Shell.BUFFER_SIZE - 1 <=? pos) eqn:Ef; [|done]. injection E as <- <- <- <-.
    destruct more; cbn [Shell.read_line]; by rewrite Ef.
  - destruct (Shell.BUFFER_SIZE - 1 <=? pos); [by injection E as <- <- <- <-|].
    destruct (c =? 10).
    { apply res_bind_Ok in E as (b1 & -> & E). rewrite bind_ret. apply res_bind_Ok in E as (d1 & -> & E). rewrite bind_ret.
      by injection E as <- <- <- <-. }
    destruct (c =? 8); [destruct (0 <? pos); [|by apply IH]|destruct (_ && _); [|by apply IH]].
    + apply res_bind_Ok in E as (d1 & -> & E). rewrite bind_ret. by apply IH.
    + apply res_bind_Ok in E as (b1 & -> & E). rewrite bind_ret. apply res_bind_Ok in E as (d1 & -> & E). rewrite bind_ret.
      by apply IH.
Qed.

(** Without a line feed the editor waits. *)
Lemma read_line_waits {P} `{Bus P} keys : forall buffer pos (d : Vga.vga * P), Vga.vga_wf d.1 -> no_feed keys ->
  0 <= pos -> pos + zlen keys <= 254 -> zlen buffer = 256 -> Shell.read_line keys buffer pos d = Ok None.
Proof.
  induction keys as [|c keys IH]; intros buffer pos d Hd Hn Hp Hl Hb; cbn [Shell.read_line]; unfold Shell.BUFFER_SIZE.
  { change (zlen (@nil Z)) with 0 in Hl. by rewrite (proj2 (Z.leb_gt _ _)) by lia. }
  assert (Hz : zlen (c :: keys) = 1 + zlen keys) by (unfold zlen; cbn [length]; lia). pose proof (zlen_nonneg keys).
  apply Forall_cons in Hn as [Hc Hn]. rewrite (proj2 (Z.leb_gt _ _)), (proj2 (Z.eqb_neq c 10)) by done || lia.
  assert (Hch : forall ch, exists d', Vga.vga_write_char ch d.1 d.2 = Ok d' /\ Vga.vga_wf d'.1).
  { intros ch. destruct (Vga.write_char_spec ch d.1 d.2 Hd) as (v & E & Hv & _). eexists. by rewrite E. }
  destruct (c =? 8); [destruct (Z.ltb_spec 0 pos); [|apply IH; done || lia]|destruct (_ && _); [|apply IH; done || lia]].
  - destruct (Hch 8) as (d' & -> & Hd'). rewrite bind_ret. apply IH; done || lia.
  - rewrite wr_in, bind_ret by lia. destruct (Hch c) as (d' & -> & Hd'). rewrite bind_ret.
    apply IH; try done; rewrite ?zlen_insert; lia.
Qed.

Section Loop.
Context {D P : Type} `{BlockSafe D} `{Bus P}.
Context (stacks : Z).
Implicit Types (s : sys D P) (f : frame).

Definition more_keys (more : list Z) f : frame := Frame (f_keys f ++ more) (f_line f) (f_buffer f) (f_argv f).

Lemma turn_more fuel k f more s b f' s' : shell_turn fuel k f s = Ok (Turn b f', s') ->
  shell_turn fuel k (more_keys more f) s = Ok (Turn b (more_keys more f'), s').
Proof.
  intros E. unfold shell_turn in E |- *. apply M_bind_Ok in E as ([] & s0 & E0 & E). eapply M_run; [exact E0|].
  apply M_bind_Ok in E as (r & s1 & Er & E). unfold read_keys in Er.
  destruct (Shell.read_line _ _ 0 _) as [[[[[pos line] keys] [v p]]|]|] eqn:El; try discriminate Er;
    injection Er as <- <-; [|discriminate E].
  apply (read_line_more _ more) in El.
  eapply M_run; [unfold read_keys, more_keys; cbn [f_keys f_line]; rewrite El; reflexivity|]. cbv beta iota.
  apply M_bind_Ok in E as ([[act b1] a1] & s2 & E2 & E). eapply M_run; [exact E2|]. cbv beta iota zeta in E |- *.
  destruct act as [|name|c n args].
  - by injection E as <- <- <-.
  - do 3 (apply M_bind_Ok in E as (? & ? & ?E & E); eapply M_run; [eassumption|]). by injection E as <- <- <-.
  - apply M_bind_Ok in E as (? & ? & ?E & E). eapply M_run; [eassumption|]. by injection E as <- <- <-.
Qed.

(** One line, typed with at most 254 keys and its line feed. *)
Lemma turn_ok fuel k f line s : sys_ok stacks s -> locals_ok k -> frame_ok f -> f_keys f = line ++ [10] ->
  no_feed line -> (length line <= 254)%nat -> Forall is_u8 (f_keys f) -> 2 ^ 32 < Z.of_nat fuel ->
  exists b f' s', shell_turn fuel k f s = Ok (Turn b f', s') /\ sys_ok stacks s' /\ frame_ok f' /\ f_keys f' = [].
Proof.
  intros Hs Hk Hf Ek Hn Hl Hu Hfuel. destruct (edited_feed line [] Hn) as [l He].
  rewrite <- Ek in He.
  assert (Hkeys : Shell.line_fits (f_keys f) []).
  { eapply Shell.few_keys_fit; [exact He|]. rewrite Ek, zlen_app. unfold zlen. cbn [length]. lia. } pose proof (edited_clean _ _ _ _ Hu (Forall_nil_2 _) He) as Hclean.
  pose proof (edited_length _ _ _ _ He) as Hll. cbn [length] in Hll. rewrite Ek, length_app in Hll. cbn [length] in Hll.
  destruct (shell_turn_spec fuel k f l [] s (ok_screen _ _ Hs) Hf Hu Hkeys He) as (v & p & f' & Hv & Hf' & Hk' & Hline & _).
  assert (Hs1 : sys_ok stacks (set_console v p s)) by (by apply console_ok). unfold line_runs in Hline.
  pose proof (Shell.words_nul_free l Hclean) as Hwn. pose proof (words_length l) as Hwl.
  destruct (Shell.words l) as [|w ws] eqn:Ew; [by exists false, f', (set_console v p s)|].
  destruct (list_find _ Shell.command_names) as [[i n]|] eqn:Ei.
  2: { destruct Hline as (v' & p' & E & Hv' & _). exists false, f', (set_console v' p' (set_console v p s)).
    split; [exact E|]. by split; [apply console_ok|]. }
  apply list_find_Some in Ei as (Hi & _ & _). destruct Hline as (args & Hargs & E).
  rewrite <- Ew in Hargs, Hwn, Hwl, E. clear Ew. apply lookup_lt_Some in Hi. change (length Shell.command_names) with 22%nat in Hi.
  assert (Ha : args_ok (Z.min 16 (zlen (Shell.words l))) args).
  { split.
    - apply Forall_forall. intros a Ha. apply list_elem_of_lookup in Ha as [j Hj].
      destruct (Forall2_lookup_l _ _ _ _ _ Hargs Hj) as (x & Hx & rest & ->). exists x, rest. split; [done|].
      apply lookup_take_Some in Hx as [Hx _]. split; [by eapply Forall_lookup_1 in Hwn|].
      eapply Forall_lookup_1 in Hwl; [|exact Hx]. cbv beta in Hwl. unfold zlen in *. lia.
    - apply Forall2_length in Hargs. rewrite length_take in Hargs. unfold zlen. lia. }
  destruct (command_runs stacks fuel k (Z.of_nat i) _ args Hk Ha Hfuel) with (s := set_console v p s) as (r & s' & Er & Hs' & _);
    [change (zlen Shell.commands) with 22; lia|done|].
  exists (r =? -1), f', s'. split; [|done]. rewrite E. by eapply M_run; [exact Er|].
Qed.

Lemma turn_waits fuel k f s : sys_ok stacks s -> frame_ok f -> no_feed (f_keys f) -> (length (f_keys f) <= 254)%nat ->
  exists s', shell_turn fuel k f s = Ok (Waiting, s') /\ sys_ok stacks s'.
Proof.
  intros Hs [Hl _ _] Hn Hk. destruct (runs_say stacks "vlsos> " s Hs) as ([] & s1 & E & Hs1 & _). exists s1. split; [|done].
  unfold shell_turn. eapply M_run; [exact E|]. eapply (M_run _ _ _ None); [|reflexivity]. unfold read_keys.
  rewrite read_line_waits; try done; [apply Hs1|unfold zlen; lia].
Qed.

Lemma loop_ok turns fuel k : (forall t, locals_ok (k t)) -> 2 ^ 32 < Z.of_nat fuel -> forall f s,
  sys_ok stacks s -> frame_ok f -> Forall is_u8 (f_keys f) -> fits 254 (f_keys f) = true ->
  (length (f_keys f) < turns)%nat ->
  exists b s', shell_loop turns fuel k f s = Ok (b, s') /\ sys_ok stacks s'.
Proof.
  intros Hk Hfuel. induction turns as [|t IH]; intros f s Hs Hf Hu Hfit Ht; [lia|]. cbn [shell_loop].
  destruct (fits_split _ _ Hfit) as [(line & rest & Ek & Hn & Hl & Hrest)|[Hn Hl]].
  2: { destruct (turn_waits fuel (k t) f s Hs Hf Hn Hl) as (s' & E & Hs'). exists false, s'. split; [|done].
    by eapply M_run; [exact E|]. }
  set (f0 := Frame (line ++ [10]) (f_line f) (f_buffer f) (f_argv f)). rewrite Ek in Hu, Ht.
  apply Forall_app in Hu as [Hu1 Hu2]. apply Forall_cons in Hu2 as [_ Hu2].
  destruct (turn_ok fuel (k t) f0 line s) as (b & f1 & s1 & E & Hs1 & [Hf1 Hf2 Hf3] & Ek1); try done.
  { by destruct Hf. }
  { apply Forall_app. split; [done|]. by apply Forall_singleton. }
  apply (turn_more _ _ _ rest) in E. unfold more_keys in E. cbn [f0 f_keys f_line f_buffer f_argv] in E.
  rewrite <- app_assoc, Ek1 in E. cbn [app] in E. rewrite <- Ek in E.
  assert (Ef : Frame (f_keys f) (f_line f) (f_buffer f) (f_argv f) = f) by (by destruct f). rewrite Ef in E.
  destruct b; [exists true, s1; split; [by eapply M_run; [exact E|]|done]|].
  destruct (IH (Frame rest (f_line f1) (f_buffer f1) (f_argv f1)) s1) as (b & s2 & E2 & Hs2); try done.
  - cbn. rewrite length_app in Ht. cbn [length] in Ht. lia.
  - exists b, s2. split; [|done]. by eapply M_run; [exact E|].
Qed.
End Loop.

(** ** From the loader to the prompt *)

#[local] Existing Instance Disk.disk_blocks.
#[local] Existing Instance Disk.disk_safe.

Section Boot.
Context {A P : Type} `{Bus A} `{Bus P}.
Implicit Types (k : kernel A P).

(** The globals that [kmain] does not start, as the loader leaves them. *)
Record zeroed k : Prop := {
  ze_socks : quiet_socks (y_socks (k_sys k));
  ze_ui : Ui.ui_wf (y_ui (k_sys k))
}.

(** A booted system on which the file sizes of the root directory are sane is well. *)
Lemma up_ok stacks h k k' : up stacks h k' -> left_alone k k' -> zeroed k -> small_root (y_fs (k_sys k')) ->
  sys_ok stacks (k_sys k').
Proof.
  intros [Hv _ _ Hp _ [Hd Hdd] Hf Hpipes _] [Hnet _ _ _ Hu] [[Hl He Hi] Hui] Hr. injection Hnet as Hs _ _ Hn _ _ _.
  constructor; try done.
  - change (Disk.disks_wf (y_disk (k_sys k')).1). rewrite Hdd. exact (Disk.pb_len _ _ Hd).
  - split; [exact (Disk.pb_len _ _ Hd)|exact (Disk.pb_named _ _ Hd)].
  - by eexists.
  - constructor; [by rewrite Hs|by rewrite Hs|]. cbn in Hi |- *. by rewrite Hn.
  - by rewrite Hu.
Qed.

Lemma panic_ok stacks m k : sys_ok stacks (k_sys k) -> Forall (fun c => c <> 0) m ->
  exists k', in_sys (kernel_panic (m ++ [0])) k = Ok (tt, k') /\ sys_ok stacks (k_sys k').
Proof.
  intros Hk Hm. destruct (panic_in_kernel m k (ok_screen _ _ Hk) Hm) as (v & p & E & Hv & _).
  exists (with_console v p k). split; [exact E|]. by apply console_ok.
Qed.
End Boot.

(** ** A system at its prompt *)

(** The directory of an image, entry by entry. *)
Definition sizes_ok (cache : list Z) : bool :=
  forallb (fun i => match FileSys.dir_entry cache i with
                    | Ok e => (0 <=? FileSys.file_size e) && (FileSys.file_size e <=? 2 ^ 32 - 512)
                    | Err _ => true
                    end) (seqZ 0 224).

Lemma sizes_small cache s : FileSys.g_root_dir_cache s = Some cache -> zlen cache = FileSys.FS_ROOT_ENTRIES * 32 ->
  sizes_ok cache = true -> small_root s.
Proof.
  intros Hc Hl Hs c i e E He. rewrite Hc in E. injection E as <-.
  assert (Hi : 0 <= i < 224).
  { unfold FileSys.dir_entry in He. rewrite Hl in He. change (FileSys.FS_ROOT_ENTRIES * 32) with 7168 in He.
    destruct ((0 <=? 32 * i) && (32 * i + 32 <=? 7168)) eqn:Eg; [|discriminate He]. lia. }
  pose proof (seqZ_case _ 0 224 i Hs ltac:(lia)) as Hb. cbv beta in Hb. rewrite He in Hb. unfold small. lia.
Qed.

(** One drive that has given its name. *)
Definition ex_drives : Disk.disks :=
  let slot p := Disk.AtaDisk 1 80 2 18 2880 (replicate 40 32 ++ [0]) p in Disk.Disks [slot 1; slot 0; slot 0; slot 0] 1.

(** The file A.TXT on the disk, two user processes, no network. *)
Definition ex_quiet : sys ram unit :=
  Sys Vga.ex_vga tt FileSys.ex_disk ex_drives FileSys.ex_ready Process.ex_state (Ipc.ipc_init Ipc.ipc_boot)
    (Socket.boot_sockets (Net.Net [Net.ex_iface] 0 [] 0 FileSys.ex_heap [])) (Http.HttpServer 0 0 [] 0) (Dns.DnsServer 0 0)
    Dhcp.ex_srv Ui.ex_ui 7.

Lemma ex_sockets_quiet : quiet_socks (Socket.boot_sockets (Net.Net [Net.ex_iface] 0 [] 0 FileSys.ex_heap [])).
Proof.
  constructor; [done| |done]. change (Forall (fun x => Socket.buf_len x = 0) (replicate 16 Socket.blank_socket)).
  by apply Forall_replicate.
Qed.

Lemma ex_quiet_ok : @sys_ok ram unit _ _ 0x8000 ex_quiet.
Proof.
  constructor.
  - exact Vga.ex_vga_wf.
  - exact FileSys.ex_ready_wf.
  - by apply (sizes_small FileSys.ex_root); vm_compute.
  - done.
  - split; [done|]. change (Forall (fun k => Disk.is_present k -> 0 ∈ Disk.model k) (Disk.g_disks ex_drives)).
    repeat (apply Forall_cons; split; [intros _; apply (bool_decide_unpack _); vm_compute; exact I|]). constructor.
  - exact Process.ex_state_wf.
  - eexists. exact (Ipc.ipc_init_rel _ Ipc.ipc_boot_ok).
  - exact ex_sockets_quiet.
  - exact Ui.ex_ui_wf.
Qed.

Lemma ex_locals_ok : locals_ok ex_locals.
Proof.
  constructor; try done.
  - split; [done|]. change (l_sector ex_locals) with (replicate 512 0). by apply Forall_replicate.
  - split; [done|]. change (l_entries ex_locals) with (replicate 224 ex_info). by apply Forall_replicate.
Qed.

(** A session of five lines and the start of a sixth. *)
Definition ex_session : list Z :=
  chars "cat A.TXT" ++ [10] ++ chars "wget http://10.0.0.1/x" ++ [10] ++ chars "disk read 0 4294967295" ++ [10] ++
  chars "kill 1" ++ [10] ++ [10] ++ chars "ui o".
Definition ex_typing : frame := Frame ex_session (replicate 256 1) (replicate 256 1) (replicate 16 0).

Lemma ex_typing_ok : frame_ok ex_typing.
Proof. by constructor. Qed.
Lemma ex_session_u8 : Forall is_u8 ex_session.
Proof. apply (bool_decide_unpack _). vm_compute. exact I. Qed.

Lemma much_fuel : 2 ^ 32 < Z.of_nat (Z.to_nat (2 ^ 32 + 1)).
Proof. rewrite Z2Nat.id; [apply Z.lt_succ_diag_r|]. vm_compute. discriminate. Qed.

(** ** Properties *)

(** C7.  Whatever is typed at the prompt, line by line of at most 254 keys, on a system that is well
    (console, mounted or missing file system with no file of more than 2^32 - 512 bytes in its root directory, drives,
    processes, pipes, sockets without a network interface, user interface), no command faults: none reads or writes outside an
    array, follows a null pointer or divides by zero.  Every command returns, with 2^32 turns
    at most for a [cat], and the shell ends at [exit] or waits for the rest of a line, the
    system as well as before. *)
Theorem shell_never_faults {D P} `{BlockSafe D} `{Bus P} stacks turns fuel k f (s : sys D P) :
  sys_ok stacks s -> (forall t, locals_ok (k t)) -> frame_ok f -> Forall is_u8 (f_keys f) -> fits 254 (f_keys f) = true ->
  (length (f_keys f) < turns)%nat -> 2 ^ 32 < Z.of_nat fuel ->
  exists exited s', shell_loop turns fuel k f s = Ok (exited, s') /\ sys_ok stacks s'.
Proof. intros. by apply loop_ok. Qed.

Lemma shell_never_faults_witness :
  exists exited s', @shell_loop ram unit _ Vga.ex_bus 80 (Z.to_nat (2 ^ 32 + 1)) (fun _ => ex_locals) ex_typing ex_quiet
    = Ok (exited, s') /\ @sys_ok ram unit _ _ 0x8000 s'.
Proof.
  apply (@shell_never_faults ram unit _ _ Vga.ex_bus 0x8000 80 (Z.to_nat (2 ^ 32 + 1)) (fun _ => ex_locals) ex_typing ex_quiet
           ex_quiet_ok (fun _ => ex_locals_ok) ex_typing_ok ex_session_u8).
  - vm_compute. reflexivity.
  - apply Nat.ltb_lt. vm_compute. reflexivity.
  - exact much_fuel.
Defined.

(** C6.  The whole system, from the loader on: with any magic number, any answers of the ports
    and any lines of at most 254 keys, [kmain] runs without a fault until it has panicked or waits at
    the prompt, as long as the root directory it finds on the disk, if any, gives no file a size above 2^32 - 512
    (of such a file [cat] need not end, [FileSys.read_position_wraps]). *)
Theorem kmain_never_faults {A P} `{Bus A} `{Bus P} stacks h turns fuel kk f magic (k : kernel A P) :
  loaded stacks h k -> zeroed k ->
  (forall k', kmain_init stacks h MULTIBOOT_MAGIC k = Ok (true, k') -> small_root (y_fs (k_sys k'))) ->
  (forall t, locals_ok (kk t)) -> frame_ok f -> Forall is_u8 (f_keys f) -> fits 254 (f_keys f) = true ->
  (length (f_keys f) < turns)%nat -> 2 ^ 32 < Z.of_nat fuel ->
  exists fate k', kmain stacks h turns fuel kk f magic k = Ok (fate, k') /\
    (magic = MULTIBOOT_MAGIC -> sys_ok stacks (k_sys k')).
Proof.
  intros Hk Hz Hroot Hl Hf Hu Hfit Ht Hfuel. destruct (Z.eq_dec magic MULTIBOOT_MAGIC) as [->|Hm].
  2: { destruct (wrong_magic stacks h magic k (lo_screen _ _ _ Hk) Hm) as (k' & E & _). exists Halted, k'.
    split; [|done]. unfold kmain. by eapply M_run; [exact E|]. }
  destruct (boots_up stacks h k Hk) as (k1 & E1 & Hup & Hleft).
  pose proof (up_ok stacks h k k1 Hup Hleft Hz (Hroot k1 E1)) as Hs1.
  set (s0 := set_console (Vga.vga_set_color 7 0 (y_vga (k_sys k1))) (y_ports (k_sys k1)) (k_sys k1)).
  assert (Hs0 : sys_ok stacks s0) by (apply console_ok; [done|]; destruct (ok_screen _ _ Hs1); by constructor).
  destruct (loop_ok stacks turns fuel kk Hl Hfuel f s0 Hs0 Hf Hu Hfit Ht) as (b & s2 & E2 & Hs2).
  set (k2 := Kernel s2 (k_idt k1)).
  assert (Emain : in_sys (shell_main turns fuel kk f) k1 = Ok (b, k2)).
  { apply (zoom_run k_sys (fun s k => Kernel s (k_idt k)) _ k1 b s2). unfold shell_main.
    eapply M_run; [reflexivity|]. exact E2. }
  destruct b.
  - destruct (panic_ok stacks (chars "Shell exited unexpectedly!") k2 Hs2) as (k3 & E3 & Hs3);
      [by apply (bool_decide_unpack _); vm_compute|].
    exists Halted, k3. split; [|done]. unfold kmain. eapply M_run; [exact E1|]. eapply M_run; [exact Emain|].
    eapply M_run; [exact E3|]. done.
  - exists AtPrompt, k2. split; [|done]. unfold kmain. eapply M_run; [exact E1|]. by eapply M_run; [exact Emain|].
Qed.

Lemma ex_zeroed : zeroed ex_kernel.
Proof. constructor; [exact ex_sockets_quiet|exact Ui.ex_ui_wf]. Qed.

(** No drive answers, so the cache is what the heap held. *)
Lemma ex_boot_sizes :
  match @kmain_init unit unit Vga.ex_bus Vga.ex_bus 0x8000 Devices.ex_stubs MULTIBOOT_MAGIC ex_kernel with
  | Ok (_, k') => match FileSys.g_root_dir_cache (y_fs (k_sys k')) with
                  | Some c => (zlen c =? FileSys.FS_ROOT_ENTRIES * 32) && sizes_ok c = true
                  | None => True
                  end
  | Err _ => True
  end.
Proof. vm_compute. reflexivity. Qed.

Lemma kmain_never_faults_witness :
  exists fate k', @kmain unit unit Vga.ex_bus Vga.ex_bus 0x8000 Devices.ex_stubs 80 (Z.to_nat (2 ^ 32 + 1)) (fun _ => ex_locals)
      ex_typing MULTIBOOT_MAGIC ex_kernel = Ok (fate, k') /\
    (MULTIBOOT_MAGIC = MULTIBOOT_MAGIC -> @sys_ok (Disk.disks * unit) unit _ (Disk.disk_safe (H := Vga.ex_bus)) 0x8000 (k_sys k')).
Proof.
  apply (@kmain_never_faults unit unit Vga.ex_bus Vga.ex_bus 0x8000 Devices.ex_stubs 80 (Z.to_nat (2 ^ 32 + 1))
           (fun _ => ex_locals) ex_typing MULTIBOOT_MAGIC ex_kernel ex_loaded ex_zeroed).
  - intros k' E. pose proof ex_boot_sizes as Hb. rewrite E in Hb.
    destruct (FileSys.g_root_dir_cache (y_fs (k_sys k'))) as [c|] eqn:Ec; [|by intros ? ? ? Hc; rewrite Ec in Hc].
    apply andb_prop in Hb as [Hl Hb]. by apply (sizes_small c); [|apply Z.eqb_eq|].
  - intros _. exact ex_locals_ok.
  - exact ex_typing_ok.
  - exact ex_session_u8.
  - vm_compute. reflexivity.
  - apply Nat.ltb_lt. vm_compute. reflexivity.
  - exact much_fuel.
Defined.
