(* ===== verification/Texts.v ===== *)
(** * What [ls], [file], [pipe] and [disk read] leave on the screen *)
(** The commands of [src/net/netcmd.c] that show what another component
    holds, composed with it: the root directory of [FileSys] entry by entry, the file
    a name stands for, two words through a pipe of [Ipc], and a sector of the medium. *)

From Stdlib Require Import String.
From S2P Require Import Prelude Memory CString Block Ports Netcmd.
From S2P Require Vga Process Ipc FileSys Disk Net Socket Dns Dhcp Http Ui.

(** ** The directory as a list *)

Section Directory.
Import FileSys.

(** The entries a listing shows, from entry [i] on: neither deleted nor the label
    of the volume, up to the end mark. *)
Fixpoint directory (n : nat) (cache : list Z) (i : Z) : list fs_dir_entry_t :=
  match n with
  | O => []
  | S n =>
      match dir_entry cache i with
      | Ok e =>
          if hd 0 (filename e) =? 0 then [] else
          if (hd 0 (filename e) =? 0xE5) || negb (Z.land (attributes e) FS_ATTR_VOLUME =? 0)
          then directory n cache (i + 1) else e :: directory n cache (i + 1)
      | Err _ => []
      end
  end.

(** What [fs_list_dir] and [fs_get_file_info] tell of an entry. *)
Record describes (e : fs_dir_entry_t) (x : fs_dir_info_t) : Prop := {
  ds_name : exists r, di_filename x = cstr (entry_name e) r /\ nul_free (entry_name e);
  ds_attributes : di_attributes x = attributes e;
  ds_size : di_file_size x = file_size e;
  ds_cluster : di_start_cluster x = low_cluster e
}.

Lemma fill_describes e inf : entry_ok e -> length (di_filename inf) = 13%nat ->
  exists x, fill_info e inf = Ok x /\ describes e x.
Proof.
  intros He Hl. unfold fill_info. rewrite build_name_spec, bind_ret by done. eexists. split; [reflexivity|].
  constructor; try done. cbn [di_filename].
  destruct (built_cstr e (drop (S (length (text83 e))) (di_filename inf)) He) as (r & -> & Hn). by exists r.
Qed.

Lemma list_from_directory cache n : root_ok cache -> forall pre rest i max, 0 <= i -> i + Z.of_nat n = FS_ROOT_ENTRIES ->
  (n <= length rest)%nat -> zlen pre + Z.of_nat n <= max ->
  Forall (fun x => length (di_filename x) = 13%nat) rest ->
  exists xs rest', list_from n cache (pre ++ rest) max (zlen pre) i =
      Ok (zlen pre + zlen (directory n cache i), pre ++ xs ++ rest') /\ Forall2 describes (directory n cache i) xs.
Proof.
  intros Hr. induction n as [|n IH]; intros pre rest i max Hi Hn Hrest Hmax He; cbn [list_from directory].
  { exists [], rest. change (zlen (@nil fs_dir_entry_t)) with 0. rewrite Z.add_0_r. by split. }
  assert (Hstop : exists xs rest', Ok (zlen pre, pre ++ rest) = Ok (zlen pre + zlen (@nil fs_dir_entry_t), pre ++ xs ++ rest') /\
    Forall2 describes [] xs).
  { exists [], rest. change (zlen (@nil fs_dir_entry_t)) with 0. rewrite Z.add_0_r. by split. }
  rewrite (proj2 (Z.leb_gt _ _)) by lia.
  destruct (dir_entry_spec cache i Hr) as (e & -> & Hok); [unfold FS_ROOT_ENTRIES in *; lia|]. rewrite bind_ret.
  pose proof Hok as [[Hfl _] _ _ _ _]. destruct (filename e) as [|c0 fn] eqn:Efn; [discriminate Hfl|].
  change (rd (c0 :: fn) 0) with (Ok c0). rewrite bind_ret. cbn [hd]. destruct (c0 =? 0); [exact Hstop|].
  destruct (_ || _); [apply IH; done || lia|].
  destruct rest as [|inf rest]; [cbn in Hrest; lia|]. apply Forall_cons in He as [Hinf He]. rewrite rd_mid, bind_ret.
  destruct (fill_describes e inf Hok Hinf) as (x & -> & Hx). rewrite bind_ret, wr_mid, bind_ret.
  assert (Hz : zlen (pre ++ [x]) = zlen pre + 1) by (rewrite zlen_app; done).
  change (pre ++ x :: rest) with (pre ++ [x] ++ rest). rewrite app_assoc, <- Hz.
  destruct (IH (pre ++ [x]) rest (i + 1) max) as (xs & rest' & E & Hxs); try done; try (cbn in Hrest; lia).
  exists (x :: xs), rest'. rewrite E, <- app_assoc. split; [|by constructor]. do 2 f_equal.
  rewrite Hz. unfold zlen. cbn [length]. lia.
Qed.

Lemma directory_length cache n : forall i, zlen (directory n cache i) <= Z.of_nat n.
Proof.
  unfold zlen. induction n as [|n IH]; intros i; [done|]. cbn [directory]. destruct (dir_entry cache i); [|cbn; lia].
  specialize (IH (i + 1)). repeat case_if; cbn [length]; lia.
Qed.
End Directory.

(** ** Numbers of any sign *)

(** A number that [itoa] can negate. *)
Definition printable (v : Z) : Prop := i32 v <> - 2 ^ 31.

Lemma number_text {D P} `{Bus P} v buf base (s : sys D P) : base = 10 \/ base = 16 -> Vga.vga_wf (y_vga s) ->
  printable v -> 12 <= zlen buf ->
  prints (fun b => zlen b = zlen buf /\ exists r, b = cstr (itoa_text (i32 v) base) r) (number v buf base)
    (itoa_text (i32 v) base) s.
Proof.
  intros Hbase Hw Hv Hb. unfold printable in Hv. set (x := i32 v) in *.
  assert (Hx : - 2 ^ 31 < x < 2 ^ 31) by (unfold x, i32 in *; lia).
  assert (Hl : zlen (itoa_text x base) <= 11).
  { destruct Hbase as [-> | ->].
    - pose proof (itoa_text_digits x 10 10 ltac:(lia) ltac:(lia) ltac:(change (10 ^ Z.of_nat 10) with 10000000000; lia)).
      destruct (x <? 0); lia.
    - pose proof (itoa_text_digits x 16 8 ltac:(lia) ltac:(lia) ltac:(change (16 ^ Z.of_nat 8) with 4294967296; lia)).
      destruct (x <? 0); lia. }
  unfold number. fold x. eapply prints_lift; [apply itoa_spec; lia|]. apply prints_nil_r.
  eapply prints_bind; [apply prints_write; [done|apply itoa_text_clean; lia]|]. intros. apply prints_ret; [done|].
  split; [|by eexists]. unfold zlen in *. rewrite length_app. cbn [length]. rewrite length_drop. lia.
Qed.

Lemma clean_nul_free t : nul_free t -> Forall (fun c => c <> 0) t.
Proof. intros Ht. eapply Forall_impl; [exact Ht|by intros ? []]. Qed.

(** The cached root directory, once [fs_init] has succeeded. *)
Definition mounted (f : FileSys.fs) : option (list Z) :=
  if FileSys.g_fs_initialized f =? 0 then None else FileSys.g_root_dir_cache f.

(** ** [ls] *)

Definition ls_row (e : FileSys.fs_dir_entry_t) : list Z :=
  padded (FileSys.entry_name e) 16 ++ padded (itoa_text (i32 (FileSys.file_size e)) 10) 9 ++
  (if Z.land (FileSys.attributes e) FS_ATTR_DIRECTORY =? 0 then chars "-" else chars "<DIR>") ++ [10].

Definition ls_text (es : list FileSys.fs_dir_entry_t) : list Z :=
  chars "NAME             SIZE      ATTR" ++ [10] ++ chars "================ ========= ======" ++ [10] ++
  concat (ls_row <$> es) ++ [10] ++ chars "Total: " ++ itoa_text (zlen es) 10 ++ chars " entries" ++ [10].

Section Ls.
Context {D P : Type} `{Bus P}.
Implicit Types (s : sys D P).

Lemma entries_print es : forall xs pre rest buf s, Vga.vga_wf (y_vga s) -> Forall2 describes es xs ->
  Forall (fun e => printable (FileSys.file_size e)) es -> 12 <= zlen buf ->
  prints (fun b => zlen b = zlen buf) (list_entries (length es) (pre ++ xs ++ rest) (zlen pre) buf)
    (concat (ls_row <$> es)) s.
Proof.
  induction es as [|e es IH]; intros xs pre rest buf s Hw Hxs Hp Hb.
  { apply Forall2_nil_inv_l in Hxs as ->. by apply prints_ret. }
  apply Forall2_cons_inv_l in Hxs as (x & xs' & [(r & Hname & Hnf) Hat Hsz _] & Hxs & ->). apply Forall_cons in Hp as [Hp1 Hp].
  cbn [length list_entries fmap list_fmap concat app]. eapply prints_lift; [apply rd_app_mid|].
  rewrite Hname, Hat, Hsz. pose proof (clean_nul_free _ Hnf) as Hc. unfold ls_row at 1, padded. rewrite <- !app_assoc.
  eapply prints_bind; [by apply prints_write|]. intros _ ? ? _ ?.
  eapply prints_bind; [by apply pad_prints|]. intros _ ? ? _ ?.
  eapply prints_bind; [apply number_text; [by left|done..]|]. intros b ? ? (Hz & r1 & ->) ?.
  eapply prints_bind; [apply pad_prints; [done|by apply itoa_text_clean]|]. intros _ ? ? _ ?.
  eapply (prints_bind (fun _ => True)).
  { destruct (_ =? 0); cbn [negb]; by apply prints_say. }
  intros _ ? ? _ ?. eapply prints_bind; [by apply prints_put|]. intros _ ? ? _ ?.
  assert (Hpre : zlen pre + 1 = zlen (pre ++ [x])) by (rewrite zlen_app; done).
  rewrite Hpre, cons_middle, (assoc_L app). rewrite <- Hz.
  apply IH; done || lia.
Qed.

Lemma ls_mounted cache entries buf s : Vga.vga_wf (y_vga s) -> FileSys.root_ok cache ->
  FileSys.g_fs_initialized (y_fs s) <> 0 -> FileSys.g_root_dir_cache (y_fs s) = Some cache -> length entries = 224%nat ->
  Forall (fun x => length (FileSys.di_filename x) = 13%nat) entries -> zlen buf = 32 ->
  Forall (fun e => printable (FileSys.file_size e)) (directory 224 cache 0) ->
  prints (fun r => r = 0) (cmd_ls entries buf) (ls_text (directory 224 cache 0)) s.
Proof.
  intros Hw Hroot Hi Ec Hl He Hb Hp. unfold cmd_ls.
  destruct (list_from_directory cache 224 Hroot [] entries 0 FileSys.FS_ROOT_ENTRIES) as (xs & rest & E & Hxs); try done; try lia.
  cbn [app] in E. change (zlen (@nil FileSys.fs_dir_info_t)) with 0 in E. rewrite Z.add_0_l in E.
  pose proof (directory_length cache 224 0) as Hn. set (es := directory 224 cache 0) in *. pose proof (zlen_nonneg es).
  assert (Hc : i32 (zlen es) = zlen es) by (apply i32_id; unfold is_i32; lia).
  eapply prints_query; [reflexivity|]. eapply prints_lift.
  { unfold FileSys.fs_list_dir. rewrite (proj2 (Z.eqb_neq _ _) Hi), Ec. change (Z.to_nat FileSys.FS_ROOT_ENTRIES) with 224%nat.
    rewrite E, bind_ret. reflexivity. }
  cbv beta iota. rewrite (proj2 (Z.ltb_ge _ _)) by lia. change (default [] (Some (xs ++ rest))) with (xs ++ rest).
  unfold ls_text. rewrite (app_assoc (chars "NAME             SIZE      ATTR")). print_step idtac.
  rewrite (app_assoc (chars "================ ========= ======")). print_step idtac.
  replace (Z.to_nat (zlen es)) with (length es) by (unfold zlen; lia).
  eapply prints_bind; [apply (entries_print es xs [] rest); done || lia|]. intros b ? ? Hz ?. cbv beta in Hz.
  rewrite (app_assoc [10]). eapply prints_bind; [by apply (prints_text ([10] ++ chars "Total: ") [])|]. intros _ ? ? _ ?.
  rewrite <- Hc at 2. eapply prints_bind; [apply number_text; [by left|done|unfold printable; rewrite Hc; lia|lia]|].
  intros ? ? ? _ ?. apply prints_nil_r. eapply prints_bind; [by apply prints_sayln|]. intros. by apply prints_ret.
Qed.
End Ls.

(** ** [file] *)

Definition file_text (e : FileSys.fs_dir_entry_t) : list Z :=
  chars "File: " ++ FileSys.entry_name e ++ [10] ++
  chars "Size: " ++ itoa_text (i32 (FileSys.file_size e)) 10 ++ chars " bytes" ++ [10] ++
  chars "Start cluster: " ++ itoa_text (FileSys.low_cluster e) 10 ++ [10] ++
  chars "Attributes: " ++ itoa_text (FileSys.attributes e) 16 ++ [10].

(** ** [pipe] *)

Section Pipe.
Context {D P : Type} `{Bus P}.
Implicit Types (s : sys D P).

(** [m] writes [t] and leaves the system as [y], but for the console. *)
Definition leaves {A} (Q : A -> Prop) (m : M (sys D P) A) (t : list Z) (y s : sys D P) : Prop :=
  exists a v p, m s = Ok (a, set_console v p y) /\ Q a /\ Vga.vga_wf v /\
    Vga.term_of v = Vga.Term.write t (Vga.term_of (y_vga s)).

Lemma leaves_prints {A} (Q : A -> Prop) m t y s : prints Q m t s ->
  (forall v p, set_console v p s = set_console v p y) -> leaves Q m t y s.
Proof. intros (a & v & p & E & Hr) Hy. exists a, v, p. by rewrite E, Hy. Qed.

Lemma leaves_bind {A B} (Q : A -> Prop) (R : B -> Prop) m (f : A -> M (sys D P) B) t1 t2 y1 y s : leaves Q m t1 y1 s ->
  (forall a v p, Q a -> Vga.vga_wf v -> leaves R (f a) t2 y (set_console v p y1)) -> leaves R (m ≫= f) (t1 ++ t2) y s.
Proof.
  intros (a & v & p & E & Hq & Hw & Ht) Hf. destruct (Hf a v p Hq Hw) as (b & v' & p' & E' & Hr & Hw' & Ht').
  exists b, v', p'. split; [by eapply M_run; [exact E|]|]. split; [done|]. split; [done|].
  rewrite term_write_app, <- Ht. exact Ht'.
Qed.

Lemma leaves_after {A B} (Q : A -> Prop) (R : B -> Prop) m (f : A -> M (sys D P) B) t1 t2 y s : prints Q m t1 s ->
  (forall a v p, Q a -> Vga.vga_wf v -> leaves R (f a) t2 y (set_console v p s)) -> leaves R (m ≫= f) (t1 ++ t2) y s.
Proof. intros Hm. eapply leaves_bind. by apply leaves_prints. Qed.

(** The target counts up to the console. *)
Lemma leaves_console {A} (Q : A -> Prop) (m : M (sys D P) A) t y y' s : leaves Q m t y s ->
  (forall v p, set_console v p y = set_console v p y') -> leaves Q m t y' s.
Proof. intros (a & v & p & E & Hr) Hy. exists a, v, p. by rewrite E, Hy. Qed.

(** A step of another component. *)
Lemma leaves_step {A B} (R : B -> Prop) (m : M (sys D P) A) (f : A -> M (sys D P) B) a s1 t y s :
  m s = Ok (a, s1) -> y_vga s1 = y_vga s -> leaves R (f a) t y s1 -> leaves R (m ≫= f) t y s.
Proof.
  intros E Hv (b & v & p & E' & Hq & Hw & Ht). exists b, v, p. split; [by eapply M_run; [exact E|]|].
  by rewrite <- Hv.
Qed.

Lemma leaves_ipc {A B} (R : B -> Prop) (g : M Ipc.ipc A) (f : A -> M (sys D P) B) a i1 t y s :
  g (y_ipc s) = Ok (a, i1) -> leaves R (f a) t y (set_ipc i1 s) -> leaves R (on_ipc g ≫= f) t y s.
Proof. intros E. eapply leaves_step; [by apply zoom_run|done]. Qed.

Lemma leaves_query {A B} (R : B -> Prop) (m : M (sys D P) A) (f : A -> M (sys D P) B) a t y s :
  m s = Ok (a, s) -> leaves R (f a) t y s -> leaves R (m ≫= f) t y s.
Proof. intros E. by eapply leaves_step. Qed.

Lemma leaves_lift {A B} (R : B -> Prop) (r : res A) a (f : A -> M (sys D P) B) t y s :
  r = Ok a -> leaves R (f a) t y s -> leaves R (liftR r ≫= f) t y s.
Proof. intros ->. by eapply leaves_step. Qed.

Lemma current_pid_run stk q : Process.proc_wf stk q ->
  exists x, forall s, y_proc s = q -> current_pid s = Ok (x, s).
Proof.
  intros [Hwf (p & Hp & _)]. exists (Process.pid p). intros s Hq. unfold current_pid. eapply M_run; [reflexivity|]. cbv beta.
  rewrite Hq, (Process.current_spec _ _ Hwf). eapply lift_run; [apply Process.slot_Ok; exact Hp|]. done.
Qed.
End Pipe.

(** ** [disk read] *)

(** One byte of a dump, with the heading of its row before every sixteenth. *)
Definition hex_cell (i b : Z) : list Z :=
  (if i mod 16 =? 0 then [10] ++ chars "0x" ++ itoa_text i 16 ++ chars ": " else []) ++
  (if b <? 16 then [48] else []) ++ itoa_text b 16 ++ [32].

Fixpoint hex_text (i : Z) (l : list Z) : list Z :=
  match l with [] => [] | b :: l => hex_cell i b ++ hex_text (i + 1) l end.

Definition sector_text (lba : Z) (sector : list Z) : list Z :=
  chars "Sector 0x" ++ itoa_text lba 16 ++ chars " (" ++ itoa_text lba 10 ++ chars "):" ++ [10] ++
  hex_text 0 (take 256 sector) ++ [10].

Section Dump.
Context {D P : Type} `{Bus P}.
Implicit Types (s : sys D P).

(** A number below 2^31 is shown as it is. *)
Lemma small_text v buf base s : base = 10 \/ base = 16 -> Vga.vga_wf (y_vga s) -> 0 <= v < 2 ^ 31 -> 12 <= zlen buf ->
  prints (fun b => zlen b = zlen buf) (number v buf base) (itoa_text v base) s.
Proof.
  intros Hbase Hw Hv Hb. assert (Hi : i32 v = v) by (apply i32_id; unfold is_i32; lia).
  destruct (number_text v buf base s Hbase Hw) as (b & v' & p & E & [Hz _] & Hw' & Ht); [unfold printable; lia|done|].
  rewrite Hi in Ht. by exists b, v', p.
Qed.

Lemma dump_prints l : forall pre rest buf s, Vga.vga_wf (y_vga s) -> Forall is_u8 l -> zlen pre + zlen l < 2 ^ 31 -> 12 <= zlen buf ->
  prints (fun b => zlen b = zlen buf) (hex_dump (length l) (zlen pre) (pre ++ l ++ rest) buf) (hex_text (zlen pre) l) s.
Proof.
  induction l as [|b l IH]; intros pre rest buf s Hw Hu Hl Hb; [by apply prints_ret|]. apply Forall_cons in Hu as [Hub Hu].
  pose proof (zlen_nonneg pre). assert (Hz : zlen (b :: l) = zlen l + 1) by (unfold zlen; cbn [length]; lia). pose proof (zlen_nonneg l).
  unfold is_u8 in Hub. cbn [length hex_dump hex_text]. unfold hex_cell. rewrite <- !app_assoc.
  eapply (prints_bind (fun b => zlen b = zlen buf)).
  { destruct (_ =? 0); [|by apply prints_ret]. rewrite (app_assoc [10]).
    eapply prints_bind; [by apply (prints_text ([10] ++ chars "0x") [])|]. intros _ ? ? _ ?.
    eapply prints_bind; [apply small_text; [by right|done|lia|done]|]. intros b1 ? ? Hb1 ?.
    apply prints_nil_r. eapply prints_bind; [by apply prints_say|]. intros. by apply prints_ret. }
  intros b1 ? ? Hb1 ?. cbv beta in Hb1.
  eapply prints_lift; [apply rd_app_mid|].
  eapply (prints_bind (fun _ => True)). { destruct (b <? 16); [by apply prints_put|by apply prints_ret]. }
  intros _ ? ? _ ?. eapply prints_bind; [apply small_text; [by right|done|lia|lia]|]. intros b2 ? ? Hb2 ?.
  eapply prints_bind; [by apply prints_put|]. intros _ ? ? _ ?.
  assert (Hpre : zlen pre + 1 = zlen (pre ++ [b])) by (rewrite zlen_app; done).
  change (pre ++ (b :: l) ++ rest) with (pre ++ [b] ++ l ++ rest). rewrite Hpre, (assoc_L app pre [b]). cbv beta in Hb2. replace (zlen buf) with (zlen b2) by lia. apply IH; try done; rewrite ?zlen_app; change (zlen [b]) with 1; lia.
Qed.

Lemma sector_prints lba sector buf s : Vga.vga_wf (y_vga s) -> 0 <= lba < 2 ^ 31 -> length sector = 512%nat -> Forall is_u8 sector ->
  zlen buf = 32 ->
  prints (fun r => r = 0) (say "Sector 0x" ;; buf ← number lba buf 16; say " (" ;; buf ← number lba buf 10; sayln "):" ;;
    hex_dump 256 0 sector buf ;; write [10; 0] ;; mret 0) (sector_text lba sector) s.
Proof.
  intros Hw Hl Hs Hu Hb. unfold sector_text.
  eapply prints_bind; [by apply prints_say|]. intros _ ? ? _ ?.
  eapply prints_bind; [apply small_text; [by right|done|lia|lia]|]. intros b1 ? ? Hb1 ?.
  eapply prints_bind; [by apply prints_say|]. intros _ ? ? _ ?.
  eapply prints_bind; [apply small_text; [by left|done|lia|cbv beta in Hb1; lia]|]. intros b2 ? ? Hb2 ?. cbv beta in Hb1, Hb2.
  rewrite (app_assoc (chars "):")). eapply prints_bind; [by apply prints_sayln|]. intros _ ? ? _ ?.
  assert (H256 : length (take 256 sector) = 256%nat) by (rewrite length_take; lia).
  eapply prints_bind.
  { rewrite <- H256 at 1. rewrite <- (take_drop 256 sector) at 2. apply (dump_prints _ []); try done; [by apply Forall_take|unfold zlen; rewrite H256; done|lia]. }
  intros _ ? ? _ ?. apply prints_nil_r. eapply prints_bind; [by apply prints_newline|]. intros. by apply prints_ret.
Qed.

Lemma arg_decide t name r s : nul_free t -> bool_decide (nul_free (chars name)) = true ->
  arg_is (D := D) (P := P) (cstr t r) name s = Ok (bool_decide (t = chars name), s).
Proof.
  intros Ht Hn. unfold arg_is. destruct (strcmp_cstr t (chars name) r [] Ht (bool_decide_eq_true_1 _ Hn)) as (k & E & Hk).
  change (cstr (chars name) []) with (lit name) in E. eapply lift_run; [exact E|].
  change (Ok (k =? 0, s) = Ok (bool_decide (t = chars name), s)). do 2 f_equal.
  destruct (Z.eqb_spec k 0); symmetry; [apply bool_decide_eq_true_2|apply bool_decide_eq_false_2]; tauto.
Qed.
End Dump.

(** The operations on an open pipe, as the abstract channel has them. *)
Section Channel.
Import Ipc.
Context (i : ipc) (a : Fifo.state) (id : Z).
Hypothesis HR : pipes_rel i a.

Lemma write_open l w : zget a id = Some (Some l) -> zlen l < 256 ->
  exists i', ipc_pipe_write id w i = Ok (0, i') /\ pipes_rel i' (<[Z.to_nat id := Some (l ++ [w])]> a).
Proof.
  intros Hz Hl. destruct (pipe_step_refines (PWrite id w) i a HR) as (i' & E & R'). cbn [pipe_step fifo_step] in E, R'.
  unfold Fifo.write in E, R'. rewrite Hz, (proj2 (Z.ltb_lt _ _) Hl) in E, R'. cbn [fst snd] in E, R'.
  apply res_bind_Ok in E as ([r j] & E & E'). injection E' as -> ->. by exists i'.
Qed.

Lemma read_open l w old : zget a id = Some (Some (w :: l)) ->
  exists i', ipc_pipe_read id (Some old) i = Ok (0, Some w, i') /\ pipes_rel i' (<[Z.to_nat id := Some l]> a).
Proof.
  intros Hz. destruct (pipe_step_refines (PRead id old) i a HR) as (i' & E & R'). cbn [pipe_step fifo_step] in E, R'.
  unfold Fifo.read in E, R'. rewrite Hz in E, R'. by exists i'.
Qed.

Lemma close_open l : zget a id = Some (Some l) ->
  exists i', ipc_pipe_close id i = Ok (0, i') /\ pipes_rel i' (<[Z.to_nat id := None]> a).
Proof.
  intros Hz. destruct (pipe_step_refines (PClose id) i a HR) as (i' & E & R'). cbn [pipe_step fifo_step] in E, R'.
  unfold Fifo.close in E, R'. rewrite Hz in E, R'. cbn [fst snd] in E, R'.
  apply res_bind_Ok in E as ([r j] & E & E'). injection E' as -> ->. by exists i'.
Qed.
End Channel.

Lemma create_full owner i i1 : Ipc.ipc_pipe_create owner i = Ok (-1, i1) -> i1 = i.
Proof.
  unfold Ipc.ipc_pipe_create. intros (id & _ & E)%res_bind_Ok. destruct (id <? 0) eqn:Hid; [by injection E as <-|].
  apply res_bind_Ok in E as (p & _ & E). apply res_bind_Ok in E as (ps & _ & E). injection E as -> _. done.
Qed.

(** The whole life of a pipe: what two writes put in, two reads take out. *)
Lemma pipe_life i a k x owner w1 w2 old1 old2 : Ipc.pipes_rel i a -> list_find (fun x => x = None) a = Some (k, x) ->
  exists i1 i2 i3 i4 i5 i6, let id := Z.of_nat k in
    Ipc.ipc_pipe_create owner i = Ok (id, i1) /\ Ipc.ipc_pipe_write id w1 i1 = Ok (0, i2) /\
    Ipc.ipc_pipe_write id w2 i2 = Ok (0, i3) /\ Ipc.ipc_pipe_read id (Some old1) i3 = Ok (0, Some w1, i4) /\
    Ipc.ipc_pipe_read id (Some old2) i4 = Ok (0, Some w2, i5) /\ Ipc.ipc_pipe_close id i5 = Ok (0, i6) /\
    Ipc.pipes_rel i6 a.
Proof.
  intros HR Hk. pose proof (proj1 (list_find_Some _ _ _ _) Hk) as (Hak & -> & _). apply lookup_lt_Some in Hak as Hlt.
  destruct (Ipc.create_refines i a owner HR) as (i1 & E1 & R1). unfold Ipc.Fifo.create in E1, R1. rewrite Hk in E1, R1.
  cbn [fst snd] in E1, R1. set (id := Z.of_nat k) in *. assert (Hid : k = Z.to_nat id) by lia. rewrite Hid in R1, Hak.
  assert (Hz : forall (b : Ipc.Fifo.state) y, length b = length a -> zget (<[Z.to_nat id := y]> b) id = Some y)
    by (intros b y Hb; apply zget_insert_eq; unfold zlen; lia).
  destruct (write_open i1 _ id R1 [] w1 (Hz _ _ eq_refl) ltac:(done)) as (i2 & E2 & R2). rewrite list_insert_insert_eq in R2.
  destruct (write_open i2 _ id R2 [w1] w2 (Hz _ _ eq_refl) ltac:(done)) as (i3 & E3 & R3). rewrite list_insert_insert_eq in R3.
  destruct (read_open i3 _ id R3 [w2] w1 old1 (Hz _ _ eq_refl)) as (i4 & E4 & R4). rewrite list_insert_insert_eq in R4.
  destruct (read_open i4 _ id R4 [] w2 old2 (Hz _ _ eq_refl)) as (i5 & E5 & R5). rewrite list_insert_insert_eq in R5.
  destruct (close_open i5 _ id R5 [] (Hz _ _ eq_refl)) as (i6 & E6 & R6). rewrite list_insert_insert_eq, list_insert_id in R6 by done.
  exists i1, i2, i3, i4, i5, i6. by split_and!.
Qed.

(** The text of the test in the pipe [id]: the second word is shown as the [int] it is
    converted to. *)
Definition pipe_text (id : Z) : list Z :=
  chars "Creating pipe..." ++ [10] ++ chars "Pipe created: ID=" ++ itoa_text id 10 ++ [10] ++
  chars "Writing test message..." ++ [10] ++ chars "Read from pipe: 0x" ++ itoa_text 0x12345678 16 ++ chars " and 0x" ++
  itoa_text (0xDEADBEEF - 2 ^ 32) 16 ++ [10] ++ chars "Pipe closed" ++ [10].

(** ** Properties *)

(** C13.  On a mounted file system no listed size of which is exactly 2^31 (the number [itoa] cannot write; a larger size is
    shown as the negative number its 32 bits are), [ls] prints the heading, one row for every entry of the root
    directory that is neither deleted nor a volume label, up to the end mark and in the order of the disk
    (8.3 name and size in columns, directories marked), and their number; it returns 0 and changes
    nothing but the screen.  Without a file system it prints that and returns 1. *)
Theorem ls_lists_directory {D P} `{Bus P} entries buf (s : sys D P) :
  Vga.vga_wf (y_vga s) -> FileSys.fs_wf (y_fs s) -> length entries = 224%nat ->
  Forall (fun x => length (FileSys.di_filename x) = 13%nat) entries -> zlen buf = 32 ->
  match mounted (y_fs s) with
  | Some cache =>
      Forall (fun e => printable (FileSys.file_size e)) (directory 224 cache 0) ->
      prints (fun r => r = 0) (cmd_ls entries buf) (ls_text (directory 224 cache 0)) s
  | None => prints (fun r => r = 1) (cmd_ls entries buf) (chars "Failed to list directory" ++ [10]) s
  end.
Proof.
  intros Hw [_ _ Hroot Hini _] Hl He Hb. unfold cmd_ls, mounted.
  destruct (Z.eqb_spec (FileSys.g_fs_initialized (y_fs s)) 0) as [Hi|Hi]; [|destruct (Hini Hi) as [cache Ec]; rewrite Ec in *].
  2: { intros Hp. by apply ls_mounted. }
  eapply prints_query; [reflexivity|]. eapply prints_lift; [unfold FileSys.fs_list_dir; rewrite Hi; reflexivity|].
  cbv beta iota. change (-1 <? 0) with true. cbv iota. apply prints_nil_r.
  eapply prints_bind; [by apply prints_sayln|]. intros. by apply prints_ret.
Qed.

Lemma ex_infos_ok : Forall (fun x => length (FileSys.di_filename x) = 13%nat)
  (replicate 224 (FileSys.DirInfo (replicate 13 1) 0 0 0 0 0)).
Proof. by apply Forall_replicate. Qed.

(** A system with the file A.TXT. *)
Definition ex_piped : sys ram unit := set_ipc (Ipc.ipc_init Ipc.ipc_boot) ex_sys.

Definition ex_files : sys ram unit := set_fs FileSys.ex_ready FileSys.ex_disk ex_sys.

Lemma ls_lists_directory_witness :
  prints (fun r => r = 0) (@cmd_ls ram unit Vga.ex_bus (replicate 224 (FileSys.DirInfo (replicate 13 1) 0 0 0 0 0)) (replicate 32 0))
    (ls_text (directory 224 FileSys.ex_root 0)) ex_files /\
  ls_text (directory 224 FileSys.ex_root 0) =
    chars "NAME             SIZE      ATTR" ++ [10] ++ chars "================ ========= ======" ++ [10] ++
    chars "A.TXT           1100     -" ++ [10] ++ [10] ++ chars "Total: 1 entries" ++ [10].
Proof.
  split; [|vm_compute; reflexivity].
  apply (@ls_lists_directory ram unit Vga.ex_bus (replicate 224 (FileSys.DirInfo (replicate 13 1) 0 0 0 0 0))
           (replicate 32 0) ex_files Vga.ex_vga_wf FileSys.ex_ready_wf eq_refl ex_infos_ok eq_refl).
  apply (bool_decide_unpack _). vm_compute. exact I.
Defined.

(** [file] finds the first entry of the root directory with that name and prints what the
    directory says of it: name, size, first cluster and attributes; a name no entry has is reported with the
    result 1.  Only the screen changes. *)
Lemma file_shows_entry {D P} `{Bus P} argv name r cache info buf (s : sys D P) :
  Vga.vga_wf (y_vga s) -> FileSys.root_ok cache -> FileSys.g_root_dir_cache (y_fs s) = Some cache ->
  rd argv 1 = Ok (cstr name r) -> nul_free name -> length (FileSys.di_filename info) = 13%nat -> zlen buf = 32 ->
  exists i found, FileSys.search_result cache name 0 i found /\
    match found with
    | Some e => printable (FileSys.file_size e) ->
        prints (fun x => x = 0) (cmd_file 2 argv info buf) (file_text e) s
    | None => prints (fun x => x = 1) (cmd_file 2 argv info buf) (chars "File not found" ++ [10]) s
    end.
Proof.
  intros Hw Hroot Hc Harg Hn Hl Hb. assert (Hopt : FileSys.opt_ok FileSys.root_ok (FileSys.g_root_dir_cache (y_fs s))) by (by rewrite Hc).
  destruct (FileSys.dir_find_spec (y_fs s) name r Hopt Hn) as (i & found & E & Hs). rewrite Hc in Hs.
  exists i, found. split; [done|]. unfold cmd_file. change (2 <? 2) with false. cbv iota. destruct found as [e|].
  - intros Hp. pose proof Hs as (Hi & Hrd & _).
    assert (Hok : FileSys.entry_ok e).
    { destruct (FileSys.dir_entry_spec cache i Hroot ltac:(lia)) as (e' & E' & He'). rewrite Hrd in E'. by injection E' as <-. }
    destruct (fill_describes e info Hok Hl) as (x & Ex & [(r1 & Hname & Hnf) Hat Hsz Hcl]).
    eapply prints_lift; [exact Harg|]. eapply prints_query; [reflexivity|]. eapply prints_lift.
    { unfold FileSys.fs_get_file_info. rewrite E, bind_ret. cbv beta iota. rewrite (proj2 (Z.ltb_ge _ _)) by lia.
      rewrite Ex, bind_ret. reflexivity. }
    cbv beta iota. change (0 <? 0) with false. cbv iota. rewrite Hname, Hat, Hsz, Hcl.
    destruct Hok as [_ _ Hu16 Hu32 Hu8]. unfold is_u16, is_u8 in *.
    assert (Hc16 : i32 (FileSys.low_cluster e) = FileSys.low_cluster e) by (apply i32_id; unfold is_i32; lia).
    assert (Ha8 : i32 (FileSys.attributes e) = FileSys.attributes e) by (apply i32_id; unfold is_i32; lia).
    unfold file_text. print_step idtac. eapply prints_bind; [by apply prints_write, clean_nul_free|]. intros _ ? ? _ ?.
    eapply prints_bind; [by apply prints_put|]. intros _ ? ? _ ?. print_step idtac.
    eapply prints_bind; [apply number_text; [by left|done|done|lia]|]. intros b1 ? ? [Hz1 _] ?.
    rewrite (app_assoc (chars " bytes")). print_step idtac. print_step idtac.
    rewrite <- Hc16 at 2. eapply prints_bind; [apply number_text; [by left|done|unfold printable; lia|lia]|]. intros b2 ? ? [Hz2 _] ?.
    eapply prints_bind; [by apply prints_put|]. intros _ ? ? _ ?. print_step idtac.
    rewrite <- Ha8 at 2. eapply prints_bind; [apply number_text; [by right|done|unfold printable; lia|lia]|]. intros b3 ? ? _ ?.
    apply prints_nil_r. eapply prints_bind; [by apply prints_put|]. intros. by apply prints_ret.
  - destruct Hs as [-> _]. eapply prints_lift; [exact Harg|]. eapply prints_query; [reflexivity|]. eapply prints_lift.
    { unfold FileSys.fs_get_file_info. rewrite E, bind_ret. reflexivity. }
    cbv beta iota. change (-1 <? 0) with true. cbv iota. apply prints_nil_r.
    eapply prints_bind; [by apply prints_sayln|]. intros. by apply prints_ret.
Qed.

Lemma file_shows_entry_witness :
  exists i found, FileSys.search_result FileSys.ex_root (chars "A.TXT") 0 i found /\
    match found with
    | Some e => printable (FileSys.file_size e) ->
        prints (fun x => x = 0) (@cmd_file ram unit Vga.ex_bus 2 [lit "file"; lit "A.TXT"]
          (FileSys.DirInfo (replicate 13 1) 0 0 0 0 0) (replicate 32 0)) (file_text e) ex_files
    | None => prints (fun x => x = 1) (@cmd_file ram unit Vga.ex_bus 2 [lit "file"; lit "A.TXT"]
          (FileSys.DirInfo (replicate 13 1) 0 0 0 0 0) (replicate 32 0)) (chars "File not found" ++ [10]) ex_files
    end.
Proof.
  apply (@file_shows_entry ram unit Vga.ex_bus [lit "file"; lit "A.TXT"] (chars "A.TXT") [] FileSys.ex_root
           (FileSys.DirInfo (replicate 13 1) 0 0 0 0 0) (replicate 32 0) ex_files Vga.ex_vga_wf FileSys.ex_root_ok eq_refl eq_refl).
  - by apply Http.nul_free_lit.
  - reflexivity.
  - reflexivity.
Defined.

(** C37.  [pipe], with a free slot in the table, creates a pipe there, passes two words
    through it and closes it: the screen shows the slot and both words in the
    order written, and every pipe holds what it held.  The second word, 0xDEADBEEF, is
    converted to [int], so the text is that of a negative number.  With no free slot it says so and
    returns 1. *)
Theorem pipe_passes_words {D P} `{Bus P} stk msg1 msg2 buf a (s : sys D P) :
  Vga.vga_wf (y_vga s) -> Process.proc_wf stk (y_proc s) -> Ipc.pipes_rel (y_ipc s) a -> zlen buf = 32 ->
  match list_find (fun x => x = None) a with
  | Some (k, _) => exists i, leaves (fun r => r = 0) (cmd_pipe msg1 msg2 buf) (pipe_text (Z.of_nat k)) (set_ipc i s) s /\ Ipc.pipes_rel i a
  | None => prints (fun r => r = 1) (cmd_pipe msg1 msg2 buf)
      (chars "Creating pipe..." ++ [10] ++ chars "Failed to create pipe" ++ [10]) s
  end.
Proof.
  intros Hw Hp HR Hb. unfold cmd_pipe. destruct (list_find _ a) as [[k x]|] eqn:Ek.
  - assert (Hk : (k < 32)%nat).
    { destruct HR as [_ Hl]. apply list_find_Some in Ek as (Hak & _). apply lookup_lt_Some in Hak. lia. }
    destruct (current_pid_run (D := D) (P := P) stk (y_proc s) Hp) as [owner Eo].
    destruct (pipe_life (y_ipc s) a k x owner 0x12345678 0xDEADBEEF msg1 msg2 HR Ek)
      as (i1 & i2 & i3 & i4 & i5 & i6 & E1 & E2 & E3 & E4 & E5 & E6 & R6).
    exists i6. split; [|done]. set (id := Z.of_nat k) in *.
    assert (Hid : i32 id = id) by (apply i32_id; unfold is_i32; lia).
    unfold pipe_text. rewrite (app_assoc (chars "Creating pipe...")).
    eapply leaves_after; [by apply prints_sayln|]. intros _ v p _ ?.
    eapply leaves_query; [by apply Eo|]. eapply leaves_ipc; [exact E1|]. rewrite (proj2 (Z.ltb_ge id 0)) by lia.
    eapply leaves_after; [by apply prints_say|]. intros _ ? ? _ ?. rewrite <- Hid at 2.
    eapply leaves_after; [apply number_text; [by left|done|unfold printable; lia|lia]|]. intros b1 ? ? [Hz1 _] ?.
    eapply leaves_after; [by apply prints_put|]. intros _ ? ? _ ?. rewrite (app_assoc (chars "Writing test message...")).
    eapply leaves_after; [by apply prints_sayln|]. intros _ ? ? _ ?.
    eapply leaves_ipc; [exact E2|]. eapply leaves_ipc; [exact E3|].
    eapply leaves_ipc; [cbn [y_ipc set_ipc]; rewrite E4; reflexivity|]. cbv beta iota.
    eapply leaves_ipc; [cbn [y_ipc set_ipc]; rewrite E5; reflexivity|]. cbv beta iota.
    eapply leaves_after; [by apply prints_say|]. intros _ ? ? _ ?.
    eapply leaves_after; [apply (number_text 0x12345678); [by right|done|done|lia]|]. intros b2 ? ? [Hz2 _] ?.
    eapply leaves_after; [by apply prints_say|]. intros _ ? ? _ ?.
    eapply leaves_after; [apply (number_text 0xDEADBEEF); [by right|done|done|lia]|]. intros b3 ? ? _ ?.
    eapply leaves_after; [by apply prints_put|]. intros _ ? ? _ ?. eapply leaves_ipc; [exact E6|].
    apply leaves_prints; [|done]. apply prints_nil_r. eapply prints_bind; [by apply prints_sayln|]. intros. by apply prints_ret.
  - rewrite (app_assoc (chars "Creating pipe...")). print_step idtac.
    destruct (current_pid_run (D := D) (P := P) stk (y_proc s) Hp) as [owner Eo]. eapply prints_query; [by apply Eo|].
    destruct (Ipc.create_refines (y_ipc s) a owner HR) as (i1 & E1 & _). unfold Ipc.Fifo.create in E1. rewrite Ek in E1.
    cbn [fst] in E1. pose proof (create_full _ _ _ E1) as ->.
    eapply (prints_query _ _ _ (-1)); [exact (zoom_run y_ipc set_ipc _ (set_console _ _ s) _ _ E1)|].
    change (-1 <? 0) with true. cbv iota. apply prints_nil_r.
    eapply prints_bind; [by apply prints_sayln|]. intros. by apply prints_ret.
Qed.

Lemma pipe_passes_words_witness :
  exists i, leaves (fun r => r = 0) (@cmd_pipe ram unit Vga.ex_bus 7 8 (replicate 32 0)) (pipe_text 0) (set_ipc i ex_piped) ex_piped /\ Ipc.pipes_rel i Ipc.Fifo.init.
Proof.
  exact (@pipe_passes_words ram unit Vga.ex_bus 0x8000 7 8 (replicate 32 0) Ipc.Fifo.init ex_piped
           Vga.ex_vga_wf Process.ex_state_wf (Ipc.ipc_init_rel _ Ipc.ipc_boot_ok) eq_refl).
Defined.

(** [disk read 0 n] on a first drive of which the sectors 1 to [span D - 1] can be had. *)
Lemma disk_read_text {D P} `{BlockMedium D} `{Bus P} lba img r1 r2 r3 a0 sector buf e (s : sys D P) :
  let argv := [a0; cstr (chars "read") r1; cstr (itoa_text 0 10) r2; cstr (itoa_text lba 10) r3] in
  Vga.vga_wf (y_vga s) -> 1 <= lba < span D -> medium (y_disk s) img ->
  Disk.disk_drive_exists 0 (y_drives s) = Ok e -> zlen sector = SECTOR_SIZE -> zlen buf = 32 ->
  if e =? 0 then prints (fun r => r = 1) (cmd_disk 4 argv sector buf) (chars "Drive not found" ++ [10]) s
  else exists d, leaves (fun r => r = 0) (cmd_disk 4 argv sector buf) (sector_text lba (img lba)) (set_fs (y_fs s) d s) s /\
    medium d img.
Proof.
  intros argv Hw Hl Hm He Hs Hb. pose proof (medium_span (D := D)). unfold cmd_disk. change (4 <? 2) with false. change (4 <? 4) with false. cbv iota.
  assert (Hread : nul_free (chars "read")) by (apply (bool_decide_unpack _); vm_compute; exact I).
  pose proof (arg_decide (D := D) (P := P) (chars "read") "info" r1 s Hread eq_refl) as Ei.
  pose proof (arg_decide (D := D) (P := P) (chars "read") "read" r1 s Hread eq_refl) as Er.
  assert (Ea : atoi (cstr (itoa_text 0 10) r2) = Ok 0) by (apply atoi_itoa_text; lia).
  assert (El : atoi (cstr (itoa_text lba 10) r3) = Ok lba) by (apply atoi_itoa_text; lia).
  assert (Hu : u32 lba = lba) by (apply u32_id; unfold is_u32; lia).
  destruct (Z.eqb_spec e 0) as [->|Hne].
  - eapply prints_lift; [reflexivity|]. eapply prints_query; [exact Ei|]. change (bool_decide _) with false. cbv iota.
    eapply prints_query; [exact Er|]. change (bool_decide _) with true. cbv iota.
    eapply prints_lift; [reflexivity|]. eapply prints_lift; [exact Ea|]. eapply prints_lift; [reflexivity|]. eapply prints_lift; [exact El|].
    cbv zeta. eapply prints_query; [reflexivity|]. eapply prints_lift; [exact He|]. change (0 =? 0) with true. cbv iota.
    apply prints_nil_r. eapply prints_bind; [by apply prints_sayln|]. intros. by apply prints_ret.
  - destruct (medium_read (y_disk s) img lba sector Hm) as (d & Ed & Hm'); [lia|done|].
    destruct (medium_sector _ _ lba Hm) as [Hsl Hsu]. exists d. split; [|done].
    eapply leaves_lift; [reflexivity|]. eapply leaves_query; [exact Ei|]. change (bool_decide _) with false. cbv iota.
    eapply leaves_query; [exact Er|]. change (bool_decide _) with true. cbv iota.
    eapply leaves_lift; [reflexivity|]. eapply leaves_lift; [exact Ea|]. eapply leaves_lift; [reflexivity|]. eapply leaves_lift; [exact El|].
    cbv zeta. rewrite Hu. eapply leaves_query; [reflexivity|]. eapply leaves_lift; [exact He|]. rewrite (proj2 (Z.eqb_neq e 0)) by done.
    eapply (leaves_step _ _ _ (1, img lba) (set_fs (y_fs s) d s)); [|done|].
    { unfold read_sector. change (u8 0) with 0. unfold disk_read_sector. rewrite Ed. reflexivity. }
    cbv beta iota. change (1 <? 0) with false. cbv iota. apply leaves_prints; [|done]. apply sector_prints; done || lia.
Qed.

#[local] Existing Instance Disk.disk_blocks.
#[local] Existing Instance Disk.disk_medium.


(** The example system over the example drive. *)
Definition ex_standard : sys (Disk.disks * Disk.sim) unit :=
  Sys (y_vga ex_files) tt (Disk.ex_disks, Disk.ex_sim) Disk.ex_disks (y_fs ex_files) (y_proc ex_files) (y_ipc ex_files)
    (y_socks ex_files) (y_http ex_files) (y_dns ex_files) (y_dhcp ex_files) (y_ui ex_files) (y_now ex_files).

