(* ===== verification/Session.v ===== *)
(** * Typing [cat] on a system whose disk holds files *)
(** The whole path from a line typed at the prompt to the contents of a file on the
    screen: the line editor and the dispatch of [Kernel], the command of [Netcmd] and the file
    system, which stands here for the abstract store of [Store]. *)

From Stdlib Require Import String.
From S2P Require Import Prelude Memory CString Block Ports Store Netcmd Texts Kernel.
From S2P Require Prompt Vga Shell FileSys Process Ipc Net Socket.

(** ** Lines of text *)

Definition prompt : list Z := chars "vlsos> ".

(** The keys for [cat name], and the names a line can hold: one word that fits. *)
Definition typed (name : list Z) : list Z := chars "cat " ++ name ++ [10].
Definition typeable (name : list Z) : Prop := name <> [] /\ zlen name <= 200 /\ Forall (fun c => 32 < c < 127) name.

Lemma key_text_plain c : 32 <= c < 127 -> Shell.key_text c = true.
Proof.
  intros Hc. unfold Shell.key_text, schar. destruct (Z.ltb_spec c 128); [|lia].
  apply andb_true_intro. split; [apply Z.leb_le|apply Z.ltb_lt]; lia.
Qed.

Lemma edited_plain l : forall line left, Forall (fun c => 32 <= c < 127) l ->
  Shell.edited (l ++ 10 :: left) line = Some (line ++ l, left) /\ Shell.echo (l ++ 10 :: left) line = l ++ [10].
Proof.
  induction l as [|c l IH]; intros line left Hl; cbn [app Shell.edited Shell.echo].
  { by rewrite app_nil_r. }
  apply Forall_cons in Hl as [Hc Hl]. rewrite (proj2 (Z.eqb_neq c 10)), (proj2 (Z.eqb_neq c 8)), key_text_plain by lia.
  destruct (IH (line ++ [c]) left Hl) as [-> ->]. by rewrite <- app_assoc.
Qed.

Lemma words_cat name : typeable name -> Shell.words (chars "cat " ++ name) = [chars "cat"; name].
Proof.
  intros (Hne & _ & Hn). assert (Hs : Shell.no_space name).
  { eapply Forall_impl; [exact Hn|]. intros c Hc. cbv beta in Hc. unfold isspace. by replace (_ || _) with false by lia. }
  change (chars "cat " ++ name) with (chars "cat" ++ 32 :: name).
  assert (Hcat : Shell.no_space (chars "cat")) by (apply (bool_decide_unpack _); vm_compute; exact I).
  rewrite (Shell.words_space _ 32 name Hcat eq_refl), (Shell.words_end name Hs), !decide_False by done. done.
Qed.

Section Cat.
Context {D P : Type} `{BlockMedium D} `{Bus P}.
Context (img : Z -> list Z) (vol : Store.volume).
Implicit Types (s : sys D P).

(** The file system and the drive of [s] stand for the store [st]. *)
Definition backed (st : Store.state) s : Prop := store_rel (span D) img vol (y_fs s) st /\ medium (y_disk s) img.

Lemma backed_console st v p s : backed st s -> backed st (set_console v p s).
Proof. done. Qed.

(** [m] writes [t] and changes, besides the screen, only file system and drive, which
    stand for [st'] afterwards. *)
Definition shows_files {A} (Q : A -> Prop) (m : M (sys D P) A) (t : list Z) (st' : Store.state) s : Prop :=
  exists f d, leaves Q m t (set_fs f d s) s /\ store_rel (span D) img vol f st' /\ medium d img.

Lemma at_fd_lt fd (st : Store.state) x : Store.at_fd fd st = Some x -> 0 <= fd /\ (Z.to_nat fd < length st)%nat.
Proof.
  unfold Store.at_fd, zget. destruct (Z.leb_spec 0 fd); [|done]. destruct (st !! Z.to_nat fd) eqn:E; [|done].
  intros _. split; [done|]. by apply lookup_lt_Some in E.
Qed.

Lemma at_fd_insert fd (st : Store.state) x : 0 <= fd -> (Z.to_nat fd < length st)%nat ->
  Store.at_fd fd (<[Z.to_nat fd := x]> st) = x.
Proof.
  intros Hfd Hl. unfold Store.at_fd, zget. rewrite (proj2 (Z.leb_le _ _)) by done.
  by rewrite list_lookup_insert_eq.
Qed.

(** A first part whose run is known, console included. *)
Lemma leaves_known {A B} (R : B -> Prop) (m : M (sys D P) A) (f : A -> M (sys D P) B) a v p t1 t2 y1 y s :
  m s = Ok (a, set_console v p y1) -> Vga.term_of v = Vga.Term.write t1 (Vga.term_of (y_vga s)) ->
  leaves R (f a) t2 y (set_console v p y1) -> leaves R (m ≫= f) (t1 ++ t2) y s.
Proof.
  intros E Ht (b & v' & p' & E' & Hr & Hw' & Ht'). exists b, v', p'. split; [by eapply M_run; [exact E|]|].
  split; [done|]. split; [done|]. rewrite term_write_app, <- Ht. exact Ht'.
Qed.

(** The loop of [cat] from any position: the rest of the file. *)
Lemma cat_loop_store fuel : forall fd data pos buffer st s, Vga.vga_wf (y_vga s) -> backed st s -> is_i32 fd ->
  Store.at_fd fd st = Some (data, pos) -> 0 <= pos <= zlen data -> length buffer = 256%nat ->
  zlen data - pos + 256 <= 256 * Z.of_nat fuel ->
  shows_files (fun _ => True) (cat_loop fuel fd buffer) (slice data pos (zlen data - pos))
    (<[Z.to_nat fd := Some (data, zlen data)]> st) s.
Proof.
  induction fuel as [|fuel IH]; intros fd data pos buffer st s Hw [HR Hm] Hfd Hat Hp Hb Hfuel; [lia|].
  pose proof (at_fd_lt _ _ _ Hat) as [Hfd0 Hlt].
  pose proof (read_rel img vol (y_fs s) st fd buffer 256 (y_disk s) HR Hm Hfd ltac:(unfold is_u16; lia) ltac:(unfold zlen; lia)) as Hr.
  unfold Store.read in Hr. rewrite Hat in Hr. set (n := Z.min 256 (zlen data - pos)) in *.
  destruct Hr as (b1 & f1 & d1 & E & Hout & Hz & HR1 & Hm1). cbn [cat_loop].
  assert (Hgo : forall t y, leaves (fun _ => True) (if 0 <? n then put_bytes (Z.to_nat n) b1 0 ;; cat_loop fuel fd b1 else mret tt) t y
      (set_fs f1 d1 s) -> leaves (fun _ => True) (cat_loop (S fuel) fd buffer) t y s).
  { intros t y Hl. cbn [cat_loop]. eapply leaves_query; [reflexivity|]. eapply leaves_lift; [exact E|]. cbv beta iota.
    eapply (leaves_step _ _ _ tt (set_fs f1 d1 s)); [reflexivity|done|exact Hl]. }
  destruct (Z.ltb_spec 0 n) as [Hn|Hn].
  - destruct (put_bytes_prints (Z.to_nat n) b1 0 (set_fs f1 d1 s) Hw ltac:(lia)) as (v & p & E1 & Hw1 & Ht1); [unfold zlen in *; lia|].
    destruct (IH fd data (pos + n) b1 (<[Z.to_nat fd := Some (data, pos + n)]> st) (set_console v p (set_fs f1 d1 s)) Hw1)
      as (f2 & d2 & Hl & HR2 & Hm2); try done; [by apply at_fd_insert|lia|unfold zlen in Hz; lia|lia|].
    exists f2, d2. split; [|by rewrite list_insert_insert_eq in HR2]. apply Hgo.
    replace (slice data pos (zlen data - pos)) with (slice b1 0 (Z.of_nat (Z.to_nat n)) ++ slice data (pos + n) (zlen data - (pos + n))).
    2: { rewrite Z2Nat.id by lia. unfold slice at 1. cbn [Z.to_nat]. rewrite drop_0, Hout, <- slice_add by lia. f_equal. lia. }
    eapply (leaves_known _ _ _ tt v p _ _ (set_fs f1 d1 s)); [exact E1|exact Ht1|]. by eapply leaves_console; [exact Hl|].
  - exists f1, d1. rewrite slice_empty by lia. split; [|split; [|done]].
    + apply Hgo. apply leaves_prints; [by apply prints_ret|done].
    + replace (zlen data) with (pos + n) by lia. done.
Qed.

(** What [cat] of a name shows: the file, or why not. *)
Definition cat_text (st : Store.state) (name : list Z) : list Z :=
  match Store.find name vol with
  | None => chars "File not found: " ++ name ++ [10]
  | Some data => if decide (None ∈ st) then data ++ [10] else chars "Failed to open file" ++ [10]
  end.

Definition cat_result (st : Store.state) (name : list Z) : Z :=
  match Store.find name vol with Some _ => if decide (None ∈ st) then 0 else 1 | None => 1 end.

Lemma opened_slot (st : Store.state) k x data : list_find (fun x => x = None) st = Some (k, x) ->
  Store.at_fd (Z.of_nat k) (<[k := Some (data, 0)]> st) = Some (data, 0) /\ st !! k = Some None /\ (k < length st)%nat.
Proof.
  intros (Hk & -> & _)%list_find_Some. pose proof (lookup_lt_Some _ _ _ Hk) as Hl. split_and!; [|done|done].
  rewrite <- (Nat2Z.id k) at 2. apply at_fd_insert; rewrite ?Nat2Z.id; lia || done.
Qed.

Lemma store_small f (st : Store.state) (d : D) fd data pos : store_rel (span D) img vol f st -> medium d img -> is_i32 fd ->
  Store.at_fd fd st = Some (data, pos) -> zlen data <= 2 ^ 32 - 512.
Proof.
  intros HR Hm Hfd Hat. destruct (fd_slot img vol f st fd HR Hfd) as [[_ E]|(_ & _ & x & Hx & Hr)]; [by rewrite E in Hat|].
  rewrite Hat in Hr. destruct (slot_reading _ _ _ _ _ _ _ _ HR Hx Hr) as (_ & _ & cs & _ & Hst & ->).
  rewrite (zlen_bytes d img cs _ _ _ Hm Hst). pose proof (st_size _ _ _ _ _ Hst). lia.
Qed.

(** [cat] leaves the store as it was: the descriptor it opened is closed again. *)
Lemma cat_store fuel argc argv name rest buffer st s : Vga.vga_wf (y_vga s) -> backed st s ->
  2 <= argc -> rd argv 1 = Ok (cstr name rest) -> nul_free name -> length buffer = 256%nat -> 2 ^ 32 < Z.of_nat fuel ->
  shows_files (fun r => r = cat_result st name) (cmd_cat fuel argc argv buffer) (cat_text st name) st s.
Proof.
  intros Hw [HR Hm] Hargc Harg Hn Hb Hfuel. pose proof (exists_rel img vol _ _ name rest HR Hn) as Hex.
  unfold shows_files, cmd_cat, cat_text, cat_result. rewrite (proj2 (Z.ltb_ge _ _)) by lia. unfold Store.exists_file in Hex.
  destruct (Store.find name vol) as [data|] eqn:Ef.
  2: { exists (y_fs s), (y_disk s). split; [|done]. eapply leaves_lift; [exact Harg|]. eapply leaves_query; [reflexivity|].
    eapply leaves_lift; [exact Hex|]. change (0 =? 0) with true. cbv iota. apply leaves_prints; [|done].
    eapply prints_bind; [by apply prints_say|]. intros _ ? ? _ ?.
    eapply prints_bind; [by apply prints_write, clean_nul_free|]. intros _ ? ? _ ?.
    apply prints_nil_r. eapply prints_bind; [by apply prints_put|]. intros. by apply prints_ret. }
  destruct (open_rel img vol _ _ name rest HR Hn) as (f1 & E1 & HR1). unfold Store.open in E1, HR1. rewrite Ef in E1, HR1.
  destruct (list_find (fun x => x = None) st) as [[k x]|] eqn:Ek.
  - destruct (opened_slot st k x data Ek) as (Hat & Hkn & Hkl). cbn [fst snd] in E1, HR1.
    rewrite !decide_True by (by apply list_elem_of_lookup; exists k).
    assert (Hst : length st = 16%nat) by (by destruct HR). assert (Hfd : is_i32 (Z.of_nat k)) by (unfold is_i32; lia).
    pose proof (zlen_nonneg data).
    destruct (cat_loop_store fuel (Z.of_nat k) data 0 buffer _ (set_fs f1 (y_disk s) s) Hw (conj HR1 Hm) Hfd Hat) as (f2 & d2 & Hl & HR2 & Hm2);
      [lia|done| |].
    { pose proof (store_small _ _ _ _ _ _ HR1 Hm Hfd Hat). lia. }
    destruct (close_rel img vol f2 _ (Z.of_nat k) HR2 Hfd) as (f3 & E3 & HR3). unfold Store.close in E3, HR3.
    rewrite at_fd_insert in E3, HR3 by (rewrite ?Nat2Z.id, ?length_insert; lia). cbn [fst snd] in E3, HR3.
    rewrite Nat2Z.id, !list_insert_insert_eq, list_insert_id in HR3 by done.
    exists f3, d2. split; [|done]. eapply leaves_lift; [exact Harg|]. eapply leaves_query; [reflexivity|].
    eapply leaves_lift; [exact Hex|]. change (1 =? 0) with false. cbv iota.
    eapply (leaves_step _ _ _ (Z.of_nat k) (set_fs f1 (y_disk s) s)); [unfold on_fs; by rewrite E1|done|].
    rewrite (proj2 (Z.ltb_ge _ _)) by lia. rewrite Z.sub_0_r in Hl. unfold slice in Hl. cbn [Z.to_nat] in Hl. rewrite drop_0 in Hl.
    rewrite take_ge in Hl by (unfold zlen; lia). eapply leaves_bind; [exact Hl|]. intros _ v p _ Hw'.
    eapply (leaves_step _ _ _ 0 (set_console v p (set_fs f3 d2 s))); [unfold on_fs; cbn [y_fs set_console set_fs]; by rewrite E3|done|].
    apply leaves_prints; [|done]. apply prints_nil_r. eapply prints_bind; [by apply prints_put|]. intros. by apply prints_ret.
  - cbn [fst snd] in E1, HR1. assert (Hfull : None ∉ st).
    { intros [j Hj]%list_elem_of_lookup. apply list_find_None in Ek. by apply (Forall_lookup_1 _ _ _ _ Ek Hj). }
    rewrite !decide_False by done.
    exists f1, (y_disk s). split; [|done]. eapply leaves_lift; [exact Harg|]. eapply leaves_query; [reflexivity|].
    eapply leaves_lift; [exact Hex|]. change (1 =? 0) with false. cbv iota.
    eapply (leaves_step _ _ _ (-1) (set_fs f1 (y_disk s) s)); [unfold on_fs; by rewrite E1|done|].
    change (-1 <? 0) with true. cbv iota. apply leaves_prints; [|done].
    apply prints_nil_r. eapply prints_bind; [by apply prints_sayln|]. intros. by apply prints_ret.
Qed.

(** ** Turns of the shell *)

Lemma cat_turn fuel k f name st s : Vga.vga_wf (y_vga s) -> backed st s -> frame_ok f -> f_keys f = typed name -> typeable name ->
  length (l_buffer k) = 256%nat -> 2 ^ 32 < Z.of_nat fuel ->
  exists f' s', shell_turn fuel k f s = Ok (Turn false f', s') /\ frame_ok f' /\ f_keys f' = [] /\ backed st s' /\
    Vga.vga_wf (y_vga s') /\
    Vga.term_of (y_vga s') = Vga.Term.write (prompt ++ typed name ++ cat_text st name) (Vga.term_of (y_vga s)).
Proof.
  intros Hw Hb Hf Hk Hn Hbuf Hfuel. pose proof Hn as (_ & Hlen & Hc).
  assert (Hplain : Forall (fun c => 32 <= c < 127) (chars "cat " ++ name)).
  { apply Forall_app. split; [apply (bool_decide_unpack _); vm_compute; exact I|]. eapply Forall_impl; [exact Hc|]. cbv beta. lia. }
  destruct (edited_plain (chars "cat " ++ name) [] [] Hplain) as [He Hecho]. rewrite <- app_assoc in He, Hecho. cbn [app] in He.
  change (chars "cat " ++ name ++ [10]) with (typed name) in *. rewrite <- Hk in He, Hecho.
  assert (Hkeys : zlen (f_keys f) <= 255 /\ Forall is_u8 (f_keys f)).
  { rewrite Hk. unfold typed. split; [rewrite !zlen_app; change (zlen (chars "cat ")) with 4; change (zlen [10]) with 1; clear - Hlen; lia|].
    rewrite app_assoc. apply Forall_app. split; [|by apply Forall_singleton]. eapply Forall_impl; [exact Hplain|]. unfold is_u8. cbv beta. lia. }
  destruct Hkeys as [Hkl%(Shell.few_keys_fit _ [] _ _ He) Hku].
  destruct (shell_turn_spec fuel k f _ [] s Hw Hf Hku Hkl He) as (v & p & f' & Hv & Hf' & Hk' & Hline & Hecho').
  unfold line_runs in Hline. rewrite words_cat in Hline by done.
  replace (list_find (fun n => n = chars "cat") Shell.command_names) with (Some (18%nat, chars "cat")) in Hline by (vm_compute; reflexivity).
  destruct Hline as (args & Hargs & E). change (take 16 [chars "cat"; name]) with [chars "cat"; name] in Hargs.
  apply Forall2_cons_inv_r in Hargs as (a0 & args1 & _ & Hargs & ->). apply Forall2_cons_inv_r in Hargs as (a1 & args2 & [rest ->] & _ & ->).
  assert (Hnul : nul_free name) by (eapply Forall_impl; [exact Hc|]; intros c H'; cbv beta in H'; unfold is_u8; lia).
  destruct (cat_store fuel 2 [a0; cstr name rest] name rest (l_buffer k) st (set_console v p s) Hv Hb ltac:(lia) eq_refl Hnul Hbuf Hfuel)
    as (fs & d & (r & v' & p' & Er & -> & Hv' & Ht) & HR & Hm).
  exists f', (set_console v' p' (set_fs fs d (set_console v p s))). split_and!; try done.
  - rewrite E. change (Z.min 16 (zlen [chars "cat"; name])) with 2. change (run_command fuel k (Z.of_nat 18)) with
      (fun argc argv => cmd_cat (D := D) (P := P) fuel argc argv (l_buffer k)). cbv beta.
    eapply M_run; [exact Er|]. unfold cat_result. destruct (Store.find name vol); [|done]. by destruct (decide _).
  - cbn [y_vga set_console]. rewrite Ht. cbn [y_vga set_console]. rewrite Hecho', Hecho, <- !term_write_app, <- !app_assoc, Hk. reflexivity.
Qed.

(** The screen of a whole session, up to the prompt that waits. *)
Definition session_text (st : Store.state) (names : list (list Z)) : list Z :=
  concat ((fun n => prompt ++ typed n ++ cat_text st n) <$> names) ++ prompt.

Lemma idle_turn fuel k f s : Vga.vga_wf (y_vga s) -> f_keys f = [] ->
  exists v p, shell_turn fuel k f s = Ok (Waiting, set_console v p s) /\ Vga.vga_wf v /\
    Vga.term_of v = Vga.Term.write prompt (Vga.term_of (y_vga s)).
Proof.
  intros Hw Hk. destruct (prints_say "vlsos> " s Hw ltac:(by vm_compute)) as ([] & v & p & E & _ & Hv & Ht).
  exists v, p. split; [|done]. unfold shell_turn. eapply M_run; [exact E|]. eapply (M_run _ _ _ None); [|reflexivity].
  unfold read_keys. rewrite Hk. reflexivity.
Qed.

Lemma session_loop fuel k st : (forall t, length (l_buffer (k t)) = 256%nat) -> 2 ^ 32 < Z.of_nat fuel ->
  forall names turns f s, Forall typeable names -> f_keys f = concat (typed <$> names) -> (length names < turns)%nat ->
  Vga.vga_wf (y_vga s) -> frame_ok f -> backed st s ->
  exists s', shell_loop turns fuel k f s = Ok (false, s') /\ backed st s' /\ Vga.vga_wf (y_vga s') /\
    Vga.term_of (y_vga s') = Vga.Term.write (session_text st names) (Vga.term_of (y_vga s)).
Proof.
  intros Hbuf Hfuel. induction names as [|n names IH]; intros [|turns] f s Hn Hk Ht Hw Hf Hb; cbn [length] in Ht; try lia; cbn [shell_loop].
  - destruct (idle_turn fuel (k turns) f s Hw Hk) as (v & p & E & Hv & Htext). exists (set_console v p s).
    split; [by eapply M_run; [exact E|]|]. by split.
  - apply Forall_cons in Hn as [Hn Hns]. cbn [fmap list_fmap concat] in Hk.
    set (f0 := Frame (typed n) (f_line f) (f_buffer f) (f_argv f)). assert (Hf0 : frame_ok f0) by (by destruct Hf).
    destruct (cat_turn fuel (k turns) f0 n st s Hw Hb Hf0 eq_refl Hn (Hbuf turns) Hfuel) as (f1 & s1 & E & Hf1 & Hk1 & Hb1 & Hw1 & Ht1).
    apply (Prompt.turn_more _ _ _ (concat (typed <$> names))) in E.
    assert (Ef : Prompt.more_keys (concat (typed <$> names)) f0 = f) by (unfold Prompt.more_keys, f0; cbn [f_keys f_line f_buffer f_argv]; rewrite <- Hk; by destruct f).
    rewrite Ef in E. destruct (IH turns (Prompt.more_keys (concat (typed <$> names)) f1) s1 Hns) as (s2 & E2 & Hb2 & Hw2 & Ht2);
      [unfold Prompt.more_keys; cbn [f_keys]; by rewrite Hk1|lia|done|by destruct Hf1|done|].
    exists s2. split; [eapply M_run; [exact E|exact E2]|]. split; [done|]. split; [done|].
    rewrite Ht2, Ht1, <- term_write_app. unfold session_text. cbn [fmap list_fmap concat]. by rewrite <- !app_assoc.
Qed.
End Cat.

(** ** Properties *)

(** On a system whose file system and drive stand for a store of files, [cat] lines typed at
    the prompt, any number of them one after the other, leave exactly this on the screen: for each line the prompt, the line
    as typed and the contents of the first file of that name (or the message that there is none, or that
    no descriptor is free), and at the end the prompt, where the shell waits.  The store is afterwards what
    it was: every descriptor is closed again, so no number of lines runs out of them. *)
Lemma session_shows_files {D P} `{BlockMedium D} `{Bus P} img vol st names turns fuel k f (s : sys D P) :
  backed img vol st s -> Vga.vga_wf (y_vga s) -> frame_ok f -> (forall t, length (l_buffer (k t)) = 256%nat) ->
  Forall typeable names -> f_keys f = concat (typed <$> names) -> (length names < turns)%nat -> 2 ^ 32 < Z.of_nat fuel ->
  exists s', shell_loop turns fuel k f s = Ok (false, s') /\ backed img vol st s' /\
    Vga.term_of (y_vga s') = Vga.Term.write (session_text vol st names) (Vga.term_of (y_vga s)).
Proof.
  intros Hb Hw Hf Hbuf Hn Hk Ht Hfuel.
  destruct (session_loop img vol fuel k st Hbuf Hfuel names turns f s Hn Hk Ht Hw Hf Hb) as (s' & E & Hb' & _ & Htext).
  by exists s'.
Qed.

(** The floppy of [FileSys], mounted. *)
Definition ex_mounted : FileSys.fs :=
  match FileSys.fs_init FileSys.ex_heap FileSys.ex_boot FileSys.ex_disk with Ok (_, _, f, _) => f | Err _ => FileSys.ex_boot end.
Definition ex_backed : sys ram unit := set_fs ex_mounted FileSys.ex_disk ex_sys.

Lemma ex_backed_ok : backed FileSys.ex_img ex_volume Store.init ex_backed.
Proof.
  assert (Hheap : heap_wf FileSys.ex_heap) by (vm_compute; split; congruence).
  assert (Hroom : heap_ptr FileSys.ex_heap + FileSys.FAT_BYTES + FileSys.FS_ROOT_ENTRIES * 32 < HEAP_END) by reflexivity.
  assert (Hm : medium FileSys.ex_disk FileSys.ex_img) by (intros lba; reflexivity).
  assert (Hspan : 36 <= span ram) by (vm_compute; congruence).
  destruct (mount_rel FileSys.ex_img ex_volume FileSys.ex_heap FileSys.ex_boot FileSys.ex_disk FileSys.ex_boot_ok Hheap Hroom Hm (ex_on_disk (span ram) Hspan))
    as (h & f & d & E & HR & _).
  split; [|exact Hm]. unfold ex_backed, ex_mounted. rewrite E. exact HR.
Qed.

Definition ex_names : list (list Z) := [chars "A.TXT"; chars "B"; chars "A.TXT"].
Definition ex_lines : frame := Frame (concat (typed <$> ex_names)) (replicate 256 1) (replicate 256 1) (replicate 16 0).

Lemma ex_names_typeable : Forall typeable ex_names.
Proof.
  repeat (apply Forall_cons; split; [split; [discriminate|split; [vm_compute; congruence|apply (bool_decide_unpack _); vm_compute; exact I]]|]).
  constructor.
Qed.

Lemma session_shows_files_witness :
  exists s', @shell_loop ram unit _ Vga.ex_bus 4 (Z.to_nat (2 ^ 32 + 1)) (fun _ => ex_locals) ex_lines ex_backed = Ok (false, s') /\
    backed FileSys.ex_img ex_volume Store.init s' /\
    Vga.term_of (y_vga s') = Vga.Term.write (session_text ex_volume Store.init ex_names) (Vga.term_of Vga.ex_vga).
Proof.
  apply (@session_shows_files ram unit _ _ Vga.ex_bus FileSys.ex_img ex_volume Store.init ex_names 4 (Z.to_nat (2 ^ 32 + 1))
           (fun _ => ex_locals) ex_lines ex_backed ex_backed_ok Vga.ex_vga_wf).
  - by constructor.
  - reflexivity.
  - exact ex_names_typeable.
  - reflexivity.
  - apply Nat.ltb_lt. reflexivity.
  - exact Prompt.much_fuel.
Defined.
