(* ===== verification/Asm.v ===== *)
(** * The assembly code: port routines, interrupt stubs, entry point *)
(** [src/kernel/interrupts.asm] and [src/boot/multiboot.asm], instruction by
    instruction: the thirty-two-bit registers, the segment registers, a
    byte-addressed memory and the ports.  The C functions that the code calls are
    parameters under the calling convention of the compiler. *)

From Stdlib Require Import String.
From S2P Require Import Prelude.
From S2P Require Ports Devices Vga Shell Kernel.

(** ** The machine *)

(** [eip], [cs] and [eflags] matter where [call], [ret] and [iret] move them. *)
Record cpu := Cpu {
  eax : Z; ecx : Z; edx : Z; ebx : Z; esp : Z; ebp : Z; esi : Z; edi : Z;
  ds : Z; es : Z; fs : Z; gs : Z;
  eip : Z; cs : Z; eflags : Z
}.

(** A byte at every physical address. *)
Definition memory := Z -> Z.

(** [E] is everything the code does not reach by an address: the ports and the
    state of the C code. *)
Record state (E : Type) := State { regs : cpu; mem : memory; env : E }.
Arguments State {E} _ _ _.
Arguments regs {E} _. Arguments mem {E} _. Arguments env {E} _.

Definition ld8 (m : memory) (a : Z) : Z := u8 (m (u32 a)).
Definition ld16 (m : memory) (a : Z) : Z := ld8 m a + 2 ^ 8 * ld8 m (a + 1).
Definition ld32 (m : memory) (a : Z) : Z := ld16 m a + 2 ^ 16 * ld16 m (a + 2).
Definition st8 (m : memory) (a v : Z) : memory := fun x => if x =? u32 a then u8 v else m x.
Definition st16 (m : memory) (a v : Z) : memory := st8 (st8 m a v) (a + 1) (Z.shiftr v 8).
Definition st32 (m : memory) (a v : Z) : memory := st16 (st16 m a v) (a + 2) (Z.shiftr v 16).

(** Writing [ax] or [al] keeps the rest of [eax]. *)
Definition low16 (r v : Z) : Z := Z.lor (Z.shiftl (Z.shiftr r 16) 16) (u16 v).
Definition low8 (r v : Z) : Z := Z.lor (Z.shiftl (Z.shiftr r 8) 8) (u8 v).

Definition set_eax v c := Cpu v (ecx c) (edx c) (ebx c) (esp c) (ebp c) (esi c) (edi c) (ds c) (es c) (fs c) (gs c) (eip c) (cs c) (eflags c).
Definition set_edx v c := Cpu (eax c) (ecx c) v (ebx c) (esp c) (ebp c) (esi c) (edi c) (ds c) (es c) (fs c) (gs c) (eip c) (cs c) (eflags c).
Definition set_esp v c := Cpu (eax c) (ecx c) (edx c) (ebx c) v (ebp c) (esi c) (edi c) (ds c) (es c) (fs c) (gs c) (eip c) (cs c) (eflags c).
Definition set_eip v c := Cpu (eax c) (ecx c) (edx c) (ebx c) (esp c) (ebp c) (esi c) (edi c) (ds c) (es c) (fs c) (gs c) v (cs c) (eflags c).
Definition set_flags v c := Cpu (eax c) (ecx c) (edx c) (ebx c) (esp c) (ebp c) (esi c) (edi c) (ds c) (es c) (fs c) (gs c) (eip c) (cs c) v.

Inductive seg := DS | ES | FS | GS.

Definition set_seg (s : seg) v c :=
  Cpu (eax c) (ecx c) (edx c) (ebx c) (esp c) (ebp c) (esi c) (edi c)
      (match s with DS => v | _ => ds c end) (match s with ES => v | _ => es c end)
      (match s with FS => v | _ => fs c end) (match s with GS => v | _ => gs c end) (eip c) (cs c) (eflags c).

(** The functions defined in C, and the labels of the assembly files. *)
Inductive cfun := isr_handler | irq_handler | kmain.
Inductive label :=
| outb | inb | outw | inw
| isr0 | isr1 | isr8 | isr14 | irq0 | irq1 | isr_common_stub | irq_common_stub
| start | start_halt.

(** The instructions that occur, with the operands that occur. *)
Inductive instr :=
| mov_dx_mem (d : Z)    (* mov dx, [esp + d] *)
| mov_al_mem (d : Z)    (* mov al, [esp + d] *)
| mov_ax_mem (d : Z)    (* mov ax, [esp + d] *)
| out_dx_al | out_dx_ax | in_al_dx | in_ax_dx
| movzx_eax_al | movzx_eax_ax
| push_imm (n : Z) | push_eax | push_ebx | pop_eax | pusha | popa
| mov_ax_ds | mov_ax_imm (n : Z) | mov_seg_ax (s : seg)
| mov_esp_imm (a : Z) | add_esp (n : Z)
| call (f : cfun) | jmp (l : label) | ret | iret | cli | hlt.

(** How a run ends: by the [ret] or [iret] of the routine, or in a halt that no
    interrupt ends. *)
Inductive stop := Returned | Halted.

(** Bit 9 of [eflags], the interrupt flag. *)
Definition IF_BIT : Z := 9.

(** ** Execution *)

Section Run.
Context {E : Type} `{Ports.Bus E}.
(** What a C function does from its entry on; the address behind each [call]; the
    code at each label. *)
Context (C : cfun -> state E -> res (stop * state E)) (behind : cfun -> Z) (code : label -> list instr).

Definition push (v : Z) (s : state E) : state E :=
  let a := u32 (esp (regs s) - 4) in
  State (set_esp a (regs s)) (st32 (mem s) a v) (env s).
Definition pop (s : state E) : Z * state E :=
  let a := esp (regs s) in
  (ld32 (mem s) a, State (set_esp (u32 (a + 4)) (regs s)) (mem s) (env s)).

Definition with_regs (f : cpu -> cpu) (s : state E) : state E := State (f (regs s)) (mem s) (env s).

(** [pusha]: the stack pointer pushed is the one before the instruction. *)
Definition do_pusha (s : state E) : state E :=
  let c := regs s in
  push (edi c) (push (esi c) (push (ebp c) (push (esp c)
    (push (ebx c) (push (edx c) (push (ecx c) (push (eax c) s))))))).

(** [popa]: the stack pointer popped is thrown away. *)
Definition do_popa (s : state E) : state E :=
  let '(di, s) := pop s in let '(si, s) := pop s in let '(bp, s) := pop s in let '(_, s) := pop s in
  let '(b, s) := pop s in let '(d, s) := pop s in let '(c, s) := pop s in let '(a, s) := pop s in
  with_regs (fun r => Cpu a c d b (esp r) bp si di (ds r) (es r) (fs r) (gs r) (eip r) (cs r) (eflags r)) s.

Definition do_iret (s : state E) : state E :=
  let '(ip, s) := pop s in let '(sel, s) := pop s in let '(fl, s) := pop s in
  with_regs (fun r => Cpu (eax r) (ecx r) (edx r) (ebx r) (esp r) (ebp r) (esi r) (edi r)
                        (ds r) (es r) (fs r) (gs r) ip (u16 sel) fl) s.

(** An instruction that neither transfers control nor halts; [None] for the others. *)
Definition exec (i : instr) (s : state E) : option (state E) :=
  let c := regs s in let m := mem s in
  match i with
  | mov_dx_mem d => Some (with_regs (set_edx (low16 (edx c) (ld16 m (esp c + d)))) s)
  | mov_al_mem d => Some (with_regs (set_eax (low8 (eax c) (ld8 m (esp c + d)))) s)
  | mov_ax_mem d => Some (with_regs (set_eax (low16 (eax c) (ld16 m (esp c + d)))) s)
  | out_dx_al => Some (State c m (Ports.out8 (u16 (edx c)) (u8 (eax c)) (env s)))
  | out_dx_ax => Some (State c m (Ports.out16 (u16 (edx c)) (u16 (eax c)) (env s)))
  | in_al_dx => let '(v, p) := Ports.in8 (u16 (edx c)) (env s) in Some (State (set_eax (low8 (eax c) v) c) m p)
  | in_ax_dx => let '(v, p) := Ports.in16 (u16 (edx c)) (env s) in Some (State (set_eax (low16 (eax c) v) c) m p)
  | movzx_eax_al => Some (with_regs (set_eax (u8 (eax c))) s)
  | movzx_eax_ax => Some (with_regs (set_eax (u16 (eax c))) s)
  | push_imm n => Some (push n s)
  | push_eax => Some (push (eax c) s)
  | push_ebx => Some (push (ebx c) s)
  | pop_eax => let '(v, s) := pop s in Some (with_regs (set_eax v) s)
  | pusha => Some (do_pusha s)
  | popa => Some (do_popa s)
  | mov_ax_ds => Some (with_regs (set_eax (low16 (eax c) (ds c))) s)
  | mov_ax_imm n => Some (with_regs (set_eax (low16 (eax c) n)) s)
  | mov_seg_ax r => Some (with_regs (set_seg r (u16 (eax c))) s)
  | mov_esp_imm a => Some (with_regs (set_esp (u32 a)) s)
  | add_esp n => Some (with_regs (set_esp (u32 (esp c + n))) s)
  | cli => Some (with_regs (set_flags (Z.clearbit (eflags c) IF_BIT)) s)
  | call _ | jmp _ | ret | iret | hlt => None
  end.

(** [prog] are the instructions from the program counter to the end of the block.  A
    C function that comes back anywhere but behind its [call] leaves the code;
    [hlt] goes on after the next interrupt, if one can come. *)
Fixpoint run (fuel : nat) (prog : list instr) (s : state E) : res (stop * state E) :=
  match fuel with
  | O => Err OutOfFuel
  | S fuel =>
    match prog with
    | [] => Err OutOfBounds
    | i :: prog =>
      match i with
      | call f =>
        r ← C f (push (behind f) s);
        match r with
        | (Halted, s) => Ok (Halted, s)
        | (Returned, s) => if eip (regs s) =? behind f then run fuel prog s else Err OutOfBounds
        end
      | jmp l => run fuel (code l) s
      | ret => let '(a, s) := pop s in Ok (Returned, with_regs (set_eip a) s)
      | iret => Ok (Returned, do_iret s)
      | hlt => if Z.testbit (eflags (regs s)) IF_BIT then run fuel prog s else Ok (Halted, s)
      | _ => match exec i s with Some s => run fuel prog s | None => Err OutOfBounds end
      end
    end
  end.
End Run.

(** ** The code *)

Definition common_stub (f : cfun) : list instr :=
  [pusha; mov_ax_ds; push_eax;
   mov_ax_imm 0x10; mov_seg_ax DS; mov_seg_ax ES; mov_seg_ax FS; mov_seg_ax GS;
   call f; pop_eax;
   mov_seg_ax DS; mov_seg_ax ES; mov_seg_ax FS; mov_seg_ax GS;
   popa; add_esp 8; iret].

(** [start] of [multiboot.asm], and its local label [.halt]. *)
Definition start_block (stack_top : Z) : list instr :=
  [mov_esp_imm stack_top; push_ebx; push_eax; call kmain; cli; jmp start_halt].
Definition halt_block : list instr := [hlt; jmp start_halt].

(** [stack_top] is the end of the 16 KB that the linker reserves for the stack. *)
Definition code (stack_top : Z) (l : label) : list instr :=
  match l with
  | outb => [mov_dx_mem 4; mov_al_mem 8; out_dx_al; ret]
  | inb => [mov_dx_mem 4; in_al_dx; movzx_eax_al; ret]
  | outw => [mov_dx_mem 4; mov_ax_mem 8; out_dx_ax; ret]
  | inw => [mov_dx_mem 4; in_ax_dx; movzx_eax_ax; ret]
  | isr0 => [push_imm 0; push_imm 0; jmp isr_common_stub]
  | isr1 => [push_imm 0; push_imm 1; jmp isr_common_stub]
  | isr8 => [push_imm 8; jmp isr_common_stub]
  | isr14 => [push_imm 14; jmp isr_common_stub]
  | irq0 => [push_imm 0; push_imm 32; jmp irq_common_stub]
  | irq1 => [push_imm 0; push_imm 33; jmp irq_common_stub]
  | isr_common_stub => common_stub isr_handler
  | irq_common_stub => common_stub irq_handler
  | start => start_block stack_top
  | start_halt => halt_block
  end.

(** The three words of the multiboot header. *)
Definition multiboot_header : list Z := [0x1BADB002; 0x00000003; u32 (- (0x1BADB002 + 0x00000003))].

Lemma multiboot_header_checks : u32 (foldr Z.add 0 multiboot_header) = 0.
Proof. reflexivity. Qed.

(** ** Words in memory *)

(** [m'] holds at and above [a] what [m] holds there. *)
Definition above (a : Z) (m m' : memory) : Prop := forall x, a <= x -> m' x = m x.

(** The words from [a] upwards. *)
Fixpoint stacked (m : memory) (a : Z) (ws : list Z) : Prop :=
  match ws with
  | [] => True
  | w :: ws => ld32 m a = w /\ stacked m (a + 4) ws
  end.

Lemma ld8_range m a : is_u8 (ld8 m a).
Proof. apply u8_range. Qed.

Lemma ld16_range m a : is_u16 (ld16 m a).
Proof. unfold ld16. pose proof (ld8_range m a). pose proof (ld8_range m (a + 1)). unfold is_u8, is_u16 in *. lia. Qed.

Lemma ld32_range m a : is_u32 (ld32 m a).
Proof. unfold ld32. pose proof (ld16_range m a). pose proof (ld16_range m (a + 2)). unfold is_u16, is_u32 in *. lia. Qed.

#[export] Hint Resolve ld8_range ld16_range ld32_range : word.

(** The low half and the low byte of a word come first. *)
Lemma u16_ld32 m a : u16 (ld32 m a) = ld16 m a.
Proof.
  unfold ld32, u16. rewrite Z.mul_comm, Z.mod_add by lia. apply Z.mod_small.
  pose proof (ld16_range m a). unfold is_u16 in *. lia.
Qed.

Lemma u8_ld32 m a : u8 (ld32 m a) = ld8 m a.
Proof.
  unfold ld32, ld16, u8.
  replace (_ + _ + _) with (ld8 m a + (ld8 m (a + 1) + 2 ^ 8 * ld16 m (a + 2)) * 2 ^ 8) by (unfold ld16; lia).
  rewrite Z.mod_add by lia. apply Z.mod_small. pose proof (ld8_range m a). unfold is_u8 in *. lia.
Qed.

Lemma ld8_st8 m a v b : is_u32 a -> is_u32 b -> ld8 (st8 m a v) b = if b =? a then u8 v else ld8 m b.
Proof.
  intros Ha Hb. unfold ld8, st8. rewrite !u32_id by done. case_if; [|done]. unfold u8. by rewrite Z.mod_mod.
Qed.

Lemma split_u32 v : is_u32 v ->
  u8 v + 2 ^ 8 * u8 (Z.shiftr v 8) + 2 ^ 16 * (u8 (Z.shiftr v 16) + 2 ^ 8 * u8 (Z.shiftr (Z.shiftr v 16) 8)) = v.
Proof.
  intros Hv. unfold u8, is_u32 in *. rewrite !Z.shiftr_div_pow2 by lia.
  change (2 ^ 32) with 4294967296 in *. change (2 ^ 8) with 256. change (2 ^ 16) with 65536.
  Z.to_euclidean_division_equations; lia.
Qed.

(** Stores of a word in terms of the bytes read back. *)
Lemma ld8_st32 m a v b : 0 <= a -> a + 4 <= 2 ^ 32 -> is_u32 b ->
  ld8 (st32 m a v) b =
    if b =? a + 3 then u8 (Z.shiftr (Z.shiftr v 16) 8) else if b =? a + 2 then u8 (Z.shiftr v 16)
    else if b =? a + 1 then u8 (Z.shiftr v 8) else if b =? a then u8 v else ld8 m b.
Proof.
  intros Ha Hb Hi. unfold st32, st16. rewrite !ld8_st8 by (unfold is_u32 in *; lia).
  by replace (a + 2 + 1) with (a + 3) by lia.
Qed.

Lemma ld32_st32_same m a v : 0 <= a -> a + 4 <= 2 ^ 32 -> is_u32 v -> ld32 (st32 m a v) a = v.
Proof.
  intros Ha Hb Hv. unfold ld32, ld16. replace (a + 2 + 1) with (a + 3) by lia.
  rewrite !ld8_st32 by (unfold is_u32; lia). etransitivity; [|exact (split_u32 v Hv)].
  repeat match goal with |- context [?x =? ?y] =>
    destruct (Z.eqb_spec x y); try lia end.
Qed.

Lemma above_st32 m a v b : 0 <= a -> a + 4 <= b -> b <= 2 ^ 32 -> above b m (st32 m a v).
Proof.
  intros Ha Hb Hc x Hx. unfold st32, st16, st8. rewrite !u32_id by (unfold is_u32; lia).
  by repeat match goal with |- context [?x =? ?y] => destruct (Z.eqb_spec x y); [lia|] end.
Qed.

Lemma above_trans a b m1 m2 m3 : a <= b -> above a m1 m2 -> above b m2 m3 -> above b m1 m3.
Proof. intros Hab H12 H23 x Hx. rewrite H23 by done. apply H12. lia. Qed.

Lemma above_refl a m : above a m m.
Proof. by intros x _. Qed.

Lemma ld32_above a m m' b : above a m m' -> a <= b -> 0 <= b -> b + 4 <= 2 ^ 32 -> ld32 m' b = ld32 m b.
Proof.
  intros Hab Hb H0b Hc. unfold ld32, ld16, ld8. rewrite !u32_id by (unfold is_u32; lia).
  by rewrite !Hab by lia.
Qed.

Lemma stacked_above a m m' ws : forall b, above a m m' -> a <= b -> 0 <= b -> b + 4 * zlen ws <= 2 ^ 32 ->
  stacked m b ws -> stacked m' b ws.
Proof.
  induction ws as [|w ws IH]; intros b Hab Hb H0b Hc; [done|]. unfold zlen in *; cbn [length] in Hc.
  intros [Hw Hs]. split; [rewrite <- Hw; apply (ld32_above a); auto; lia|].
  apply IH; auto; lia.
Qed.

(** ** Pushing and popping *)

Section Stack.
Context {E : Type} `{Ports.Bus E}.
Implicit Types (c : cpu) (p : E).

Lemma push_spec v c m p ws : 4 <= esp c -> esp c + 4 * zlen ws <= 2 ^ 32 -> is_u32 v -> stacked m (esp c) ws ->
  exists m', push v (State c m p) = State (set_esp (esp c - 4) c) m' p /\
    above (esp c) m m' /\ stacked m' (esp c - 4) (v :: ws).
Proof.
  intros Ha Ht Hv Hw. pose proof (Zle_0_nat (length ws)). unfold zlen in Ht.
  assert (Hup : above (esp c) m (st32 m (esp c - 4) v)) by (apply above_st32; lia).
  eexists. split; [unfold push; cbn [regs mem env]; rewrite u32_id by (unfold is_u32; lia); reflexivity|].
  split; [done|]. split; [apply ld32_st32_same; [lia|lia|done]|].
  replace (esp c - 4 + 4) with (esp c) by lia. apply (stacked_above _ _ _ _ _ Hup); [lia|lia|unfold zlen; lia|done].
Qed.

Definition push_all (vs : list Z) (s : state E) : state E := fold_left (fun s v => push v s) vs s.

Lemma push_all_spec vs : forall c m p ws, 4 * zlen vs <= esp c -> esp c + 4 * zlen ws <= 2 ^ 32 ->
  Forall is_u32 vs -> stacked m (esp c) ws ->
  exists m', push_all vs (State c m p) = State (set_esp (esp c - 4 * zlen vs) c) m' p /\
    above (esp c) m m' /\ stacked m' (esp c - 4 * zlen vs) (rev vs ++ ws).
Proof.
  induction vs as [|v vs IH]; intros c m p ws Ha Ht Hv Hw.
  { exists m. unfold zlen. cbn [length]. replace (esp c - 4 * Z.of_nat 0) with (esp c) by lia. destruct c. by split_and!. }
  apply Forall_cons in Hv as [Hv Hvs]. unfold zlen in *. cbn [length] in *.
  destruct (push_spec v c m p ws) as (m1 & E1 & Hup & Hs); [lia|unfold zlen; lia|done|done|].
  destruct (IH (set_esp (esp c - 4) c) m1 p (v :: ws)) as (m2 & E2 & Hup2 & Hs2);
    [cbn [esp set_esp]; lia|cbn [esp set_esp length]; lia|done|done|]. cbn [esp set_esp] in Hup2, Hs2, E2.
  exists m2. replace (esp c - 4 * Z.of_nat (S (length vs))) with (esp c - 4 - 4 * Z.of_nat (length vs)) by lia.
  split_and!; [|apply (above_trans (esp c) _ m m1); [lia|done|]|].
  - cbn [push_all fold_left]. rewrite E1. exact E2.
  - intros x Hx. apply Hup2. lia.
  - cbn [rev]. by rewrite <- app_assoc.
Qed.

Lemma pop_spec c m p w ws : 0 <= esp c -> esp c + 4 < 2 ^ 32 -> stacked m (esp c) (w :: ws) ->
  pop (State c m p) = (w, State (set_esp (esp c + 4) c) m p).
Proof.
  intros Ha Ht [Hw _]. unfold pop. cbn [regs mem env]. by rewrite Hw, u32_id by (unfold is_u32; lia).
Qed.

Lemma popa_spec c m p di si bp x b d cx ax ws : 0 <= esp c -> esp c + 32 < 2 ^ 32 ->
  stacked m (esp c) (di :: si :: bp :: x :: b :: d :: cx :: ax :: ws) ->
  do_popa (State c m p) =
    State (Cpu ax cx d b (esp c + 32) bp si di (ds c) (es c) (fs c) (gs c) (eip c) (cs c) (eflags c)) m p.
Proof.
  intros Ha Ht Hs. destruct c. cbn [esp] in *. unfold do_popa.
  do 8 (erewrite pop_spec; [|cbn [esp set_esp]; lia|cbn [esp set_esp]; lia|cbn [esp set_esp]; exact Hs];
        destruct Hs as [_ Hs]; cbn [set_esp esp eax ecx edx ebx ebp esi edi ds es fs gs eip cs eflags]).
  unfold with_regs. cbn. f_equal. f_equal. lia.
Qed.

Lemma iret_spec c m p ip sel fl ws : 0 <= esp c -> esp c + 12 < 2 ^ 32 -> stacked m (esp c) (ip :: sel :: fl :: ws) ->
  do_iret (State c m p) =
    State (Cpu (eax c) (ecx c) (edx c) (ebx c) (esp c + 12) (ebp c) (esi c) (edi c) (ds c) (es c) (fs c) (gs c)
             ip (u16 sel) fl) m p.
Proof.
  intros Ha Ht Hs. destruct c. cbn [esp] in *. unfold do_iret.
  do 3 (erewrite pop_spec; [|cbn [esp set_esp]; lia|cbn [esp set_esp]; lia|cbn [esp set_esp]; exact Hs];
        destruct Hs as [_ Hs]; cbn [set_esp esp eax ecx edx ebx ebp esi edi ds es fs gs eip cs eflags]).
  unfold with_regs. cbn. f_equal. f_equal. lia.
Qed.
End Stack.

(** ** The common stubs *)

(** General registers of 32 bits, segment registers of 16. *)
Record cpu_ok (c : cpu) : Prop := {
  ok_eax : is_u32 (eax c); ok_ecx : is_u32 (ecx c); ok_edx : is_u32 (edx c); ok_ebx : is_u32 (ebx c);
  ok_esp : is_u32 (esp c); ok_ebp : is_u32 (ebp c); ok_esi : is_u32 (esi c); ok_edi : is_u32 (edi c);
  ok_ds : is_u16 (ds c); ok_cs : is_u16 (cs c)
}.

Lemma u16_low16 r v : u16 (low16 r v) = u16 v.
Proof.
  unfold low16, u16. rewrite Z.lor_comm, lor_shiftl by (pose proof (u16_range v); unfold is_u16, u16 in *; lia).
  rewrite Z.mod_add by lia. by rewrite Z.mod_mod.
Qed.

Lemma u8_low8 r v : u8 (low8 r v) = u8 v.
Proof.
  unfold low8, u8. rewrite Z.lor_comm, lor_shiftl by (pose proof (u8_range v); unfold is_u8, u8 in *; lia).
  rewrite Z.mod_add by lia. by rewrite Z.mod_mod.
Qed.

Lemma low16_range r v : is_u32 r -> is_u32 (low16 r v).
Proof.
  intros Hr. unfold low16. pose proof (u16_range v) as Hv. unfold is_u32, is_u16 in *.
  rewrite Z.lor_comm, lor_shiftl, Z.shiftr_div_pow2 by lia. pose proof (Z.mul_div_le r (2 ^ 16)).
  assert (r / 2 ^ 16 < 2 ^ 16) by (apply Z.div_lt_upper_bound; lia). split; [|lia].
  pose proof (Z.div_pos r (2 ^ 16)). lia.
Qed.

(** What the handler gets is what [Devices] says it gets. *)
Lemma low16_pushed_ds r d : is_u16 d -> low16 r d = Devices.pushed_ds r d.
Proof. intros Hd. unfold low16, Devices.pushed_ds. by rewrite u16_id. Qed.

Definition callee_saved (c : cpu) : list Z := [ebx c; ebp c; esi c; edi c; ds c; es c; fs c; gs c; cs c].

Section Stubs.
Context {E : Type} `{Ports.Bus E}.
Context (C : cfun -> state E -> res (stop * state E)) (behind : cfun -> Z) (stack_top room : Z).
Context (Hbehind : forall f, is_u32 (behind f)).

(** The calling convention: with [room] bytes of stack, the compiled [f] does to the
    state of the C code what [h] does with the word above the return address,
    returns behind the call, and keeps the registers it must and the stack above its
    argument.  The word of the argument is the handler's own to overwrite, as the i386 convention has it. *)
Definition cdecl (f : cfun) (h : Z -> E -> res E) : Prop := forall c m p,
  room <= esp c -> esp c + 8 <= 2 ^ 32 ->
  match h (ld32 m (esp c + 4)) p with
  | Err e => C f (State c m p) = Err e
  | Ok p' => exists c' m', C f (State c m p) = Ok (Returned, State c' m' p') /\
      esp c' = esp c + 4 /\ eip c' = ld32 m (esp c) /\ callee_saved c' = callee_saved c /\
      above (esp c + 8) m m'
  end.

(** What the convention does not promise: what [f] leaves in the word of its argument, and above all
    that it leaves it alone. *)
Definition leaves_argument (f : cfun) (w : Z -> Z) : Prop := forall c m p c' m' p',
  room <= esp c -> esp c + 8 <= 2 ^ 32 -> C f (State c m p) = Ok (Returned, State c' m' p') ->
  ld32 m' (esp c + 4) = w (ld32 m (esp c + 4)).

Definition keeps_argument (f : cfun) : Prop := leaves_argument f id.

(** The registers after the stub: those before the interrupt, but every data segment
    register holds [g]. *)
Definition resumed (c : cpu) (g sp ip sel fl : Z) : cpu :=
  Cpu (eax c) (ecx c) (edx c) (ebx c) sp (ebp c) (esi c) (edi c) g g g g ip (u16 sel) fl.

#[local] Abbreviation run := (run C behind (code stack_top)).

Lemma run_exec i prog fuel s s' : exec i s = Some s' -> run (S fuel) (i :: prog) s = run fuel prog s'.
Proof. intros Ei. destruct i; try discriminate Ei; cbn [Asm.run]; by rewrite Ei. Qed.

Lemma run_jmp l prog fuel s : run (S fuel) (jmp l :: prog) s = run fuel (code stack_top l) s.
Proof. reflexivity. Qed.

Lemma run_call f prog fuel s : run (S fuel) (call f :: prog) s =
  r ← C f (push (behind f) s);
  match r with
  | (Halted, s) => Ok (Halted, s)
  | (Returned, s) => if eip (regs s) =? behind f then run fuel prog s else Err OutOfBounds
  end.
Proof. reflexivity. Qed.

(** The call in the middle: the handler gets the word on top of the stack and may leave another there. *)
Lemma call_spec f h fuel prog c m p arg ws : cdecl f h -> 0 <= room -> room + 4 <= esp c ->
  esp c + 4 <= 2 ^ 32 -> esp c + 4 + 4 * zlen ws <= 2 ^ 32 -> stacked m (esp c) (arg :: ws) ->
  match h arg p with
  | Err e => run (S fuel) (call f :: prog) (State c m p) = Err e
  | Ok p' => exists c' m', run (S fuel) (call f :: prog) (State c m p) = run fuel prog (State c' m' p') /\
      esp c' = esp c /\ callee_saved c' = callee_saved c /\ above (esp c + 4) m m' /\
      stacked m' (esp c) (ld32 m' (esp c) :: ws) /\ (forall w, leaves_argument f w -> ld32 m' (esp c) = w arg)
  end.
Proof.
  intros Hc Hr Hroom Htop Hws Hst. unfold zlen in *. cbn [Asm.run].
  destruct (push_spec (behind f) c m p (arg :: ws)) as (m1 & -> & Hup1 & Hret & Hs1);
    [lia|unfold zlen; cbn [length]; lia|done|done|].
  replace (esp c - 4 + 4) with (esp c) in Hs1 by lia. destruct Hs1 as [Harg Hs1].
  pose proof (Hc (set_esp (esp c - 4) c) m1 p) as Hcall. cbn [esp set_esp] in Hcall.
  replace (esp c - 4 + 4) with (esp c) in Hcall by lia.
  rewrite Harg, Hret in Hcall. specialize (Hcall ltac:(lia) ltac:(lia)).
  destruct (h arg p) as [p'|e]; [|by rewrite Hcall].
  destruct Hcall as (c' & m' & Ec & Hsp & Hip & Hsv & Hup2). rewrite Ec. exists c', m'.
  replace (esp c - 4 + 8) with (esp c + 4) in Hup2 by lia.
  rewrite bind_ret. cbn [regs]. rewrite Hip, Z.eqb_refl.
  split_and!; [done|exact Hsp|by destruct c|intros x Hx; rewrite Hup2 by lia; apply Hup1; lia| |].
  - split; [done|]. apply (stacked_above _ _ _ _ _ Hup2); [lia|lia|unfold zlen; lia|exact Hs1].
  - intros w Hk. pose proof (Hk (set_esp (esp c - 4) c) m1 p c' m' p') as Hw. cbn [esp set_esp] in Hw.
    replace (esp c - 4 + 4) with (esp c) in Hw by lia. rewrite <- Harg. apply Hw; [lia|lia|exact Ec].
Qed.

(** Up to the call: everything is on the stack, [ds] on top of it. *)
Lemma stub_enters fuel prog c m p ws : cpu_ok c -> 36 <= esp c -> esp c + 4 * zlen ws <= 2 ^ 32 ->
  stacked m (esp c) ws ->
  let r := low16 (eax c) (ds c) in let g := u16 (low16 r 0x10) in
  let saved := [edi c; esi c; ebp c; esp c; ebx c; edx c; ecx c; eax c] in
  exists m', run (8 + fuel) (pusha :: mov_ax_ds :: push_eax :: mov_ax_imm 0x10 ::
                             mov_seg_ax DS :: mov_seg_ax ES :: mov_seg_ax FS :: mov_seg_ax GS :: prog) (State c m p) =
    run fuel prog (State (Cpu (low16 r 0x10) (ecx c) (edx c) (ebx c) (esp c - 36) (ebp c) (esi c) (edi c)
                            g g g g (eip c) (cs c) (eflags c)) m' p) /\
    above (esp c) m m' /\ stacked m' (esp c - 36) (r :: saved ++ ws).
Proof.
  intros [Ha ? ? ? ? ? ? ? _ _] Hroom Htop Hst. destruct c as [a cx d b sp bp si di gds ges gfs ggs ip0 cs0 fl0].
  cbn [eax ecx edx ebx esp ebp esi edi ds es fs gs cs eip eflags] in *.
  destruct (push_all_spec [a; cx; d; b; sp; bp; si; di] (Cpu a cx d b sp bp si di gds ges gfs ggs ip0 cs0 fl0) m p ws)
    as (m1 & E1 & Hup1 & Hs1); [unfold zlen; cbn [length esp]; lia|exact Htop|by repeat apply Forall_cons_2; try apply Forall_nil_2|exact Hst|].
  unfold zlen in *. cbn [length esp set_esp rev app] in E1, Hup1, Hs1. change (4 * Z.of_nat 8) with 32 in *.
  destruct (push_spec (low16 a gds) (Cpu (low16 a gds) cx d b (sp - 32) bp si di gds ges gfs ggs ip0 cs0 fl0) m1 p
    (di :: si :: bp :: sp :: b :: d :: cx :: a :: ws)) as (m2 & E2 & Hup2 & Hs2);
    [cbn [esp]; lia|unfold zlen; cbn [length esp]; lia|by apply low16_range|exact Hs1|].
  cbn [esp set_esp] in *. replace (sp - 32 - 4) with (sp - 36) in * by lia.
  exists m2. split_and!; [|intros x Hx; rewrite Hup2 by lia; by apply Hup1|exact Hs2].
  cbn [Nat.add]. erewrite run_exec by exact (f_equal Some E1).
  erewrite run_exec by reflexivity. erewrite run_exec by exact (f_equal Some E2).
  do 5 (erewrite run_exec by reflexivity). reflexivity.
Qed.

(** From behind the call: the pops undo the pushes. *)
Lemma stub_leaves fuel c m p w num ec ip sel fl di si bp x b d cx ax ws : 0 <= esp c -> esp c + 56 < 2 ^ 32 ->
  stacked m (esp c) (w :: di :: si :: bp :: x :: b :: d :: cx :: ax :: num :: ec :: ip :: sel :: fl :: ws) ->
  run (8 + fuel) [pop_eax; mov_seg_ax DS; mov_seg_ax ES; mov_seg_ax FS; mov_seg_ax GS; popa; add_esp 8; iret]
    (State c m p) =
  Ok (Returned, State (Cpu ax cx d b (esp c + 56) bp si di (u16 w) (u16 w) (u16 w) (u16 w) ip (u16 sel) fl) m p).
Proof.
  intros Hsp Htop Hst. destruct c as [a0 cx0 d0 b0 sp bp0 si0 di0 ds0 es0 fs0 gs0 ip0 cs0 fl0].
  cbn [esp] in *. cbn [Nat.add]. unfold is_u32 in *.
  pose proof Hst as [_ Hs1]. pose proof Hs1 as (_ & _ & _ & _ & _ & _ & _ & _ & Hs2). pose proof Hs2 as (_ & _ & Hs3).
  erewrite run_exec.
  2:{ cbn [exec]. erewrite pop_spec by (cbn [esp]; (lia || exact Hst)). reflexivity. }
  do 4 (erewrite run_exec by reflexivity).
  erewrite run_exec.
  2:{ apply (f_equal Some). eapply (popa_spec (Cpu w cx0 d0 b0 (sp + 4) bp0 si0 di0
        (u16 w) (u16 w) (u16 w) (u16 w) ip0 cs0 fl0)); [cbn [esp]; lia|cbn [esp]; lia|exact Hs1]. }
  cbn [esp ds es fs gs eip cs eflags]. erewrite run_exec by reflexivity.
  cbn [Asm.run with_regs regs mem env set_esp esp eax ecx edx ebx ebp esi edi ds es fs gs eip cs eflags].
  rewrite (u32_id (sp + 4 + 32 + 8)) by (unfold is_u32; lia).
  replace (sp + 4 + 4 + 4 + 4 + 4 + 4 + 4 + 4 + 4 + 4 + 4) with (sp + 4 + 32 + 8) in Hs3 by lia.
  unfold with_regs, set_esp. cbn [regs mem env eax ecx edx ebx esp ebp esi edi ds es fs gs eip cs eflags].
  erewrite iret_spec by (cbn [esp]; (lia || exact Hs3)).
  cbn [esp eax ecx edx ebx ebp esi edi ds es fs gs].
  by replace (sp + 4 + 32 + 8 + 12) with (sp + 56) by lia.
Qed.

Lemma common_stub_run f h fuel c m p num ec ip sel fl ws :
  cpu_ok c -> cdecl f h -> 0 <= room -> room + 40 <= esp c -> esp c + 20 < 2 ^ 32 ->
  esp c + 20 + 4 * zlen ws <= 2 ^ 32 -> stacked m (esp c) (num :: ec :: ip :: sel :: fl :: ws) ->
  match h (Devices.pushed_ds (eax c) (ds c)) p with
  | Err e => run (17 + fuel) (common_stub f) (State c m p) = Err e
  | Ok p' => exists m', run (17 + fuel) (common_stub f) (State c m p) =
      Ok (Returned, State (resumed c (u16 (ld32 m' (esp c - 36))) (esp c + 20) ip sel fl) m' p') /\ above (esp c) m m' /\
      (forall w, leaves_argument f w -> ld32 m' (esp c - 36) = w (Devices.pushed_ds (eax c) (ds c)))
  end.
Proof.
  intros Hok Hc Hr Hroom Htop Hws Hst. pose proof (ok_ds _ Hok) as Hds.
  rewrite <- (low16_pushed_ds (eax c) (ds c) Hds). set (W := num :: ec :: ip :: sel :: fl :: ws) in *.
  destruct (stub_enters (9 + fuel) (call f :: pop_eax :: mov_seg_ax DS :: mov_seg_ax ES :: mov_seg_ax FS :: mov_seg_ax GS
    :: popa :: add_esp 8 :: [iret]) c m p W Hok) as (m1 & E1 & Hup1 & Hs1);
    [lia|unfold W, zlen in *; cbn [length]; lia|exact Hst|].
  change (17 + fuel)%nat with (8 + (9 + fuel))%nat. unfold common_stub. rewrite E1. clear E1.
  set (r := low16 (eax c) (ds c)) in *. set (g := u16 (low16 r 0x10)).
  pose proof (call_spec f h (8 + fuel) [pop_eax; mov_seg_ax DS; mov_seg_ax ES; mov_seg_ax FS; mov_seg_ax GS; popa; add_esp 8; iret]
    (Cpu (low16 r 0x10) (ecx c) (edx c) (ebx c) (esp c - 36) (ebp c) (esi c) (edi c) g g g g (eip c) (cs c) (eflags c))
    m1 p r ([edi c; esi c; ebp c; esp c; ebx c; edx c; ecx c; eax c] ++ W) Hc Hr) as Hcall.
  cbn [esp] in Hcall. specialize (Hcall ltac:(lia) ltac:(lia) ltac:(unfold W, zlen in *; cbn [length app]; lia) Hs1).
  destruct (h r p) as [p'|e]; [|exact Hcall].
  destruct Hcall as (c' & m' & Erun & Hsp & _ & Hup2 & Hs2 & Hkeep). exists m'.
  change (9 + fuel)%nat with (S (8 + fuel)). rewrite Erun. split_and!.
  - rewrite <- Hsp in Hs2. cbn [app] in Hs2. unfold W in Hs2.
    erewrite stub_leaves; [|lia|lia|exact Hs2].
    unfold resumed. rewrite <- Hsp. by replace (esp c' + 56) with (esp c + 20) by lia.
  - intros x Hx. rewrite Hup2 by lia. by apply Hup1.
  - exact Hkeep.
Qed.

(** ** Interrupts *)

(** What the processor does on an interrupt through a gate of type [0x8E], at the same
    privilege: flags, code segment and program counter go on the stack, for some
    exceptions an error code as well, and the interrupt flag is cleared. *)
Definition deliver (err : option Z) (s : state E) : state E :=
  let c := regs s in
  let s := push (eip c) (push (cs c) (push (eflags c)
             (with_regs (set_flags (Z.clearbit (eflags c) IF_BIT)) s))) in
  match err with Some e => push e s | None => s end.

(** The C function behind an entry stub, and whether the stub counts on an error code. *)
Definition entry (l : label) : option (cfun * bool) :=
  match l with
  | isr0 | isr1 => Some (isr_handler, false)
  | isr8 | isr14 => Some (isr_handler, true)
  | irq0 | irq1 => Some (irq_handler, false)
  | _ => None
  end.

Lemma entry_pushes l f b err c m p fuel : entry l = Some (f, b) -> b = bool_decide (is_Some err) ->
  exists n num, is_u32 num /\ run (20 + fuel) (code stack_top l) (deliver err (State c m p)) =
    run (17 + n) (common_stub f)
      (push_all [eflags c; cs c; eip c; default 0 err; num] (State (set_flags (Z.clearbit (eflags c) IF_BIT) c) m p)).
Proof.
  intros He Hb. destruct l; try discriminate He; injection He as <- <-; destruct err; try discriminate Hb;
    [exists fuel, 0|exists fuel, 1|exists (S fuel), 8|exists (S fuel), 14|exists fuel, 32|exists fuel, 33];
    (split; [unfold is_u32; lia|]); cbn [code Nat.add]; rewrite ?(run_exec (push_imm _) _ _ _ _ eq_refl), run_jmp;
    reflexivity.
Qed.

(** The common stub behind a list of pushes. *)
Lemma pushed_stub_run f h n c m p vs ws0 num ec ip sel fl ws :
  rev vs ++ ws0 = num :: ec :: ip :: sel :: fl :: ws -> stacked m (esp c) ws0 -> Forall is_u32 vs ->
  cdecl f h -> cpu_ok c -> 0 <= room -> room + 40 + 4 * zlen vs <= esp c ->
  esp c - 4 * zlen vs + 20 < 2 ^ 32 -> esp c + 4 * zlen ws0 <= 2 ^ 32 ->
  match h (Devices.pushed_ds (eax c) (ds c)) p with
  | Err e => run (17 + n) (common_stub f) (push_all vs (State c m p)) = Err e
  | Ok p' => exists m', run (17 + n) (common_stub f) (push_all vs (State c m p)) =
      Ok (Returned, State (resumed c (u16 (ld32 m' (esp c - 4 * zlen vs - 36))) (esp c - 4 * zlen vs + 20) ip sel fl) m' p') /\
      above (esp c) m m' /\ (forall w, leaves_argument f w -> ld32 m' (esp c - 4 * zlen vs - 36) = w (Devices.pushed_ds (eax c) (ds c)))
  end.
Proof.
  intros Hws Hst Hvs Hc Hok Hr Hroom Htop Htop0. pose proof (zlen_nonneg vs) as Hpos.
  destruct (push_all_spec vs c m p ws0) as (m1 & -> & Hup1 & Hs1); [lia|done|done|done|]. rewrite Hws in Hs1.
  set (c1 := set_esp (esp c - 4 * zlen vs) c).
  assert (Hlen : zlen vs + zlen ws0 = 5 + zlen ws).
  { apply (f_equal length) in Hws. rewrite length_app, length_rev in Hws. unfold zlen. cbn [length] in Hws. lia. }
  assert (Hok1 : cpu_ok c1).
  { destruct Hok. split; cbn; try done. unfold is_u32 in *. lia. }
  pose proof (common_stub_run f h n c1 m1 p num ec ip sel fl ws Hok1 Hc Hr) as Hrun.
  cbn [esp set_esp c1 eax ds] in Hrun. specialize (Hrun ltac:(lia) ltac:(lia) ltac:(lia) Hs1).
  destruct (h _ p) as [p'|e]; [|exact Hrun]. destruct Hrun as (m' & Erun & Hup & Hk). exists m'. split; [exact Erun|].
  split; [|exact Hk]. intros x Hx. rewrite Hup by lia. by apply Hup1.
Qed.

Lemma interrupt_runs l f h b err c m p fuel :
  entry l = Some (f, b) -> b = bool_decide (is_Some err) -> cdecl f h ->
  cpu_ok c -> Forall is_u32 [eflags c; eip c; default 0 err] ->
  0 <= room -> room + 60 <= esp c ->
  match h (Devices.pushed_ds (eax c) (ds c)) p with
  | Err e => run (20 + fuel) (code stack_top l) (deliver err (State c m p)) = Err e
  | Ok p' => exists m', run (20 + fuel) (code stack_top l) (deliver err (State c m p)) =
      Ok (Returned, State (resumed c (u16 (ld32 m' (esp c - 56))) (esp c) (eip c) (cs c) (eflags c)) m' p') /\
      above (esp c) m m' /\ (forall w, leaves_argument f w -> ld32 m' (esp c - 56) = w (Devices.pushed_ds (eax c) (ds c)))
  end.
Proof.
  intros He Hb Hc Hok Hctl Hr Hroom. destruct (entry_pushes l f b err c m p fuel He Hb) as (n & num & Hnum & ->).
  apply Forall_cons in Hctl as [Hfl [Hip [Herr _]%Forall_cons]%Forall_cons].
  pose proof (ok_esp _ Hok) as Hsp. pose proof (ok_cs _ Hok) as Hcs. unfold is_u32 in Hsp.
  pose proof (pushed_stub_run f h n (set_flags (Z.clearbit (eflags c) IF_BIT) c) m p
    [eflags c; cs c; eip c; default 0 err; num] [] _ _ _ _ _ _ eq_refl I) as Hrun.
  change (zlen [eflags c; cs c; eip c; default 0 err; num]) with 5 in Hrun. change (zlen []) with 0 in Hrun.
  cbn [esp set_flags eax ds] in Hrun. replace (esp c - 4 * 5 + 20) with (esp c) in Hrun by lia.
  replace (esp c - 4 * 5 - 36) with (esp c - 56) in Hrun by lia.
  apply Hrun; try done; try lia.
  - repeat constructor; try done; unfold is_u16, is_u32 in *; lia.
  - destruct Hok. by split.
Qed.

(** The timer's line of an interrupt controller that nobody has moved: vector 8, and no
    error code.  The stub pops the program counter as if it were one. *)
Lemma no_error_code h c m p w fuel :
  cdecl isr_handler h -> cpu_ok c -> Forall is_u32 [eflags c; eip c] -> 0 <= room -> room + 60 <= esp c ->
  esp c + 4 < 2 ^ 32 -> ld32 m (esp c) = w ->
  match h (Devices.pushed_ds (eax c) (ds c)) p with
  | Err e => run (19 + fuel) (code stack_top isr8) (deliver None (State c m p)) = Err e
  | Ok p' => exists m', run (19 + fuel) (code stack_top isr8) (deliver None (State c m p)) =
      Ok (Returned, State (resumed c (u16 (ld32 m' (esp c - 52))) (esp c + 4) (cs c) (eflags c) w) m' p') /\
      above (esp c) m m' /\
      (forall w, leaves_argument isr_handler w -> ld32 m' (esp c - 52) = w (Devices.pushed_ds (eax c) (ds c)))
  end.
Proof.
  intros Hc Hok Hctl Hr Hroom Htop Hw. apply Forall_cons in Hctl as [Hfl [Hip _]%Forall_cons].
  pose proof (ok_esp _ Hok) as Hsp. pose proof (ok_cs _ Hok) as Hcs. unfold is_u32 in Hsp.
  change (19 + fuel)%nat with (S (S (17 + fuel))). cbn [code].
  rewrite (run_exec (push_imm _) _ _ _ _ eq_refl), run_jmp. cbn [code].
  pose proof (pushed_stub_run isr_handler h fuel (set_flags (Z.clearbit (eflags c) IF_BIT) c) m p
    [eflags c; cs c; eip c; 8] [w] _ _ _ _ _ _ eq_refl (conj Hw I)) as Hrun.
  change (zlen [eflags c; cs c; eip c; 8]) with 4 in Hrun. change (zlen [w]) with 1 in Hrun.
  cbn [esp set_flags eax ds] in Hrun. replace (esp c - 4 * 4 + 20) with (esp c + 4) in Hrun by lia.
  replace (esp c - 4 * 4 - 36) with (esp c - 52) in Hrun by lia.
  apply Hrun; try done; try lia.
  - repeat constructor; try done; unfold is_u16, is_u32 in *; lia.
  - destruct Hok. by split.
Qed.

(** ** Port routines and entry point *)

(** What the routine at [l] is to do with its two argument words, and the value it returns. *)
Definition port_call (l : label) (port value : Z) (p : E) : option (option Z * E) :=
  match l with
  | outb => Some (None, Ports.outb port value p)
  | inb => let '(v, p) := Ports.inb port p in Some (Some v, p)
  | outw => Some (None, Ports.outw port value p)
  | inw => let '(v, p) := Ports.inw port p in Some (Some v, p)
  | _ => None
  end.

Lemma port_routine_runs l c m p r p' fuel :
  port_call l (ld32 m (esp c + 4)) (ld32 m (esp c + 8)) p = Some (r, p') ->
  exists c', run (4 + fuel) (code stack_top l) (State c m p) = Ok (Returned, State c' m p') /\
    eip c' = ld32 m (esp c) /\ esp c' = u32 (esp c + 4) /\ callee_saved c' = callee_saved c /\
    match r with Some v => eax c' = v | None => True end.
Proof.
  intros Hp. destruct c as [a cx d b sp bp si di gds ges gfs ggs ip0 cs0 fl0]. cbn [esp] in *.
  destruct l; try discriminate Hp; cbn [port_call] in Hp;
    unfold Ports.outb, Ports.inb, Ports.outw, Ports.inw in Hp; rewrite ?u16_ld32, ?u8_ld32 in Hp;
    cbn [Nat.add code]; erewrite run_exec by reflexivity.
  1,3: injection Hp as <- <-; erewrite run_exec by reflexivity; erewrite run_exec by reflexivity;
    cbn [with_regs set_eax set_edx regs mem env esp eax edx];
    rewrite u16_low16, ?u8_low8, ?u16_low16, ?(u16_id (ld16 m (sp + 4))), ?(u16_id (ld16 m (sp + 8))),
      ?(u8_id (ld8 m (sp + 8))) by auto with word; eexists; by split.
  - destruct (Ports.in8 _ p) as [v p1] eqn:Ein. injection Hp as <- <-.
    erewrite run_exec.
    2:{ cbn. rewrite u16_low16, (u16_id (ld16 m (sp + 4))), Ein by auto with word. reflexivity. }
    erewrite run_exec by reflexivity. eexists. split; [reflexivity|]. split_and!; try done. cbn. by rewrite u8_low8.
  - destruct (Ports.in16 _ p) as [v p1] eqn:Ein. injection Hp as <- <-.
    erewrite run_exec.
    2:{ cbn. rewrite u16_low16, (u16_id (ld16 m (sp + 4))), Ein by auto with word. reflexivity. }
    erewrite run_exec by reflexivity. eexists. split; [reflexivity|]. split_and!; try done. cbn. by rewrite u16_low16.
Qed.

Lemma halt_loop fuel s : Z.testbit (eflags (regs s)) IF_BIT = false ->
  run (S fuel) (code stack_top start_halt) s = Ok (Halted, s).
Proof. intros Hif. cbn [code]. unfold halt_block. cbn [Asm.run]. by rewrite Hif. Qed.

(** The way into C: on a fresh stack, the magic number first and then the address of the
    information; and the halt behind it. *)
Lemma start_runs c m p fuel : is_u32 (eax c) -> is_u32 (ebx c) -> 12 <= stack_top < 2 ^ 32 ->
  exists m1, let s1 := State (set_esp (stack_top - 12) c) m1 p in
    stacked m1 (stack_top - 12) [behind kmain; eax c; ebx c] /\
    run (7 + fuel) (code stack_top start) (State c m p) =
      match C kmain s1 with
      | Ok (Returned, s') =>
        if eip (regs s') =? behind kmain
        then Ok (Halted, with_regs (set_flags (Z.clearbit (eflags (regs s')) IF_BIT)) s') else Err OutOfBounds
      | r => r
      end.
Proof.
  intros Ha Hb Ht. cbn [code]. unfold start_block. cbn [Nat.add].
  erewrite run_exec by reflexivity. unfold with_regs. cbn [regs mem env]. rewrite u32_id by (unfold is_u32; lia).
  destruct (push_all_spec [ebx c; eax c; behind kmain] (set_esp stack_top c) m p []) as (m1 & Epush & _ & Hs1);
    [cbn [esp set_esp]; unfold zlen; cbn; lia|cbn [esp set_esp]; unfold zlen; cbn; lia|by repeat apply Forall_cons_2|done|].
  cbn [esp set_esp] in Hs1. change (zlen [ebx c; eax c; behind kmain]) with 3 in *.
  replace (stack_top - 4 * 3) with (stack_top - 12) in * by lia.
  exists m1. split; [exact Hs1|]. do 2 (erewrite run_exec by reflexivity). rewrite run_call.
  match goal with |- context [push (behind kmain) ?s] =>
    change (push (behind kmain) s) with (push_all [ebx c; eax c; behind kmain] (State (set_esp stack_top c) m p)) end.
  rewrite Epush. change (set_esp (stack_top - 12) (set_esp stack_top c)) with (set_esp (stack_top - 12) c).
  destruct (C kmain _) as [[[] s']|e]; [|reflexivity|reflexivity]. rewrite bind_ret. case_if; [|done].
  erewrite run_exec by reflexivity. rewrite run_jmp. apply halt_loop. apply Z.clearbit_eq.
Qed.
End Stubs.

(** ** The C handlers behind the stubs *)

(** The state of C that the handlers reach: the console and the machine of [Devices]. *)
Definition kenv (P : Type) : Type := Vga.vga * Devices.machine P.

Section Handlers.
Context {P : Type} `{Ports.Bus P}.

Definition set_ports (p : P) (m : Devices.machine P) : Devices.machine P :=
  Devices.Machine (Devices.ticks m) (Devices.procs m) p.

#[export] Instance kenv_bus : Ports.Bus (kenv P) := {
  Ports.in8 a k := let '(v, p) := Ports.in8 a (Devices.ports k.2) in (v, (k.1, set_ports p k.2));
  Ports.out8 a v k := (k.1, set_ports (Ports.out8 a v (Devices.ports k.2)) k.2);
  Ports.in16 a k := let '(v, p) := Ports.in16 a (Devices.ports k.2) in (v, (k.1, set_ports p k.2));
  Ports.out16 a v k := (k.1, set_ports (Ports.out16 a v (Devices.ports k.2)) k.2)
}.

(** The two handlers, from the word they take as their argument. *)
Definition handler (f : cfun) (arg : Z) (k : kenv P) : res (kenv P) :=
  match f with
  | isr_handler => '(v, p) ← Devices.isr_handler arg k.1 (Devices.ports k.2); Ok (v, set_ports p k.2)
  | irq_handler => m ← Devices.irq_handler arg k.2; Ok (k.1, m)
  | kmain => Ok k
  end.

(** The same through the stubs of [Devices], from the registers interrupted. *)
Definition serviced (f : cfun) (num eax ds : Z) (k : kenv P) : res (kenv P) :=
  match f with
  | isr_handler => '(v, p) ← Devices.isr_common_stub num eax ds k.1 (Devices.ports k.2); Ok (v, set_ports p k.2)
  | irq_handler => m ← Devices.irq_common_stub num eax ds k.2; Ok (k.1, m)
  | kmain => Ok k
  end.

(** All four data segment registers hold [g]. *)
Definition flat_segments (g : Z) (c : cpu) : cpu := set_seg GS g (set_seg FS g (set_seg ES g (set_seg DS g c))).

Lemma resumed_flat g c : cpu_ok c -> resumed c g (esp c) (eip c) (cs c) (eflags c) = flat_segments g c.
Proof. intros Hok. unfold resumed. rewrite u16_id by apply Hok. by destruct c. Qed.

(** What the linker and the compiler provide: return addresses, and the two handlers
    compiled under the calling convention. *)
Record compiled (C : cfun -> state (kenv P) -> res (stop * state (kenv P))) (behind : cfun -> Z) (room : Z) : Prop := {
  cc_behind : forall f, is_u32 (behind f);
  cc_room : 0 <= room;
  cc_isr : cdecl C room isr_handler (handler isr_handler);
  cc_irq : cdecl C room irq_handler (handler irq_handler)
}.

Lemma compiled_cdecl C behind room l f b : compiled C behind room -> entry l = Some (f, b) -> cdecl C room f (handler f).
Proof. intros []. by destruct l; intros [= <- _]. Qed.


(** So a compiler that puts the slot of the argument to another use, as it may, leaves the code interrupted with whatever
    it put there in all four data segment registers. *)
Lemma argument_reused C behind room stack_top l f b err c m k k' v num fuel :
  compiled C behind room -> entry l = Some (f, b) -> b = bool_decide (is_Some err) ->
  cpu_ok c -> Forall is_u32 [eflags c; eip c; default 0 err] -> room + 60 <= esp c ->
  leaves_argument C room f (fun _ => v) -> serviced f num (eax c) (ds c) k = Ok k' ->
  exists m', run C behind (code stack_top) (20 + fuel) (code stack_top l) (deliver err (State c m k)) =
    Ok (Returned, State (flat_segments (u16 v) c) m' k').
Proof.
  intros Hcc He Hb Hok Hctl Hroom Hv Hs.
  pose proof (interrupt_runs C behind stack_top room (cc_behind _ _ _ Hcc) l f _ b err c m k fuel He Hb
    (compiled_cdecl _ _ _ _ _ _ Hcc He) Hok Hctl (cc_room _ _ _ Hcc) Hroom) as Hrun.
  change (serviced f num (eax c) (ds c) k) with (handler f (Devices.pushed_ds (eax c) (ds c)) k) in Hs.
  rewrite Hs in Hrun. destruct Hrun as (m' & Erun & _ & Hk). exists m'. rewrite (Hk _ Hv), resumed_flat in Erun by done.
  exact Erun.
Qed.

(** C21.  Nothing in the kernel moves the interrupt controller from the vectors a PC
    starts it with, where the timer is vector 8, the double fault.  Its stub counts on the
    error code of that exception; a timer interrupt has none, and after the handler the
    [iret] takes the code segment for the program counter, the flags for the code segment
    and a word of the interrupted stack for the flags. *)
Theorem tick_on_vector_8 C behind room stack_top c m k num fuel :
  compiled C behind room -> cpu_ok c -> Forall is_u32 [eflags c; eip c] -> room + 60 <= esp c ->
  esp c + 4 < 2 ^ 32 ->
  match serviced isr_handler num (eax c) (ds c) k with
  | Err e => run C behind (code stack_top) (19 + fuel) (code stack_top isr8) (deliver None (State c m k)) = Err e
  | Ok k' => exists c' m',
      run C behind (code stack_top) (19 + fuel) (code stack_top isr8) (deliver None (State c m k)) =
        Ok (Returned, State c' m' k') /\
      eip c' = cs c /\ cs c' = u16 (eflags c) /\ eflags c' = ld32 m (esp c) /\ esp c' = esp c + 4
  end.
Proof.
  intros Hcc Hok Hctl Hroom Htop.
  pose proof (no_error_code C behind stack_top room (cc_behind _ _ _ Hcc) _ c m k _ fuel (cc_isr _ _ _ Hcc)
    Hok Hctl (cc_room _ _ _ Hcc) Hroom Htop eq_refl) as Hrun.
  change (handler isr_handler (Devices.pushed_ds (eax c) (ds c)) k) with (serviced isr_handler num (eax c) (ds c) k) in Hrun.
  destruct (serviced _ _ _ _ _) as [k'|e]; [|exact Hrun]. destruct Hrun as (m' & Erun & _). by do 2 eexists.
Qed.
End Handlers.

(** C40.  Called with the return address, the port and the value on the stack, each of
    the four port routines does what [Ports] says, leaves the result in [eax], returns to the
    address, and keeps the registers and the memory of its caller. *)
Theorem port_routines {E} `{Ports.Bus E} C behind stack_top l c m (p : E) r p' fuel :
  port_call l (ld32 m (esp c + 4)) (ld32 m (esp c + 8)) p = Some (r, p') ->
  exists c', run C behind (code stack_top) (4 + fuel) (code stack_top l) (State c m p) = Ok (Returned, State c' m p') /\
    eip c' = ld32 m (esp c) /\ esp c' = u32 (esp c + 4) /\ callee_saved c' = callee_saved c /\
    match r with Some v => eax c' = v | None => True end.
Proof. apply port_routine_runs. Qed.

(** ** From the loader's jump to the halt *)

Section Loader.
Context {A P : Type} `{Ports.Bus A} `{Ports.Bus P} `{Ports.Bus (Kernel.kernel A P)}.
Context (stacks : Z) (h : Devices.stubs) (turns fuel : nat) (kk : nat -> Kernel.locals) (f : Kernel.frame).

(** The compiled [kmain]: where [Kernel.kmain], with the word above the return address for the
    magic number, halts the processor, it halts the processor. *)
Definition kmain_compiled (C : cfun -> state (Kernel.kernel A P) -> res (stop * state (Kernel.kernel A P))) (room : Z) : Prop :=
  forall c m k k', room <= esp c -> esp c + 12 <= 2 ^ 32 ->
  Kernel.kmain stacks h turns fuel kk f (ld32 m (esp c + 4)) k = Ok (Kernel.Halted, k') ->
  exists c' m', C kmain (State c m k) = Ok (Halted, State c' m' k').

(** A [kmain] that does so and keeps the registers. *)
Definition ex_kmain (g : cfun) (s : state (Kernel.kernel A P)) : res (stop * state (Kernel.kernel A P)) :=
  match g with
  | kmain =>
      '(fate, k) ← Kernel.kmain stacks h turns fuel kk f (ld32 (mem s) (esp (regs s) + 4)) (env s);
      if fate is Kernel.Halted then Ok (Halted, State (regs s) (mem s) k) else Err OutOfFuel
  | _ => Err OutOfFuel
  end.

Lemma ex_kmain_compiled : kmain_compiled ex_kmain 0.
Proof. intros c m k k' _ _ E. exists c, m. unfold ex_kmain. cbn [regs mem env]. by rewrite E. Qed.
End Loader.

(** C39.  The machine from the loader's jump to [start] to its last halt: the magic number the loader leaves in
    [eax] reaches [kmain] over the fresh stack.  A wrong one ends in the panic after the welcome, nothing but the screen
    touched; the right one in the panic when the first line typed is [exit], with or without more words. *)
Theorem start_panics {A P} `{Ports.Bus A} `{Ports.Bus P} `{Ports.Bus (Kernel.kernel A P)} C behind room stack_top stacks h turns fuel kk f
    l left ws c m (k : Kernel.kernel A P) n :
  (forall g, is_u32 (behind g)) -> kmain_compiled stacks h (S turns) fuel kk f C room ->
  is_u32 (eax c) -> is_u32 (ebx c) -> 0 <= room -> room + 12 <= stack_top < 2 ^ 32 ->
  Kernel.loaded stacks h k -> Kernel.frame_ok f -> Forall is_u8 (Kernel.f_keys f) -> zlen (Kernel.f_keys f) <= 255 ->
  Shell.edited (Kernel.f_keys f) [] = Some (l, left) -> Shell.words l = chars "exit" :: ws ->
  exists c' m' k', run C behind (code stack_top) (7 + n) (code stack_top start) (State c m k) = Ok (Halted, State c' m' k') /\
    if eax c =? Kernel.MULTIBOOT_MAGIC then Kernel.panicked (chars "Shell exited unexpectedly!") (Kernel.k_sys k')
    else Kernel.panicked (chars "Invalid multiboot magic number!") (Kernel.k_sys k') /\
         exists v p, k' = Kernel.with_console v p k.
Proof.
  intros Hbehind HC Ha Hb Hr Hst Hk Hf Hu Hl He Hw.
  destruct (start_runs C behind stack_top Hbehind c m k n Ha Hb ltac:(lia)) as (m1 & (_ & Harg & _) & Erun).
  replace (stack_top - 12 + 4) with (esp (set_esp (stack_top - 12) c) + 4) in Harg by done.
  destruct (Kernel.kmain_panics stacks h turns fuel kk f l left ws (eax c) k Hk Hf Hu (Shell.few_keys_fit _ _ _ _ He Hl) He Hw) as (k' & Ek & Hp).
  rewrite <- Harg in Ek.
  destruct (HC (set_esp (stack_top - 12) c) m1 k k' ltac:(cbn [esp set_esp]; lia) ltac:(cbn [esp set_esp]; lia) Ek) as (c' & m' & EC).
  exists c', m', k'. split; [|exact Hp]. rewrite Erun. cbv zeta. by rewrite EC.
Qed.

(** ** Instances *)

(** Handlers that clobber what the convention lets them clobber. *)
Definition ex_C {P} `{Ports.Bus P} (f : cfun) (s : state (kenv P)) : res (stop * state (kenv P)) :=
  let c := regs s in let a := esp c in
  k ← handler f (ld32 (mem s) (a + 4)) (env s);
  Ok (Returned, State (Cpu 0xDEAD 0xDEAD 0xDEAD (ebx c) (a + 4) (ebp c) (esi c) (edi c) (ds c) (es c) (fs c) (gs c)
                         (ld32 (mem s) a) (cs c) 0) (mem s) k).

Lemma ex_C_cdecl {P} `{Ports.Bus P} f : cdecl ex_C 0 f (handler f).
Proof.
  intros c m p _ _. unfold ex_C. cbn [regs mem env]. destruct (handler f _ p) as [p'|e]; [|done].
  do 2 eexists. split; [reflexivity|]. by split_and!.
Qed.

Lemma ex_C_keeps {P} `{Ports.Bus P} f : keeps_argument ex_C 0 f.
Proof.
  intros c m p c' m' p' _ _ E. unfold ex_C in E. cbn [regs mem env] in E.
  apply res_bind_Ok in E as (k & _ & E). by injection E as _ <- _.
Qed.

(** Handlers that end with a null in the slot of their argument. *)
Definition ex_reuse {P} `{Ports.Bus P} (f : cfun) (s : state (kenv P)) : res (stop * state (kenv P)) :=
  '(r, s') ← ex_C f s; Ok (r, State (regs s') (st32 (mem s') (esp (regs s) + 4) 0) (env s')).

Lemma ex_reuse_cdecl {P} `{Ports.Bus P} f : cdecl ex_reuse 0 f (handler f).
Proof.
  intros c m p Hr Ht. pose proof (ex_C_cdecl f c m p Hr Ht) as Hc. unfold ex_reuse. cbn [regs].
  destruct (handler f _ p) as [p'|e]; [|by rewrite Hc]. destruct Hc as (c' & m' & -> & Hsp & Hip & Hsv & Hup).
  rewrite bind_ret. do 2 eexists. split; [reflexivity|]. split_and!; try done.
  apply (above_trans (esp c + 8) _ m m'); [lia|exact Hup|]. apply above_st32; lia.
Qed.

Lemma ex_reuse_leaves {P} `{Ports.Bus P} f : leaves_argument ex_reuse 0 f (fun _ => 0).
Proof.
  intros c m p c' m' p' Hr Ht E. unfold ex_reuse in E. cbn [regs] in E. apply res_bind_Ok in E as ([r s'] & _ & E).
  injection E as _ _ <- _. apply ld32_st32_same; [lia|lia|]. unfold is_u32. lia.
Qed.

Definition ex_cpu : cpu := Cpu 5 6 7 8 0x8000 10 11 12 0x10 0x18 0x18 0x18 0x101234 0x08 0x202.

Lemma ex_cpu_ok : cpu_ok ex_cpu.
Proof. by split. Qed.

Lemma ex_compiled {P} `{Ports.Bus P} : compiled ex_C (fun _ => 0x100500) 0.
Proof. split; try done; apply ex_C_cdecl. Qed.

Lemma ex_reuse_compiled {P} `{Ports.Bus P} : compiled ex_reuse (fun _ => 0x100500) 0.
Proof. split; try done; apply ex_reuse_cdecl. Qed.

(** The keyboard's interrupt in the middle of a computation, on a machine with nothing on
    its ports. *)
#[local] Existing Instance Vga.ex_bus.

Definition ex_kenv : kenv unit := (Vga.ex_vga, Devices.Machine 7 (Process.ProcState [] 0 0 0) tt).

(** The state interrupted: a word of 7 on the stack, zeros elsewhere. *)
Definition ex_memory : memory := fun a => if a =? 0x8000 then 7 else 0.


(** The same interrupt under the other compiler: null selectors afterwards. *)
Lemma argument_reused_example : exists m',
  run ex_reuse (fun _ => 0x100500) (code 0x200000) (20 + 0) (code 0x200000 irq1) (deliver None (State ex_cpu ex_memory ex_kenv)) =
    Ok (Returned, State (flat_segments 0 ex_cpu) m' ex_kenv).
Proof.
  apply (argument_reused ex_reuse (fun _ => 0x100500) 0 0x200000 irq1 irq_handler false None ex_cpu ex_memory ex_kenv ex_kenv 0 0 0
    ex_reuse_compiled eq_refl eq_refl ex_cpu_ok ltac:(by apply (bool_decide_unpack _); vm_compute) ltac:(cbn; lia)
    (ex_reuse_leaves irq_handler)).
  vm_compute. reflexivity.
Qed.

Lemma tick_on_vector_8_witness : exists c' m' k',
  run ex_C (fun _ => 0x100500) (code 0x200000) (19 + 0) (code 0x200000 isr8) (deliver None (State ex_cpu ex_memory ex_kenv)) =
    Ok (Returned, State c' m' k') /\ eip c' = 0x08 /\ cs c' = 0x202 /\ eflags c' = 7 /\ esp c' = 0x8004.
Proof.
  pose proof (tick_on_vector_8 ex_C (fun _ => 0x100500) 0 0x200000 ex_cpu ex_memory ex_kenv 0 0 ex_compiled ex_cpu_ok
    ltac:(by apply (bool_decide_unpack _); vm_compute) ltac:(cbn; lia) ltac:(cbn; lia)) as Hrun.
  assert (Es : match serviced isr_handler 0 (eax ex_cpu) (ds ex_cpu) ex_kenv with Ok _ => true | Err _ => false end = true)
    by (vm_compute; reflexivity).
  destruct (serviced isr_handler 0 (eax ex_cpu) (ds ex_cpu) ex_kenv) as [k'|e]; [|discriminate].
  destruct Hrun as (c' & m' & Erun & Hip & Hcs & Hfl & Hsp). exists c', m', k'. exact (conj Erun (conj Hip (conj Hcs (conj Hfl Hsp)))).
Defined.

(** [inb(7)], the argument where [ex_memory] has a 7. *)
Lemma port_routines_witness : exists c',
  run ex_C (fun _ => 0x100500) (code 0x200000) (4 + 0) (code 0x200000 inb) (State (set_esp 0x7FFC ex_cpu) ex_memory ex_kenv) =
    Ok (Returned, State c' ex_memory ex_kenv) /\ esp c' = 0x8000.
Proof.
  destruct (port_routines ex_C (fun _ => 0x100500) 0x200000 inb (set_esp 0x7FFC ex_cpu) ex_memory ex_kenv
    (Some (fst (Ports.inb 7 ex_kenv))) ex_kenv 0 ltac:(by vm_compute)) as (c' & Erun & _ & Hsp & _).
  exists c'. by split.
Defined.

(** The machine of [Kernel] with nothing on its ports, entered with the registers of a multiboot loader. *)
Definition ex_nothing : Ports.Bus (Kernel.kernel unit unit) :=
  {| Ports.in8 _ k := (0xFF, k); Ports.out8 _ _ k := k; Ports.in16 _ k := (0xFFFF, k); Ports.out16 _ _ k := k |}.

Lemma start_panics_witness : exists c' m' k',
  @run _ ex_nothing (ex_kmain 0x8000 Devices.ex_stubs 1 0 (fun _ => Kernel.ex_locals) Kernel.ex_frame) (fun _ => 0x100500) (code 0x200000)
    (7 + 0) (code 0x200000 start) (State (set_eax 0x2BADB002 ex_cpu) ex_memory Kernel.ex_kernel) = Ok (Halted, State c' m' k') /\
  Kernel.panicked (chars "Shell exited unexpectedly!") (Kernel.k_sys k').
Proof.
  apply (@start_panics unit unit Vga.ex_bus Vga.ex_bus ex_nothing _ (fun _ => 0x100500) 0 0x200000 0x8000 Devices.ex_stubs 0 0
    (fun _ => Kernel.ex_locals) Kernel.ex_frame (chars "exit now") [] [chars "now"] (set_eax 0x2BADB002 ex_cpu) ex_memory
    Kernel.ex_kernel 0).
  - intros _. vm_compute. split; congruence.
  - apply ex_kmain_compiled.
  - vm_compute. split; congruence.
  - vm_compute. split; congruence.
  - lia.
  - lia.
  - exact Kernel.ex_loaded.
  - exact Kernel.ex_frame_ok.
  - exact Kernel.ex_keys_u8.
  - vm_compute. congruence.
  - vm_compute. reflexivity.
  - vm_compute. reflexivity.
Defined.
