(* ===== verification/Probe.v ===== *)
(** * What the drives look like after start-up *)
(** [disk_init] probes the four drives in turn and leaves the last one probed selected on each
    channel.  On a channel with two drives the file system then mounts, and the files are
    there at the prompt ([start_to_files]); on a channel with a master alone the driver never gets a sector again
    ([lone_disk_never_mounts]), because it polls the status before it selects the drive. *)

From S2P Require Import Prelude Memory Block Ports Disk Store Texts Netcmd Kernel Session.
From S2P Require Vga Shell FileSys Prompt Devices.

(** ** Identification, step by step *)

(** Something of the machine that the secondary channel does not touch. *)
Section Secondary.
Context {P : Type} `{Bus P} (I : P -> Prop).
Context (I_in8 : forall port p, 0x170 <= port <= 0x177 -> I p -> I (in8 port p).2).
Context (I_out8 : forall port v p, 0x170 <= port <= 0x177 -> I p -> I (out8 port v p)).
Context (I_in16 : forall p, I p -> I (in16 0x170 p).2).

Lemma secondary_wait t mask v : forall p, I p -> I (ata_wait_status t 0x170 mask v p).2.
Proof.
  induction t as [|t IH]; intros p Hp; cbn [ata_wait_status]; [done|].
  unfold inb. change (u16 (0x170 + ATA_REG_STATUS)) with 0x177. pose proof (I_in8 0x177 p ltac:(lia) Hp) as Hi.
  destruct (in8 0x177 p) as [st p1]. case_if; [done|by apply IH].
Qed.

Lemma secondary_words n : forall p, I p -> I (read_identify n 0x170 p).2.
Proof.
  induction n as [|n IH]; intros p Hp; cbn [read_identify]; [done|].
  unfold inw. change (u16 (0x170 + ATA_REG_DATA)) with 0x170. pose proof (I_in16 p Hp) as Hi.
  destruct (in16 0x170 p) as [w p1]. specialize (IH p1 Hi). by destruct (read_identify n 0x170 p1).
Qed.

Lemma secondary_identify d s p s' p' : 2 <= d <= 3 -> I p -> disk_identify d s p = Ok (s', p') -> I p'.
Proof.
  intros Hd Hp E. unfold disk_identify in E. rewrite (proj2 (Z.ltb_ge _ _)) in E by lia.
  assert (Hb : drive_base d = 0x170) by (unfold drive_base; rewrite (proj2 (Z.ltb_ge _ _)) by lia; done).
  rewrite Hb in E. cbv zeta in E. unfold outb, inb in E.
  change (u16 (0x170 + ATA_REG_HDDEVSEL)) with 0x176 in E. change (u16 (0x170 + ATA_REG_STATUS)) with 0x177 in E.
  change (u16 (0x170 + ATA_REG_COMMAND)) with 0x177 in E.
  pose proof (I_in8 0x177 _ ltac:(lia) (I_out8 0x176 (u8 (drive_select d)) p ltac:(lia) Hp)) as H1.
  destruct (in8 0x177 _) as [st p1]. cbn [snd] in H1.
  destruct (u8 st =? 0xFF); [apply res_bind_Ok in E as (? & _ & E); by injection E as _ <-|].
  pose proof (secondary_wait STATUS_TIMEOUT ATA_SR_DRQ ATA_SR_DRQ _ (I_out8 0x177 (u8 ATA_CMD_IDENTIFY) p1 ltac:(lia) H1)) as H2.
  unfold wait_drq in E. destruct (ata_wait_status _ _ _ _ _) as [ok p2]. cbn [snd] in H2.
  destruct (ok =? 0); [apply res_bind_Ok in E as (? & _ & E); by injection E as _ <-|].
  pose proof (secondary_words 256 p2 H2) as H3. destruct (read_identify 256 0x170 p2) as [data p3]. cbn [snd] in H3.
  do 3 apply res_bind_Ok in E as (? & _ & E). destruct (present _ =? 0); by injection E as _ <-.
Qed.
End Secondary.

(** The probe of a drive fills its own entry of the table only. *)
Lemma identify_others {P} `{Bus P} d j s (p : P) s' p' : 0 <= d -> j <> d ->
  disk_identify d s p = Ok (s', p') -> rd (g_disks s') j = rd (g_disks s) j.
Proof.
  intros Hd Hj E. assert (Hwr : forall k t, wr (g_disks s) d k = Ok t -> rd t j = rd (g_disks s) j).
  { intros k t Hw. apply wr_Ok in Hw as [Hin ->]. unfold rd. by rewrite zget_insert_ne by lia. }
  assert (Habs : forall s1, upd_disk d (set_present 0) s = Ok s1 -> rd (g_disks s1) j = rd (g_disks s) j).
  { intros s1 E1. unfold upd_disk in E1. apply res_bind_Ok in E1 as (k & _ & E1).
    apply res_bind_Ok in E1 as (t & Hw & E1). injection E1 as <-. by apply (Hwr _ _ Hw). }
  unfold disk_identify in E. destruct (3 <? d); [by injection E as <- _|]. cbv zeta in E.
  destruct (inb _ _) as [st p1]. destruct (st =? 0xFF);
    [apply res_bind_Ok in E as (s1 & E1 & E); injection E as <- _; by apply Habs|].
  destruct (wait_drq _ _) as [ok p2]. destruct (ok =? 0);
    [apply res_bind_Ok in E as (s1 & E1 & E); injection E as <- _; by apply Habs|].
  destruct (read_identify _ _ _) as [data p3]. do 2 apply res_bind_Ok in E as (? & _ & E).
  apply res_bind_Ok in E as (t & Hw & E). destruct (present _ =? 0); injection E as <- _; by apply (Hwr _ _ Hw).
Qed.

(** The four probes of [disk_init]. *)
Lemma init_steps {P} `{Bus P} s (p : P) s' p' :
  disk_init s p = Ok (s', p') ->
  exists s0 s1 p1 s2 p2 s3 p3, disk_identify 0 s0 p = Ok (s1, p1) /\ disk_identify 1 s1 p1 = Ok (s2, p2) /\
    disk_identify 2 s2 p2 = Ok (s3, p3) /\ disk_identify 3 s3 p3 = Ok (s', p').
Proof.
  intros E. unfold disk_init in E. cbv zeta in E.
  apply res_bind_Ok in E as ([s1 p1] & E1 & E). apply res_bind_Ok in E as ([s2 p2] & E2 & E).
  apply res_bind_Ok in E as ([s3 p3] & E3 & E). by eexists _, s1, p1, s2, p2, s3, p3.
Qed.

(** ** A master without a slave *)

(** The documented behaviour of a channel with one drive: while the slave that is not there is selected
    (bit 4 of the device register), the status register reads 0 and commands are not taken.
    The other channel does not reach this one. *)
Class LoneMaster (P : Type) `{Bus P} := {
  slave_selected : P -> Prop;
  lm_select v p : Z.testbit v 4 = true -> slave_selected (out8 0x1F6 v p);
  lm_status p : slave_selected p -> exists p', in8 0x1F7 p = (0, p') /\ slave_selected p';
  lm_command v p : slave_selected p -> slave_selected (out8 0x1F7 v p);
  lm_in8 port p : 0x170 <= port <= 0x177 -> slave_selected p -> slave_selected (in8 port p).2;
  lm_out8 port v p : 0x170 <= port <= 0x177 -> slave_selected p -> slave_selected (out8 port v p);
  lm_in16 p : slave_selected p -> slave_selected (in16 0x170 p).2
}.

(** Transfers one after the other: [write] or read, drive, address, count, buffer. *)
Record transfer := Transfer { t_write : bool; t_drive : Z; t_lba : Z; t_count : Z; t_buf : list Z }.

Definition transfer_run `{Bus P} (t : transfer) (s : disks) (p : P) : res (Z * P) :=
  if t_write t then disk_write_sectors (t_drive t) (t_lba t) (t_count t) (t_buf t) s p
  else '(r, _, p) ← disk_read_sectors (t_drive t) (t_lba t) (t_count t) (t_buf t) s p; Ok (r, p).

Fixpoint transfers_run `{Bus P} (ts : list transfer) (s : disks) (p : P) : res (list Z * P) :=
  match ts with
  | [] => Ok ([], p)
  | t :: ts =>
      '(r, p) ← transfer_run t s p;
      '(rs, p) ← transfers_run ts s p;
      Ok (r :: rs, p)
  end.

Section Lone.
Context `{LoneMaster P}.

Lemma silent_status t : forall p, slave_selected p ->
  exists p', ata_wait_status t 0x1F0 ATA_SR_DRQ ATA_SR_DRQ p = (0, p') /\ slave_selected p'.
Proof.
  induction t as [|t IH]; intros p Hp; cbn [ata_wait_status]; [by exists p|].
  destruct (lm_status p Hp) as (p1 & E & Hp1). unfold inb. change (u16 (0x1F0 + ATA_REG_STATUS)) with 0x1F7.
  rewrite E. exact (IH p1 Hp1).
Qed.

Lemma silent_ready t : forall p, slave_selected p ->
  exists p', ata_wait_ready t 0x1F0 p = (0, p') /\ slave_selected p'.
Proof.
  induction t as [|t IH]; intros p Hp; cbn [ata_wait_ready]; [by exists p|].
  destruct (lm_status p Hp) as (p1 & E & Hp1). unfold inb. change (u16 (0x1F0 + ATA_REG_STATUS)) with 0x1F7.
  rewrite E. exact (IH p1 Hp1).
Qed.

Lemma probe_selects_slave s p s' p' : disk_identify 1 s p = Ok (s', p') -> slave_selected p'.
Proof.
  intros E. unfold disk_identify in E. change (3 <? 1) with false in E. change (drive_base 1) with 0x1F0 in E.
  change (drive_select 1) with 0xB0 in E. cbv iota zeta in E. unfold outb in E.
  change (u16 (0x1F0 + ATA_REG_HDDEVSEL)) with 0x1F6 in E. change (u16 (0x1F0 + ATA_REG_COMMAND)) with 0x1F7 in E.
  change (u8 0xB0) with 0xB0 in E.
  destruct (lm_status _ (lm_select 0xB0 p eq_refl)) as (p1 & E1 & H1).
  unfold inb in E. change (u16 (0x1F0 + ATA_REG_STATUS)) with 0x1F7 in E. rewrite E1 in E.
  change (u8 0 =? 0xFF) with false in E. cbv iota in E.
  destruct (silent_status STATUS_TIMEOUT _ (lm_command (u8 ATA_CMD_IDENTIFY) p1 H1)) as (p2 & E2 & H2).
  unfold wait_drq in E. rewrite E2 in E. change (0 =? 0) with true in E. cbv iota in E.
  apply res_bind_Ok in E as (? & _ & E). by injection E as _ <-.
Qed.

(** After the probing, with whatever tables. *)
Lemma init_selects_slave s p s' p' : disk_init s p = Ok (s', p') -> slave_selected p'.
Proof.
  intros (s0 & s1 & p1 & s2 & p2 & s3 & p3 & _ & E1 & E2 & E3)%init_steps.
  apply probe_selects_slave in E1.
  apply (secondary_identify slave_selected lm_in8 lm_out8 lm_in16 2) in E2; [|lia|done].
  by apply (secondary_identify slave_selected lm_in8 lm_out8 lm_in16 3) in E3.
Qed.

Lemma silent_read d lba count buf s p : disks_wf s -> 0 <= d < 2 -> slave_selected p ->
  exists p', disk_read_sectors d lba count buf s p = Ok (-1, buf, p') /\ slave_selected p'.
Proof.
  intros Hw Hd Hp. unfold disk_read_sectors. destruct (no_drive_total d s Hw) as [b ->]; [lia|]. rewrite bind_ret.
  destruct b; [by exists p|]. unfold drive_base. rewrite (proj2 (Z.ltb_lt _ _)) by lia.
  change ATA_PRIMARY_IO_BASE with 0x1F0. destruct (silent_ready READY_TIMEOUT p Hp) as (p' & -> & Hp'). by exists p'.
Qed.

Lemma silent_write d lba count buf s p : disks_wf s -> 0 <= d < 2 -> slave_selected p ->
  exists p', disk_write_sectors d lba count buf s p = Ok (-1, p') /\ slave_selected p'.
Proof.
  intros Hw Hd Hp. unfold disk_write_sectors. destruct (no_drive_total d s Hw) as [b ->]; [lia|]. rewrite bind_ret.
  destruct b; [by exists p|]. unfold drive_base. rewrite (proj2 (Z.ltb_lt _ _)) by lia.
  change ATA_PRIMARY_IO_BASE with 0x1F0. destruct (silent_ready READY_TIMEOUT p Hp) as (p' & -> & Hp'). by exists p'.
Qed.

Lemma silent_transfers ts s : disks_wf s -> Forall (fun t => 0 <= t_drive t < 2) ts ->
  forall p, slave_selected p ->
  exists p', transfers_run ts s p = Ok (replicate (length ts) (-1), p') /\ slave_selected p'.
Proof.
  intros Hw. induction 1 as [|t ts Hd _ IH]; intros p Hp; [by exists p|]. cbn [transfers_run length replicate].
  assert (Ht : exists p1, transfer_run t s p = Ok (-1, p1) /\ slave_selected p1).
  { unfold transfer_run. destruct (t_write t); [by apply silent_write|].
    destruct (silent_read (t_drive t) (t_lba t) (t_count t) (t_buf t) s p Hw Hd Hp) as (p1 & -> & Hp1). by exists p1. }
  destruct Ht as (p1 & -> & Hp1). rewrite bind_ret. cbv beta iota.
  destruct (IH p1 Hp1) as (p' & -> & Hp'). by exists p'.
Qed.

(** So the mounting fails, and leaves the channel as it is. *)
Lemma silent_mount h f s p : disks_wf s -> FileSys.g_fs_initialized f = 0 -> slave_selected p ->
  exists h' f' p', FileSys.fs_init h f (s, p) = Ok (-1, h', f', (s, p')) /\ FileSys.g_fs_initialized f' = 0 /\
    slave_selected p'.
Proof.
  intros Hw Hi Hp. unfold FileSys.fs_init. rewrite Hi. change (negb (0 =? 0)) with false. cbv iota zeta.
  destruct (malloc FileSys.FAT_BYTES h) as [p1 h1]. destruct (p1 =? NULL); [by do 3 eexists|].
  destruct (malloc _ h1) as [p2 h2]. destruct (p2 =? NULL); [by do 3 eexists|].
  cbn [read_sectors disk_blocks fst snd].
  match goal with |- context [disk_read_sectors 0 ?l ?c ?b _ _] =>
    destruct (silent_read 0 l c b s p Hw ltac:(lia) Hp) as (p' & -> & Hp') end.
  rewrite !bind_ret. cbv beta iota. change (-1 <? 0) with true. cbv iota. by do 3 eexists.
Qed.
End Lone.

(** ** Two drives on the channel *)

(** Two ATA drives on the channel, the master as in [StandardDrive].  Whichever is selected answers the IDENTIFY
    command (0xEC of the standard) with 256 words of its own, which are pending afterwards.  [v_media] numbers the
    sectors of both: nothing is said of where those of the slave lie, nor that the two agree in anything.
    The ports of the other channel do not reach them. *)
Class IdentifyDrive (P : Type) `{StandardDrive P} := {
  id_command p : v_pending (view p) = [] -> exists ws, length ws = 256%nat /\ Forall is_u16 ws /\
    view (out8 0x1F7 0xEC p) = View (v_task (view p)) ws (v_media (view p));
  id_in8 port p : 0x170 <= port <= 0x177 -> view (in8 port p).2 = view p;
  id_out8 port v p : 0x170 <= port <= 0x177 -> view (out8 port v p) = view p;
  id_in16 p : view (in16 0x170 p).2 = view p
}.

Section Found.
Context `{IdentifyDrive P}.

Lemma identify_words ws : forall rest p, Forall is_u16 ws -> v_pending (view p) = ws ++ rest ->
  exists p', read_identify (length ws) 0x1F0 p = (ws, p') /\
    view p' = View (v_task (view p)) rest (v_media (view p)).
Proof.
  induction ws as [|w ws IH]; intros rest p Hu Hp; cbn [read_identify length].
  { exists p. split; [done|]. cbn in Hp. rewrite <- Hp. by destruct (view p). }
  apply Forall_cons in Hu as [Hw Hu]. destruct (ad_data p w (ws ++ rest) Hp) as (p1 & Hin & Hv).
  unfold inw. change (u16 (0x1F0 + ATA_REG_DATA)) with 0x1F0. rewrite Hin, u16_id by done.
  destruct (IH rest p1 Hu) as (p' & -> & Hv'); [by rewrite Hv|]. exists p'. by rewrite Hv', Hv.
Qed.

(** A status of a drive that is there is never 0xFF. *)
Lemma status_there p st p' : in8 0x1F7 p = (st, p') -> is_u8 st /\ st <> 0xFF /\ view p' = view p.
Proof.
  intros Hin. destruct (ad_poll p st p' Hin) as (Hu & Hv & Hm). split; [done|]. split; [|done]. intros ->.
  destruct (busy p).
  - by destruct Hm as [Hm _].
  - by destruct Hm as (_ & Hm & _).
Qed.

(** The same medium, nothing pending. *)
Definition idle_on (media : Z -> list Z) (p : P) : Prop := v_pending (view p) = [] /\ v_media (view p) = media.

Lemma primary_identify d media s p : 0 <= d < 2 -> disks_wf s -> Forall (fun k => length (model k) = 41%nat) (g_disks s) ->
  idle_on media p ->
  exists s' p' k, disk_identify d s p = Ok (s', p') /\ idle_on media p' /\ rd (g_disks s') d = Ok k /\ present k <> 0.
Proof.
  intros Hd Hw Hm [Hid Hmed]. unfold disk_identify. rewrite (proj2 (Z.ltb_ge _ _)) by lia.
  assert (Hb : drive_base d = 0x1F0) by (unfold drive_base; rewrite (proj2 (Z.ltb_lt _ _)) by lia; done).
  rewrite Hb. cbv zeta. unfold outb, inb. change (u16 (0x1F0 + ATA_REG_HDDEVSEL)) with 0x1F6.
  change (u16 (0x1F0 + ATA_REG_STATUS)) with 0x1F7. change (u16 (0x1F0 + ATA_REG_COMMAND)) with 0x1F7.
  pose proof (ad_dev (u8 (drive_select d)) p) as Hv0. destruct (in8 0x1F7 _) as [st p1] eqn:Hin.
  apply status_there in Hin as (Hu & Hne & Hv1). rewrite u8_id, (proj2 (Z.eqb_neq _ _)) by done.
  destruct (id_command p1) as (ws & Hl & Hus & Hv2); [by rewrite Hv1, Hv0|].
  change (u8 ATA_CMD_IDENTIFY) with 0xEC. set (p2 := out8 0x1F7 0xEC p1) in *. unfold wait_drq.
  destruct (wait_drq_ok STATUS_TIMEOUT p2) as (p3 & -> & Hv3).
  { pose proof (ad_bound p2). unfold STATUS_TIMEOUT. lia. }
  { rewrite Hv2. cbn [v_pending]. by destruct ws. }
  change (1 =? 0) with false. cbv iota. rewrite <- Hl.
  destruct (identify_words ws [] p3 Hus) as (p4 & -> & Hv4); [by rewrite Hv3, Hv2, app_nil_r|].
  assert (Hz : 0 <= d < zlen (g_disks s)) by (unfold zlen; rewrite Hw; lia).
  destruct (rd_total (g_disks s) d Hz) as [k Hk]. rewrite Hk, bind_ret.
  apply rd_Ok, zget_Some in Hk as [_ Hk].
  destruct (process_identify_spec ws k Hl) as (k' & -> & Hpk & _); [by eapply Forall_lookup_1 in Hm|].
  rewrite bind_ret, wr_in, bind_ret, Hpk by done. change (1 =? 0) with false. cbv iota.
  eexists _, p4, k'. split; [reflexivity|]. split.
  { unfold idle_on. rewrite Hv4, Hv3, Hv2. cbn [v_pending v_media]. by rewrite Hv1, Hv0. }
  cbn [g_disks]. split; [|lia]. apply rd_Ok. by apply zget_insert_eq.
Qed.

(** After the probing drive 0 is ready, its medium as before. *)
Lemma probing_readies s p : disks_wf s -> Forall (fun k => length (model k) = 41%nat) (g_disks s) ->
  v_pending (view p) = [] -> (forall a, length (v_media (view p) a) = 256%nat /\ Forall is_u16 (v_media (view p) a)) ->
  exists s' p', disk_init s p = Ok (s', p') /\ drive_ready s' p' /\ v_media (view p') = v_media (view p).
Proof.
  intros Hw Hm Hid Hmed. destruct (init_spec s p Hw Hm) as (s' & p' & E & Hp). exists s', p'. split; [exact E|].
  unfold disk_init in E. cbv zeta in E.
  match type of E with (disk_identify 0 ?s0 p ≫= _) = _ => set (t0 := s0) in E end.
  pose proof (probed_start s Hw Hm : probed 0 t0) as Hpb0. clearbody t0.
  assert (Hidle : idle_on (v_media (view p)) p) by done.
  destruct (primary_identify 0 _ t0 p ltac:(lia) (pb_len _ _ Hpb0) (pb_model _ _ Hpb0) Hidle) as (s1 & p1 & k & E1 & Hi1 & Hk & Hpk).
  destruct (identify_spec 0 t0 p Hpb0) as (s1' & p1' & E1' & Hpb1); [lia|]. rewrite E1 in E1'. injection E1' as <- <-.
  rewrite E1, bind_ret in E. cbv beta iota in E.
  destruct (primary_identify 1 _ s1 p1 ltac:(lia) (pb_len _ _ Hpb1) (pb_model _ _ Hpb1) Hi1) as (s2 & p2 & _ & E2 & [Hi2 Hm2] & _).
  pose proof (identify_others 1 0 _ _ _ _ ltac:(lia) ltac:(lia) E2) as Hk2.
  rewrite E2, bind_ret in E. cbv beta iota in E. apply res_bind_Ok in E as ([s3 p3] & E3 & E4).
  pose proof (identify_others 2 0 _ _ _ _ ltac:(lia) ltac:(lia) E3) as Hk3.
  pose proof (identify_others 3 0 _ _ _ _ ltac:(lia) ltac:(lia) E4) as Hk4.
  assert (Hv : forall d s1 q1 s2 q2, 2 <= d <= 3 -> disk_identify d s1 q1 = Ok (s2, q2) -> view q2 = view q1).
  { intros d u1 q1 u2 q2 Hd. apply (secondary_identify (fun q => view q = view q1)); [| | |done|done].
    - intros port q Hport <-. by apply id_in8.
    - intros port v q Hport <-. by apply id_out8.
    - intros q <-. apply id_in16. }
  assert (Hview : view p' = view p2) by (rewrite (Hv 3 _ _ _ _ ltac:(lia) E4); exact (Hv 2 _ _ _ _ ltac:(lia) E3)).
  split; [|by rewrite Hview]. constructor.
  - exact (pb_len _ _ Hp).
  - exists k. by rewrite Hk4, Hk3, Hk2.
  - by rewrite Hview.
  - by rewrite Hview, Hm2.
Qed.
End Found.

(** ** Properties *)

(** C11.  On a machine with a single drive the file system never mounts.  The probing ends with the
    slave of the channel selected, and the driver waits for a ready status before it writes the
    device register: with no slave there the status reads 0, the wait runs out, and the device register
    is not reached.  So start-up ends without a file system, every open fails, and
    every transfer from or to the two drives of the channel, any number of them, returns -1. *)
Theorem lone_disk_never_mounts {A P} `{LoneMaster A} `{Bus P} stacks h (k : kernel A P) :
  loaded stacks h k ->
  exists k', kmain_init stacks h MULTIBOOT_MAGIC k = Ok (true, k') /\
    FileSys.g_fs_initialized (y_fs (k_sys k')) = 0 /\
    (forall name, FileSys.fs_open name (y_fs (k_sys k')) = Ok (-1, y_fs (k_sys k'))) /\
    (forall ts, Forall (fun t => 0 <= t_drive t < 2) ts -> exists p',
       transfers_run ts (y_disk (k_sys k')).1 (y_disk (k_sys k')).2 = Ok (replicate (length ts) (-1), p')).
Proof.
  intros Hk. destruct (init_spec _ (y_disk (k_sys k)).2 (lo_disks _ _ _ Hk) (lo_models _ _ _ Hk)) as (ds & a & Ed & Hds).
  pose proof (init_selects_slave _ _ _ _ Ed) as Ha.
  destruct (silent_mount (memory_init (heap_of (k_sys k))) (y_fs (k_sys k)) ds a (pb_len _ _ Hds)
    (FileSys.sb_init _ (lo_fs _ _ _ Hk)) Ha) as (h' & f' & a' & Ef & Hf' & Ha').
  destruct (boots_through stacks h k ds a (-1) h' f' (ds, a') Hk Ed Ef) as (k' & E & _ & <- & Hd).
  exists k'. split; [exact E|]. split; [exact Hf'|]. split.
  - intros name. unfold FileSys.fs_open. by rewrite Hf'.
  - intros ts Hts. rewrite Hd. cbn [fst snd].
    destruct (silent_transfers ts ds (pb_len _ _ Hds) Hts a' Ha') as (p' & Er & _). by exists p'.
Qed.

(** C10.  The whole way from the loader to the files, on a machine with two ATA drives on the first channel, the
    master with [spt] sectors to a track.  The driver leaves the LBA bit clear, so that its sector [n] is the
    master's sector [n - 1] and only the first track can be had; the hypothesis is that the volume
    [vol] lies there, one sector early, in clusters below sector [spt + 1] of the driver's count.
    Then [kmain] probes, mounts and comes to the prompt, and the [cat] lines typed there, any number of them,
    put on the screen exactly the contents of the files they name, each behind the prompt and the line as typed. *)
Theorem start_to_files {A P} `{IdentifyDrive A} `{Bus P} stacks h img vol names turns fuel kk f (k : kernel A P) :
  loaded stacks h k ->
  let a := (y_disk (k_sys k)).2 in
  v_pending (view a) = [] ->
  (forall n, length (v_media (view a) n) = 256%nat /\ Forall is_u16 (v_media (view a) n)) ->
  (forall n, img n = word_bytes (v_media (view a) (n - 1))) -> on_disk (spt (P := A) + 1) img vol ->
  frame_ok f -> (forall t, length (l_buffer (kk t)) = 256%nat) -> Forall typeable names ->
  f_keys f = concat (typed <$> names) -> (length names < turns)%nat -> 2 ^ 32 < Z.of_nat fuel ->
  exists k1 k', kmain_init stacks h MULTIBOOT_MAGIC k = Ok (true, k1) /\
    kmain stacks h turns fuel kk f MULTIBOOT_MAGIC k = Ok (AtPrompt, k') /\
    Vga.term_of (y_vga (k_sys k')) =
      Vga.Term.write (session_text vol Store.init names)
        (Vga.term_of (Vga.vga_set_color Ui.VGA_COLOR_LIGHT_GREY Ui.VGA_COLOR_BLACK (y_vga (k_sys k1)))) /\
    backed img vol Store.init (k_sys k').
Proof.
  intros Hk a Hid Hmed Himg Hvol Hf Hbuf Hn Hkeys Ht Hfuel.
  destruct (probing_readies _ a (lo_disks _ _ _ Hk) (lo_models _ _ _ Hk) Hid Hmed) as (ds & a' & Ed & Hr & Hm').
  assert (Hmd : medium (ds, a') img) by (split; [exact Hr|cbn [snd]; by rewrite Hm']).
  change (spt (P := A) + 1) with (span (disks * A)) in Hvol.
  assert (Hroom : heap_ptr (memory_init (heap_of (k_sys k))) + FileSys.FAT_BYTES + FileSys.FS_ROOT_ENTRIES * 32 < HEAP_END)
    by reflexivity.
  destruct (mount_rel img vol _ (y_fs (k_sys k)) (ds, a') (lo_fs _ _ _ Hk) (memory_init_wf _) Hroom Hmd Hvol)
    as (h' & f' & d' & Ef & HR & Hmd').
  destruct (boots_through stacks h k ds a' 0 h' f' d' Hk Ed Ef) as (k1 & E & (Hup & _) & <- & <-).
  set (s0 := set_console (Vga.vga_set_color Ui.VGA_COLOR_LIGHT_GREY Ui.VGA_COLOR_BLACK (y_vga (k_sys k1))) (y_ports (k_sys k1)) (k_sys k1)).
  assert (Hw0 : Vga.vga_wf (y_vga s0)) by (destruct (up_screen _ _ _ Hup); by constructor).
  destruct (session_loop img vol fuel kk Store.init Hbuf Hfuel names turns f s0 Hn Hkeys Ht Hw0 Hf (conj HR Hmd'))
    as (s' & El & Hb & _ & Htext).
  exists k1, (Kernel s' (k_idt k1)). split; [exact E|]. split; [|by split].
  unfold kmain. eapply M_run; [exact E|]. cbv iota. eapply (M_run _ _ _ false (Kernel s' (k_idt k1))); [|reflexivity].
  assert (Em : shell_main turns fuel kk f (k_sys k1) = Ok (false, s')).
  { unfold shell_main. eapply M_run; [reflexivity|exact El]. }
  unfold in_sys, zoom. by rewrite Em.
Qed.

(** ** Two machines, for the examples *)

(** What the selected drive says of itself: the two have different names. *)
Definition id_data (t : task) : list Z := replicate 256 (if Z.testbit (tf_dev t) 4 then 0x5320 else 0x4D20).

(** The drives of [Disk], with the IDENTIFY command. *)
Definition pair_out8 (port v : Z) (p : sim) : sim :=
  if (port =? 0x1F7) && (v =? 0xEC) then Sim (s_task p) (id_data (s_task p)) (s_media p) true
  else sim_out8 std_sector port v p.

#[local] Instance pair_bus : Bus sim := {
  in8 := @in8 sim (sim_bus std_sector); out8 := pair_out8;
  in16 := @in16 sim (sim_bus std_sector); out16 := @out16 sim (sim_bus std_sector)
}.

#[local] Instance pair_pio : PioDrive sim.
Proof.
  refine (@Build_PioDrive sim pair_bus (@view sim (sim_bus std_sector) (sim_pio std_sector))
    (@busy sim (sim_bus std_sector) (sim_pio std_sector)) (fun _ => True) std_sector
    (@ad_bound sim (sim_bus std_sector) (sim_pio std_sector)) (@ad_poll sim (sim_bus std_sector) (sim_pio std_sector))
    _ _ _ _ _ _ (@ad_data sim (sim_bus std_sector) (sim_pio std_sector))); done.
Defined.

#[local] Instance pair_standard : StandardDrive sim.
Proof.
  refine (@Build_StandardDrive sim pair_bus pair_pio 16 63 _ _); [lia|].
  intros t _ Hm _ _ _ _ _ _. split; [exact I|]. cbn. unfold std_sector. by rewrite Hm.
Defined.

Lemma secondary_no_port port : 0x170 <= port <= 0x177 ->
  (port =? 0x1F2) = false /\ (port =? 0x1F3) = false /\ (port =? 0x1F4) = false /\ (port =? 0x1F5) = false /\
  (port =? 0x1F6) = false /\ (port =? 0x1F7) = false.
Proof. intros Hp. repeat split; apply Z.eqb_neq; lia. Qed.

Lemma pair_secondary port v p : 0x170 <= port <= 0x177 -> pair_out8 port v p = p /\ in8 port p = (0xFF, p).
Proof.
  intros (E2 & E3 & E4 & E5 & E6 & E7)%secondary_no_port. unfold pair_out8, sim_out8, in8; cbn.
  by rewrite E2, E3, E4, E5, E6, E7.
Qed.

Lemma pair_no_data p : in16 0x170 p = (0xFFFF, p).
Proof. cbn. by destruct (s_pending p). Qed.

#[local] Instance pair_identify : IdentifyDrive sim.
Proof.
  constructor.
  - intros p _. exists (id_data (s_task p)). split; [reflexivity|]. split; [|reflexivity].
    apply Forall_replicate. destruct (Z.testbit (tf_dev (s_task p)) 4); vm_compute; split; congruence.
  - intros port p Hp. by destruct (pair_secondary port 0 p Hp) as [_ ->].
  - intros port v p Hp. cbn [out8 pair_bus]. by destruct (pair_secondary port v p Hp) as [-> _].
  - intros p. by rewrite pair_no_data.
Defined.

(** The same without a slave. *)
Definition no_slave (p : sim) : bool := Z.testbit (tf_dev (s_task p)) 4.

Definition lone_bus : Bus sim := {|
  in8 port p := if (port =? 0x1F7) && no_slave p then (0, p) else @in8 sim pair_bus port p;
  out8 port v p := if (port =? 0x1F7) && no_slave p then p else pair_out8 port v p;
  in16 port p := if no_slave p then (0xFFFF, p) else @in16 sim pair_bus port p;
  out16 port v p := p
|}.

Lemma lone_master : @LoneMaster sim lone_bus.
Proof.
  refine (@Build_LoneMaster sim lone_bus (fun p => no_slave p = true) _ _ _ _ _ _); cbn -[pair_out8 Z.testbit].
  - intros v p Hv. exact Hv.
  - intros p Hp. exists p. by rewrite Hp.
  - intros v p Hp. by rewrite Hp.
  - intros port p Hr Hp. destruct (secondary_no_port port Hr) as (_ & _ & _ & _ & _ & E7). by rewrite E7.
  - intros port v p Hr Hp. destruct (secondary_no_port port Hr) as (_ & _ & _ & _ & _ & E7). rewrite E7. cbn [andb].
    by destruct (pair_secondary port v p Hr) as [-> _].
  - intros p Hp. by rewrite Hp.
Qed.

(** The floppy image of [FileSys] as words. *)
Fixpoint words_of (l : list Z) : list Z :=
  match l with a :: b :: l => (a + 256 * b) :: words_of l | _ => [] end.

Lemma words_of_spec n : forall l, length l = (2 * n)%nat -> Forall is_u8 l ->
  word_bytes (words_of l) = l /\ length (words_of l) = n /\ Forall is_u16 (words_of l).
Proof.
  induction n as [|n IH]; intros l Hl Hu; [by destruct l|].
  destruct l as [|a [|b l]]; try (cbn in Hl; lia). apply Forall_cons in Hu as [Ha [Hb Hu]%Forall_cons].
  destruct (IH l ltac:(cbn in Hl; lia) Hu) as (Hw & Hlen & Hr). cbn [words_of]. unfold is_u8 in *. split; [|split].
  - rewrite word_bytes_cons, Hw. cbn [app]. f_equal; [|f_equal].
    + rewrite Z.mul_comm, Z.mod_add by done. apply Z.mod_small. lia.
    + rewrite Z.mul_comm, Z.div_add, (Z.div_small a), Z.add_0_l by lia. apply Z.mod_small. lia.
  - cbn [length]. by rewrite Hlen.
  - apply Forall_cons. split; [unfold is_u16; lia|done].
Qed.

(** The image, one sector early. *)
Definition ex_drive : sim := Sim (Task 0 0 0 0 0) [] (fun a => words_of (FileSys.ex_img (a + 1))) false.

Lemma ex_drive_media n : word_bytes (s_media ex_drive n) = FileSys.ex_img (n + 1) /\
  length (s_media ex_drive n) = 256%nat /\ Forall is_u16 (s_media ex_drive n).
Proof.
  assert (Hm : medium FileSys.ex_disk FileSys.ex_img) by (intros lba; reflexivity).
  destruct (medium_sector FileSys.ex_disk FileSys.ex_img (n + 1) Hm) as [Hl Hu]. by apply words_of_spec.
Qed.

(** The machine of [Kernel] with that drive. *)
Definition ex_machine : kernel sim unit :=
  Kernel (Sys Vga.ex_vga tt (ex_disks, ex_drive) ex_disks FileSys.ex_boot Process.boot_state Ipc.ipc_boot
            (Socket.boot_sockets (Net.Net [Net.ex_iface] 0 [] 0 FileSys.ex_heap [])) (Http.HttpServer 0 0 [] 0)
            (Dns.DnsServer 0 0) Dhcp.ex_srv Ui.ex_ui 7)
         (replicate 256 (Devices.Gate 1 2 3 4 5)).

Lemma ex_machine_loaded : loaded 0x8000 Devices.ex_stubs ex_machine.
Proof. destruct ex_loaded. by constructor. Qed.

(** The lone master answers to its own probe, and then never again. *)
Lemma lone_disk_never_mounts_witness :
  (match @disk_init sim lone_bus ex_disks ex_drive with Ok (s, _) => present <$> g_disks s | Err _ => [] end) = [1; 0; 0; 0] /\
  exists k' p', @kmain_init sim unit lone_bus Vga.ex_bus 0x8000 Devices.ex_stubs MULTIBOOT_MAGIC ex_machine = Ok (true, k') /\
    FileSys.g_fs_initialized (y_fs (k_sys k')) = 0 /\
    @transfers_run sim lone_bus [Transfer false 0 19 1 []; Transfer true 0 19 1 []; Transfer false 1 0 1 []]
      (y_disk (k_sys k')).1 (y_disk (k_sys k')).2 = Ok ([-1; -1; -1], p').
Proof.
  split; [vm_compute; reflexivity|].
  destruct (@lone_disk_never_mounts sim unit lone_bus lone_master Vga.ex_bus 0x8000 Devices.ex_stubs ex_machine ex_machine_loaded)
    as (k' & E & Hi & _ & Ht).
  destruct (Ht [Transfer false 0 19 1 []; Transfer true 0 19 1 []; Transfer false 1 0 1 []]) as (p' & Er).
  { repeat (apply Forall_cons; split; [cbn; lia|]). constructor. }
  exists k', p'. split; [exact E|]. split; [exact Hi|exact Er].
Defined.

(** Three [cat] lines on the same drive, of 63 sectors to a track, with a slave beside it. *)
Lemma start_to_files_witness :
  exists k1 k', @kmain_init sim unit pair_bus Vga.ex_bus 0x8000 Devices.ex_stubs MULTIBOOT_MAGIC ex_machine = Ok (true, k1) /\
    @kmain sim unit pair_bus Vga.ex_bus 0x8000 Devices.ex_stubs 4 (Z.to_nat (2 ^ 32 + 1)) (fun _ => ex_locals) ex_lines
      MULTIBOOT_MAGIC ex_machine = Ok (AtPrompt, k') /\
    Vga.term_of (y_vga (k_sys k')) =
      Vga.Term.write (session_text ex_volume Store.init ex_names)
        (Vga.term_of (Vga.vga_set_color Ui.VGA_COLOR_LIGHT_GREY Ui.VGA_COLOR_BLACK (y_vga (k_sys k1)))).
Proof.
  destruct (@start_to_files sim unit pair_bus pair_pio pair_standard pair_identify Vga.ex_bus 0x8000 Devices.ex_stubs
    FileSys.ex_img ex_volume ex_names 4 (Z.to_nat (2 ^ 32 + 1)) (fun _ => ex_locals) ex_lines ex_machine ex_machine_loaded)
    as (k1 & k' & E1 & E2 & Ht & _).
  - reflexivity.
  - intros n. apply (ex_drive_media n).
  - intros n. rewrite <- (Z.sub_add 1 n) at 1. symmetry. apply (ex_drive_media (n - 1)).
  - apply ex_on_disk. vm_compute. congruence.
  - by constructor.
  - reflexivity.
  - exact ex_names_typeable.
  - reflexivity.
  - apply Nat.ltb_lt. reflexivity.
  - exact Prompt.much_fuel.
  - exists k1, k'. exact (conj E1 (conj E2 Ht)).
Defined.
